(* ===== verification/_CoqProject ===== *)
-Q . S2P
Prelude.v
Effects.v
Stores.v
GoMemory.v
GoText.v
Strconv.v
Url.v
Floats.v
ApiTypes.v
Json.v
ApiMemory.v
DeepCopy.v
World.v
DockerStore.v
KubeLib.v
Adopt.v
DockerHostClient.v
ContainerController.v
JobController.v
DeploymentController.v
HostController.v
ServiceController.v
TunnelServer.v
TunnelClient.v
Gateway.v
TunnelConnect.v
ContainerTheorems.v
ContainerCreate.v
ContainerDrift.v
ContainerStore.v
JobStore.v
JobTheorems.v
DeploymentTheorems.v
DeploymentStore.v
DeploymentConverges.v
HostTheorems.v
SchemaTheorems.v
AdoptionStore.v
DeepCopyTheorems.v
ServiceTheorems.v
ServiceStatus.v
ClientStore.v
TunnelTheorems.v
Cli.v
TunnelEndToEnd.v
Manager.v
Samples.v
HostSimulation.v
DeploymentTies.v
ContainerWitnesses.v
TunnelWitnesses.v
StoreWitnesses.v
CopyWitnesses.v
Witnesses.v
