(* ===== verification/Prelude.v ===== *)
(** * kdop-operator: a verification library

    kdop-operator is a Kubernetes operator, written in Go, that runs containers on
    plain Docker hosts.  Five reconcilers ([internal/controller]) read custom
    resources ([api/v1alpha1]) and act on Docker daemons through clients opened
    by [internal/docker]; a reverse tunnel ([internal/tunnel]), started from the
    same binary ([cmd/main.go]), carries connections from a service inside the
    cluster to the containers.  This library models that code and proves what the
    reconcilers and the tunnel guarantee.

    ** How the code is modelled

    A reconciler is a sequence of calls to code outside the repository, whose
    answers it cannot choose.  [Effects] gives it the form of a program: a tree of
    calls, one branch for each answer, with Go's error returns, panics and
    [defer].  [World] lists the calls: the controller-runtime client, the Docker
    client, the clock, the random source, the environment, the goroutines started,
    and the two choices Go leaves open, the order of a map iteration and of an
    unstable sort.  Logging is left out.  A theorem about a program speaks of all
    its runs: every trace of calls and answers of every environment that respects
    the types and what Go itself guarantees ([answer_ok]).  Where more is assumed
    of the API server it is a hypothesis on the trace ([honest]).  Programs are
    finite trees, so every run of a reconciler ends; the loops of the code run
    over slices that are already there, and need no fuel.

    Code outside the repository that the reconcilers call as pure functions is a
    class: [KubeLib.ControllerUtil] (finalizers, owner references, selectors,
    with [ControllerUtilLaws] for their documented laws and an implementation
    that has them), [Adopt.NatLib] (port syntax), [Adopt.Sha256],
    [DockerHostClient.X509], [ContainerController.TarLib],
    [GoText.UnicodeData] (case mapping and white space beyond ASCII),
    [DeepCopy.MetaV1] (the deep copies of metav1, with [MetaV1Laws]) and
    [Url.IPLiterals] (the hosts in brackets of a URL).  The flags that zap and
    controller-runtime add to the operator's command line are parameters of
    [Manager.main].  [Samples] has instances, to evaluate the model.

    ** Files

    - Prelude: errors, results, machine integers, generic list lemmas.
    - Effects: programs, runs, execution, and the proof rules ([always], [ensures],
      [wp], [wph]) with the tactics that apply them.  Stores: a store outside the
      program as an interface, the class [Store], whose instance says what a call
      does to it, and the triples of a program that it serves.  GoMemory: a heap of
      typed objects with pointers, slices and maps, and what it is to copy.
    - GoText, Strconv, Floats: what the code uses of Go's [strings], [strconv],
      [fmt], [encoding/hex], [encoding/base64], [path], [time] and of IEEE doubles,
      on byte strings.  Url: [net/url], parsing, printing and queries, with the
      round trips between them.
    - ApiTypes, Json: the custom resources ([api/v1alpha1/*_types.go]) with their
      validation markers, and their JSON, which the observed spec hash is taken of.
      ApiMemory: the same structs as they lie in memory, and the records they stand
      for.  DeepCopy: [zz_generated.deepcopy.go] on that memory.
    - World, KubeLib: the calls, the views of a trace, the library interfaces.
      DockerStore: the containers of a Docker host as a [Store], with what the
      daemon documents of every call; a call that fails may have had its effect, and
      the start of a container that is alive, or the stop of one that is not, has
      none.
    - Adopt: [dockercontainer_adopt.go].  DockerHostClient: [docker/client.go].
    - ContainerController, JobController, DeploymentController, HostController,
      ServiceController: the five reconcilers, one definition per function under
      its Go name; parts of a long function have names of their own.
    - TunnelServer: [tunnel/server.go], its state behind the mutex, its handlers
      and its start as programs, and the server as a transition system whose steps
      interleave the handlers.  TunnelClient: [handleStream] of [tunnel/client.go]
      and the byte stream of [tunnel/conn.go].  TunnelConnect: the rest of both,
      how the client dials and serves, pings and deadlines.
    - Gateway: [tunnel/gateway.go].
    - Cli: [runTunnelCLI] of [cmd/main.go] with the parsing of its flags.  Manager:
      [main], and the [SetupWithManager] methods of the reconcilers.
    - ContainerTheorems, ContainerCreate, ContainerDrift, JobTheorems,
      DeploymentTheorems, HostTheorems, ServiceTheorems, ServiceStatus,
      DeepCopyTheorems, TunnelTheorems: the properties of one component.
      SchemaTheorems: what the reconcilers write has the right type.
      DeploymentStore, DeploymentConverges: a store of objects over which a
      deployment is reconciled again and again, with an API server that may fail
      and one that does not; HostTheorems has such a store of adopted objects, whose
      status is a subresource.  ContainerStore, JobStore, ClientStore: the
      reconcilers that act on a Docker host, and the step that runs the tunnel
      client, against its containers; AdoptionStore: two reconcilers on one
      host.  TunnelEndToEnd: the parts of the tunnel together, from the
      reconciler to the server.
    - Samples, DeploymentTies, ContainerWitnesses, TunnelWitnesses, StoreWitnesses,
      CopyWitnesses, Witnesses: concrete inputs at which the properties apply.
      HostSimulation: a Docker host that can be run, every step of which is one of
      [DockerStore].

    ** What is shown

    - DockerContainer: an observed container is never touched (C1), no container
      is created beside one of its name (C2).  On a Docker host one reconciliation
      makes what the spec wants, though it leaves a restarting container restarting,
      and the next changes nothing (C3), containers of
      other names are left as they are (C4), and one that was adopted goes on
      running when it is enforced (C5), if its CPU limit survives its text, which
      not every one does (C40); but secrets that could not be copied at
      creation are never copied (C35).  Drift is exactly disagreement with the
      spec (C16), the finalizer is taken before the host is used (C17) and is
      always released (C6); the creation request (C15).
      Every object written, by any reconciler, keeps to the schema (C25).  Beside
      these: what was created or adopted does not drift, the status of an observed
      container, ports, memory limits and a panic.
    - DockerJob: the reconciler refines a state machine (C7), along whose histories
      attempts are bounded (C8); a job whose container could not be started hangs
      (C39).  Beside these: deletion waits for the container, time to live, the
      overflow of the deadline and the retry that ignores the budget.
    - DockerDeployment: on a store one reconciliation reaches the number of
      children wanted, at which it stays (C9); over any number of them, with failures and other controllers in between, the oldest children survive
      (C10), but of those created in the same second all can be lost (C38).
      Beside these: what one reconciliation asks for, the children's specs and
      negative counts.
    - DockerHost: TLS is never dropped (C18), adoption finds what it made, which
      is marked as adopted by a later pass only (C37); it is idempotent, and the
      daemon is only read.
    - DockerService: the status says what was done (C14), the watch misses no
      service (C29), the tunnel client runs and is then left alone (C30), its
      command line fits the server's objects (C33), deletion completes (C32).
      Beside these: the server's objects fit together, the token is kept, the one
      port that is listened on, and drift of the client.
    - Deep copies: a copy stands for the same value and shares no memory with the
      original (C31), so that a status patch is taken from the object as it was
      (C36), which is what the model of the reconciler says.  Elsewhere the
      reconcilers are modelled with values: an object that is changed in place is
      a new value.
    - Tunnel: the command lines the reconciler writes make the client reach the
      server through the gateway with a token it accepts (C11), and a reload
      brings it the targets (C23).  In every interleaving sessions are
      authenticated (C12) and live (C13); targets are taken in turn (C19), a push
      outlives the file (C20), the client dials what the server chose, up to
      the length and the newlines of a target (C21), over a byte stream that is
      reliable where [io.EOF] comes alone (C22).  The gateway forwards to what the request
      names (C24).  The client's handlers end (C26), its connections are closed
      (C27), and it keeps dialling (C28).
    - The process: the manager is started complete or not at all (C34).  Beside
      this: its servers are secure by default.

    ** Bounds and fuel

    [int], [int32], [int64] and [uint64] are integers with the wrap-around
    written out where the code can overflow.  [TunnelClient.read_header] has one
    unit of fuel more than the longest header, and every unit reads a byte.
    C26 shows that more would change nothing.  [TunnelClient.copy_out] ends when
    its fuel exceeds the bytes to come (C22); a message is what its reader, of
    another library, gives of it, with the freedom [io.Reader] leaves: how many
    bytes at a time, and whether its end comes with the last ones.  The endless loops of the tunnel
    ([acceptTCP], [watchTargetsFile], the pings, [Client.Start] and the loop that
    accepts streams) are given by their first turns, for any number of them, and
    the theorems hold for every number.  The conversions of [Floats] have as much
    fuel as a double has digits.

    ** What is not modelled, and what comes next

    The scheme registration only calls controller-runtime; [test/utils] is not
    part of the operator.  What goes on inside [httputil.ReverseProxy], the HTTP servers and yamux is a call or the
    arrival of a request.  The manager's client reads from a cache that may lag
    behind the API server: [DeploymentStore] lists the store as it is.  A
    [DockerStore] changes only by the calls of the run under study: no other
    client acts on the daemon meanwhile, no container exits by itself.  Between
    runs it may change in any way, since the theorems start from any store.
    Images, networks and the files in a container are not part of it.  Next: a
    lagging cache, and two reconcilers interleaved on one host. *)

From stdpp Require Export base gmap strings list fin_maps sorting.
From Stdlib Require Export ZArith Lia.

#[export] Set Default Proof Using "Type".
#[export] Set Warnings "-notation-overridden,-clear-no-such-hyp".

(** stdpp blocks [simpl] on these; the development computes with them. *)
#[global] Arguments String.append : simpl nomatch.

(** ** Results and outcomes

    A Go function that returns [(value, error)] returns a [result]; a piece of
    Go code that may also panic has an [outcome]. *)

(** What the code under study observes of an [error] value: its text and the
    answers of [errors.IsNotFound] (Kubernetes) and [client.IsErrNotFound]
    (Docker). *)
Record error := mkError {
  err_msg : string;
  err_k8s_notfound : bool;
  err_docker_notfound : bool;
}.

Inductive result (A : Type) : Type :=
| Ok (a : A)
| Err (e : error).
Arguments Ok {A} a.
Arguments Err {A} e.

Inductive outcome (A : Type) : Type :=
| Val (a : A)
| Fail (e : error)
| Panic.
Arguments Val {A} a.
Arguments Fail {A} e.
Arguments Panic {A}.

Definition to_outcome {A} (r : result A) : outcome A :=
  match r with Ok a => Val a | Err e => Fail e end.

Lemma to_outcome_no_panic {A} (r : result A) : Panic <> to_outcome r.
Proof. by destruct r. Qed.

Definition outcome_bind {A B} (o : outcome A) (f : A -> outcome B) : outcome B :=
  match o with Val a => f a | Fail e => Fail e | Panic => Panic end.

(** [errors.New] / [fmt.Errorf] without a wrapped error. *)
Definition new_error (msg : string) : error := mkError msg false false.

(** [fmt.Errorf("...: %w", err)]: the text is replaced, the wrapped error is
    still found by [errors.As]. *)
Definition wrap_error (msg : string) (e : error) : error :=
  mkError msg (err_k8s_notfound e) (err_docker_notfound e).

(** ** Machine integers

    A Go [int64] or [int32] is a [Z] in range; arithmetic wraps around. *)

Definition wrap (w : Z) (z : Z) : Z :=
  ((z + 2 ^ (w - 1)) mod 2 ^ w - 2 ^ (w - 1))%Z.
Definition int64 (z : Z) : Z := wrap 64 z.
Definition int32 (z : Z) : Z := wrap 32 z.
Definition uint64 (z : Z) : Z := (z mod 2 ^ 64)%Z.

Definition in_int64 (z : Z) : Prop := (- 2 ^ 63 <= z < 2 ^ 63)%Z.
Definition in_int32 (z : Z) : Prop := (- 2 ^ 31 <= z < 2 ^ 31)%Z.

Lemma wrap_id w z :
  (0 < w)%Z -> (- 2 ^ (w - 1) <= z < 2 ^ (w - 1))%Z -> wrap w z = z.
Proof.
  intros Hw Hz. unfold wrap.
  assert (2 ^ w = 2 * 2 ^ (w - 1))%Z as E.
  { replace w with (Z.succ (w - 1)) at 1 by lia. rewrite Z.pow_succ_r; lia. }
  rewrite Z.mod_small; lia.
Qed.

Lemma int64_id z : in_int64 z -> int64 z = z.
Proof. intros H. apply wrap_id; [lia | exact H]. Qed.

Lemma int32_id z : in_int32 z -> int32 z = z.
Proof. intros H. apply wrap_id; [lia | exact H]. Qed.

Lemma wrap_range w z :
  (0 < w)%Z -> (- 2 ^ (w - 1) <= wrap w z < 2 ^ (w - 1))%Z.
Proof.
  intros Hw. unfold wrap.
  assert (2 ^ w = 2 * 2 ^ (w - 1))%Z as E.
  { replace w with (Z.succ (w - 1)) at 1 by lia. rewrite Z.pow_succ_r; lia. }
  pose proof (Z.mod_pos_bound (z + 2 ^ (w - 1)) (2 ^ w)) as B.
  assert (0 < 2 ^ (w - 1))%Z by (apply Z.pow_pos_nonneg; lia). lia.
Qed.

Lemma int64_range z : in_int64 (int64 z).
Proof. apply (wrap_range 64 z). lia. Qed.

Lemma int32_range z : in_int32 (int32 z).
Proof. apply (wrap_range 32 z). lia. Qed.

(** ** Tactics *)

(** Case analysis on the discriminee of a [match] of the goal or a hypothesis,
    keeping the equation. *)
Ltac split_match :=
  match goal with
  | |- context [match ?x with _ => _ end] => destruct x eqn:?
  | H : context [match ?x with _ => _ end] |- _ => destruct x eqn:?
  end.

(** ** Lists *)

Fixpoint drop_while {A} (f : A -> bool) (l : list A) : list A :=
  match l with
  | [] => []
  | a :: l' => if f a then drop_while f l' else l
  end.

(** Dropping at both ends what satisfies [f]. *)
Definition trim_both {A} (f : A -> bool) (l : list A) : list A :=
  reverse (drop_while f (reverse (drop_while f l))).

Lemma drop_while_split {A} (f : A -> bool) l :
  exists pre, l = pre ++ drop_while f l /\ Forall (fun x => f x = true) pre.
Proof.
  induction l as [| a l (pre & E & Hp)]; simpl; [by exists [] |].
  destruct (f a) eqn:Ha; [| by exists []].
  exists (a :: pre). simpl. split; [by f_equal | by constructor].
Qed.

Lemma drop_while_head {A} (f : A -> bool) l x :
  head (drop_while f l) = Some x -> f x = false.
Proof.
  induction l as [| a l IH]; simpl; [done |].
  destruct (f a) eqn:Ha; [done |]. simpl. by intros [= <-].
Qed.

Lemma drop_while_id {A} (f : A -> bool) l :
  (forall x, head l = Some x -> f x = false) -> drop_while f l = l.
Proof. destruct l as [| a l]; simpl; [done |]. intros Hh. by rewrite Hh. Qed.

Lemma trim_both_split {A} (f : A -> bool) l :
  exists pre post, l = pre ++ trim_both f l ++ post /\
    Forall (fun x => f x = true) pre /\ Forall (fun x => f x = true) post.
Proof.
  destruct (drop_while_split f l) as (pre & E & Hpre).
  destruct (drop_while_split f (reverse (drop_while f l))) as (post & E' & Hpost).
  exists pre, (reverse post). split_and!; [| done | by apply Forall_reverse].
  rewrite E at 1. f_equal. unfold trim_both.
  rewrite <- reverse_app, <- E'. by rewrite reverse_involutive.
Qed.

Lemma trim_both_last {A} (f : A -> bool) l x :
  last (trim_both f l) = Some x -> f x = false.
Proof. unfold trim_both. rewrite last_reverse. apply drop_while_head. Qed.

Lemma trim_both_head {A} (f : A -> bool) l x :
  head (trim_both f l) = Some x -> f x = false.
Proof.
  intros Hx.
  destruct (drop_while_split f (reverse (drop_while f l))) as (post & E' & _).
  assert (drop_while f l = trim_both f l ++ reverse post) as E.
  { unfold trim_both. rewrite <- reverse_app, <- E'. by rewrite reverse_involutive. }
  apply (drop_while_head f l). rewrite E.
  destruct (trim_both f l); simpl in *; [done | exact Hx].
Qed.

Lemma trim_both_id {A} (f : A -> bool) l :
  (forall x, head l = Some x -> f x = false) ->
  (forall x, last l = Some x -> f x = false) -> trim_both f l = l.
Proof.
  intros Hh Hl. unfold trim_both. rewrite (drop_while_id f l Hh).
  rewrite drop_while_id, reverse_involutive; [done |].
  intros x Hx. apply Hl. by rewrite <- (reverse_involutive l), last_reverse.
Qed.

Lemma head_elem_of {A} (l : list A) x : head l = Some x -> x ∈ l.
Proof. destruct l; simpl; [done |]. intros [= ->]. by left. Qed.

Lemma last_elem_of {A} (l : list A) x : last l = Some x -> x ∈ l.
Proof. intros [k ->]%last_Some. apply elem_of_app. right. by left. Qed.

(** ** Strings *)

Lemma length_append (s t : string) :
  String.length (s +:+ t) = (String.length s + String.length t)%nat.
Proof. induction s as [| c s IH]; simpl; [done |]. by rewrite IH. Qed.
