(* ===== verification/Effects.v ===== *)
(** * Effects: programs as finite interaction trees over a signature of calls

    The operator's handlers are sequences of calls to code outside this
    repository (the API server, the Docker daemons, the clock, ...) whose
    answers the environment chooses.  A handler is a [prog E A]: a tree whose
    nodes are the calls and whose branches are the possible answers.  [runs]
    gives the traces of a program in any environment that respects the
    signature, [exec] evaluates it against a concrete environment, and [wp] is
    a trace logic (a monitor state is advanced by each call, a safety condition
    is checked at each call) sound and complete for [runs]. *)

From S2P Require Import Prelude.

(** A signature of calls: [E R] are the calls whose answer has type [R];
    [answer_ok] are the answers the language itself guarantees (a map is
    iterated in some order of its entries, a random number is in range). *)
Class Signature (E : Set -> Type) := answer_ok : forall R : Set, E R -> R -> Prop.
Arguments answer_ok {E _ R} _ _.

Inductive prog (E : Set -> Type) (A : Type) : Type :=
| Ret (a : A)
| Call (R : Set) (e : E R) (k : R -> prog E A).
Arguments Ret {E A} a.
Arguments Call {E A R} e k.

(** One observed interaction: a call and its answer. *)
Inductive obs (E : Set -> Type) : Type :=
| Obs (R : Set) (e : E R) (r : R).
Arguments Obs {E R} e r.

Fixpoint pbind {E A B} (p : prog E A) (f : A -> prog E B) : prog E B :=
  match p with
  | Ret a => f a
  | Call e k => Call e (fun r => pbind (k r) f)
  end.

(** ** The monad of Go code: calls, errors and panics *)

Definition M (E : Set -> Type) (A : Type) : Type := prog E (outcome A).

Section monad.
Context {E : Set -> Type}.

Definition ret {A} (a : A) : M E A := Ret (Val a).
Definition fail {A} (e : error) : M E A := Ret (Fail e).
Definition panic {A} : M E A := Ret Panic.
Definition lift {A} (o : outcome A) : M E A := Ret o.
Definition lift_result {A} (r : result A) : M E A := Ret (to_outcome r).

(** [x, err := p; if err != nil { return err }; f x]. *)
Definition bind {A B} (p : M E A) (f : A -> M E B) : M E B :=
  pbind p (fun o => match o with
                    | Val a => f a
                    | Fail e => Ret (Fail e)
                    | Panic => Ret Panic
                    end).

(** A call whose answer cannot be an error. *)
Definition call {R : Set} (e : E R) : M E R := Call e (fun r => Ret (Val r)).

(** A call whose error, if any, is returned by the caller at once. *)
Definition try_call {A : Set} (e : E (result A)) : M E A :=
  Call e (fun r => Ret (to_outcome r)).

(** [x, err := p], the error inspected by what follows. *)
Definition attempt {A} (p : M E A) : M E (result A) :=
  pbind p (fun o => match o with
                    | Val a => Ret (Val (Ok a))
                    | Fail e => Ret (Val (Err e))
                    | Panic => Ret Panic
                    end).

(** [defer d]: [d] runs when [p] returns, fails or panics. *)
Definition deferring {A} (d : M E unit) (p : M E A) : M E A :=
  pbind p (fun o => pbind d (fun _ => Ret o)).

(** A [for] loop over a slice, left at the first error. *)
Fixpoint for_each {A} (l : list A) (body : A -> M E unit) : M E unit :=
  match l with
  | [] => ret tt
  | a :: l' => bind (body a) (fun _ => for_each l' body)
  end.

(** A [for] loop that threads local variables. *)
Fixpoint for_fold {A S} (l : list A) (s : S) (body : S -> A -> M E S) : M E S :=
  match l with
  | [] => ret s
  | a :: l' => bind (body s a) (fun s' => for_fold l' s' body)
  end.
End monad.

Declare Scope go_scope.
Delimit Scope go_scope with go.

Notation "'let!' x ':=' p 'in' q" := (bind p (fun x => q))
  (at level 10, x pattern, p at level 100, q at level 200,
   format "'[v' 'let!'  x  ':='  p  'in' '/' q ']'") : go_scope.
Notation "p ;; q" := (bind p (fun _ => q))
  (at level 100, q at level 200, right associativity,
   format "'[v' p ;; '/' q ']'") : go_scope.
Open Scope go_scope.

(** ** Traces *)

Section runs.
Context {E : Set -> Type} `{Signature E}.

(** [runs p t a]: in some environment [p] performs the interactions [t] and
    ends with [a]. *)
Fixpoint runs {A} (p : prog E A) (t : list (obs E)) (a : A) : Prop :=
  match p with
  | Ret x => t = [] /\ a = x
  | Call e k => exists r t', t = Obs e r :: t' /\ answer_ok e r /\ runs (k r) t' a
  end.

Lemma runs_pbind {A B} (p : prog E A) (f : A -> prog E B) t b :
  runs (pbind p f) t b <->
  exists t1 a t2, t = t1 ++ t2 /\ runs p t1 a /\ runs (f a) t2 b.
Proof.
  revert t. induction p as [x | R e k IH]; intros t; simpl.
  - split.
    + intros Hr. exists [], x, t. auto.
    + intros (t1 & a & t2 & -> & (-> & ->) & Hr). exact Hr.
  - split.
    + intros (r & t' & -> & Hok & Hr).
      apply IH in Hr as (t1 & a & t2 & -> & H1 & H2).
      exists (Obs e r :: t1), a, t2. split_and!; auto. exists r, t1. auto.
    + intros (t1 & a & t2 & -> & (r & t' & -> & Hok & H1) & H2).
      exists r, (t' ++ t2). split_and!; auto. apply IH. eauto 6.
Qed.

(** Every program ends, whatever the environment answers: if every call has a
    legal answer, there is a run. *)
Lemma runs_total {A} (p : prog E A) :
  (forall R (e : E R), exists r, answer_ok e r) -> exists t a, runs p t a.
Proof.
  intros Hans. induction p as [x | R e k IH]; simpl.
  - eauto.
  - destruct (Hans _ e) as [r Hr]. destruct (IH r) as (t & a & Ht).
    exists (Obs e r :: t), a, r, t. auto.
Qed.
End runs.

(** ** Execution against a concrete environment *)

Section exec.
Context {E : Set -> Type} {S : Type} (h : forall R : Set, E R -> S -> R * S).

Fixpoint exec {A} (p : prog E A) (s : S) : A * S * list (obs E) :=
  match p with
  | Ret x => (x, s, [])
  | Call e k =>
      let '(r, s1) := h _ e s in
      let '(a, s2, t) := exec (k r) s1 in
      (a, s2, Obs e r :: t)
  end.

Lemma exec_pbind {A B} (p : prog E A) (f : A -> prog E B) s :
  exec (pbind p f) s =
    let '(a, s1, t1) := exec p s in
    let '(b, s2, t2) := exec (f a) s1 in (b, s2, t1 ++ t2).
Proof.
  revert s. induction p as [x | R e k IH]; intros s; simpl.
  - by destruct (exec (f x) s) as [[b s2] t2].
  - destruct (h R e s) as [r s1]. rewrite IH.
    destruct (exec (k r) s1) as [[a s2] t]. by destruct (exec (f a) s2) as [[b s3] t3].
Qed.

Lemma exec_call_bind {R : Set} {B} (e : E R) (f : R -> M E B) s :
  exec (bind (call e) f) s =
    let '(r, s1) := h R e s in
    let '(b, s2, t2) := exec (f r) s1 in (b, s2, Obs e r :: t2).
Proof. done. Qed.

Lemma exec_runs `{Signature E} {A} (p : prog E A) s :
  (forall R (e : E R) s', answer_ok e (h R e s').1) ->
  runs p (exec p s).2 (exec p s).1.1.
Proof.
  intros Hok. revert s. induction p as [x | R e k IH]; intros s; simpl; [auto |].
  pose proof (Hok _ e s) as Ha. destruct (h R e s) as [r s1]; simpl in *.
  specialize (IH r s1). destruct (exec (k r) s1) as [[a s2] t]; simpl in *.
  exists r, t. auto.
Qed.
End exec.

(** ** Calls that are always, or never, made

    [always P p]: whatever the environment answers, every interaction of [p]
    satisfies [P].  It composes along the program, which [always_tac] does. *)

Section always.
Context {E : Set -> Type} `{Signature E} (P : obs E -> Prop).

Fixpoint always {A} (p : prog E A) : Prop :=
  match p with
  | Ret _ => True
  | Call e k => forall r, answer_ok e r -> P (Obs e r) /\ always (k r)
  end.

Lemma always_pbind {A B} (p : prog E A) (f : A -> prog E B) :
  always p -> (forall a, always (f a)) -> always (pbind p f).
Proof.
  intros Hp Hf. induction p as [x | R e k IH]; simpl in *; [auto |].
  intros r Hr. destruct (Hp r Hr). auto.
Qed.

Lemma always_ret {A} (a : A) : always (ret a).
Proof. done. Qed.
Lemma always_fail {A} e : always (A := outcome A) (fail e).
Proof. done. Qed.
Lemma always_panic {A} : always (A := outcome A) panic.
Proof. done. Qed.
Lemma always_lift {A} (o : outcome A) : always (lift o).
Proof. done. Qed.
Lemma always_lift_result {A} (r : result A) : always (lift_result r).
Proof. done. Qed.

Lemma always_bind {A B} (p : M E A) (f : A -> M E B) :
  always p -> (forall a, always (f a)) -> always (bind p f).
Proof. intros Hp Hf. apply always_pbind; [done |]. by intros []. Qed.

Lemma always_call {R : Set} (e : E R) :
  (forall r, answer_ok e r -> P (Obs e r)) -> always (call e).
Proof. simpl. auto. Qed.

Lemma always_try_call {A : Set} (e : E (result A)) :
  (forall r, answer_ok e r -> P (Obs e r)) -> always (try_call e).
Proof. simpl. auto. Qed.

Lemma always_attempt {A} (p : M E A) : always p -> always (attempt p).
Proof. intros Hp. apply always_pbind; [done |]. by intros []. Qed.

Lemma always_deferring {A} d (p : M E A) :
  always d -> always p -> always (deferring d p).
Proof. intros Hd Hp. apply always_pbind; [done |]. intros o. by apply always_pbind. Qed.

Lemma always_for_each {A} (l : list A) body :
  (forall a, a ∈ l -> always (body a)) -> always (for_each l body).
Proof.
  induction l as [| a l IH]; simpl; intros Hb; [done |].
  apply always_bind; [set_solver |]. intros _. apply IH. set_solver.
Qed.

Lemma always_for_fold {A S} (l : list A) (s : S) body :
  (forall s a, a ∈ l -> always (body s a)) -> always (for_fold l s body).
Proof.
  revert s. induction l as [| a l IH]; simpl; intros s Hb; [done |].
  apply always_bind; [set_solver |]. intros s'. apply IH. set_solver.
Qed.

Lemma always_runs {A} (p : prog E A) t a : always p -> runs p t a -> Forall P t.
Proof.
  revert t. induction p as [x | R e k IH]; intros t; simpl.
  - intros _ [-> _]. constructor.
  - intros Hp (r & t' & -> & Hr & Ht). destruct (Hp r Hr). eauto.
Qed.
End always.

Lemma always_mono {E} `{Signature E} {A} (P Q : obs E -> Prop) (p : prog E A) :
  (forall o, P o -> Q o) -> always P p -> always Q p.
Proof.
  intros HPQ. induction p as [x | R e k IH]; simpl; [done |].
  intros Hp r Hr. destruct (Hp r Hr). auto.
Qed.

Create HintDb always discriminated.
#[export] Hint Resolve always_ret always_fail always_panic always_lift
  always_lift_result always_bind always_attempt always_deferring
  always_for_each always_for_fold : always.

(** [always_tac] takes an [always] goal apart along the program; what is left
    are the calls it cannot close by computation and the sub-programs for which
    the hint database has no lemma. *)
Ltac always_step :=
  match goal with
  | |- always _ (bind _ _) => apply always_bind; [| intros ?]
  | |- always _ (attempt _) => apply always_attempt
  | |- always _ (deferring _ _) => apply always_deferring
  | |- always _ (call _) => apply always_call; intros ? _
  | |- always _ (try_call _) => apply always_try_call; intros ? _
  | |- always _ (for_each _ _) => apply always_for_each; intros ? ?
  | |- always _ (for_fold _ _ _) => apply always_for_fold; intros ? ? ?
  | |- always _ (ret _) => exact I
  | |- always _ (fail _) => exact I
  | |- always _ panic => exact I
  | |- always _ (lift _) => exact I
  | |- always _ (lift_result _) => exact I
  | |- always _ (match ?x with _ => _ end) => destruct x eqn:?
  end.
Ltac always_tac := repeat always_step; try reflexivity; auto with always.

(** ** Calls and outcome together

    [ensures P p Q]: every interaction of [p] satisfies [P] and its outcome
    satisfies [Q]. *)

Section ensures.
Context {E : Set -> Type} `{Signature E} (P : obs E -> Prop).

Fixpoint ensures {A} (p : prog E A) (Q : A -> Prop) : Prop :=
  match p with
  | Ret a => Q a
  | Call e k => forall r, answer_ok e r -> P (Obs e r) /\ ensures (k r) Q
  end.

Lemma ensures_mono {A} (p : prog E A) (Q Q' : A -> Prop) :
  (forall a, Q a -> Q' a) -> ensures p Q -> ensures p Q'.
Proof.
  intros HQ. induction p as [x | R e k IH]; simpl; [auto |].
  intros Hp r Hr. destruct (Hp r Hr). auto.
Qed.

Lemma ensures_pbind {A B} (p : prog E A) (f : A -> prog E B) Q :
  ensures p (fun a => ensures (f a) Q) -> ensures (pbind p f) Q.
Proof.
  induction p as [x | R e k IH]; simpl; [auto |].
  intros Hp r Hr. destruct (Hp r Hr). auto.
Qed.

(** The outcome of [p] when [Q] is wanted of [bind p f]. *)
Definition then_ensures {A B} (f : A -> M E B) (Q : outcome B -> Prop) (o : outcome A) : Prop :=
  match o with
  | Val a => ensures (f a) Q
  | Fail e => Q (Fail e)
  | Panic => Q Panic
  end.

Lemma ensures_bind {A B} (p : M E A) (f : A -> M E B) Q :
  ensures p (then_ensures f Q) -> ensures (bind p f) Q.
Proof.
  intros Hp. apply ensures_pbind. eapply ensures_mono; [| exact Hp]. by intros [].
Qed.

Lemma ensures_deferring {A} d (p : M E A) Q :
  ensures d (fun _ => True) -> ensures p Q -> ensures (deferring d p) Q.
Proof.
  intros Hd Hp. apply ensures_pbind. eapply ensures_mono; [| exact Hp]. intros o Ho.
  apply ensures_pbind. by eapply ensures_mono; [| exact Hd].
Qed.

Lemma always_ensures {A} (p : prog E A) : always P p -> ensures p (fun _ => True).
Proof.
  induction p as [x | R e k IH]; simpl; [done |].
  intros Hp r Hr. destruct (Hp r Hr). auto.
Qed.

Lemma ensures_sound {A} (p : prog E A) Q t a :
  ensures p Q -> runs p t a -> Forall P t /\ Q a.
Proof.
  revert t. induction p as [x | R e k IH]; intros t; simpl.
  - intros ? [-> ->]. auto.
  - intros Hp (r & t' & -> & Hr & Ht). destruct (Hp r Hr) as [? Hk].
    destruct (IH r t' Hk Ht). auto.
Qed.
End ensures.

(** ** The trace logic *)

Section wp.
Context {E : Set -> Type} `{Signature E} {G : Type}.
(** The monitor: how a call advances it, and which calls it allows. *)
Variable (step : G -> obs E -> G) (safe : G -> obs E -> Prop).

Fixpoint wp {A} (p : prog E A) (Q : A -> G -> Prop) (g : G) : Prop :=
  match p with
  | Ret x => Q x g
  | Call e k => forall r, answer_ok e r ->
      safe g (Obs e r) /\ wp (k r) Q (step g (Obs e r))
  end.

Lemma wp_pbind {A B} (p : prog E A) (f : A -> prog E B) Q g :
  wp (pbind p f) Q g <-> wp p (fun a => wp (f a) Q) g.
Proof.
  revert g. induction p as [x | R e k IH]; intros g; simpl; [done |].
  split; intros Hw r Hr; destruct (Hw r Hr); split; auto; by apply IH.
Qed.

Lemma wp_mono {A} (p : prog E A) (Q Q' : A -> G -> Prop) g :
  (forall a g', Q a g' -> Q' a g') -> wp p Q g -> wp p Q' g.
Proof.
  intros HQ. revert g. induction p as [x | R e k IH]; intros g; simpl; [auto |].
  intros Hw r Hr. destruct (Hw r Hr). auto.
Qed.

Lemma wp_bind {A B} (p : M E A) (f : A -> M E B) Q g :
  wp (bind p f) Q g <->
  wp p (fun o g' => match o with
                    | Val a => wp (f a) Q g'
                    | Fail e => Q (Fail e) g'
                    | Panic => Q Panic g'
                    end) g.
Proof.
  unfold bind. rewrite wp_pbind. split; apply wp_mono; intros [] ?; auto.
Qed.

Lemma wp_attempt {A} (p : M E A) Q g :
  wp (attempt p) Q g <->
  wp p (fun o g' => match o with
                    | Val a => Q (Val (Ok a)) g'
                    | Fail e => Q (Val (Err e)) g'
                    | Panic => Q Panic g'
                    end) g.
Proof.
  unfold attempt. rewrite wp_pbind. split; apply wp_mono; intros [] ?; auto.
Qed.

Lemma wp_deferring {A} (d : M E unit) (p : M E A) Q g :
  wp (deferring d p) Q g <-> wp p (fun o => wp d (fun _ => Q o)) g.
Proof.
  unfold deferring. rewrite wp_pbind.
  split; apply wp_mono; intros o g'; rewrite wp_pbind; auto.
Qed.

(** A loop over a slice keeps an invariant that each iteration keeps. *)
Lemma wp_for_each {A} (l : list A) (body : A -> M E unit) (I : G -> Prop) Q g :
  I g ->
  (forall a g', a ∈ l -> I g' ->
     wp (body a) (fun o g'' => match o with Val _ => I g'' | _ => Q o g'' end) g') ->
  (forall g', I g' -> Q (Val tt) g') ->
  wp (for_each l body) Q g.
Proof.
  intros Hg Hbody HQ. revert g Hg.
  induction l as [| a l IH]; intros g Hg; simpl; [by apply HQ |].
  apply wp_bind.
  assert (a ∈ a :: l) as Ha by set_solver.
  eapply wp_mono; [| exact (Hbody a g Ha Hg)].
  intros [[] | |] g' HI; simpl; auto. apply IH; auto.
  intros a' g'' Hin. apply Hbody. by right.
Qed.

(** Soundness: the postcondition holds at the end of every run, and every
    call was allowed when it was made. *)
Fixpoint safe_trace (g : G) (t : list (obs E)) : Prop :=
  match t with
  | [] => True
  | o :: t' => safe g o /\ safe_trace (step g o) t'
  end.

Lemma wp_sound {A} (p : prog E A) Q g t a :
  wp p Q g -> runs p t a -> Q a (foldl step g t) /\ safe_trace g t.
Proof.
  revert g t. induction p as [x | R e k IH]; intros g t; simpl.
  - intros HQ [-> ->]. simpl. auto.
  - intros Hw (r & t' & -> & Hr & Hruns). destruct (Hw r Hr) as [Hs Hk].
    destruct (IH r _ _ Hk Hruns). simpl. auto.
Qed.

Lemma wp_complete {A} (p : prog E A) Q g :
  (forall t a, runs p t a -> Q a (foldl step g t) /\ safe_trace g t) ->
  (forall R (e : E R), exists r, answer_ok e r) ->
  wp p Q g.
Proof.
  intros Hruns Hans. revert g Hruns.
  induction p as [x | R e k IH]; intros g Hruns; simpl.
  - by apply (Hruns [] x).
  - intros r Hr. split.
    + destruct (runs_total (k r) Hans) as (t & a & Ht).
      apply (Hruns (Obs e r :: t) a). simpl. eauto 6.
    + apply IH. intros t a Ht.
      specialize (Hruns (Obs e r :: t) a). simpl in Hruns.
      destruct Hruns as [? [? ?]]; eauto 6.
Qed.
End wp.

(** ** The history monitor

    With the history of interactions as monitor state, [wph safe p Q h] says:
    started after the history [h], every interaction of [p] is [safe] after the
    interactions before it, and [Q] holds of the outcome and the whole history. *)

Section history.
Context {E : Set -> Type} `{Signature E}.

Definition record (h : list (obs E)) (o : obs E) : list (obs E) := h ++ [o].

Definition wph (safe : list (obs E) -> obs E -> Prop) {A} (p : prog E A)
    (Q : A -> list (obs E) -> Prop) (h : list (obs E)) : Prop :=
  wp record safe p Q h.

Lemma foldl_record h t : foldl record h t = h ++ t.
Proof.
  revert h. induction t as [| o t IH]; intros h; simpl; [by rewrite app_nil_r |].
  rewrite IH. unfold record. by rewrite <- app_assoc.
Qed.

Lemma safe_trace_at safe h t1 o t2 :
  safe_trace record safe h (t1 ++ o :: t2) -> safe (h ++ t1) o.
Proof.
  revert h. induction t1 as [| o1 t1 IH]; intros h; simpl.
  - intros [? _]. by rewrite app_nil_r.
  - intros [_ Ht]. apply IH in Ht. unfold record in Ht. by rewrite <- app_assoc in Ht.
Qed.

Lemma wph_sound safe {A} (p : prog E A) Q t a :
  wph safe p Q [] -> runs p t a ->
  Q a t /\ forall t1 o t2, t = t1 ++ o :: t2 -> safe t1 o.
Proof.
  intros Hw Hr. destruct (wp_sound _ _ _ _ _ _ _ Hw Hr) as [HQ Hs].
  rewrite foldl_record in HQ. split; [exact HQ |].
  intros t1 o t2 ->. by apply safe_trace_at in Hs.
Qed.

(** A fact about the past that later interactions cannot undo, and that makes
    them all safe. *)
Lemma wph_stable safe (P : list (obs E) -> Prop) {A} (p : prog E A) h :
  (forall h o, P h -> P (h ++ [o])) -> (forall h o, P h -> safe h o) ->
  P h -> wph safe p (fun _ h' => P h') h.
Proof.
  intros Hmono Hsafe. unfold wph. revert h.
  induction p as [x | R e k IH]; intros h Hh; simpl; [done |].
  intros r _. split; [by apply Hsafe |]. apply IH. by apply Hmono.
Qed.

(** The same, for the calls that a program can make. *)
Lemma wph_stable_on safe (P : list (obs E) -> Prop) (K : obs E -> Prop) {A} (p : prog E A) h :
  (forall h o, P h -> P (h ++ [o])) -> (forall h o, P h -> K o -> safe h o) -> always K p ->
  P h -> wph safe p (fun _ h' => P h') h.
Proof.
  intros Hmono Hsafe Hp. unfold wph. revert h.
  induction p as [x | R e k IH]; intros h Hh; simpl in *; [done |].
  intros r Hr. destruct (Hp r Hr) as [Hk Hp']. split; [by apply Hsafe |]. apply IH; [done |]. by apply Hmono.
Qed.

(** A program none of whose calls needs the past. *)
Lemma wph_skip safe {A} (p : prog E A) Q h :
  always (fun o => forall h, safe h o) p -> (forall a h', Q a h') -> wph safe p Q h.
Proof.
  intros Hp HQ. unfold wph. revert h. induction p as [x | R e k IH]; intros h; simpl in *; [auto |].
  intros r Hr. destruct (Hp r Hr). auto.
Qed.

Lemma wph_true {A} (p : prog E A) h : wph (fun _ _ => True) p (fun _ _ => True) h.
Proof. by apply (wph_stable _ (fun _ => True)). Qed.
End history.

(** ** Views of a trace *)

(** What [view] sees in a trace, in order. *)
Fixpoint collect {E X} (view : obs E -> option X) (t : list (obs E)) : list X :=
  match t with
  | [] => []
  | o :: t' => match view o with Some x => x :: collect view t' | None => collect view t' end
  end.

Lemma collect_app {E X} (view : obs E -> option X) t1 t2 :
  collect view (t1 ++ t2) = collect view t1 ++ collect view t2.
Proof.
  induction t1 as [| o t1 IH]; simpl; [done |]. rewrite IH. by destruct (view o).
Qed.

Lemma collect_none {E X} (view : obs E -> option X) t :
  Forall (fun o => view o = None) t -> collect view t = [].
Proof. induction 1 as [| o t Ho _ IH]; simpl; [done |]. by rewrite Ho. Qed.

Lemma collect_unseen {E X} `{Signature E} (view : obs E -> option X) {A} (p : prog E A) t a :
  always (fun o => view o = None) p -> runs p t a -> collect view t = [].
Proof. intros Hp Hr. apply collect_none. by eapply always_runs. Qed.

Lemma collect_always {E X} `{Signature E} (view : obs E -> option X) (Q : X -> Prop) {A}
    (p : prog E A) t a :
  always (fun o => forall x, view o = Some x -> Q x) p -> runs p t a -> Forall Q (collect view t).
Proof.
  intros Hp Hr. pose proof (always_runs _ _ _ _ Hp Hr) as Hall. clear Hp Hr.
  induction Hall as [| o t' Ho _ IH]; simpl; [constructor |].
  destruct (view o) eqn:Ev; [constructor; auto | done].
Qed.

(** ** Inverting runs of Go code *)

Section inversion.
Context {E : Set -> Type} `{Signature E}.

Lemma runs_ret {A} (a : A) t o : runs (ret a) t o <-> t = [] /\ o = Val a.
Proof. done. Qed.
Lemma runs_fail {A} e t (o : outcome A) : runs (fail e) t o <-> t = [] /\ o = Fail e.
Proof. done. Qed.
Lemma runs_panic {A} t (o : outcome A) : runs panic t o <-> t = [] /\ o = Panic.
Proof. done. Qed.
Lemma runs_lift {A} (x : outcome A) t o : runs (lift x) t o <-> t = [] /\ o = x.
Proof. done. Qed.
Lemma runs_lift_result {A} (x : result A) t o :
  runs (lift_result x) t o <-> t = [] /\ o = to_outcome x.
Proof. done. Qed.

Lemma runs_call {R : Set} (e : E R) t o :
  runs (call e) t o <-> exists r, t = [Obs e r] /\ answer_ok e r /\ o = Val r.
Proof.
  simpl. split.
  - intros (r & t' & -> & ? & -> & ->). eauto.
  - intros (r & -> & ? & ->). eauto 8.
Qed.

Lemma runs_try_call {A : Set} (e : E (result A)) t o :
  runs (try_call e) t o <-> exists r, t = [Obs e r] /\ answer_ok e r /\ o = to_outcome r.
Proof.
  simpl. split.
  - intros (r & t' & -> & ? & -> & ->). eauto.
  - intros (r & -> & ? & ->). eauto 8.
Qed.

Lemma runs_bind {A B} (p : M E A) (f : A -> M E B) t o :
  runs (bind p f) t o <->
  (exists t1 a t2, t = t1 ++ t2 /\ runs p t1 (Val a) /\ runs (f a) t2 o) \/
  (exists e, o = Fail e /\ runs p t (Fail e)) \/
  (o = Panic /\ runs p t Panic).
Proof.
  unfold bind. rewrite runs_pbind. split.
  - intros (t1 & [a | e |] & t2 & -> & H1 & H2).
    + left. eauto 6.
    + destruct H2 as [-> ->]. rewrite app_nil_r. eauto 6.
    + destruct H2 as [-> ->]. rewrite app_nil_r. auto.
  - intros [(t1 & a & t2 & -> & H1 & H2) | [(e & -> & H1) | (-> & H1)]].
    + eauto 6.
    + exists t, (Fail e), []. rewrite app_nil_r. done.
    + exists t, Panic, []. rewrite app_nil_r. done.
Qed.

(** The common first steps, without the cases that cannot happen. *)
Lemma runs_call_bind {R : Set} {B} (e : E R) (f : R -> M E B) t o :
  runs (bind (call e) f) t o <->
  exists r t', t = Obs e r :: t' /\ answer_ok e r /\ runs (f r) t' o.
Proof. reflexivity. Qed.

Lemma runs_try_call_bind {A : Set} {B} (e : E (result A)) (f : A -> M E B) t o :
  runs (bind (try_call e) f) t o <->
  exists r t', t = Obs e r :: t' /\ answer_ok e r /\
    match r with Ok a => runs (f a) t' o | Err err => t' = [] /\ o = Fail err end.
Proof.
  split; intros (r & t' & -> & Hr & Hk); exists r, t'; (split; [done |]); split; try done;
    by destruct r.
Qed.

Lemma runs_ret_bind {A B} (a : A) (f : A -> M E B) t o :
  runs (bind (ret a) f) t o <-> runs (f a) t o.
Proof. reflexivity. Qed.

Lemma runs_fail_bind {A B} err (f : A -> M E B) t o :
  runs (bind (fail err) f) t o <-> t = [] /\ o = Fail err.
Proof. reflexivity. Qed.

Lemma runs_panic_bind {A B} (f : A -> M E B) t o :
  runs (bind panic f) t o <-> t = [] /\ o = Panic.
Proof. reflexivity. Qed.

Lemma runs_assoc {A B C} (p : M E A) (f : A -> M E B) (g : B -> M E C) t o :
  runs (bind (bind p f) g) t o <-> runs (bind p (fun a => bind (f a) g)) t o.
Proof.
  unfold bind. rewrite !runs_pbind. setoid_rewrite runs_pbind. split.
  - intros (t1 & b & t2 & -> & (t3 & a & t4 & -> & H1 & H2) & H3).
    exists t3, a, (t4 ++ t2). rewrite app_assoc. split_and!; [done | done |].
    destruct a; [apply runs_pbind; eauto 6 | |]; destruct H2 as [-> ->]; by destruct H3 as [-> ->].
  - intros (t1 & a & t2 & -> & H1 & H2). destruct a as [a | |].
    + apply runs_pbind in H2 as (t3 & b & t4 & -> & H2 & H3).
      exists (t1 ++ t3), b, t4. rewrite app_assoc. eauto 10.
    + destruct H2 as [-> ->]. exists t1, (Fail e), []. split_and!; try done.
      exists t1, (Fail e), []. rewrite app_nil_r. done.
    + destruct H2 as [-> ->]. exists t1, Panic, []. split_and!; try done.
      exists t1, Panic, []. rewrite app_nil_r. done.
Qed.

Lemma runs_attempt {A} (p : M E A) t o :
  runs (attempt p) t o <->
  (exists a, o = Val (Ok a) /\ runs p t (Val a)) \/
  (exists e, o = Val (Err e) /\ runs p t (Fail e)) \/
  (o = Panic /\ runs p t Panic).
Proof.
  unfold attempt. rewrite runs_pbind. split.
  - intros (t1 & [a | e |] & t2 & -> & H1 & (-> & ->)); rewrite app_nil_r; eauto 6.
  - intros [(a & -> & H1) | [(e & -> & H1) | (-> & H1)]];
      eexists t, _, []; rewrite app_nil_r; done.
Qed.

Lemma runs_deferring {A} (d : M E unit) (p : M E A) t o :
  runs (deferring d p) t o <->
  exists t1 t2 x, t = t1 ++ t2 /\ runs p t1 o /\ runs d t2 x.
Proof.
  unfold deferring. rewrite runs_pbind. split.
  - intros (t1 & a & t2 & -> & H1 & H2). apply runs_pbind in H2 as (t3 & x & t4 & -> & H2 & H3).
    destruct H3 as [-> <-]. rewrite app_nil_r. eauto 6.
  - intros (t1 & t2 & x & -> & H1 & H2). exists t1, o, t2. split_and!; auto.
    apply runs_pbind. exists t2, x, []. rewrite app_nil_r. done.
Qed.
End inversion.

#[global] Arguments runs : simpl never.

(** Going past a program in which [view] sees nothing. *)
Lemma unseen_bind {E X} `{Signature E} (view : obs E -> option X) {A B}
    (p : M E A) (f : A -> M E B) t o :
  always (fun o => view o = None) p -> runs (bind p f) t o ->
  exists t2, collect view t = collect view t2 /\
    ((exists t1 a, runs p t1 (Val a) /\ runs (f a) t2 o) \/ t2 = []).
Proof.
  intros Hp Hr. apply (proj1 (runs_bind _ _ _ _)) in Hr as
    [(t1 & a & t2 & -> & H1 & Hr) | [(e & -> & H1) | (-> & H1)]].
  - exists t2. rewrite collect_app, (collect_unseen view _ _ _ Hp H1). split; [done |].
    left. eauto.
  - exists []. rewrite (collect_unseen view _ _ _ Hp H1). auto.
  - exists []. rewrite (collect_unseen view _ _ _ Hp H1). auto.
Qed.

(** [run_inv] takes every hypothesis that is a run of a compound program into
    runs of its parts. *)
Ltac run_step :=
  match goal with
  | H : runs (ret _) _ _ |- _ => destruct (proj1 (runs_ret _ _ _) H); clear H
  | H : runs (fail _) _ _ |- _ => destruct (proj1 (runs_fail _ _ _) H); clear H
  | H : runs panic _ _ |- _ => destruct (proj1 (runs_panic _ _) H); clear H
  | H : runs (lift _) _ _ |- _ => destruct (proj1 (runs_lift _ _ _) H); clear H
  | H : runs (lift_result _) _ _ |- _ => destruct (proj1 (runs_lift_result _ _ _) H); clear H
  | H : runs (call _) _ _ |- _ =>
      let r := fresh "r" in
      destruct (proj1 (runs_call _ _ _) H) as (r & ? & ? & ?); clear H
  | H : runs (try_call _) _ _ |- _ =>
      let r := fresh "r" in
      destruct (proj1 (runs_try_call _ _ _) H) as (r & ? & ? & ?); clear H
  | H : runs (bind (bind _ _) _) _ _ |- _ => apply (proj1 (runs_assoc _ _ _ _ _)) in H
  | H : runs (bind (ret _) _) _ _ |- _ => apply (proj1 (runs_ret_bind _ _ _ _)) in H; cbv beta in H
  | H : runs (bind (fail _) _) _ _ |- _ =>
      destruct (proj1 (runs_fail_bind _ _ _ _) H); clear H
  | H : runs (bind panic _) _ _ |- _ =>
      destruct (proj1 (runs_panic_bind _ _ _) H); clear H
  | H : runs (bind (call _) _) _ _ |- _ =>
      let r := fresh "r" in let t := fresh "t" in
      apply (proj1 (runs_call_bind _ _ _ _)) in H as (r & t & ? & ? & H)
  | H : runs (bind (try_call _) _) _ _ |- _ =>
      let r := fresh "r" in let t := fresh "t" in
      apply (proj1 (runs_try_call_bind _ _ _ _)) in H as ([r | r] & t & ? & ? & H); [| destruct H]
  | H : runs (bind (match ?x with _ => _ end) _) _ _ |- _ => destruct x eqn:?
  | H : runs (bind _ _) _ _ |- _ =>
      apply (proj1 (runs_bind _ _ _ _)) in H as [(? & ? & ? & ? & ? & H) | [(? & ? & H) | (? & H)]]
  | H : runs (attempt _) _ _ |- _ =>
      apply (proj1 (runs_attempt _ _ _)) in H as [(? & ? & H) | [(? & ? & H) | (? & H)]]
  | H : runs (deferring _ _) _ _ |- _ =>
      apply (proj1 (runs_deferring _ _ _ _)) in H as (? & ? & ? & ? & H & ?)
  end.
(** As [run_step], and splits the cases a program distinguishes. *)
Ltac run_case :=
  first [ run_step
        | match goal with H : runs (match ?x with _ => _ end) _ _ |- _ => destruct x eqn:? end ].
Ltac run_inv := repeat (run_step; simplify_eq/=).
Ltac run_cases := repeat (run_case; simplify_eq/=).

(** ** Code that does not panic *)

Section never_panics.
Context {E : Set -> Type} `{Signature E}.

Definition never_panics {A} (p : M E A) : Prop := forall t, ~ runs p t Panic.

Lemma never_panics_ret {A} (a : A) : never_panics (ret a).
Proof. intros t Hr. by run_inv. Qed.
Lemma never_panics_fail {A} e : never_panics (A := A) (fail e).
Proof. intros t Hr. by run_inv. Qed.
Lemma never_panics_lift_result {A} (r : result A) : never_panics (lift_result r).
Proof. intros t Hr. run_step. by eapply to_outcome_no_panic. Qed.
Lemma never_panics_call {R : Set} (e : E R) : never_panics (call e).
Proof. intros t Hr. by run_inv. Qed.
Lemma never_panics_try_call {A : Set} (e : E (result A)) : never_panics (try_call e).
Proof. intros t Hr. run_step. by eapply to_outcome_no_panic. Qed.

Lemma never_panics_bind {A B} (p : M E A) (f : A -> M E B) :
  never_panics p -> (forall a, never_panics (f a)) -> never_panics (bind p f).
Proof.
  intros Hp Hf t Hr. apply (proj1 (runs_bind _ _ _ _)) in Hr as
    [(? & a & ? & _ & _ & Hr) | [(e & ? & _) | (_ & Hr)]]; [by eapply Hf | done | by eapply Hp].
Qed.
Lemma never_panics_attempt {A} (p : M E A) : never_panics p -> never_panics (attempt p).
Proof.
  intros Hp t Hr. apply (proj1 (runs_attempt _ _ _)) in Hr as
    [(? & ? & _) | [(e & ? & _) | (_ & Hr)]]; [done | done | by eapply Hp].
Qed.
Lemma never_panics_deferring {A} d (p : M E A) : never_panics p -> never_panics (deferring d p).
Proof.
  intros Hp t Hr. apply (proj1 (runs_deferring _ _ _ _)) in Hr as (? & ? & ? & _ & Hr & _).
  by eapply Hp.
Qed.
Lemma never_panics_for_each {A} (l : list A) body :
  (forall a, never_panics (body a)) -> never_panics (for_each l body).
Proof.
  intros Hb. induction l as [| a l IH]; simpl; [apply never_panics_ret |].
  by apply never_panics_bind.
Qed.
Lemma never_panics_for_fold {A S} (l : list A) (s : S) body :
  (forall s a, never_panics (body s a)) -> never_panics (for_fold l s body).
Proof.
  intros Hb. revert s. induction l as [| a l IH]; intros s; simpl; [apply never_panics_ret |].
  by apply never_panics_bind.
Qed.
End never_panics.

Create HintDb calm discriminated.
#[export] Hint Resolve never_panics_ret never_panics_fail never_panics_lift_result
  never_panics_call never_panics_try_call : calm.

Ltac calm_step :=
  match goal with
  | |- never_panics (bind _ _) => apply never_panics_bind; [| intros ?]
  | |- never_panics (attempt _) => apply never_panics_attempt
  | |- never_panics (deferring _ _) => apply never_panics_deferring
  | |- never_panics (for_each _ _) => apply never_panics_for_each; intros ?
  | |- never_panics (for_fold _ _ _) => apply never_panics_for_fold; intros ? ?
  | |- never_panics (match ?x with _ => _ end) => destruct x eqn:?
  end.
Ltac calm_tac := repeat calm_step; auto with calm.
