(* ===== verification/Stores.v ===== *)
(** * Stores: programs run against a state they share

    What a call does to a store kept outside the program, such as the containers of
    a Docker host, is a step relation, an instance of the class [Store].  A
    [triple] says what holds of the outcome and of the store after every run of a
    program that the store serves; there is a rule for each construct. *)

From S2P Require Import Prelude Effects.

(** How a call, with its answer, takes one store to the next. *)
Class Store (E : Set -> Type) (S : Type) := store_step : S -> obs E -> S -> Prop.

Section stores.
Context {E : Set -> Type} {S : Type} `{Store E S}.

(** The calls of a trace, one after another. *)
Inductive served : S -> list (obs E) -> S -> Prop :=
| served_nil s : served s [] s
| served_cons s s1 s2 o t : store_step s o s1 -> served s1 t s2 -> served s (o :: t) s2.

Lemma served_app s t1 t2 s' :
  served s (t1 ++ t2) s' <-> exists s1, served s t1 s1 /\ served s1 t2 s'.
Proof.
  revert s. induction t1 as [| o t1 IH]; intros s; simpl.
  - split; [intros; exists s; by split; [constructor |] |].
    intros (s1 & Hs & Ht). by inversion Hs; subst.
  - split.
    + intros Hs. inversion Hs as [| ? s1 ? ? ? Ho Hs']; subst. apply IH in Hs' as (s2 & H1 & H2).
      exists s2. split; [by econstructor | done].
    + intros (s2 & Hs & Ht). inversion Hs as [| ? s1 ? ? ? Ho Hs']; subst.
      econstructor; [done |]. apply IH. eauto.
Qed.

Lemma served_head s o t s' : served s (o :: t) s' -> exists s1, store_step s o s1 /\ served s1 t s'.
Proof. intros Hs. inversion Hs; subst. eauto. Qed.

Lemma served_one s o s' : served s [o] s' -> store_step s o s'.
Proof. intros Hs. inversion Hs as [| ? ? ? ? ? Ho Hs']; subst. by inversion Hs'; subst. Qed.

(** A property of the store that every call of a trace keeps. *)
Lemma served_keeps (I : S -> Prop) s t s' :
  (forall s o s', store_step s o s' -> I s -> I s') -> served s t s' -> I s -> I s'.
Proof. intros Hk. induction 1; eauto. Qed.

Context `{Signature E}.

Definition triple {A} (s : S) (p : prog E A) (Q : A -> S -> Prop) : Prop :=
  forall t a s', runs p t a -> served s t s' -> Q a s'.

Lemma triple_mono {A} s (p : prog E A) (Q Q' : A -> S -> Prop) :
  triple s p Q -> (forall a s', Q a s' -> Q' a s') -> triple s p Q'.
Proof. intros Hp HQ t a s' Hr Hs. eauto. Qed.

Lemma triple_and {A} s (p : prog E A) (Q Q' : A -> S -> Prop) :
  triple s p Q -> triple s p Q' -> triple s p (fun a s' => Q a s' /\ Q' a s').
Proof. intros H1 H2 t a s' Hr Hs. eauto. Qed.

(** The outcome is one that the program can have. *)
Lemma triple_runs {A} s (p : prog E A) (Q : A -> S -> Prop) :
  triple s p (fun a s' => (exists t, runs p t a) -> Q a s') -> triple s p Q.
Proof. intros Hp t a s' Hr Hs. eauto. Qed.

Lemma triple_pbind {A B} s (p : prog E A) (f : A -> prog E B) Q :
  triple s p (fun a s1 => triple s1 (f a) Q) -> triple s (pbind p f) Q.
Proof.
  intros Hp t b s' Hr Hs. apply runs_pbind in Hr as (t1 & a & t2 & -> & H1 & H2).
  apply served_app in Hs as (s1 & Hs1 & Hs2). by eapply Hp.
Qed.

Lemma triple_done {A} s (a : A) (Q : A -> S -> Prop) : Q a s -> triple s (Ret a) Q.
Proof. intros HQ t a' s' [-> ->] Hs. by inversion Hs; subst. Qed.

Lemma triple_ret {A} s (a : A) Q : Q (Val a) s -> triple s (ret a) Q.
Proof. apply triple_done. Qed.
Lemma triple_fail {A} s e (Q : outcome A -> S -> Prop) : Q (Fail e) s -> triple s (fail e) Q.
Proof. apply triple_done. Qed.
Lemma triple_panic {A} s (Q : outcome A -> S -> Prop) : Q Panic s -> triple s panic Q.
Proof. apply triple_done. Qed.
Lemma triple_lift {A} s (o : outcome A) Q : Q o s -> triple s (lift o) Q.
Proof. apply triple_done. Qed.
Lemma triple_lift_result {A} s (r : result A) Q : Q (to_outcome r) s -> triple s (lift_result r) Q.
Proof. apply triple_done. Qed.

(** What is left to show after a statement, by its outcome. *)
Definition continue {A B} (f : A -> M E B) (Q : outcome B -> S -> Prop) (o : outcome A) (s : S) : Prop :=
  match o with
  | Val a => triple s (f a) Q
  | Fail e => Q (Fail e) s
  | Panic => Q Panic s
  end.

Lemma triple_bind {A B} s (p : M E A) (f : A -> M E B) Q :
  triple s p (continue f Q) -> triple s (bind p f) Q.
Proof.
  intros Hp. apply triple_pbind. eapply triple_mono; [exact Hp |].
  intros [a | e |] s1 HQ; [exact HQ | by apply triple_done ..].
Qed.

Lemma triple_call {R : Set} s (e : E R) (Q : outcome R -> S -> Prop) :
  (forall r s', answer_ok e r -> store_step s (Obs e r) s' -> Q (Val r) s') -> triple s (call e) Q.
Proof.
  intros HQ t a s' Hr Hs. apply runs_call in Hr as (r & -> & Hok & ->). eauto using served_one.
Qed.
Lemma triple_try_call {A : Set} s (e : E (result A)) Q :
  (forall r s', answer_ok e r -> store_step s (Obs e r) s' -> Q (to_outcome r) s') ->
  triple s (try_call e) Q.
Proof.
  intros HQ t a s' Hr Hs. apply runs_try_call in Hr as (r & -> & Hok & ->). eauto using served_one.
Qed.

Lemma triple_attempt {A} s (p : M E A) Q :
  triple s p (fun o s' => match o with
                          | Val a => Q (Val (Ok a)) s'
                          | Fail e => Q (Val (Err e)) s'
                          | Panic => Q Panic s'
                          end) ->
  triple s (attempt p) Q.
Proof.
  intros Hp. apply triple_pbind. eapply triple_mono; [exact Hp |].
  intros [a | e |] s1 HQ; by apply triple_done.
Qed.

Lemma triple_deferring {A} s (d : M E unit) (p : M E A) Q :
  triple s p (fun o s1 => triple s1 d (fun _ s2 => Q o s2)) -> triple s (deferring d p) Q.
Proof.
  intros Hp. apply triple_pbind. eapply triple_mono; [exact Hp |]. intros o s1 Hd.
  apply triple_pbind. eapply triple_mono; [exact Hd |]. intros u s2 HQ. by apply triple_done.
Qed.

(** A loop that keeps [I], which also holds when it is left early. *)
Lemma triple_for_each {A} s (l : list A) (body : A -> M E unit) (I : S -> Prop) :
  I s -> (forall a s, a ∈ l -> I s -> triple s (body a) (fun _ s' => I s')) ->
  triple s (for_each l body) (fun _ s' => I s').
Proof.
  revert s. induction l as [| a l IH]; intros s Hs Hb; cbn [for_each]; [by apply triple_ret |].
  apply triple_bind. eapply triple_mono; [apply Hb; [by left | done] |].
  intros [u | e |] s1 H1; cbn [continue]; [| done ..]. apply IH; [done |].
  intros b s2 Hb2. apply Hb. by right.
Qed.

(** A call that leaves every store as it is, and a program that makes no other. *)
Definition inert (o : obs E) : Prop := forall s s', store_step s o s' -> s' = s.

Lemma triple_inert {A} s (p : prog E A) (Q : A -> S -> Prop) :
  always inert p -> (forall a, Q a s) -> triple s p Q.
Proof.
  intros Hp HQ t a s' Hr Hs. pose proof (always_runs _ _ _ _ Hp Hr) as Hall. clear Hr.
  revert HQ. induction Hs as [s | s s1 s2 o t Ho Hs IH]; intros HQ; [done |].
  apply Forall_cons in Hall as [Hk Hall]. apply Hk in Ho as ->. auto.
Qed.

(** A property of the store that every call of a program keeps. *)
Lemma triple_keeps {A} s (p : prog E A) (I : S -> Prop) :
  always (fun o => forall s s', store_step s o s' -> I s -> I s') p -> I s ->
  triple s p (fun _ s' => I s').
Proof.
  intros Hp Hi t a s' Hr Hs. pose proof (always_runs _ _ _ _ Hp Hr) as Hall. clear Hr.
  induction Hs as [s | s s1 s2 o t Ho Hs IH]; [done |].
  apply Forall_cons in Hall as [Hk Hall]. eauto.
Qed.
End stores.

(** ** A store with a record

    A store together with what a view has seen of the calls. *)

Section recording.
Context {E : Set -> Type} {S X : Type} `{Store E S} (view : obs E -> option X).

Definition recording : Store E (S * list X) := fun s o s' =>
  store_step s.1 o s'.1 /\ s'.2 = s.2 ++ match view o with Some x => [x] | None => [] end.

Lemma served_recording s t s' l :
  served s t s' -> served (H := recording) (s, l) t (s', l ++ collect view t).
Proof.
  intros Hs. revert l. induction Hs as [s | s s1 s2 o t Ho Hs IH]; intros l; simpl.
  - rewrite app_nil_r. constructor.
  - apply (served_cons (H := recording) _ (s1, l ++ match view o with Some x => [x] | None => [] end)).
    { by split. }
    destruct (view o) as [x |]; [| rewrite app_nil_r; apply IH].
    replace (l ++ x :: collect view t) with ((l ++ [x]) ++ collect view t) by by rewrite <- app_assoc.
    apply IH.
Qed.
End recording.
