(* ===== verification/GoMemory.v ===== *)
(** * GoMemory: memory with pointers, slices and maps

    A heap of typed objects, for the code whose subject is what shares memory with
    what.  A value that points into the heap stands for a value of the pure types
    of the development: a [reader] gives it.  A function [copies] when its result
    reads the same and is made of new memory only. *)

From S2P Require Import Prelude.

(** ** Objects *)

(** The types of objects, and what they hold. *)
Class Universe (ty : Type) := {
  #[global] ty_eq_dec :: EqDecision ty;
  elem : ty -> Type;
}.

Abbreviation loc := positive (only parsing).

Section memory.
Context {ty : Type} `{Universe ty}.

(** An array of elements of one type; what a pointer points to is an array of one. *)
Definition object : Type := { t : ty & list (elem t) }.
Abbreviation heap := (gmap loc object).

(** What the object at [l] holds, if it has type [t]. *)
Definition cells (h : heap) (t : ty) (l : loc) : option (list (elem t)) :=
  match h !! l with
  | Some (existT t' xs) =>
      match decide (t' = t) with
      | left e => Some (eq_rect t' (fun t => list (elem t)) xs t e)
      | right _ => None
      end
  | None => None
  end.

Lemma cells_Some h t l xs : cells h t l = Some xs <-> h !! l = Some (existT t xs).
Proof.
  unfold cells. destruct (h !! l) as [[t' ys] |]; [| done].
  destruct (decide (t' = t)) as [-> | Hne].
  - simpl. split; intros E; [by injection E as -> | ].
    injection E as E. apply Eqdep_dec.inj_pair2_eq_dec in E; [by subst | exact ty_eq_dec].
  - split; [done |]. intros E. injection E as E _. done.
Qed.

(** ** Programs *)

(** A computation on the heap; [None] is a fault. *)
Definition mem (A : Type) : Type := heap -> option (A * heap).
Definition mem_ret {A} (a : A) : mem A := fun h => Some (a, h).
Definition mem_bind {A B} (p : mem A) (f : A -> mem B) : mem B := fun h =>
  match p h with Some (a, h') => f a h' | None => None end.

(** Above every address in use. *)
Definition next_loc (h : heap) : loc := Pos.succ (map_fold (fun l _ m => Pos.max l m) 1%positive h).

Lemma next_loc_above (h : heap) l : is_Some (h !! l) -> (l < next_loc h)%positive.
Proof.
  unfold next_loc. intros Hl. apply Pos.lt_succ_r. revert l Hl.
  apply (map_fold_weak_ind (fun m (h : heap) => forall l, is_Some (h !! l) -> (l <= m)%positive)).
  - intros l [o Ho]. by apply lookup_empty_Some in Ho.
  - intros i x m r _ IH l [o Ho]. apply lookup_insert_Some in Ho as [[<- _] | [_ Ho]]; [lia |].
    specialize (IH l ltac:(by exists o)). lia.
Qed.
Lemma next_loc_fresh (h : heap) : h !! next_loc h = None.
Proof. destruct (h !! next_loc h) eqn:E; [| done]. pose proof (next_loc_above h (next_loc h) ltac:(by eexists)). lia. Qed.

(** [new] and [make]. *)
Definition new (t : ty) (xs : list (elem t)) : mem loc := fun h =>
  Some (next_loc h, <[ next_loc h := existT t xs ]> h).

(** [*p] and [*p = x]. *)
Definition load (t : ty) (l : loc) : mem (elem t) := fun h =>
  match cells h t l with Some (x :: _) => Some (x, h) | _ => None end.
Definition store (t : ty) (l : loc) (x : elem t) : mem unit := fun h =>
  match cells h t l with Some (_ :: xs) => Some (tt, <[ l := existT t (x :: xs) ]> h) | _ => None end.

(** ** Pointers and slices *)

(** [None] is [nil]. *)
Definition ptr (t : ty) : Type := option loc.
(** The header of a slice: a window of an array. *)
Record window := mkWindow { w_array : loc; w_off : nat; w_len : nat }.
Definition slice (t : ty) : Type := option window.

Definition elements (t : ty) (h : heap) (w : window) : option (list (elem t)) :=
  match cells h t (w_array w) with
  | Some xs => if decide (w_off w + w_len w <= length xs)%nat then Some (take (w_len w) (drop (w_off w) xs)) else None
  | None => None
  end.

(** ** Reading *)

Definition reader (A V : Type) : Type := heap -> A -> option V.

(** A value without pointers stands for itself. *)
Definition flat {A} : reader A A := fun _ a => Some a.

Definition read_ptr (t : ty) {V} (rd : reader (elem t) V) : reader (ptr t) (option V) := fun h p =>
  match p with
  | None => Some None
  | Some l =>
      match cells h t l with
      | Some (x :: _) => match rd h x with Some v => Some (Some v) | None => None end
      | _ => None
      end
  end.

(** [nil] has no elements. *)
Definition read_slice (t : ty) {V} (rd : reader (elem t) V) : reader (slice t) (list V) := fun h s =>
  match s with
  | None => Some []
  | Some w => match elements t h w with Some xs => mapM (rd h) xs | None => None end
  end.

(** What a reader finds stays as long as the objects of the types [P] do. *)
Definition looks_at (P : ty -> Prop) {A V} (rd : reader A V) : Prop := forall h h' a v,
  (forall l t xs, P t -> h !! l = Some (existT t xs) -> h' !! l = Some (existT t xs)) ->
  rd h a = Some v -> rd h' a = Some v.

Lemma looks_at_grows P {A V} (rd : reader A V) h h' a v :
  looks_at P rd -> h ⊆ h' -> rd h a = Some v -> rd h' a = Some v.
Proof. intros Hrd Hh. apply Hrd. intros l t xs _ Hl. by eapply lookup_weaken. Qed.

Lemma looks_flat P A : looks_at P (@flat A).
Proof. by intros h h' a v _. Qed.

Lemma cells_keep (P : ty -> Prop) h h' t l xs : P t ->
  (forall l t xs, P t -> h !! l = Some (existT t xs) -> h' !! l = Some (existT t xs)) ->
  cells h t l = Some xs -> cells h' t l = Some xs.
Proof. intros HP Hh. rewrite !cells_Some. by apply Hh. Qed.

Lemma looks_ptr (P : ty -> Prop) t V (rd : reader (elem t) V) :
  P t -> looks_at P rd -> looks_at P (read_ptr t rd).
Proof.
  intros HP Hrd h h' [l |] v Hh; [| done]. simpl. destruct (cells h t l) as [[| x xs] |] eqn:Ec; [done | | done].
  rewrite (cells_keep P h h' t l _ HP Hh Ec). destruct (rd h x) as [w |] eqn:Ex; [| done].
  by rewrite (Hrd h h' x w Hh Ex).
Qed.

Lemma looks_slice (P : ty -> Prop) t V (rd : reader (elem t) V) :
  P t -> looks_at P rd -> looks_at P (read_slice t rd).
Proof.
  intros HP Hrd h h' [w |] v Hh; [| done]. simpl. unfold elements.
  destruct (cells h t (w_array w)) as [xs |] eqn:Ec; [| done].
  rewrite (cells_keep P h h' t _ _ HP Hh Ec). destruct (decide _); [| done].
  rewrite !mapM_Some. intros Hall. eapply Forall2_impl; [exact Hall |]. intros x y. by apply Hrd.
Qed.

(** ** Copying *)

(** [var out T; in.DeepCopyInto(&out)] behind a pointer; [nil] stays [nil]. *)
Definition copy_ptr (t : ty) (cp : elem t -> mem (elem t)) (p : ptr t) : mem (ptr t) :=
  match p with
  | None => mem_ret None
  | Some l => mem_bind (load t l) (fun x => mem_bind (cp x) (fun y => mem_bind (new t [y]) (fun l' => mem_ret (Some l'))))
  end.

(** The loop over the elements. *)
Fixpoint copy_each {A} (cp : A -> mem A) (xs : list A) : mem (list A) :=
  match xs with
  | [] => mem_ret []
  | x :: xs => mem_bind (cp x) (fun y => mem_bind (copy_each cp xs) (fun ys => mem_ret (y :: ys)))
  end.

(** [*out = make([]T, len( *in))] and the loop; [nil] stays [nil]. *)
Definition copy_slice (t : ty) (cp : elem t -> mem (elem t)) (s : slice t) : mem (slice t) :=
  match s with
  | None => mem_ret None
  | Some w => fun h =>
      match elements t h w with
      | Some xs =>
          mem_bind (copy_each cp xs) (fun ys =>
          mem_bind (new t ys) (fun l => mem_ret (Some (mkWindow l 0 (length ys))))) h
      | None => None
      end
  end.

(** [h2] has what is in [h'] and was not in [h]. *)
Definition keeps_new (h h' h2 : heap) : Prop :=
  forall l o, h !! l = None -> h' !! l = Some o -> h2 !! l = Some o.

(** [a] stands for [v] by new memory only. *)
Definition rests_on {A V} (h h' : heap) (rd : reader A V) (a : A) (v : V) : Prop :=
  forall h2, keeps_new h h' h2 -> rd h2 a = Some v.

Lemma rests_on_later {A V} h h1 h2 (rd : reader A V) a v :
  h1 ⊆ h2 -> rests_on h h1 rd a v -> rests_on h h2 rd a v.
Proof. intros Hle Hr h3 H3. apply Hr. intros l o Hl Ho. apply H3; [done | by eapply lookup_weaken]. Qed.
Lemma rests_on_sooner {A V} h0 h h' (rd : reader A V) a v :
  h0 ⊆ h -> rests_on h h' rd a v -> rests_on h0 h' rd a v.
Proof.
  intros Hle Hr h3 H3. apply Hr. intros l o Hl Ho. apply H3; [| done].
  destruct (h0 !! l) eqn:E; [| done]. pose proof (lookup_weaken _ _ _ _ E Hle). congruence.
Qed.
Lemma rests_on_reads {A V} h h' (rd : reader A V) a v : rests_on h h' rd a v -> rd h' a = Some v.
Proof. intros Hr. apply Hr. by intros l o. Qed.

(** [p] gives from [h1] a value that reads [v] by memory that is not in [h]. *)
Definition yields {A V} (h h1 : heap) (p : mem A) (rd : reader A V) (v : V) : Prop :=
  exists a h2, p h1 = Some (a, h2) /\ h1 ⊆ h2 /\ rests_on h h2 rd a v.

(** [cp] makes copies: of the same value, in memory of their own. *)
Definition copies {A V} (rd : reader A V) (cp : A -> mem A) : Prop :=
  forall h a v, rd h a = Some v -> yields h h (cp a) rd v.

Lemma yields_ret {A V} h h1 (a : A) (rd : reader A V) v : rests_on h h1 rd a v -> yields h h1 (mem_ret a) rd v.
Proof. intros Hr. by exists a, h1. Qed.

Lemma yields_bind {A B V W} h h1 (p : mem A) (f : A -> mem B) (rd : reader A V) (rd' : reader B W) v w :
  yields h h1 p rd v ->
  (forall a h2, h1 ⊆ h2 -> rests_on h h2 rd a v -> yields h h2 (f a) rd' w) ->
  yields h h1 (mem_bind p f) rd' w.
Proof.
  intros (a & h2 & Hp & Hle & Hr) Hf. destruct (Hf a h2 Hle Hr) as (b & h3 & Hb & Hle' & Hr').
  exists b, h3. split_and!; [by unfold mem_bind; rewrite Hp | by etrans | done].
Qed.

(** A copy that is made after others. *)
Lemma yields_copy {A V} (P : ty -> Prop) h h1 (rd : reader A V) cp a v :
  copies rd cp -> looks_at P rd -> h ⊆ h1 -> rd h a = Some v -> yields h h1 (cp a) rd v.
Proof.
  intros Hc Hl Hle Ha. destruct (Hc h1 a v) as (a' & h2 & Hp & Hle' & Hr).
  { by eapply looks_at_grows. }
  exists a', h2. split_and!; [done | done |]. by eapply rests_on_sooner.
Qed.

Lemma yields_new {V} h h1 t (rds : reader (list (elem t)) V) xs v (rd : reader loc V) :
  h ⊆ h1 -> rests_on h h1 rds xs v ->
  (forall h2 l, cells h2 t l = Some xs -> rds h2 xs = Some v -> rd h2 l = Some v) ->
  yields h h1 (new t xs) rd v.
Proof.
  intros Hle Hr Hrd. exists (next_loc h1), (<[ next_loc h1 := (existT t xs : object) ]> h1).
  pose proof (next_loc_fresh h1) as Hf. split_and!; [done | by apply insert_subseteq |].
  intros h2 H2. apply Hrd.
  - apply cells_Some, H2; [| apply lookup_insert_eq].
    destruct (h !! next_loc h1) eqn:E; [| done]. pose proof (lookup_weaken _ _ _ _ E Hle). congruence.
  - apply Hr. intros l o Hl Ho. apply H2; [done |]. rewrite lookup_insert_ne; [done |]. congruence.
Qed.

Lemma copies_flat {A} : copies (@flat A) mem_ret.
Proof. intros h a v [= <-]. apply yields_ret. by intros h2 _. Qed.

Lemma load_spec h t l x xs : cells h t l = Some (x :: xs) -> load t l h = Some (x, h).
Proof. intros Hc. unfold load. by rewrite Hc. Qed.

Lemma copies_ptr t V (rd : reader (elem t) V) cp : copies rd cp -> copies (read_ptr t rd) (copy_ptr t cp).
Proof.
  intros Hc h [l |] v; simpl.
  2:{ intros [= <-]. apply yields_ret. by intros h2 _. }
  destruct (cells h t l) as [[| x xs] |] eqn:El; [done | | done].
  destruct (rd h x) as [w |] eqn:Ex; [| done]. intros [= <-].
  destruct (Hc h x w Ex) as (y & h1 & Hy & Hle & Hr).
  destruct (yields_new h h1 t (fun h ys => match ys with y :: _ => Some <$> rd h y | [] => None end) [y] (Some w)
              (fun h l => read_ptr t rd h (Some l))) as (l' & h2 & Hl & Hle' & Hr'); [done | | |].
  - intros h3 H3. simpl. by rewrite (Hr h3 H3).
  - intros h3 l3 Hl3 H3. simpl. rewrite Hl3. by destruct (rd h3 y).
  - exists (Some l'), h2. split_and!; [| by etrans | done].
    unfold mem_bind. rewrite (load_spec _ _ _ _ _ El), Hy. by injection Hl as <- <-.
Qed.

Lemma copies_each A V (rd : reader A V) cp P :
  looks_at P rd -> copies rd cp -> copies (fun h => mapM (rd h)) (copy_each cp).
Proof.
  intros Hlook Hc h xs vs Hxs. apply mapM_Some in Hxs.
  assert (forall h1, h ⊆ h1 -> yields h h1 (copy_each cp xs) (fun h => mapM (rd h)) vs) as Hall; [| by apply Hall].
  induction Hxs as [| x v xs vs Hx Hxs IH]; intros h1 Hle; cbn [copy_each].
  { apply yields_ret. by intros h2 _. }
  eapply yields_bind; [by eapply yields_copy |]. intros y h2 Hle2 Hy.
  eapply yields_bind; [apply IH; by etrans |]. intros ys h3 Hle3 Hys.
  apply yields_ret. intros h4 H4. simpl. rewrite (Hys h4 H4).
  by rewrite (rests_on_later _ _ _ _ _ _ Hle3 Hy h4 H4).
Qed.

Lemma copies_slice t V (rd : reader (elem t) V) cp P :
  looks_at P rd -> copies rd cp -> copies (read_slice t rd) (copy_slice t cp).
Proof.
  intros Hlook Hc h [w |] vs; simpl.
  2:{ intros [= <-]. apply yields_ret. by intros h2 _. }
  destruct (elements t h w) as [xs |] eqn:Ew; [| done]. intros Hxs.
  destruct (copies_each _ _ _ _ _ Hlook Hc h xs vs Hxs) as (ys & h1 & Hys & Hle & Hr).
  destruct (yields_new h h1 t (fun h => mapM (rd h)) ys vs
    (fun h l => read_slice t rd h (Some (mkWindow l 0 (length ys))))) as (l & h2 & Hl & Hle' & Hr'); [done | done | |].
  - intros h3 l3 Hl3 H3. simpl. unfold elements. simpl. rewrite Hl3.
    rewrite decide_True by done. by rewrite take_ge, drop_0 by (rewrite drop_0; done).
  - exists (Some (mkWindow l 0 (length ys))), h2. split_and!; [| by etrans | done].
    rewrite Ew. unfold mem_bind. rewrite Hys. by injection Hl as <- <-.
Qed.
End memory.
