(* ===== verification/GoText.v ===== *)
(** * GoText: the parts of Go's [strings], [unicode/utf8], [strconv], [sort],
      [net/url], [encoding/base64] and [path/filepath] the operator uses

    A Go string is a sequence of bytes; a rune is a [Z].  The tables of the
    Unicode character database (beyond ASCII) are a parameter. *)

From S2P Require Import Prelude.
From Stdlib Require Import Ascii.

Open Scope Z_scope.

(** The Unicode tables for runes above U+007F: [unicode.ToLower], whether two
    runes are in one [unicode.SimpleFold] orbit, and [unicode.IsPrint]. *)
Class UnicodeData := {
  u_ToLower : Z -> Z;
  u_FoldEq : Z -> Z -> bool;
  u_IsPrint : Z -> bool;
}.

(** ** Bytes *)

Definition byte_of (c : ascii) : Z := Z.of_N (N_of_ascii c).
Definition chr (z : Z) : ascii := ascii_of_N (Z.to_N z).

Lemma byte_of_range c : 0 <= byte_of c < 256.
Proof. unfold byte_of. pose proof (N_ascii_bounded c). lia. Qed.

Lemma chr_byte_of c : chr (byte_of c) = c.
Proof. unfold chr, byte_of. rewrite N2Z.id. apply ascii_N_embedding. Qed.

Lemma byte_of_chr z : 0 <= z < 256 -> byte_of (chr z) = z.
Proof.
  intros Hz. unfold chr, byte_of. rewrite N_ascii_embedding by lia. lia.
Qed.

Lemma byte_of_inj c d : byte_of c = byte_of d -> c = d.
Proof. intros E. rewrite <- (chr_byte_of c), <- (chr_byte_of d). by rewrite E. Qed.

(** Every byte of a string satisfies [P]. *)
Fixpoint all_bytes (P : Z -> bool) (s : string) : bool :=
  match s with
  | EmptyString => true
  | String c s' => P (byte_of c) && all_bytes P s'
  end.

Lemma all_bytes_app P s t :
  all_bytes P (s +:+ t) = all_bytes P s && all_bytes P t.
Proof. induction s as [| c s IH]; simpl; [done |]. by rewrite IH, andb_assoc. Qed.

Lemma all_bytes_impl P Q s :
  (forall b, P b = true -> Q b = true) -> all_bytes P s = true -> all_bytes Q s = true.
Proof.
  intros HPQ. induction s as [| c s IH]; simpl; [done |].
  rewrite !andb_true_iff. intros [? ?]. auto.
Qed.

Lemma append_nil_r s : s +:+ EmptyString = s.
Proof. induction s as [| c s IH]; simpl; [done |]. by rewrite IH. Qed.

Lemma append_assoc (s t u : string) : (s +:+ t) +:+ u = s +:+ (t +:+ u).
Proof. induction s as [| c s IH]; simpl; [done |]. by rewrite IH. Qed.

Fixpoint concat_strings (l : list string) : string :=
  match l with [] => EmptyString | s :: l' => s +:+ concat_strings l' end.

Lemma concat_strings_app l k :
  concat_strings (l ++ k) = concat_strings l +:+ concat_strings k.
Proof. induction l as [| s l IH]; simpl; [done |]. by rewrite IH, append_assoc. Qed.

(** ** UTF-8 *)

Definition RuneError : Z := 65533.

Definition between (lo hi b : Z) : bool := (lo <=? b) && (b <=? hi).
Definition is_cont (b : Z) : bool := between 0x80 0xBF b.

(** The second byte [utf8.DecodeRune] accepts after a first byte of a three- or
    four-byte sequence (no overlong form, no surrogate, nothing above U+10FFFF). *)
Definition second3 (b1 b2 : Z) : bool :=
  if b1 =? 0xE0 then between 0xA0 0xBF b2
  else if b1 =? 0xED then between 0x80 0x9F b2
  else between 0xE1 0xEF b1 && is_cont b2.
Definition second4 (b1 b2 : Z) : bool :=
  if b1 =? 0xF0 then between 0x90 0xBF b2
  else if b1 =? 0xF4 then between 0x80 0x8F b2
  else between 0xF1 0xF3 b1 && is_cont b2.

(** [for _, r := range s]: the runes of a string with the bytes each takes; an
    ill-formed byte is [RuneError], alone. *)
Fixpoint runes (s : string) : list (Z * string) :=
  match s with
  | EmptyString => []
  | String c1 s1 =>
      let b1 := byte_of c1 in
      let bad := (RuneError, String c1 "") :: runes s1 in
      if b1 <? 0x80 then (b1, String c1 "") :: runes s1 else
      match s1 with
      | EmptyString => bad
      | String c2 s2 =>
          let b2 := byte_of c2 in
          if between 0xC2 0xDF b1 && is_cont b2 then
            ((b1 - 0xC0) * 64 + (b2 - 0x80), String c1 (String c2 "")) :: runes s2
          else
          match s2 with
          | EmptyString => bad
          | String c3 s3 =>
              let b3 := byte_of c3 in
              if second3 b1 b2 && is_cont b3 then
                ((b1 - 0xE0) * 4096 + (b2 - 0x80) * 64 + (b3 - 0x80),
                 String c1 (String c2 (String c3 ""))) :: runes s3
              else
              match s3 with
              | EmptyString => bad
              | String c4 s4 =>
                  let b4 := byte_of c4 in
                  if second4 b1 b2 && is_cont b3 && is_cont b4 then
                    ((b1 - 0xF0) * 262144 + (b2 - 0x80) * 4096
                       + (b3 - 0x80) * 64 + (b4 - 0x80),
                     String c1 (String c2 (String c3 (String c4 "")))) :: runes s4
                  else bad
              end
          end
      end
  end.

(** [utf8.EncodeRune] (what [strings.Builder.WriteRune] appends). *)
Definition encode_rune (r : Z) : string :=
  let r := if between 0 0x10FFFF r && negb (between 0xD800 0xDFFF r)
           then r else RuneError in
  if r <? 0x80 then String (chr r) ""
  else if r <? 0x800 then
    String (chr (0xC0 + r / 64)) (String (chr (0x80 + r mod 64)) "")
  else if r <? 0x10000 then
    String (chr (0xE0 + r / 4096))
      (String (chr (0x80 + r / 64 mod 64)) (String (chr (0x80 + r mod 64)) ""))
  else
    String (chr (0xF0 + r / 262144))
      (String (chr (0x80 + r / 4096 mod 64))
        (String (chr (0x80 + r / 64 mod 64)) (String (chr (0x80 + r mod 64)) ""))).

Lemma runes_concat s : concat_strings (runes s).*2 = s.
Proof.
  induction s as [s IH] using (induction_ltof1 _ String.length); unfold ltof in IH.
  destruct s as [| c1 s1]; [done |].
  assert (forall k, (String.length k < S (String.length s1))%nat ->
            concat_strings (runes k).*2 = k) as IH' by (intros k ?; apply IH; simpl; lia).
  clear IH. cbn [runes].
  assert (concat_strings (runes s1).*2 = s1) as E1 by (apply IH'; simpl; lia).
  repeat case_match; subst; cbn [fmap list_fmap snd concat_strings String.append];
    rewrite ?E1; try done; rewrite IH' by (simpl; lia); done.
Qed.

Definition is_ascii (b : Z) : bool := b <? 0x80.

Lemma runes_ascii s t :
  all_bytes is_ascii s = true ->
  runes (s +:+ t) = ((fun c => (byte_of c, String c "")) <$> String.list_ascii_of_string s) ++ runes t.
Proof.
  induction s as [| c s IH]; [done |]. cbn [all_bytes]. rewrite andb_true_iff.
  intros [Hc Hs]. cbn [String.append runes]. unfold is_ascii in Hc. rewrite Hc.
  rewrite IH by done. done.
Qed.

(** ** [strings] *)

(** [unicode.IsSpace]. *)
Definition is_space (r : Z) : bool :=
  between 0x09 0x0D r || (r =? 0x20) || (r =? 0x85) || (r =? 0xA0)
  || (r =? 0x1680) || between 0x2000 0x200A r || (r =? 0x2028) || (r =? 0x2029)
  || (r =? 0x202F) || (r =? 0x205F) || (r =? 0x3000).

(** [strings.TrimSpace]. *)
Definition TrimSpace (s : string) : string :=
  concat_strings (trim_both (fun c => is_space c.1) (runes s)).*2.

(** [strings.ToLower]. *)
Definition rune_ToLower `{UnicodeData} (r : Z) : Z :=
  if r <? 0x80 then (if between 65 90 r then r + 32 else r) else u_ToLower r.
Definition ToLower `{UnicodeData} (s : string) : string :=
  concat_strings ((fun c => encode_rune (rune_ToLower c.1)) <$> runes s).

(** [strings.EqualFold]. *)
Definition rune_fold_eq `{UnicodeData} (sr tr : Z) : bool :=
  (sr =? tr) ||
  let lo := Z.min sr tr in let hi := Z.max sr tr in
  if hi <? 0x80 then between 65 90 lo && (hi =? lo + 32) else u_FoldEq lo hi.
Fixpoint fold_eq_runes `{UnicodeData} (s t : list (Z * string)) : bool :=
  match s, t with
  | [], [] => true
  | a :: s', b :: t' => rune_fold_eq a.1 b.1 && fold_eq_runes s' t'
  | _, _ => false
  end.
Definition EqualFold `{UnicodeData} (s t : string) : bool :=
  fold_eq_runes (runes s) (runes t).

Definition eqb_str (s t : string) : bool := bool_decide (s = t).

Lemma eqb_str_true s t : eqb_str s t = true <-> s = t.
Proof. apply bool_decide_eq_true. Qed.
Lemma eqb_str_false s t : eqb_str s t = false <-> s <> t.
Proof. apply bool_decide_eq_false. Qed.

(** [strings.TrimPrefix]. *)
Fixpoint strip_prefix (p s : string) : option string :=
  match p, s with
  | EmptyString, _ => Some s
  | String c p', String d s' => if Ascii.eqb c d then strip_prefix p' s' else None
  | _, _ => None
  end.
Definition TrimPrefix (s p : string) : string :=
  match strip_prefix p s with Some s' => s' | None => s end.

(** [strings.HasSuffix] and [strings.TrimSuffix] with a one-byte suffix. *)
Fixpoint split_last (s : string) : option (string * ascii) :=
  match s with
  | EmptyString => None
  | String c s' =>
      match split_last s' with
      | None => Some (EmptyString, c)
      | Some (i, l) => Some (String c i, l)
      end
  end.
Definition strip_suffix_byte (c : ascii) (s : string) : option string :=
  match split_last s with
  | Some (i, l) => if Ascii.eqb l c then Some i else None
  | None => None
  end.
Definition HasSuffix_byte (s : string) (c : ascii) : bool :=
  match strip_suffix_byte c s with Some _ => true | None => false end.
Definition TrimSuffix_byte (s : string) (c : ascii) : string :=
  match strip_suffix_byte c s with Some i => i | None => s end.

(** [strings.Trim] with a one-byte ASCII cutset. *)
Definition Trim_byte (s : string) (c : ascii) : string :=
  String.string_of_list_ascii
    (trim_both (Ascii.eqb c) (String.list_ascii_of_string s)).

(** [strings.Cut] with a one-byte separator. *)
Fixpoint Cut_byte (s : string) (c : ascii) : option (string * string) :=
  match s with
  | EmptyString => None
  | String d s' =>
      if Ascii.eqb d c then Some (EmptyString, s')
      else match Cut_byte s' c with
           | Some (a, b) => Some (String d a, b)
           | None => None
           end
  end.

(** [strings.Split] and [strings.SplitSeq] with a one-byte separator. *)
Fixpoint Split_byte (s : string) (c : ascii) : list string :=
  match s with
  | EmptyString => [EmptyString]
  | String d s' =>
      if Ascii.eqb d c then EmptyString :: Split_byte s' c
      else match Split_byte s' c with
           | [] => [String d EmptyString]
           | a :: l => String d a :: l
           end
  end.

(** [strings.Join]. *)
Fixpoint Join (l : list string) (sep : string) : string :=
  match l with
  | [] => EmptyString
  | [s] => s
  | s :: l' => s +:+ sep +:+ Join l' sep
  end.

(** ** [sort.Strings] *)

Fixpoint string_leb (s t : string) : bool :=
  match s, t with
  | EmptyString, _ => true
  | String _ _, EmptyString => false
  | String a s', String b t' =>
      (byte_of a <? byte_of b) || ((byte_of a =? byte_of b) && string_leb s' t')
  end.
Definition string_le (s t : string) : Prop := string_leb s t = true.
#[export] Instance string_le_dec s t : Decision (string_le s t).
Proof. unfold string_le. apply _. Defined.

Definition sort_Strings (l : list string) : list string := merge_sort string_le l.

#[export] Instance string_le_total : Total string_le.
Proof.
  intros s. unfold string_le. induction s as [| a s IH]; intros [| b t]; simpl; auto.
  destruct (Z.ltb_spec (byte_of a) (byte_of b)); simpl; auto.
  destruct (Z.ltb_spec (byte_of b) (byte_of a)); simpl; auto.
  replace (byte_of a =? byte_of b) with true by (symmetry; apply Z.eqb_eq; lia).
  replace (byte_of b =? byte_of a) with true by (symmetry; apply Z.eqb_eq; lia).
  simpl. apply IH.
Qed.

#[export] Instance string_le_trans : Transitive string_le.
Proof.
  intros s. unfold string_le. induction s as [| a s IH]; intros [| b t] [| c u];
    simpl; try done.
  rewrite !orb_true_iff, !andb_true_iff, !Z.ltb_lt, !Z.eqb_eq.
  intros [? | [? ?]] [? | [? ?]]; [left; lia .. |].
  right. split; [lia | eauto].
Qed.

#[export] Instance string_le_antisymm : AntiSymm (=) string_le.
Proof.
  intros s. unfold string_le. induction s as [| a s IH]; intros [| b t]; simpl; try done.
  rewrite !orb_true_iff, !andb_true_iff, !Z.ltb_lt, !Z.eqb_eq.
  intros [? | [E ?]] [? | [? ?]]; try lia.
  apply byte_of_inj in E as ->. f_equal. auto.
Qed.

Lemma sort_Strings_perm l : sort_Strings l ≡ₚ l.
Proof. apply merge_sort_Permutation. Qed.

Lemma sort_Strings_sorted l : StronglySorted string_le (sort_Strings l).
Proof. apply StronglySorted_merge_sort; apply _. Qed.

(** Sorting forgets the order of its input. *)
Lemma sort_Strings_proper l k : l ≡ₚ k -> sort_Strings l = sort_Strings k.
Proof.
  intros E. apply (StronglySorted_unique string_le).
  - apply sort_Strings_sorted.
  - apply sort_Strings_sorted.
  - by rewrite !sort_Strings_perm.
Qed.

(** ** ASCII text that [ToLower] and [TrimSpace] leave alone *)

Lemma concat_singletons l :
  concat_strings ((fun c => String c "") <$> l) = String.string_of_list_ascii l.
Proof.
  induction l as [| c l IH]; [done |]. rewrite fmap_cons.
  cbn [concat_strings String.append String.string_of_list_ascii]. by rewrite IH.
Qed.

Lemma runes_ascii_all s :
  all_bytes is_ascii s = true ->
  runes s = (fun c => (byte_of c, String c "")) <$> String.list_ascii_of_string s.
Proof.
  intros Hs. rewrite <- (append_nil_r s) at 1. rewrite runes_ascii by done.
  apply app_nil_r.
Qed.

Lemma all_bytes_Forall P s :
  all_bytes P s = true <->
  Forall (fun c => P (byte_of c) = true) (String.list_ascii_of_string s).
Proof.
  induction s as [| c s IH]; simpl; [by split; [constructor |] |].
  by rewrite andb_true_iff, Forall_cons, IH.
Qed.

Lemma string_list_ascii s : String.string_of_list_ascii (String.list_ascii_of_string s) = s.
Proof. apply String.string_of_list_ascii_of_string. Qed.

Lemma encode_ascii r : 0 <= r < 128 -> encode_rune r = String (chr r) "".
Proof.
  intros Hr. unfold encode_rune, between.
  replace ((0 <=? r) && (r <=? 0x10FFFF) && negb ((0xD800 <=? r) && (r <=? 0xDFFF))) with true by lia.
  by replace (r <? 0x80) with true by lia.
Qed.

Definition is_plain (b : Z) : bool := is_ascii b && negb (between 65 90 b).

Lemma ToLower_id `{UnicodeData} s : all_bytes is_plain s = true -> ToLower s = s.
Proof.
  intros Hs. unfold ToLower. rewrite runes_ascii_all.
  2:{ eapply all_bytes_impl; [| exact Hs]. unfold is_plain. intros b. rewrite andb_true_iff. tauto. }
  rewrite <- list_fmap_compose, <- (string_list_ascii s) at 1.
  apply all_bytes_Forall in Hs.
  transitivity (concat_strings ((fun c => String c "") <$> String.list_ascii_of_string s)).
  - f_equal. rewrite string_list_ascii. apply list_fmap_ext. intros i c Hc.
    rewrite Forall_lookup in Hs. specialize (Hs i c Hc).
    unfold is_plain, is_ascii in Hs. unfold compose, rune_ToLower. cbn [fst].
    pose proof (byte_of_range c). destruct (byte_of c <? 128) eqn:?; [| done].
    destruct (between 65 90 (byte_of c)) eqn:?; [done |].
    rewrite encode_ascii by lia. by rewrite chr_byte_of.
  - rewrite concat_singletons. apply string_list_ascii.
Qed.

Definition is_ink (b : Z) : bool := is_ascii b && negb (is_space b).

Lemma TrimSpace_id s : all_bytes is_ink s = true -> TrimSpace s = s.
Proof.
  intros Hs. unfold TrimSpace. rewrite trim_both_id; [apply runes_concat | |];
    intros x Hx;
    (assert (x ∈ runes s) as Hin by (first [by apply head_elem_of | by apply last_elem_of]));
    (rewrite runes_ascii_all in Hin by
      (eapply all_bytes_impl; [| exact Hs]; unfold is_ink; intros b; rewrite andb_true_iff; tauto));
    apply list_elem_of_fmap in Hin as (c & -> & Hc); apply all_bytes_Forall in Hs;
    rewrite Forall_forall in Hs; specialize (Hs c Hc); unfold is_ink in Hs;
    rewrite andb_true_iff, negb_true_iff in Hs; apply Hs.
Qed.

Lemma list_ascii_app s t :
  String.list_ascii_of_string (s +:+ t) =
  String.list_ascii_of_string s ++ String.list_ascii_of_string t.
Proof. induction s as [| c s IH]; simpl; [done |]. by rewrite IH. Qed.
