(* ===== verification/Strconv.v ===== *)
(** * Strconv: decimal integers, escapes, encodings and paths

    The parts of Go's [strconv], [encoding/hex], [encoding/base64], [net/url]
    and [path/filepath] the operator uses. *)

From S2P Require Import Prelude GoText.
From Stdlib Require Import Ascii.

Open Scope Z_scope.

(** ** Decimal integers *)

Definition digit_char (d : Z) : ascii := chr (48 + d).
Definition is_digit (b : Z) : bool := between 48 57 b.

Fixpoint dec_digits (fuel : nat) (n : Z) (acc : string) : string :=
  match fuel with
  | O => acc
  | S f =>
      let acc' := String (digit_char (n mod 10)) acc in
      if n <? 10 then acc' else dec_digits f (n / 10) acc'
  end.

(** [strconv.FormatInt(z, 10)] (the [%d] verb).  The fuel is the number of bits
    of the magnitude, more than its number of decimal digits. *)
Definition FormatInt (z : Z) : string :=
  let digits n := dec_digits (S (Z.to_nat (Z.log2 n))) n EmptyString in
  if z <? 0 then String "-" (digits (- z)) else digits z.

Fixpoint parse_digits (acc : Z) (s : string) : option Z :=
  match s with
  | EmptyString => Some acc
  | String c s' =>
      if is_digit (byte_of c) then parse_digits (acc * 10 + (byte_of c - 48)) s'
      else None
  end.

Definition parse_uint (s : string) : option Z :=
  match s with EmptyString => None | _ => parse_digits 0 s end.

(** [strconv.ParseInt(s, 10, 64)], [None] for its syntax and range errors. *)
Definition ParseInt (s : string) : option Z :=
  let '(neg, u) :=
    match s with
    | String c s' => if Ascii.eqb c "+" then (false, s')
                     else if Ascii.eqb c "-" then (true, s') else (false, s)
    | EmptyString => (false, s)
    end in
  match parse_uint u with
  | None => None
  | Some v =>
      if neg then (if v <=? 2 ^ 63 then Some (- v) else None)
      else (if v <? 2 ^ 63 then Some v else None)
  end.

Lemma digit_char_byte d : 0 <= d < 10 -> byte_of (digit_char d) = 48 + d.
Proof. intros Hd. apply byte_of_chr. lia. Qed.

Lemma dec_digits_parse fuel n acc :
  0 <= n < 2 ^ Z.of_nat fuel ->
  parse_digits 0 (dec_digits fuel n acc) = parse_digits n acc.
Proof.
  revert n acc. induction fuel as [| f IH]; intros n acc Hn.
  { simpl in *. change (2 ^ 0) with 1 in Hn. by replace n with 0 by lia. }
  cbn [dec_digits].
  assert (2 ^ Z.of_nat (S f) = 2 * 2 ^ Z.of_nat f) as E
    by (rewrite Nat2Z.inj_succ, Z.pow_succ_r; lia).
  pose proof (Z.mod_pos_bound n 10) as Hm. pose proof (Z.div_mod n 10) as Hdm.
  assert (forall a, parse_digits a (String (digit_char (n mod 10)) acc)
                    = parse_digits (a * 10 + n mod 10) acc) as Hstep.
  { intros a. cbn [parse_digits]. rewrite digit_char_byte by lia.
    unfold is_digit, between.
    replace ((48 <=? 48 + n mod 10) && (48 + n mod 10 <=? 57)) with true by lia.
    f_equal. lia. }
  destruct (Z.ltb_spec n 10).
  - rewrite Hstep. f_equal. rewrite Z.mod_small; lia.
  - rewrite IH by (split; [apply Z.div_pos; lia |]; apply Z.div_lt_upper_bound; lia).
    rewrite Hstep. f_equal. lia.
Qed.

Lemma dec_digits_head fuel n acc :
  0 <= n -> exists c s, dec_digits (S fuel) n acc = String c s /\ is_digit (byte_of c) = true.
Proof.
  revert n acc. induction fuel as [| f IH]; intros n acc Hn.
  - exists (digit_char (n mod 10)), acc. pose proof (Z.mod_pos_bound n 10).
    rewrite digit_char_byte by lia. unfold is_digit, between.
    split; [by destruct (n <? 10) eqn:E; simpl; rewrite ?E | lia].
  - set (g := S f) in *. cbn [dec_digits]. destruct (n <? 10).
    + exists (digit_char (n mod 10)), acc. pose proof (Z.mod_pos_bound n 10).
      rewrite digit_char_byte by lia. unfold is_digit, between. split; [done | lia].
    + apply IH, Z.div_pos; lia.
Qed.

Lemma dec_digits_all fuel n acc :
  0 <= n -> all_bytes is_digit acc = true -> all_bytes is_digit (dec_digits fuel n acc) = true.
Proof.
  revert n acc. induction fuel as [| f IH]; intros n acc Hn Hacc; [done |].
  pose proof (Z.mod_pos_bound n 10).
  assert (all_bytes is_digit (String (digit_char (n mod 10)) acc) = true) as Hacc'.
  { cbn [all_bytes]. rewrite Hacc, digit_char_byte by lia.
    unfold is_digit, between. lia. }
  cbn [dec_digits]. destruct (n <? 10); [done |].
  apply IH; [apply Z.div_pos; lia | done].
Qed.

Lemma log2_fuel n : 0 <= n -> n < 2 ^ Z.of_nat (S (Z.to_nat (Z.log2 n))).
Proof.
  intros Hn. rewrite Nat2Z.inj_succ, Z2Nat.id by apply Z.log2_nonneg.
  destruct (Z.eq_dec n 0) as [-> | ?]; [done |]. apply Z.log2_spec. lia.
Qed.

(** A non-negative number is printed as decimal digits, at least one. *)
Lemma FormatInt_digits z : 0 <= z -> all_bytes is_digit (FormatInt z) = true.
Proof.
  intros Hz. unfold FormatInt. destruct (Z.ltb_spec z 0); [lia |].
  by apply dec_digits_all.
Qed.

Lemma FormatInt_head z :
  0 <= z -> exists c s, FormatInt z = String c s /\ is_digit (byte_of c) = true.
Proof.
  intros Hz. unfold FormatInt. destruct (Z.ltb_spec z 0); [lia |].
  by apply dec_digits_head.
Qed.

Lemma parse_uint_FormatInt z : 0 <= z -> parse_uint (FormatInt z) = Some z.
Proof.
  intros Hz. destruct (FormatInt_head z Hz) as (c & s & E & _).
  unfold parse_uint. rewrite E, <- E. unfold FormatInt.
  destruct (Z.ltb_spec z 0); [lia |].
  rewrite dec_digits_parse by (split; [lia | by apply log2_fuel]). done.
Qed.

(** Reading back what was printed. *)
Lemma ParseInt_FormatInt z : in_int64 z -> ParseInt (FormatInt z) = Some z.
Proof.
  unfold in_int64. intros Hz. destruct (Z.ltb_spec z 0).
  - assert (FormatInt z = String "-" (FormatInt (- z))) as ->.
    { unfold FormatInt. replace (z <? 0) with true by lia.
      by replace (- z <? 0) with false by lia. }
    change (match parse_uint (FormatInt (- z)) with
            | None => None
            | Some v => if v <=? 2 ^ 63 then Some (- v) else None
            end = Some z).
    rewrite parse_uint_FormatInt by lia.
    replace (- z <=? 2 ^ 63) with true by lia. f_equal. lia.
  - destruct (FormatInt_head z) as (c & s & E & Hc); [lia |].
    assert (parse_uint (FormatInt z) = Some z) as Hp by (apply parse_uint_FormatInt; lia).
    unfold ParseInt. rewrite E in *.
    assert (Ascii.eqb c "+" = false) as ->.
    { apply Ascii.eqb_neq. intros ->. unfold is_digit, between in Hc. by vm_compute in Hc. }
    assert (Ascii.eqb c "-" = false) as ->.
    { apply Ascii.eqb_neq. intros ->. unfold is_digit, between in Hc. by vm_compute in Hc. }
    rewrite Hp. by replace (z <? 2 ^ 63) with true by lia.
Qed.

(** [strconv.ParseInt] answers an [int64]. *)
Lemma ParseInt_range s z : ParseInt s = Some z -> in_int64 z.
Proof.
  assert (forall u a v, 0 <= a -> parse_digits a u = Some v -> 0 <= v) as Hpos.
  { induction u as [| c u IH]; simpl; intros a v Ha.
    - by intros [= ->].
    - unfold is_digit, between. case_match eqn:Hd; [| done]. apply IH. lia. }
  unfold ParseInt, in_int64. intros Hz.
  assert (forall u v, parse_uint u = Some v -> 0 <= v) as Hu.
  { intros [| c u] v; [done |]. apply Hpos. lia. }
  repeat case_match; simplify_eq; try lia;
    match goal with H : parse_uint _ = Some _ |- _ => apply Hu in H end; lia.
Qed.

(** ** Escapes and encodings *)

Definition hex_digit_lower (d : Z) : ascii := if d <? 10 then chr (48 + d) else chr (87 + d).
Definition hex_digit_upper (d : Z) : ascii := if d <? 10 then chr (48 + d) else chr (55 + d).

(** [hex.EncodeToString]. *)
Fixpoint hex_EncodeToString (s : string) : string :=
  match s with
  | EmptyString => EmptyString
  | String c s' =>
      String (hex_digit_lower (byte_of c / 16))
        (String (hex_digit_lower (byte_of c mod 16)) (hex_EncodeToString s'))
  end.

(** The [n] low hexadecimal digits of [r]. *)
Fixpoint hex_digits (n : nat) (r : Z) (acc : string) : string :=
  match n with
  | O => acc
  | S n' => hex_digits n' (r / 16) (String (hex_digit_lower (r mod 16)) acc)
  end.

(** [strconv.Quote] (the [%q] verb). *)
Definition quote_rune `{UnicodeData} (c : Z * string) : string :=
  let '(r, bytes) := c in
  if (r =? 34) || (r =? 92) then String (chr 92) bytes
  else if (r =? RuneError) && (String.length bytes =? 1)%nat then
    match bytes with
    | String b _ => String (chr 92) (String "x" (hex_digits 2 (byte_of b) ""))
    | EmptyString => EmptyString
    end
  else if (if r <? 0x80 then between 0x20 0x7E r else u_IsPrint r) then bytes
  else match r with
  | 7 => String (chr 92) "a" | 8 => String (chr 92) "b" | 12 => String (chr 92) "f"
  | 10 => String (chr 92) "n" | 13 => String (chr 92) "r" | 9 => String (chr 92) "t"
  | 11 => String (chr 92) "v"
  | _ =>
      if (r <? 0x20) || (r =? 0x7F) then String (chr 92) (String "x" (hex_digits 2 r ""))
      else if r <? 0x10000 then String (chr 92) (String "u" (hex_digits 4 r ""))
      else String (chr 92) (String "U" (hex_digits 8 r ""))
  end.
Definition Quote `{UnicodeData} (s : string) : string :=
  String (chr 34) (concat_strings (quote_rune <$> runes s) +:+ String (chr 34) "").

(** [base64.URLEncoding.EncodeToString]. *)
Definition base64url_char (d : Z) : ascii :=
  if d <? 26 then chr (65 + d) else if d <? 52 then chr (71 + d)
  else if d <? 62 then chr (d - 4) else if d =? 62 then "-"%char else "_"%char.
Fixpoint base64url_EncodeToString (s : string) : string :=
  match s with
  | EmptyString => EmptyString
  | String a EmptyString =>
      let x := byte_of a * 16 in
      String (base64url_char (x / 64)) (String (base64url_char (x mod 64)) "==")
  | String a (String b EmptyString) =>
      let x := (byte_of a * 256 + byte_of b) * 4 in
      String (base64url_char (x / 4096))
        (String (base64url_char (x / 64 mod 64))
          (String (base64url_char (x mod 64)) "="))
  | String a (String b (String c s')) =>
      let x := (byte_of a * 256 + byte_of b) * 256 + byte_of c in
      String (base64url_char (x / 262144))
        (String (base64url_char (x / 4096 mod 64))
          (String (base64url_char (x / 64 mod 64))
            (String (base64url_char (x mod 64)) (base64url_EncodeToString s'))))
  end.

(** [url.QueryEscape]. *)
Definition url_unreserved (b : Z) : bool :=
  between 48 57 b || between 65 90 b || between 97 122 b
  || (b =? 45) || (b =? 46) || (b =? 95) || (b =? 126).
Fixpoint QueryEscape (s : string) : string :=
  match s with
  | EmptyString => EmptyString
  | String c s' =>
      let b := byte_of c in
      if url_unreserved b then String c (QueryEscape s')
      else if b =? 32 then String "+" (QueryEscape s')
      else String "%" (String (hex_digit_upper (b / 16))
             (String (hex_digit_upper (b mod 16)) (QueryEscape s')))
  end.

(** ** Paths *)

(** One step of [filepath.Clean] over the slash-separated elements: [out] is
    the cleaned prefix, last element first. *)
Definition clean_step (rooted : bool) (out : list string) (e : string) : list string :=
  if eqb_str e "" || eqb_str e "." then out
  else if eqb_str e ".." then
    match out with
    | [] => if rooted then [] else [".."]
    | o :: out' => if eqb_str o ".." then ".." :: out else out'
    end
  else e :: out.

(** [filepath.Clean]. *)
Definition Clean (p : string) : string :=
  let rooted := match p with String c _ => Ascii.eqb c "/" | EmptyString => false end in
  let body := Join (reverse (foldl (clean_step rooted) [] (Split_byte p "/"))) "/" in
  if rooted then String "/" body
  else match body with EmptyString => "." | _ => body end.

(** [filepath.Join(a, b)]. *)
Definition path_Join (a b : string) : string :=
  match a, b with
  | EmptyString, EmptyString => EmptyString
  | EmptyString, _ => Clean b
  | _, EmptyString => Clean a
  | _, _ => Clean (a +:+ String "/" b)
  end.

Example Clean_ex : Clean "a//b/./../c" = "a/c".
Proof. vm_compute. reflexivity. Qed.
Example base64_ex : base64url_EncodeToString "Man?a" = "TWFuP2E=".
Proof. vm_compute. reflexivity. Qed.
Example QueryEscape_ex : QueryEscape "ws://t.n.svc:8081/ws" = "ws%3A%2F%2Ft.n.svc%3A8081%2Fws".
Proof. vm_compute. reflexivity. Qed.
