(* ===== verification/Url.v ===== *)
(** * Url: Go's [net/url], as the tunnel uses it

    Escaping and unescaping by the part of the URL, query strings as multimaps
    ([Values]), [url.Parse] and [URL.String].  What [url.Parse] makes of a host in
    square brackets depends on [net/netip] and is a parameter. *)

From S2P Require Import Prelude GoText Strconv.
From Stdlib Require Import Ascii.

Open Scope Z_scope.

(** The hosts [url.Parse] accepts in square brackets, port included. *)
Class IPLiterals := parse_ip_literal : string -> result string.

(** ** Escaping *)

Inductive encoding :=
| encodePath | encodeHost | encodeUserPassword | encodeQueryComponent | encodeFragment.
#[export] Instance encoding_eq_dec : EqDecision encoding.
Proof. solve_decision. Defined.

(** [c] is one of the bytes of [s]. *)
Fixpoint byte_in (c : ascii) (s : string) : bool :=
  match s with
  | EmptyString => false
  | String d s' => Ascii.eqb d c || byte_in c s'
  end.

Definition alphanumeric (b : Z) : bool := between 48 57 b || between 65 90 b || between 97 122 b.

Definition shouldEscape (c : ascii) (mode : encoding) : bool :=
  if alphanumeric (byte_of c) then false
  else if bool_decide (mode = encodeHost) &&
          (byte_in c "!$&'()*+,;=:[]<>" || (byte_of c =? 34)) then false
  else if byte_in c "-_.~" then false
  else if byte_in c "$&+,/:;=?@" then
    match mode with
    | encodePath => Ascii.eqb c "?"
    | encodeUserPassword => byte_in c "@/?:"
    | encodeQueryComponent => true
    | encodeFragment => false
    | encodeHost => true
    end
  else negb (bool_decide (mode = encodeFragment) && byte_in c "!()*").

Fixpoint escape (mode : encoding) (s : string) : string :=
  match s with
  | EmptyString => EmptyString
  | String c s' =>
      if shouldEscape c mode then
        if bool_decide (mode = encodeQueryComponent) && Ascii.eqb c " " then
          String "+" (escape mode s')
        else
          String "%" (String (hex_digit_upper (byte_of c / 16))
            (String (hex_digit_upper (byte_of c mod 16)) (escape mode s')))
      else String c (escape mode s')
  end.

Definition unhex (c : ascii) : option Z :=
  let b := byte_of c in
  if between 48 57 b then Some (b - 48)
  else if between 97 102 b then Some (b - 87)
  else if between 65 70 b then Some (b - 55)
  else None.

Section errors.
Context `{UnicodeData}.

Definition EscapeError (s : string) : error := new_error ("invalid URL escape " +:+ Quote s).
Definition InvalidHostError (s : string) : error :=
  new_error ("invalid character " +:+ Quote s +:+ " in host name").

Definition cons_ok (c : ascii) (r : result string) : result string :=
  match r with Ok s => Ok (String c s) | Err e => Err e end.

(** The error is that of the first byte at fault. *)
Fixpoint unescape (mode : encoding) (s : string) : result string :=
  match s with
  | EmptyString => Ok EmptyString
  | String c s' =>
      if Ascii.eqb c "%" then
        match s' with
        | String h (String l rest) =>
            match unhex h, unhex l with
            | Some x, Some y =>
                if bool_decide (mode = encodeHost) && (x <? 8) && negb (x * 16 + y =? 37) then
                  Err (EscapeError (String c (String h (String l EmptyString))))
                else cons_ok (chr (x * 16 + y)) (unescape mode rest)
            | _, _ => Err (EscapeError (String c (String h (String l EmptyString))))
            end
        | _ => Err (EscapeError s)
        end
      else if Ascii.eqb c "+" then
        cons_ok (if decide (mode = encodeQueryComponent) then " "%char else "+"%char) (unescape mode s')
      else if bool_decide (mode = encodeHost) && is_ascii (byte_of c) && shouldEscape c mode then
        Err (InvalidHostError (String c EmptyString))
      else cons_ok c (unescape mode s')
  end.

Definition QueryUnescape (s : string) : result string := unescape encodeQueryComponent s.
End errors.

(** ** Query strings *)

(** [url.Values]. *)
Abbreviation Values := (gmap string (list string)).

Definition values_Get (key : string) (v : Values) : string :=
  match v !! key with Some (x :: _) => x | _ => EmptyString end.
Definition values_Set (key value : string) (v : Values) : Values := <[ key := [value] ]> v.

(** What is before and after the first [c]; all of [s] when there is none. *)
Definition cut (s : string) (c : ascii) : string * string :=
  match Cut_byte s c with Some p => p | None => (s, EmptyString) end.

(** The value [url.ParseQuery] takes from the text between two ampersands. *)
Definition parse_pair `{UnicodeData} (text : string) : option (string * string) :=
  if byte_in ";" text || eqb_str text "" then None
  else
    let '(key, value) := cut text "=" in
    match QueryUnescape key, QueryUnescape value with
    | Ok k, Ok v => Some (k, v)
    | _, _ => None
    end.

Definition add_pair (m : Values) (kv : string * string) : Values :=
  <[ kv.1 := default [] (m !! kv.1) ++ [kv.2] ]> m.

(** The number of parameters above which [url.ParseQuery] refuses a query. *)
Definition max_params : Z := 10000.

(** [url.ParseQuery] with its error ignored, as [URL.Query] does. *)
Definition ParseQuery `{UnicodeData} (query : string) : Values :=
  let pairs := Split_byte query "&" in
  if max_params <? Z.of_nat (length pairs) then ∅
  else foldl add_pair ∅ (omap parse_pair pairs).

(** [Values.Encode]: by key, in the order of [sort.Strings]. *)
Definition pairs_of (v : Values) (key : string) : list (string * string) :=
  (fun x => (key, x)) <$> default [] (v !! key).
Definition encode_pair (kv : string * string) : string :=
  QueryEscape kv.1 +:+ "=" +:+ QueryEscape kv.2.
Definition sorted_keys (v : Values) : list string := sort_Strings (map_to_list v).*1.
Definition Encode (v : Values) : string :=
  Join (encode_pair <$> mbind (M:=list) (pairs_of v) (sorted_keys v)) "&".

(** ** URLs *)

Record Userinfo := mkUserinfo { username : string; password : option string }.

Record URL := mkURL {
  url_Scheme : string;
  url_Opaque : string;
  url_User : option Userinfo;
  url_Host : string;
  url_Path : string;
  url_RawPath : string;
  url_OmitHost : bool;
  url_ForceQuery : bool;
  url_RawQuery : string;
  url_Fragment : string;
  url_RawFragment : string;
}.

Definition set_RawQuery (q : string) (u : URL) : URL :=
  mkURL (url_Scheme u) (url_Opaque u) (url_User u) (url_Host u) (url_Path u) (url_RawPath u)
    (url_OmitHost u) (url_ForceQuery u) q (url_Fragment u) (url_RawFragment u).

(** [u.Query()]. *)
Definition Query `{UnicodeData} (u : URL) : Values := ParseQuery (url_RawQuery u).

(** ** [url.Parse] *)

Inductive scheme_scan :=
| NoScheme
| MissingScheme
| Scheme (scheme rest : string).

(** The loop of [getScheme]; [first] at the first byte. *)
Fixpoint scan_scheme (first : bool) (s : string) : scheme_scan :=
  match s with
  | EmptyString => NoScheme
  | String c s' =>
      let b := byte_of c in
      if between 97 122 b || between 65 90 b || (negb first && (between 48 57 b || byte_in c "+-."))
      then match scan_scheme false s' with
           | Scheme scheme rest => Scheme (String c scheme) rest
           | r => r
           end
      else if Ascii.eqb c ":" then
        if first then MissingScheme else Scheme EmptyString s'
      else NoScheme
  end.

Definition getScheme (rawURL : string) : result (string * string) :=
  match scan_scheme true rawURL with
  | NoScheme => Ok (EmptyString, rawURL)
  | MissingScheme => Err (new_error "missing protocol scheme")
  | Scheme scheme rest => Ok (scheme, rest)
  end.

(** What is before and after the last [c]. *)
Fixpoint cut_last (s : string) (c : ascii) : option (string * string) :=
  match s with
  | EmptyString => None
  | String d s' =>
      match cut_last s' c with
      | Some (a, b) => Some (String d a, b)
      | None => if Ascii.eqb d c then Some (EmptyString, s') else None
      end
  end.

Definition is_digit_byte (b : Z) : bool := between 48 57 b.

Definition is_ctl (b : Z) : bool := (b <? 32) || (b =? 127).

(** The bytes of [validUserinfo]; every other rune is refused. *)
Definition userinfo_byte (b : Z) : bool :=
  alphanumeric b || existsb (fun c => byte_of c =? b) (String.list_ascii_of_string "-._:~!$&'()*+,;=%@").

Definition starts_with (p s : string) : bool :=
  match strip_prefix p s with Some _ => true | None => false end.

Section parse.
Context `{UnicodeData, IPLiterals}.

Definition parseHost (host : string) : result string :=
  if byte_in "[" host then parse_ip_literal host
  else
    match cut_last host ":" with
    | Some (_, port) =>
        if all_bytes is_digit_byte port then unescape encodeHost host
        else Err (new_error ("invalid port " +:+ Quote (":" +:+ port) +:+ " after host"))
    | None => unescape encodeHost host
    end.

Definition parse_userinfo (userinfo : string) : result Userinfo :=
  if negb (all_bytes userinfo_byte userinfo) then Err (new_error "net/url: invalid userinfo")
  else
    match Cut_byte userinfo ":" with
    | None =>
        match unescape encodeUserPassword userinfo with
        | Ok name => Ok (mkUserinfo name None)
        | Err e => Err e
        end
    | Some (name, pass) =>
        match unescape encodeUserPassword name, unescape encodeUserPassword pass with
        | Ok name, Ok pass => Ok (mkUserinfo name (Some pass))
        | Err e, _ => Err e
        | _, Err e => Err e
        end
    end.

Definition parseAuthority (authority : string) : result (option Userinfo * string) :=
  match cut_last authority "@" with
  | None => match parseHost authority with Ok host => Ok (None, host) | Err e => Err e end
  | Some (userinfo, rest) =>
      match parseHost rest with
      | Err e => Err e
      | Ok host =>
          match parse_userinfo userinfo with
          | Ok user => Ok (Some user, host)
          | Err e => Err e
          end
      end
  end.

(** [rest], before and from the first slash. *)
Definition cut_slash (s : string) : string * string :=
  match Cut_byte s "/" with Some (a, b) => (a, String "/" b) | None => (s, EmptyString) end.

(** The end of [url.parse]: user and host when there is an authority, and the
    path. *)
Definition parse_hierarchy (scheme : string) (force : bool) (query rest : string) : result URL :=
  let finish user host omit path_text :=
    match unescape encodePath path_text with
    | Err e => Err e
    | Ok path =>
        Ok (mkURL scheme "" user host path
              (if eqb_str path_text (escape encodePath path) then EmptyString else path_text)
              omit force query "" "")
    end in
  let slashes := (negb (eqb_str scheme "") || negb (starts_with "///" rest)) in
  match strip_prefix "//" rest with
  | Some after =>
      if slashes then
        let '(authority, path_text) := cut_slash after in
        match parseAuthority authority with
        | Err e => Err e
        | Ok (user, host) => finish user host false path_text
        end
      else finish None "" false rest
  | None => finish None "" (negb (eqb_str scheme "") && starts_with "/" rest) rest
  end.

Definition cut_query (rest : string) : string * bool * string :=
  match Cut_byte rest "?" with
  | Some (a, EmptyString) => (a, true, EmptyString)
  | Some (a, q) => (a, false, q)
  | None => (rest, false, EmptyString)
  end.

(** [url.parse] with [viaRequest] false. *)
Definition parse (rawURL : string) : result URL :=
  if negb (all_bytes (fun b => negb (is_ctl b)) rawURL) then
    Err (new_error "net/url: invalid control character in URL")
  else if eqb_str rawURL "*" then Ok (mkURL "" "" None "" "*" "" false false "" "" "")
  else
    match getScheme rawURL with
    | Err e => Err e
    | Ok (scheme, rest) =>
        let scheme := ToLower scheme in
        let '(rest, force, query) := cut_query rest in
        if starts_with "/" rest then parse_hierarchy scheme force query rest
        else if negb (eqb_str scheme "") then
          Ok (mkURL scheme rest None "" "" "" false force query "" "")
        else if byte_in ":" (cut rest "/").1 then
          Err (new_error "first path segment in URL cannot contain colon")
        else parse_hierarchy scheme force query rest
    end.

(** [url.Error], of operation [parse]. *)
Definition parse_error (text : string) (e : error) : error :=
  wrap_error ("parse " +:+ Quote text +:+ ": " +:+ err_msg e) e.

(** [url.Parse]. *)
Definition Parse (rawURL : string) : result URL :=
  let '(text, frag) := cut rawURL "#" in
  match parse text with
  | Err e => Err (parse_error text e)
  | Ok u =>
      if eqb_str frag "" then Ok u
      else
        match unescape encodeFragment frag with
        | Err e => Err (parse_error rawURL e)
        | Ok f =>
            Ok (mkURL (url_Scheme u) (url_Opaque u) (url_User u) (url_Host u) (url_Path u)
                  (url_RawPath u) (url_OmitHost u) (url_ForceQuery u) (url_RawQuery u) f
                  (if eqb_str frag (escape encodeFragment f) then EmptyString else frag))
        end
  end.

(** ** [URL.String] *)

(** [validEncoded]. *)
Fixpoint validEncoded (mode : encoding) (s : string) : bool :=
  match s with
  | EmptyString => true
  | String c s' => (byte_in c "!$&'()*+,;=:@[]%" || negb (shouldEscape c mode)) && validEncoded mode s'
  end.

(** A part of the URL as it was written, when that is a valid encoding of it. *)
Definition escaped_part (mode : encoding) (raw text : string) : string :=
  if negb (eqb_str raw "") && validEncoded mode raw &&
     match unescape mode raw with Ok t => eqb_str t text | Err _ => false end
  then raw else escape mode text.

Definition EscapedPath (u : URL) : string :=
  if negb (eqb_str (url_RawPath u) "") && validEncoded encodePath (url_RawPath u) &&
     match unescape encodePath (url_RawPath u) with
     | Ok t => eqb_str t (url_Path u)
     | Err _ => false
     end
  then url_RawPath u
  else if eqb_str (url_Path u) "*" then "*"%stdpp
  else escape encodePath (url_Path u).
Definition EscapedFragment (u : URL) : string :=
  escaped_part encodeFragment (url_RawFragment u) (url_Fragment u).

Definition userinfo_String (ui : Userinfo) : string :=
  match password ui with
  | Some p =>
      escape encodeUserPassword (username ui) +:+ ":" +:+ escape encodeUserPassword p
  | None => escape encodeUserPassword (username ui)
  end.

(** The authority with its slashes. *)
Definition authority_String (u : URL) : string :=
  match url_User u with
  | None =>
      if eqb_str (url_Host u) "" then
        if negb (eqb_str (url_Scheme u) "") && negb (url_OmitHost u) && negb (eqb_str (url_Path u) "")
        then "//"%stdpp else EmptyString
      else "//" +:+ escape encodeHost (url_Host u)
  | Some ui => "//" +:+ userinfo_String ui +:+ "@" +:+ escape encodeHost (url_Host u)
  end.

Definition url_String (u : URL) : string :=
  let scheme := if eqb_str (url_Scheme u) "" then EmptyString else url_Scheme u +:+ ":" in
  let hier :=
    if negb (eqb_str (url_Opaque u) "") then scheme +:+ url_Opaque u
    else
      let before := scheme +:+ authority_String u in
      let path := EscapedPath u in
      before +:+
        (if negb (eqb_str path "") && negb (starts_with "/" path) && negb (eqb_str (url_Host u) "")
         then "/"%stdpp
         else if eqb_str before "" && byte_in ":" (cut path "/").1 then "./"%stdpp
         else EmptyString) +:+ path in
  hier +:+
  (if url_ForceQuery u || negb (eqb_str (url_RawQuery u) "") then "?" +:+ url_RawQuery u else EmptyString) +:+
  (if eqb_str (url_Fragment u) "" then EmptyString else "#" +:+ EscapedFragment u).
End parse.

(** ** Round trips *)

Lemma chr_byte b : 0 <= b < 256 -> chr (byte_of (chr b)) = chr b.
Proof. intros. by rewrite chr_byte_of. Qed.

Lemma unhex_upper d : 0 <= d < 16 -> unhex (hex_digit_upper d) = Some d.
Proof.
  intros Hd. unfold unhex, hex_digit_upper, between.
  destruct (Z.ltb_spec d 10); rewrite byte_of_chr by lia.
  - replace ((48 <=? 48 + d) && (48 + d <=? 57)) with true by lia. f_equal. lia.
  - replace ((48 <=? 55 + d) && (55 + d <=? 57)) with false by lia.
    replace ((97 <=? 55 + d) && (55 + d <=? 102)) with false by lia.
    replace ((65 <=? 55 + d) && (55 + d <=? 70)) with true by lia. f_equal. lia.
Qed.

(** The bytes escaping never leaves alone, checked over all bytes. *)
Lemma byte_cases (P : ascii -> bool) :
  forallb P (map (fun n => chr (Z.of_nat n)) (seq 0 256)) = true -> forall c, P c = true.
Proof.
  intros HP c. rewrite forallb_forall in HP. apply HP. apply in_map_iff.
  exists (Z.to_nat (byte_of c)). pose proof (byte_of_range c). split.
  - rewrite Z2Nat.id by lia. apply chr_byte_of.
  - apply in_seq. lia.
Qed.

(** What is not escaped reads as itself, a plus sign in a query apart, which is
    always escaped. *)
Lemma kept_bytes mode c :
  shouldEscape c mode = false ->
  Ascii.eqb c "%" = false /\ (mode = encodeQueryComponent -> Ascii.eqb c "+" = false).
Proof.
  assert (forall m, shouldEscape c m || negb (Ascii.eqb c "%") &&
    (negb (bool_decide (m = encodeQueryComponent)) || negb (Ascii.eqb c "+")) = true) as Hall
    by (intros m; destruct m; revert c; apply byte_cases; vm_compute; reflexivity).
  intros E. specialize (Hall mode). rewrite E in Hall. cbn [orb] in Hall.
  apply andb_true_iff in Hall as [H1 H2]. apply negb_true_iff in H1. split; [done |].
  intros ->. rewrite bool_decide_true in H2 by done. by apply negb_true_iff.
Qed.

Section roundtrip.
Context `{UnicodeData}.

Lemma unescape_kept mode c s :
  shouldEscape c mode = false -> unescape mode (String c s) = cons_ok c (unescape mode s).
Proof.
  intros E. destruct (kept_bytes _ _ E) as [H1 H2]. cbn [unescape]. rewrite H1, E, andb_false_r.
  destruct (Ascii.eqb c "+") eqn:Ep; [| done]. apply Ascii.eqb_eq in Ep as ->.
  case_decide; [| done]. by specialize (H2 ltac:(done)).
Qed.

(** Unescaping undoes escaping, in every part but the host, where only bytes
    beyond ASCII may be escaped. *)
Lemma unescape_escape mode s : mode <> encodeHost -> unescape mode (escape mode s) = Ok s.
Proof.
  intros Hm. induction s as [| c s IH]; [done |]. cbn [escape].
  destruct (shouldEscape c mode) eqn:E; [| by rewrite unescape_kept, IH].
  destruct (bool_decide (mode = encodeQueryComponent) && Ascii.eqb c " ") eqn:Eq.
  - apply andb_true_iff in Eq as [Eq Ec]. apply bool_decide_eq_true in Eq.
    apply Ascii.eqb_eq in Ec as ->. cbn [unescape Ascii.eqb Bool.eqb]. rewrite IH.
    by rewrite decide_True.
  - cbn [unescape]. change (Ascii.eqb "%" "%") with true. cbn iota.
    pose proof (byte_of_range c) as Hc.
    rewrite !unhex_upper; [| apply Z.mod_pos_bound; lia | split; [apply Z.div_pos; lia | apply Z.div_lt_upper_bound; lia]].
    rewrite bool_decide_false by done. cbn [andb]. rewrite IH. cbn [cons_ok]. do 2 f_equal.
    rewrite Z.mul_comm, <- Z.div_mod by lia. apply chr_byte_of.
Qed.

Lemma escape_query s : escape encodeQueryComponent s = QueryEscape s.
Proof.
  induction s as [| c s IH]; [done |]. cbn [escape QueryEscape]. rewrite IH.
  assert (shouldEscape c encodeQueryComponent = negb (url_unreserved (byte_of c)) /\
          Ascii.eqb c " " = (byte_of c =? 32)) as [-> ->].
  { split; apply eqb_prop; revert c; apply byte_cases; vm_compute; reflexivity. }
  rewrite bool_decide_true by done. by destruct (url_unreserved (byte_of c)), (byte_of c =? 32).
Qed.

Lemma QueryUnescape_QueryEscape s : QueryUnescape (QueryEscape s) = Ok s.
Proof. unfold QueryUnescape. rewrite <- escape_query. by apply unescape_escape. Qed.
End roundtrip.

(** ** Cutting and joining *)

Lemma byte_in_app c s t : byte_in c (s +:+ t) = byte_in c s || byte_in c t.
Proof. induction s as [| d s IH]; simpl; [done |]. by rewrite IH, orb_assoc. Qed.

Lemma byte_in_all c P s : P (byte_of c) = false -> all_bytes P s = true -> byte_in c s = false.
Proof.
  intros Hc. induction s as [| d s IH]; simpl; [done |]. rewrite andb_true_iff. intros [Hd Hs].
  rewrite IH by done. destruct (Ascii.eqb_spec d c) as [-> |]; [congruence | done].
Qed.

Lemma Cut_byte_app c a b : byte_in c a = false -> Cut_byte (a +:+ String c b) c = Some (a, b).
Proof.
  induction a as [| d a IH]; simpl; [by rewrite Ascii.eqb_refl |].
  rewrite orb_false_iff. intros [-> Ha]. by rewrite IH.
Qed.

Lemma Cut_byte_none c s : byte_in c s = false -> Cut_byte s c = None.
Proof.
  induction s as [| d s IH]; simpl; [done |]. rewrite orb_false_iff. intros [-> Hs]. by rewrite IH.
Qed.

Lemma cut_app c a b : byte_in c a = false -> cut (a +:+ String c b) c = (a, b).
Proof. intros Ha. unfold cut. by rewrite Cut_byte_app. Qed.
Lemma cut_none c s : byte_in c s = false -> cut s c = (s, EmptyString).
Proof. intros Ha. unfold cut. by rewrite Cut_byte_none. Qed.

Lemma cut_last_none c s : byte_in c s = false -> cut_last s c = None.
Proof.
  induction s as [| d s IH]; simpl; [done |]. rewrite orb_false_iff. intros [-> Hs]. by rewrite IH.
Qed.
Lemma cut_last_app c a b : byte_in c b = false -> cut_last (a +:+ String c b) c = Some (a, b).
Proof.
  intros Hb. induction a as [| d a IH]; simpl.
  - by rewrite cut_last_none, Ascii.eqb_refl.
  - by rewrite IH.
Qed.

Lemma Split_byte_none c s : byte_in c s = false -> Split_byte s c = [s].
Proof.
  induction s as [| d s IH]; simpl; [done |]. rewrite orb_false_iff. intros [-> Hs]. by rewrite IH.
Qed.
Lemma Split_byte_app c a b :
  byte_in c a = false -> Split_byte (a +:+ String c b) c = a :: Split_byte b c.
Proof.
  induction a as [| d a IH]; simpl; [by rewrite Ascii.eqb_refl |].
  rewrite orb_false_iff. intros [-> Ha]. by rewrite IH.
Qed.

Lemma Split_Join c l :
  l <> [] -> Forall (fun s => byte_in c s = false) l -> Split_byte (Join l (String c "")) c = l.
Proof.
  intros Hne Hl. induction Hl as [| s l Hs Hl IH]; [done |].
  destruct l as [| t l]; [by apply Split_byte_none |].
  change (Join (s :: t :: l) (String c "")) with (s +:+ String c (Join (t :: l) (String c ""))).
  rewrite Split_byte_app by done. by rewrite IH.
Qed.

(** The bytes of an escaped query component. *)
Definition query_byte (b : Z) : bool := url_unreserved b || (b =? 43) || (b =? 37).

Lemma QueryEscape_bytes s : all_bytes query_byte (QueryEscape s) = true.
Proof.
  induction s as [| c s IH]; [done |]. cbn [QueryEscape].
  assert (forall d, 0 <= d < 16 -> query_byte (byte_of (hex_digit_upper d)) = true) as Hhex.
  { intros d Hd. unfold query_byte, url_unreserved, hex_digit_upper, between.
    destruct (Z.ltb_spec d 10); rewrite byte_of_chr by lia; lia. }
  pose proof (byte_of_range c).
  destruct (url_unreserved (byte_of c)) eqn:E; [| destruct (byte_of c =? 32)]; cbn [all_bytes];
    rewrite IH, ?andb_true_r; [by unfold query_byte; rewrite E | done |].
  rewrite !Hhex; [done | apply Z.mod_pos_bound; lia |].
  split; [apply Z.div_pos; lia | apply Z.div_lt_upper_bound; lia].
Qed.

Lemma QueryEscape_no c s : query_byte (byte_of c) = false -> byte_in c (QueryEscape s) = false.
Proof. intros Hc. eapply byte_in_all; [exact Hc | apply QueryEscape_bytes]. Qed.

Section query.
Context `{UnicodeData}.

Lemma parse_encoded kv : parse_pair (encode_pair kv) = Some kv.
Proof.
  destruct kv as [k v]. unfold parse_pair, encode_pair. cbn [fst snd].
  rewrite !byte_in_app, !QueryEscape_no by done. cbn [byte_in orb Ascii.eqb Bool.eqb].
  assert (eqb_str (QueryEscape k +:+ "=" +:+ QueryEscape v) "" = false) as ->
    by (apply eqb_str_false; by destruct (QueryEscape k)).
  cbn [String.append]. rewrite cut_app by (by apply QueryEscape_no).
  by rewrite !QueryUnescape_QueryEscape.
Qed.

Lemma encoded_no_amp kv : byte_in "&" (encode_pair kv) = false.
Proof. unfold encode_pair. by rewrite !byte_in_app, !QueryEscape_no. Qed.

(** What a list of encoded pairs parses to. *)
Lemma ParseQuery_Join l :
  Z.of_nat (length l) <= max_params ->
  ParseQuery (Join (encode_pair <$> l) "&") = foldl add_pair ∅ l.
Proof.
  intros Hl. destruct (decide (l = [])) as [-> | Hne]; [done |]. unfold ParseQuery.
  rewrite Split_Join.
  - rewrite length_fmap. replace (max_params <? Z.of_nat (length l)) with false by lia.
    f_equal. clear. induction l as [| kv l IH]; [done |].
    rewrite fmap_cons. cbn [omap list_omap]. by rewrite parse_encoded, IH.
  - by destruct l.
  - apply Forall_fmap, Forall_forall. intros kv _. apply encoded_no_amp.
Qed.

Lemma foldl_pairs_of v k m :
  default [] (v !! k) <> [] ->
  foldl add_pair m (pairs_of v k) = <[ k := default [] (m !! k) ++ default [] (v !! k) ]> m.
Proof.
  unfold pairs_of. generalize (default [] (v !! k)) as l. intros l.
  revert m. induction l as [| x l IH]; intros m Hne; [done |].
  rewrite fmap_cons. cbn [foldl]. destruct (decide (l = [])) as [-> | Hl]; [done |].
  rewrite IH by done. unfold add_pair. cbn [fst snd].
  rewrite lookup_insert_eq, insert_insert_eq. simpl. by rewrite <- (app_assoc _ [x] l).
Qed.

Lemma foldl_keys v keys m :
  map_Forall (fun _ l => l <> []) v -> NoDup keys -> Forall (fun k => is_Some (v !! k)) keys ->
  (forall k, k ∈ keys -> m !! k = None) ->
  forall k, foldl add_pair m (mbind (M:=list) (pairs_of v) keys) !! k =
    if decide (k ∈ keys) then v !! k else m !! k.
Proof.
  intros Hv. revert m. induction keys as [| k0 keys IH]; intros m Hnd Hin Hm k; [done |].
  inversion Hnd as [| ? ? Hk0 Hnd']; subst. inversion Hin as [| ? ? [l Hl] Hin']; subst.
  cbn [mbind list_bind]. rewrite foldl_app, foldl_pairs_of by (rewrite Hl; by eapply Hv).
  rewrite (Hm k0), Hl by left. cbn [default app]. rewrite IH; [| done | done |].
  - destruct (decide (k = k0)) as [-> |].
    + rewrite decide_False, decide_True by (done || left). by rewrite lookup_insert_eq.
    + rewrite lookup_insert_ne by done. destruct (decide (k ∈ keys)).
      * rewrite decide_True; [done | by right].
      * rewrite decide_False; [done |]. by intros [? | ?]%elem_of_cons.
  - intros k1 Hk1. rewrite lookup_insert_ne by (intros ->; done). apply Hm. by right.
Qed.

(** The number of parameters of a query. *)
Definition num_params (v : Values) : Z :=
  Z.of_nat (length (mbind (M:=list) (pairs_of v) (sorted_keys v))).

(** Parsing undoes encoding, for values in which every key has one at least. *)
Lemma ParseQuery_Encode v :
  map_Forall (fun _ l => l <> []) v -> num_params v <= max_params -> ParseQuery (Encode v) = v.
Proof.
  intros Hv Hn. unfold Encode. rewrite ParseQuery_Join by done. apply map_eq. intros k.
  assert (sorted_keys v ≡ₚ (map_to_list v).*1) as Hp by apply sort_Strings_perm.
  rewrite foldl_keys; [| done | rewrite Hp; apply NoDup_fst_map_to_list | | by intros; apply lookup_empty].
  - case_decide as Hk; [done |]. rewrite lookup_empty. symmetry. apply eq_None_not_Some.
    intros [l Hl]. apply Hk. rewrite Hp. apply list_elem_of_fmap.
    exists (k, l). split; [done |]. by apply elem_of_map_to_list.
  - apply Forall_forall. intros k' Hk'. rewrite Hp in Hk'. apply list_elem_of_fmap in Hk' as ([? l] & -> & Hl).
    apply elem_of_map_to_list in Hl. eauto.
Qed.

(** What [ParseQuery] gives can be encoded and parsed again. *)
Lemma ParseQuery_nonempty q : map_Forall (fun _ l => l <> []) (ParseQuery q).
Proof.
  unfold ParseQuery. case_match; [apply map_Forall_empty |].
  generalize (omap parse_pair (Split_byte q "&")) as l. intros l.
  assert (map_Forall (fun _ l => l <> []) (∅ : Values)) as Hm by apply map_Forall_empty.
  revert Hm. generalize (∅ : Values) as m. induction l as [| kv l IH]; intros m Hm; [done |].
  cbn [foldl]. apply IH. apply map_Forall_insert_2; [| done]. by destruct (default [] _).
Qed.
End query.

(** ** Plain addresses

    The addresses the operator writes: scheme, host and port, a path of plain
    bytes, and a query or none. *)

(** The bytes of a DNS name, of a scheme and of a path. *)
Definition host_byte (b : Z) : bool := alphanumeric b || (b =? 45) || (b =? 46).
Definition lower_byte (b : Z) : bool := between 97 122 b.
Definition path_byte (b : Z) : bool := host_byte b || (b =? 47).
(** What may stand in a query that is parsed back. *)
Definition query_text_byte (b : Z) : bool := query_byte b || (b =? 38) || (b =? 61).

Definition plain_url (scheme host path query : string) : URL :=
  mkURL scheme "" None host path "" false false query "" "".
Definition query_part (query : string) : string :=
  if eqb_str query "" then EmptyString else "?" +:+ query.
Definition plain_text (scheme host path query : string) : string :=
  scheme +:+ "://" +:+ host +:+ path +:+ query_part query.

Record plain (scheme name port path query : string) : Prop := {
  plain_scheme : all_bytes lower_byte scheme = true;
  plain_scheme_ne : scheme <> "";
  plain_name : all_bytes host_byte name = true;
  plain_port : all_bytes is_digit_byte port = true;
  plain_path : all_bytes path_byte path = true;
  plain_slash : starts_with "/" path = true;
  plain_query : all_bytes query_text_byte query = true;
}.

Lemma ctl_free s P : (forall b, P b = true -> is_ctl b = false) -> all_bytes P s = true ->
  all_bytes (fun b => negb (is_ctl b)) s = true.
Proof. intros HP. apply all_bytes_impl. intros b Hb. by rewrite HP. Qed.

Ltac byte_tac := unfold query_text_byte, query_byte, url_unreserved, path_byte, host_byte, lower_byte,
  alphanumeric, is_digit_byte, is_ctl, between in *; lia.

Lemma starts_slash path : starts_with "/" path = true -> exists p, path = String "/" p.
Proof.
  destruct path as [| c p]; [done |]. unfold starts_with. cbn [strip_prefix].
  destruct (Ascii.eqb_spec "/" c) as [<- |]; [by eexists | done].
Qed.

Lemma scan_scheme_plain scheme rest first :
  all_bytes lower_byte scheme = true -> (first = true -> scheme <> "") ->
  scan_scheme first (scheme +:+ String ":" rest) = Scheme scheme rest.
Proof.
  revert first. induction scheme as [| c s IH]; intros first Hs Hf.
  - destruct first; [by destruct Hf | done].
  - cbn [all_bytes] in Hs. apply andb_true_iff in Hs as [Hc Hs]. cbn [String.append scan_scheme].
    unfold lower_byte in Hc. rewrite Hc. cbn [orb]. by rewrite IH.
Qed.

Lemma cut_query_part before query :
  byte_in "?" before = false -> cut_query (before +:+ query_part query) = (before, false, query).
Proof.
  intros Hb. unfold cut_query, query_part. destruct (eqb_str query "") eqn:E.
  - apply eqb_str_true in E as ->. by rewrite append_nil_r, Cut_byte_none.
  - change (before +:+ "?" +:+ query) with (before +:+ String "?" query).
    rewrite Cut_byte_app by done. destruct query; [by apply eqb_str_false in E | done].
Qed.

Section address.
Context `{UnicodeData}.

Lemma unescape_id mode s :
  Forall (fun c => shouldEscape c mode = false) (String.list_ascii_of_string s) ->
  unescape mode s = Ok s.
Proof.
  induction s as [| c s IH]; [done |]. cbn [String.list_ascii_of_string].
  intros [Hc Hs]%Forall_cons. by rewrite unescape_kept, IH.
Qed.

Lemma escape_id mode s :
  Forall (fun c => shouldEscape c mode = false) (String.list_ascii_of_string s) -> escape mode s = s.
Proof.
  induction s as [| c s IH]; [done |]. cbn [String.list_ascii_of_string escape].
  intros [-> Hs]%Forall_cons. by rewrite IH.
Qed.

(** Bytes that a part of a URL leaves alone. *)
Lemma kept_all (P : Z -> bool) mode s :
  forallb (fun c => implb (P (byte_of c)) (negb (shouldEscape c mode)))
    (map (fun n => chr (Z.of_nat n)) (seq 0 256)) = true ->
  all_bytes P s = true -> Forall (fun c => shouldEscape c mode = false) (String.list_ascii_of_string s).
Proof.
  intros HP Hs. apply all_bytes_Forall in Hs. eapply Forall_impl; [exact Hs |]. intros c Hc.
  pose proof (byte_cases _ HP c) as Hi. cbn beta in Hi. rewrite Hc in Hi. by apply negb_true_iff in Hi.
Qed.

Lemma path_kept s : all_bytes path_byte s = true ->
  Forall (fun c => shouldEscape c encodePath = false) (String.list_ascii_of_string s).
Proof. apply kept_all. vm_compute. reflexivity. Qed.

Lemma host_kept name port :
  all_bytes host_byte name = true -> all_bytes is_digit_byte port = true ->
  Forall (fun c => shouldEscape c encodeHost = false) (String.list_ascii_of_string (name +:+ ":" +:+ port)).
Proof.
  intros Hn Hp. rewrite list_ascii_app. cbn [String.list_ascii_of_string String.append].
  rewrite Forall_app, Forall_cons. split_and!; [| done |].
  - eapply kept_all; [| exact Hn]. vm_compute. reflexivity.
  - eapply kept_all; [| exact Hp]. vm_compute. reflexivity.
Qed.

Context `{IPLiterals}.

Lemma parseHost_port name port :
  all_bytes host_byte name = true -> all_bytes is_digit_byte port = true ->
  parseHost (name +:+ ":" +:+ port) = Ok (name +:+ ":" +:+ port).
Proof.
  intros Hn Hp. unfold parseHost.
  rewrite !byte_in_app, (byte_in_all "[" host_byte name), (byte_in_all "[" is_digit_byte port) by done.
  cbn [byte_in orb Ascii.eqb Bool.eqb].
  change (name +:+ ":" +:+ port) with (name +:+ String ":" port).
  rewrite cut_last_app, Hp by (by eapply (byte_in_all _ is_digit_byte)).
  by apply unescape_id, host_kept.
Qed.

(** The hierarchical part, with an authority. *)
Lemma parse_hierarchy_plain scheme name port path query :
  plain scheme name port path query ->
  parse_hierarchy scheme false query ("//" +:+ (name +:+ ":" +:+ port) +:+ path) =
    Ok (plain_url scheme (name +:+ ":" +:+ port) path query).
Proof.
  intros [_ Hne Hn Hp Hpath Hs _]. unfold parse_hierarchy.
  change (strip_prefix "//" ("//" +:+ (name +:+ ":" +:+ port) +:+ path))
    with (Some ((name +:+ ":" +:+ port) +:+ path)).
  rewrite (proj2 (eqb_str_false _ _) Hne). cbn [negb orb]. cbn iota.
  assert (forall c, host_byte (byte_of c) = false -> Ascii.eqb ":" c = false ->
            byte_in c (name +:+ ":" +:+ port) = false) as Hno.
  { intros c H1 H3. rewrite !byte_in_app, (byte_in_all _ host_byte), (byte_in_all _ is_digit_byte port); try done;
      [cbn [byte_in]; by rewrite H3 | byte_tac]. }
  destruct (starts_slash _ Hs) as [p ->]. unfold cut_slash. rewrite Cut_byte_app by (by apply Hno).
  unfold parseAuthority. rewrite cut_last_none, parseHost_port by (done || by apply Hno).
  pose proof (path_kept _ Hpath) as Hk. rewrite (unescape_id _ _ Hk), (escape_id _ _ Hk).
  by rewrite (proj2 (eqb_str_true _ _) eq_refl).
Qed.

(** [Parse] of a plain address. *)
Lemma Parse_plain scheme name port path query :
  plain scheme name port path query ->
  Parse (plain_text scheme (name +:+ ":" +:+ port) path query) =
    Ok (plain_url scheme (name +:+ ":" +:+ port) path query).
Proof.
  intros Hpl. pose proof (parse_hierarchy_plain _ _ _ _ _ Hpl) as Hh.
  destruct Hpl as [Hsc Hne Hn Hp Hpath Hs Hq].
  assert (all_bytes (fun b => negb (is_ctl b)) (name +:+ ":" +:+ port) = true) as Hctl.
  { rewrite !all_bytes_app. rewrite (ctl_free name host_byte), (ctl_free port is_digit_byte); try done;
      intros b Hb; byte_tac. }
  assert (forall c, path_byte (byte_of c) = false -> Ascii.eqb ":" c = false ->
            byte_in c ((name +:+ ":" +:+ port) +:+ path) = false) as Hno.
  { intros c H1 H3. rewrite !byte_in_app, (byte_in_all _ host_byte), (byte_in_all _ is_digit_byte port),
      (byte_in_all _ path_byte path); try done; [cbn [byte_in]; by rewrite H3 | byte_tac | byte_tac]. }
  revert Hh Hctl Hno. generalize (name +:+ ":" +:+ port) as host. intros host Hh Hctl Hno.
  assert (all_bytes (fun b => negb (is_ctl b)) (query_part query) = true /\
          byte_in "#" (query_part query) = false) as [Ht1 Ht2].
  { unfold query_part. destruct (eqb_str query ""); [done |]. simpl. split.
    - eapply ctl_free; [| exact Hq]. intros b Hb. byte_tac.
    - by eapply (byte_in_all _ query_text_byte). }
  assert (forall c, path_byte (byte_of c) = false -> Ascii.eqb ":" c = false ->
            byte_in c ("//" +:+ host +:+ path) = false) as Hno2.
  { intros c H1 H3. rewrite byte_in_app, (Hno c H1 H3).
    rewrite (byte_in_all c path_byte "//") by done. done. }
  unfold Parse, plain_text. rewrite cut_none.
  2:{ rewrite byte_in_app, (byte_in_all _ lower_byte scheme) by done. rewrite byte_in_app.
      rewrite <- append_assoc, byte_in_app, Hno, Ht2 by done. done. }
  unfold parse. rewrite !all_bytes_app, Hctl, Ht1, (ctl_free scheme lower_byte), (ctl_free path path_byte);
    try done; try (intros b Hb; byte_tac).
  change (all_bytes _ "://") with true. cbn [andb negb].
  assert (eqb_str (scheme +:+ "://" +:+ host +:+ path +:+ query_part query) "*" = false) as ->.
  { apply eqb_str_false. destruct scheme as [| c s]; [done |]. intros [= -> _]. done. }
  unfold getScheme. change ("://" +:+ host +:+ path +:+ query_part query)
    with (String ":" ("//" +:+ host +:+ path +:+ query_part query)).
  rewrite scan_scheme_plain by done.
  rewrite ToLower_id by (eapply all_bytes_impl; [| exact Hsc]; unfold is_plain, is_ascii; intros b Hb; byte_tac).
  replace ("//" +:+ host +:+ path +:+ query_part query) with (("//" +:+ host +:+ path) +:+ query_part query)
    by (by rewrite (append_assoc "//" (host +:+ path)), (append_assoc host path)).
  rewrite cut_query_part by (by apply Hno2).
  change (starts_with "/" ("//" +:+ host +:+ path)) with true. cbn iota. rewrite Hh.
  change (eqb_str "" "") with true. done.
Qed.

(** The text of a plain address. *)
Lemma plain_url_String scheme name port path query :
  plain scheme name port path query ->
  url_String (plain_url scheme (name +:+ ":" +:+ port) path query) =
    plain_text scheme (name +:+ ":" +:+ port) path query.
Proof.
  intros [Hsc Hne Hn Hp Hpath Hs Hq].
  unfold url_String, plain_url, plain_text, authority_String, EscapedPath.
  cbn [url_Scheme url_Opaque url_User url_Host url_Path url_RawPath url_OmitHost url_ForceQuery
       url_RawQuery url_Fragment url_RawFragment].
  rewrite (escape_id encodeHost _ (host_kept _ _ Hn Hp)), (escape_id encodePath _ (path_kept _ Hpath)).
  rewrite (proj2 (eqb_str_false scheme "") Hne).
  assert (eqb_str (name +:+ ":" +:+ port) "" = false) as -> by (apply eqb_str_false; by destruct name).
  assert (eqb_str path "*" = false) as -> by (apply eqb_str_false; intros ->; done).
  change (eqb_str "" "") with true. cbn [negb andb orb]. rewrite Hs, andb_false_r.
  replace (eqb_str ((scheme +:+ ":") +:+ "//" +:+ name +:+ ":" +:+ port) "") with false
    by (symmetry; apply eqb_str_false; by destruct scheme).
  cbn [andb]. generalize (name +:+ ":" +:+ port) as host. intros host.
  unfold query_part. destruct (eqb_str query ""); cbn [negb]; rewrite ?append_nil_r, !append_assoc; done.
Qed.
End address.

(** What [Encode] writes can stand in a URL. *)
Lemma Encode_pairs_bytes l : all_bytes query_text_byte (Join (encode_pair <$> l) "&") = true.
Proof.
  assert (forall s, all_bytes query_text_byte (QueryEscape s) = true) as Hq.
  { intros s. eapply all_bytes_impl; [| apply QueryEscape_bytes]. intros b Hb.
    unfold query_text_byte. by rewrite Hb. }
  assert (forall kv, all_bytes query_text_byte (encode_pair kv) = true) as Hkv
    by (intros kv; unfold encode_pair; by rewrite !all_bytes_app, !Hq).
  induction l as [| kv [| kv2 l] IH]; [done | apply Hkv |].
  change (Join (encode_pair <$> kv :: kv2 :: l) "&")
    with (encode_pair kv +:+ "&" +:+ Join (encode_pair <$> kv2 :: l) "&").
  rewrite !all_bytes_app, Hkv, IH. done.
Qed.

Lemma Encode_bytes v : all_bytes query_text_byte (Encode v) = true.
Proof. apply Encode_pairs_bytes. Qed.

(** ** Examples *)

Section examples.
Context `{UnicodeData, IPLiterals}.

Example Parse_ex1 : Parse "http://u:p@h:80/a%20b?x=1#f" =
  Ok (mkURL "http" "" (Some (mkUserinfo "u" (Some "p"%stdpp))) "h:80" "/a b" "" false false "x=1" "f" "").
Proof. vm_compute. reflexivity. Qed.
Example Parse_ex2 : Parse "localhost:8090/x" =
  Ok (mkURL "localhost" "8090/x" None "" "" "" false false "" "" "").
Proof. vm_compute. reflexivity. Qed.
Example Parse_ex3 : exists e, Parse "127.0.0.1:8090" = Err e.
Proof. by eexists. Qed.
Example Parse_ex4 : exists e, Parse "http://h:8x/" = Err e.
Proof. by eexists. Qed.
Example Query_ex :
  values_Get "b" (ParseQuery "a=1&b=x+y%21&b=2&;=3") = "x y!"%stdpp.
Proof. vm_compute. reflexivity. Qed.
Example Encode_ex : Encode (ParseQuery "b=2&a=%2F&b=1") = "a=%2F&b=2&b=1"%stdpp.
Proof. vm_compute. reflexivity. Qed.
End examples.
