(* ===== verification/Floats.v ===== *)
(** * Floats: [float64] arithmetic, [strconv.ParseFloat], [strconv.FormatFloat]
      and [time.ParseDuration]

    [float64] is the standard library's binary64 specification ([SpecFloat] with
    53 bits of precision), so every operation rounds as the hardware does and
    evaluates by [vm_compute]. *)

From S2P Require Import Prelude GoText Strconv.
From Stdlib Require Import Ascii.
From Corelib Require Import SpecFloat.

Open Scope Z_scope.

Definition float64 : Type := spec_float.
Definition fmul : float64 -> float64 -> float64 := SFmul 53 1024.
Definition fdiv : float64 -> float64 -> float64 := SFdiv 53 1024.

(** [float64(z)] for an integer, rounded to nearest even. *)
Definition float_of_int (z : Z) : float64 := binary_normalize 53 1024 z 0 false.

(** [int64(f)]: truncation; out of range, the amd64 instruction's answer. *)
Definition float_to_int64 (f : float64) : Z :=
  match f with
  | S754_zero _ => 0
  | S754_finite s m e =>
      let a := if 0 <=? e then Z.shiftl (Zpos m) e else Z.shiftr (Zpos m) (- e) in
      let v := if s then - a else a in
      if (- 2 ^ 63 <=? v) && (v <? 2 ^ 63) then v else - 2 ^ 63
  | _ => - 2 ^ 63
  end.

(** [math.Mod(f, 1) == 0]. *)
Definition float_is_integral (f : float64) : bool :=
  match f with
  | S754_zero _ => true
  | S754_finite _ m e => (0 <=? e) || (Z.land (Zpos m) (Z.ones (- e)) =? 0)
  | _ => false
  end.

(** ** [strconv.ParseFloat(s, 64)] *)

(** The float nearest to [m * 10 ^ e]. *)
Definition float_of_decimal (neg : bool) (m e : Z) : float64 :=
  match m with
  | Zpos p =>
      if 0 <=? e then
        match Z.mul (Zpos p) (10 ^ e) with
        | Zpos q => binary_round 53 1024 neg q 0
        | _ => S754_nan
        end
      else
        let '(q, x, l) := SFdiv_core_binary 53 1024 (Zpos p) 0 (10 ^ (- e)) 0 in
        binary_round_aux 53 1024 neg q x l
  | _ => S754_zero neg
  end.

(** The float nearest to [m * 2 ^ e] (hexadecimal literals). *)
Definition float_of_binary (neg : bool) (m e : Z) : float64 :=
  match m with
  | Zpos p => binary_round_aux 53 1024 neg (Zpos p) e loc_Exact
  | _ => S754_zero neg
  end.

Definition is_hex_letter (b : Z) : bool := between 97 102 b || between 65 70 b.
Definition hex_value (b : Z) : Z :=
  if is_digit b then b - 48 else if between 97 102 b then b - 87 else b - 55.

(** The mantissa loop of [readFloat]: value, digits after the point, whether a
    point, a digit, an underscore was seen, and the rest of the text. *)
Fixpoint read_mantissa (hex : bool) (m frac : Z) (dot dig us : bool) (s : string)
    : option (Z * Z * bool * bool * string) :=
  match s with
  | EmptyString => Some (m, frac, dig, us, s)
  | String c s' =>
      let b := byte_of c in
      if b =? 95 then read_mantissa hex m frac dot dig true s'
      else if b =? 46 then
        if dot then Some (m, frac, dig, us, s) else read_mantissa hex m frac true dig us s'
      else if is_digit b || (hex && is_hex_letter b) then
        read_mantissa hex (m * (if hex then 16 else 10) + hex_value b)
          (if dot then frac + 1 else frac) dot true us s'
      else Some (m, frac, dig, us, s)
  end.

(** The exponent's digits; it stops growing at 10000. *)
Fixpoint read_exponent (e : Z) (us : bool) (s : string) : Z * bool * string :=
  match s with
  | EmptyString => (e, us, s)
  | String c s' =>
      let b := byte_of c in
      if b =? 95 then read_exponent e true s'
      else if is_digit b then
        read_exponent (if e <? 10000 then e * 10 + (b - 48) else e) us s'
      else (e, us, s)
  end.

(** [underscoreOK]: [prev] is the class of the last byte: start or other [!],
    digit or base prefix [0], underscore [_]. *)
Fixpoint underscores_ok (hex : bool) (prev : Z) (s : string) : bool :=
  match s with
  | EmptyString => negb (prev =? 95)
  | String c s' =>
      let b := byte_of c in
      if is_digit b || (hex && is_hex_letter b) then underscores_ok hex 48 s'
      else if b =? 95 then (prev =? 48) && underscores_ok hex 95 s'
      else negb (prev =? 95) && underscores_ok hex 33 s'
  end.

Definition lower_byte (b : Z) : Z := if between 65 90 b then b + 32 else b.
Fixpoint lower_ascii (s : string) : string :=
  match s with
  | EmptyString => EmptyString
  | String c s' => String (chr (lower_byte (byte_of c))) (lower_ascii s')
  end.

Definition split_sign (s : string) : bool * bool * string :=
  match s with
  | String c s' => if Ascii.eqb c "+" then (true, false, s')
                   else if Ascii.eqb c "-" then (true, true, s') else (false, false, s)
  | EmptyString => (false, false, s)
  end.

(** [ParseFloat], [None] for a syntax or a range error. *)
Definition ParseFloat (s : string) : option float64 :=
  let '(signed, neg, u) := split_sign s in
  let l := lower_ascii u in
  if eqb_str l "inf" || eqb_str l "infinity" then Some (S754_infinity neg)
  else if negb signed && eqb_str l "nan" then Some S754_nan
  else
    let '(hex, body) :=
      match u with
      | String z (String x u') =>
          if Ascii.eqb z "0" && (lower_byte (byte_of x) =? 120) then (true, u') else (false, u)
      | _ => (false, u)
      end in
    match read_mantissa hex 0 0 false false false body with
    | Some (m, frac, true, us, rest) =>
        let exp :=
          match rest with
          | EmptyString => if hex then None else Some (0, us)
          | String c rest' =>
              if lower_byte (byte_of c) =? (if hex then 112 else 101) then
                let '(_, eneg, ds) := split_sign rest' in
                match ds with
                | String d _ =>
                    if is_digit (byte_of d) then
                      let '(e, us', tail) := read_exponent 0 us ds in
                      match tail with
                      | EmptyString => Some (if eneg then - e else e, us')
                      | _ => None
                      end
                    else None
                | EmptyString => None
                end
              else None
          end in
        match exp with
        | Some (e, us') =>
            if us' && negb (underscores_ok hex (if hex then 48 else 33) body) then None
            else
              let f := if hex then float_of_binary neg m (e - 4 * frac)
                       else float_of_decimal neg m (e - frac) in
              match f with S754_infinity _ => None | _ => Some f end
        | None => None
        end
    | _ => None
    end.

(** ** [strconv.FormatFloat(f, 'f', -1, 64)] *)

(** The number of decimal digits before the point: the least [k] with
    [x < 10 ^ k] for [x = num / den], searched upwards from an estimate that is
    at most a few below it. *)
Fixpoint point_position (fuel : nat) (num den k : Z) : Z :=
  match fuel with
  | O => k
  | S f =>
      if den * 10 ^ Z.max 0 k <=? num * 10 ^ Z.max 0 (- k)
      then point_position f num den (k + 1) else k
  end.

Definition float_eqb (a b : float64) : bool :=
  match a, b with
  | S754_finite s m e, S754_finite s' m' e' =>
      Bool.eqb s s' && (Zpos m =? Zpos m') && (e =? e')
  | _, _ => false
  end.

(** The shortest decimal that reads back as [f]: with [nd] digits, the two
    neighbours of the exact value are tried. *)
Fixpoint shortest (fuel : nat) (f : float64) (num den dp nd : Z) : Z * Z :=
  let scale := nd - dp in
  let n := num * 10 ^ Z.max 0 scale in
  let d := den * 10 ^ Z.max 0 (- scale) in
  let lo := n / d in
  let okdown := float_eqb (float_of_decimal false lo (- scale)) f in
  let okup := float_eqb (float_of_decimal false (lo + 1) (- scale)) f in
  let rem := n mod d in
  match fuel with
  | O => (lo, scale)
  | S fl =>
      if okdown && okup then
        ((if (2 * rem <? d) || ((2 * rem =? d) && Z.even lo) then lo else lo + 1), scale)
      else if okdown then (lo, scale)
      else if okup then (lo + 1, scale)
      else shortest fl f num den dp (nd + 1)
  end.

Fixpoint zeros (n : nat) : string :=
  match n with O => EmptyString | S n' => String "0" (zeros n') end.
Fixpoint trim_zeros (l : list ascii) : list ascii :=
  match l with
  | [] => []
  | c :: l' => if Ascii.eqb c "0" then trim_zeros l' else l
  end.

(** Digits with a decimal point: [d / 10 ^ scale]. *)
Definition decimal_text (d scale : Z) : string :=
  if scale <=? 0 then FormatInt (d * 10 ^ (- scale))
  else
    let int := FormatInt (d / 10 ^ scale) in
    let fr := FormatInt (d mod 10 ^ scale) in
    let fr := zeros (Z.to_nat scale - String.length fr) +:+ fr in
    let fr := String.string_of_list_ascii
                (reverse (trim_zeros (reverse (String.list_ascii_of_string fr)))) in
    match fr with EmptyString => int | _ => int +:+ String "." fr end.

Definition FormatFloat (f : float64) : string :=
  match f with
  | S754_nan => "NaN"
  | S754_infinity s => if s then "-Inf" else "+Inf"
  | S754_zero s => if s then "-0" else "0"
  | S754_finite s m e =>
      let num := Zpos m * 2 ^ Z.max 0 e in
      let den := 2 ^ Z.max 0 (- e) in
      let pos := S754_finite false m e in
      let start := (Z.log2 num - Z.log2 den) * 30103 / 100000 - 2 in
      let dp := point_position 8 num den start in
      let '(d, scale) := shortest 17 pos num den dp 1 in
      (if s then String "-" else id) (decimal_text d scale)
  end.

(** ** [time.ParseDuration] *)

Fixpoint leading_int (x : Z) (s : string) : option (Z * string) :=
  match s with
  | String c s' =>
      if is_digit (byte_of c) then
        if 2 ^ 63 / 10 <? x then None
        else
          let x' := x * 10 + (byte_of c - 48) in
          if 2 ^ 63 <? x' then None else leading_int x' s'
      else Some (x, s)
  | EmptyString => Some (x, s)
  end.

Fixpoint leading_fraction (x : Z) (scale : float64) (over : bool) (s : string)
    : Z * float64 * string :=
  match s with
  | String c s' =>
      if is_digit (byte_of c) then
        if over || ((2 ^ 63 - 1) / 10 <? x) then leading_fraction x scale true s'
        else
          let y := x * 10 + (byte_of c - 48) in
          if 2 ^ 63 <? y then leading_fraction x scale true s'
          else leading_fraction y (fmul scale (float_of_int 10)) false s'
      else (x, scale, s)
  | EmptyString => (x, scale, s)
  end.

Fixpoint unit_text (s : string) : string * string :=
  match s with
  | String c s' =>
      if (byte_of c =? 46) || is_digit (byte_of c) then (EmptyString, s)
      else let '(u, r) := unit_text s' in (String c u, r)
  | EmptyString => (EmptyString, EmptyString)
  end.

Definition micro_sign : string := String (chr 0xC2) (String (chr 0xB5) "s").
Definition greek_mu : string := String (chr 0xCE) (String (chr 0xBC) "s").

Definition unit_of (u : string) : option Z :=
  if eqb_str u "ns" then Some 1
  else if eqb_str u "us" || eqb_str u micro_sign || eqb_str u greek_mu then Some (10 ^ 3)
  else if eqb_str u "ms" then Some (10 ^ 6)
  else if eqb_str u "s" then Some (10 ^ 9)
  else if eqb_str u "m" then Some (60 * 10 ^ 9)
  else if eqb_str u "h" then Some (3600 * 10 ^ 9)
  else None.

(** The loop over [number unit] groups; each takes at least one byte, so the
    length of the text is enough fuel. *)
Fixpoint duration_groups (fuel : nat) (d : Z) (s : string) : option Z :=
  match s with
  | EmptyString => Some d
  | String c _ =>
      match fuel with
      | O => None
      | S fl =>
          if negb ((byte_of c =? 46) || is_digit (byte_of c)) then None else
          match leading_int 0 s with
          | None => None
          | Some (v, s1) =>
              let pre := negb (String.length s =? String.length s1)%nat in
              let '(f, scale, s2, post) :=
                match s1 with
                | String p s1' =>
                    if byte_of p =? 46 then
                      let '(f, scale, r) := leading_fraction 0 (float_of_int 1) false s1' in
                      (f, scale, r, negb (String.length s1' =? String.length r)%nat)
                    else (0, float_of_int 1, s1, false)
                | EmptyString => (0, float_of_int 1, s1, false)
                end in
              if negb (pre || post) then None else
              let '(u, rest) := unit_text s2 in
              match unit_of u with
              | None => None
              | Some unit =>
                  if 2 ^ 63 / unit <? v then None else
                  let v1 := v * unit in
                  let v2 := if 0 <? f then
                      v1 + float_to_int64 (fmul (float_of_int f) (fdiv (float_of_int unit) scale))
                    else v1 in
                  if 2 ^ 63 <? v2 then None
                  else if 2 ^ 63 <? d + v2 then None
                  else duration_groups fl (d + v2) rest
              end
          end
      end
  end.

(** [time.ParseDuration], [None] for its errors. *)
Definition ParseDuration (s : string) : option Z :=
  let '(_, neg, u) := split_sign s in
  if eqb_str u "0" then Some 0
  else match u with
  | EmptyString => None
  | _ =>
      match duration_groups (String.length u) 0 u with
      | None => None
      | Some d => if neg then Some (- d) else if 2 ^ 63 - 1 <? d then None else Some d
      end
  end.

Example ParseFloat_ex :
  (float_to_int64 <$> (fmul (float_of_int (10 ^ 9)) <$> ParseFloat "0.5")) = Some 500000000.
Proof. vm_compute. reflexivity. Qed.
Example FormatFloat_ex :
  FormatFloat <$> ParseFloat "1234.5678e-3" = Some "1.2345678"%stdpp.
Proof. vm_compute. reflexivity. Qed.
Example FormatFloat_ex2 : FormatFloat (fdiv (float_of_int 1) (float_of_int 3)) = "0.3333333333333333"%stdpp.
Proof. vm_compute. reflexivity. Qed.
Example ParseDuration_ex : ParseDuration "1h2m3.5s" = Some (3723500 * 10 ^ 6).
Proof. vm_compute. reflexivity. Qed.
