(* ===== verification/ApiTypes.v ===== *)
(** * ApiTypes: the custom resources of [api/v1alpha1]

    One record per Go struct, with the struct's fields; [TypeMeta] and list
    metadata, which no code reads, are left out.  A nil pointer is [None]; a
    nil slice or map is the empty one (no code tells them apart).  A
    [metav1.Time] is a number of nanoseconds since the Unix epoch. *)

From S2P Require Import Prelude.

Open Scope Z_scope.

(** ** metav1 *)

(** [time.Time{}], for which [IsZero] holds: year 1, in nanoseconds. *)
Definition zero_time : Z := -62135596800 * 10 ^ 9.

Record OwnerReference := mkOwnerReference {
  or_Kind : string;
  or_Name : string;
  or_UID : string;
  or_Controller : option bool;
}.

Record ObjectMeta := mkObjectMeta {
  om_Name : string;
  om_Namespace : string;
  om_UID : string;
  om_Labels : gmap string string;
  om_Annotations : gmap string string;
  om_Finalizers : list string;
  om_OwnerReferences : list OwnerReference;
  om_CreationTimestamp : Z;
  om_DeletionTimestamp : option Z;
}.

(** [IsZero] of a pointer to a [metav1.Time]: a nil pointer is zero. *)
Definition time_IsZero (t : option Z) : bool :=
  match t with None => true | Some t => t =? zero_time end.

Definition set_Finalizers (fs : list string) (m : ObjectMeta) : ObjectMeta :=
  mkObjectMeta (om_Name m) (om_Namespace m) (om_UID m) (om_Labels m) (om_Annotations m)
    fs (om_OwnerReferences m) (om_CreationTimestamp m) (om_DeletionTimestamp m).
Definition set_Labels (ls : gmap string string) (m : ObjectMeta) : ObjectMeta :=
  mkObjectMeta (om_Name m) (om_Namespace m) (om_UID m) ls (om_Annotations m)
    (om_Finalizers m) (om_OwnerReferences m) (om_CreationTimestamp m) (om_DeletionTimestamp m).
Definition set_Annotations (ls : gmap string string) (m : ObjectMeta) : ObjectMeta :=
  mkObjectMeta (om_Name m) (om_Namespace m) (om_UID m) (om_Labels m) ls
    (om_Finalizers m) (om_OwnerReferences m) (om_CreationTimestamp m) (om_DeletionTimestamp m).

(** [metav1.ObjectMeta{Name: n, Namespace: ns}], every other field zero. *)
Definition new_meta (ns n : string) : ObjectMeta :=
  mkObjectMeta n ns "" ∅ ∅ [] [] zero_time None.

(** [metav1.LabelSelector]. *)
Record LabelSelectorRequirement := mkLabelSelectorRequirement {
  lsr_Key : string;
  lsr_Operator : string;
  lsr_Values : list string;
}.
Record LabelSelector := mkLabelSelector {
  ls_MatchLabels : gmap string string;
  ls_MatchExpressions : list LabelSelectorRequirement;
}.

(** [metav1.Condition]. *)
Record Condition := mkCondition {
  cd_Type : string;
  cd_Status : string;
  cd_ObservedGeneration : Z;
  cd_LastTransitionTime : Z;
  cd_Reason : string;
  cd_Message : string;
}.

(** ** dockercontainer_types.go *)

Record HealthCheckConfig := mkHealthCheckConfig {
  hc_Test : list string;
  hc_Interval : string;
  hc_Timeout : string;
  hc_Retries : Z;
}.

Record SecretKeySelector := mkSecretKeySelector {
  sk_Name : string;
  sk_Key : string;
}.
Record EnvVarSource := mkEnvVarSource { es_SecretKeyRef : option SecretKeySelector }.
Record EnvVar := mkEnvVar {
  ev_Name : string;
  ev_Value : string;
  ev_ValueFrom : option EnvVarSource;
}.

Record VolumeMount := mkVolumeMount {
  vm_HostPath : string;
  vm_ContainerPath : string;
  vm_ReadOnly : bool;
}.
Record SecretVolume := mkSecretVolume {
  sv_SecretName : string;
  sv_MountPath : string;
}.
Record ResourceRequirements := mkResourceRequirements {
  rr_CPULimit : string;
  rr_MemoryLimit : string;
}.

Record DockerContainerSpec := mkDockerContainerSpec {
  cs_Image : string;
  cs_ImagePullSecret : string;
  cs_ContainerName : string;
  cs_DockerHostRef : string;
  cs_RestartPolicy : string;
  cs_Ports : list string;
  cs_Env : list string;
  cs_EnvVars : list EnvVar;
  cs_VolumeMounts : list VolumeMount;
  cs_SecretVolumes : list SecretVolume;
  cs_HealthCheck : option HealthCheckConfig;
  cs_Resources : option ResourceRequirements;
  cs_Command : list string;
  cs_NetworkMode : string;
  cs_ManagementMode : string;
}.

(** The schema of a spec, as its validation markers give it to the API server; an
    empty field with [omitempty] is left out, and then admitted. *)
Definition restart_policies : list string := ["no"; "on-failure"; "always"; "unless-stopped"].
Definition management_modes : list string := ["Observe"; "Enforce"].
Definition valid_spec (s : DockerContainerSpec) : bool :=
  bool_decide (cs_Image s <> "") &&
  bool_decide (cs_RestartPolicy s ∈ "" :: restart_policies) &&
  bool_decide (cs_ManagementMode s ∈ "" :: management_modes).

Record DockerContainerStatus := mkDockerContainerStatus {
  cst_ID : string;
  cst_State : string;
  cst_IPv4 : string;
  cst_Health : string;
  cst_Adopted : bool;
  cst_ObservedSpecHash : string;
}.

(** [type DockerContainerManagementMode string] and its two constants. *)
Definition DockerContainerManagementModeObserve : string := "Observe".
Definition DockerContainerManagementModeEnforce : string := "Enforce".

Record DockerContainer := mkDockerContainer {
  dc_Meta : ObjectMeta;
  dc_Spec : DockerContainerSpec;
  dc_Status : DockerContainerStatus;
}.

(** The zero values Go gives unset fields. *)
Definition empty_ContainerSpec : DockerContainerSpec :=
  mkDockerContainerSpec "" "" "" "" "" [] [] [] [] [] None None [] "" "".
Definition empty_ContainerStatus : DockerContainerStatus :=
  mkDockerContainerStatus "" "" "" "" false "".

Definition set_container_status (st : DockerContainerStatus) (c : DockerContainer) :=
  mkDockerContainer (dc_Meta c) (dc_Spec c) st.
Definition set_container_meta (m : ObjectMeta) (c : DockerContainer) :=
  mkDockerContainer m (dc_Spec c) (dc_Status c).
Definition set_container_spec (s : DockerContainerSpec) (c : DockerContainer) :=
  mkDockerContainer (dc_Meta c) s (dc_Status c).

Definition set_ContainerName (n : string) (s : DockerContainerSpec) :=
  mkDockerContainerSpec (cs_Image s) (cs_ImagePullSecret s) n (cs_DockerHostRef s)
    (cs_RestartPolicy s) (cs_Ports s) (cs_Env s) (cs_EnvVars s) (cs_VolumeMounts s)
    (cs_SecretVolumes s) (cs_HealthCheck s) (cs_Resources s) (cs_Command s)
    (cs_NetworkMode s) (cs_ManagementMode s).
Definition set_ManagementMode (m : string) (s : DockerContainerSpec) :=
  mkDockerContainerSpec (cs_Image s) (cs_ImagePullSecret s) (cs_ContainerName s)
    (cs_DockerHostRef s) (cs_RestartPolicy s) (cs_Ports s) (cs_Env s) (cs_EnvVars s)
    (cs_VolumeMounts s) (cs_SecretVolumes s) (cs_HealthCheck s) (cs_Resources s)
    (cs_Command s) (cs_NetworkMode s) m.

(** ** dockerhost_types.go *)

Record DockerHostSpec := mkDockerHostSpec {
  hs_HostURL : string;
  hs_TLSSecretName : string;
}.
Record DockerHostStatus := mkDockerHostStatus {
  hst_Phase : string;
  hst_Message : string;
}.
Record DockerHost := mkDockerHost {
  dh_Meta : ObjectMeta;
  dh_Spec : DockerHostSpec;
  dh_Status : DockerHostStatus;
}.

(** ** dockerdeployment_types.go *)

Record TemplateMeta := mkTemplateMeta {
  tm_Labels : gmap string string;
  tm_Annotations : gmap string string;
}.
Record DockerContainerTemplate := mkDockerContainerTemplate {
  ct_Metadata : TemplateMeta;
  ct_Spec : DockerContainerSpec;
}.
Record DockerDeploymentSpec := mkDockerDeploymentSpec {
  dps_Replicas : option Z;
  dps_Selector : option LabelSelector;
  dps_Template : DockerContainerTemplate;
}.
(** [Conditions] is passed on as it is. *)
Record DockerDeploymentStatus := mkDockerDeploymentStatus {
  dpst_AvailableReplicas : Z;
  dpst_Conditions : list Condition;
}.
Record DockerDeployment := mkDockerDeployment {
  dd_Meta : ObjectMeta;
  dd_Spec : DockerDeploymentSpec;
  dd_Status : DockerDeploymentStatus;
}.

(** ** dockerjob_types.go *)

(** [type DockerJobPhase string]: the zero value and the four constants. *)
Definition JobPhasePending : string := "Pending".
Definition JobPhaseRunning : string := "Running".
Definition JobPhaseSucceeded : string := "Succeeded".
Definition JobPhaseFailed : string := "Failed".

Record DockerJobSpec := mkDockerJobSpec {
  js_Image : string;
  js_ContainerName : string;
  js_Command : list string;
  js_Args : list string;
  js_Env : list string;
  js_EnvVars : list EnvVar;
  js_VolumeMounts : list VolumeMount;
  js_SecretVolumes : list SecretVolume;
  js_DockerHostRef : string;
  js_ImagePullSecret : string;
  js_RestartPolicy : string;
  js_BackoffLimit : Z;
  js_ActiveDeadlineSeconds : option Z;
  js_TTLSecondsAfterFinished : option Z;
  js_Resources : option ResourceRequirements;
}.
Record DockerJobStatus := mkDockerJobStatus {
  jst_Phase : string;
  jst_ContainerID : string;
  jst_StartTime : option Z;
  jst_CompletionTime : option Z;
  jst_ExitCode : option Z;
  jst_Attempts : Z;
  jst_Message : string;
}.
Record DockerJob := mkDockerJob {
  dj_Meta : ObjectMeta;
  dj_Spec : DockerJobSpec;
  dj_Status : DockerJobStatus;
}.

(** ** dockerservice_types.go *)

Record ServicePort := mkServicePort {
  sp_Port : Z;
  sp_TargetPort : Z;
  sp_Name : string;
}.
Record DockerServiceSpec := mkDockerServiceSpec {
  ss_ContainerRef : string;
  ss_Selector : option LabelSelector;
  ss_Ports : list ServicePort;
  ss_NetworkMode : string;
}.
Record DockerServiceStatus := mkDockerServiceStatus {
  sst_Phase : string;
  sst_TunnelClients : Z;
  sst_TunnelServerURL : string;
  sst_Message : string;
}.
Record DockerService := mkDockerService {
  dsv_Meta : ObjectMeta;
  dsv_Spec : DockerServiceSpec;
  dsv_Status : DockerServiceStatus;
}.
