(* ===== verification/Json.v ===== *)
(** * Json: [encoding/json] on the structs the operator marshals

    [json.Marshal] of a [DockerContainerSpec] and of a registry [AuthConfig]:
    the struct's fields in order under their json tags, [omitempty] fields left
    out when zero, strings escaped with HTML escaping on. *)

From S2P Require Import Prelude GoText Strconv ApiTypes.
From Stdlib Require Import Ascii.

Open Scope Z_scope.

Definition dquote : string := String (chr 34) "".
Definition backslash : string := String (chr 92) "".

(** [appendString]: the escape of one rune. *)
Definition json_rune (c : Z * string) : string :=
  let '(r, bytes) := c in
  if (r =? 34) || (r =? 92) then backslash +:+ bytes
  else if r =? 8 then backslash +:+ "b"
  else if r =? 12 then backslash +:+ "f"
  else if r =? 10 then backslash +:+ "n"
  else if r =? 13 then backslash +:+ "r"
  else if r =? 9 then backslash +:+ "t"
  else if (r <? 0x20) || (r =? 60) || (r =? 62) || (r =? 38) then
    backslash +:+ "u00" +:+ hex_digits 2 r ""
  else if (r =? RuneError) && (String.length bytes =? 1)%nat then backslash +:+ "ufffd"
  else if (r =? 0x2028) || (r =? 0x2029) then backslash +:+ "u" +:+ hex_digits 4 r ""
  else bytes.

Definition json_string (s : string) : string :=
  dquote +:+ concat_strings (json_rune <$> runes s) +:+ dquote.

Definition json_array {A} (enc : A -> string) (l : list A) : string :=
  "[" +:+ Join (enc <$> l) "," +:+ "]".

(** The members that are present, in order. *)
Definition json_object (members : list (option (string * string))) : string :=
  "{" +:+ Join ((fun m => json_string m.1 +:+ ":" +:+ m.2) <$> omap id members) "," +:+ "}".

Definition member (k v : string) : option (string * string) := Some (k, v).
Definition string_member (k s : string) := member k (json_string s).
Definition opt_string_member (k s : string) :=
  match s with EmptyString => None | _ => string_member k s end.
Definition opt_list_member {A} (enc : A -> string) (k : string) (l : list A) :=
  match l with [] => None | _ => member k (json_array enc l) end.
Definition opt_ptr_member {A} (enc : A -> string) (k : string) (o : option A) :=
  match o with None => None | Some a => member k (enc a) end.
Definition opt_int_member (k : string) (z : Z) :=
  if z =? 0 then None else member k (FormatInt z).
Definition opt_bool_member (k : string) (b : bool) :=
  if b then member k "true" else None.

Definition json_SecretKeySelector (s : SecretKeySelector) : string :=
  json_object [string_member "name" (sk_Name s); string_member "key" (sk_Key s)].
Definition json_EnvVarSource (s : EnvVarSource) : string :=
  json_object [opt_ptr_member json_SecretKeySelector "secretKeyRef" (es_SecretKeyRef s)].
Definition json_EnvVar (e : EnvVar) : string :=
  json_object [string_member "name" (ev_Name e); opt_string_member "value" (ev_Value e);
               opt_ptr_member json_EnvVarSource "valueFrom" (ev_ValueFrom e)].
Definition json_VolumeMount (v : VolumeMount) : string :=
  json_object [string_member "hostPath" (vm_HostPath v);
               string_member "containerPath" (vm_ContainerPath v);
               opt_bool_member "readOnly" (vm_ReadOnly v)].
Definition json_SecretVolume (v : SecretVolume) : string :=
  json_object [string_member "secretName" (sv_SecretName v);
               string_member "mountPath" (sv_MountPath v)].
(** A nil [Test] slice is [null]. *)
Definition json_HealthCheck (h : HealthCheckConfig) : string :=
  json_object [member "test" (match hc_Test h with [] => "null" | l => json_array json_string l end);
               opt_string_member "interval" (hc_Interval h);
               opt_string_member "timeout" (hc_Timeout h);
               opt_int_member "retries" (hc_Retries h)].
Definition json_Resources (r : ResourceRequirements) : string :=
  json_object [opt_string_member "cpuLimit" (rr_CPULimit r);
               opt_string_member "memoryLimit" (rr_MemoryLimit r)].

(** [json.Marshal(spec)], which does not fail on this struct. *)
Definition json_DockerContainerSpec (s : DockerContainerSpec) : string :=
  json_object [
    string_member "image" (cs_Image s);
    opt_string_member "imagePullSecret" (cs_ImagePullSecret s);
    opt_string_member "containerName" (cs_ContainerName s);
    opt_string_member "dockerHostRef" (cs_DockerHostRef s);
    opt_string_member "restartPolicy" (cs_RestartPolicy s);
    opt_list_member json_string "ports" (cs_Ports s);
    opt_list_member json_string "env" (cs_Env s);
    opt_list_member json_EnvVar "envVars" (cs_EnvVars s);
    opt_list_member json_VolumeMount "volumeMounts" (cs_VolumeMounts s);
    opt_list_member json_SecretVolume "secretVolumes" (cs_SecretVolumes s);
    opt_ptr_member json_HealthCheck "healthCheck" (cs_HealthCheck s);
    opt_ptr_member json_Resources "resources" (cs_Resources s);
    opt_list_member json_string "command" (cs_Command s);
    opt_string_member "networkMode" (cs_NetworkMode s);
    opt_string_member "managementMode" (cs_ManagementMode s)].

(** [registry.AuthConfig] with the fields the operator fills, and its JSON. *)
Record AuthConfig := mkAuthConfig {
  ac_Username : string;
  ac_Password : string;
  ac_ServerAddress : string;
}.
Definition json_AuthConfig (a : AuthConfig) : string :=
  json_object [opt_string_member "username" (ac_Username a);
               opt_string_member "password" (ac_Password a);
               opt_string_member "serveraddress" (ac_ServerAddress a)].
