(* ===== verification/ApiMemory.v ===== *)
(** * ApiMemory: the custom resources in memory

    The structs of [api/v1alpha1] and of metav1 as they lie in memory, pointers,
    slices and maps being addresses, and for each the reader that gives the record
    of [ApiTypes] it stands for.  As there, [TypeMeta], two strings, is left out. *)

From S2P Require Import Prelude GoMemory ApiTypes.

Open Scope Z_scope.

(** ** Types of objects *)

(** The types of the package. *)
Inductive api : Set :=
| ADockerContainer | ADockerContainerList | ADockerContainerSpec | ADockerContainerStatus
| ADockerContainerTemplate | ADockerDeployment | ADockerDeploymentList | ADockerDeploymentSpec
| ADockerDeploymentStatus | ADockerHost | ADockerHostList | ADockerHostSpec | ADockerHostStatus
| ADockerJob | ADockerJobList | ADockerJobSpec | ADockerJobStatus | ADockerService
| ADockerServiceList | ADockerServiceSpec | ADockerServiceStatus | AEnvVar | AEnvVarSource
| AHealthCheckConfig | AObjectMeta | AResourceRequirements | ASecretKeySelector | ASecretVolume
| AServicePort | AVolumeMount.

(** Every type an object has: basic ones, those of metav1, those of the package. *)
Inductive ty : Set :=
| Tstring | Tbool | Tint32 | Tint64 | TTime | TMap
| TOwnerReference | TLabelSelectorRequirement | TLabelSelector | TCondition
| Api (a : api).

#[export] Instance api_eq_dec : EqDecision api.
Proof. solve_decision. Defined.
#[export] Instance ty_dec : EqDecision ty.
Proof. solve_decision. Defined.

(** ** Structs *)

Module Mem.

(** [map[string]string]. *)
Abbreviation strmap := (ptr TMap).

(** *** metav1 *)

Record OwnerReference := mkOwnerReference {
  or_Kind : string;
  or_Name : string;
  or_UID : string;
  or_Controller : ptr Tbool;
}.
Record ObjectMeta := mkObjectMeta {
  om_Name : string;
  om_Namespace : string;
  om_UID : string;
  om_Labels : strmap;
  om_Annotations : strmap;
  om_Finalizers : slice Tstring;
  om_OwnerReferences : slice TOwnerReference;
  om_CreationTimestamp : Z;
  om_DeletionTimestamp : ptr TTime;
}.
Record ListMeta := mkListMeta {
  lm_SelfLink : string;
  lm_ResourceVersion : string;
  lm_Continue : string;
  lm_RemainingItemCount : ptr Tint64;
}.
Record LabelSelectorRequirement := mkLabelSelectorRequirement {
  lsr_Key : string;
  lsr_Operator : string;
  lsr_Values : slice Tstring;
}.
Record LabelSelector := mkLabelSelector {
  ls_MatchLabels : strmap;
  ls_MatchExpressions : slice TLabelSelectorRequirement;
}.

(** *** api/v1alpha1: those without pointers are the records of [ApiTypes] *)

Record HealthCheckConfig := mkHealthCheckConfig {
  hc_Test : slice Tstring;
  hc_Interval : string;
  hc_Timeout : string;
  hc_Retries : Z;
}.
Record EnvVarSource := mkEnvVarSource { es_SecretKeyRef : ptr (Api ASecretKeySelector) }.
Record EnvVar := mkEnvVar {
  ev_Name : string;
  ev_Value : string;
  ev_ValueFrom : ptr (Api AEnvVarSource);
}.
Record DockerContainerSpec := mkDockerContainerSpec {
  cs_Image : string;
  cs_ImagePullSecret : string;
  cs_ContainerName : string;
  cs_DockerHostRef : string;
  cs_RestartPolicy : string;
  cs_Ports : slice Tstring;
  cs_Env : slice Tstring;
  cs_EnvVars : slice (Api AEnvVar);
  cs_VolumeMounts : slice (Api AVolumeMount);
  cs_SecretVolumes : slice (Api ASecretVolume);
  cs_HealthCheck : ptr (Api AHealthCheckConfig);
  cs_Resources : ptr (Api AResourceRequirements);
  cs_Command : slice Tstring;
  cs_NetworkMode : string;
  cs_ManagementMode : string;
}.
Record DockerContainer := mkDockerContainer {
  dc_Meta : ObjectMeta;
  dc_Spec : DockerContainerSpec;
  dc_Status : DockerContainerStatus;
}.
Record DockerHost := mkDockerHost {
  dh_Meta : ObjectMeta;
  dh_Spec : DockerHostSpec;
  dh_Status : DockerHostStatus;
}.
(** The package's own [ObjectMeta], of a template. *)
Record TemplateMeta := mkTemplateMeta {
  tm_Labels : strmap;
  tm_Annotations : strmap;
}.
Record DockerContainerTemplate := mkDockerContainerTemplate {
  ct_Metadata : TemplateMeta;
  ct_Spec : DockerContainerSpec;
}.
Record DockerDeploymentSpec := mkDockerDeploymentSpec {
  dps_Replicas : ptr Tint32;
  dps_Selector : ptr TLabelSelector;
  dps_Template : DockerContainerTemplate;
}.
Record DockerDeploymentStatus := mkDockerDeploymentStatus {
  dpst_AvailableReplicas : Z;
  dpst_Conditions : slice TCondition;
}.
Record DockerDeployment := mkDockerDeployment {
  dd_Meta : ObjectMeta;
  dd_Spec : DockerDeploymentSpec;
  dd_Status : DockerDeploymentStatus;
}.
Record DockerJobSpec := mkDockerJobSpec {
  js_Image : string;
  js_ContainerName : string;
  js_Command : slice Tstring;
  js_Args : slice Tstring;
  js_Env : slice Tstring;
  js_EnvVars : slice (Api AEnvVar);
  js_VolumeMounts : slice (Api AVolumeMount);
  js_SecretVolumes : slice (Api ASecretVolume);
  js_DockerHostRef : string;
  js_ImagePullSecret : string;
  js_RestartPolicy : string;
  js_BackoffLimit : Z;
  js_ActiveDeadlineSeconds : ptr Tint64;
  js_TTLSecondsAfterFinished : ptr Tint32;
  js_Resources : ptr (Api AResourceRequirements);
}.
Record DockerJobStatus := mkDockerJobStatus {
  jst_Phase : string;
  jst_ContainerID : string;
  jst_StartTime : ptr TTime;
  jst_CompletionTime : ptr TTime;
  jst_ExitCode : ptr Tint32;
  jst_Attempts : Z;
  jst_Message : string;
}.
Record DockerJob := mkDockerJob {
  dj_Meta : ObjectMeta;
  dj_Spec : DockerJobSpec;
  dj_Status : DockerJobStatus;
}.
Record DockerServiceSpec := mkDockerServiceSpec {
  ss_ContainerRef : string;
  ss_Selector : ptr TLabelSelector;
  ss_Ports : slice (Api AServicePort);
  ss_NetworkMode : string;
}.
Record DockerService := mkDockerService {
  dsv_Meta : ObjectMeta;
  dsv_Spec : DockerServiceSpec;
  dsv_Status : DockerServiceStatus;
}.

(** The lists the client reads: [Items] and the list's metadata. *)
Record ObjectList (a : api) := mkObjectList {
  l_Meta : ListMeta;
  l_Items : slice (Api a);
}.
End Mem.
Arguments Mem.mkObjectList {a} _ _.
Arguments Mem.l_Meta {a} _.
Arguments Mem.l_Items {a} _.

(** What an object of a type holds. *)
Definition in_memory (a : api) : Type :=
  match a with
  | ADockerContainer => Mem.DockerContainer
  | ADockerContainerList => Mem.ObjectList ADockerContainer
  | ADockerContainerSpec => Mem.DockerContainerSpec
  | ADockerContainerStatus => DockerContainerStatus
  | ADockerContainerTemplate => Mem.DockerContainerTemplate
  | ADockerDeployment => Mem.DockerDeployment
  | ADockerDeploymentList => Mem.ObjectList ADockerDeployment
  | ADockerDeploymentSpec => Mem.DockerDeploymentSpec
  | ADockerDeploymentStatus => Mem.DockerDeploymentStatus
  | ADockerHost => Mem.DockerHost
  | ADockerHostList => Mem.ObjectList ADockerHost
  | ADockerHostSpec => DockerHostSpec
  | ADockerHostStatus => DockerHostStatus
  | ADockerJob => Mem.DockerJob
  | ADockerJobList => Mem.ObjectList ADockerJob
  | ADockerJobSpec => Mem.DockerJobSpec
  | ADockerJobStatus => Mem.DockerJobStatus
  | ADockerService => Mem.DockerService
  | ADockerServiceList => Mem.ObjectList ADockerService
  | ADockerServiceSpec => Mem.DockerServiceSpec
  | ADockerServiceStatus => DockerServiceStatus
  | AEnvVar => Mem.EnvVar
  | AEnvVarSource => Mem.EnvVarSource
  | AHealthCheckConfig => Mem.HealthCheckConfig
  | AObjectMeta => Mem.TemplateMeta
  | AResourceRequirements => ResourceRequirements
  | ASecretKeySelector => SecretKeySelector
  | ASecretVolume => SecretVolume
  | AServicePort => ServicePort
  | AVolumeMount => VolumeMount
  end.

#[export] Instance api_universe : Universe ty := {
  ty_eq_dec := ty_dec;
  elem t :=
    match t with
    | Tstring => string
    | Tbool => bool
    | Tint32 | Tint64 | TTime => Z
    | TMap => gmap string string
    | TOwnerReference => Mem.OwnerReference
    | TLabelSelectorRequirement => Mem.LabelSelectorRequirement
    | TLabelSelector => Mem.LabelSelector
    | TCondition => Condition
    | Api a => in_memory a
    end;
}.

(** ** What a struct stands for *)

(** A nil map is empty. *)
Definition read_map : reader Mem.strmap (gmap string string) := fun h p =>
  default ∅ <$> read_ptr TMap flat h p.

Definition read_OwnerReference : reader Mem.OwnerReference OwnerReference := fun h r =>
  controller ← read_ptr Tbool flat h (Mem.or_Controller r);
  Some (mkOwnerReference (Mem.or_Kind r) (Mem.or_Name r) (Mem.or_UID r) controller).

Definition read_ObjectMeta : reader Mem.ObjectMeta ObjectMeta := fun h m =>
  labels ← read_map h (Mem.om_Labels m);
  annotations ← read_map h (Mem.om_Annotations m);
  finalizers ← read_slice Tstring flat h (Mem.om_Finalizers m);
  owners ← read_slice TOwnerReference read_OwnerReference h (Mem.om_OwnerReferences m);
  deleted ← read_ptr TTime flat h (Mem.om_DeletionTimestamp m);
  Some (mkObjectMeta (Mem.om_Name m) (Mem.om_Namespace m) (Mem.om_UID m) labels annotations
    finalizers owners (Mem.om_CreationTimestamp m) deleted).

(** The metadata of a list, and a list. *)
Record ListMeta := mkListMeta {
  lm_SelfLink : string;
  lm_ResourceVersion : string;
  lm_Continue : string;
  lm_RemainingItemCount : option Z;
}.
Record ObjectList (A : Type) := mkObjectList { l_Meta : ListMeta; l_Items : list A }.
Arguments mkObjectList {A} _ _.

Definition read_ListMeta : reader Mem.ListMeta ListMeta := fun h m =>
  remaining ← read_ptr Tint64 flat h (Mem.lm_RemainingItemCount m);
  Some (mkListMeta (Mem.lm_SelfLink m) (Mem.lm_ResourceVersion m) (Mem.lm_Continue m) remaining).

Definition read_Requirement : reader Mem.LabelSelectorRequirement LabelSelectorRequirement := fun h r =>
  values ← read_slice Tstring flat h (Mem.lsr_Values r);
  Some (mkLabelSelectorRequirement (Mem.lsr_Key r) (Mem.lsr_Operator r) values).
Definition read_LabelSelector : reader Mem.LabelSelector LabelSelector := fun h s =>
  labels ← read_map h (Mem.ls_MatchLabels s);
  exprs ← read_slice TLabelSelectorRequirement read_Requirement h (Mem.ls_MatchExpressions s);
  Some (mkLabelSelector labels exprs).

Definition read_HealthCheckConfig : reader Mem.HealthCheckConfig HealthCheckConfig := fun h c =>
  test ← read_slice Tstring flat h (Mem.hc_Test c);
  Some (mkHealthCheckConfig test (Mem.hc_Interval c) (Mem.hc_Timeout c) (Mem.hc_Retries c)).
Definition read_EnvVarSource : reader Mem.EnvVarSource EnvVarSource := fun h s =>
  key ← read_ptr (Api ASecretKeySelector) flat h (Mem.es_SecretKeyRef s);
  Some (mkEnvVarSource key).
Definition read_EnvVar : reader Mem.EnvVar EnvVar := fun h e =>
  from ← read_ptr (Api AEnvVarSource) read_EnvVarSource h (Mem.ev_ValueFrom e);
  Some (mkEnvVar (Mem.ev_Name e) (Mem.ev_Value e) from).

Definition read_ContainerSpec : reader Mem.DockerContainerSpec DockerContainerSpec := fun h s =>
  ports ← read_slice Tstring flat h (Mem.cs_Ports s);
  env ← read_slice Tstring flat h (Mem.cs_Env s);
  envVars ← read_slice (Api AEnvVar) read_EnvVar h (Mem.cs_EnvVars s);
  mounts ← read_slice (Api AVolumeMount) flat h (Mem.cs_VolumeMounts s);
  secrets ← read_slice (Api ASecretVolume) flat h (Mem.cs_SecretVolumes s);
  health ← read_ptr (Api AHealthCheckConfig) read_HealthCheckConfig h (Mem.cs_HealthCheck s);
  resources ← read_ptr (Api AResourceRequirements) flat h (Mem.cs_Resources s);
  command ← read_slice Tstring flat h (Mem.cs_Command s);
  Some (mkDockerContainerSpec (Mem.cs_Image s) (Mem.cs_ImagePullSecret s) (Mem.cs_ContainerName s)
    (Mem.cs_DockerHostRef s) (Mem.cs_RestartPolicy s) ports env envVars mounts secrets health
    resources command (Mem.cs_NetworkMode s) (Mem.cs_ManagementMode s)).
Definition read_Container : reader Mem.DockerContainer DockerContainer := fun h c =>
  m ← read_ObjectMeta h (Mem.dc_Meta c);
  s ← read_ContainerSpec h (Mem.dc_Spec c);
  Some (mkDockerContainer m s (Mem.dc_Status c)).

Definition read_Host : reader Mem.DockerHost DockerHost := fun h c =>
  m ← read_ObjectMeta h (Mem.dh_Meta c);
  Some (mkDockerHost m (Mem.dh_Spec c) (Mem.dh_Status c)).

Definition read_TemplateMeta : reader Mem.TemplateMeta TemplateMeta := fun h m =>
  labels ← read_map h (Mem.tm_Labels m);
  annotations ← read_map h (Mem.tm_Annotations m);
  Some (mkTemplateMeta labels annotations).
Definition read_Template : reader Mem.DockerContainerTemplate DockerContainerTemplate := fun h t =>
  m ← read_TemplateMeta h (Mem.ct_Metadata t);
  s ← read_ContainerSpec h (Mem.ct_Spec t);
  Some (mkDockerContainerTemplate m s).
Definition read_DeploymentSpec : reader Mem.DockerDeploymentSpec DockerDeploymentSpec := fun h s =>
  replicas ← read_ptr Tint32 flat h (Mem.dps_Replicas s);
  selector ← read_ptr TLabelSelector read_LabelSelector h (Mem.dps_Selector s);
  template ← read_Template h (Mem.dps_Template s);
  Some (mkDockerDeploymentSpec replicas selector template).
Definition read_DeploymentStatus : reader Mem.DockerDeploymentStatus DockerDeploymentStatus := fun h s =>
  conditions ← read_slice TCondition flat h (Mem.dpst_Conditions s);
  Some (mkDockerDeploymentStatus (Mem.dpst_AvailableReplicas s) conditions).
Definition read_Deployment : reader Mem.DockerDeployment DockerDeployment := fun h d =>
  m ← read_ObjectMeta h (Mem.dd_Meta d);
  s ← read_DeploymentSpec h (Mem.dd_Spec d);
  st ← read_DeploymentStatus h (Mem.dd_Status d);
  Some (mkDockerDeployment m s st).

Definition read_JobSpec : reader Mem.DockerJobSpec DockerJobSpec := fun h s =>
  command ← read_slice Tstring flat h (Mem.js_Command s);
  args ← read_slice Tstring flat h (Mem.js_Args s);
  env ← read_slice Tstring flat h (Mem.js_Env s);
  envVars ← read_slice (Api AEnvVar) read_EnvVar h (Mem.js_EnvVars s);
  mounts ← read_slice (Api AVolumeMount) flat h (Mem.js_VolumeMounts s);
  secrets ← read_slice (Api ASecretVolume) flat h (Mem.js_SecretVolumes s);
  deadline ← read_ptr Tint64 flat h (Mem.js_ActiveDeadlineSeconds s);
  ttl ← read_ptr Tint32 flat h (Mem.js_TTLSecondsAfterFinished s);
  resources ← read_ptr (Api AResourceRequirements) flat h (Mem.js_Resources s);
  Some (mkDockerJobSpec (Mem.js_Image s) (Mem.js_ContainerName s) command args env envVars mounts
    secrets (Mem.js_DockerHostRef s) (Mem.js_ImagePullSecret s) (Mem.js_RestartPolicy s)
    (Mem.js_BackoffLimit s) deadline ttl resources).
Definition read_JobStatus : reader Mem.DockerJobStatus DockerJobStatus := fun h s =>
  start ← read_ptr TTime flat h (Mem.jst_StartTime s);
  completion ← read_ptr TTime flat h (Mem.jst_CompletionTime s);
  code ← read_ptr Tint32 flat h (Mem.jst_ExitCode s);
  Some (mkDockerJobStatus (Mem.jst_Phase s) (Mem.jst_ContainerID s) start completion code
    (Mem.jst_Attempts s) (Mem.jst_Message s)).
Definition read_Job : reader Mem.DockerJob DockerJob := fun h j =>
  m ← read_ObjectMeta h (Mem.dj_Meta j);
  s ← read_JobSpec h (Mem.dj_Spec j);
  st ← read_JobStatus h (Mem.dj_Status j);
  Some (mkDockerJob m s st).

Definition read_ServiceSpec : reader Mem.DockerServiceSpec DockerServiceSpec := fun h s =>
  selector ← read_ptr TLabelSelector read_LabelSelector h (Mem.ss_Selector s);
  ports ← read_slice (Api AServicePort) flat h (Mem.ss_Ports s);
  Some (mkDockerServiceSpec (Mem.ss_ContainerRef s) selector ports (Mem.ss_NetworkMode s)).
Definition read_Service : reader Mem.DockerService DockerService := fun h s =>
  m ← read_ObjectMeta h (Mem.dsv_Meta s);
  spec ← read_ServiceSpec h (Mem.dsv_Spec s);
  Some (mkDockerService m spec (Mem.dsv_Status s)).

Definition read_List (a : api) {V} (rd : reader (in_memory a) V)
    : reader (Mem.ObjectList a) (ObjectList V) := fun h l =>
  m ← read_ListMeta h (Mem.l_Meta l);
  items ← read_slice (Api a) rd h (Mem.l_Items l);
  Some (mkObjectList m items).

(** ** What a reader looks at *)

(** The types a spec, a status or metadata may point to: all but those of whole
    objects. *)
Definition inner (t : ty) : bool :=
  match t with
  | Api (ADockerContainer | ADockerDeployment | ADockerHost | ADockerJob | ADockerService) => false
  | _ => true
  end.

Create HintDb looks.
#[export] Hint Resolve looks_flat looks_ptr looks_slice : looks.

(** The fields one by one. *)
Ltac looks_fields rd :=
  let h := fresh "h" in let h' := fresh "h'" in let Hh := fresh "Hh" in let Hr := fresh "Hr" in
  intros h h' ? ? Hh Hr; unfold rd in *;
  repeat (let E := fresh "E" in apply bind_Some in Hr as (? & E & Hr));
  repeat match goal with
  | E : ?f h ?x = Some ?y |- _ =>
      let L := fresh "L" in
      epose proof (L := fun L : looks_at _ f => L h h' x y Hh E); rewrite L by eauto with looks; clear E L
  end; exact Hr.

Section looks.
Variable P : ty -> Prop.
Hypothesis Hin : forall t, inner t = true -> P t.
#[local] Hint Extern 1 (P _) => apply Hin; reflexivity : looks.

Lemma looks_map : looks_at P read_map.
Proof using All.
  intros h h' p v Hh. unfold read_map. rewrite fmap_Some. intros (o & Ho & ->).
  assert (looks_at P (read_ptr TMap flat)) as L by eauto with looks. by rewrite (L h h' _ _ Hh Ho).
Qed.
#[local] Hint Resolve looks_map : looks.
Lemma looks_OwnerReference : looks_at P read_OwnerReference.
Proof using All. looks_fields read_OwnerReference. Qed.
#[local] Hint Resolve looks_OwnerReference : looks.
Lemma looks_ObjectMeta : looks_at P read_ObjectMeta.
Proof using All. looks_fields read_ObjectMeta. Qed.
Lemma looks_ListMeta : looks_at P read_ListMeta.
Proof using All. looks_fields read_ListMeta. Qed.
Lemma looks_Requirement : looks_at P read_Requirement.
Proof using All. looks_fields read_Requirement. Qed.
#[local] Hint Resolve looks_Requirement : looks.
Lemma looks_LabelSelector : looks_at P read_LabelSelector.
Proof using All. looks_fields read_LabelSelector. Qed.
Lemma looks_HealthCheckConfig : looks_at P read_HealthCheckConfig.
Proof using All. looks_fields read_HealthCheckConfig. Qed.
Lemma looks_EnvVarSource : looks_at P read_EnvVarSource.
Proof using All. looks_fields read_EnvVarSource. Qed.
#[local] Hint Resolve looks_EnvVarSource : looks.
Lemma looks_EnvVar : looks_at P read_EnvVar.
Proof using All. looks_fields read_EnvVar. Qed.
#[local] Hint Resolve looks_ObjectMeta looks_LabelSelector looks_HealthCheckConfig looks_EnvVar : looks.
Lemma looks_ContainerSpec : looks_at P read_ContainerSpec.
Proof using All. looks_fields read_ContainerSpec. Qed.
#[local] Hint Resolve looks_ContainerSpec : looks.
Lemma looks_Container : looks_at P read_Container.
Proof using All. looks_fields read_Container. Qed.
Lemma looks_Host : looks_at P read_Host.
Proof using All. looks_fields read_Host. Qed.
Lemma looks_TemplateMeta : looks_at P read_TemplateMeta.
Proof using All. looks_fields read_TemplateMeta. Qed.
#[local] Hint Resolve looks_TemplateMeta : looks.
Lemma looks_Template : looks_at P read_Template.
Proof using All. looks_fields read_Template. Qed.
#[local] Hint Resolve looks_Template : looks.
Lemma looks_DeploymentSpec : looks_at P read_DeploymentSpec.
Proof using All. looks_fields read_DeploymentSpec. Qed.
Lemma looks_DeploymentStatus : looks_at P read_DeploymentStatus.
Proof using All. looks_fields read_DeploymentStatus. Qed.
#[local] Hint Resolve looks_DeploymentSpec looks_DeploymentStatus : looks.
Lemma looks_Deployment : looks_at P read_Deployment.
Proof using All. looks_fields read_Deployment. Qed.
Lemma looks_JobSpec : looks_at P read_JobSpec.
Proof using All. looks_fields read_JobSpec. Qed.
Lemma looks_JobStatus : looks_at P read_JobStatus.
Proof using All. looks_fields read_JobStatus. Qed.
#[local] Hint Resolve looks_JobSpec looks_JobStatus : looks.
Lemma looks_Job : looks_at P read_Job.
Proof using All. looks_fields read_Job. Qed.
Lemma looks_ServiceSpec : looks_at P read_ServiceSpec.
Proof using All. looks_fields read_ServiceSpec. Qed.
#[local] Hint Resolve looks_ServiceSpec : looks.
Lemma looks_Service : looks_at P read_Service.
Proof using All. looks_fields read_Service. Qed.
End looks.

#[export] Hint Resolve looks_map looks_OwnerReference looks_ObjectMeta looks_ListMeta
  looks_Requirement looks_LabelSelector looks_HealthCheckConfig looks_EnvVarSource looks_EnvVar
  looks_ContainerSpec
  looks_Container looks_Host looks_TemplateMeta looks_Template looks_DeploymentSpec
  looks_DeploymentStatus looks_Deployment looks_JobSpec looks_JobStatus looks_Job looks_ServiceSpec
  looks_Service : looks.
