(* ===== verification/DeepCopy.v ===== *)
(** * DeepCopy: [zz_generated.deepcopy.go]

    The deep copies of the package.  [DeepCopyInto] gives what is written to
    [*out]; nothing else has the address of [*out] meanwhile.  The deep copies of
    metav1 are an interface. *)

From S2P Require Import Prelude GoMemory ApiTypes ApiMemory.

Open Scope Z_scope.

Notation "'let*' x ':=' p 'in' q" := (mem_bind p (fun x => q))
  (at level 10, x name, p at level 100, q at level 200).

(** [metav1]'s own deep copies. *)
Class MetaV1 := {
  metav1_ObjectMeta_DeepCopyInto : Mem.ObjectMeta -> mem Mem.ObjectMeta;
  metav1_ListMeta_DeepCopyInto : Mem.ListMeta -> mem Mem.ListMeta;
  metav1_LabelSelector_DeepCopyInto : Mem.LabelSelector -> mem Mem.LabelSelector;
  metav1_Condition_DeepCopyInto : Condition -> mem Condition;
  metav1_Time_DeepCopy : ptr TTime -> mem (ptr TTime);
}.
(** They copy. *)
Class MetaV1Laws `{MetaV1} : Prop := {
  metav1_ObjectMeta_copies : copies read_ObjectMeta metav1_ObjectMeta_DeepCopyInto;
  metav1_ListMeta_copies : copies read_ListMeta metav1_ListMeta_DeepCopyInto;
  metav1_LabelSelector_copies : copies read_LabelSelector metav1_LabelSelector_DeepCopyInto;
  metav1_Condition_copies : copies flat metav1_Condition_DeepCopyInto;
  metav1_Time_copies : copies (read_ptr TTime flat) metav1_Time_DeepCopy;
}.

(** [*out = make(map[string]string, len( *in))] and the loop, in any order. *)
Definition copy_entries (m : gmap string string) : mem (gmap string string) :=
  mem_ret (foldr (fun kv out => <[ kv.1 := kv.2 ]> out) ∅ (map_to_list m)).
Definition copy_map (p : Mem.strmap) : mem Mem.strmap := copy_ptr TMap copy_entries p.

Section deepcopy.
Context `{MetaV1}.

(** ** The functions *)

(** [out := new(T); in.DeepCopyInto(out); return out], or [nil]. *)
Definition deep_copy (a : api) (into : in_memory a -> mem (in_memory a)) (p : ptr (Api a))
    : mem (ptr (Api a)) := copy_ptr (Api a) into p.

(** What [DeepCopyObject] returns: a [runtime.Object], [nil] for [nil]. *)
Definition runtime_object : Type := option (api * positive).
Definition deep_copy_object (a : api) (copy : ptr (Api a) -> mem (ptr (Api a))) (p : ptr (Api a))
    : mem runtime_object :=
  let* c := copy p in
  mem_ret (match c with Some l => Some (a, l) | None => None end).

(** Structs without pointers: [*out = *in]. *)
Definition SecretKeySelector_DeepCopyInto (x : SecretKeySelector) : mem SecretKeySelector := mem_ret x.
Definition SecretKeySelector_DeepCopy := deep_copy ASecretKeySelector SecretKeySelector_DeepCopyInto.
Definition SecretVolume_DeepCopyInto (x : SecretVolume) : mem SecretVolume := mem_ret x.
Definition SecretVolume_DeepCopy := deep_copy ASecretVolume SecretVolume_DeepCopyInto.
Definition ServicePort_DeepCopyInto (x : ServicePort) : mem ServicePort := mem_ret x.
Definition ServicePort_DeepCopy := deep_copy AServicePort ServicePort_DeepCopyInto.
Definition VolumeMount_DeepCopyInto (x : VolumeMount) : mem VolumeMount := mem_ret x.
Definition VolumeMount_DeepCopy := deep_copy AVolumeMount VolumeMount_DeepCopyInto.
Definition ResourceRequirements_DeepCopyInto (x : ResourceRequirements) : mem ResourceRequirements :=
  mem_ret x.
Definition ResourceRequirements_DeepCopy := deep_copy AResourceRequirements ResourceRequirements_DeepCopyInto.
Definition DockerContainerStatus_DeepCopyInto (x : DockerContainerStatus) : mem DockerContainerStatus :=
  mem_ret x.
Definition DockerContainerStatus_DeepCopy := deep_copy ADockerContainerStatus DockerContainerStatus_DeepCopyInto.
Definition DockerHostSpec_DeepCopyInto (x : DockerHostSpec) : mem DockerHostSpec := mem_ret x.
Definition DockerHostSpec_DeepCopy := deep_copy ADockerHostSpec DockerHostSpec_DeepCopyInto.
Definition DockerHostStatus_DeepCopyInto (x : DockerHostStatus) : mem DockerHostStatus := mem_ret x.
Definition DockerHostStatus_DeepCopy := deep_copy ADockerHostStatus DockerHostStatus_DeepCopyInto.
Definition DockerServiceStatus_DeepCopyInto (x : DockerServiceStatus) : mem DockerServiceStatus := mem_ret x.
Definition DockerServiceStatus_DeepCopy := deep_copy ADockerServiceStatus DockerServiceStatus_DeepCopyInto.

(** *** Containers *)

Definition EnvVarSource_DeepCopyInto (x : Mem.EnvVarSource) : mem Mem.EnvVarSource :=
  let* key := copy_ptr (Api ASecretKeySelector) mem_ret (Mem.es_SecretKeyRef x) in
  mem_ret (Mem.mkEnvVarSource key).
Definition EnvVarSource_DeepCopy := deep_copy AEnvVarSource EnvVarSource_DeepCopyInto.

Definition EnvVar_DeepCopyInto (x : Mem.EnvVar) : mem Mem.EnvVar :=
  let* from := copy_ptr (Api AEnvVarSource) EnvVarSource_DeepCopyInto (Mem.ev_ValueFrom x) in
  mem_ret (Mem.mkEnvVar (Mem.ev_Name x) (Mem.ev_Value x) from).
Definition EnvVar_DeepCopy := deep_copy AEnvVar EnvVar_DeepCopyInto.

Definition HealthCheckConfig_DeepCopyInto (x : Mem.HealthCheckConfig) : mem Mem.HealthCheckConfig :=
  let* test := copy_slice Tstring mem_ret (Mem.hc_Test x) in
  mem_ret (Mem.mkHealthCheckConfig test (Mem.hc_Interval x) (Mem.hc_Timeout x) (Mem.hc_Retries x)).
Definition HealthCheckConfig_DeepCopy := deep_copy AHealthCheckConfig HealthCheckConfig_DeepCopyInto.

Definition DockerContainerSpec_DeepCopyInto (x : Mem.DockerContainerSpec) : mem Mem.DockerContainerSpec :=
  let* ports := copy_slice Tstring mem_ret (Mem.cs_Ports x) in
  let* env := copy_slice Tstring mem_ret (Mem.cs_Env x) in
  let* envVars := copy_slice (Api AEnvVar) EnvVar_DeepCopyInto (Mem.cs_EnvVars x) in
  let* mounts := copy_slice (Api AVolumeMount) mem_ret (Mem.cs_VolumeMounts x) in
  let* secrets := copy_slice (Api ASecretVolume) mem_ret (Mem.cs_SecretVolumes x) in
  let* health := copy_ptr (Api AHealthCheckConfig) HealthCheckConfig_DeepCopyInto (Mem.cs_HealthCheck x) in
  let* resources := copy_ptr (Api AResourceRequirements) mem_ret (Mem.cs_Resources x) in
  let* command := copy_slice Tstring mem_ret (Mem.cs_Command x) in
  mem_ret (Mem.mkDockerContainerSpec (Mem.cs_Image x) (Mem.cs_ImagePullSecret x)
    (Mem.cs_ContainerName x) (Mem.cs_DockerHostRef x) (Mem.cs_RestartPolicy x) ports env envVars
    mounts secrets health resources command (Mem.cs_NetworkMode x) (Mem.cs_ManagementMode x)).
Definition DockerContainerSpec_DeepCopy := deep_copy ADockerContainerSpec DockerContainerSpec_DeepCopyInto.

Definition DockerContainer_DeepCopyInto (x : Mem.DockerContainer) : mem Mem.DockerContainer :=
  let* m := metav1_ObjectMeta_DeepCopyInto (Mem.dc_Meta x) in
  let* spec := DockerContainerSpec_DeepCopyInto (Mem.dc_Spec x) in
  mem_ret (Mem.mkDockerContainer m spec (Mem.dc_Status x)).
Definition DockerContainer_DeepCopy := deep_copy ADockerContainer DockerContainer_DeepCopyInto.
Definition DockerContainer_DeepCopyObject := deep_copy_object ADockerContainer DockerContainer_DeepCopy.

Definition DockerContainerList_DeepCopyInto (x : Mem.ObjectList ADockerContainer)
    : mem (Mem.ObjectList ADockerContainer) :=
  let* m := metav1_ListMeta_DeepCopyInto (Mem.l_Meta x) in
  let* items := copy_slice (Api ADockerContainer) DockerContainer_DeepCopyInto (Mem.l_Items x) in
  mem_ret (Mem.mkObjectList m items).
Definition DockerContainerList_DeepCopy := deep_copy ADockerContainerList DockerContainerList_DeepCopyInto.
Definition DockerContainerList_DeepCopyObject :=
  deep_copy_object ADockerContainerList DockerContainerList_DeepCopy.

(** *** Hosts *)

Definition DockerHost_DeepCopyInto (x : Mem.DockerHost) : mem Mem.DockerHost :=
  let* m := metav1_ObjectMeta_DeepCopyInto (Mem.dh_Meta x) in
  mem_ret (Mem.mkDockerHost m (Mem.dh_Spec x) (Mem.dh_Status x)).
Definition DockerHost_DeepCopy := deep_copy ADockerHost DockerHost_DeepCopyInto.
Definition DockerHost_DeepCopyObject := deep_copy_object ADockerHost DockerHost_DeepCopy.

Definition DockerHostList_DeepCopyInto (x : Mem.ObjectList ADockerHost) : mem (Mem.ObjectList ADockerHost) :=
  let* m := metav1_ListMeta_DeepCopyInto (Mem.l_Meta x) in
  let* items := copy_slice (Api ADockerHost) DockerHost_DeepCopyInto (Mem.l_Items x) in
  mem_ret (Mem.mkObjectList m items).
Definition DockerHostList_DeepCopy := deep_copy ADockerHostList DockerHostList_DeepCopyInto.
Definition DockerHostList_DeepCopyObject := deep_copy_object ADockerHostList DockerHostList_DeepCopy.

(** *** Deployments; the package's own [ObjectMeta] is that of a template *)

Definition ObjectMeta_DeepCopyInto (x : Mem.TemplateMeta) : mem Mem.TemplateMeta :=
  let* labels := copy_map (Mem.tm_Labels x) in
  let* annotations := copy_map (Mem.tm_Annotations x) in
  mem_ret (Mem.mkTemplateMeta labels annotations).
Definition ObjectMeta_DeepCopy := deep_copy AObjectMeta ObjectMeta_DeepCopyInto.

Definition DockerContainerTemplate_DeepCopyInto (x : Mem.DockerContainerTemplate)
    : mem Mem.DockerContainerTemplate :=
  let* m := ObjectMeta_DeepCopyInto (Mem.ct_Metadata x) in
  let* spec := DockerContainerSpec_DeepCopyInto (Mem.ct_Spec x) in
  mem_ret (Mem.mkDockerContainerTemplate m spec).
Definition DockerContainerTemplate_DeepCopy :=
  deep_copy ADockerContainerTemplate DockerContainerTemplate_DeepCopyInto.

Definition DockerDeploymentSpec_DeepCopyInto (x : Mem.DockerDeploymentSpec) : mem Mem.DockerDeploymentSpec :=
  let* replicas := copy_ptr Tint32 mem_ret (Mem.dps_Replicas x) in
  let* selector := copy_ptr TLabelSelector metav1_LabelSelector_DeepCopyInto (Mem.dps_Selector x) in
  let* template := DockerContainerTemplate_DeepCopyInto (Mem.dps_Template x) in
  mem_ret (Mem.mkDockerDeploymentSpec replicas selector template).
Definition DockerDeploymentSpec_DeepCopy := deep_copy ADockerDeploymentSpec DockerDeploymentSpec_DeepCopyInto.

Definition DockerDeploymentStatus_DeepCopyInto (x : Mem.DockerDeploymentStatus)
    : mem Mem.DockerDeploymentStatus :=
  let* conditions := copy_slice TCondition metav1_Condition_DeepCopyInto (Mem.dpst_Conditions x) in
  mem_ret (Mem.mkDockerDeploymentStatus (Mem.dpst_AvailableReplicas x) conditions).
Definition DockerDeploymentStatus_DeepCopy :=
  deep_copy ADockerDeploymentStatus DockerDeploymentStatus_DeepCopyInto.

Definition DockerDeployment_DeepCopyInto (x : Mem.DockerDeployment) : mem Mem.DockerDeployment :=
  let* m := metav1_ObjectMeta_DeepCopyInto (Mem.dd_Meta x) in
  let* spec := DockerDeploymentSpec_DeepCopyInto (Mem.dd_Spec x) in
  let* status := DockerDeploymentStatus_DeepCopyInto (Mem.dd_Status x) in
  mem_ret (Mem.mkDockerDeployment m spec status).
Definition DockerDeployment_DeepCopy := deep_copy ADockerDeployment DockerDeployment_DeepCopyInto.
Definition DockerDeployment_DeepCopyObject := deep_copy_object ADockerDeployment DockerDeployment_DeepCopy.

Definition DockerDeploymentList_DeepCopyInto (x : Mem.ObjectList ADockerDeployment)
    : mem (Mem.ObjectList ADockerDeployment) :=
  let* m := metav1_ListMeta_DeepCopyInto (Mem.l_Meta x) in
  let* items := copy_slice (Api ADockerDeployment) DockerDeployment_DeepCopyInto (Mem.l_Items x) in
  mem_ret (Mem.mkObjectList m items).
Definition DockerDeploymentList_DeepCopy := deep_copy ADockerDeploymentList DockerDeploymentList_DeepCopyInto.
Definition DockerDeploymentList_DeepCopyObject :=
  deep_copy_object ADockerDeploymentList DockerDeploymentList_DeepCopy.

(** *** Jobs *)

(** A time that is there is copied by its own method. *)
Definition copy_time (p : ptr TTime) : mem (ptr TTime) :=
  match p with None => mem_ret None | Some _ => metav1_Time_DeepCopy p end.

Definition DockerJobSpec_DeepCopyInto (x : Mem.DockerJobSpec) : mem Mem.DockerJobSpec :=
  let* command := copy_slice Tstring mem_ret (Mem.js_Command x) in
  let* args := copy_slice Tstring mem_ret (Mem.js_Args x) in
  let* env := copy_slice Tstring mem_ret (Mem.js_Env x) in
  let* envVars := copy_slice (Api AEnvVar) EnvVar_DeepCopyInto (Mem.js_EnvVars x) in
  let* mounts := copy_slice (Api AVolumeMount) mem_ret (Mem.js_VolumeMounts x) in
  let* secrets := copy_slice (Api ASecretVolume) mem_ret (Mem.js_SecretVolumes x) in
  let* deadline := copy_ptr Tint64 mem_ret (Mem.js_ActiveDeadlineSeconds x) in
  let* ttl := copy_ptr Tint32 mem_ret (Mem.js_TTLSecondsAfterFinished x) in
  let* resources := copy_ptr (Api AResourceRequirements) mem_ret (Mem.js_Resources x) in
  mem_ret (Mem.mkDockerJobSpec (Mem.js_Image x) (Mem.js_ContainerName x) command args env envVars
    mounts secrets (Mem.js_DockerHostRef x) (Mem.js_ImagePullSecret x) (Mem.js_RestartPolicy x)
    (Mem.js_BackoffLimit x) deadline ttl resources).
Definition DockerJobSpec_DeepCopy := deep_copy ADockerJobSpec DockerJobSpec_DeepCopyInto.

Definition DockerJobStatus_DeepCopyInto (x : Mem.DockerJobStatus) : mem Mem.DockerJobStatus :=
  let* start := copy_time (Mem.jst_StartTime x) in
  let* completion := copy_time (Mem.jst_CompletionTime x) in
  let* code := copy_ptr Tint32 mem_ret (Mem.jst_ExitCode x) in
  mem_ret (Mem.mkDockerJobStatus (Mem.jst_Phase x) (Mem.jst_ContainerID x) start completion code
    (Mem.jst_Attempts x) (Mem.jst_Message x)).
Definition DockerJobStatus_DeepCopy := deep_copy ADockerJobStatus DockerJobStatus_DeepCopyInto.

Definition DockerJob_DeepCopyInto (x : Mem.DockerJob) : mem Mem.DockerJob :=
  let* m := metav1_ObjectMeta_DeepCopyInto (Mem.dj_Meta x) in
  let* spec := DockerJobSpec_DeepCopyInto (Mem.dj_Spec x) in
  let* status := DockerJobStatus_DeepCopyInto (Mem.dj_Status x) in
  mem_ret (Mem.mkDockerJob m spec status).
Definition DockerJob_DeepCopy := deep_copy ADockerJob DockerJob_DeepCopyInto.
Definition DockerJob_DeepCopyObject := deep_copy_object ADockerJob DockerJob_DeepCopy.

Definition DockerJobList_DeepCopyInto (x : Mem.ObjectList ADockerJob) : mem (Mem.ObjectList ADockerJob) :=
  let* m := metav1_ListMeta_DeepCopyInto (Mem.l_Meta x) in
  let* items := copy_slice (Api ADockerJob) DockerJob_DeepCopyInto (Mem.l_Items x) in
  mem_ret (Mem.mkObjectList m items).
Definition DockerJobList_DeepCopy := deep_copy ADockerJobList DockerJobList_DeepCopyInto.
Definition DockerJobList_DeepCopyObject := deep_copy_object ADockerJobList DockerJobList_DeepCopy.

(** *** Services *)

Definition DockerServiceSpec_DeepCopyInto (x : Mem.DockerServiceSpec) : mem Mem.DockerServiceSpec :=
  let* selector := copy_ptr TLabelSelector metav1_LabelSelector_DeepCopyInto (Mem.ss_Selector x) in
  let* ports := copy_slice (Api AServicePort) mem_ret (Mem.ss_Ports x) in
  mem_ret (Mem.mkDockerServiceSpec (Mem.ss_ContainerRef x) selector ports (Mem.ss_NetworkMode x)).
Definition DockerServiceSpec_DeepCopy := deep_copy ADockerServiceSpec DockerServiceSpec_DeepCopyInto.

Definition DockerService_DeepCopyInto (x : Mem.DockerService) : mem Mem.DockerService :=
  let* m := metav1_ObjectMeta_DeepCopyInto (Mem.dsv_Meta x) in
  let* spec := DockerServiceSpec_DeepCopyInto (Mem.dsv_Spec x) in
  mem_ret (Mem.mkDockerService m spec (Mem.dsv_Status x)).
Definition DockerService_DeepCopy := deep_copy ADockerService DockerService_DeepCopyInto.
Definition DockerService_DeepCopyObject := deep_copy_object ADockerService DockerService_DeepCopy.

Definition DockerServiceList_DeepCopyInto (x : Mem.ObjectList ADockerService)
    : mem (Mem.ObjectList ADockerService) :=
  let* m := metav1_ListMeta_DeepCopyInto (Mem.l_Meta x) in
  let* items := copy_slice (Api ADockerService) DockerService_DeepCopyInto (Mem.l_Items x) in
  mem_ret (Mem.mkObjectList m items).
Definition DockerServiceList_DeepCopy := deep_copy ADockerServiceList DockerServiceList_DeepCopyInto.
Definition DockerServiceList_DeepCopyObject := deep_copy_object ADockerServiceList DockerServiceList_DeepCopy.
End deepcopy.
