(* ===== verification/World.v ===== *)
(** * World: what the operator exchanges with the code outside the repository

    The Kubernetes API server (through the controller-runtime client), the
    Docker daemons (through the Docker client), the clock, the random source and
    the operating system are reached by calls; this file is their signature:
    the values exchanged, one constructor of [event] per call the source makes,
    and the answers Go itself guarantees.  Nothing is assumed here about what
    the API server or a daemon answers. *)

From S2P Require Import Prelude Effects ApiTypes.
From stdpp Require Import sorting.

Open Scope Z_scope.

(** ** Core Kubernetes objects *)

Record Secret := mkSecret {
  sec_Meta : ObjectMeta;
  sec_Data : gmap string string;
}.
Record Pod := mkPod {
  pod_Name : string;
  pod_Phase : string;
  pod_IP : string;
}.
Record CoreServicePort := mkCoreServicePort {
  csp_Name : string;
  csp_Port : Z;
  csp_TargetPort : Z;
}.
Record CoreService := mkCoreService {
  csv_Meta : ObjectMeta;
  csv_Selector : gmap string string;
  csv_Ports : list CoreServicePort;
}.
Record ConfigMap := mkConfigMap {
  cm_Meta : ObjectMeta;
  cm_Data : gmap string string;
}.
Record ContainerPort := mkContainerPort {
  cp_Name : string;
  cp_ContainerPort : Z;
}.
(** The pod template the operator writes: one container, whose volume [targets]
    mounts one key of a config map. *)
Record PodTemplate := mkPodTemplate {
  pt_Labels : gmap string string;
  pt_ContainerName : string;
  pt_Image : string;
  pt_ImagePullPolicy : string;
  pt_Args : list string;
  pt_Ports : list ContainerPort;
  pt_VolumeMounts : list (string * string);
  pt_ConfigMapVolume : string * string * list (string * string);
}.
Record Deployment := mkDeployment {
  dep_Meta : ObjectMeta;
  dep_Replicas : option Z;
  dep_Selector : option (gmap string string);
  dep_Template : option PodTemplate;
}.

(** The kinds of object read and written through the client. *)
Inductive kind :=
| KDockerContainer | KDockerHost | KDockerJob | KDockerDeployment | KDockerService
| KSecret | KService | KConfigMap | KDeployment.

Definition object (k : kind) : Set :=
  match k with
  | KDockerContainer => DockerContainer
  | KDockerHost => DockerHost
  | KDockerJob => DockerJob
  | KDockerDeployment => DockerDeployment
  | KDockerService => DockerService
  | KSecret => Secret
  | KService => CoreService
  | KConfigMap => ConfigMap
  | KDeployment => Deployment
  end.

(** [types.NamespacedName], which is also [ctrl.Request] and [client.ObjectKey]. *)
Record NamespacedName := mkNN { nn_Namespace : string; nn_Name : string }.

(** [ctrl.Result]; [RequeueAfter] is a [time.Duration] in nanoseconds. *)
Record Result := mkResult { res_Requeue : bool; res_RequeueAfter : Z }.
Definition done_result : Result := mkResult false 0.
Definition requeue_after (d : Z) : Result := mkResult false d.

Definition Second : Z := 10 ^ 9.
Definition Minute : Z := 60 * Second.

(** [labels.Selector], an interface: its method [Matches]. *)
Record Selector := mkSelector { sel_Matches : gmap string string -> bool }.

Inductive OperationResult := OperationResultNone | OperationResultCreated | OperationResultUpdated.
#[export] Instance OperationResult_eq_dec : EqDecision OperationResult.
Proof. solve_decision. Defined.

(** ** Docker values *)

(** [container.Summary] ([types.Container]): a row of a container listing. *)
Record Container := mkContainer {
  c_ID : string;
  c_Names : list string;
  c_State : string;
  c_Labels : gmap string string;
  c_NumPorts : nat;
  c_NumMounts : nat;
}.

Record ContainerState := mkContainerState {
  st_Status : string;
  st_Running : bool;
  st_ExitCode : Z;
  st_Health : option string;
}.
Record PortBinding := mkPortBinding { pb_HostIP : string; pb_HostPort : string }.
(** [nat.Port] is a string such as [80/tcp]; [nat.PortMap]. *)
Abbreviation PortMap := (gmap string (list PortBinding)).

(** The part of [container.HostConfig] a daemon reports and the operator reads. *)
Record HostConfigInfo := mkHostConfigInfo {
  hci_RestartPolicy : string;
  hci_NanoCPUs : Z;
  hci_Memory : Z;
}.
(** [types.ContainerJSONBase], which [ContainerJSON] embeds by pointer. *)
Record ContainerJSONBase := mkContainerJSONBase {
  cjb_ID : string;
  cjb_Name : string;
  cjb_State : option ContainerState;
  cjb_HostConfig : option HostConfigInfo;
}.
Record ConfigInfo := mkConfigInfo {
  ci_Image : string;
  ci_Cmd : list string;
  ci_Env : list string;
}.
Record EndpointSettings := mkEndpointSettings {
  ep_IPAddress : string;
  ep_NetworkID : string;
}.
(** [Networks] maps to pointers, which may be nil. *)
Record NetworkSettings := mkNetworkSettings {
  ns_Ports : PortMap;
  ns_Networks : gmap string (option EndpointSettings);
}.
Record ContainerJSON := mkContainerJSON {
  cj_Base : option ContainerJSONBase;
  cj_Config : option ConfigInfo;
  cj_NetworkSettings : option NetworkSettings;
}.
(** [types.ContainerJSON{}], what the client returns next to an error. *)
Definition empty_ContainerJSON : ContainerJSON := mkContainerJSON None None None.

(** [container.HealthConfig], [container.Resources], [container.Config] and
    [container.HostConfig], as the operator fills them; unset fields are zero. *)
Record HealthConfig := mkHealthConfig {
  hcf_Test : list string;
  hcf_Interval : Z;
  hcf_Timeout : Z;
  hcf_Retries : Z;
}.
Record Resources := mkResources { r_NanoCPUs : Z; r_Memory : Z }.
Record Config := mkConfig {
  cfg_Image : string;
  cfg_Cmd : list string;
  cfg_Env : list string;
  cfg_ExposedPorts : gset string;
  cfg_Healthcheck : option HealthConfig;
  cfg_Entrypoint : list string;
}.
Record HostConfig := mkHostConfig {
  hcfg_RestartPolicy : string;
  hcfg_NetworkMode : string;
  hcfg_PortBindings : PortMap;
  hcfg_Binds : list string;
  hcfg_Resources : Resources;
}.

(** [tls.Config] with the certificate authority's PEM and the key pair's. *)
Record TLSConfig := mkTLSConfig {
  tls_RootCAs : string;
  tls_Certificate : string * string;
}.
(** [dockerclient.Opt]: the options the operator passes. *)
Inductive ClientOpt :=
| WithHost (host : string)
| WithAPIVersionNegotiation
| WithHTTPClient (tls : TLSConfig) (timeout : Z).
(** A Docker client: the options it was made with, and the connection. *)
Record DockerClient := mkDockerClient { cli_Opts : list ClientOpt; cli_Handle : nat }.

(** An entry of a tar archive: name, mode, content. *)
Record TarEntry := mkTarEntry { te_Name : string; te_Mode : Z; te_Data : string }.

(** ** The calls *)

Inductive event : Set -> Type :=
(* controller-runtime's client *)
| KGet (k : kind) (key : NamespacedName) : event (result (object k))
| KUpdate (k : kind) (o : object k) : event (result (object k))
| KStatusUpdate (k : kind) (o : object k) : event (result (object k))
| KStatusPatch (o base : DockerService) : event (result DockerService)
| KCreate (k : kind) (o : object k) : event (result (object k))
| KDelete (k : kind) (o : object k) : event (result unit)
| KCreateOrUpdate (k : kind) (o : object k) (mutate : object k -> outcome (object k))
    : event (result OperationResult)
| KListContainers (ns : string) (sel : option Selector) : event (result (list DockerContainer))
| KListServices (ns : string) : event (result (list DockerService))
| KListPods (ns : string) (labels : gmap string string) : event (result (list Pod))
| KListNodes (labels : gmap string string) : event (result (list string))
(* the Docker client *)
| DNewClient (opts : list ClientOpt) : event (result DockerClient)
| DClose (cli : DockerClient) : event unit
| DPing (cli : DockerClient) : event (result unit)
| DContainerList (cli : DockerClient) : event (result (list Container))
| DContainerInspect (cli : DockerClient) (id : string) : event (result ContainerJSON)
| DContainerCreate (cli : DockerClient) (cfg : Config) (hc : HostConfig) (name : string)
    : event (result string)
| DContainerStart (cli : DockerClient) (id : string) : event (result unit)
| DContainerStop (cli : DockerClient) (id : string) (timeout : Z) : event (result unit)
| DContainerRemove (cli : DockerClient) (id : string) (force : bool) : event (result unit)
| DImageInspect (cli : DockerClient) (img : string) : event (result unit)
| DImagePull (cli : DockerClient) (img auth : string) : event (result unit)
| DDrainPull (cli : DockerClient) : event unit
| DClosePull (cli : DockerClient) : event unit
| DCopyToContainer (cli : DockerClient) (id path : string) (tar : list TarEntry)
    : event (result unit)
| DNetworkConnect (cli : DockerClient) (net id : string) : event (result unit)
(* the clock, the random source, the process environment, goroutines *)
| TNow : event Z
| RIntn (n : Z) : event Z
| RRead (n : nat) : event (result string)
| OGetenv (name : string) : event string
| GoHTTPPost (url : string) : event unit
(* choices Go leaves open: the iteration order of a map, the result of an
   unstable sort *)
| MapRange (V : Set) (m : gmap string V) : event (list (string * V))
| SortSlice (V : Set) (less : V -> V -> bool) (l : list V) : event (list V).

(** The answers Go guarantees. *)
#[export] Instance event_signature : Signature event := fun R e =>
  match e in event R return R -> Prop with
  | RIntn n => fun r => 0 <= r < n
  | RRead n => fun r => match r with Ok s => String.length s = n | Err _ => True end
  | MapRange V m => fun l => l ≡ₚ map_to_list m
  | SortSlice V less l => fun l' =>
      l' ≡ₚ l /\ StronglySorted (fun x y => less y x = false) l'
  | _ => fun _ => True
  end.

(** ** Classes of calls *)

(** A call that changes what runs on a Docker host. *)
Definition mutates_docker (o : obs event) : bool :=
  match o with
  | Obs e _ =>
      match e with
      | DContainerCreate _ _ _ _ | DContainerStart _ _ | DContainerStop _ _ _
      | DContainerRemove _ _ _ | DImagePull _ _ _ | DCopyToContainer _ _ _ _
      | DNetworkConnect _ _ _ => true
      | _ => false
      end
  end.

Definition quiet (o : obs event) : Prop := mutates_docker o = false.

(** A call to a Docker daemon of any kind, opening the client apart. *)
Definition touches_docker (o : obs event) : bool :=
  mutates_docker o ||
  match o with
  | Obs e _ =>
      match e with
      | DPing _ | DContainerList _ | DContainerInspect _ _ | DImageInspect _ _ => true
      | _ => false
      end
  end.

(** A call that asks for the removal of a container. *)
Definition removes_container (o : obs event) : bool :=
  match o with Obs (DContainerRemove _ _ _) _ => true | _ => false end.

(** A call that writes to the API server. *)
Definition writes_kube (o : obs event) : bool :=
  match o with
  | Obs e _ =>
      match e with
      | KUpdate _ _ | KStatusUpdate _ _ | KStatusPatch _ _ | KCreate _ _ | KDelete _ _
      | KCreateOrUpdate _ _ _ => true
      | _ => false
      end
  end.

(** A call that prepares a creation: reading a secret, looking for the image,
    pulling it. *)
Definition prepares (o : obs event) : bool :=
  match o with
  | Obs e _ =>
      match e with
      | KGet _ _ | DImageInspect _ _ | DImagePull _ _ _ | DDrainPull _ | DClosePull _ => true
      | _ => false
      end
  end.

(** ** Views of an interaction

    What a theorem looks at in a trace: the question or the answer of one kind
    of call, [None] for every other call. *)

Definition got_container (o : obs event) : option (result DockerContainer) :=
  match o with
  | Obs e r =>
      match e in event R return R -> option (result DockerContainer) with
      | KGet k _ =>
          match k return result (object k) -> option (result DockerContainer) with
          | KDockerContainer => Some
          | _ => fun _ => None
          end
      | _ => fun _ => None
      end r
  end.

Definition got_job (o : obs event) : option (result DockerJob) :=
  match o with
  | Obs e r =>
      match e in event R return R -> option (result DockerJob) with
      | KGet k _ =>
          match k return result (object k) -> option (result DockerJob) with
          | KDockerJob => Some
          | _ => fun _ => None
          end
      | _ => fun _ => None
      end r
  end.

Definition got_secret (o : obs event) : option (NamespacedName * result Secret) :=
  match o with
  | Obs e r =>
      match e in event R return R -> option (NamespacedName * result Secret) with
      | KGet k key =>
          match k return result (object k) -> option (NamespacedName * result Secret) with
          | KSecret => fun r => Some (key, r)
          | _ => fun _ => None
          end
      | _ => fun _ => None
      end r
  end.

(** The object a run began by reading. *)
Definition first_container (t : list (obs event)) : option (result DockerContainer) :=
  match t with [] => None | o :: _ => got_container o end.
Definition first_job (t : list (obs event)) : option (result DockerJob) :=
  match t with [] => None | o :: _ => got_job o end.

(** The containers a listing answered. *)
Definition listed_containers (o : obs event) : option (list Container) :=
  match o with
  | Obs e r =>
      match e in event R return R -> option (list Container) with
      | DContainerList _ => fun r => match r with Ok l => Some l | Err _ => None end
      | _ => fun _ => None
      end r
  end.

(** A request to create a container: configuration, host configuration, name. *)
Definition asked_create (o : obs event) : option (Config * HostConfig * string) :=
  match o with
  | Obs (DContainerCreate _ cfg hc name) _ => Some (cfg, hc, name)
  | _ => None
  end.

(** A request to remove a container, and whether the daemon did. *)
Definition asked_remove (o : obs event) : option (string * bool) :=
  match o with
  | Obs e r =>
      match e in event R return R -> option (string * bool) with
      | DContainerRemove _ id force =>
          fun r => Some (id, match r with Ok _ => true | Err _ => false end)
      | _ => fun _ => None
      end r
  end.

(** The name or identifier a removal asks for. *)
Definition removal_of (o : obs event) : option string :=
  match o with Obs (DContainerRemove _ id _) _ => Some id | _ => None end.

(** An inspection that failed. *)
Definition inspect_failed (o : obs event) : option string :=
  match o with
  | Obs e r =>
      match e in event R return R -> option string with
      | DContainerInspect _ id =>
          fun r => match r with Err _ => Some id | Ok _ => None end
      | _ => fun _ => None
      end r
  end.

(** An inspection that found no such container. *)
Definition inspect_missing (o : obs event) : option string :=
  match o with
  | Obs e r =>
      match e in event R return R -> option string with
      | DContainerInspect _ id =>
          fun r => match r with
                   | Err e => if err_docker_notfound e then Some id else None
                   | Ok _ => None
                   end
      | _ => fun _ => None
      end r
  end.

(** The containers inspected, as the daemon described them. *)
Definition inspected (o : obs event) : option ContainerJSON :=
  match o with
  | Obs e r =>
      match e in event R return R -> option ContainerJSON with
      | DContainerInspect _ _ => fun r => match r with Ok j => Some j | Err _ => None end
      | _ => fun _ => None
      end r
  end.

(** The status a container object was given. *)
Definition wrote_status (o : obs event) : option DockerContainerStatus :=
  match o with
  | Obs e _ =>
      match e with
      | KStatusUpdate k c =>
          match k return object k -> option DockerContainerStatus with
          | KDockerContainer => fun c => Some (dc_Status c)
          | _ => fun _ => None
          end c
      | _ => None
      end
  end.

(** A job as the API server answered that it stored it. *)
Definition stored_job (o : obs event) : option DockerJob :=
  match o with
  | Obs e r =>
      match e in event R return R -> option DockerJob with
      | KUpdate k c =>
          match k return result (object k) -> option DockerJob with
          | KDockerJob => fun r => match r with Ok j => Some j | Err _ => None end
          | _ => fun _ => None
          end
      | _ => fun _ => None
      end r
  end.

(** The status a job was given, and the jobs written back whole. *)
Definition wrote_job (o : obs event) : option DockerJobStatus :=
  match o with
  | Obs e _ =>
      match e with
      | KStatusUpdate k c =>
          match k return object k -> option DockerJobStatus with
          | KDockerJob => fun c => Some (dj_Status c)
          | _ => fun _ => None
          end c
      | _ => None
      end
  end.
Definition updated_job (o : obs event) : option DockerJob :=
  match o with
  | Obs e _ =>
      match e with
      | KUpdate k c =>
          match k return object k -> option DockerJob with
          | KDockerJob => Some
          | _ => fun _ => None
          end c
      | _ => None
      end
  end.

(** A removal after which the container is gone: done, or it was not there. *)
Definition removal_settled (o : obs event) : option string :=
  match o with
  | Obs e r =>
      match e in event R return R -> option string with
      | DContainerRemove _ id _ => fun r =>
          match r with
          | Ok _ => Some id
          | Err e => if err_docker_notfound e then Some id else None
          end
      | _ => fun _ => None
      end r
  end.

Definition wrote_host (o : obs event) : option DockerHostStatus :=
  match o with
  | Obs e _ =>
      match e with
      | KStatusUpdate k c =>
          match k return object k -> option DockerHostStatus with
          | KDockerHost => fun c => Some (dh_Status c)
          | _ => fun _ => None
          end c
      | _ => None
      end
  end.

(** The container objects written back whole. *)
Definition updated_object (o : obs event) : option DockerContainer :=
  match o with
  | Obs e _ =>
      match e with
      | KUpdate k c =>
          match k return object k -> option DockerContainer with
          | KDockerContainer => Some
          | _ => fun _ => None
          end c
      | _ => None
      end
  end.

(** The secrets created, the status a service was given, and the services
    written back whole. *)
Definition created_secret (o : obs event) : option Secret :=
  match o with
  | Obs e _ =>
      match e with
      | KCreate k c =>
          match k return object k -> option Secret with
          | KSecret => Some
          | _ => fun _ => None
          end c
      | _ => None
      end
  end.
Definition wrote_service (o : obs event) : option DockerServiceStatus :=
  match o with Obs (KStatusPatch ds _) _ => Some (dsv_Status ds) | _ => None end.

(** The container objects created, deleted and listed. *)
Definition created_object (o : obs event) : option DockerContainer :=
  match o with
  | Obs e _ =>
      match e with
      | KCreate k c =>
          match k return object k -> option DockerContainer with
          | KDockerContainer => Some
          | _ => fun _ => None
          end c
      | _ => None
      end
  end.
Definition deleted_object (o : obs event) : option DockerContainer :=
  match o with
  | Obs e _ =>
      match e with
      | KDelete k c =>
          match k return object k -> option DockerContainer with
          | KDockerContainer => Some
          | _ => fun _ => None
          end c
      | _ => None
      end
  end.
Definition listed_objects (o : obs event) : option (list DockerContainer) :=
  match o with
  | Obs e r =>
      match e in event R return R -> option (list DockerContainer) with
      | KListContainers _ _ => fun r => match r with Ok l => Some l | Err _ => None end
      | _ => fun _ => None
      end r
  end.

(** The container, path and archive of an upload. *)
Definition copied (o : obs event) : option (string * string * list TarEntry) :=
  match o with Obs (DCopyToContainer _ id path tar) _ => Some (id, path, tar) | _ => None end.

(** The options a Docker client was opened with. *)
Definition opened_client (o : obs event) : option (list ClientOpt) :=
  match o with Obs (DNewClient opts) _ => Some opts | _ => None end.

(** What the API server's documentation promises of its answers: an object has
    the key it was asked for, a listing by namespace and selector holds objects of
    that namespace that it selects. *)
Definition honest (o : obs event) : Prop :=
  match o with
  | Obs e r =>
      match e in event R return R -> Prop with
      | KGet k key =>
          match k return result (object k) -> Prop with
          | KDockerContainer => fun r =>
              match r with
              | Ok c => om_Namespace (dc_Meta c) = nn_Namespace key /\ om_Name (dc_Meta c) = nn_Name key
              | Err _ => True
              end
          | _ => fun _ => True
          end
      | KListContainers ns (Some sel) => fun r =>
          match r with
          | Ok l => Forall (fun c => om_Namespace (dc_Meta c) = ns /\
                                     sel_Matches sel (om_Labels (dc_Meta c)) = true) l
          | Err _ => True
          end
      | _ => fun _ => True
      end r
  end.

(** ** A stateless environment

    [answers] completes partial answers to an environment for evaluation: calls
    it does not cover fail, and Go's own choices are made in the simplest way. *)

Definition unavailable : error := new_error "unavailable".

Definition default_answer {R : Set} (e : event R) : R :=
  match e in event R return R with
  | KGet _ _ | KUpdate _ _ | KStatusUpdate _ _ | KCreate _ _ => Err unavailable
  | KStatusPatch _ _ => Err unavailable
  | KDelete _ _ => Err unavailable
  | KCreateOrUpdate _ _ _ => Err unavailable
  | KListContainers _ _ => Err unavailable
  | KListServices _ => Err unavailable
  | KListPods _ _ => Err unavailable
  | KListNodes _ => Err unavailable
  | DNewClient _ => Err unavailable
  | DClose _ => tt
  | DPing _ => Err unavailable
  | DContainerList _ => Err unavailable
  | DContainerInspect _ _ => Err unavailable
  | DContainerCreate _ _ _ _ => Err unavailable
  | DContainerStart _ _ | DContainerStop _ _ _ | DContainerRemove _ _ _ => Err unavailable
  | DImageInspect _ _ | DImagePull _ _ _ => Err unavailable
  | DDrainPull _ | DClosePull _ => tt
  | DCopyToContainer _ _ _ _ | DNetworkConnect _ _ _ => Err unavailable
  | TNow => 0
  | RIntn _ => 0
  | RRead n => Err unavailable
  | OGetenv _ => ""
  | GoHTTPPost _ => tt
  | MapRange V m => map_to_list m
  | SortSlice V less l => merge_sort (fun x y => negb (less y x)) l
  end.
