(* ===== verification/DockerStore.v ===== *)
(** * DockerStore: a Docker host as a store of containers

    What the calls of the Docker client do to the containers of the daemon they
    reach: the documented behaviour of the daemon, as an instance of [Store], with
    the answers it may give.  A call that is answered with an error may have had
    its effect all the same. *)

From S2P Require Import Prelude Effects Stores GoText World.

Open Scope Z_scope.

(** ** The containers of a host *)

Record machine := mkMachine {
  m_Name : string;
  m_State : string;
  m_Config : ConfigInfo;
  m_HostConfig : option HostConfigInfo;
}.
(** By identifier. *)
Abbreviation daemon := (gmap string machine).

(** An identifier: 64 hexadecimal digits. *)
Definition id_byte (b : Z) : bool := between 48 57 b || between 97 102 b.
Definition container_id (s : string) : Prop := String.length s = 64%nat /\ all_bytes id_byte s = true.
Definition ids_valid (d : daemon) : Prop := map_Forall (fun id _ => container_id id) d.

Definition set_m_State (st : string) (m : machine) : machine :=
  mkMachine (m_Name m) st (m_Config m) (m_HostConfig m).

(** The part of an inspection that drift detection reads. *)
Definition m_base (m : machine) : ContainerJSONBase :=
  mkContainerJSONBase "" "" None (m_HostConfig m).

(** Two containers never have the same name. *)
Definition names_unique (d : daemon) : Prop :=
  forall i j m n, d !! i = Some m -> d !! j = Some n -> m_Name m = m_Name n -> i = j.
Definition name_free (name : string) (d : daemon) : Prop :=
  map_Forall (fun _ m => m_Name m <> name) d.

(** The container a call means by [key]: the one with that identifier, or else the
    one with that name, or else one whose identifier starts so.  The empty key
    means none. *)
Definition designates (d : daemon) (key id : string) (m : machine) : Prop :=
  key <> "" /\ d !! id = Some m /\
  (key = id \/
   d !! key = None /\
   (m_Name m = key \/ name_free key d /\ exists rest, id = key +:+ rest)).

(** ** Answers *)

(** What a daemon reports of a container it was asked to create: the requested
    image, command and environment entries, policy and limits. *)
Record reports (cfg : Config) (hc : HostConfig) (base : ContainerJSONBase)
    (config : ConfigInfo) : Prop := {
  rep_image : ci_Image config = cfg_Image cfg;
  rep_cmd : cfg_Cmd cfg <> [] -> ci_Cmd config = cfg_Cmd cfg;
  rep_env : forall e, e ∈ cfg_Env cfg -> e ∈ ci_Env config;
  rep_host : forall h, cjb_HostConfig base = Some h ->
    hci_RestartPolicy h = hcfg_RestartPolicy hc /\
    mkResources (hci_NanoCPUs h) (hci_Memory h) = hcfg_Resources hc;
}.

(** The container made for a request; a daemon makes a name up when it gets none. *)
Definition made_for (cfg : Config) (hc : HostConfig) (name : string) (m : machine) : Prop :=
  (name <> "" -> m_Name m = name) /\ m_State m = "created" /\
  reports cfg hc (m_base m) (m_Config m).

(** A row of a listing.  Next to its name a container may have those of links,
    which have a slash of their own. *)
Definition listed_as (d : daemon) (c : Container) : Prop :=
  exists m, d !! c_ID c = Some m /\ c_State c = m_State m /\ ("/" +:+ m_Name m) ∈ c_Names c /\
    forall n, n ∈ c_Names c -> n = "/" +:+ m_Name m \/ exists a b, n = "/" +:+ a +:+ "/" +:+ b.
(** The containers of the host, running or not, each in a row. *)
Definition lists (d : daemon) (l : list Container) : Prop :=
  Forall (listed_as d) l /\ forall id m, d !! id = Some m -> exists c, c ∈ l /\ c_ID c = id.

(** The states in which a daemon reports a container as running. *)
Definition alive_states : list string := ["running"; "paused"; "restarting"]%stdpp.
Definition alive (m : machine) : Prop := m_State m ∈ alive_states.

(** To start what is alive, or to stop what is not, changes nothing; the daemon
    says so with a 304, which the client takes for success, or refuses. *)
Definition started (m : machine) : machine :=
  if decide (m_State m ∈ alive_states) then m else set_m_State "running" m.
Definition stopped (m : machine) : machine :=
  if decide (m_State m ∈ alive_states) then set_m_State "exited" m else m.

Definition describes (id : string) (m : machine) (j : ContainerJSON) : Prop :=
  exists base st, cj_Base j = Some base /\ cjb_ID base = id /\ cjb_Name base = "/" +:+ m_Name m /\
    cjb_HostConfig base = m_HostConfig m /\ cj_Config j = Some (m_Config m) /\
    cjb_State base = Some st /\ st_Status st = m_State m /\
    st_Running st = bool_decide (m_State m ∈ alive_states).

(** ** Calls *)

(** [not found] is said of what is not there only. *)
Definition honest_error (d : daemon) (key : string) (e : error) : Prop :=
  err_docker_notfound e = true -> forall id m, ~ designates d key id m.

(** A call that does [f] to the container it means: it has done so, whatever it
    answers, or it is answered with an error and has done nothing. *)
Definition acts (d : daemon) (key : string) (f : string -> machine -> daemon) (r : result unit)
    (d' : daemon) : Prop :=
  (exists id m, designates d key id m /\ d' = f id m) \/
  d' = d /\ match r with Ok _ => False | Err e => honest_error d key e end.

#[export] Instance docker_step : Store event daemon := fun d o d' =>
  match o with
  | Obs e r =>
      match e in event R return R -> Prop with
      | DContainerList _ => fun r => d' = d /\ match r with Ok l => lists d l | Err _ => True end
      | DContainerInspect _ key => fun r => d' = d /\
          match r with
          | Ok j => exists id m, designates d key id m /\ describes id m j
          | Err e => honest_error d key e
          end
      | DContainerCreate _ cfg hc name => fun r =>
          (exists id m, container_id id /\ d !! id = None /\ name_free (m_Name m) d /\ made_for cfg hc name m /\
             d' = <[ id := m ]> d /\ match r with Ok id' => id' = id | Err _ => True end) \/
          d' = d /\ match r with Ok _ => False | Err _ => True end
      | DContainerStart _ key => fun r => acts d key (fun id m => <[ id := started m ]> d) r d'
      | DContainerStop _ key _ => fun r => acts d key (fun id m => <[ id := stopped m ]> d) r d'
      | DContainerRemove _ key _ => fun r => acts d key (fun id m => delete id d) r d'
      | _ => fun _ => d' = d
      end r
  end.

(** A call that can change the containers. *)
Definition changes_containers (o : obs event) : bool :=
  match o with
  | Obs e _ =>
      match e with
      | DContainerCreate _ _ _ _ | DContainerStart _ _ | DContainerStop _ _ _
      | DContainerRemove _ _ _ => true
      | _ => false
      end
  end.

(** ** Lemmas *)

Lemma reading_inert o : changes_containers o = false -> inert (S := daemon) o.
Proof. intros Ho d d' Hs. destruct o as [R [] r]; simpl in *; done || by destruct Hs. Qed.

Lemma quiet_inert o : quiet o -> inert (S := daemon) o.
Proof. intros Hq. apply reading_inert. by destruct o as [R [] r]. Qed.

Lemma prepares_inert o : prepares o = true -> inert (S := daemon) o.
Proof. intros Hp. apply reading_inert. by destruct o as [R [] r]. Qed.

Lemma triple_quiet {A} (d : daemon) (p : prog event A) (Q : A -> daemon -> Prop) :
  always quiet p -> (forall a, Q a d) -> triple d p Q.
Proof.
  intros Hp. apply triple_inert. eapply always_mono; [| exact Hp]. apply quiet_inert.
Qed.

Lemma served_inert (d : daemon) t d' : Forall inert t -> served d t d' -> d' = d.
Proof.
  intros Hall Hs. induction Hs as [| s s1 s2 o t Ho Hs IH]; [done |].
  apply Forall_cons in Hall as [Hi Hall]. apply Hi in Ho as ->. auto.
Qed.

Lemma name_free_insert d id m : d !! id = None -> name_free (m_Name m) d -> names_unique d ->
  names_unique (<[ id := m ]> d).
Proof.
  intros Hid Hf Hu i j a b. rewrite !lookup_insert_Some.
  intros [[<- <-] | [_ Hi]] [[<- <-] | [_ Hj]] E; [done | | | by eapply Hu].
  - by destruct (Hf _ _ Hj).
  - by destruct (Hf _ _ Hi).
Qed.

Lemma names_unique_update d id m m' :
  d !! id = Some m -> m_Name m' = m_Name m -> names_unique d -> names_unique (<[ id := m' ]> d).
Proof.
  intros Hm Hn Hu i j a b. rewrite !lookup_insert_Some.
  intros [[<- <-] | [Hni Hi]] [[<- <-] | [Hnj Hj]] E; [done | | | by eapply Hu].
  - apply (Hu id j m b); congruence.
  - apply (Hu i id a m); congruence.
Qed.

(** What a start and a stop keep, and that a container that was started is alive. *)
Lemma started_Name m : m_Name (started m) = m_Name m.
Proof. unfold started. by case_decide. Qed.
Lemma started_Config m : m_Config (started m) = m_Config m.
Proof. unfold started. by case_decide. Qed.
Lemma started_base m : m_base (started m) = m_base m.
Proof. unfold started. by case_decide. Qed.
Lemma stopped_Name m : m_Name (stopped m) = m_Name m.
Proof. unfold stopped. by case_decide. Qed.
Lemma started_alive m : alive (started m).
Proof. unfold started. case_decide; [done |]. by left. Qed.
Lemma started_State m : m_State (started m) = "running" \/ started m = m /\ alive m.
Proof. unfold started. case_decide; auto. Qed.
Lemma started_id m : alive m -> started m = m.
Proof. intros Hm. unfold started. by rewrite decide_True. Qed.

Lemma names_unique_delete d id : names_unique d -> names_unique (delete id d).
Proof. intros Hu i j a b [_ Hi]%lookup_delete_Some [_ Hj]%lookup_delete_Some. by apply Hu. Qed.

Lemma acts_unique d key f r d' :
  (forall id m, d !! id = Some m -> names_unique (f id m)) -> acts d key f r d' ->
  names_unique d -> names_unique d'.
Proof. intros Hf [(id & m & (_ & Hm & _) & ->) | [-> _]]; auto. Qed.

(** Every call keeps the names apart. *)
Lemma docker_step_unique d o d' : store_step d o d' -> names_unique d -> names_unique d'.
Proof.
  intros Hs Hu. destruct (changes_containers o) eqn:Ec; [| by rewrite (reading_inert _ Ec _ _ Hs)].
  destruct o as [R e r]; destruct e; simpl in *; try done.
  - destruct Hs as [(id' & m & _ & Hid & Hf & _ & -> & _) | [-> _]]; [by apply name_free_insert | done].
  - eapply acts_unique; [| exact Hs | done]. eauto using names_unique_update, started_Name.
  - eapply acts_unique; [| exact Hs | done]. eauto using names_unique_update, stopped_Name.
  - eapply acts_unique; [| exact Hs | done]. eauto using names_unique_delete.
Qed.

Lemma acts_ids d key f r d' :
  (forall id m, d !! id = Some m -> ids_valid (f id m)) -> acts d key f r d' -> ids_valid d -> ids_valid d'.
Proof. intros Hf [(id & m & (_ & Hm & _) & ->) | [-> _]]; auto. Qed.

(** And every identifier one. *)
Lemma docker_step_ids d o d' : store_step d o d' -> ids_valid d -> ids_valid d'.
Proof.
  intros Hs Hi. destruct (changes_containers o) eqn:Ec; [| by rewrite (reading_inert _ Ec _ _ Hs)].
  assert (forall id m m', d !! id = Some m -> ids_valid (<[ id := m' ]> d)) as Hupd.
  { intros id m m' Hm. apply map_Forall_insert_2; [by apply (Hi _ _ Hm) | done]. }
  destruct o as [R e r]; destruct e; simpl in *; try done.
  - destruct Hs as [(id' & m & Hid & _ & _ & _ & -> & _) | [-> _]]; [by apply map_Forall_insert_2 | done].
  - eapply acts_ids; [| exact Hs | done]. eauto.
  - eapply acts_ids; [| exact Hs | done]. eauto.
  - eapply acts_ids; [| exact Hs | done]. intros i m _. by apply map_Forall_delete.
Qed.

(** ** The containers of other names *)

(** The containers not named [name] are the same in both. *)
Definition same_but (name : string) (d d' : daemon) : Prop :=
  forall id m, m_Name m <> name -> d !! id = Some m <-> d' !! id = Some m.

#[export] Instance same_but_equivalence name : Equivalence (same_but name).
Proof.
  split.
  - by intros d id m.
  - intros d d' Hs id m Hm. symmetry. by apply Hs.
  - intros d1 d2 d3 H1 H2 id m Hm. etrans; [by apply H1 | by apply H2].
Qed.

Lemma same_but_insert d id m name :
  m_Name m = name -> (forall m', d !! id = Some m' -> m_Name m' = name) -> same_but name d (<[ id := m ]> d).
Proof.
  intros Hm Hid i n Hn. rewrite lookup_insert_Some. split.
  - intros Hi. right. split; [| done]. intros <-. by apply Hn, Hid.
  - by intros [[<- <-] | [_ ?]].
Qed.

Lemma same_but_delete d id m : d !! id = Some m -> same_but (m_Name m) d (delete id d).
Proof.
  intros Hm i n Hn. rewrite lookup_delete_Some. split; [| by intros [_ ?]].
  intros Hi. split; [| done]. intros <-. congruence.
Qed.

(** A full identifier means the container that has it. *)
Lemma designates_id d key id m n : d !! key = Some n -> designates d key id m -> id = key /\ m = n.
Proof. intros Hk (_ & Hm & [-> | [Hnone _]]); [split; congruence | congruence]. Qed.

(** A name means the container that has it, unless it is another's identifier. *)
Lemma designates_name d id0 m0 key id m :
  names_unique d -> d !! id0 = Some m0 -> m_Name m0 = key -> d !! key = None ->
  designates d key id m -> id = id0 /\ m = m0.
Proof.
  intros Hu H0 Hn Hk (_ & Hm & [-> | [_ [Hname | [Hf _]]]]); [congruence | |].
  - assert (id = id0) as -> by (apply (Hu _ _ m m0); congruence). split; congruence.
  - by destruct (Hf _ _ H0).
Qed.

(** A name that starts with a byte that is no hexadecimal digit means the container
    that has it, and no other. *)
Lemma designates_by_name d c rest id m :
  ids_valid d -> id_byte (byte_of c) = false -> designates d (String c rest) id m ->
  m_Name m = String c rest.
Proof.
  intros Hi Hc (_ & Hm & [<- | [_ [Hn | [_ [tl ->]]]]]); [| done |];
    destruct (Hi _ _ Hm) as [_ Hb]; simpl in Hb; by rewrite Hc in Hb.
Qed.

Lemma named_designates d c rest id m :
  ids_valid d -> id_byte (byte_of c) = false -> d !! id = Some m -> m_Name m = String c rest ->
  designates d (String c rest) id m.
Proof.
  intros Hi Hc Hm Hn. split; [done |]. split; [done |]. right. split; [| by left].
  destruct (d !! String c rest) as [n |] eqn:E; [| done].
  destruct (Hi _ _ E) as [_ Hb]. simpl in Hb. by rewrite Hc in Hb.
Qed.
