(* ===== verification/KubeLib.v ===== *)
(** * KubeLib: the helpers of controller-runtime and apimachinery

    Interfaces for the library functions the reconcilers call on objects they
    hold ([controllerutil], [metav1.IsControlledBy], [metav1.LabelSelectorAsSelector]),
    with their documented laws, and an implementation that satisfies them, used
    to evaluate the model. *)

From S2P Require Import Prelude ApiTypes World.

(** The operations. [SetControllerReference] takes the owner's metadata and kind
    and the controlled object's metadata. *)
Class ControllerUtil := {
  ContainsFinalizer : list string -> string -> bool;
  AddFinalizer : list string -> string -> list string;
  RemoveFinalizer : list string -> string -> list string;
  SetControllerReference : ObjectMeta -> string -> ObjectMeta -> result ObjectMeta;
  IsControlledBy : ObjectMeta -> ObjectMeta -> bool;
  LabelSelectorAsSelector : LabelSelector -> result Selector;
}.

(** Their documented behaviour. *)
Class ControllerUtilLaws `{ControllerUtil} : Prop := {
  contains_add fs f : ContainsFinalizer (AddFinalizer fs f) f = true;
  contains_add_ne fs f g :
    f <> g -> ContainsFinalizer (AddFinalizer fs f) g = ContainsFinalizer fs g;
  contains_remove fs f : ContainsFinalizer (RemoveFinalizer fs f) f = false;
  contains_remove_ne fs f g :
    f <> g -> ContainsFinalizer (RemoveFinalizer fs f) g = ContainsFinalizer fs g;
  set_reference_controlled owner k m m' :
    SetControllerReference owner k m = Ok m' -> IsControlledBy m' owner = true;
  set_reference_frame owner k m m' :
    SetControllerReference owner k m = Ok m' ->
    om_Name m' = om_Name m /\ om_Namespace m' = om_Namespace m /\
    om_Labels m' = om_Labels m /\ om_Annotations m' = om_Annotations m;
}.

(** ** An implementation *)

Definition has_string (l : list string) (s : string) : bool := bool_decide (s ∈ l).

Definition controller_of (m : ObjectMeta) : option OwnerReference :=
  head (filter (fun r => or_Controller r = Some true) (om_OwnerReferences m)).

Definition set_owner (owner : ObjectMeta) (k : string) (m : ObjectMeta) : result ObjectMeta :=
  match controller_of m with
  | Some r =>
      if bool_decide (or_UID r = om_UID owner) then Ok m
      else Err (new_error "already owned")
  | None =>
      Ok (mkObjectMeta (om_Name m) (om_Namespace m) (om_UID m) (om_Labels m)
            (om_Annotations m) (om_Finalizers m)
            (om_OwnerReferences m ++
               [mkOwnerReference k (om_Name owner) (om_UID owner) (Some true)])
            (om_CreationTimestamp m) (om_DeletionTimestamp m))
  end.

Definition controlled_by (m owner : ObjectMeta) : bool :=
  match controller_of m with
  | Some r => bool_decide (or_UID r = om_UID owner)
  | None => false
  end.

Definition requirement_matches (ls : gmap string string) (r : LabelSelectorRequirement) : bool :=
  match ls !! lsr_Key r with
  | Some v => if bool_decide (lsr_Operator r = "In") then bool_decide (v ∈ lsr_Values r)
              else if bool_decide (lsr_Operator r = "NotIn") then bool_decide (v ∉ lsr_Values r)
              else bool_decide (lsr_Operator r = "Exists")
  | None => bool_decide (lsr_Operator r = "NotIn") || bool_decide (lsr_Operator r = "DoesNotExist")
  end.

Definition selector_of (s : LabelSelector) : result Selector :=
  if forallb (fun r => has_string ["In"; "NotIn"; "Exists"; "DoesNotExist"] (lsr_Operator r))
       (ls_MatchExpressions s)
  then Ok (mkSelector (fun ls =>
         bool_decide (ls_MatchLabels s ⊆ ls) &&
         forallb (requirement_matches ls) (ls_MatchExpressions s)))
  else Err (new_error "not a valid label selector operator").

Definition std_controller_util : ControllerUtil := {|
  ContainsFinalizer := has_string;
  AddFinalizer l f := if has_string l f then l else l ++ [f];
  RemoveFinalizer l f := filter (fun g => g <> f) l;
  SetControllerReference := set_owner;
  IsControlledBy := controlled_by;
  LabelSelectorAsSelector := selector_of;
|}.

Lemma std_controller_util_laws : @ControllerUtilLaws std_controller_util.
Proof.
  split; simpl; unfold has_string.
  - intros fs f. apply bool_decide_eq_true. case_bool_decide; set_solver.
  - intros fs f g Hne. apply bool_decide_ext. case_bool_decide; set_solver.
  - intros fs f. apply bool_decide_eq_false. rewrite list_elem_of_filter. naive_solver.
  - intros fs f g Hne. apply bool_decide_ext. rewrite list_elem_of_filter. naive_solver.
  - intros owner k m m'. unfold set_owner, controlled_by.
    destruct (controller_of m) as [r |] eqn:E.
    + case_bool_decide; [| done]. intros [= <-]. rewrite E. by apply bool_decide_eq_true.
    + intros [= <-]. unfold controller_of in *. simpl. rewrite filter_app.
      destruct (filter _ (om_OwnerReferences m)); [| done]. simpl.
      by apply bool_decide_eq_true.
  - intros owner k m m'. unfold set_owner. repeat case_match; intros; simplify_eq; auto.
Qed.
