(* ===== verification/Adopt.v ===== *)
(** * Adopt: [internal/controller/dockercontainer_adopt.go]

    Management modes, the snapshot of a running container as a
    [DockerContainerSpec], and the name and object of an adopted container. *)

From S2P Require Import Prelude Effects GoText Strconv Floats ApiTypes Json World.
From Stdlib Require Import Ascii.

Open Scope Z_scope.

(** [github.com/docker/go-connections/nat]. *)
Class NatLib := {
  nat_NewPort : string -> string -> result string;
  nat_Port : string -> string;
}.
(** [crypto/sha256]. *)
Class Sha256 := { sha256_Sum256 : string -> string }.

Definition adoptLabelKey : string := "kdop.io/adopt".
Definition adoptLabelValue : string := "true".
Definition adoptedFromAnnotationKey : string := "kdop.kdop.io.vn/adopted-from".
Definition managedByLabelKey : string := "kdop.kdop.io.vn/managed-by".
Definition managedByAdoptValue : string := "adopt".
Definition dockerContainerMissing : string := "missing".
Definition containerStateRunning : string := "running".

Record runtimeContainerSnapshot := mkSnapshot {
  sn_ID : string;
  sn_Name : string;
  sn_State : string;
  sn_Health : string;
  sn_IPv4 : string;
  sn_Spec : DockerContainerSpec;
  sn_RuntimeIncomplete : bool;
}.

Section adopt.
Context `{UnicodeData} `{NatLib} `{Sha256}.

Definition ownedByDockerDeployment (cr : DockerContainer) : bool :=
  existsb (fun ref => eqb_str (or_Kind ref) "DockerDeployment" &&
                      match or_Controller ref with Some b => b | None => false end)
    (om_OwnerReferences (dc_Meta cr)).

Definition managementModeFor (cr : DockerContainer) : string :=
  let mode := cs_ManagementMode (dc_Spec cr) in
  if eqb_str mode DockerContainerManagementModeEnforce then DockerContainerManagementModeEnforce
  else if eqb_str mode DockerContainerManagementModeObserve then DockerContainerManagementModeObserve
  else if ownedByDockerDeployment cr then DockerContainerManagementModeEnforce
  else DockerContainerManagementModeObserve.

Definition shouldSkipRuntimeDeletion (cr : DockerContainer) : bool :=
  cst_Adopted (dc_Status cr) &&
  eqb_str (managementModeFor cr) DockerContainerManagementModeObserve.

Definition formatNanoCPUs (nanoCPUs : Z) : string :=
  let cores := fdiv (float_of_int nanoCPUs) (float_of_int (10 ^ 9)) in
  if float_is_integral cores then FormatInt (float_to_int64 cores)
  else FormatFloat cores.

Definition mebibyte : Z := 1024 * 1024.

Definition formatBytes (memory : Z) : string :=
  if (0 <? memory) && (Z.rem memory mebibyte =? 0)
  then FormatInt (Z.quot memory mebibyte) +:+ "m"
  else FormatInt memory.

(** The mappings of one port, in the order of its bindings. *)
Definition port_mappings (e : string * list PortBinding) : list string :=
  (fun b => pb_HostPort b +:+ ":" +:+ nat_Port e.1) <$>
    filter (fun b => eqb_str (pb_HostPort b) "" = false) e.2.

Definition collectPortMappings (ports : PortMap) : M event (list string) :=
  if bool_decide (size ports = 0%nat) then ret [] else
  let! entries := call (MapRange _ ports) in
  ret (sort_Strings (mbind (M:=list) port_mappings entries)).

Definition dockerHealth (inspect : ContainerJSON) : outcome string :=
  match cj_Base inspect with
  | None => Panic
  | Some base =>
      match cjb_State base with
      | Some st => Val (default "" (st_Health st))
      | None => Val ""
      end
  end.

(** The first non-empty address in iteration order; a nil endpoint panics. *)
Fixpoint first_address (l : list (string * option EndpointSettings)) : outcome string :=
  match l with
  | [] => Val EmptyString
  | (_, None) :: _ => Panic
  | (_, Some n) :: l' =>
      if eqb_str (ep_IPAddress n) "" then first_address l' else Val (ep_IPAddress n)
  end.

Definition dockerIPv4 (inspect : ContainerJSON) : M event string :=
  match cj_NetworkSettings inspect with
  | None => ret EmptyString
  | Some ns =>
      let! entries := call (MapRange _ (ns_Networks ns)) in
      lift (first_address entries)
  end.

(** The limits a snapshot records. *)
Definition snapshot_resources (hc : HostConfigInfo) : option ResourceRequirements :=
  if (0 <? hci_NanoCPUs hc) || (0 <? hci_Memory hc) then
    Some (mkResourceRequirements
      (if 0 <? hci_NanoCPUs hc then formatNanoCPUs (hci_NanoCPUs hc) else EmptyString)
      (if 0 <? hci_Memory hc then formatBytes (hci_Memory hc) else EmptyString))
  else None.

Definition runtimeSnapshotFromInspect (hostName : string) (summary : Container)
    (inspect : ContainerJSON) : M event runtimeContainerSnapshot :=
  match c_Names summary, cj_Base inspect, cj_Config inspect with
  | n :: _, Some base, Some config =>
      let name := if eqb_str (cjb_Name base) "" then TrimPrefix n "/"
                  else TrimPrefix (cjb_Name base) "/" in
      let! ports := match cj_NetworkSettings inspect with
                    | Some ns => collectPortMappings (ns_Ports ns)
                    | None => ret []
                    end in
      let spec := mkDockerContainerSpec
        (ci_Image config) "" name hostName
        (match cjb_HostConfig base with Some hc => hci_RestartPolicy hc | None => EmptyString end)
        ports (sort_Strings (ci_Env config)) [] [] [] None
        (cjb_HostConfig base ≫= snapshot_resources)
        (ci_Cmd config) "" DockerContainerManagementModeObserve in
      let runtimeIncomplete :=
        match cj_NetworkSettings inspect with
        | Some ns => bool_decide (size (ns_Ports ns) = 0%nat) && (0 <? c_NumPorts summary)%nat
        | None => false
        end || (0 <? c_NumMounts summary)%nat in
      let! health := lift (dockerHealth inspect) in
      let! ipv4 := dockerIPv4 inspect in
      ret (mkSnapshot (c_ID summary) name (c_State summary) health ipv4 spec runtimeIncomplete)
  | _, _, _ => panic
  end.

Definition observedSpecHash (spec : DockerContainerSpec) : string :=
  hex_EncodeToString (sha256_Sum256 (json_DockerContainerSpec spec)).

(** One rune of the loop: the builder's content and [lastDash]. *)
Definition name_step (st : string * bool) (r : Z) : string * bool :=
  let '(b, lastDash) := st in
  if between 97 122 r || between 48 57 r then (b +:+ encode_rune r, false)
  else if lastDash then (b, true) else (b +:+ "-", true).

Definition adoptedObjectName (containerName : string) : string :=
  let name := ToLower containerName in
  let result := Trim_byte (foldl name_step (EmptyString, false) (runes name).*1).1 "-" in
  if eqb_str result "" then "adopted-container" else result.

Definition buildAdoptedDockerContainer (namespace : string) (host : DockerHost)
    (snapshot : runtimeContainerSnapshot) : DockerContainer :=
  mkDockerContainer
    (set_Annotations {[ adoptedFromAnnotationKey :=
                          om_Name (dh_Meta host) +:+ "/" +:+ sn_ID snapshot ]}
      (set_Labels {[ managedByLabelKey := managedByAdoptValue ]}
        (new_meta namespace (adoptedObjectName (sn_Name snapshot)))))
    (sn_Spec snapshot)
    (mkDockerContainerStatus "" "" "" "" true (observedSpecHash (sn_Spec snapshot))).
End adopt.

(** Taking a snapshot calls no daemon. *)
Lemma quiet_snapshot `{NatLib} h m j : always quiet (runtimeSnapshotFromInspect h m j).
Proof. unfold runtimeSnapshotFromInspect, collectPortMappings, dockerIPv4. always_tac. Qed.

(** ** Management modes *)

Lemma managementModeFor_cases cr :
  managementModeFor cr = DockerContainerManagementModeEnforce \/
  managementModeFor cr = DockerContainerManagementModeObserve.
Proof. unfold managementModeFor. repeat case_match; auto. Qed.

(** The management mode is Enforce exactly when the spec says so, or when it
    names no known mode and a DockerDeployment controls the object; it is
    Observe in every other case. *)
Theorem managementModeFor_spec cr :
  (managementModeFor cr = DockerContainerManagementModeEnforce <->
     cs_ManagementMode (dc_Spec cr) = DockerContainerManagementModeEnforce \/
     (cs_ManagementMode (dc_Spec cr) <> DockerContainerManagementModeObserve /\
      exists r, r ∈ om_OwnerReferences (dc_Meta cr) /\
                or_Kind r = "DockerDeployment"%stdpp /\ or_Controller r = Some true)) /\
  (managementModeFor cr <> DockerContainerManagementModeEnforce ->
   managementModeFor cr = DockerContainerManagementModeObserve).
Proof.
  assert (ownedByDockerDeployment cr = true <->
          exists r, r ∈ om_OwnerReferences (dc_Meta cr) /\
                or_Kind r = "DockerDeployment"%stdpp /\ or_Controller r = Some true) as Hown.
  { unfold ownedByDockerDeployment. rewrite existsb_exists.
    setoid_rewrite list_elem_of_In. setoid_rewrite andb_true_iff.
    setoid_rewrite eqb_str_true. split; intros (r & Hin & Hk & Hc); exists r;
      (split; [exact Hin | split; [exact Hk |]]).
    - destruct (or_Controller r) as [[] |]; congruence.
    - by rewrite Hc. }
  split; [| destruct (managementModeFor_cases cr); tauto].
  rewrite <- Hown. unfold managementModeFor.
  destruct (eqb_str _ _) eqn:E1; [apply eqb_str_true in E1; tauto |].
  apply eqb_str_false in E1.
  destruct (eqb_str _ _) eqn:E2.
  - apply eqb_str_true in E2. split; [done | tauto].
  - apply eqb_str_false in E2. destruct (ownedByDockerDeployment cr); [tauto |].
    split; [done |]. intros [? | [_ ?]]; [done | discriminate].
Qed.

(** ** Names of adopted objects *)

Definition dns_byte (b : Z) : bool := between 97 122 b || between 48 57 b || (b =? 45).

Fixpoint no_double_dash (l : list ascii) : bool :=
  match l with
  | a :: ((b :: _) as l') => negb (Ascii.eqb a "-" && Ascii.eqb b "-") && no_double_dash l'
  | _ => true
  end.

(** A name made of lower-case letters, digits and single inner dashes. *)
Definition valid_object_name (s : string) : Prop :=
  let l := String.list_ascii_of_string s in
  l <> [] /\ Forall (fun c => dns_byte (byte_of c) = true) l /\ no_double_dash l = true /\
  head l <> Some "-"%char /\ last l <> Some "-"%char.

Lemma no_double_dash_app l k :
  no_double_dash (l ++ k) = true -> no_double_dash l = true /\ no_double_dash k = true.
Proof.
  induction l as [| a [| b l] IH]; simpl; [done | |].
  - destruct k; simpl; [done |]. rewrite andb_true_iff. naive_solver.
  - rewrite !andb_true_iff. naive_solver.
Qed.

Lemma no_double_dash_snoc l c :
  no_double_dash l = true -> (last l = Some "-"%char -> c <> "-"%char) ->
  no_double_dash (l ++ [c]) = true.
Proof.
  induction l as [| a [| b l] IH]; simpl; [done | |].
  - intros _ Hc. rewrite andb_true_r, negb_true_iff, andb_false_iff.
    destruct (Ascii.eqb_spec a "-"); [right | by left]. subst.
    apply Ascii.eqb_neq. auto.
  - rewrite !andb_true_iff. intros [? ?] Hc. auto.
Qed.

(** What the loop of [adoptedObjectName] keeps true of its builder. *)
Definition builder_ok (st : string * bool) : Prop :=
  let l := String.list_ascii_of_string st.1 in
  Forall (fun c => dns_byte (byte_of c) = true) l /\ no_double_dash l = true /\
  (st.2 = true <-> last l = Some "-"%char).

Lemma name_step_ok st r : builder_ok st -> builder_ok (name_step st r).
Proof.
  destruct st as [b d]. unfold builder_ok, name_step. simpl. intros (Hall & Hdd & Hd).
  case_match eqn:Hr.
  - assert (0 <= r < 128 /\ r <> 45) as [Hr1 Hr2] by (unfold between in Hr; lia).
    rewrite encode_ascii by done. cbn [fst snd]. rewrite list_ascii_app. cbn.
    assert (chr r <> "-"%char) as Hc.
    { intros E. apply (f_equal byte_of) in E. rewrite byte_of_chr in E by lia.
      vm_compute in E. lia. }
    split_and!.
    + apply Forall_app. split; [done |]. constructor; [| constructor].
      rewrite byte_of_chr by lia. unfold dns_byte. by rewrite Hr.
    + by apply no_double_dash_snoc.
    + rewrite last_snoc. naive_solver.
  - destruct d; cbn [fst snd]; [by split_and! |].
    rewrite list_ascii_app. cbn. split_and!.
    + apply Forall_app. split; [done |]. by repeat constructor.
    + apply no_double_dash_snoc; [done |]. intros E. by apply Hd in E.
    + by rewrite last_snoc.
Qed.

Lemma name_loop_ok l st : builder_ok st -> builder_ok (foldl name_step st l).
Proof. revert st. induction l as [| r l IH]; simpl; auto using name_step_ok. Qed.

Lemma list_ascii_of_list l :
  String.list_ascii_of_string (String.string_of_list_ascii l) = l.
Proof. apply String.list_ascii_of_string_of_list_ascii. Qed.

Lemma object_name_valid `{UnicodeData} containerName :
  valid_object_name (adoptedObjectName containerName).
Proof.
  unfold adoptedObjectName. set (b := foldl _ _ _).
  assert (builder_ok b) as (Hall & Hdd & _).
  { apply name_loop_ok. split_and!; [constructor | done | done]. }
  case_match eqn:Hempty.
  { split_and!; [done | | by vm_compute | by vm_compute | by vm_compute].
    by apply all_bytes_Forall; vm_compute. }
  apply eqb_str_false in Hempty. unfold Trim_byte, valid_object_name in *.
  rewrite list_ascii_of_list.
  set (l := String.list_ascii_of_string b.1) in *.
  destruct (trim_both_split (Ascii.eqb "-") l) as (pre & post & E & _).
  rewrite E in Hall, Hdd. apply Forall_app in Hall as [_ Hall].
  apply Forall_app in Hall as [Hall _].
  apply no_double_dash_app in Hdd as [_ Hdd]. apply no_double_dash_app in Hdd as [Hdd _].
  split_and!; try done.
  - intros E'. by rewrite E' in Hempty.
  - intros Hh. by apply trim_both_head in Hh.
  - intros Hl. by apply trim_both_last in Hl.
Qed.

Lemma dns_plain b : dns_byte b = true -> is_plain b = true.
Proof. unfold dns_byte, is_plain, is_ascii, between. lia. Qed.

(** On a text that is already valid the loop copies its input. *)
Lemma name_loop_copies l b d :
  builder_ok (b, d) -> Forall (fun c => dns_byte (byte_of c) = true) l ->
  no_double_dash (String.list_ascii_of_string b ++ l) = true ->
  (foldl name_step (b, d) (byte_of <$> l)).1 = b +:+ String.string_of_list_ascii l.
Proof.
  revert b d. induction l as [| c l IH]; intros b d Hok Hl Hdd.
  { simpl. by rewrite append_nil_r. }
  inversion Hl as [| ? ? Hc Hl']; subst.
  pose proof (name_step_ok (b, d) (byte_of c) Hok) as Hok'.
  assert (name_step (b, d) (byte_of c) = (b +:+ String c "", (name_step (b, d) (byte_of c)).2)) as E.
  { unfold name_step, dns_byte in *. pose proof (byte_of_range c).
    destruct (between 97 122 (byte_of c) || between 48 57 (byte_of c)) eqn:Hr; simpl.
    - unfold between in Hr. rewrite encode_ascii by lia. by rewrite chr_byte_of.
    - assert (c = "-"%char) as -> by (apply byte_of_inj; vm_compute (byte_of "-"); lia).
      destruct d; [exfalso | done].
      destruct Hok as (_ & _ & Hd). cbn [fst snd] in Hd.
      destruct (proj1 (last_Some _ _) (proj1 Hd eq_refl)) as [l' E].
      rewrite E, <- app_assoc in Hdd.
      apply no_double_dash_app in Hdd as [_ Hdd]. by simpl in Hdd. }
  rewrite fmap_cons. cbn [foldl]. rewrite E in Hok' |- *.
  rewrite IH; [by rewrite append_assoc | done | done |].
  rewrite list_ascii_app, <- app_assoc. exact Hdd.
Qed.

Lemma adoptedObjectName_fixed `{UnicodeData} s :
  valid_object_name s -> adoptedObjectName s = s.
Proof.
  intros (Hne & Hall & Hdd & Hh & Hl). unfold adoptedObjectName.
  assert (all_bytes is_plain s = true) as Hplain.
  { apply all_bytes_Forall. eapply Forall_impl; [exact Hall |]. auto using dns_plain. }
  rewrite ToLower_id by done. rewrite runes_ascii_all.
  2:{ eapply all_bytes_impl; [| exact Hplain]. unfold is_plain. intros b. rewrite andb_true_iff. tauto. }
  rewrite <- list_fmap_compose.
  rewrite (list_fmap_ext (compose fst _) byte_of) by done.
  rewrite name_loop_copies; [| split_and!; [constructor | done | done] | done | done].
  cbn [String.append]. rewrite string_list_ascii. unfold Trim_byte.
  rewrite trim_both_id, string_list_ascii.
  - case_match eqn:E; [| done]. apply eqb_str_true in E as ->. done.
  - intros x Hx. apply Ascii.eqb_neq. congruence.
  - intros x Hx. apply Ascii.eqb_neq. congruence.
Qed.

(** The object name of an adopted container is a valid name whatever the
    container's name: non-empty, lower-case letters, digits and single dashes,
    no dash first or last; and naming is stable: an object name given to an adopted container is the
    object name of a container of that name. *)
Theorem adoptedObjectName_valid `{UnicodeData} containerName :
  valid_object_name (adoptedObjectName containerName) /\
  adoptedObjectName (adoptedObjectName containerName) = adoptedObjectName containerName.
Proof.
  split; [apply object_name_valid |]. apply adoptedObjectName_fixed, object_name_valid.
Qed.

(** [collectPortMappings] does not depend on Go's map order: in every run it
    returns one and the same sorted list, which holds one mapping for each
    binding with a host port. *)
Theorem collectPortMappings_deterministic `{NatLib} ports t o :
  runs (collectPortMappings ports) t o ->
  o = Val (sort_Strings (map_to_list ports ≫= port_mappings)) /\
  StronglySorted string_le (sort_Strings (map_to_list ports ≫= port_mappings)) /\
  sort_Strings (map_to_list ports ≫= port_mappings) ≡ₚ map_to_list ports ≫= port_mappings.
Proof.
  intros Hr. split_and!; [| apply sort_Strings_sorted | apply sort_Strings_perm].
  unfold collectPortMappings in Hr. case_bool_decide as Hsz; run_inv.
  - apply map_size_empty_inv in Hsz as ->. by rewrite map_to_list_empty.
  - f_equal. apply sort_Strings_proper. by apply bind_Permutation.
Qed.
