(* ===== verification/DockerHostClient.v ===== *)
(** * DockerHostClient: [internal/docker/client.go]

    Opening a Docker client for a [DockerHost] reference: host lookup, TLS
    material from a secret, client options. *)

From S2P Require Import Prelude Effects GoText Strconv ApiTypes World.

Open Scope Z_scope.

(** [crypto/x509] and [crypto/tls]: whether a PEM text adds a certificate to a
    pool, and the loading of a key pair. *)
Class X509 := {
  x509_AppendCertsFromPEM : string -> bool;
  tls_X509KeyPair : string -> string -> result (string * string);
}.

Section client.
Context `{UnicodeData} `{X509}.

Definition tlsFromSecret (secret : Secret) : result TLSConfig :=
  match sec_Data secret !! "ca.pem" with
  | None => Err (new_error "missing ca.pem")
  | Some ca =>
  match sec_Data secret !! "cert.pem" with
  | None => Err (new_error "missing cert.pem")
  | Some cert =>
  match sec_Data secret !! "key.pem" with
  | None => Err (new_error "missing key.pem")
  | Some key =>
      if x509_AppendCertsFromPEM ca then
        match tls_X509KeyPair cert key with
        | Err e => Err e
        | Ok kp => Ok (mkTLSConfig ca kp)
        end
      else Err (new_error "invalid ca.pem")
  end end end.

Definition newClient (namespace hostURL tlsSecretName : string) : M event DockerClient :=
  let opts := [WithHost hostURL; WithAPIVersionNegotiation] in
  let! opts :=
    if eqb_str tlsSecretName "" then ret opts
    else
      let! secret := try_call (KGet KSecret (mkNN namespace tlsSecretName)) in
      let! tlsCfg := lift_result (tlsFromSecret secret) in
      ret (opts ++ [WithHTTPClient tlsCfg (10 * Second)]) in
  try_call (DNewClient opts).

Definition NewClientFromHost (host : DockerHost) : M event DockerClient :=
  newClient (om_Namespace (dh_Meta host)) (hs_HostURL (dh_Spec host))
    (hs_TLSSecretName (dh_Spec host)).

Definition default_hostURL : string := "unix:///var/run/docker.sock".

Definition NewClient (namespace hostRef : string) : M event DockerClient :=
  let! (hostURL, tlsSecret) :=
    if eqb_str hostRef "" then ret (default_hostURL, EmptyString)
    else
      let! r := call (KGet KDockerHost (mkNN namespace hostRef)) in
      match r with
      | Err e => fail (wrap_error ("get dockerhost " +:+ Quote hostRef +:+ ": " +:+ err_msg e) e)
      | Ok host => ret (hs_HostURL (dh_Spec host), hs_TLSSecretName (dh_Spec host))
      end in
  newClient namespace hostURL tlsSecret.

Lemma newClient_calm ns url tls : never_panics (newClient ns url tls).
Proof. unfold newClient. calm_tac. Qed.
Lemma NewClient_calm ns ref : never_panics (NewClient ns ref).
Proof. unfold NewClient. calm_tac. apply newClient_calm. Qed.

(** Opening a client changes nothing on a host. *)
Lemma quiet_newClient ns url tls : always quiet (newClient ns url tls).
Proof. unfold newClient. always_tac. Qed.
Lemma quiet_NewClient ns ref : always quiet (NewClient ns ref).
Proof. unfold NewClient. always_tac. apply quiet_newClient. Qed.
End client.
