(* ===== verification/ContainerController.v ===== *)
(** * ContainerController: [internal/controller/dockercontainer_controller.go]

    The [DockerContainer] reconciler: finalizer handling, drift detection,
    recreation, container creation with its environment, ports, limits and
    secrets, status reporting and deletion. *)

From S2P Require Import Prelude Effects GoText Strconv Floats ApiTypes Json World KubeLib Adopt DockerHostClient.
From Stdlib Require Import Ascii.

Open Scope Z_scope.

(** [archive/tar]: the error [WriteHeader] returns for a header it cannot encode. *)
Class TarLib := { tar_WriteHeader : TarEntry -> option error }.

Definition dockerContainerFinalizer : string := "kdop.kdop.io.vn/finalizer".

(** ** Text to limits *)

Section limits.
Context `{UnicodeData}.

(** The [switch] of [parseMemoryString]: multiplier and rest. *)
Definition memory_unit (s : string) : Z * string :=
  if HasSuffix_byte s "g" then (1024 * 1024 * 1024, TrimSuffix_byte s "g")
  else if HasSuffix_byte s "m" then (1024 * 1024, TrimSuffix_byte s "m")
  else if HasSuffix_byte s "k" then (1024, TrimSuffix_byte s "k")
  else (1, s).

Definition parseMemoryString (s : string) : Z :=
  let s := TrimSpace (ToLower s) in
  if eqb_str s "" then 0 else
  let '(multiplier, digits) := memory_unit s in
  match ParseInt digits with
  | None => 0
  | Some val => int64 (val * multiplier)
  end.

Definition buildDockerResources (r : option ResourceRequirements) : Resources :=
  match r with
  | None => mkResources 0 0
  | Some r =>
      mkResources
        (if eqb_str (rr_CPULimit r) "" then 0
         else match ParseFloat (rr_CPULimit r) with
              | Some f => float_to_int64 (fmul f (float_of_int (10 ^ 9)))
              | None => 0
              end)
        (if eqb_str (rr_MemoryLimit r) "" then 0 else parseMemoryString (rr_MemoryLimit r))
  end.
End limits.

Definition buildDockerHealthCheck (hc : option HealthCheckConfig) : option HealthConfig :=
  match hc with
  | None => None
  | Some hc =>
      let duration t := if eqb_str t "" then 0 else default 0 (ParseDuration t) in
      Some (mkHealthConfig (hc_Test hc) (duration (hc_Interval hc)) (duration (hc_Timeout hc))
              (if 0 <? hc_Retries hc then hc_Retries hc else 0))
  end.

(** [inspected.HostConfig], through the embedded pointer. *)
Definition inspected_HostConfig (j : ContainerJSON) : outcome (option HostConfigInfo) :=
  match cj_Base j with None => Panic | Some b => Val (cjb_HostConfig b) end.

(** ** Drift *)

Section drift.
Context `{UnicodeData}.

(** The [RestartPolicy] and [Resources] conditions of [needsRecreate]. *)
Definition restart_policy_drift (inspected : ContainerJSON) (spec : DockerContainerSpec)
    : outcome bool :=
  if eqb_str (cs_RestartPolicy spec) "" then Val false
  else outcome_bind (inspected_HostConfig inspected) (fun hc =>
    match hc with
    | Some hc => Val (negb (EqualFold (hci_RestartPolicy hc) (cs_RestartPolicy spec)))
    | None => Val false
    end).

Definition resources_drift (inspected : ContainerJSON) (spec : DockerContainerSpec)
    : outcome bool :=
  match cs_Resources spec with
  | None => Val false
  | Some _ => outcome_bind (inspected_HostConfig inspected) (fun hc =>
      match hc with
      | Some hc =>
          let desired := buildDockerResources (cs_Resources spec) in
          Val (negb (r_NanoCPUs desired =? hci_NanoCPUs hc) ||
               negb (r_Memory desired =? hci_Memory hc))
      | None => Val false
      end)
  end.

Definition needsRecreate (inspected : ContainerJSON) (spec : DockerContainerSpec)
    : outcome bool :=
  match cj_Config inspected with
  | None => Val false
  | Some config =>
      if negb (eqb_str (ci_Image config) (cs_Image spec)) then Val true
      else if negb (bool_decide (cs_Command spec = [])) &&
              negb (bool_decide (ci_Cmd config = cs_Command spec)) then Val true
      else if negb (forallb (fun e => has_string (ci_Env config) e) (cs_Env spec)) then Val true
      else outcome_bind (restart_policy_drift inspected spec) (fun b =>
             if b then Val true else resources_drift inspected spec)
  end.
End drift.

Definition findContainerByName (list : list Container) (name : string) : option Container :=
  head (filter (fun c => has_string (c_Names c) ("/" +:+ name)) list).

(** ** Ports *)

Section ports.
Context `{UnicodeData} `{NatLib}.

Definition invalid_mapping (p : string) : error :=
  new_error ("invalid port mapping " +:+ Quote p +:+ ", want " +:+ dquote +:+ "hostPort:containerPort" +:+ dquote).

(** One entry: the port key and the binding it adds. *)
Definition parse_port (p : string) : result (string * PortBinding) :=
  match Cut_byte p ":" with
  | None => Err (invalid_mapping p)
  | Some (hostPort, containerPort) =>
      match nat_NewPort "tcp" containerPort with
      | Err e => Err (wrap_error ("invalid port mapping " +:+ Quote p +:+ ": " +:+ err_msg e) e)
      | Ok key => Ok (key, mkPortBinding "0.0.0.0" hostPort)
      end
  end.

Fixpoint parse_ports_loop (exposed : gset string) (bindings : PortMap) (ports : list string)
    : result (gset string * PortMap) :=
  match ports with
  | [] => Ok (exposed, bindings)
  | p :: ports' =>
      match parse_port p with
      | Err e => Err e
      | Ok (key, b) =>
          parse_ports_loop ({[key]} ∪ exposed)
            (<[key := default [] (bindings !! key) ++ [b]]> bindings) ports'
      end
  end.

Definition parsePorts (ports : list string) : result (gset string * PortMap) :=
  parse_ports_loop ∅ ∅ ports.
End ports.

(** ** The reconciler *)

Section reconciler.
Context `{UnicodeData} `{NatLib} `{Sha256} `{X509} `{TarLib} `{ControllerUtil}.

Definition getSecretValue (namespace name key : string) : M event string :=
  let! secret := try_call (KGet KSecret (mkNN namespace name)) in
  match sec_Data secret !! key with
  | None => fail (new_error ("key " +:+ Quote key +:+ " not found in secret " +:+ Quote name))
  | Some val => ret val
  end.

Definition getAuthConfig (namespace secretName : string) : M event AuthConfig :=
  let! secret := try_call (KGet KSecret (mkNN namespace secretName)) in
  let username := default EmptyString (sec_Data secret !! "username") in
  let password := default EmptyString (sec_Data secret !! "password") in
  let server := default EmptyString (sec_Data secret !! "server") in
  if eqb_str username "" then
    fail (new_error ("username not found in secret " +:+ Quote secretName))
  else ret (mkAuthConfig username password server).

Definition env_value (namespace : string) (ev : EnvVar) : M event string :=
  match ev_ValueFrom ev ≫= es_SecretKeyRef with
  | None => ret (ev_Value ev)
  | Some ref =>
      let! v := attempt (getSecretValue namespace (sk_Name ref) (sk_Key ref)) in
      match v with
      | Ok secretVal => ret secretVal
      | Err e => fail (wrap_error ("env " +:+ ev_Name ev +:+ ": " +:+ err_msg e) e)
      end
  end.

Definition resolveEnv (cr : DockerContainer) : M event (list string) :=
  for_fold (cs_EnvVars (dc_Spec cr)) (cs_Env (dc_Spec cr)) (fun resolved ev =>
    let! val := env_value (om_Namespace (dc_Meta cr)) ev in
    ret (resolved ++ [ev_Name ev +:+ "=" +:+ val])).

Definition volume_bind (v : VolumeMount) : string :=
  vm_HostPath v +:+ ":" +:+ vm_ContainerPath v +:+ (if vm_ReadOnly v then ":ro" else "").

(** The archive [uploadSecretToContainer] builds, one entry per key in
    iteration order; [WriteHeader] may refuse an entry. *)
Fixpoint secret_archive (relPath : string) (data : list (string * string))
    : result (list TarEntry) :=
  match data with
  | [] => Ok []
  | (name, content) :: data' =>
      let hdr := mkTarEntry (path_Join relPath name) 292 content in
      match tar_WriteHeader hdr with
      | Some e => Err e
      | None =>
          match secret_archive relPath data' with
          | Err e => Err e
          | Ok l => Ok (hdr :: l)
          end
      end
  end.

Definition uploadSecretToContainer (cli : DockerClient) (namespace : string)
    (sv : SecretVolume) (containerID : string) : M event unit :=
  let! secret := try_call (KGet KSecret (mkNN namespace (sv_SecretName sv))) in
  let relPath := TrimPrefix (sv_MountPath sv) "/" in
  let! data := call (MapRange _ (sec_Data secret)) in
  let! buf := lift_result (secret_archive relPath data) in
  try_call (DCopyToContainer cli containerID "/" buf).

(** The status [writeStatus] fills: the address and health reported by the
    daemon replace the old ones, the adoption fields stay. *)
Definition written_status (st : DockerContainerStatus) (id state ipv4 health : string)
    : DockerContainerStatus :=
  mkDockerContainerStatus id state ipv4 health (cst_Adopted st) (cst_ObservedSpecHash st).

Definition writeStatus (cr : DockerContainer) (id state : string) (inspect : ContainerJSON)
    : M event unit :=
  let! ipv4 := dockerIPv4 inspect in
  let! health := lift (dockerHealth inspect) in
  try_call (KStatusUpdate KDockerContainer
    (set_container_status (written_status (dc_Status cr) id state ipv4 health) cr)) ;;
  ret tt.

Definition container_config (cr : DockerContainer) (env : list string) (exposed : gset string)
    : Config :=
  mkConfig (cs_Image (dc_Spec cr)) (cs_Command (dc_Spec cr)) env exposed
    (buildDockerHealthCheck (cs_HealthCheck (dc_Spec cr))) [].

Definition container_host_config (cr : DockerContainer) (bindings : PortMap) : HostConfig :=
  let policy := if eqb_str (cs_RestartPolicy (dc_Spec cr)) "" then "always"
                else cs_RestartPolicy (dc_Spec cr) in
  mkHostConfig (ToLower policy) (cs_NetworkMode (dc_Spec cr)) bindings
    (volume_bind <$> cs_VolumeMounts (dc_Spec cr))
    (buildDockerResources (cs_Resources (dc_Spec cr))).

(** [create], once the container exists. *)
Definition start_created (cli : DockerClient) (cr : DockerContainer) (id : string)
    : M event unit :=
  for_each (cs_SecretVolumes (dc_Spec cr)) (fun sv =>
    uploadSecretToContainer cli (om_Namespace (dc_Meta cr)) sv id) ;;
  try_call (DContainerStart cli id) ;;
  let! inspect := call (DContainerInspect cli id) in
  let inspect := match inspect with Ok j => j | Err _ => empty_ContainerJSON end in
  writeStatus cr id containerStateRunning inspect.

(** [create], once the image is on the host. *)
Definition create_container (cli : DockerClient) (cr : DockerContainer) (name : string)
    : M event unit :=
  let! (exposed, bindings) := lift_result (parsePorts (cs_Ports (dc_Spec cr))) in
  let! resolvedEnv := resolveEnv cr in
  let! id := try_call (DContainerCreate cli (container_config cr resolvedEnv exposed)
                         (container_host_config cr bindings) name) in
  start_created cli cr id.

(** The [RegistryAuth] of [create]'s pull options. *)
Definition pull_auth (cr : DockerContainer) : M event string :=
  if eqb_str (cs_ImagePullSecret (dc_Spec cr)) "" then ret EmptyString
  else
    let! authConfig := getAuthConfig (om_Namespace (dc_Meta cr))
                         (cs_ImagePullSecret (dc_Spec cr)) in
    ret (base64url_EncodeToString (json_AuthConfig authConfig)).

Definition create (cli : DockerClient) (cr : DockerContainer) (name : string) : M event unit :=
  let! auth := pull_auth cr in
  let! img := call (DImageInspect cli (cs_Image (dc_Spec cr))) in
  match img with
  | Ok _ => create_container cli cr name
  | Err _ =>
      try_call (DImagePull cli (cs_Image (dc_Spec cr)) auth) ;;
      deferring (call (DClosePull cli))
        (call (DDrainPull cli) ;; create_container cli cr name)
  end.

(** The status [observeRuntime] writes when no container has the name. *)
Definition missing_status : DockerContainerStatus :=
  mkDockerContainerStatus "" dockerContainerMissing "" "" true "".

Definition observeRuntime (cli : DockerClient) (cr : DockerContainer)
    (match_ : option Container) : M event unit :=
  match match_ with
  | None =>
      try_call (KStatusUpdate KDockerContainer (set_container_status missing_status cr)) ;;
      ret tt
  | Some m =>
      let! inspect := try_call (DContainerInspect cli (c_ID m)) in
      let! snapshot := runtimeSnapshotFromInspect (cs_DockerHostRef (dc_Spec cr)) m inspect in
      let st := dc_Status cr in
      let cr := set_container_status
        (mkDockerContainerStatus (cst_ID st) (cst_State st) (cst_IPv4 st) (cst_Health st)
           true (observedSpecHash (sn_Spec snapshot))) cr in
      writeStatus cr (c_ID m) (c_State m) inspect
  end.

Definition sync (cli : DockerClient) (cr : DockerContainer) (name : string) : M event unit :=
  let! list := try_call (DContainerList cli) in
  let match_ := findContainerByName list name in
  if eqb_str (managementModeFor cr) DockerContainerManagementModeObserve then
    observeRuntime cli cr match_
  else match match_ with
  | None => create cli cr name
  | Some m =>
      let! inspect := try_call (DContainerInspect cli (c_ID m)) in
      let! drift := lift (needsRecreate inspect (dc_Spec cr)) in
      if drift then
        call (DContainerStop cli (c_ID m) 10) ;;
        try_call (DContainerRemove cli (c_ID m) true) ;;
        create cli cr name
      else if eqb_str (c_State m) containerStateRunning then
        writeStatus cr (c_ID m) (c_State m) inspect
      else
        try_call (DContainerStart cli (c_ID m)) ;;
        writeStatus cr (c_ID m) containerStateRunning inspect
  end.

(** The names of the tunnel containers of step 2, in the order they are
    removed, and the legacy name of step 3. *)
Definition tunnel_names (name crName : string) : list string :=
  seq 0 10 ≫= (fun i => [name +:+ "-tunnel-" +:+ FormatInt (Z.of_nat i);
                          crName +:+ "-tunnel-" +:+ FormatInt (Z.of_nat i)]).
Definition legacy_tunnel_name (name : string) : string := name +:+ "-tunnel".

Definition deleteExternalResources (cli : DockerClient) (cr : DockerContainer) (name : string)
    : M event unit :=
  if shouldSkipRuntimeDeletion cr then ret tt else
  let! r := call (DContainerRemove cli name true) in
  match r with
  | Err e => if err_docker_notfound e then ret tt else fail e
  | Ok _ => ret tt
  end ;;
  for_each (tunnel_names name (om_Name (dc_Meta cr))) (fun tn =>
    call (DContainerRemove cli tn true) ;; ret tt) ;;
  call (DContainerRemove cli (legacy_tunnel_name name) true) ;;
  ret tt.

(** The name of the runtime container. *)
Definition runtime_name (cr : DockerContainer) : string :=
  if eqb_str (cs_ContainerName (dc_Spec cr)) "" then om_Name (dc_Meta cr)
  else cs_ContainerName (dc_Spec cr).

Definition with_finalizers (f : list string -> string -> list string) (cr : DockerContainer)
    : DockerContainer :=
  set_container_meta
    (set_Finalizers (f (om_Finalizers (dc_Meta cr)) dockerContainerFinalizer) (dc_Meta cr)) cr.

(** The rest of [Reconcile] once the object is read. *)
Definition reconcile_found (cr : DockerContainer) : M event Result :=
  let name := runtime_name cr in
  let has_finalizer :=
    ContainsFinalizer (om_Finalizers (dc_Meta cr)) dockerContainerFinalizer in
  if negb (time_IsZero (om_DeletionTimestamp (dc_Meta cr))) then
    if has_finalizer then
      let! cli := attempt (NewClient (om_Namespace (dc_Meta cr))
                             (cs_DockerHostRef (dc_Spec cr))) in
      match cli with
      | Ok cli => attempt (deleteExternalResources cli cr name) ;; call (DClose cli)
      | Err _ => ret tt
      end ;;
      try_call (KUpdate KDockerContainer (with_finalizers RemoveFinalizer cr)) ;;
      ret done_result
    else ret done_result
  else if negb has_finalizer then
    try_call (KUpdate KDockerContainer (with_finalizers AddFinalizer cr)) ;;
    ret done_result
  else
    let! cli := NewClient (om_Namespace (dc_Meta cr)) (cs_DockerHostRef (dc_Spec cr)) in
    deferring (call (DClose cli))
      (sync cli cr name ;; ret (requeue_after Minute)).

Definition Reconcile (req : NamespacedName) : M event Result :=
  let! got := call (KGet KDockerContainer req) in
  match got with
  | Err e => if err_k8s_notfound e then ret done_result else fail e
  | Ok cr => reconcile_found cr
  end.
End reconciler.

(** ** Limits *)

Lemma split_last_snoc s c : split_last (s +:+ String c "") = Some (s, c).
Proof. induction s as [| d s IH]; simpl; [done |]. by rewrite IH. Qed.

Lemma split_last_inv s i c : split_last s = Some (i, c) -> s = i +:+ String c "".
Proof.
  revert i c. induction s as [| d s IH]; simpl; [done |]. intros i c.
  destruct (split_last s) as [[i' l] |] eqn:E.
  - intros [= <- <-]. simpl. by rewrite (IH _ _ eq_refl).
  - destruct s; simpl in E; [by intros [= <- <-] | by repeat case_match].
Qed.

(** The bytes of a printed integer. *)
Definition int_byte (b : Z) : bool := is_digit b || (b =? 45).

Lemma FormatInt_bytes z : all_bytes int_byte (FormatInt z) = true.
Proof.
  assert (forall n, 0 <= n -> all_bytes int_byte (FormatInt n) = true) as Hpos.
  { intros n Hn. eapply all_bytes_impl; [| by apply FormatInt_digits].
    unfold int_byte. intros b ->. done. }
  destruct (Z.le_gt_cases 0 z); [auto |].
  assert (FormatInt z = String "-" (FormatInt (- z))) as ->.
  { unfold FormatInt. replace (z <? 0) with true by lia.
    by replace (- z <? 0) with false by lia. }
  cbn [all_bytes]. rewrite Hpos by lia. done.
Qed.

Lemma strip_suffix_none c s :
  all_bytes int_byte s = true -> int_byte (byte_of c) = false -> strip_suffix_byte c s = None.
Proof.
  intros Hs Hc. unfold strip_suffix_byte. destruct (split_last s) as [[i l] |] eqn:E; [| done].
  apply split_last_inv in E as ->. rewrite all_bytes_app in Hs. cbn [all_bytes] in Hs.
  destruct (Ascii.eqb_spec l c); [subst | done]. rewrite Hc in Hs.
  by rewrite andb_false_r in Hs.
Qed.

Lemma memory_unit_bare s : all_bytes int_byte s = true -> memory_unit s = (1, s).
Proof.
  intros Hs. unfold memory_unit, HasSuffix_byte.
  rewrite (strip_suffix_none "g"), (strip_suffix_none "m"), (strip_suffix_none "k"); done.
Qed.

Lemma memory_unit_suffix s c :
  memory_unit (s +:+ String c "") =
    if Ascii.eqb c "g" then (1024 * 1024 * 1024, s)
    else if Ascii.eqb c "m" then (1024 * 1024, s)
    else if Ascii.eqb c "k" then (1024, s) else (1, s +:+ String c "").
Proof.
  unfold memory_unit, HasSuffix_byte, TrimSuffix_byte, strip_suffix_byte.
  rewrite split_last_snoc.
  by destruct (Ascii.eqb c "g"), (Ascii.eqb c "m"), (Ascii.eqb c "k").
Qed.

Lemma FormatInt_nonempty z : FormatInt z <> "".
Proof.
  destruct (Z.le_gt_cases 0 z) as [Hz |].
  - destruct (FormatInt_head z Hz) as (? & ? & -> & _). done.
  - unfold FormatInt. by replace (z <? 0) with true by lia.
Qed.

Section memory.
Context `{UnicodeData}.

(** Lower-case text without blanks is parsed as it stands. *)
Lemma parseMemoryString_plain s :
  all_bytes is_plain s = true -> all_bytes is_ink s = true -> s <> "" ->
  parseMemoryString s =
    let '(m, digits) := memory_unit s in
    match ParseInt digits with None => 0 | Some v => int64 (v * m) end.
Proof.
  intros Hp Hi Hne. unfold parseMemoryString. rewrite ToLower_id, TrimSpace_id by done.
  by apply eqb_str_false in Hne as ->.
Qed.

Lemma parse_bare n : in_int64 n -> parseMemoryString (FormatInt n) = n.
Proof.
  intros Hn. pose proof (FormatInt_bytes n) as Hb.
  rewrite parseMemoryString_plain.
  - rewrite memory_unit_bare, ParseInt_FormatInt by done.
    by rewrite Z.mul_1_r, int64_id.
  - eapply all_bytes_impl; [| exact Hb].
    unfold int_byte, is_digit, is_plain, is_ascii, between. lia.
  - eapply all_bytes_impl; [| exact Hb].
    unfold int_byte, is_digit, is_ink, is_ascii, is_space, between. lia.
  - apply FormatInt_nonempty.
Qed.

Lemma parse_suffixed n c :
  in_int64 n -> is_plain (byte_of c) = true -> is_ink (byte_of c) = true ->
  parseMemoryString (FormatInt n +:+ String c "") =
    let '(m, digits) := memory_unit (FormatInt n +:+ String c "") in
    match ParseInt digits with None => 0 | Some v => int64 (v * m) end.
Proof.
  intros Hn Hp Hi. pose proof (FormatInt_bytes n) as Hb.
  apply parseMemoryString_plain; rewrite ?all_bytes_app; cbn [all_bytes].
  - rewrite Hp, andb_true_r. eapply all_bytes_impl; [| exact Hb].
    unfold int_byte, is_digit, is_plain, is_ascii, between. lia.
  - rewrite Hi, andb_true_r. eapply all_bytes_impl; [| exact Hb].
    unfold int_byte, is_digit, is_ink, is_ascii, is_space, between. lia.
  - destruct (FormatInt n) eqn:E; [by apply FormatInt_nonempty in E | done].
Qed.

(** A memory limit is read as its number times its unit, on 64 bits: the
    product wraps around silently. *)
Theorem parseMemoryString_units n :
  in_int64 n ->
  parseMemoryString (FormatInt n) = n /\
  parseMemoryString (FormatInt n +:+ "k") = int64 (n * 2 ^ 10) /\
  parseMemoryString (FormatInt n +:+ "m") = int64 (n * 2 ^ 20) /\
  parseMemoryString (FormatInt n +:+ "g") = int64 (n * 2 ^ 30).
Proof.
  intros Hn. split; [by apply parse_bare |].
  split_and!; (rewrite parse_suffixed by done); rewrite memory_unit_suffix;
    cbn [Ascii.eqb Bool.eqb]; by rewrite ParseInt_FormatInt.
Qed.

Lemma parse_formatBytes memory :
  in_int64 memory -> parseMemoryString (formatBytes memory) = memory.
Proof.
  intros Hm. unfold formatBytes.
  destruct ((0 <? memory) && (Z.rem memory mebibyte =? 0)) eqn:E; [| by apply parse_bare].
  apply andb_true_iff in E as [Hpos Hrem]. apply Z.ltb_lt in Hpos. apply Z.eqb_eq in Hrem.
  assert (memory = mebibyte * Z.quot memory mebibyte) as Hq
    by (rewrite (Z.quot_rem' memory mebibyte) at 1; lia).
  assert (0 <= Z.quot memory mebibyte < 2 ^ 63) as Hr.
  { unfold in_int64, mebibyte in *. lia. }
  rewrite parse_suffixed by (done || (unfold in_int64; lia)).
  rewrite memory_unit_suffix. cbn [Ascii.eqb Bool.eqb].
  rewrite ParseInt_FormatInt by (unfold in_int64; lia).
  rewrite int64_id; [| rewrite Z.mul_comm; change (1024 * 1024) with mebibyte; by rewrite <- Hq].
  rewrite Hq at 2. unfold mebibyte. lia.
Qed.

(** [parseMemoryString] reads back what [formatBytes] prints, for every
    64-bit amount: the limit an adopted container is recorded with is the
    limit it runs with. *)
Theorem parseMemoryString_formatBytes memory :
  in_int64 memory -> parseMemoryString (formatBytes memory) = memory.
Proof. apply parse_formatBytes. Qed.

Lemma parseMemoryString_range s : in_int64 (parseMemoryString s).
Proof.
  unfold parseMemoryString.
  repeat case_match; auto using int64_range; unfold in_int64; lia.
Qed.
End memory.
