(* ===== verification/JobController.v ===== *)
(** * JobController: [internal/controller/dockerjob_controller.go]

    The [DockerJob] reconciler: one-shot containers with retries, a deadline and
    a time to live. *)

From S2P Require Import Prelude Effects GoText Strconv ApiTypes World KubeLib DockerHostClient.

Open Scope Z_scope.

Definition jobRequeueInterval : Z := 5 * Second.
Definition dockerJobFinalizer : string := "dockerjob.kdop.kdop.io.vn/finalizer".

(** [t.Add(d)] on instants; [time.Duration(n) * time.Second] wraps on 64 bits;
    [now.Sub(t)] saturates. *)
Definition seconds (n : Z) : Z := int64 (n * Second).
Definition duration_Sub (now t : Z) : Z := Z.max (- 2 ^ 63) (Z.min (2 ^ 63 - 1) (now - t)).

Definition set_job_status (st : DockerJobStatus) (j : DockerJob) : DockerJob :=
  mkDockerJob (dj_Meta j) (dj_Spec j) st.
Definition set_job_meta (m : ObjectMeta) (j : DockerJob) : DockerJob :=
  mkDockerJob m (dj_Spec j) (dj_Status j).

Section reconciler.
Context `{UnicodeData} `{X509} `{ControllerUtil}.

Definition containerName (job : DockerJob) : string :=
  if eqb_str (js_ContainerName (dj_Spec job)) "" then "job-" +:+ om_Name (dj_Meta job)
  else js_ContainerName (dj_Spec job).

Definition job_config (job : DockerJob) : Config :=
  mkConfig (js_Image (dj_Spec job)) (js_Command (dj_Spec job) ++ js_Args (dj_Spec job)) [] ∅ None [].
Definition job_host_config (job : DockerJob) : HostConfig :=
  mkHostConfig (if eqb_str (js_RestartPolicy (dj_Spec job)) "OnFailure" then "on-failure" else "no")
    "" ∅ [] (mkResources 0 0).

Definition createAndStartContainer (cli : DockerClient) (job : DockerJob) : M event string :=
  try_call (DImagePull cli (js_Image (dj_Spec job)) "") ;;
  deferring (call (DClosePull cli))
    (call (DDrainPull cli) ;;
     let! id := try_call (DContainerCreate cli (job_config job) (job_host_config job)
                            (containerName job)) in
     try_call (DContainerStart cli id) ;;
     ret id).

(** [_ = r.Status().Update(ctx, job)]: on success [job] holds the server's
    answer, on failure it keeps its fields. *)
Definition update_status (job : DockerJob) : M event DockerJob :=
  let! r := call (KStatusUpdate KDockerJob job) in
  ret (match r with Ok j => j | Err _ => job end).

(** The removal of the job's container, tolerating its absence. *)
Definition remove_job_container (cli : DockerClient) (job : DockerJob) : M event unit :=
  let! r := call (DContainerRemove cli (containerName job) true) in
  match r with
  | Ok _ => ret tt
  | Err e => if err_docker_notfound e then ret tt else fail e
  end.

Definition handleTTLCleanup (cli : DockerClient) (job : DockerJob) : M event Result :=
  match js_TTLSecondsAfterFinished (dj_Spec job), jst_CompletionTime (dj_Status job) with
  | Some ttlSeconds, Some completion =>
      let ttl := seconds ttlSeconds in
      let! now := call TNow in
      let elapsed := duration_Sub now completion in
      if elapsed <? ttl then ret (requeue_after (int64 (ttl - elapsed)))
      else remove_job_container cli job ;; ret done_result
  | _, _ => ret done_result
  end.

(** The statuses [syncJob] writes. *)
Definition started_status (st : DockerJobStatus) (id : string) (now : Z) : DockerJobStatus :=
  mkDockerJobStatus JobPhaseRunning id (Some now) (jst_CompletionTime st) (jst_ExitCode st)
    (int32 (jst_Attempts st + 1)) "Container started".
Definition running_status (st : DockerJobStatus) (id : string) : DockerJobStatus :=
  mkDockerJobStatus JobPhaseRunning id (jst_StartTime st) (jst_CompletionTime st)
    (jst_ExitCode st) (jst_Attempts st) "Container running".
Definition deadline_status (st : DockerJobStatus) (id : string) (now : Z) : DockerJobStatus :=
  mkDockerJobStatus JobPhaseFailed id (jst_StartTime st) (Some now) (jst_ExitCode st)
    (jst_Attempts st) "Job exceeded ActiveDeadlineSeconds".
Definition exited_status (st : DockerJobStatus) (phase id : string) (now exitCode : Z)
    (message : string) : DockerJobStatus :=
  mkDockerJobStatus phase id (jst_StartTime st) (Some now) (Some exitCode)
    (jst_Attempts st) message.
Definition retry_status (st : DockerJobStatus) (id : string) (limit : Z) : DockerJobStatus :=
  let attempts := int32 (jst_Attempts st + 1) in
  mkDockerJobStatus JobPhaseRunning id (jst_StartTime st) None None attempts
    ("Retrying (attempt " +:+ FormatInt attempts +:+ "/" +:+ FormatInt (int32 (limit + 1)) +:+ ")").
Definition exhausted_message (exitCode attempts : Z) : string :=
  "Job failed with exit code " +:+ FormatInt exitCode +:+ " after " +:+ FormatInt attempts
    +:+ " attempt(s)".

(** Whether the running container is past its deadline; the clock is read only
    when there is one. *)
Definition past_deadline (job : DockerJob) : M event bool :=
  match js_ActiveDeadlineSeconds (dj_Spec job), jst_StartTime (dj_Status job) with
  | Some secs, Some start =>
      let! now := call TNow in
      ret (start + seconds secs <? now)
  | _, _ => ret false
  end.

(** The container exited: success, retry or failure. *)
Definition sync_exited (cli : DockerClient) (job : DockerJob) (id : string) (code : Z)
    : M event Result :=
  let st := dj_Status job in
  let limit := js_BackoffLimit (dj_Spec job) in
  let exitCode := int32 code in
  let! now := call TNow in
  if exitCode =? 0 then
    let! job := update_status (set_job_status
      (exited_status st JobPhaseSucceeded id now exitCode "Job completed successfully") job) in
    handleTTLCleanup cli job
  else if jst_Attempts st <=? limit then
    call (DContainerRemove cli id true) ;;
    let! r := attempt (createAndStartContainer cli job) in
    match r with
    | Err e =>
        update_status (set_job_status
          (exited_status st JobPhaseFailed id now exitCode ("Retry failed: " +:+ err_msg e)) job) ;;
        fail e
    | Ok newID =>
        update_status (set_job_status (retry_status st newID limit) job) ;;
        ret (requeue_after jobRequeueInterval)
    end
  else
    let! job := update_status (set_job_status
      (exited_status st JobPhaseFailed id now exitCode
         (exhausted_message exitCode (jst_Attempts st))) job) in
    handleTTLCleanup cli job.

Definition sync_running (cli : DockerClient) (job : DockerJob) (id : string) : M event Result :=
  let st := dj_Status job in
  let! late := past_deadline job in
  if late then
    call (DContainerStop cli id 10) ;;
    call (DContainerRemove cli id true) ;;
    let! now := call TNow in
    let! job := update_status (set_job_status (deadline_status st id now) job) in
    handleTTLCleanup cli job
  else
    update_status (set_job_status (running_status st id) job) ;;
    ret (requeue_after jobRequeueInterval).

Definition sync_missing (cli : DockerClient) (job : DockerJob) : M event Result :=
  let! id := createAndStartContainer cli job in
  let! now := call TNow in
  update_status (set_job_status (started_status (dj_Status job) id now) job) ;;
  ret (requeue_after jobRequeueInterval).

Definition syncJob (cli : DockerClient) (job : DockerJob) : M event Result :=
  let! inspected := call (DContainerInspect cli (containerName job)) in
  match inspected with
  | Err e => if err_docker_notfound e then sync_missing cli job else fail e
  | Ok j =>
      match cj_Base j with
      | None => panic
      | Some base =>
          match cjb_State base with
          | None => ret (requeue_after jobRequeueInterval)
          | Some state =>
              if st_Running state then sync_running cli job (cjb_ID base)
              else if eqb_str (st_Status state) "exited" then
                sync_exited cli job (cjb_ID base) (st_ExitCode state)
              else ret (requeue_after jobRequeueInterval)
          end
      end
  end.

Definition finished (st : DockerJobStatus) : bool :=
  eqb_str (jst_Phase st) JobPhaseSucceeded || eqb_str (jst_Phase st) JobPhaseFailed.

Definition with_job_finalizers (f : list string -> string -> list string) (job : DockerJob)
    : DockerJob :=
  set_job_meta (set_Finalizers (f (om_Finalizers (dj_Meta job)) dockerJobFinalizer)
                  (dj_Meta job)) job.

Definition has_job_finalizer (job : DockerJob) : bool :=
  ContainsFinalizer (om_Finalizers (dj_Meta job)) dockerJobFinalizer.

(** A job being deleted. *)
Definition delete_job (cli : DockerClient) (job : DockerJob) : M event Result :=
  if has_job_finalizer job then
    remove_job_container cli job ;;
    try_call (KUpdate KDockerJob (with_job_finalizers RemoveFinalizer job)) ;;
    ret done_result
  else ret done_result.

(** [Reconcile] once the job is read and the Docker client is open. *)
Definition reconcile_job (cli : DockerClient) (job : DockerJob) : M event Result :=
  if time_IsZero (om_DeletionTimestamp (dj_Meta job)) then
    let! job := (if has_job_finalizer job then ret job
                 else try_call (KUpdate KDockerJob (with_job_finalizers AddFinalizer job))) in
    if finished (dj_Status job) then handleTTLCleanup cli job else syncJob cli job
  else delete_job cli job.

Definition Reconcile (req : NamespacedName) : M event Result :=
  let! got := call (KGet KDockerJob req) in
  match got with
  | Err e => if err_k8s_notfound e then ret done_result else fail e
  | Ok job =>
      let! cli := NewClient (om_Namespace (dj_Meta job)) (js_DockerHostRef (dj_Spec job)) in
      deferring (call (DClose cli)) (reconcile_job cli job)
  end.
End reconciler.
