(* ===== verification/DeploymentController.v ===== *)
(** * DeploymentController: [internal/controller/dockerdeployment_controller.go]

    The [DockerDeployment] reconciler: it keeps the number of child
    [DockerContainer]s at [spec.replicas]. *)

From S2P Require Import Prelude Effects GoText Strconv ApiTypes World KubeLib Adopt.
From Stdlib Require Import Ascii.

Open Scope Z_scope.

Definition deployRequeueInterval : Z := 10 * Second.
Definition letterRunes : list ascii :=
  String.list_ascii_of_string "abcdefghijklmnopqrstuvwxyz0123456789".

(** [owned[i].CreationTimestamp.Before(&owned[j].CreationTimestamp)]. *)
Definition created_before (a b : DockerContainer) : bool :=
  om_CreationTimestamp (dc_Meta a) <? om_CreationTimestamp (dc_Meta b).

Section reconciler.
Context `{ControllerUtil}.

(** [utilRandString]: the runes are ASCII, so the text is one byte per rune. *)
Definition utilRandString (n : nat) : M event string :=
  for_fold (seq 0 n) EmptyString (fun b _ =>
    let! i := call (RIntn (Z.of_nat (length letterRunes))) in
    ret (b +:+ String (nth (Z.to_nat i) letterRunes "a"%char) "")).

Definition listOwnedContainers (deployment : DockerDeployment) : M event (list DockerContainer) :=
  let! all := try_call (KListContainers (om_Namespace (dd_Meta deployment)) None) in
  let owned := filter (fun child => IsControlledBy (dc_Meta child) (dd_Meta deployment) = true) all in
  call (SortSlice _ created_before owned).

(** The name and the management mode a child gets from the template. *)
Definition child_spec (spec : DockerContainerSpec) (name suffix : string) : DockerContainerSpec :=
  let spec := set_ContainerName
    (if eqb_str (cs_ContainerName spec) "" then name
     else cs_ContainerName spec +:+ "-" +:+ suffix) spec in
  if eqb_str (cs_ManagementMode spec) ""
  then set_ManagementMode DockerContainerManagementModeEnforce spec else spec.

Definition constructContainer (deploy : DockerDeployment) : M event DockerContainer :=
  let! suffix := utilRandString 5 in
  let name := om_Name (dd_Meta deploy) +:+ "-" +:+ suffix in
  let template := dps_Template (dd_Spec deploy) in
  let meta := set_Labels (tm_Labels (ct_Metadata template))
                (new_meta (om_Namespace (dd_Meta deploy)) name) in
  let! meta := lift_result (SetControllerReference (dd_Meta deploy) "DockerDeployment" meta) in
  ret (mkDockerContainer meta (child_spec (ct_Spec template) name suffix) empty_ContainerStatus).

(** [for range diff]. *)
Definition scale_up (deployment : DockerDeployment) (diff : Z) : M event unit :=
  for_each (seq 0 (Z.to_nat diff)) (fun _ =>
    let! newContainer := constructContainer deployment in
    try_call (KCreate KDockerContainer newContainer) ;;
    ret tt).

(** [for i := range removeCount]: the victims from the end of [owned]; an index
    below zero panics. *)
Definition delete_victim (victims : list DockerContainer) (i : nat) : M event unit :=
  match (victims !! i : option DockerContainer) with
  | None => panic
  | Some victim => try_call (KDelete KDockerContainer victim)
  end.
Definition scale_down (owned : list DockerContainer) (removeCount : Z) : M event unit :=
  for_each (seq 0 (Z.to_nat removeCount)) (delete_victim (reverse owned)).

Definition desired_replicas (deployment : DockerDeployment) : Z :=
  default 1 (dps_Replicas (dd_Spec deployment)).

Definition available_count (owned : list DockerContainer) : Z :=
  foldl (fun n c => if eqb_str (cst_State (dc_Status c)) containerStateRunning
                    then int32 (n + 1) else n) 0 owned.

Definition set_deployment_status (st : DockerDeploymentStatus) (d : DockerDeployment) :=
  mkDockerDeployment (dd_Meta d) (dd_Spec d) st.

(** The scaling step. *)
Definition scale (deployment : DockerDeployment) (owned : list DockerContainer) : M event unit :=
  let currentCount := int32 (Z.of_nat (length owned)) in
  let diff := int32 (desired_replicas deployment - currentCount) in
  if 0 <? diff then scale_up deployment diff
  else if diff <? 0 then scale_down owned (int32 (- diff))
  else ret tt.

(** [Reconcile] once the deployment is read. *)
Definition reconcile_deployment (deployment : DockerDeployment) : M event Result :=
  if negb (time_IsZero (om_DeletionTimestamp (dd_Meta deployment))) then ret done_result else
  let! owned := listOwnedContainers deployment in
  scale deployment owned ;;
  let! owned := listOwnedContainers deployment in
  let available := available_count owned in
  (if dpst_AvailableReplicas (dd_Status deployment) =? available then ret tt
   else
     try_call (KStatusUpdate KDockerDeployment
       (set_deployment_status
         (mkDockerDeploymentStatus available (dpst_Conditions (dd_Status deployment))) deployment)) ;;
     ret tt) ;;
  ret (requeue_after deployRequeueInterval).

Definition Reconcile (req : NamespacedName) : M event Result :=
  let! got := call (KGet KDockerDeployment req) in
  match got with
  | Err e => if err_k8s_notfound e then ret done_result else fail e
  | Ok deployment => reconcile_deployment deployment
  end.
End reconciler.
