(* ===== verification/HostController.v ===== *)
(** * HostController: [internal/controller/dockerhost_controller.go]

    The [DockerHost] reconciler: it reports whether the daemon answers and
    records the containers labelled for adoption as [DockerContainer] objects. *)

From S2P Require Import Prelude Effects GoText Strconv Floats ApiTypes Json World Adopt DockerHostClient.

Open Scope Z_scope.

Definition hostRequeue : Z := 30 * Second.

Definition set_host_status (st : DockerHostStatus) (h : DockerHost) : DockerHost :=
  mkDockerHost (dh_Meta h) (dh_Spec h) st.

Section reconciler.
Context `{UnicodeData} `{NatLib} `{Sha256} `{X509}.

Definition adopted_from (host : DockerHost) (snapshot : runtimeContainerSnapshot) : string :=
  om_Name (dh_Meta host) +:+ "/" +:+ sn_ID snapshot.

(** The labels and annotations [upsertAdoptedContainer] keeps on an object. *)
Definition adopt_meta (host : DockerHost) (snapshot : runtimeContainerSnapshot)
    (m : ObjectMeta) : ObjectMeta :=
  set_Annotations (<[ adoptedFromAnnotationKey := adopted_from host snapshot ]> (om_Annotations m))
    (set_Labels (<[ managedByLabelKey := managedByAdoptValue ]> (om_Labels m)) m).

(** A missing key reads as the empty string. *)
Definition meta_changed (host : DockerHost) (snapshot : runtimeContainerSnapshot)
    (m : ObjectMeta) : bool :=
  negb (eqb_str (default EmptyString (om_Labels m !! managedByLabelKey)) managedByAdoptValue) ||
  negb (eqb_str (default EmptyString (om_Annotations m !! adoptedFromAnnotationKey))
          (adopted_from host snapshot)).

Definition adopt_status (specHash : string) (st : DockerContainerStatus) : DockerContainerStatus :=
  mkDockerContainerStatus (cst_ID st) (cst_State st) (cst_IPv4 st) (cst_Health st) true specHash.

Definition is_adopted_as (host : DockerHost) (snapshot : runtimeContainerSnapshot)
    (existing : DockerContainer) : bool :=
  eqb_str (cs_DockerHostRef (dc_Spec existing)) (om_Name (dh_Meta host)) &&
  eqb_str (cs_ContainerName (dc_Spec existing)) (sn_Name snapshot).

(** The body of the loop for the object found. *)
Definition refresh_adopted (host : DockerHost) (snapshot : runtimeContainerSnapshot)
    (existing : DockerContainer) : M event unit :=
  let specHash := observedSpecHash (sn_Spec snapshot) in
  let! existing :=
    (if meta_changed host snapshot (dc_Meta existing) then
       try_call (KUpdate KDockerContainer
         (set_container_meta (adopt_meta host snapshot (dc_Meta existing)) existing))
     else ret existing) in
  if negb (cst_Adopted (dc_Status existing)) ||
     negb (eqb_str (cst_ObservedSpecHash (dc_Status existing)) specHash) then
    try_call (KStatusUpdate KDockerContainer
      (set_container_status (adopt_status specHash (dc_Status existing)) existing)) ;;
    ret tt
  else ret tt.

Definition upsertAdoptedContainer (host : DockerHost) (snapshot : runtimeContainerSnapshot)
    : M event unit :=
  let! items := try_call (KListContainers (om_Namespace (dh_Meta host)) None) in
  match head (filter (fun c => is_adopted_as host snapshot c = true) items) with
  | Some existing => refresh_adopted host snapshot existing
  | None =>
      try_call (KCreate KDockerContainer
        (buildAdoptedDockerContainer (om_Namespace (dh_Meta host)) host snapshot)) ;;
      ret tt
  end.

Definition adoptable (summary : Container) : bool :=
  eqb_str (default EmptyString (c_Labels summary !! adoptLabelKey)) adoptLabelValue.

Definition discoverAdoptableContainers (cli : DockerClient) (host : DockerHost) : M event unit :=
  let! containers := try_call (DContainerList cli) in
  for_each containers (fun summary =>
    if adoptable summary then
      let! inspect := try_call (DContainerInspect cli (c_ID summary)) in
      let! snapshot := runtimeSnapshotFromInspect (om_Name (dh_Meta host)) summary inspect in
      upsertAdoptedContainer host snapshot
    else ret tt).

Definition phaseConnected : string := "Connected".
Definition phaseError : string := "Error".

(** The status the ping gives. *)
Definition ping_status (r : result unit) : DockerHostStatus :=
  match r with
  | Ok _ => mkDockerHostStatus phaseConnected "Successfully connected to Docker daemon"
  | Err e => mkDockerHostStatus phaseError (err_msg e)
  end.

(** [Reconcile] with an open client. *)
Definition reconcile_host (cli : DockerClient) (host : DockerHost) : M event Result :=
  let! r := call (DPing cli) in
  let st := ping_status r in
  let! host :=
    (if eqb_str (hst_Phase (dh_Status host)) (hst_Phase st) &&
        eqb_str (hst_Message (dh_Status host)) (hst_Message st) then ret host
     else try_call (KStatusUpdate KDockerHost (set_host_status st host))) in
  (if eqb_str (hst_Phase st) phaseConnected then
     attempt (discoverAdoptableContainers cli host) ;; ret tt
   else ret tt) ;;
  ret (requeue_after hostRequeue).

Definition Reconcile (req : NamespacedName) : M event Result :=
  let! got := call (KGet KDockerHost req) in
  match got with
  | Err e => if err_k8s_notfound e then ret done_result else fail e
  | Ok host =>
      let! cli := attempt (NewClientFromHost host) in
      match cli with
      | Err e =>
          try_call (KStatusUpdate KDockerHost
            (set_host_status (mkDockerHostStatus phaseError (err_msg e)) host)) ;;
          ret (requeue_after hostRequeue)
      | Ok cli => deferring (call (DClose cli)) (reconcile_host cli host)
      end
  end.
End reconciler.
