(* ===== verification/ServiceController.v ===== *)
(** * ServiceController: [internal/controller/dockerservice_controller.go]

    The [DockerService] reconciler: it selects target containers, keeps the
    tunnel server (a Service, a token secret, a config map of targets and a
    Deployment) and the tunnel client container on the target's host. *)

From S2P Require Import Prelude Effects GoText Strconv ApiTypes World KubeLib DockerHostClient.
From Stdlib Require Import Ascii.

Open Scope Z_scope.

Definition tunnelWSPort : Z := 8081.
Definition tunnelGatewayPort : Z := 30000.
Definition dockerServiceFinalizer : string := "dockerservice.kdop.kdop.io.vn/finalizer".
Definition networkModeKind : string := "kind".
Definition networkModeHost : string := "host".

Definition set_service_status (st : DockerServiceStatus) (ds : DockerService) : DockerService :=
  mkDockerService (dsv_Meta ds) (dsv_Spec ds) st.
Definition set_service_meta (m : ObjectMeta) (ds : DockerService) : DockerService :=
  mkDockerService m (dsv_Spec ds) (dsv_Status ds).

Definition ds_Name (ds : DockerService) : string := om_Name (dsv_Meta ds).
Definition ds_Namespace (ds : DockerService) : string := om_Namespace (dsv_Meta ds).

(** [fmt.Sprintf("%v", l)] of a slice of strings. *)
Definition print_strings (l : list string) : string := "[" +:+ Join l " " +:+ "]".

(** What [resolveTargetContainers] returns. *)
Inductive resolved :=
| Targets (l : list DockerContainer)
| Stop (r : Result)
| Failed (e : error).

Definition buildTargetIPs (containers : list DockerContainer) (targetPort : Z) : list string :=
  (fun tc => cst_IPv4 (dc_Status tc) +:+ ":" +:+ FormatInt targetPort) <$>
    filter (fun tc => eqb_str (cst_IPv4 (dc_Status tc)) "" = false) containers.

(** ** The objects of the tunnel server *)

Definition server_name (ds : DockerService) : string := "tunnel-" +:+ ds_Name ds.
Definition app_label (name : string) : gmap string string := {[ "app" := name ]}.

Definition service_ports (ds : DockerService) : list CoreServicePort :=
  mkCoreServicePort "ws" tunnelWSPort tunnelWSPort ::
  ((fun p => mkCoreServicePort (sp_Name p) (sp_Port p) (sp_Port p)) <$> ss_Ports (dsv_Spec ds)).

Definition server_args (ds : DockerService) (authToken : string) : list string :=
  ["tunnel"; "-mode=server"; "-ws-addr=:" +:+ FormatInt tunnelWSPort;
   "-auth-token=" +:+ authToken; "-targets-file=/etc/tunnel/targets"] ++
  ((fun p => "-listen-addr=:" +:+ FormatInt (sp_Port p)) <$> ss_Ports (dsv_Spec ds)).

Definition server_ports (ds : DockerService) : list ContainerPort :=
  mkContainerPort "ws" tunnelWSPort ::
  ((fun p => mkContainerPort (sp_Name p) (sp_Port p)) <$> ss_Ports (dsv_Spec ds)).

Definition server_template (ds : DockerService) (imageName authToken : string) : PodTemplate :=
  mkPodTemplate (app_label (server_name ds)) "server" imageName "IfNotPresent"
    (server_args ds authToken) (server_ports ds) [("targets"%stdpp, "/etc/tunnel"%stdpp)]
    ("targets"%stdpp, server_name ds +:+ "-targets", [("targets"%stdpp, "targets"%stdpp)]).

Section reconciler.
Context `{UnicodeData} `{X509} `{ControllerUtil}.

Definition own (ds : DockerService) (m : ObjectMeta) : outcome ObjectMeta :=
  to_outcome (SetControllerReference (dsv_Meta ds) "DockerService" m).

Definition mutate_service (ds : DockerService) (svc : CoreService) : outcome CoreService :=
  outcome_bind (own ds (csv_Meta svc)) (fun m =>
    Val (mkCoreService m (app_label (server_name ds)) (service_ports ds))).

Definition mutate_targets (ds : DockerService) (targetsCSV : string) (cm : ConfigMap)
    : outcome ConfigMap :=
  outcome_bind (own ds (cm_Meta cm)) (fun m =>
    Val (mkConfigMap m (<[ "targets" := targetsCSV ]> (cm_Data cm)))).

Definition mutate_deployment (ds : DockerService) (replicas : Z) (imageName authToken : string)
    (dep : Deployment) : outcome Deployment :=
  outcome_bind (own ds (set_Labels (app_label (server_name ds)) (dep_Meta dep))) (fun m =>
    Val (mkDeployment m (Some replicas) (Some (app_label (server_name ds)))
           (Some (server_template ds imageName authToken)))).

Definition operatorImage : M event string :=
  let! img := call (OGetenv "OPERATOR_IMAGE") in
  ret (if eqb_str img "" then "kdop-operator:latest"%stdpp else img).

(** ** Token and reload *)

Definition auth_secret (ds : DockerService) (m : ObjectMeta) (token : string) : Secret :=
  mkSecret m {[ "token" := token ]}.

Definition ensureTunnelAuthSecret (ds : DockerService) : M event string :=
  let secretName := ds_Name ds +:+ "-tunnel-auth" in
  let! got := call (KGet KSecret (mkNN (ds_Namespace ds) secretName)) in
  let known :=
    match got with
    | Ok secret => Ok (sec_Data secret !! "token")
    | Err e => if err_k8s_notfound e then Ok None else Err e
    end in
  match known with
  | Err e => fail e
  | Ok (Some token) => ret token
  | Ok None =>
      let! tokenBytes := try_call (RRead 16) in
      let token := hex_EncodeToString tokenBytes in
      let! m := lift (own ds (new_meta (ds_Namespace ds) secretName)) in
      try_call (KCreate KSecret (auth_secret ds m token)) ;;
      ret token
  end.

Definition reload_url (ip targetsCSV : string) : string :=
  "http://" +:+ ip +:+ ":" +:+ FormatInt tunnelWSPort +:+ "/reload?targets=" +:+
    QueryEscape targetsCSV.

(** Each post runs in a goroutine of its own; [GoHTTPPost] starts it. *)
Definition triggerTunnelReload (namespace appName targetsCSV : string) : M event unit :=
  let! pods := call (KListPods namespace (app_label appName)) in
  match pods with
  | Err _ => ret tt
  | Ok pods =>
      for_each pods (fun pod =>
        if negb (eqb_str (pod_Phase pod) "Running") || eqb_str (pod_IP pod) "" then ret tt
        else call (GoHTTPPost (reload_url (pod_IP pod) targetsCSV)))
  end.

(** The address of the tunnel server's WebSocket. *)
Definition tunnel_server_url (name namespace : string) : string :=
  "ws://" +:+ name +:+ "." +:+ namespace +:+ ".svc:" +:+ FormatInt tunnelWSPort +:+ "/ws".

(** ** The tunnel server

    It returns the tunnel's URL and the targets, which it sorts in place. The
    image is read when the Deployment is about to be written. *)
Definition reconcileTunnelServer (ds : DockerService) (replicas : Z) (targetIPs : list string)
    : M event (string * list string) :=
  let name := server_name ds in
  let namespace := ds_Namespace ds in
  try_call (KCreateOrUpdate KService
    (mkCoreService (set_Labels (app_label name) (new_meta namespace name)) ∅ [])
    (mutate_service ds)) ;;
  let! authToken := ensureTunnelAuthSecret ds in
  let targetIPs := sort_Strings targetIPs in
  let targetsCSV := Join targetIPs "," in
  let! opResult := try_call (KCreateOrUpdate KConfigMap
    (mkConfigMap (new_meta namespace (name +:+ "-targets")) ∅)
    (mutate_targets ds targetsCSV)) in
  (if bool_decide (opResult = OperationResultUpdated)
   then triggerTunnelReload namespace name targetsCSV else ret tt) ;;
  let! imageName := operatorImage in
  try_call (KCreateOrUpdate KDeployment
    (mkDeployment (new_meta namespace name) None None None)
    (mutate_deployment ds replicas imageName authToken)) ;;
  ret (tunnel_server_url name namespace, targetIPs).

(** ** The tunnel client *)

Definition tunnel_client_name (ds : DockerService) : string := "tunnel-client-" +:+ ds_Name ds.

(** The network the representative container is on: the first in iteration
    order. A missing [NetworkSettings] or a nil endpoint panics. *)
Definition first_network (j : ContainerJSON) : M event string :=
  match cj_NetworkSettings j with
  | None => panic
  | Some ns =>
      let! entries := call (MapRange _ (ns_Networks ns)) in
      match entries with
      | [] => ret EmptyString
      | (_, None) :: _ => panic
      | (_, Some ep) :: _ => ret (ep_NetworkID ep)
      end
  end.

Definition control_plane_label : gmap string string :=
  {[ "node-role.kubernetes.io/control-plane" := EmptyString ]}.

Definition gateway_host (netMode : string) : M event string :=
  if eqb_str netMode networkModeKind then
    let! nodes := call (KListNodes control_plane_label) in
    ret (match nodes with Ok (n :: _) => n | _ => "localhost"%stdpp end)
  else ret "localhost"%stdpp.

Definition client_connect_url (gatewayHost wsURL authToken : string) : string :=
  "ws://" +:+ gatewayHost +:+ ":" +:+ FormatInt tunnelGatewayPort +:+ "/ws?target=" +:+
    QueryEscape wsURL +:+ "&token=" +:+ QueryEscape authToken.

Definition client_config (img url authToken : string) : Config :=
  mkConfig img ["tunnel"; "-mode=client"; "-server-url=" +:+ url; "-auth-token=" +:+ authToken]
    [] ∅ None [].
Definition client_host_config (netMode : string) : HostConfig :=
  mkHostConfig "always"
    (if eqb_str netMode networkModeHost then networkModeHost
     else if eqb_str netMode networkModeKind then networkModeKind else EmptyString)
    ∅ [] (mkResources 0 0).

(** [existing.Config.Image] and [existing.State.Running]. *)
Definition inspected_image (j : ContainerJSON) : outcome string :=
  match cj_Config j with None => Panic | Some c => Val (ci_Image c) end.
Definition inspected_running (j : ContainerJSON) : outcome bool :=
  match cj_Base j with
  | None => Panic
  | Some b => match cjb_State b with None => Panic | Some st => Val (st_Running st) end
  end.

Definition create_tunnel_client (cli : DockerClient) (ds : DockerService)
    (img url authToken networkID : string) : M event unit :=
  let tunnelName := tunnel_client_name ds in
  try_call (DContainerCreate cli (client_config img url authToken)
    (client_host_config (ss_NetworkMode (dsv_Spec ds))) tunnelName) ;;
  try_call (DContainerStart cli tunnelName) ;;
  if negb (eqb_str networkID "") && negb (eqb_str networkID networkModeHost) &&
     negb (eqb_str networkID "none")
  then call (DNetworkConnect cli networkID tunnelName) ;; ret tt
  else ret tt.

(** The image on the host, pulled when it is not there; a failure to pull is
    only logged. *)
Definition ensure_image (cli : DockerClient) (img : string) : M event unit :=
  let! r := call (DImageInspect cli img) in
  match r with
  | Ok _ => ret tt
  | Err _ =>
      let! p := call (DImagePull cli img "") in
      match p with
      | Ok _ => call (DDrainPull cli) ;; call (DClosePull cli)
      | Err _ => ret tt
      end
  end.

(** The client container itself: kept, started, recreated or created. *)
Definition ensure_tunnel_client (cli : DockerClient) (ds : DockerService)
    (img url authToken networkID : string) : M event unit :=
  let tunnelName := tunnel_client_name ds in
  let! existing := call (DContainerInspect cli tunnelName) in
  match existing with
  | Ok j =>
      let! image := lift (inspected_image j) in
      if negb (eqb_str image img) then
        try_call (DContainerRemove cli tunnelName true) ;;
        create_tunnel_client cli ds img url authToken networkID
      else
        let! running := lift (inspected_running j) in
        if running then ret tt else try_call (DContainerStart cli tunnelName)
  | Err e =>
      if err_docker_notfound e
      then create_tunnel_client cli ds img url authToken networkID
      else fail e
  end.

Definition reconcileTunnelClient (cli : DockerClient) (ds : DockerService)
    (rep : DockerContainer) (wsURL : string) : M event unit :=
  let! mainContainer := call (DContainerInspect cli (cs_ContainerName (dc_Spec rep))) in
  match mainContainer with
  | Err e => if err_docker_notfound e then ret tt else fail e
  | Ok main =>
      let! networkID := first_network main in
      let! gatewayHost := gateway_host (ss_NetworkMode (dsv_Spec ds)) in
      let! authToken := ensureTunnelAuthSecret ds in
      let! img := operatorImage in
      ensure_image cli img ;;
      ensure_tunnel_client cli ds img (client_connect_url gatewayHost wsURL authToken)
        authToken networkID
  end.

(** ** Status and targets *)

(** [_ = r.setDockerServiceStatus(...)]: the object afterwards. *)
Definition setDockerServiceStatus (ds : DockerService) (phase : string) (clients : Z)
    (wsURL message : string) : M event DockerService :=
  let ds' := set_service_status (mkDockerServiceStatus phase clients wsURL message) ds in
  let! r := call (KStatusPatch ds' ds) in
  ret (match r with Ok o => o | Err _ => ds' end).

Definition resolveTargetContainers (ds : DockerService) : M event (DockerService * resolved) :=
  let hasRef := negb (eqb_str (ss_ContainerRef (dsv_Spec ds)) "") in
  match hasRef, ss_Selector (dsv_Spec ds) with
  | true, Some _ =>
      let! ds := setDockerServiceStatus ds "Error" 0 ""
                   "spec must set either containerRef or selector, not both" in
      ret (ds, Stop done_result)
  | false, None =>
      let! ds := setDockerServiceStatus ds "Error" 0 ""
                   "spec must set containerRef or selector" in
      ret (ds, Stop done_result)
  | false, Some sel =>
      match LabelSelectorAsSelector sel with
      | Err e =>
          let! ds := setDockerServiceStatus ds "Error" 0 "" ("invalid selector: " +:+ err_msg e) in
          ret (ds, Failed e)
      | Ok selector =>
          let! list := call (KListContainers (ds_Namespace ds) (Some selector)) in
          match list with
          | Err e => ret (ds, Failed e)
          | Ok [] =>
              let! ds := setDockerServiceStatus ds "Pending" 0 ""
                           "no matching DockerContainers found for selector" in
              ret (ds, Stop (requeue_after (10 * Second)))
          | Ok items => ret (ds, Targets items)
          end
      end
  | true, None =>
      let! got := call (KGet KDockerContainer
                    (mkNN (ds_Namespace ds) (ss_ContainerRef (dsv_Spec ds)))) in
      match got with
      | Ok dc => ret (ds, Targets [dc])
      | Err e =>
          if err_k8s_notfound e then
            let! ds := setDockerServiceStatus ds "Pending" 0 ""
              ("DockerContainer " +:+ Quote (ss_ContainerRef (dsv_Spec ds)) +:+ " not found") in
            ret (ds, Stop (requeue_after (10 * Second)))
          else ret (ds, Failed e)
      end
  end.

(** ** Deletion *)

(** The targets whose hosts are cleaned up; errors mean none. *)
Definition cleanup_targets (ds : DockerService) : M event (list DockerContainer) :=
  match ss_Selector (dsv_Spec ds) with
  | Some sel =>
      match LabelSelectorAsSelector sel with
      | Err _ => ret []
      | Ok selector =>
          let! list := call (KListContainers (ds_Namespace ds) (Some selector)) in
          ret (match list with Ok l => l | Err _ => [] end)
      end
  | None =>
      if eqb_str (ss_ContainerRef (dsv_Spec ds)) "" then ret []
      else
        let! got := call (KGet KDockerContainer
                      (mkNN (ds_Namespace ds) (ss_ContainerRef (dsv_Spec ds)))) in
        ret (match got with Ok dc => [dc] | Err _ => [] end)
  end.

(** One container per host reference, the last one. *)
Definition hosts_of (targets : list DockerContainer) : gmap string DockerContainer :=
  foldl (fun hosts tc => <[ cs_DockerHostRef (dc_Spec tc) := tc ]> hosts) ∅ targets.

Definition legacy_client_name (ds : DockerService) : string := ds_Name ds +:+ "-tunnel".

Definition cleanup_host (ds : DockerService) (tc : DockerContainer) : M event unit :=
  let! cli := attempt (NewClient (om_Namespace (dc_Meta tc)) (cs_DockerHostRef (dc_Spec tc))) in
  match cli with
  | Err _ => ret tt
  | Ok cli =>
      for_each [tunnel_client_name ds; legacy_client_name ds] (fun name =>
        call (DContainerRemove cli name true) ;; ret tt) ;;
      call (DClose cli)
  end.

Definition deleteExternalResources (ds : DockerService) : M event unit :=
  let! targets := cleanup_targets ds in
  let! hosts := call (MapRange _ (hosts_of targets)) in
  for_each hosts (fun e => cleanup_host ds e.2).

(** ** The reconciler *)

Definition with_service_finalizers (f : list string -> string -> list string) (ds : DockerService)
    : DockerService :=
  set_service_meta (set_Finalizers (f (om_Finalizers (dsv_Meta ds)) dockerServiceFinalizer)
                      (dsv_Meta ds)) ds.

(** The tunnel client of the first target, once the server is in place. *)
Definition reconcile_client (ds : DockerService) (first : DockerContainer) (wsURL : string)
    (targetIPs : list string) : M event Result :=
  let! cli := attempt (NewClient (om_Namespace (dc_Meta first))
                         (cs_DockerHostRef (dc_Spec first))) in
  match cli with
  | Err e =>
      setDockerServiceStatus ds "Error" 0 wsURL (err_msg e) ;;
      ret (requeue_after (10 * Second))
  | Ok cli =>
      deferring (call (DClose cli))
        (let! r := attempt (reconcileTunnelClient cli ds first wsURL) in
         match r with
         | Err e =>
             setDockerServiceStatus ds "Error" 0 wsURL (err_msg e) ;;
             ret (requeue_after (10 * Second))
         | Ok _ =>
             setDockerServiceStatus ds "Active" 1 wsURL
               ("tunnel client ready; targetIPs=" +:+ print_strings targetIPs) ;;
             ret (requeue_after (30 * Second))
         end)
  end.

(** The tunnel for resolved targets. *)
Definition reconcile_tunnel (ds : DockerService) (targets : list DockerContainer)
    : M event Result :=
  match ss_Ports (dsv_Spec ds) with
  | [] =>
      setDockerServiceStatus ds "Error" 0 "" "spec.ports must not be empty" ;;
      ret done_result
  | port :: _ =>
      let targetIPs := buildTargetIPs targets (sp_TargetPort port) in
      let desiredReplicas := match targetIPs with [] => 0 | _ => 1 end in
      let! server := attempt (reconcileTunnelServer ds desiredReplicas targetIPs) in
      match server with
      | Err e =>
          setDockerServiceStatus ds "Error" 0 "" (err_msg e) ;;
          fail e
      | Ok (wsURL, targetIPs) =>
          match targets, targetIPs with
          | first :: _, _ :: _ => reconcile_client ds first wsURL targetIPs
          | _, _ =>
              setDockerServiceStatus ds "Pending" 0 wsURL
                ("waiting for target IPv4; containers=" +:+
                   FormatInt (Z.of_nat (length targets))) ;;
              ret (requeue_after (10 * Second))
          end
      end
  end.

(** [Reconcile] once the service is read. *)
Definition reconcile_service (ds : DockerService) : M event Result :=
  let has_finalizer := ContainsFinalizer (om_Finalizers (dsv_Meta ds)) dockerServiceFinalizer in
  if negb (time_IsZero (om_DeletionTimestamp (dsv_Meta ds))) then
    if has_finalizer then
      deleteExternalResources ds ;;
      try_call (KUpdate KDockerService (with_service_finalizers RemoveFinalizer ds)) ;;
      ret done_result
    else ret done_result
  else if negb has_finalizer then
    try_call (KUpdate KDockerService (with_service_finalizers AddFinalizer ds)) ;;
    ret (mkResult true 0)
  else
    let! (ds, r) := resolveTargetContainers ds in
    match r with
    | Failed e =>
        setDockerServiceStatus ds "Error" 0 "" (err_msg e) ;;
        fail e
    | Stop result => ret result
    | Targets targets => reconcile_tunnel ds targets
    end.

Definition Reconcile (req : NamespacedName) : M event Result :=
  let! got := call (KGet KDockerService req) in
  match got with
  | Err e => if err_k8s_notfound e then ret done_result else fail e
  | Ok ds => reconcile_service ds
  end.

(** ** The watch on containers *)

Definition service_request (ds : DockerService) : NamespacedName :=
  mkNN (ds_Namespace ds) (ds_Name ds).

Definition serves (dc : DockerContainer) (ds : DockerService) : bool :=
  if negb (eqb_str (ss_ContainerRef (dsv_Spec ds)) "") &&
     eqb_str (ss_ContainerRef (dsv_Spec ds)) (om_Name (dc_Meta dc)) then true
  else match ss_Selector (dsv_Spec ds) with
  | None => false
  | Some sel =>
      match LabelSelectorAsSelector sel with
      | Err _ => false
      | Ok selector => sel_Matches selector (om_Labels (dc_Meta dc))
      end
  end.

Definition findDockerServicesForContainer (dc : DockerContainer)
    : M event (list NamespacedName) :=
  let! got := call (KListServices (om_Namespace (dc_Meta dc))) in
  match got with
  | Err _ => ret []
  | Ok items => ret (fmap (M:=list) service_request (filter (fun ds => serves dc ds = true) items))
  end.
End reconciler.
