(* ===== verification/TunnelServer.v ===== *)
(** * TunnelServer: [internal/tunnel/server.go]

    The tunnel server: the state behind its mutex, one definition per critical
    section, the handlers around those sections as programs over the signature
    [net_event], and the server as a transition system whose steps interleave
    the handlers.  A WebSocket, a yamux session, a stream and a TCP connection
    are known by a number. *)

From stdpp Require Import relations.
From S2P Require Import Prelude Effects GoText World Url.
From Stdlib Require Import Ascii.

Open Scope Z_scope.

(** ** State *)

Record Server := mkServer {
  authToken : string;
  sessions : list nat;
  targets : list string;
  pushTargets : list string;
  targetsFile : string;
  lastPushTime : Z;
  rrIndex : Z;
}.

Definition zero_clock : Z := ApiTypes.zero_time.

Definition NewServer (authToken : string) (targets : list string) : Server :=
  mkServer authToken [] targets [] "" zero_clock 0.

Definition SetTargetsFile (path : string) (s : Server) : Server :=
  mkServer (authToken s) (sessions s) (targets s) (pushTargets s) path (lastPushTime s) (rrIndex s).
Definition set_sessions (l : list nat) (s : Server) : Server :=
  mkServer (authToken s) l (targets s) (pushTargets s) (targetsFile s) (lastPushTime s) (rrIndex s).
Definition set_targets (l : list string) (s : Server) : Server :=
  mkServer (authToken s) (sessions s) l (pushTargets s) (targetsFile s) (lastPushTime s) (rrIndex s).
Definition set_rrIndex (i : Z) (s : Server) : Server :=
  mkServer (authToken s) (sessions s) (targets s) (pushTargets s) (targetsFile s) (lastPushTime s) i.

(** ** Critical sections *)

(** [l[i % len(l)]] for a non-empty slice. *)
Definition at_mod {A} (l : list A) (i : Z) : option A :=
  l !! Z.to_nat (i mod Z.of_nat (length l)).

(** The selection of [handleTCP]. *)
Definition select (s : Server) : option (string * nat) * Server :=
  match sessions s, targets s with
  | [], _ => (None, s)
  | _, [] => (None, s)
  | _, _ =>
      match at_mod (targets s) (rrIndex s), at_mod (sessions s) (rrIndex s) with
      | Some target, Some sess => (Some (target, sess), set_rrIndex (uint64 (rrIndex s + 1)) s)
      | _, _ => (None, s)
      end
  end.

(** The two sections of [handleWS]. *)
Definition register (session : nat) (s : Server) : Server :=
  set_sessions (sessions s ++ [session]) s.

Fixpoint remove_first (session : nat) (l : list nat) : list nat :=
  match l with
  | [] => []
  | x :: l' => if (x =? session)%nat then l' else x :: remove_first session l'
  end.
Definition unregister (session : nat) (s : Server) : Server :=
  set_sessions (remove_first session (sessions s)) s.

(** The targets of a comma-separated text. *)
Definition parse_targets (text : string) : list string :=
  filter (fun t => eqb_str t "" = false) (TrimSpace <$> Split_byte text ",").

(** The push branch of [handleReload]. *)
Definition push_targets (text : string) (now : Z) (s : Server) : Server :=
  let newTargets := parse_targets text in
  mkServer (authToken s) (sessions s) newTargets newTargets (targetsFile s) now (rrIndex s).

Fixpoint targetsEqual (a b : list string) : bool :=
  match a, b with
  | [], [] => true
  | x :: a', y :: b' => eqb_str x y && targetsEqual a' b'
  | _, _ => false
  end.

Definition file_targets (data : string) : list string :=
  let content := TrimSpace data in
  if eqb_str content "" then [] else parse_targets content.

(** [time.Since(t)] saturates. *)
Definition since (now t : Z) : Z := Z.max (- 2 ^ 63) (Z.min (2 ^ 63 - 1) (now - t)).

(** The section of [loadTargetsFromFile], with the targets read from the file. *)
Definition load_targets (newTargets : list string) (now : Z) (s : Server) : Server :=
  if negb (lastPushTime s =? zero_clock) && (since now (lastPushTime s) <? 2 * Minute) &&
     negb (targetsEqual newTargets (pushTargets s)) then s
  else if targetsEqual newTargets (targets s) then s
  else set_targets newTargets s.

(** The accesses of the handlers to the server's state, with what each gives
    back: the critical sections, and the reads of the two fields that no handler
    writes. *)
Inductive section : Set -> Type :=
| ReadToken : section string
| ReadTargetsFile : section string
| Select : section (option (string * nat))
| Register (session : nat) : section unit
| Unregister (session : nat) : section unit
| Push (text : string) : section unit
| LoadTargets (newTargets : list string) : section unit.

(** One access, at the time [now]. *)
Definition run_section {R : Set} (x : section R) (now : Z) (s : Server) : R * Server :=
  match x in section R return R * Server with
  | ReadToken => (authToken s, s)
  | ReadTargetsFile => (targetsFile s, s)
  | Select => select s
  | Register session => (tt, register session s)
  | Unregister session => (tt, unregister session s)
  | Push text => (tt, push_targets text now s)
  | LoadTargets newTargets => (tt, load_targets newTargets now s)
  end.

(** ** Handlers *)

(** What the two ends of the tunnel do besides computing: accesses to the
    server's state, HTTP answers, WebSocket and yamux sessions, streams (of which
    [StreamRead] reads one byte), connections and files. *)
Inductive net_event : Set -> Type :=
| OnServer (R : Set) (x : section R) : net_event R
| HttpError (code : Z) (message : string) : net_event unit
| WriteHeader (code : Z) : net_event unit
| Upgrade : net_event (result nat)
| NewSession (ws : nat) : net_event (result nat)
| WSClose (ws : nat) : net_event unit
| AwaitClosed (sess : nat) : net_event unit
| SessionClose (sess : nat) : net_event unit
| SessionOpen (sess : nat) : net_event (result nat)
| StreamWrite (stream : nat) (data : string) : net_event (result unit)
| StreamRead (stream : nat) : net_event (result ascii)
| Dial (addr : string) : net_event (result nat)
| GoCopyUp (conn stream : nat) : net_event unit
| GoCopyDown (stream conn : nat) : net_event unit
| AwaitFirst : net_event unit
| StreamClose (stream : nat) : net_event unit
| ConnClose (conn : nat) : net_event unit
| ReadFile (path : string) : net_event (result string)
(* the server's start *)
| Listen (addr : string) : net_event (result nat)
| GoAcceptTCP (ln : nat) : net_event unit
| AcceptTCP (ln : nat) : net_event (result nat)
| GoHandleTCP (conn : nat) : net_event unit
| GoWatchTargets : net_event unit
| ListenAndServe (addr : string) : net_event error
(* the client's end of the WebSocket *)
| WSDial (url : string) : net_event (result nat)
| ClientSession (ws : nat) : net_event (result nat)
| Accept (sess : nat) : net_event (result nat)
| GoHandleStream (stream : nat) : net_event unit
| Sleep (d : Z) : net_event unit
(* keeping a WebSocket alive *)
| SetPongHandler (ws : nat) : net_event unit
| GoPing (ws : nat) : net_event unit
| AwaitTick (d : Z) : net_event unit
| WSPing (ws : nat) : net_event (result unit)
| Now : net_event Z
| SetReadDeadline (ws : nat) (t : Z) : net_event (result unit)
| SetWriteDeadline (ws : nat) (t : Z) : net_event (result unit).
Arguments OnServer {R} x.

#[export] Instance net_signature : Signature net_event := fun R e r => True.

Definition newline : string := String (chr 10) "".

(** [handleTCP] once a target and a session are selected: errors are logged and
    the connection is dropped; the two copies run until the first of them ends. *)
Definition forward (conn : nat) (target : string) (sess : nat) : M net_event unit :=
  let! opened := call (SessionOpen sess) in
  match opened with
  | Err _ => ret tt
  | Ok stream =>
      deferring (call (StreamClose stream))
        (let! written := call (StreamWrite stream (target +:+ newline)) in
         match written with
         | Err _ => ret tt
         | Ok _ =>
             call (GoCopyUp conn stream) ;;
             call (GoCopyDown stream conn) ;;
             call AwaitFirst
         end)
  end.

Definition handleTCP (conn : nat) : M net_event unit :=
  deferring (call (ConnClose conn))
    (let! picked := call (OnServer Select) in
     match picked with
     | None => ret tt
     | Some (target, sess) => forward conn target sess
     end).

Definition StatusOK : Z := 200.
Definition StatusForbidden : Z := 403.
Definition StatusMethodNotAllowed : Z := 405.

(** Whether a client that presents [token] is let in by a server whose token is
    [authToken]. *)
Definition authorized (authToken token : string) : bool :=
  eqb_str authToken "" || eqb_str token authToken.

(** [NewWebSocketConn] ([conn.go]), which both ends of the tunnel call: the pong
    handler is installed and the pings are started. *)
Definition NewWebSocketConn (ws : nat) : M net_event unit :=
  call (SetPongHandler ws) ;;
  call (GoPing ws).

(** [handleWS]: [token] is the query parameter, empty when there is none; the
    loop that polls [session.IsClosed] is the call [AwaitClosed], which need not
    return. *)
Definition handleWS (token : string) : M net_event unit :=
  let! authToken := call (OnServer ReadToken) in
  if negb (authorized authToken token) then
    call (HttpError StatusForbidden "Forbidden: invalid tunnel auth token")
  else
    let! upgraded := call Upgrade in
    match upgraded with
    | Err _ => ret tt
    | Ok ws =>
        NewWebSocketConn ws ;;
        let! created := call (NewSession ws) in
        match created with
        | Err _ => call (WSClose ws)
        | Ok session =>
            call (OnServer (Register session)) ;;
            deferring (call (OnServer (Unregister session)) ;; call (SessionClose session))
              (call (AwaitClosed session))
        end
    end.

Definition loadTargetsFromFile : M net_event unit :=
  let! path := call (OnServer ReadTargetsFile) in
  let! read := call (ReadFile path) in
  match read with
  | Err _ => ret tt
  | Ok data => call (OnServer (LoadTargets (file_targets data)))
  end.

(** [handleReload]: the method and the query parameter. *)
Definition handleReload (method query_targets : string) : M net_event unit :=
  if negb (eqb_str method "POST") then
    call (HttpError StatusMethodNotAllowed "Method not allowed")
  else
    (if eqb_str query_targets "" then loadTargetsFromFile
     else call (OnServer (Push query_targets))) ;;
    call (WriteHeader StatusOK).

(** ** Start

    The loops of [acceptTCP] and [watchTargetsFile] have no end: these are their
    first [turns] turns. *)

Fixpoint acceptTCP (turns ln : nat) : M net_event unit :=
  match turns with
  | O => ret tt
  | S turns =>
      let! accepted := call (AcceptTCP ln) in
      match accepted with Err _ => ret tt | Ok conn => call (GoHandleTCP conn) end ;;
      acceptTCP turns ln
  end.

Fixpoint watch_ticks (turns : nat) : M net_event unit :=
  match turns with
  | O => ret tt
  | S turns => call (AwaitTick (5 * Second)) ;; loadTargetsFromFile ;; watch_ticks turns
  end.
Definition watchTargetsFile (turns : nat) : M net_event unit :=
  loadTargetsFromFile ;; watch_ticks turns.

(** [Start], on a server that listens at the two addresses;
    [http.ListenAndServe] only returns with an error. *)
Definition Start (listenAddr wsAddr : string) : M net_event unit :=
  let! ln := try_call (Listen listenAddr) in
  call (GoAcceptTCP ln) ;;
  let! file := call (OnServer ReadTargetsFile) in
  (if eqb_str file "" then ret tt else call GoWatchTargets) ;;
  let! err := call (ListenAndServe wsAddr) in
  fail err.

(** ** The running server

    Every connection, request and tick of the watched file is handled by a
    goroutine of its own: a thread, which keeps what it was started for, what it
    has done and what it has still to do.  The steps of different threads
    interleave freely; each access to the state is one step. *)

Inductive request :=
| TCP (conn : nat)
| WS (token : string)
| Reload (method query_targets : string)
| Tick.

Definition handler (rq : request) : M net_event unit :=
  match rq with
  | TCP conn => handleTCP conn
  | WS token => handleWS token
  | Reload method query_targets => handleReload method query_targets
  | Tick => loadTargetsFromFile
  end.

Record thread := mkThread {
  th_request : request;
  th_past : list (obs net_event);
  th_rest : M net_event unit;
}.
Record system := mkSystem { sy_server : Server; sy_threads : list thread }.

(** What [Start]'s mux hands a request to: nothing for any other path. *)
Definition route `{UnicodeData} (method : string) (u : URL) : option request :=
  if eqb_str (url_Path u) "/ws" then Some (WS (values_Get "token" (Query u)))
  else if eqb_str (url_Path u) "/reload" then Some (Reload method (values_Get "targets" (Query u)))
  else None.

(** The session a call created. *)
Definition opened (o : obs net_event) : option nat :=
  match o with
  | Obs e r =>
      match e in net_event R return R -> option nat with
      | NewSession _ => fun r => match r with Ok n => Some n | Err _ => None end
      | _ => fun _ => None
      end r
  end.
Definition th_opened (th : thread) : list nat := collect opened (th_past th).

Definition is_access {R} (e : net_event R) : bool :=
  match e with OnServer _ => true | _ => false end.

(** One step: a request arrives; a thread accesses the state; a thread makes
    another call, with any answer, except that a session is a new object. *)
Inductive step : system -> system -> Prop :=
| step_accept s ths rq :
    step (mkSystem s ths) (mkSystem s (ths ++ [mkThread rq [] (handler rq)]))
| step_access s l1 rq t (R : Set) (x : section R) k l2 now :
    step (mkSystem s (l1 ++ mkThread rq t (Call (OnServer x) k) :: l2))
         (mkSystem (run_section x now s).2
            (l1 ++ mkThread rq (t ++ [Obs (OnServer x) (run_section x now s).1])
                     (k (run_section x now s).1) :: l2))
| step_call s l1 rq t (R : Set) (e : net_event R) k l2 (r : R) :
    is_access e = false ->
    (forall n, opened (Obs e r) = Some n ->
       n ∉ mbind (M:=list) th_opened (l1 ++ mkThread rq t (Call e k) :: l2)) ->
    step (mkSystem s (l1 ++ mkThread rq t (Call e k) :: l2))
         (mkSystem s (l1 ++ mkThread rq (t ++ [Obs e r]) (k r) :: l2)).

(** The states of a server started with a token, targets and a targets file. *)
Definition reachable (token file : string) (targets : list string) (sy : system) : Prop :=
  rtc step (mkSystem (SetTargetsFile file (NewServer token targets)) []) sy.

(** The connections accepted one after another. *)
Fixpoint selections (n : nat) (s : Server) : list (option (string * nat)) * Server :=
  match n with
  | O => ([], s)
  | S n' => let '(r, s1) := select s in let '(l, s2) := selections n' s1 in (r :: l, s2)
  end.

(** ** Selection *)

Lemma at_mod_lt {A} (l : list A) i : l <> [] -> is_Some (at_mod l i).
Proof.
  intros Hl. apply lookup_lt_is_Some_2.
  assert (0 < Z.of_nat (length l)) by (destruct l; simpl; [done | lia]).
  pose proof (Z.mod_pos_bound i (Z.of_nat (length l)) ltac:(done)). lia.
Qed.

Lemma select_cases s :
  (select s = (None, s) /\ (sessions s = [] \/ targets s = [])) \/
  exists target sess, at_mod (targets s) (rrIndex s) = Some target /\
    at_mod (sessions s) (rrIndex s) = Some sess /\
    select s = (Some (target, sess), set_rrIndex (uint64 (rrIndex s + 1)) s).
Proof.
  unfold select. destruct (sessions s) as [| x xs] eqn:Es; [auto |].
  destruct (targets s) as [| y ys] eqn:Et; [auto |].
  destruct (at_mod_lt (y :: ys) (rrIndex s)) as [target E1]; [done |].
  destruct (at_mod_lt (x :: xs) (rrIndex s)) as [sess E2]; [done |].
  right. exists target, sess. by rewrite E1, E2.
Qed.

Lemma selections_targets n s :
  sessions s <> [] -> targets s <> [] -> 0 <= rrIndex s -> rrIndex s + Z.of_nat n <= 2 ^ 64 ->
  (selections n s).1 =
    (fun i => match at_mod (targets s) (rrIndex s + Z.of_nat i),
                    at_mod (sessions s) (rrIndex s + Z.of_nat i) with
              | Some target, Some sess => Some (target, sess)
              | _, _ => None
              end) <$> seq 0 n.
Proof.
  revert s. induction n as [| n IH]; intros s Hs Ht Hr Hn; [done |]. cbn [selections seq].
  destruct (select_cases s) as [[_ [? | ?]] | (target & sess & E1 & E2 & E)]; [done | done |].
  rewrite E, fmap_cons, Z.add_0_r, E1, E2. set (s1 := set_rrIndex _ s).
  destruct (decide (n = 0%nat)) as [-> | Hn0]; [done |].
  assert (rrIndex s1 = rrIndex s + 1) as E3 by (simpl; unfold uint64; apply Z.mod_small; lia).
  specialize (IH s1 Hs Ht ltac:(lia) ltac:(lia)).
  destruct (selections n s1) as [l s2]. simpl in IH |- *. f_equal. rewrite IH.
  rewrite <- fmap_S_seq, <- list_fmap_compose. apply list_fmap_ext. intros i j _. simpl.
  change (uint64 (rrIndex s + 1)) with (rrIndex s1). rewrite E3.
  replace (rrIndex s + 1 + Z.of_nat j) with (rrIndex s + Z.of_nat (S j)) by lia. done.
Qed.
