(* ===== verification/TunnelClient.v ===== *)
(** * TunnelClient: [internal/tunnel/client.go] and [internal/tunnel/conn.go]

    The client end of a stream: the header that names the target, read byte by
    byte, and the connection to the target; and the byte stream made of WebSocket
    messages that both ends run yamux over. *)

From S2P Require Import Prelude Effects GoText World TunnelServer.
From Stdlib Require Import Ascii.

Open Scope Z_scope.

(** ** [handleStream] *)

(** The connection to the target, once the header is read. *)
Definition serve_target (stream : nat) (addr : string) : M net_event unit :=
  let! dialed := call (Dial addr) in
  match dialed with
  | Err _ => ret tt
  | Ok target =>
      deferring (call (ConnClose target))
        (call (GoCopyUp target stream) ;;
         call (GoCopyDown stream target) ;;
         call AwaitFirst)
  end.

Definition max_header : nat := 256.

(** The loop over the header: each turn reads a byte, and gives up when the
    header is longer than [max_header], so one more turn than that is enough. *)
Fixpoint read_header (fuel : nat) (stream : nat) (targetAddr : string) : M net_event unit :=
  match fuel with
  | O => ret tt
  | S fl =>
      let! b := call (StreamRead stream) in
      match b with
      | Err _ => ret tt
      | Ok c =>
          if Ascii.eqb c (chr 10) then serve_target stream targetAddr
          else
            let targetAddr := targetAddr +:+ String c "" in
            if (max_header <? String.length targetAddr)%nat then ret tt
            else read_header fl stream targetAddr
      end
  end.

Definition handleStream (stream : nat) : M net_event unit :=
  deferring (call (StreamClose stream)) (read_header (S max_header) stream "").

(** ** [WebSocketConn] *)

Abbreviation bytes := (list ascii).

(** A message as its reader gives it: the bytes left of it, and the error the
    connection breaks with after them, if it does not reach its end. *)
Record message := mkMessage { body : bytes; broken : option error }.
(** The message being read and the messages still to come. *)
Record WebSocketConn := mkConn { reader : option message; incoming : list message }.

Section conn.
(** How many bytes a message reader gives of [r] that are left into a buffer of
    [b]; whether the end of the message, or the error, comes with its last bytes or
    alone at the next read: [io.Reader] allows both. *)
Variable chunk : nat -> nat -> nat.
Variable joined : nat -> message -> bool.
(** What the connection fails with after the last message. *)
Variable closed : error.
(** The answer to a message that is sent after others. *)
Variable send : list bytes -> bytes -> option error.

(** What ends a read: [io.EOF] or another error. *)
Inductive read_end := EOF | Broken (e : error).

(** The message reader's [Read]: the bytes, the error, and what is left. *)
Definition read_message (b : nat) (m : message) : bytes * option read_end * message :=
  let n := chunk b (length (body m)) in
  let over := match broken m with None => EOF | Some e => Broken e end in
  (take n (body m),
   if bool_decide (drop n (body m) = []) && (bool_decide (body m = []) || joined b m) then Some over else None,
   mkMessage (drop n (body m)) (broken m)).

(** [Read] into a buffer of [b] bytes: at [io.EOF] the next message is fetched and
    read, and what came with it is forgotten; any other error is returned. *)
Fixpoint read_messages (b : nat) (reader : option message) (incoming : list message)
    : bytes * option error * WebSocketConn :=
  let next :=
    match incoming with
    | [] => ([], Some closed, mkConn None [])
    | m :: incoming' => read_messages b (Some m) incoming'
    end in
  match reader with
  | None => next
  | Some m =>
      match read_message b m with
      | (_, Some EOF, _) => next
      | (d, Some (Broken e), m') => (d, Some e, mkConn (Some m') incoming)
      | (d, None, m') => (d, None, mkConn (Some m') incoming)
      end
  end.
Definition Read (b : nat) (c : WebSocketConn) : bytes * option error * WebSocketConn :=
  read_messages b (reader c) (incoming c).

(** [Write]: one binary message per call; the number of bytes written, the error,
    and what was sent. *)
Definition Write (sent : list bytes) (b : bytes) : nat * option error * list bytes :=
  match send sent b with
  | Some e => (0%nat, Some e, sent)
  | None => (length b, None, sent ++ [b])
  end.

(** A writer that stops at the first error: the number of bytes it was told were
    written, the error, and what was sent. *)
Fixpoint write_all (sent : list bytes) (l : list bytes) : nat * option error * list bytes :=
  match l with
  | [] => (0%nat, None, sent)
  | b :: l' =>
      match Write sent b with
      | (n, Some e, sent) => (n, Some e, sent)
      | (n, None, sent) => let '(k, err, sent) := write_all sent l' in ((n + k)%nat, err, sent)
      end
  end.

(** [io.Copy] from the connection: reads of size [b] until one fails, with what. *)
Fixpoint copy_out (fuel b : nat) (c : WebSocketConn) : option (bytes * error) :=
  match fuel with
  | O => None
  | S fl =>
      match Read b c with
      | (d, Some e, _) => Some (d, e)
      | (d, None, c') => match copy_out fl b c' with Some (rest, e) => Some (d ++ rest, e) | None => None end
      end
  end.
End conn.

(** ** The header *)

(** The two views of a stream: what is written to it, and the targets dialled. *)
Definition dialed (o : obs net_event) : option string :=
  match o with Obs (Dial addr) _ => Some addr | _ => None end.
Definition written (o : obs net_event) : option string :=
  match o with Obs (StreamWrite _ data) _ => Some data | _ => None end.

(** The selections a run made. *)
Definition selected (o : obs net_event) : option (string * nat) :=
  match o with
  | Obs e r =>
      match e in net_event R return R -> option (string * nat) with
      | OnServer x =>
          match x in section R return R -> option (string * nat) with
          | Select => id
          | _ => fun _ => None
          end
      | _ => fun _ => None
      end r
  end.

(** The answers of a network on which nothing works. *)
Definition down (R : Set) (e : net_event R) : R :=
  let eof := new_error "EOF" in
  match e in net_event R return R with
  | OnServer x => (run_section x 0 (NewServer "" [])).1
  | Upgrade | NewSession _ | SessionOpen _ | Dial _ | Listen _ | AcceptTCP _ | WSDial _
  | ClientSession _ | Accept _ => Err eof
  | StreamWrite _ _ | WSPing _ | SetReadDeadline _ _ | SetWriteDeadline _ _ => Err eof
  | StreamRead _ => Err eof
  | ReadFile _ => Err eof
  | ListenAndServe _ => eof
  | Now => 0
  | _ => tt
  end.

(** A stream that delivers the bytes of its state and then ends; targets answer
    as [dial] says, and the other calls, which the handler of a stream does not
    make, fail. *)
Definition feed (dial : string -> result nat) (R : Set) (e : net_event R) (s : bytes) : R * bytes :=
  match e in net_event R return R * bytes with
  | StreamRead _ => match s with [] => (Err (new_error "EOF"), []) | c :: s' => (Ok c, s') end
  | Dial addr => (dial addr, s)
  | e => (down _ e, s)
  end.

Lemma length_list_ascii s : length (String.list_ascii_of_string s) = String.length s.
Proof. induction s as [| c s IH]; simpl; [done |]. by rewrite IH. Qed.

Lemma string_length_snoc (a : string) c : String.length (a +:+ String c "") = S (String.length a).
Proof. induction a as [| d a IH]; simpl; [done |]. by rewrite IH. Qed.

Lemma serve_target_exec dial stream addr s :
  exists t, exec (feed dial) (serve_target stream addr) s = (Val tt, s, t) /\
            collect dialed t = [addr].
Proof.
  unfold serve_target, deferring, bind, call, ret. simpl.
  destruct (dial addr) as [target | e]; simpl; by eexists.
Qed.

Lemma read_header_exec dial stream rest payload : forall fuel acc,
  Forall (fun c => c <> chr 10) rest ->
  (String.length acc + length rest <= max_header)%nat -> (length rest < fuel)%nat ->
  exists t, exec (feed dial) (read_header fuel stream acc) (rest ++ chr 10 :: payload) =
              (Val tt, payload, t) /\
            collect dialed t = [acc +:+ String.string_of_list_ascii rest].
Proof.
  induction rest as [| c rest IH]; intros [| fuel] acc Hall Hlen Hfuel; simpl in Hfuel; try lia;
    cbn [read_header]; rewrite exec_call_bind; cbn [feed app].
  - destruct (serve_target_exec dial stream acc payload) as (t & E & Ht).
    change (Ascii.eqb (chr 10) (chr 10)) with true. cbn iota. rewrite E. eexists. split; [reflexivity |]. simpl. by rewrite Ht, append_nil_r.
  - inversion Hall as [| ? ? Hc Hrest]; subst. simpl in Hlen.
    apply Ascii.eqb_neq in Hc. rewrite Hc.
    assert ((max_header <? String.length (acc +:+ String c ""))%nat = false) as ->.
    { rewrite string_length_snoc. apply Nat.ltb_ge. lia. }
    destruct (IH fuel (acc +:+ String c "") Hrest) as (t & E & Ht);
      [rewrite string_length_snoc; lia | lia |].
    rewrite E. eexists. split; [reflexivity |]. simpl. by rewrite Ht, append_assoc.
Qed.

Lemma read_header_long dial stream rest : forall fuel acc,
  Forall (fun c => c <> chr 10) (take fuel rest) ->
  (String.length acc + fuel = S max_header)%nat -> (fuel <= length rest)%nat -> fuel <> 0%nat ->
  exists t, exec (feed dial) (read_header fuel stream acc) rest = (Val tt, drop fuel rest, t) /\
            collect dialed t = [].
Proof.
  induction rest as [| c rest IH]; intros [| fuel] acc Hall Hlen Hle Hne; simpl in Hle; try lia.
  cbn [read_header]. rewrite exec_call_bind. cbn [feed].
  simpl in Hall. inversion Hall as [| ? ? Hc Hrest]; subst.
  apply Ascii.eqb_neq in Hc. rewrite Hc. destruct fuel as [| fuel].
  - assert ((max_header <? String.length (acc +:+ String c ""))%nat = true) as ->.
    { rewrite string_length_snoc. apply Nat.ltb_lt. lia. }
    eexists. split; [reflexivity |]. done.
  - assert ((max_header <? String.length (acc +:+ String c ""))%nat = false) as ->.
    { rewrite string_length_snoc. apply Nat.ltb_ge. lia. }
    destruct (IH (S fuel) (acc +:+ String c "")) as (t & E & Ht);
      [done | rewrite string_length_snoc; lia | lia | done |].
    rewrite E. eexists. split; [reflexivity |]. done.
Qed.

Lemma handleStream_exec dial stream input s t :
  exec (feed dial) (read_header (S max_header) stream "") input = (Val tt, s, t) ->
  exec (feed dial) (handleStream stream) input = (Val tt, s, t ++ [Obs (StreamClose stream) tt]).
Proof. intros E. unfold handleStream, deferring. by rewrite exec_pbind, E. Qed.

(** What [handleTCP] writes is the header of the target it selected. *)
Lemma handleTCP_writes conn ts o target sess w :
  runs (handleTCP conn) ts o -> (target, sess) ∈ collect selected ts -> w ∈ collect written ts ->
  w = target +:+ newline.
Proof.
  unfold handleTCP. intros Hr Hsel Hw.
  apply (proj1 (runs_deferring _ _ _ _)) in Hr as (t1 & t2 & x & -> & Hr & Hd).
  apply (proj1 (runs_call_bind _ _ _ _)) in Hr as (picked & t' & -> & _ & Hr).
  apply (proj1 (runs_call _ _ _)) in Hd as (u & -> & _ & _).
  rewrite collect_app, app_nil_r in Hsel. rewrite collect_app, app_nil_r in Hw.
  cbn [collect selected written id] in Hsel, Hw.
  destruct picked as [[tg s] |]; [| by run_inv; apply not_elem_of_nil in Hw].
  assert (always (fun o => selected o = None) (forward conn tg s)) as Hno
    by (unfold forward; always_tac).
  rewrite (collect_unseen _ _ _ _ Hno Hr) in Hsel. apply list_elem_of_singleton in Hsel as [= -> ->].
  assert (Forall (fun w => w = tg +:+ newline) (collect written t')) as Hall.
  { eapply collect_always; [| exact Hr]. unfold forward. always_tac; cbn [written]; congruence. }
  rewrite Forall_forall in Hall. by apply Hall.
Qed.

Definition no_newline (l : bytes) : Prop := Forall (fun c => c <> chr 10) l.

Lemma header_dialed dial stream header payload :
  no_newline header -> (length header <= max_header)%nat ->
  exists t, exec (feed dial) (handleStream stream) (header ++ chr 10 :: payload) = (Val tt, payload, t) /\
    collect dialed t = [String.string_of_list_ascii header].
Proof.
  intros Hnl Hlen. destruct (read_header_exec dial stream header payload (S max_header) "" Hnl) as (t & E & Ht);
    [simpl; lia | lia |].
  eexists. split; [by apply handleStream_exec |]. by rewrite collect_app, Ht.
Qed.

(** C21: the client dials the target the server chose: whatever [handleTCP] writes
    as the header of a stream, a client that reads it followed by any payload dials
    exactly the target that was selected, once, and leaves exactly the payload for
    it, if the target has at most 256 bytes and none is a newline.  Otherwise it
    does not: of a target with a newline among its first 257 bytes, which the
    configuration lets through, the part before is dialled and the rest is taken
    for payload; and of any other longer one nothing is dialled. *)
Theorem header_roundtrip conn target sess ts o w dial stream payload :
  runs (handleTCP conn) ts o ->
  (target, sess) ∈ collect selected ts -> w ∈ collect written ts ->
  let chars := String.list_ascii_of_string in
  let '(r, rest, t) := exec (feed dial) (handleStream stream) (chars w ++ payload) in
  (no_newline (chars target) -> (String.length target <= 256)%nat ->
     r = Val tt /\ rest = payload /\ collect dialed t = [target]) /\
  (forall host tail, target = host +:+ newline +:+ tail -> no_newline (chars host) ->
     (String.length host <= 256)%nat ->
     r = Val tt /\ rest = chars (tail +:+ newline) ++ payload /\ collect dialed t = [host]) /\
  (no_newline (take 257 (chars target)) -> (257 <= String.length target)%nat ->
     r = Val tt /\ collect dialed t = []).
Proof.
  intros Hr Hsel Hw chars. subst chars.
  assert (w = target +:+ newline) as -> by (by eapply handleTCP_writes).
  destruct (exec _ _ _) as [[r rest] t] eqn:E. rewrite list_ascii_app, <- app_assoc in E. split_and!.
  - intros Hnl Hlen. rewrite <- length_list_ascii in Hlen.
    destruct (header_dialed dial stream _ payload Hnl Hlen) as (t' & E' & Ht).
    change (String.list_ascii_of_string newline ++ payload) with (chr 10 :: payload) in E.
    rewrite E' in E. simplify_eq. by rewrite Ht, string_list_ascii.
  - intros host tail -> Hnl Hlen. rewrite <- length_list_ascii in Hlen.
    destruct (header_dialed dial stream _ (String.list_ascii_of_string (tail +:+ newline) ++ payload) Hnl Hlen)
      as (t' & E' & Ht).
    rewrite !list_ascii_app, <- !app_assoc in E.
    change (String.list_ascii_of_string newline ++ String.list_ascii_of_string tail ++ ?l)
      with (chr 10 :: String.list_ascii_of_string tail ++ l) in E.
    rewrite !list_ascii_app, <- !app_assoc in E'. rewrite E' in E. simplify_eq.
    by rewrite Ht, string_list_ascii, !list_ascii_app, <- !app_assoc.
  - intros Hnl Hlen. rewrite <- length_list_ascii in Hlen.
    destruct (read_header_long dial stream (String.list_ascii_of_string target ++
      String.list_ascii_of_string newline ++ payload) (S max_header) "") as (t' & E' & Ht).
    + by rewrite take_app_le by exact Hlen.
    + done.
    + rewrite length_app. unfold max_header. lia.
    + done.
    + rewrite (handleStream_exec _ _ _ _ _ E') in E. simplify_eq. by rewrite collect_app, Ht.
Qed.

(** A header is bounded: if no newline comes within the first 257 bytes the
    client gives up after reading exactly these and dials nothing. *)
Theorem header_too_long dial stream input :
  Forall (fun c => c <> chr 10) (take (S max_header) input) ->
  (S max_header <= length input)%nat ->
  exists t, exec (feed dial) (handleStream stream) input =
              (Val tt, drop (S max_header) input, t) /\ collect dialed t = [].
Proof.
  intros Hall Hlen.
  destruct (read_header_long dial stream input (S max_header) "" Hall) as (t & E & Ht); [done | done | done |].
  eexists. split; [by apply handleStream_exec |]. by rewrite collect_app, Ht.
Qed.

(** ** The byte stream *)

Section stream.
Variables (chunk : nat -> nat -> nat) (joined : nat -> message -> bool) (closed : error).
(** What a message reader gives at a time: at most what fits and what is left, and
    something when there is room; a read without bytes and without an error is
    discouraged by [io.Reader]. *)
Hypothesis chunk_ok : forall b r, (chunk b r <= b)%nat /\ (chunk b r <= r)%nat /\
  ((0 < b)%nat -> (0 < r)%nat -> (0 < chunk b r)%nat).
Variable b : nat.
Hypothesis Hb : (0 < b)%nat.

(** The messages a connection still gives, what arrives of them, and its end. *)
Definition queue (c : WebSocketConn) : list message :=
  match reader c with Some m => m :: incoming c | None => incoming c end.
Fixpoint arrives (l : list message) : bytes * error :=
  match l with
  | [] => ([], closed)
  | m :: l' =>
      match broken m with
      | Some e => (body m, e)
      | None => let '(d, e) := arrives l' in (body m ++ d, e)
      end
  end.

(** No reader gives [io.EOF] together with bytes. *)
Definition eof_alone : Prop := forall m, broken m = None -> joined b m = false.
(** A message that was dropped: it ended, and where [io.EOF] comes alone nothing was
    left of it. *)
Definition dropped (m : message) : Prop := broken m = None /\ (eof_alone -> body m = []).

Lemma read_message_cases m :
  match read_message chunk joined b m with
  | (d, None, m') => d <> [] /\ body m = d ++ body m' /\ broken m' = broken m
  | (_, Some EOF, _) => dropped m
  | (d, Some (Broken e), _) => broken m = Some e /\ d = body m
  end.
Proof using chunk_ok Hb.
  unfold read_message. destruct (chunk_ok b (length (body m))) as (_ & _ & Hpos).
  destruct (bool_decide (drop _ (body m) = [])) eqn:Ed; cbn [andb].
  - apply bool_decide_eq_true in Ed.
    assert (take (chunk b (length (body m))) (body m) = body m) as Et
      by (pose proof (take_drop (chunk b (length (body m))) (body m)) as E; by rewrite Ed, app_nil_r in E).
    rewrite Et, Ed. destruct (bool_decide (body m = [])) eqn:En; cbn [orb].
    + apply bool_decide_eq_true in En. destruct (broken m) eqn:Ebr; [done |]. by split.
    + apply bool_decide_eq_false in En. destruct (joined b m) eqn:Ej.
      * destruct (broken m) eqn:Ebr; [done |]. split; [done |].
        intros Ha. by rewrite (Ha _ Ebr) in Ej.
      * by rewrite app_nil_r.
  - apply bool_decide_eq_false in Ed. split_and!; [| by cbn [body]; rewrite take_drop | done].
    destruct (body m) as [| x l]; [by rewrite drop_nil in Ed |].
    specialize (Hpos Hb ltac:(simpl; lia)). by destruct (chunk b _); [lia |].
Qed.

(** A read passes over messages that are dropped and gives something of the next one,
    or what it breaks with, or the end. *)
Definition read_gives (l : list message) (r : bytes * option error * WebSocketConn) : Prop :=
  exists pre rest, l = pre ++ rest /\ Forall dropped pre /\
    match r with
    | (d, None, c') => exists m m' rest', rest = m :: rest' /\ queue c' = m' :: rest' /\
        d <> [] /\ body m = d ++ body m' /\ broken m' = broken m
    | (d, Some e, _) => rest = [] /\ d = [] /\ e = closed \/
        exists m rest', rest = m :: rest' /\ broken m = Some e /\ d = body m
    end.

Lemma read_gives_skip m l r : dropped m -> read_gives l r -> read_gives (m :: l) r.
Proof. intros Hm (pre & rest & -> & Hpre & Hr). exists (m :: pre), rest. split_and!; auto. Qed.

Lemma Read_gives c : read_gives (queue c) (Read chunk joined closed b c).
Proof using chunk_ok Hb.
  unfold Read, queue. destruct c as [r inc]. cbn [reader incoming]. revert r.
  assert (forall m inc next, read_gives inc next -> read_gives (m :: inc)
    match read_message chunk joined b m with
    | (_, Some EOF, _) => next
    | (d, Some (Broken e), m') => (d, Some e, mkConn (Some m') inc)
    | (d, None, m') => (d, None, mkConn (Some m') inc)
    end) as Hone.
  { intros m l next Hn. pose proof (read_message_cases m) as Hm.
    destruct (read_message chunk joined b m) as [[d [[| e] |]] m'].
    - by apply read_gives_skip.
    - exists [], (m :: l). split_and!; [done | done |]. right. destruct Hm. eauto.
    - exists [], (m :: l). split_and!; [done | done |]. destruct Hm as (? & ? & ?). by exists m, m', l. }
  assert (read_gives [] ([], Some closed, mkConn None [])) as Hend.
  { exists [], []. split_and!; [done | done | by left]. }
  induction inc as [| m1 inc IH]; intros [m |]; cbn [read_messages].
  - by apply Hone.
  - exact Hend.
  - apply Hone. exact (IH (Some m1)).
  - exact (IH (Some m1)).
Qed.

(** A message of which a part at its end may have been lost. *)
Definition cut (m' m : message) : Prop :=
  broken m' = broken m /\ body m' `prefix_of` body m /\
  (broken m <> None \/ eof_alone -> body m' = body m).

Lemma dropped_cut pre : Forall dropped pre ->
  exists pre', Forall2 cut pre' pre /\ forall l, arrives (pre' ++ l) = arrives l.
Proof.
  intros Hpre. exists ((fun m => mkMessage [] None) <$> pre). split.
  - apply Forall2_fmap_l, Forall_Forall2_diag. eapply Forall_impl; [exact Hpre |].
    intros m [Hbr Ha]. split_and!; [done | by apply prefix_nil |]. intros [? | ?]; [done | by rewrite Ha].
  - intros l. clear Hpre. induction pre as [| m pre IH]; [done |]. cbn [fmap list_fmap app arrives broken body].
    rewrite IH. by destruct (arrives l).
Qed.

Lemma cut_refl m : cut m m.
Proof. by split_and!. Qed.

(** Copying gives what arrives of the messages, up to what was cut off them. *)
Lemma copy_out_arrives fuel : forall c, (length (concat (body <$> queue c)) < fuel)%nat ->
  exists l, Forall2 cut l (queue c) /\ copy_out chunk joined closed fuel b c = Some (arrives l).
Proof using chunk_ok Hb.
  induction fuel as [| fuel IH]; intros c Hf; [lia |]. cbn [copy_out].
  destruct (Read_gives c) as (pre & rest & Eq & Hpre & Hr).
  destruct (dropped_cut _ Hpre) as (pre' & Hcut & Ha). rewrite Eq in *.
  destruct (Read _ _ _ b c) as [[d [e |]] c'].
  - exists (pre' ++ rest). split.
    { apply Forall2_app; [done |]. apply Forall_Forall2_diag, Forall_true. apply cut_refl. }
    rewrite Ha. f_equal. destruct Hr as [(-> & -> & ->) | (m & rest' & -> & Hbr & ->)]; [done |].
    simpl. by rewrite Hbr.
  - destruct Hr as (m & m' & rest' & -> & Ec & Hd & Em & Hbr).
    rewrite fmap_app, concat_app, length_app in Hf. simpl in Hf. rewrite Em, !length_app in Hf.
    destruct (IH c') as (l & Hl & ->).
    { rewrite Ec. simpl. rewrite length_app. destruct d; [done |]. simpl in Hf. lia. }
    rewrite Ec in Hl. apply Forall2_cons_inv_r in Hl as (m2 & l' & (Hbr2 & Hpre2 & Hfull) & Hl & ->).
    exists (pre' ++ mkMessage (d ++ body m2) (broken m2) :: l'). split.
    { apply Forall2_app; [done |]. constructor; [| done]. split_and!; [by rewrite Hbr2 | |].
      - simpl. rewrite Em. by apply prefix_app.
      - intros Hx. simpl. rewrite Em, Hfull; [done |]. by rewrite Hbr. }
    rewrite Ha. cbn [arrives broken body]. destruct (broken m2); [done |].
    destruct (arrives l'). by rewrite app_assoc.
Qed.

Lemma write_all_sent send l : forall sent n err sent',
  write_all send sent l = (n, err, sent') ->
  exists l', sent' = sent ++ l' /\ l' `prefix_of` l /\ n = length (concat l') /\ (err = None -> l' = l).
Proof.
  induction l as [| x l IH]; intros sent n err sent' E; cbn [write_all] in E.
  - simplify_eq. exists []. by rewrite app_nil_r.
  - unfold Write in E. destruct (send sent x) as [e |].
    + simplify_eq. exists []. rewrite app_nil_r. split_and!; [done | by apply prefix_nil | done | done].
    + destruct (write_all send (sent ++ [x]) l) as [[k err'] sent2] eqn:E2. simplify_eq.
      apply IH in E2 as (l' & -> & Hpre & -> & Herr). exists (x :: l'). rewrite <- app_assoc. split_and!.
      * done.
      * by apply prefix_cons.
      * simpl. by rewrite length_app.
      * intros Hn. by rewrite Herr.
Qed.

Definition whole (m : bytes) : message := mkMessage m None.

Lemma arrives_whole parts l :
  arrives ((whole <$> parts) ++ l) = (concat parts ++ (arrives l).1, (arrives l).2).
Proof.
  induction parts as [| p parts IH]; [simpl; by destruct (arrives l) |].
  change (arrives ((whole <$> p :: parts) ++ l)) with
    (let '(d, e) := arrives ((whole <$> parts) ++ l) in (p ++ d, e)).
  rewrite IH. simpl. by rewrite app_assoc.
Qed.

Lemma cut_parts l sent tail :
  Forall2 cut l ((whole <$> sent) ++ tail) ->
  exists parts last, l = (whole <$> parts) ++ last /\ Forall2 prefix parts sent /\
    (eof_alone -> parts = sent) /\ Forall2 cut last tail.
Proof.
  intros (l1 & last & Hl & Hlast & ->)%Forall2_app_inv_r.
  exists (body <$> l1), last. revert l1 Hl. induction sent as [| m sent IH]; intros l1 Hl.
  - apply Forall2_nil_inv_r in Hl as ->. by split_and!.
  - apply Forall2_cons_inv_r in Hl as (m' & l' & (Hbr & Hpre & Hfull) & Hl & ->).
    apply IH in Hl as (E & Hparts & Hall & _). destruct m' as [d br]. simpl in Hbr. subst br.
    split_and!; [| by constructor | | done].
    + cbn [fmap list_fmap app]. f_equal. exact E.
    + intros Ha. cbn [fmap list_fmap]. f_equal; auto.
Qed.

(** C22: the connection is a byte stream.  Written to until a message cannot be
    sent, it has sent the messages before that one, and [Write] told their bytes.
    Read with any buffer, whatever number of bytes, above zero, the message reader
    gives at a time, it yields the bytes of the messages sent, complete and in order, then the
    part of a message in which it broke, if it did, and the error it ended with;
    provided no reader gives [io.EOF] together with bytes.  Where one does, as
    [io.Reader] allows, what came with it is lost: what arrives is each message
    less a part at its end, which is all of it if it fits the buffer. *)
Theorem stream_reassembled send writes n err sent breaks fuel :
  write_all send [] writes = (n, err, sent) ->
  (length (concat sent) + length (from_option fst [] breaks) < fuel)%nat ->
  let tail := match breaks with Some (m, e) => [mkMessage m (Some e)] | None => [] end in
  let '(part, last) := default ([], closed) breaks in
  (sent `prefix_of` writes /\ n = length (concat sent) /\ (err = None -> sent = writes)) /\
  (exists parts, Forall2 prefix parts sent /\ (eof_alone -> parts = sent) /\
     copy_out chunk joined closed fuel b (mkConn None ((whole <$> sent) ++ tail)) =
       Some (concat parts ++ part, last)) /\
  forall m, chunk b (length m) = length m -> joined b (whole m) = true ->
    copy_out chunk joined closed fuel b (mkConn None [whole m]) = Some ([], closed).
Proof using chunk_ok Hb.
  intros Hw Hfuel tail. destruct (default _ breaks) as [part last] eqn:Eb.
  apply write_all_sent in Hw as (l' & -> & Hpre & -> & Herr). simpl app in *. split_and!; try done.
  - destruct (copy_out_arrives fuel (mkConn None ((whole <$> l') ++ tail))) as (l & Hl & ->).
    { cbn [queue reader incoming]. rewrite fmap_app, concat_app, length_app.
      assert (body <$> (whole <$> l') = l') as -> by (clear; induction l'; by f_equal/=).
      destruct breaks as [[m e] |]; simpl in *; rewrite ?app_nil_r; lia. }
    apply cut_parts in Hl as (parts & rest & -> & Hparts & Hall & Hrest).
    exists parts. split_and!; [done | done |]. f_equal.
    assert (arrives rest = (part, last)) as Hend.
    { destruct breaks as [[m e] |]; simpl in *; simplify_eq; subst tail.
      - apply Forall2_cons_inv_r in Hrest as (m' & ? & (Hbr & _ & Hf) & ->%Forall2_nil_inv_r & ->).
        simpl in *. rewrite Hbr. f_equal. apply Hf. by left.
      - by apply Forall2_nil_inv_r in Hrest as ->. }
    by rewrite arrives_whole, Hend.
  - intros m Hc Hj. destruct fuel as [| fuel]; [lia |]. cbn [copy_out]. unfold Read, read_message.
    cbn [reader incoming read_messages]. unfold read_message. cbn [body broken whole].
    rewrite Hc, Hj, drop_all, orb_true_r. done.
Qed.
End stream.
