(* ===== verification/Gateway.v ===== *)
(** * Gateway: [internal/tunnel/gateway.go]

    The reverse proxy in front of the tunnel servers: what its [Director] makes
    of a request.  [httputil.ReverseProxy] sends the rewritten request on. *)

From S2P Require Import Prelude Effects GoText Url TunnelServer.

Open Scope Z_scope.

(** The part of [http.Request] the director reads and writes. *)
Record Request := mkRequest { req_URL : URL; req_Host : string }.

Section gateway.
Context `{UnicodeData, IPLiterals}.

(** The URL of the parameter [target], which may leave the scheme out. *)
Definition parse_target (target : string) : result URL :=
  match Parse target with
  | Ok u =>
      if eqb_str (url_Scheme u) "" || eqb_str (url_Host u) "" then Parse ("http://" +:+ target)
      else Ok u
  | Err _ => Parse ("http://" +:+ target)
  end.

Definition proxied_scheme (scheme : string) : string :=
  if eqb_str scheme "ws" then "http"%stdpp
  else if eqb_str scheme "wss" then "https"%stdpp
  else scheme.

(** The query the target gets: its own, with the token of the request. *)
Definition target_query (targetURL req : URL) : Values :=
  let token := values_Get "token" (Query req) in
  if eqb_str token "" then Query targetURL else values_Set "token" token (Query targetURL).

Definition redirect (targetURL u : URL) : URL :=
  mkURL (proxied_scheme (url_Scheme targetURL)) (url_Opaque u) (url_User u) (url_Host targetURL)
    (if eqb_str (url_Path targetURL) "" then url_Path u else url_Path targetURL)
    (url_RawPath u) (url_OmitHost u) (url_ForceQuery u) (Encode (target_query targetURL u))
    (url_Fragment u) (url_RawFragment u).

Definition Director (req : Request) : Request :=
  let target := values_Get "target" (Query (req_URL req)) in
  if eqb_str target "" then req
  else
    match parse_target target with
    | Err _ => req
    | Ok targetURL => mkRequest (redirect targetURL (req_URL req)) (url_Host targetURL)
    end.
End gateway.

(** [RunGateway]: every path is proxied; [http.ListenAndServe] only returns with
    an error. *)
Definition RunGateway (listenAddr : string) : M net_event unit :=
  let! err := call (ListenAndServe listenAddr) in
  fail err.

(** ** What is forwarded *)

Section forwards.
Context `{UnicodeData, IPLiterals}.

Lemma Query_redirect targetURL u :
  num_params (target_query targetURL u) <= max_params ->
  Query (redirect targetURL u) = target_query targetURL u.
Proof.
  intros Hn. apply ParseQuery_Encode; [| done]. unfold target_query, values_Set.
  case_match; [apply ParseQuery_nonempty |].
  apply map_Forall_insert_2; [done | apply ParseQuery_nonempty].
Qed.

Lemma get_token_target_query targetURL u :
  values_Get "token" (target_query targetURL u) =
    if eqb_str (values_Get "token" (Query u)) "" then values_Get "token" (Query targetURL)
    else values_Get "token" (Query u).
Proof.
  unfold target_query. destruct (eqb_str _ ""); [done |].
  unfold values_Set, values_Get at 1. by rewrite lookup_insert_eq.
Qed.

Lemma other_target_query targetURL u key :
  key <> "token" -> target_query targetURL u !! key = Query targetURL !! key.
Proof.
  intros Hk. unfold target_query, values_Set. case_match; [done |]. by rewrite lookup_insert_ne.
Qed.

(** What the text of a target means: the URL it is, if it has a scheme and a host,
    and otherwise what it is with [http://] before it. *)
Definition target_means (target : string) (r : result URL) : Prop :=
  (exists u, Parse target = Ok u /\ url_Scheme u <> "" /\ url_Host u <> "" /\ r = Ok u) \/
  (forall u, Parse target = Ok u -> url_Scheme u = "" \/ url_Host u = "") /\
  r = Parse ("http://" +:+ target).

Lemma parse_target_means target r : target_means target r -> parse_target target = r.
Proof.
  unfold parse_target. intros [(u & -> & Hs & Hh & ->) | [Hp ->]].
  - by rewrite (proj2 (eqb_str_false _ _) Hs), (proj2 (eqb_str_false _ _) Hh).
  - destruct (Parse target) as [u | e]; [| done].
    destruct (Hp u eq_refl) as [-> | ->]; [done |]. by rewrite orb_true_r.
Qed.

(** C24: the gateway forwards to what the request names: a request whose target is
    missing or cannot be read as a URL, even with [http://] put before it, is left
    alone; every other one goes to the target's host, which the Host header names
    as well, under the target's path if it has one; a WebSocket's scheme becomes
    the one of HTTP it runs over, [ws] to [http] and [wss] to [https], and any
    other is kept; of the client's own query only the token gets through, the rest
    being the target's, if these are no more parameters than [net/url] reads; and
    nothing else of the URL is touched. *)
Theorem gateway_forwards req :
  let u := req_URL req in
  let target := values_Get "target" (Query u) in
  let out := Director req in
  ((target = "" \/ exists e, target_means target (Err e)) -> out = req) /\
  forall t, target <> "" -> target_means target (Ok t) ->
    url_Host (req_URL out) = url_Host t /\ req_Host out = url_Host t /\
    (url_Scheme t = "ws" -> url_Scheme (req_URL out) = "http") /\
    (url_Scheme t = "wss" -> url_Scheme (req_URL out) = "https") /\
    (url_Scheme t <> "ws" -> url_Scheme t <> "wss" -> url_Scheme (req_URL out) = url_Scheme t) /\
    (url_Path t <> "" -> url_Path (req_URL out) = url_Path t) /\
    (url_Path t = "" -> url_Path (req_URL out) = url_Path u) /\
    (num_params (target_query t u) <= max_params ->
       (forall key, key <> "token" -> Query (req_URL out) !! key = Query t !! key) /\
       values_Get "token" (Query (req_URL out)) =
         (if eqb_str (values_Get "token" (Query u)) "" then values_Get "token" (Query t)
          else values_Get "token" (Query u))) /\
    url_User (req_URL out) = url_User u /\ url_RawPath (req_URL out) = url_RawPath u /\
    url_Fragment (req_URL out) = url_Fragment u /\ url_Opaque (req_URL out) = url_Opaque u.
Proof.
  cbn zeta. unfold Director. split.
  - intros [-> | (e & He)]; [done |]. rewrite (parse_target_means _ _ He). by case_match.
  - intros t Hne Ht. rewrite (proj2 (eqb_str_false _ _) Hne), (parse_target_means _ _ Ht). cbn [req_URL req_Host].
    split_and!; try done; cbn [redirect url_Scheme url_Path].
    + by intros ->.
    + by intros ->.
    + intros Hw Hws. unfold proxied_scheme.
      by rewrite (proj2 (eqb_str_false _ _) Hw), (proj2 (eqb_str_false _ _) Hws).
    + intros Hp. by rewrite (proj2 (eqb_str_false _ _) Hp).
    + by intros ->.
    + intros Hn. rewrite Query_redirect by done. split; [| apply get_token_target_query].
      intros key Hk. by apply other_target_query.
Qed.

(** The escaping of the target's path is lost: its [RawPath] is not taken over, so
    an escaped slash arrives as a slash. *)
Lemma gateway_unescapes_path u :
  url_RawPath u = "" ->
  exists t, parse_target "http://h:1/a%2Fb" = Ok t /\ EscapedPath t = "/a%2Fb" /\
    EscapedPath (redirect t u) = "/a/b".
Proof.
  intros Hr. eexists. split; [vm_compute; reflexivity |]. split; [vm_compute; reflexivity |].
  unfold redirect, EscapedPath. cbn [url_RawPath url_Path]. rewrite Hr. vm_compute. reflexivity.
Qed.
End forwards.
