(* ===== verification/TunnelConnect.v ===== *)
(** * TunnelConnect: the client's connection to the tunnel server

    [Client] of [internal/tunnel/client.go]: how it dials, serves the streams of
    its session and dials again; and of [internal/tunnel/conn.go] what keeps a
    WebSocket alive: pings, the pong handler and the deadlines. *)

From S2P Require Import Prelude Effects GoText World Url TunnelServer TunnelClient.

Open Scope Z_scope.

(** ** [conn.go]: keep-alive and deadlines *)

Definition ping_period : Z := 20 * Second.
Definition pong_wait : Z := 60 * Second.

(** The function given to [SetPongHandler]; the error of [SetReadDeadline] is
    dropped. *)
Definition pong_handler (ws : nat) : M net_event unit :=
  let! now := call Now in
  call (SetReadDeadline ws (now + pong_wait)) ;;
  ret tt.

(** The first [turns] turns of the goroutine that pings; [false] when it has
    ended, which it does at the first ping that cannot be written. *)
Fixpoint ping_loop (turns ws : nat) : M net_event bool :=
  match turns with
  | O => ret true
  | S turns =>
      call (AwaitTick ping_period) ;;
      let! pinged := call (WSPing ws) in
      match pinged with Err _ => ret false | Ok _ => ping_loop turns ws end
  end.

Definition SetDeadline (ws : nat) (t : Z) : M net_event unit :=
  try_call (SetReadDeadline ws t) ;;
  try_call (SetWriteDeadline ws t).

(** The methods that only pass the call on to the WebSocket. *)
Module Conn.
Definition Close (ws : nat) : M net_event unit := call (WSClose ws).
Definition SetReadDeadline (ws : nat) (t : Z) : M net_event unit := try_call (SetReadDeadline ws t).
Definition SetWriteDeadline (ws : nat) (t : Z) : M net_event unit := try_call (SetWriteDeadline ws t).
End Conn.

(** ** [client.go] *)

Record Client := mkClient { serverAddr : string; token : string }.
Definition NewClient (serverAddr token : string) : Client := mkClient serverAddr token.

(** [defer d] in a function that may be in its loop still ([None]): [d] runs when
    the function returns. *)
Definition on_return {A} (d : M net_event unit) (p : M net_event (option A)) : M net_event (option A) :=
  let! r := p in
  match r with
  | None => ret None
  | Some a => d ;; ret (Some a)
  end.

(** The first [turns] turns of the loop that accepts streams; each stream gets a
    goroutine of its own. *)
Fixpoint accept_streams (turns sess : nat) : M net_event (option error) :=
  match turns with
  | O => ret None
  | S turns =>
      let! accepted := call (Accept sess) in
      match accepted with
      | Err e => ret (Some e)
      | Ok stream => call (GoHandleStream stream) ;; accept_streams turns sess
      end
  end.

Section client.
Context `{UnicodeData, IPLiterals}.

(** The URL dialled: the server's, with the client's token if it has one. *)
Definition dial_url (c : Client) : result string :=
  match Parse (serverAddr c) with
  | Err e => Err e
  | Ok u =>
      let u := if eqb_str (token c) "" then u
               else set_RawQuery (Encode (values_Set "token" (token c) (Query u))) u in
      Ok (url_String u)
  end.

(** [connectAndServe], which only returns with an error; [None] when it still
    serves after [turns] streams. *)
Definition connectAndServe (turns : nat) (c : Client) : M net_event (option error) :=
  match dial_url c with
  | Err e => ret (Some e)
  | Ok url =>
      let! dialed := call (WSDial url) in
      match dialed with
      | Err e => ret (Some e)
      | Ok ws =>
          on_return (call (WSClose ws))
            (NewWebSocketConn ws ;;
             let! created := call (ClientSession ws) in
             match created with
             | Err e => ret (Some e)
             | Ok session =>
                 on_return (call (SessionClose session)) (accept_streams turns session)
             end)
      end
  end.

(** The first [attempts] turns of the loop of [Client.Start]: the connection
    always ends with an error, after which the client waits and dials again. *)
Fixpoint Start (attempts turns : nat) (c : Client) : M net_event unit :=
  match attempts with
  | O => ret tt
  | S attempts =>
      let! ended := connectAndServe turns c in
      match ended with
      | None => ret tt
      | Some _ => call (Sleep (5 * Second)) ;; Start attempts turns c
      end
  end.
End client.

(** ** Resources *)

Inductive resource := Connection (ws : nat) | Session (sess : nat).

(** What an interaction acquires and what it releases. *)
Definition acquired (o : obs net_event) : option resource :=
  match o with
  | Obs e r =>
      match e in net_event R return R -> option resource with
      | WSDial _ => fun r => match r with Ok ws => Some (Connection ws) | Err _ => None end
      | ClientSession _ => fun r => match r with Ok sess => Some (Session sess) | Err _ => None end
      | _ => fun _ => None
      end r
  end.
Definition released (o : obs net_event) : option resource :=
  match o with
  | Obs (WSClose ws) _ => Some (Connection ws)
  | Obs (SessionClose sess) _ => Some (Session sess)
  | _ => None
  end.

(** The streams accepted, and those a handler was started for. *)
Definition accepted (o : obs net_event) : option nat :=
  match o with
  | Obs e r =>
      match e in net_event R return R -> option nat with
      | Accept _ => fun r => match r with Ok stream => Some stream | Err _ => None end
      | _ => fun _ => None
      end r
  end.
Definition handled (o : obs net_event) : option nat :=
  match o with Obs (GoHandleStream stream) _ => Some stream | _ => None end.

(** The addresses dialled and the time slept. *)
Definition paced (o : obs net_event) : option (string + Z) :=
  match o with
  | Obs (WSDial url) _ => Some (inl url)
  | Obs (Sleep d) _ => Some (inr d)
  | _ => None
  end.

(** ** Every branch of the connection *)

Lemma accept_streams_runs turns sess t o :
  runs (accept_streams turns sess) t o ->
  exists r, o = Val r /\ collect acquired t = [] /\ collect released t = [] /\
    collect paced t = [] /\ collect handled t = collect accepted t /\
    (r = None <-> length (collect accepted t) = turns).
Proof.
  revert t. induction turns as [| turns IH]; intros t Hr; cbn [accept_streams] in Hr.
  - run_inv. by exists None.
  - run_step. subst. destruct r as [stream | e].
    + run_step. subst. destruct (IH _ Hr) as (r' & -> & Ha & Hrel & Hp & Hh & Hn).
      exists r'. simpl. rewrite Ha, Hrel, Hp, Hh. split_and!; [done | done | done | done | done |].
      rewrite Hn. split; [by intros -> | by intros [= ->]].
    + run_inv. exists (Some e). split_and!; done.
Qed.

Lemma runs_on_return {A} (d : net_event unit) (p : M net_event (option A)) t o :
  runs (on_return (call d) p) t o ->
  (runs p t o /\ (o = Val None \/ forall r, o <> Val r)) \/
  exists t1 a, t = t1 ++ [Obs d tt] /\ o = Val (Some a) /\ runs p t1 (Val (Some a)).
Proof.
  unfold on_return. intros Hr. apply (proj1 (runs_bind _ _ _ _)) in Hr as
    [(t1 & r & t2 & -> & Hp & Hr) | [(e & -> & Hp) | (-> & Hp)]].
  - destruct r as [a |].
    + run_inv. destruct r. right. by exists t1, a.
    + run_inv. rewrite app_nil_r. left. auto.
  - left. split; [done |]. by right.
  - left. split; [done |]. by right.
Qed.

(** The runs of a connection: it was not made, or the session was not, or streams
    were served until accepting one failed, or are still. *)
Inductive connection_run `{UnicodeData, IPLiterals} (turns : nat) (c : Client)
    : list (obs net_event) -> option error -> Prop :=
| run_bad_url e :
    dial_url c = Err e -> connection_run turns c [] (Some e)
| run_not_dialed url e :
    dial_url c = Ok url -> connection_run turns c [Obs (WSDial url) (Err e)] (Some e)
| run_no_session url ws e :
    dial_url c = Ok url ->
    connection_run turns c
      [Obs (WSDial url) (Ok ws); Obs (SetPongHandler ws) tt; Obs (GoPing ws) tt;
       Obs (ClientSession ws) (Err e); Obs (WSClose ws) tt] (Some e)
| run_served url ws sess t r :
    dial_url c = Ok url -> runs (accept_streams turns sess) t (Val r) ->
    connection_run turns c
      ([Obs (WSDial url) (Ok ws); Obs (SetPongHandler ws) tt; Obs (GoPing ws) tt;
        Obs (ClientSession ws) (Ok sess)] ++ t ++
       match r with Some _ => [Obs (SessionClose sess) tt; Obs (WSClose ws) tt] | None => [] end) r.

Lemma connectAndServe_runs `{UnicodeData, IPLiterals} turns c t o :
  runs (connectAndServe turns c) t o -> exists r, o = Val r /\ connection_run turns c t r.
Proof.
  unfold connectAndServe. destruct (dial_url c) as [url | e] eqn:E; intros Hr.
  2:{ run_inv. eexists. split; [done |]. by apply run_bad_url. }
  run_step. subst. destruct r as [ws | e].
  2:{ run_inv. eexists. split; [done |]. by apply run_not_dialed. }
  assert (forall t o, runs (NewWebSocketConn ws ;;
            let! created := call (ClientSession ws) in
            match created with
            | Err e => ret (Some e)
            | Ok session => on_return (call (SessionClose session)) (accept_streams turns session)
            end) t o ->
          exists created t1 r, t = [Obs (SetPongHandler ws) tt; Obs (GoPing ws) tt; Obs (ClientSession ws) created] ++ t1 /\
            o = Val r /\
            match created with
            | Err e => t1 = [] /\ r = Some e
            | Ok sess => exists t2, runs (accept_streams turns sess) t2 (Val r) /\
                t1 = t2 ++ match r with Some _ => [Obs (SessionClose sess) tt] | None => [] end
            end) as Hinner.
  { clear. intros t o Hr. unfold NewWebSocketConn in Hr. do 4 (run_step; subst).
    destruct r, r0. rename r1 into created. destruct created as [sess | e].
    - apply runs_on_return in Hr as [[Hr Ho] | (t1 & a & -> & -> & Hr)].
      + destruct (accept_streams_runs _ _ _ _ Hr) as (r & -> & _).
        destruct Ho as [[= ->] | Ho]; [| by destruct (Ho r)].
        eexists (Ok sess), _, None. split_and!; [done | done |]. eexists. split; [done |]. by rewrite app_nil_r.
      + eexists (Ok sess), _, (Some a). split_and!; [done | done |]. by exists t1.
    - run_inv. by eexists (Err e), [], (Some e). }
  apply runs_on_return in Hr as [[Hr Ho] | (t1 & a & -> & -> & Hr)]; apply Hinner in Hr as
    (created & t2 & r & -> & Er & Hc).
  - subst o. destruct Ho as [[= ->] | Ho]; [| by destruct (Ho r)].
    destruct created as [sess | e]; [| by destruct Hc]. destruct Hc as (t3 & Hr & ->).
    eexists. split; [done |]. exact (run_served turns c url ws sess t3 None E Hr).
  - injection Er as <-. eexists. split; [done |]. destruct created as [sess | e].
    + destruct Hc as (t3 & Hr & ->).
      pose proof (run_served turns c url ws sess t3 (Some a) E Hr) as Hrun. cbn [app] in Hrun |- *.
      rewrite <- app_assoc. exact Hrun.
    + destruct Hc as [-> [= ->]]. by apply run_no_session.
Qed.

(** C27: a connection of the client leaks nothing: however it ends, it has closed
    the session and the WebSocket it opened, in the reverse order and once each,
    and has started one handler for every stream it accepted; it ends unless it is
    accepting streams still, and always with an error. *)
Theorem client_closes_what_it_opens `{UnicodeData, IPLiterals} turns c t o :
  runs (connectAndServe turns c) t o ->
  exists r, o = Val r /\ collect handled t = collect accepted t /\
    match r with
    | Some _ => collect released t = rev (collect acquired t)
    | None => collect released t = [] /\ length (collect accepted t) = turns
    end.
Proof.
  intros (r & -> & Hc)%connectAndServe_runs. exists r. split; [done |].
  destruct Hc as [| | | url ws sess t r _ Hr]; [done .. |].
  destruct (accept_streams_runs _ _ _ _ Hr) as (r' & [= <-] & Ha & Hrel & _ & Hh & Hn).
  rewrite !collect_app, Ha, Hrel, Hh.
  destruct r as [e |]; simpl; rewrite ?app_nil_r; split_and!; try done. by apply Hn.
Qed.

(** One turn of [Start] that ends: the address dialled, if there is one, and the
    pause. *)
Definition attempt_pace `{UnicodeData, IPLiterals} (c : Client) : list (string + Z) :=
  match dial_url c with Ok url => [inl url] | Err _ => [] end.
Definition pause : list (string + Z) := [inr (5 * Second)].

Lemma connection_pace `{UnicodeData, IPLiterals} turns c t r :
  connection_run turns c t r -> collect paced t = attempt_pace c.
Proof.
  unfold attempt_pace. intros [e E | url e E | url ws e E | url ws sess t' r' E Hr]; rewrite E; try done.
  destruct (accept_streams_runs _ _ _ _ Hr) as (_ & _ & _ & _ & Hp & _).
  rewrite !collect_app, Hp. by destruct r'.
Qed.

(** C28: the client never gives up and never spins: each attempt dials its one
    address once, or nothing when the address is no URL, and is followed by a
    pause of five seconds; it makes all the attempts it has time for, unless one
    of them is serving still. *)
Theorem client_keeps_dialing `{UnicodeData, IPLiterals} attempts turns c t o :
  runs (Start attempts turns c) t o ->
  o = Val tt /\ exists n,
    (n = attempts /\ collect paced t = concat (replicate n (attempt_pace c ++ pause))) \/
    ((n < attempts)%nat /\ (turns <= length (collect accepted t))%nat /\
     collect paced t = concat (replicate n (attempt_pace c ++ pause)) ++ attempt_pace c).
Proof.
  revert t. induction attempts as [| attempts IH]; intros t Hr; cbn [Start] in Hr.
  - run_inv. split; [done |]. exists 0%nat. by left.
  - apply (proj1 (runs_bind _ _ _ _)) in Hr as [(t1 & r & t2 & -> & Hc & Hr) | [(e & -> & Hc) | (-> & Hc)]];
      pose proof Hc as (r' & [=] & Hrun)%connectAndServe_runs; subst r'.
    rewrite !collect_app, (connection_pace _ _ _ _ Hrun).
    destruct r as [e |].
    + run_step. subst. destruct (IH _ Hr) as [-> (n & [[-> Hp] | (Hn & Ht & Hp)])]; (split; [done |]);
        cbn [collect paced]; rewrite Hp.
      * exists (S attempts). left. split; [done |]. simpl. by rewrite <- app_assoc.
      * exists (S n). right. split; [lia |]. cbn [collect accepted]. rewrite length_app. split; [lia |].
        simpl. by rewrite <- !app_assoc.
    + run_inv. split; [done |]. exists 0%nat. right. split; [lia |]. cbn [collect]. rewrite !app_nil_r.
      split; [| done]. inversion Hrun as [| | | ? ? ? t' r' _ Hs]; subst.
      destruct (accept_streams_runs _ _ _ _ Hs) as (r & [= <-] & _ & _ & _ & _ & Hn).
      rewrite app_nil_r, collect_app, length_app. rewrite (proj1 Hn eq_refl). lia.
Qed.

(** ** Keep-alive *)

Definition pinged (o : obs net_event) : option (result unit) :=
  match o with
  | Obs e r =>
      match e in net_event R return R -> option (result unit) with
      | WSPing _ => Some
      | _ => fun _ => None
      end r
  end.

(** The pings stop at the first that cannot be written, and only there. *)
Lemma ping_loop_runs turns ws t o :
  runs (ping_loop turns ws) t o ->
  (o = Val true /\ collect pinged t = replicate turns (Ok tt)) \/
  exists n e, o = Val false /\ (n < turns)%nat /\ collect pinged t = replicate n (Ok tt) ++ [Err e].
Proof.
  revert t. induction turns as [| turns IH]; intros t Hr; cbn [ping_loop] in Hr.
  - run_inv. by left.
  - run_step. subst. run_step. subst. destruct r0 as [[] | e].
    + apply IH in Hr as [[-> Hp] | (n & e & -> & Hn & Hp)]; simpl; rewrite Hp; [by left |].
      right. exists (S n), e. split_and!; [done | lia | done].
    + run_inv. right. exists 0%nat, e. split_and!; [done | lia | done].
Qed.

(** ** The header is read to an end *)

(** The bytes read of a stream. *)
Definition byte_read (o : obs net_event) : option (result Ascii.ascii) :=
  match o with
  | Obs e r =>
      match e in net_event R return R -> option (result Ascii.ascii) with
      | StreamRead _ => Some
      | _ => fun _ => None
      end r
  end.

Lemma serve_target_runs stream addr t o :
  runs (serve_target stream addr) t o -> o = Val tt /\ collect byte_read t = [].
Proof.
  unfold serve_target. intros Hr. run_step. subst. destruct r as [target | e]; run_inv; [| done].
  destruct r2. by split.
Qed.

(** With more fuel than bytes that may still come, the loop over the header does
    not use its last unit: more fuel changes nothing. *)
Lemma read_header_fuel stream : forall fuel extra acc t o,
  (max_header < String.length acc + fuel)%nat -> (String.length acc <= max_header)%nat ->
  runs (read_header (fuel + extra) stream acc) t o ->
  runs (read_header fuel stream acc) t o /\ o = Val tt /\
  (length (collect byte_read t) + String.length acc <= S max_header)%nat.
Proof.
  induction fuel as [| fuel IH]; intros extra acc t o Hf Ha Hr; [lia |].
  cbn [read_header Nat.add] in Hr |- *. apply (proj1 (runs_call_bind _ _ _ _)) in Hr as (r & t' & -> & Hok & Hr).
  rewrite runs_call_bind. cbn [collect byte_read length].
  enough (runs (match r with
          | Err _ => ret tt
          | Ok c =>
              if Ascii.eqb c (chr 10) then serve_target stream acc
              else if (max_header <? String.length (acc +:+ String c ""))%nat then ret tt
              else read_header fuel stream (acc +:+ String c "")
          end) t' o /\ o = Val tt /\ (length (collect byte_read t') + String.length acc <= max_header)%nat)
    as (Hk & -> & Hl) by (split_and!; [by eexists _, _ | done | lia]).
  destruct r as [c | e].
  - destruct (Ascii.eqb c (chr 10)).
    + pose proof (serve_target_runs _ _ _ _ Hr) as [-> ->]. split_and!; [done | done |]. simpl. lia.
    + cbn zeta in Hr. destruct (max_header <? _)%nat eqn:E.
      * run_inv. split_and!; [done | done |]. simpl. lia.
      * apply Nat.ltb_ge in E. rewrite string_length_snoc in E.
        apply (IH extra) in Hr as (Hk & -> & Hl); rewrite ?string_length_snoc in *; [| lia | lia].
        split_and!; [done | done | lia].
  - run_inv. split_and!; [done | done |]. simpl. lia.
Qed.

(** The streams closed. *)
Definition stream_closed (o : obs net_event) : option nat :=
  match o with Obs (StreamClose stream) _ => Some stream | _ => None end.

Lemma read_header_closes_none stream fuel : forall acc,
  always (fun o => stream_closed o = None) (read_header fuel stream acc).
Proof.
  induction fuel as [| fuel IH]; intros acc; cbn [read_header]; [done |].
  always_step; [by always_step |]. destruct a as [c |]; [| done]. unfold serve_target.
  destruct (Ascii.eqb _ _); [always_tac |]. destruct (_ <? _)%nat; [done | apply IH].
Qed.

(** C26: the handler of a stream ends: however the bytes arrive, its loop over the
    header ends after at most 257 of them, so the bound of the model is no
    restriction: with any more turns it has the same runs; and it closes the
    stream, exactly once and as the last thing it does. *)
Theorem handleStream_ends extra stream t o :
  runs (deferring (call (StreamClose stream)) (read_header (S max_header + extra) stream "")) t o ->
  runs (handleStream stream) t o /\ o = Val tt /\
  (length (collect byte_read t) <= 257)%nat /\
  exists t', t = t' ++ [Obs (StreamClose stream) tt] /\ collect stream_closed t' = [].
Proof.
  intros Hr. apply (proj1 (runs_deferring _ _ _ _)) in Hr as (t1 & t2 & x & -> & Hr & Hd).
  pose proof (collect_unseen _ _ _ _ (read_header_closes_none _ _ _) Hr) as Hno.
  apply read_header_fuel in Hr as (Hk & -> & Hl); [| simpl; lia | simpl; lia].
  split; [by apply runs_deferring; eauto 6 |]. split; [done |].
  apply (proj1 (runs_call _ _ _)) in Hd as ([] & -> & _ & _). rewrite collect_app, app_nil_r.
  split; [simpl in Hl; unfold max_header in Hl; lia | by eexists].
Qed.
