(* ===== verification/ContainerTheorems.v ===== *)
(** * ContainerTheorems: what the [DockerContainer] reconciler guarantees

    Theorems about the definitions of [ContainerController]: drift detection,
    port parsing, environment resolution, and the calls a whole reconciliation
    makes in every environment. *)

From S2P Require Import Prelude Effects GoText Strconv Floats ApiTypes Json World KubeLib Adopt DockerHostClient ContainerController.

Open Scope Z_scope.

(** ** Drift detection *)

(** The restart policy, up to letter case, and the limits, each when the spec
    sets it. *)
Definition policy_matches `{UnicodeData} (h : HostConfigInfo) (spec : DockerContainerSpec) : Prop :=
  cs_RestartPolicy spec <> "" ->
  EqualFold (hci_RestartPolicy h) (cs_RestartPolicy spec) = true.
Definition limits_match `{UnicodeData} (h : HostConfigInfo) (spec : DockerContainerSpec) : Prop :=
  cs_Resources spec <> None ->
  buildDockerResources (cs_Resources spec) = mkResources (hci_NanoCPUs h) (hci_Memory h).

(** What [needsRecreate] compares, field by field: the image; the command and
    the environment entries the spec names; policy and limits. *)
Definition matches_spec `{UnicodeData} (base : ContainerJSONBase) (config : ConfigInfo)
    (spec : DockerContainerSpec) : Prop :=
  ci_Image config = cs_Image spec /\
  (cs_Command spec <> [] -> ci_Cmd config = cs_Command spec) /\
  (forall e, e ∈ cs_Env spec -> e ∈ ci_Env config) /\
  forall h, cjb_HostConfig base = Some h -> policy_matches h spec /\ limits_match h spec.

Section drift.
Context `{UnicodeData}.

Lemma env_included env l :
  forallb (fun e => has_string env e) l = true <-> forall e, e ∈ l -> e ∈ env.
Proof.
  rewrite forallb_forall. unfold has_string. setoid_rewrite bool_decide_eq_true.
  setoid_rewrite list_elem_of_In. reflexivity.
Qed.

Lemma restart_policy_drift_spec base config ns spec :
  exists b, restart_policy_drift (mkContainerJSON (Some base) config ns) spec = Val b /\
    (b = false <-> forall h, cjb_HostConfig base = Some h -> policy_matches h spec).
Proof.
  unfold restart_policy_drift, policy_matches, inspected_HostConfig. cbn.
  destruct (eqb_str (cs_RestartPolicy spec) "") eqn:Ep.
  { apply eqb_str_true in Ep. exists false. naive_solver. }
  apply eqb_str_false in Ep. destruct (cjb_HostConfig base) as [h |]; [| naive_solver].
  eexists. split; [done |]. rewrite negb_false_iff. naive_solver.
Qed.

Lemma resources_drift_spec base config ns spec :
  exists b, resources_drift (mkContainerJSON (Some base) config ns) spec = Val b /\
    (b = false <-> forall h, cjb_HostConfig base = Some h -> limits_match h spec).
Proof.
  unfold resources_drift, limits_match, inspected_HostConfig.
  destruct (cs_Resources spec) as [rr |] eqn:Er; [| naive_solver].
  cbn [cj_Base outcome_bind]. destruct (cjb_HostConfig base) as [h |]; [| naive_solver].
  eexists. split; [done |]. rewrite orb_false_iff, !negb_false_iff, !Z.eqb_eq.
  destruct (buildDockerResources (Some rr)) as [n m]. simpl. naive_solver.
Qed.

Lemma needsRecreate_cases base config ns spec :
  exists b, needsRecreate (mkContainerJSON (Some base) (Some config) ns) spec = Val b /\
            (b = false <-> matches_spec base config spec).
Proof.
  unfold needsRecreate, matches_spec. cbn [cj_Config].
  destruct (eqb_str (ci_Image config) (cs_Image spec)) eqn:Himg; cbn [negb].
  2:{ apply eqb_str_false in Himg. naive_solver. }
  apply eqb_str_true in Himg.
  assert (negb (bool_decide (cs_Command spec = [])) &&
          negb (bool_decide (ci_Cmd config = cs_Command spec)) = false <->
          (cs_Command spec <> [] -> ci_Cmd config = cs_Command spec)) as Hcmd.
  { rewrite andb_false_iff, !negb_false_iff, !bool_decide_eq_true.
    destruct (cs_Command spec); naive_solver. }
  destruct (negb _ && _); [naive_solver |].
  destruct (forallb _ (cs_Env spec)) eqn:Henv; cbn [negb].
  2:{ exists true. split; [done |]. rewrite <- env_included. naive_solver. }
  rewrite env_included in Henv.
  destruct (restart_policy_drift_spec base (Some config) ns spec) as (b1 & -> & H1).
  destruct (resources_drift_spec base (Some config) ns spec) as (b2 & E2 & H2).
  cbn [outcome_bind]. rewrite E2. destruct b1.
  - exists true. split; [done |]. split; [done |]. intros (_ & _ & _ & Hh).
    apply (proj2 H1). intros h Eh. by destruct (Hh h Eh).
  - exists b2. split; [done |]. rewrite H2. split.
    + intros Hl. split_and!; [done | by apply Hcmd | done |].
      intros h Eh. split; [exact (proj1 H1 eq_refl h Eh) | auto].
    + intros (_ & _ & _ & Hh) h Eh. by destruct (Hh h Eh).
Qed.

(** C16: on a container the daemon describes, [needsRecreate] answers, and it
    answers no exactly when the container matches the spec. *)
Theorem needsRecreate_spec base config ns spec :
  exists b, needsRecreate (mkContainerJSON (Some base) (Some config) ns) spec = Val b /\
            (b = false <-> matches_spec base config spec).
Proof. apply needsRecreate_cases. Qed.
End drift.

(** ** The calls of a reconciliation *)

Section traces.
Context `{UnicodeData} `{NatLib} `{Sha256} `{X509} `{TarLib} `{ControllerUtil}.

Lemma Reconcile_inv req t o :
  runs (Reconcile req) t o ->
  exists r t', t = Obs (KGet KDockerContainer req) r :: t' /\
    match r with
    | Err e => t' = [] /\ o = (if err_k8s_notfound e then Val done_result else Fail e)
    | Ok cr => runs (reconcile_found cr) t' o
    end.
Proof.
  unfold Reconcile. intros Hr. run_step. simplify_eq. eexists _, _. split; [done |]. destruct r; [done |].
  destruct (err_k8s_notfound e); by run_inv.
Qed.

Lemma Reconcile_found req t o cr :
  runs (Reconcile req) t o -> first_container t = Some (Ok cr) ->
  exists t', t = Obs (KGet KDockerContainer req) (Ok cr) :: t' /\ runs (reconcile_found cr) t' o.
Proof.
  intros Hr Hh. apply Reconcile_inv in Hr as (r & t' & -> & Hr).
  cbn in Hh. simplify_eq. eauto.
Qed.

(** The parts of a reconciliation that only read. *)
Lemma quiet_writeStatus cr id state j : always quiet (writeStatus cr id state j).
Proof. unfold writeStatus, dockerIPv4. always_tac. Qed.
Lemma quiet_observeRuntime cli cr m : always quiet (observeRuntime cli cr m).
Proof. unfold observeRuntime. always_tac; auto using quiet_writeStatus, quiet_snapshot. Qed.

Lemma quiet_sync_observe cli cr name :
  managementModeFor cr = DockerContainerManagementModeObserve ->
  always quiet (sync cli cr name).
Proof.
  intros Hm. unfold sync. always_step; [always_tac |].
  rewrite (proj2 (eqb_str_true _ _) Hm). apply quiet_observeRuntime.
Qed.

Lemma quiet_delete_observed cli cr name :
  managementModeFor cr = DockerContainerManagementModeObserve ->
  cst_Adopted (dc_Status cr) = true ->
  always quiet (deleteExternalResources cli cr name).
Proof.
  intros Hm Ha. unfold deleteExternalResources, shouldSkipRuntimeDeletion.
  by rewrite Ha, (proj2 (eqb_str_true _ _) Hm).
Qed.

(** C1: a container in Observe mode is never touched: in every run of the
    reconciler, whatever the API server and the daemon answer, no call changes
    what runs on the host. While the object is being deleted this holds for the
    adopted containers only. *)
Theorem observe_never_mutates req t o cr :
  runs (Reconcile req) t o ->
  first_container t = Some (Ok cr) ->
  managementModeFor cr = DockerContainerManagementModeObserve ->
  time_IsZero (om_DeletionTimestamp (dc_Meta cr)) = true \/ cst_Adopted (dc_Status cr) = true ->
  Forall (fun x => mutates_docker x = false) t.
Proof.
  intros Hr Hh Hm Hdel. destruct (Reconcile_found _ _ _ _ Hr Hh) as (t' & -> & Hr').
  constructor; [done |]. eapply always_runs; [| exact Hr'].
  unfold reconcile_found. always_tac; auto using quiet_NewClient, quiet_sync_observe.
  destruct Hdel as [Hz | Ha]; [by rewrite Hz in * |]. by apply quiet_delete_observed.
Qed.

(** Calls that reach no Docker daemon. *)
Definition offline (o : obs event) : Prop := touches_docker o = false /\ opened_client o = None.

(** C17: the finalizer comes first: an object that is neither being deleted nor
    marked is marked and nothing else happens; no run of the reconciler opens a
    Docker client for an object that does not carry the finalizer. *)
Theorem finalizer_before_docker req t o cr :
  runs (Reconcile req) t o ->
  first_container t = Some (Ok cr) ->
  ContainsFinalizer (om_Finalizers (dc_Meta cr)) dockerContainerFinalizer = false ->
  Forall (fun x => touches_docker x = false /\ opened_client x = None) t /\
  (time_IsZero (om_DeletionTimestamp (dc_Meta cr)) = true ->
   exists r, t = [Obs (KGet KDockerContainer req) (Ok cr);
                  Obs (KUpdate KDockerContainer (with_finalizers AddFinalizer cr)) r]) /\
  (time_IsZero (om_DeletionTimestamp (dc_Meta cr)) = false ->
   t = [Obs (KGet KDockerContainer req) (Ok cr)] /\ o = Val done_result).
Proof.
  intros Hr Hh Hf. destruct (Reconcile_found _ _ _ _ Hr Hh) as (t' & -> & Hr'). clear Hr Hh.
  unfold reconcile_found in Hr'. rewrite Hf in Hr'. cbn [negb] in Hr'.
  destruct (time_IsZero _); cbn [negb] in Hr'.
  - run_cases; split_and!; try done; try (by repeat constructor); eauto.
  - run_cases; split_and!; try done; by repeat constructor.
Qed.

Lemma no_removal_NewClient ns ref : always (fun o => removal_of o = None) (NewClient ns ref).
Proof. unfold NewClient, newClient. always_tac. Qed.

Lemma remove_loop cli l t o :
  runs (for_each l (fun tn => call (DContainerRemove cli tn true) ;; ret tt)) t o ->
  o = Val tt /\ collect removal_of t = l.
Proof.
  revert t. induction l as [| a l IH]; intros t Hr; cbn [for_each] in Hr; run_inv; [done |].
  match goal with H : runs (for_each l _) _ _ |- _ => apply IH in H as [-> IHt] end.
  split; [done |]. by rewrite <- IHt.
Qed.

Lemma remove_rest cli l legacy t o :
  runs (for_each l (fun tn => call (DContainerRemove cli tn true) ;; ret tt) ;;
        call (DContainerRemove cli legacy true) ;; ret tt) t o ->
  o = Val tt /\ collect removal_of t = l ++ [legacy].
Proof.
  intros Hr. run_step; simplify_eq;
    match goal with H : runs (for_each _ _) _ _ |- _ => apply remove_loop in H as [? Hc] end;
    simplify_eq.
  run_inv. by rewrite !collect_app.
Qed.

(** [deleteExternalResources] asks for the removal of the container and
    then, unless the daemon refuses that for another reason than its absence, of
    the twenty tunnel containers and the legacy one, in order and exactly once
    each, and succeeds; it never panics. *)
Lemma deleteExternalResources_cases cli cr name t o :
  runs (deleteExternalResources cli cr name) t o ->
  if shouldSkipRuntimeDeletion cr then t = [] /\ o = Val tt
  else exists r t', t = Obs (DContainerRemove cli name true) r :: t' /\
    match r with
    | Err e =>
        if err_docker_notfound e
        then o = Val tt /\
             collect removal_of t' =
               tunnel_names name (om_Name (dc_Meta cr)) ++ [legacy_tunnel_name name]
        else t' = [] /\ o = Fail e
    | Ok _ =>
        o = Val tt /\
        collect removal_of t' =
          tunnel_names name (om_Name (dc_Meta cr)) ++ [legacy_tunnel_name name]
    end.
Proof.
  intros Hr. unfold deleteExternalResources in Hr.
  destruct (shouldSkipRuntimeDeletion cr); [by run_inv |].
  run_step. simplify_eq. eexists _, _. split; [done |].
  destruct r as [u | e]; [| destruct (err_docker_notfound e)].
  - run_step. by apply remove_rest in Hr.
  - run_step. by apply remove_rest in Hr.
  - by run_inv.
Qed.
(** What a deletion asks of the daemon: nothing, the container only, or the
    container and every tunnel container. *)
Definition deletion_requests (cr : DockerContainer) (l : list string) : Prop :=
  l = [] \/ l = [runtime_name cr] \/
  l = runtime_name cr :: tunnel_names (runtime_name cr) (om_Name (dc_Meta cr))
        ++ [legacy_tunnel_name (runtime_name cr)].

Lemma delete_requests cli cr t o :
  runs (deleteExternalResources cli cr (runtime_name cr)) t o ->
  o <> Panic /\ deletion_requests cr (collect removal_of t).
Proof.
  intros Hr. apply deleteExternalResources_cases in Hr.
  unfold deletion_requests. destruct (shouldSkipRuntimeDeletion cr).
  { destruct Hr as [-> ->]. auto. }
  destruct Hr as (r & t' & -> & Hr). cbn [collect removal_of].
  destruct r as [| e]; [destruct Hr as [-> ->]; auto |].
  destruct (err_docker_notfound e); destruct Hr as [-> ->]; auto.
Qed.

(** C6: deletion cannot get stuck on the Docker host: once the object is being
    deleted, every run ends by writing it back without the finalizer, whether
    the daemon could be reached or not, and the removals asked before that are
    the documented ones; the run fails only if that write does. *)
Theorem deletion_releases_finalizer req t o cr :
  runs (Reconcile req) t o ->
  first_container t = Some (Ok cr) ->
  time_IsZero (om_DeletionTimestamp (dc_Meta cr)) = false ->
  ContainsFinalizer (om_Finalizers (dc_Meta cr)) dockerContainerFinalizer = true ->
  exists t1 r,
    t = t1 ++ [Obs (KUpdate KDockerContainer (with_finalizers RemoveFinalizer cr)) r] /\
    o = match r with Ok _ => Val done_result | Err e => Fail e end /\
    deletion_requests cr (collect removal_of t1).
Proof.
  intros Hr Hh Hd Hf. destruct (Reconcile_found _ _ _ _ Hr Hh) as (t' & -> & Hr'). clear Hr Hh.
  unfold reconcile_found in Hr'. rewrite Hd, Hf in Hr'. cbn [negb] in Hr'.
  assert (forall t o, runs
    (try_call (KUpdate KDockerContainer (with_finalizers RemoveFinalizer cr)) ;;
     ret done_result) t o ->
    exists r, t = [Obs (KUpdate KDockerContainer (with_finalizers RemoveFinalizer cr)) r] /\
              o = match r with Ok _ => Val done_result | Err e => Fail e end) as Hlast.
  { intros t o' H'. run_step; run_inv; eauto. }
  apply (proj1 (runs_bind _ _ _ _)) in Hr' as
    [(t1 & r & t2 & -> & Hc & Hr) | [(e & -> & Hc) | [-> Hc]]].
  2, 3: exfalso; run_inv; by eapply NewClient_calm.
  assert (collect removal_of t1 = []) as Hc1.
  { eapply collect_unseen; [| exact Hc]. always_tac. apply no_removal_NewClient. }
  destruct r as [cli |].
  - apply (proj1 (runs_assoc _ _ _ _ _)) in Hr.
    apply (proj1 (runs_bind _ _ _ _)) in Hr as
      [(t3 & r & t4 & -> & Hdel & Hr) | [(e & -> & Hdel) | [-> Hdel]]].
    2, 3: exfalso; run_inv; by edestruct delete_requests.
    run_step. apply Hlast in Hr as (r' & -> & ->). simplify_eq.
    exists (Obs (KGet KDockerContainer req) (Ok cr) :: t1 ++ t3 ++ [Obs (DClose cli) r0]), r'.
    split_and!; [cbn; by rewrite <- !app_assoc | done |].
    cbn [collect removal_of]. rewrite !collect_app, Hc1, app_nil_r.
    run_step; by edestruct delete_requests.
  - run_step. apply Hlast in Hr as (r' & -> & ->).
    exists (Obs (KGet KDockerContainer req) (Ok cr) :: t1), r'.
    split_and!; [done | done |]. cbn [collect removal_of]. rewrite Hc1. by left.
Qed.
(** ** Recreation *)

(** The daemon's listing shows no container of that name, or the one it shows
    was removed. *)
Definition name_cleared (name : string) (h : list (obs event)) : Prop :=
  exists l, l ∈ collect listed_containers h /\
    (findContainerByName l name = None \/
     exists m, findContainerByName l name = Some m /\
               (c_ID m, true) ∈ collect asked_remove h).

Lemma name_cleared_mono name h o : name_cleared name h -> name_cleared name (h ++ [o]).
Proof.
  intros (l & Hl & Hc). exists l. rewrite !collect_app, elem_of_app. split; [by left |].
  destruct Hc as [? | (m & ? & ?)]; [by left | right]. exists m.
  rewrite elem_of_app. auto.
Qed.

Definition create_allowed (name : string) (h : list (obs event)) (o : obs event) : Prop :=
  forall cfg hc n, asked_create o = Some (cfg, hc, n) -> n = name /\ name_cleared name h.

Lemma not_create name h o : asked_create o = None -> create_allowed name h o.
Proof. intros Ho. unfold create_allowed. by rewrite Ho. Qed.

Lemma no_create_skip {A} name (p : prog event A) h :
  always (fun o => asked_create o = None) p ->
  wph (create_allowed name) p (fun _ _ => True) h.
Proof.
  intros Hp. apply wph_skip; [| done]. eapply always_mono; [| exact Hp].
  intros o Ho h'. by apply not_create.
Qed.

Lemma no_create_writeStatus cr id state j :
  always (fun o => asked_create o = None) (writeStatus cr id state j).
Proof. unfold writeStatus, dockerIPv4. always_tac. Qed.
Lemma no_create_observe cli cr m :
  always (fun o => asked_create o = None) (observeRuntime cli cr m).
Proof.
  unfold observeRuntime, runtimeSnapshotFromInspect, collectPortMappings, dockerIPv4.
  always_tac; apply no_create_writeStatus.
Qed.
Lemma no_create_NewClient ns ref :
  always (fun o => asked_create o = None) (NewClient ns ref).
Proof. unfold NewClient, newClient. always_tac. Qed.

(** [create] asks for a container of the name it is given. *)
Lemma create_named cli cr name :
  always (fun o => forall cfg hc n, asked_create o = Some (cfg, hc, n) -> n = name) (create cli cr name).
Proof.
  unfold create, create_container, start_created, pull_auth, getAuthConfig, resolveEnv, env_value,
    getSecretValue, uploadSecretToContainer, writeStatus, dockerIPv4.
  always_tac; try done; by intros cfg hc n [= _ _ <-].
Qed.

Lemma cleared_create cli cr name h :
  name_cleared name h ->
  wph (create_allowed name) (create cli cr name) (fun _ _ => True) h.
Proof.
  intros Hh. eapply wp_mono; [| eapply (wph_stable_on _ (name_cleared name)); [| | apply create_named |]]; try done.
  - apply name_cleared_mono.
  - intros h' o Hh' Hn cfg hc n E. split; [by eapply Hn | done].
Qed.

Lemma sync_create_order cli cr name h :
  wph (create_allowed name) (sync cli cr name) (fun _ _ => True) h.
Proof.
  unfold sync, wph. apply wp_bind. intros r _. split; [by apply not_create |].
  destruct r as [l | e]; [| done]. cbn [to_outcome wp].
  set (h1 := record h _).
  assert (l ∈ collect listed_containers h1) as Hl.
  { unfold h1, record. rewrite collect_app, elem_of_app. right. by left. }
  clearbody h1. destruct (eqb_str _ _); [by apply no_create_skip, no_create_observe |].
  destruct (findContainerByName l name) as [m |] eqn:Hm.
  2:{ apply cleared_create. exists l. auto. }
  apply wp_bind. intros j _. split; [by apply not_create |]. destruct j as [j |]; [| done]. cbn [to_outcome wp].
  apply wp_bind. cbn [lift wp]. destruct (needsRecreate j (dc_Spec cr)) as [[] | |]; try done.
  - apply wp_bind. intros r _. split; [by apply not_create |]. cbn [wp].
    apply wp_bind. intros r' _. split; [by apply not_create |]. destruct r'; [| done]. cbn [to_outcome wp].
    apply cleared_create. exists l. unfold record. rewrite !collect_app, !elem_of_app.
    split; [by auto |]. right. exists m. split; [done |].
    rewrite !elem_of_app. right. by left.
  - apply no_create_skip. destruct (eqb_str _ _); [apply no_create_writeStatus |].
    always_tac. apply no_create_writeStatus.
Qed.

Lemma wph_bind_skip {A B} name (p : M event A) (f : A -> M event B) h :
  always (fun o => asked_create o = None) p ->
  (forall a h', wph (create_allowed name) (f a) (fun _ _ => True) h') ->
  wph (create_allowed name) (bind p f) (fun _ _ => True) h.
Proof.
  intros Hp Hf. apply wp_bind. apply wph_skip.
  - eapply always_mono; [| exact Hp]. intros o Ho h'. by apply not_create.
  - intros [] h'; [apply Hf | done | done].
Qed.

Lemma Reconcile_create_order cr h :
  wph (create_allowed (runtime_name cr)) (reconcile_found cr) (fun _ _ => True) h.
Proof.
  unfold reconcile_found. destruct (negb (time_IsZero _)).
  { apply no_create_skip. unfold deleteExternalResources. always_tac. apply no_create_NewClient. }
  destruct (negb _); [apply no_create_skip; always_tac |].
  apply wph_bind_skip; [apply no_create_NewClient |]. intros cli h'.
  apply wp_deferring, wp_bind. eapply wp_mono; [| apply sync_create_order].
  intros [] g _; cbn; intros ? _; (split; [by apply not_create | done]).
Qed.

(** C2: no duplicate container: whenever a reconciliation asks the daemon to
    create a container, it is one of the object's runtime name, and the listing it
    read showed none of that name, or the one it showed has been removed
    successfully. *)
Theorem create_after_clear req t o cr t1 x t2 cfg hc name :
  runs (Reconcile req) t o ->
  first_container t = Some (Ok cr) ->
  t = t1 ++ x :: t2 -> asked_create x = Some (cfg, hc, name) ->
  name = runtime_name cr /\ name_cleared name t1.
Proof.
  intros Hr Hh E Hx. destruct (Reconcile_found _ _ _ _ Hr Hh) as (t' & -> & Hr').
  destruct t1 as [| o1 t1]; simplify_eq/=.
  pose proof (wp_sound _ _ _ _ _ _ _ (Reconcile_create_order cr
    [Obs (KGet KDockerContainer req) (Ok cr)]) Hr') as [_ Hs].
  apply safe_trace_at in Hs. destruct (Hs cfg hc name Hx) as [-> Hc]. by split.
Qed.
End traces.
