(* ===== verification/ContainerCreate.v ===== *)
(** * ContainerCreate: the request [create] makes

    The ports [parsePorts] gives, the environment [resolveEnv] resolves, the
    container [create] asks the daemon for, field by field, and what happens when
    the inspection that follows fails. *)

From S2P Require Import Prelude Effects GoText Strconv Floats ApiTypes Json World KubeLib Adopt DockerHostClient ContainerController ContainerTheorems.

Open Scope Z_scope.

(** ** Ports *)

Section ports.
Context `{UnicodeData} `{NatLib}.

(** The bindings of [key] among parsed entries, in order. *)
Definition bindings_of (key : string) (entries : list (string * PortBinding))
    : list PortBinding :=
  (filter (fun e => e.1 = key) entries).*2.

Lemma parse_ports_loop_spec ports exposed bindings :
  exposed = dom bindings ->
  match parse_ports_loop exposed bindings ports with
  | Ok (ex, bs) => exists entries,
      Forall2 (fun p e => parse_port p = Ok e) ports entries /\ ex = dom bs /\
      (forall key, default [] (bs !! key) = default [] (bindings !! key) ++ bindings_of key entries) /\
      (forall key, key ∈ ex <-> key ∈ exposed \/ key ∈ entries.*1)
  | Err e => exists pre p post, ports = pre ++ p :: post /\
      Forall (fun q => exists x, parse_port q = Ok x) pre /\ parse_port p = Err e
  end.
Proof.
  revert exposed bindings. induction ports as [| p ports IH]; intros exposed bindings Hdom; simpl.
  { exists []. split_and!; [constructor | done | intros key; by rewrite app_nil_r | set_solver]. }
  destruct (parse_port p) as [[key b] | e] eqn:Ep.
  2:{ exists [], p, ports. split_and!; [done | constructor | done]. }
  specialize (IH ({[key]} ∪ exposed) (<[key := default [] (bindings !! key) ++ [b]]> bindings)).
  destruct (parse_ports_loop _ _ ports) as [[ex bs] | e].
  - destruct IH as (entries & Hall & Hex & Hb & Hk); [set_solver |].
    exists ((key, b) :: entries). split_and!; [by constructor | done | |].
    + intros k. rewrite Hb. unfold bindings_of. rewrite filter_cons. simpl.
      destruct (decide (key = k)) as [<- | Hne].
      * rewrite lookup_insert_eq. simpl. by rewrite <- app_assoc.
      * by rewrite lookup_insert_ne.
    + intros k. rewrite Hk. simpl. set_solver.
  - destruct IH as (pre & q & post & -> & Hpre & Hq); [set_solver |].
    exists (p :: pre), q, post. split_and!; [done | | done]. constructor; eauto.
Qed.

(** [parsePorts] accepts a list of mappings exactly when every mapping
    parses; it then exposes the ports mentioned, each bound to its host ports in
    the order given. Otherwise it returns the error of the first bad mapping. *)
Theorem parsePorts_spec ports :
  match parsePorts ports with
  | Ok (exposed, bindings) => exists entries,
      Forall2 (fun p e => parse_port p = Ok e) ports entries /\
      exposed = dom bindings /\
      (forall key, default [] (bindings !! key) = bindings_of key entries) /\
      (forall key, key ∈ exposed <-> key ∈ entries.*1)
  | Err e => exists pre p post, ports = pre ++ p :: post /\
      Forall (fun q => exists x, parse_port q = Ok x) pre /\ parse_port p = Err e
  end.
Proof.
  unfold parsePorts. pose proof (parse_ports_loop_spec ports ∅ ∅) as Hs.
  destruct (parse_ports_loop ∅ ∅ ports) as [[ex bs] | e]; [| apply Hs; set_solver].
  destruct Hs as (entries & ? & ? & Hb & Hk); [set_solver |].
  exists entries. split_and!; [done | done | |].
  - intros key. by rewrite Hb, lookup_empty.
  - intros key. rewrite Hk. set_solver.
Qed.
End ports.

(** ** The environment *)

Section create.
Context `{UnicodeData} `{NatLib} `{Sha256} `{X509} `{TarLib} `{ControllerUtil}.

(** The entry a variable of the spec gives, by the secrets read in [t]. *)
Definition resolved_entry (ns : string) (t : list (obs event)) (ev : EnvVar) (s : string) : Prop :=
  exists v, s = ev_Name ev +:+ "=" +:+ v /\
    match ev_ValueFrom ev ≫= es_SecretKeyRef with
    | None => v = ev_Value ev
    | Some ref => exists sec, (mkNN ns (sk_Name ref), Ok sec) ∈ collect got_secret t /\
                              sec_Data sec !! sk_Key ref = Some v
    end.

Lemma resolved_entry_mono ns t1 t t2 ev s :
  resolved_entry ns t ev s -> resolved_entry ns (t1 ++ t ++ t2) ev s.
Proof.
  intros (v & -> & Hv). exists v. split; [done |].
  destruct (ev_ValueFrom ev ≫= es_SecretKeyRef); [| done].
  destruct Hv as (sec & Hin & Hk). exists sec. rewrite !collect_app, !elem_of_app. auto.
Qed.

Lemma env_value_resolved ns ev t v :
  runs (env_value ns ev) t (Val v) -> resolved_entry ns t ev (ev_Name ev +:+ "=" +:+ v).
Proof.
  unfold env_value, resolved_entry. intros Hr. exists v. split; [done |].
  destruct (ev_ValueFrom ev ≫= es_SecretKeyRef) as [ref |]; [| by run_inv].
  unfold getSecretValue in Hr. run_cases.
  eexists. split; [by left | done].
Qed.

Lemma resolve_loop ns evs acc t env :
  runs (for_fold evs acc (fun resolved ev =>
          let! val := env_value ns ev in
          ret (resolved ++ [ev_Name ev +:+ "=" +:+ val]))) t (Val env) ->
  exists entries, env = acc ++ entries /\ Forall2 (resolved_entry ns t) evs entries.
Proof.
  revert acc t. induction evs as [| ev evs IH]; intros acc t Hr; cbn [for_fold] in Hr.
  { run_inv. exists []. by rewrite app_nil_r. }
  run_step. run_step; simplify_eq. run_step.
  apply IH in Hr as (entries & -> & Hall).
  match goal with H : runs (env_value _ _) _ _ |- _ => apply env_value_resolved in H as He end.
  eexists (_ :: entries). rewrite <- app_assoc. split; [done |]. constructor.
  - by apply (resolved_entry_mono ns []).
  - eapply Forall2_impl; [exact Hall |]. intros ev' s Hs.
    rewrite <- (app_nil_r x1). by apply resolved_entry_mono.
Qed.

Lemma resolveEnv_resolved cr t env :
  runs (resolveEnv cr) t (Val env) ->
  exists entries, env = cs_Env (dc_Spec cr) ++ entries /\
    Forall2 (resolved_entry (om_Namespace (dc_Meta cr)) t) (cs_EnvVars (dc_Spec cr)) entries.
Proof. apply resolve_loop. Qed.

Lemma resolveEnv_calm cr : never_panics (resolveEnv cr).
Proof. unfold resolveEnv, env_value, getSecretValue. calm_tac. Qed.

(** ** The request *)

Definition preparing (o : obs event) : Prop := prepares o = true.

Lemma prepare_resolveEnv cr : always preparing (resolveEnv cr).
Proof. unfold resolveEnv, env_value, getSecretValue. always_tac. Qed.
Lemma prepare_pull_auth cr : always preparing (pull_auth cr).
Proof. unfold pull_auth, getAuthConfig. always_tac. Qed.
Lemma pull_auth_calm cr : never_panics (pull_auth cr).
Proof. unfold pull_auth, getAuthConfig. calm_tac. Qed.

Lemma prepared_unseen {X} (view : obs event -> option X) t :
  (forall o, prepares o = true -> view o = None) -> Forall preparing t -> collect view t = [].
Proof. intros Hv Ht. apply collect_none. eapply Forall_impl; [exact Ht | exact Hv]. Qed.

(** A run of [create_container]: it fails before asking for a container, or
    asks for the container of the spec and goes on with the answer. *)
Lemma create_container_cases cli cr name t o :
  runs (create_container cli cr name) t o ->
  (Forall preparing t /\ exists e, o = Fail e) \/
  exists exposed bindings t1 entries r t2,
    parsePorts (cs_Ports (dc_Spec cr)) = Ok (exposed, bindings) /\
    Forall preparing t1 /\
    Forall2 (resolved_entry (om_Namespace (dc_Meta cr)) t1) (cs_EnvVars (dc_Spec cr)) entries /\
    t = t1 ++ Obs (DContainerCreate cli
                     (container_config cr (cs_Env (dc_Spec cr) ++ entries) exposed)
                     (container_host_config cr bindings) name) r :: t2 /\
    match r with
    | Ok id => runs (start_created cli cr id) t2 o
    | Err e => t2 = [] /\ o = Fail e
    end.
Proof.
  unfold create_container. intros Hr.
  apply (proj1 (runs_bind _ _ _ _)) in Hr as
    [(t1 & [exposed bindings] & t2 & -> & Hp & Hr) | [(e & -> & Hp) | (_ & Hp)]].
  2:{ run_step. left. subst. eauto. }
  2:{ run_step. exfalso. by eapply to_outcome_no_panic. }
  run_step. subst t1. destruct (parsePorts _) as [p |] eqn:Eports; simplify_eq/=.
  apply (proj1 (runs_bind _ _ _ _)) in Hr as
    [(t1 & env & t3 & -> & Henv & Hr) | [(e & -> & Henv) | (_ & Henv)]].
  2:{ left. split; [| eauto]. by eapply always_runs; [apply prepare_resolveEnv |]. }
  2:{ exfalso. by eapply resolveEnv_calm. }
  right. pose proof (always_runs _ _ _ _ (prepare_resolveEnv cr) Henv) as Hc1.
  apply resolveEnv_resolved in Henv as (entries & -> & Hent).
  apply (proj1 (runs_try_call_bind _ _ _ _)) in Hr as (r & t4 & -> & _ & Hr).
  exists exposed, bindings, t1, entries, r, t4. by destruct r.
Qed.

(** A run of [create]: it fails while preparing, or goes through
    [create_container] between preparations. *)
Lemma create_cases cli cr name t o :
  runs (create cli cr name) t o ->
  (Forall preparing t /\ exists e, o = Fail e) \/
  exists t1 t2 t3, t = t1 ++ t2 ++ t3 /\ runs (create_container cli cr name) t2 o /\
    Forall preparing t1 /\ Forall preparing t3.
Proof.
  unfold create. intros Hr.
  apply (proj1 (runs_bind _ _ _ _)) in Hr as
    [(t1 & auth & t2 & -> & Hauth & Hr) | [(e & -> & Hauth) | (_ & Hauth)]].
  2:{ left. split; [| eauto]. by eapply always_runs; [apply prepare_pull_auth |]. }
  2:{ exfalso. by eapply pull_auth_calm. }
  pose proof (always_runs _ _ _ _ (prepare_pull_auth cr) Hauth) as Hc1.
  run_step. subst. destruct r as [u | e].
  - right. exists (t1 ++ [Obs (DImageInspect cli (cs_Image (dc_Spec cr))) (Ok u)]), t, [].
    rewrite app_nil_r, <- app_assoc, Forall_app. split_and!; try done. by repeat constructor.
  - run_step; subst.
    2:{ left. rewrite Forall_app. split; [| eauto]. split; [done | by repeat constructor]. }
    apply (proj1 (runs_deferring _ _ _ _)) in Hr as (t2 & t3 & x & -> & Hr & Hd).
    apply (proj1 (runs_call_bind _ _ _ _)) in Hr as (u & t4 & -> & _ & Hr).
    run_step. subst. right. change (?a :: ?b :: (?c :: ?d) ++ ?l) with ([a; b; c] ++ d ++ l).
    rewrite app_assoc. eexists _, t4, _. split; [reflexivity |].
    split; [exact Hr |]. rewrite Forall_app. split_and!; [done | |]; by repeat constructor.
Qed.

Lemma start_created_no_create cli cr id :
  always (fun o => asked_create o = None) (start_created cli cr id).
Proof. unfold start_created, uploadSecretToContainer. always_tac; apply no_create_writeStatus. Qed.

(** The configurations that ask for the container of a spec, field by field, with
    the environment and the ports given. *)
Definition asks_for (spec : DockerContainerSpec) (env : list string) (exposed : gset string)
    (bindings : PortMap) (cfg : Config) (hc : HostConfig) : Prop :=
  (cfg_Image cfg = cs_Image spec /\ cfg_Cmd cfg = cs_Command spec /\ cfg_Env cfg = env /\
   cfg_ExposedPorts cfg = exposed /\
   cfg_Healthcheck cfg = buildDockerHealthCheck (cs_HealthCheck spec) /\ cfg_Entrypoint cfg = []) /\
  (hcfg_RestartPolicy hc =
     (if eqb_str (cs_RestartPolicy spec) "" then "always"%stdpp else ToLower (cs_RestartPolicy spec)) /\
   hcfg_NetworkMode hc = cs_NetworkMode spec /\ hcfg_PortBindings hc = bindings /\
   Forall2 (fun v b => b = vm_HostPath v +:+ ":" +:+ vm_ContainerPath v +:+
                             (if vm_ReadOnly v then ":ro" else ""))
     (cs_VolumeMounts spec) (hcfg_Binds hc) /\
   hcfg_Resources hc = buildDockerResources (cs_Resources spec)).

Lemma configs_ask cr env exposed bindings :
  asks_for (dc_Spec cr) env exposed bindings (container_config cr env exposed)
    (container_host_config cr bindings).
Proof.
  split; [done |]. unfold container_host_config. cbn. split_and!; try done.
  - case_match; [| done]. rewrite ToLower_id; by vm_compute.
  - apply Forall2_fmap_r, Forall_Forall2_diag, Forall_true. done.
Qed.

(** The request [create] makes in a run: none, and then it fails, or one, with
    the configuration of the spec. *)
Definition request_made (cr : DockerContainer) (name : string) (t : list (obs event))
    (o : outcome unit) : Prop :=
  (collect asked_create t = [] /\ exists e, o = Fail e) \/
  exists entries exposed bindings,
    parsePorts (cs_Ports (dc_Spec cr)) = Ok (exposed, bindings) /\
    Forall2 (resolved_entry (om_Namespace (dc_Meta cr)) t) (cs_EnvVars (dc_Spec cr)) entries /\
    exists cfg hc, collect asked_create t = [(cfg, hc, name)] /\
      asks_for (dc_Spec cr) (cs_Env (dc_Spec cr) ++ entries) exposed bindings cfg hc.

Lemma prepared_no_create t : Forall preparing t -> collect asked_create t = [].
Proof. apply prepared_unseen. by intros [? [] ?]. Qed.

(** C15: [create] asks the daemon for at most one container, with the spec's
    image, limits, volumes, network and policy (lower case, [always] by default),
    the spec's environment followed by its resolved variables, and the ports
    [parsePorts] gives; the spec's command is asked for as the command, and no
    entrypoint is asked for, so the image keeps its own, although the field is
    documented to override both; without a request it returns an error. *)
Theorem create_request cli cr name t o :
  runs (create cli cr name) t o -> request_made cr name t o.
Proof.
  intros Hr. apply create_cases in Hr as [[Ht Ho] | (t1 & t2 & t3 & -> & Hr & Hc1 & Hc3)].
  { left. by rewrite prepared_no_create. }
  unfold request_made. rewrite !collect_app, (prepared_no_create t1), (prepared_no_create t3),
    app_nil_r by done. simpl.
  apply create_container_cases in Hr as
    [[Ht Ho] | (exposed & bindings & t4 & entries & r & t5 & Hp & Ht4 & Hent & -> & Hr)].
  { left. by rewrite prepared_no_create. }
  right. exists entries, exposed, bindings. split; [done |]. split.
  - eapply Forall2_impl; [exact Hent |]. intros. rewrite <- app_assoc.
    by apply resolved_entry_mono.
  - eexists _, _. split; [| apply configs_ask].
    rewrite collect_app, prepared_no_create by done. simpl. f_equal.
    destruct r as [id |]; [| by destruct Hr as [-> _]].
    by eapply collect_unseen; [apply start_created_no_create |].
Qed.

(** ** The last inspection *)

Lemma start_created_inspect cli cr id t o :
  runs (start_created cli cr id) t o -> collect inspect_failed t <> [] -> o = Panic.
Proof.
  unfold start_created. intros Hr Hc.
  assert (forall {A} (p : prog event A) t a,
    always (fun o => inspect_failed o = None) p -> runs p t a -> collect inspect_failed t = [])
    as Hno by (intros; by eapply collect_unseen).
  assert (always (fun o => inspect_failed o = None)
    (for_each (cs_SecretVolumes (dc_Spec cr)) (fun sv =>
      uploadSecretToContainer cli (om_Namespace (dc_Meta cr)) sv id))) as Hup
    by (unfold uploadSecretToContainer; always_tac).
  apply (proj1 (runs_bind _ _ _ _)) in Hr as
    [(t1 & u & t2 & -> & Hl & Hr) | [(e & -> & Hl) | (-> & Hl)]]; [| | done].
  2:{ by rewrite (Hno _ _ _ _ Hup Hl) in Hc. }
  rewrite collect_app, (Hno _ _ _ _ Hup Hl) in Hc. simpl in Hc.
  run_step; subst; [| done]. run_step. subst. simpl in Hc. destruct r0 as [j | e].
  - exfalso. apply Hc. eapply Hno; [| exact Hr]. unfold writeStatus, dockerIPv4. always_tac.
  - unfold writeStatus, dockerIPv4, dockerHealth in Hr.
    cbn [empty_ContainerJSON cj_NetworkSettings cj_Base] in Hr. by run_inv.
Qed.

(** A failed inspection at the end of [create] is not reported as an error:
    the status is written from an empty [ContainerJSON], whose embedded pointer
    is nil, and the reconciler panics after the container was created. *)
Theorem create_inspect_failure_panics cli cr name t o :
  runs (create cli cr name) t o ->
  collect inspect_failed t <> [] ->
  o = Panic /\ collect asked_create t <> [].
Proof.
  intros Hr Hc.
  assert (forall t, Forall preparing t -> collect inspect_failed t = []) as Hno
    by (intros t' Ht'; by apply prepared_unseen; [intros [? []] |]).
  apply create_cases in Hr as [[Ht _] | (t1 & t2 & t3 & -> & Hr & Hc1 & Hc3)].
  { by rewrite Hno in Hc. }
  rewrite !collect_app, (Hno t1), (Hno t3), app_nil_r in Hc by done. simpl in Hc.
  apply create_container_cases in Hr as
    [[Ht Ho] | (exposed & bindings & t4 & entries & r & t5 & Hp & Ht4 & Hent & -> & Hr)].
  { by rewrite Hno in Hc. }
  rewrite collect_app, Hno in Hc by done. simpl in Hc.
  destruct r as [id | e]; [| by destruct Hr as [-> _]]. split.
  - by eapply start_created_inspect.
  - rewrite !collect_app. simpl. by destruct (collect asked_create t1), (collect asked_create t4).
Qed.
End create.
