(* ===== verification/ContainerDrift.v ===== *)
(** * ContainerDrift: creation and adoption agree with the drift detection

    A container created from a spec does not drift from it; the spec recorded
    from a running container is one that container does not drift from, up to
    the exactness of the CPU limit; what Observe mode reports. *)

From S2P Require Import Prelude Effects Stores GoText Strconv Floats ApiTypes Json World DockerStore KubeLib Adopt DockerHostClient ContainerController ContainerTheorems ContainerCreate.
From Stdlib Require Import Ascii.

Open Scope Z_scope.

(** ** Letter case *)

Section fold.
Context `{UnicodeData}.

Lemma rune_fold_refl r : rune_fold_eq r r = true.
Proof. unfold rune_fold_eq. by rewrite Z.eqb_refl. Qed.

Lemma EqualFold_refl s : EqualFold s s = true.
Proof.
  unfold EqualFold. induction (runes s) as [| c l IH]; simpl; [done |].
  by rewrite rune_fold_refl, IH.
Qed.

Lemma rune_fold_lower r : 0 <= r < 128 -> rune_fold_eq (rune_ToLower r) r = true.
Proof.
  intros Hr. unfold rune_fold_eq, rune_ToLower. replace (r <? 128) with true by lia.
  destruct (between 65 90 r) eqn:E; [| by rewrite Z.eqb_refl].
  unfold between in *. destruct (r + 32 =? r); [done |]. cbn zeta.
  replace (Z.min (r + 32) r) with r by lia. replace (Z.max (r + 32) r) with (r + 32) by lia.
  replace (r + 32 <? 128) with true by lia. lia.
Qed.

Lemma rune_ToLower_ascii r : 0 <= r < 128 -> 0 <= rune_ToLower r < 128.
Proof.
  intros Hr. unfold rune_ToLower. replace (r <? 128) with true by lia.
  destruct (between 65 90 r) eqn:E; unfold between in *; lia.
Qed.

Lemma ToLower_ascii s :
  all_bytes is_ascii s = true ->
  String.list_ascii_of_string (ToLower s) =
    (fun c => chr (rune_ToLower (byte_of c))) <$> String.list_ascii_of_string s.
Proof.
  intros Hs. unfold ToLower. rewrite runes_ascii_all by done.
  apply all_bytes_Forall in Hs.
  induction (String.list_ascii_of_string s) as [| c l IH]; [done |].
  inversion Hs as [| ? ? Hc Hl]; subst. rewrite !fmap_cons. cbn [concat_strings fst].
  pose proof (byte_of_range c). unfold is_ascii in Hc.
  rewrite encode_ascii by (apply rune_ToLower_ascii; lia).
  rewrite list_ascii_app, IH by done. done.
Qed.

(** Lowering the case of ASCII text changes nothing up to case. *)
Lemma EqualFold_ToLower s : all_bytes is_ascii s = true -> EqualFold (ToLower s) s = true.
Proof.
  intros Hs. unfold EqualFold.
  assert (all_bytes is_ascii (ToLower s) = true) as Hl.
  { apply all_bytes_Forall. rewrite ToLower_ascii by done. apply all_bytes_Forall in Hs.
    apply Forall_fmap. eapply Forall_impl; [exact Hs |]. intros c Hc. simpl.
    pose proof (byte_of_range c). unfold is_ascii in *.
    pose proof (rune_ToLower_ascii (byte_of c) ltac:(lia)).
    rewrite byte_of_chr by lia. lia. }
  rewrite !runes_ascii_all, ToLower_ascii by done. apply all_bytes_Forall in Hs.
  clear Hl. induction (String.list_ascii_of_string s) as [| c l IH]; [done |].
  inversion Hs as [| ? ? Hc Hl]; subst. rewrite !fmap_cons. cbn [fold_eq_runes fst].
  pose proof (byte_of_range c). unfold is_ascii in Hc.
  pose proof (rune_ToLower_ascii (byte_of c) ltac:(lia)).
  rewrite byte_of_chr by lia. rewrite rune_fold_lower by lia. by apply IH.
Qed.
End fold.

(** ** CPU limits *)

Lemma forallb_range (P : Z -> bool) n k :
  forallb (fun i => P (Z.of_nat i)) (seq 1 n) = true -> 1 <= k <= Z.of_nat n -> P k = true.
Proof.
  intros Hall Hk. rewrite forallb_forall in Hall.
  rewrite <- (Z2Nat.id k) by lia. apply Hall. apply in_seq. lia.
Qed.

Section limits.
Context `{UnicodeData}.

(** The CPU limit that the enforcement of a recorded container asks for. *)
Definition cpu_read_back (h : HostConfigInfo) : Z :=
  r_NanoCPUs (buildDockerResources (snapshot_resources h)).
(** It is the limit that was recorded. *)
Definition cpu_exact (nanoCPUs : Z) : bool :=
  cpu_read_back (mkHostConfigInfo EmptyString nanoCPUs 0) =? nanoCPUs.

(** It depends on the CPU limit alone. *)
Lemma cpu_read_back_any h n :
  hci_NanoCPUs h = n -> 0 < n -> cpu_read_back h = cpu_read_back (mkHostConfigInfo EmptyString n 0).
Proof.
  intros <- Hn. unfold cpu_read_back, snapshot_resources. cbn [hci_NanoCPUs hci_Memory].
  by replace (0 <? hci_NanoCPUs h) with true by lia.
Qed.
Lemma cpu_exact_any h : 0 < hci_NanoCPUs h -> cpu_exact (hci_NanoCPUs h) = true ->
  cpu_read_back h = hci_NanoCPUs h.
Proof. intros Hn Hx. rewrite (cpu_read_back_any h _ eq_refl Hn). unfold cpu_exact in Hx. lia. Qed.

(** C40: what adoption records of a CPU limit and enforcement reads back: the limit
    itself, for every hundredth up to two CPUs and every whole number up to 256; of
    2.01 CPUs it is one billionth less, and so a container with that limit is taken
    for one that drifted from the very spec that was recorded from it. *)
Theorem cpu_limit_roundtrip :
  (forall h k, 1 <= k <= 200 -> hci_NanoCPUs h = k * 10 ^ 7 ->
     r_NanoCPUs (buildDockerResources (snapshot_resources h)) = hci_NanoCPUs h) /\
  (forall h k, 1 <= k <= 256 -> hci_NanoCPUs h = k * 10 ^ 9 ->
     r_NanoCPUs (buildDockerResources (snapshot_resources h)) = hci_NanoCPUs h) /\
  forall h, hci_NanoCPUs h = 2010000000 ->
    r_NanoCPUs (buildDockerResources (snapshot_resources h)) = 2009999999 /\
    forall base config ns spec, cjb_HostConfig base = Some h -> cs_Resources spec = snapshot_resources h ->
      needsRecreate (mkContainerJSON (Some base) (Some config) ns) spec = Val true.
Proof.
  split_and!.
  - intros h k Hk E. apply cpu_exact_any; [lia |]. rewrite E.
    revert Hk. apply (forallb_range (fun k => cpu_exact (k * 10 ^ 7)) 200). by vm_compute.
  - intros h k Hk E. apply cpu_exact_any; [lia |]. rewrite E.
    revert Hk. apply (forallb_range (fun k => cpu_exact (k * 10 ^ 9)) 256). by vm_compute.
  - intros h E. assert (cpu_read_back h = 2009999999) as Hback.
    { rewrite (cpu_read_back_any h _ E) by lia. by vm_compute. }
    split; [exact Hback |]. intros base config ns spec Hbase Hres.
    destruct (needsRecreate_cases base config ns spec) as ([] & -> & Hb); [done |].
    destruct (proj1 Hb eq_refl) as (_ & _ & _ & Hh). destruct (Hh h Hbase) as [_ Hl].
    unfold limits_match in Hl. rewrite Hres in Hl. unfold cpu_read_back in Hback.
    rewrite Hl in Hback.
    + simpl in Hback. congruence.
    + unfold snapshot_resources. rewrite E. done.
Qed.
End limits.

(** ** A created container matches its spec *)

Section drift.
Context `{UnicodeData} `{NatLib} `{Sha256} `{X509} `{TarLib} `{ControllerUtil}.

Lemma created_matches cr entries exposed bindings base config :
  all_bytes is_ascii (cs_RestartPolicy (dc_Spec cr)) = true ->
  reports (container_config cr (cs_Env (dc_Spec cr) ++ entries) exposed)
          (container_host_config cr bindings) base config ->
  matches_spec base config (dc_Spec cr).
Proof.
  intros Hascii [Himg Hcmd Henv Hhost]. unfold matches_spec.
  cbn [container_config container_host_config cfg_Image cfg_Cmd cfg_Env hcfg_RestartPolicy
    hcfg_Resources] in *. split_and!; try done.
  - intros e He. apply Henv. set_solver.
  - intros h Hh. destruct (Hhost h Hh) as [Hp Hl]. split; [| by intros _; rewrite Hl].
    intros Hne. rewrite Hp. apply eqb_str_false in Hne. rewrite Hne.
    by apply EqualFold_ToLower.
Qed.

(** A container that matches the spec does not drift from it. *)
Lemma matches_no_drift base config ns spec :
  matches_spec base config spec -> needsRecreate (mkContainerJSON (Some base) (Some config) ns) spec = Val false.
Proof.
  intros Hm. destruct (needsRecreate_cases base config ns spec) as (b & -> & Hb). f_equal. by apply Hb.
Qed.

Lemma no_drift_matches base config ns spec :
  needsRecreate (mkContainerJSON (Some base) (Some config) ns) spec = Val false -> matches_spec base config spec.
Proof.
  destruct (needsRecreate_cases base config ns spec) as (b & -> & Hb). intros [= ->]. by apply Hb.
Qed.

(** A container created as [create] asks, and reported as created, does not drift
    from its spec. *)
Theorem created_no_drift cr entries exposed bindings base config ns :
  all_bytes is_ascii (cs_RestartPolicy (dc_Spec cr)) = true ->
  reports (container_config cr (cs_Env (dc_Spec cr) ++ entries) exposed)
          (container_host_config cr bindings) base config ->
  needsRecreate (mkContainerJSON (Some base) (Some config) ns) (dc_Spec cr) = Val false.
Proof. intros Ha Hr. by eapply matches_no_drift, created_matches. Qed.

(** ** An adopted container matches the spec recorded from it *)

Lemma snapshot_spec host m base config ns t sn :
  runs (runtimeSnapshotFromInspect host m (mkContainerJSON (Some base) (Some config) ns)) t (Val sn) ->
  let s := sn_Spec sn in
  cs_Image s = ci_Image config /\ cs_Command s = ci_Cmd config /\
  cs_Env s = sort_Strings (ci_Env config) /\ cs_DockerHostRef s = host /\
  cs_ManagementMode s = DockerContainerManagementModeObserve /\
  cs_RestartPolicy s = match cjb_HostConfig base with Some h => hci_RestartPolicy h | None => EmptyString end /\
  cs_Resources s = cjb_HostConfig base ≫= snapshot_resources.
Proof.
  unfold runtimeSnapshotFromInspect. intros Hr. cbn [cj_Base cj_Config] in Hr.
  destruct (c_Names m) as [| n names]; [by run_inv |].
  repeat (run_step; simplify_eq); by split_and!.
Qed.

Lemma snapshot_limits h :
  0 <= hci_NanoCPUs h -> in_int64 (hci_Memory h) -> 0 <= hci_Memory h ->
  (0 < hci_NanoCPUs h -> cpu_exact (hci_NanoCPUs h) = true) ->
  snapshot_resources h <> None ->
  buildDockerResources (snapshot_resources h) = mkResources (hci_NanoCPUs h) (hci_Memory h).
Proof.
  intros Hc Hm64 Hm Hexact. unfold snapshot_resources.
  destruct (_ || _) eqn:Eany; [intros _ | done].
  unfold buildDockerResources. cbn [rr_CPULimit rr_MemoryLimit]. f_equal.
  - destruct (0 <? hci_NanoCPUs h) eqn:Ec; [| rewrite (proj2 (eqb_str_true EmptyString "") eq_refl); lia].
    etrans; [| apply (cpu_exact_any h); [lia | apply Hexact; lia]].
    unfold cpu_read_back, snapshot_resources. by rewrite Ec.
  - destruct (0 <? hci_Memory h) eqn:Em; [| rewrite (proj2 (eqb_str_true EmptyString "") eq_refl); lia].
    destruct (eqb_str (formatBytes _) "") eqn:Ee; [| by apply parse_formatBytes].
    apply eqb_str_true in Ee. pose proof (parse_formatBytes (hci_Memory h) Hm64) as Hp.
    rewrite Ee in Hp. change (parseMemoryString EmptyString) with 0 in Hp. lia.
Qed.

(** Adoption is safe: the spec recorded from a running container, switched
    to Enforce and changed in nothing else, is one the container does not drift
    from, so enforcing it does not recreate the container; the CPU limit must be
    one that survives its text. *)
Theorem adopted_no_drift host m base config ns t sn mode :
  runs (runtimeSnapshotFromInspect host m (mkContainerJSON (Some base) (Some config) ns)) t (Val sn) ->
  (forall h, cjb_HostConfig base = Some h ->
     0 <= hci_NanoCPUs h /\ in_int64 (hci_Memory h) /\ 0 <= hci_Memory h /\
     (0 < hci_NanoCPUs h -> cpu_exact (hci_NanoCPUs h) = true)) ->
  needsRecreate (mkContainerJSON (Some base) (Some config) ns)
    (set_ManagementMode mode (sn_Spec sn)) = Val false.
Proof.
  intros Hr Hlim. apply snapshot_spec in Hr as (Himg & Hcmd & Henv & _ & _ & Hpol & Hres).
  destruct (needsRecreate_cases base config ns (set_ManagementMode mode (sn_Spec sn)))
    as (b & -> & Hb).
  f_equal. apply Hb. unfold matches_spec, policy_matches, limits_match. cbn.
  rewrite Himg, Hcmd, Henv, Hpol, Hres. split_and!; try done.
  - intros e. by rewrite sort_Strings_perm.
  - intros h Hh. rewrite Hh. cbn. destruct (Hlim h Hh) as (? & ? & ? & ?).
    split; [intros _; apply EqualFold_refl | by apply snapshot_limits].
Qed.

(** ** What Observe mode reports *)

Lemma ipv4_silent {X} (view : obs event -> option X) j :
  (forall V (m : gmap string V) l, view (Obs (MapRange V m) l) = None) ->
  always (fun o => view o = None) (dockerIPv4 j).
Proof. intros Hv. unfold dockerIPv4. always_tac. Qed.

Lemma snapshot_silent {X} (view : obs event -> option X) h m j :
  (forall V (m : gmap string V) l, view (Obs (MapRange V m) l) = None) ->
  always (fun o => view o = None) (runtimeSnapshotFromInspect h m j).
Proof.
  intros Hv. unfold runtimeSnapshotFromInspect, collectPortMappings.
  always_tac; by apply ipv4_silent.
Qed.

Lemma writeStatus_ok cr id state j t :
  runs (writeStatus cr id state j) t (Val tt) ->
  collect listed_containers t = [] /\
  exists ipv4 health,
    collect wrote_status t = [written_status (dc_Status cr) id state ipv4 health].
Proof.
  unfold writeStatus. intros Hr. run_step; simplify_eq.
  match goal with H : runs (dockerIPv4 _) _ _ |- _ => rename H into Hip end.
  pose proof (collect_unseen listed_containers _ _ _ (ipv4_silent _ _ (fun _ _ _ => eq_refl)) Hip) as Hl.
  pose proof (collect_unseen wrote_status _ _ _ (ipv4_silent _ _ (fun _ _ _ => eq_refl)) Hip) as Hw.
  repeat (run_step; simplify_eq/=). rewrite !collect_app, Hl, Hw. eauto.
Qed.

(** In Observe mode a synchronisation that succeeds reports what the daemon
    listed: the container's identifier and state, or [missing] with every other
    field cleared; the object is marked adopted. *)
Theorem observe_reports cli cr name t :
  runs (sync cli cr name) t (Val tt) ->
  managementModeFor cr = DockerContainerManagementModeObserve ->
  exists l st, collect listed_containers t = [l] /\ collect wrote_status t = [st] /\
    cst_Adopted st = true /\
    match findContainerByName l name with
    | None => st = missing_status
    | Some m => cst_ID st = c_ID m /\ cst_State st = c_State m
    end.
Proof.
  intros Hr Hm. unfold sync in Hr. run_step; subst; [| done].
  rewrite (proj2 (eqb_str_true _ _) Hm) in Hr. exists r. simpl.
  unfold observeRuntime in Hr. destruct (findContainerByName r name) as [m |].
  2:{ repeat (run_step; simplify_eq/=). eexists. by split_and!. }
  run_step; simplify_eq. run_step; simplify_eq.
  match goal with H : runs (runtimeSnapshotFromInspect _ _ _) _ _ |- _ => rename H into Hs end.
  apply writeStatus_ok in Hr as (Hl & ipv4 & health & Hw). simpl.
  rewrite !collect_app, Hl, Hw.
  rewrite (collect_unseen listed_containers _ _ _ (snapshot_silent _ _ _ _ (fun _ _ _ => eq_refl)) Hs).
  rewrite (collect_unseen wrote_status _ _ _ (snapshot_silent _ _ _ _ (fun _ _ _ => eq_refl)) Hs).
  eexists. by split_and!.
Qed.
(** ** The steady state of Enforce mode *)

(** A container that matches its spec is left alone: an enforcing
    synchronisation that finds it running and sees no drift makes no call that
    changes the host, and inspects it once. *)
Theorem enforce_steady_state cli cr name t o l m j js :
  runs (sync cli cr name) t o ->
  managementModeFor cr = DockerContainerManagementModeEnforce ->
  collect listed_containers t = [l] -> findContainerByName l name = Some m ->
  c_State m = containerStateRunning ->
  collect inspected t = j :: js -> needsRecreate j (dc_Spec cr) = Val false ->
  Forall (fun x => mutates_docker x = false) t /\ js = [] /\
  (forall st, st ∈ collect wrote_status t ->
     cst_ID st = c_ID m /\ cst_State st = containerStateRunning).
Proof.
  intros Hr Hmode Hl Hm Hst Hj Hn. unfold sync in Hr.
  run_step; subst; [| done].
  assert (eqb_str (managementModeFor cr) DockerContainerManagementModeObserve = false) as Hobs
    by (by rewrite Hmode).
  rewrite Hobs in Hr. clear Hobs.
  assert (r = l) as -> by (simpl in Hl; congruence). rewrite Hm in Hr.
  run_step; subst; [| done].
  assert (r = j) as -> by (simpl in Hj; congruence). rewrite Hn in Hr.
  apply (proj1 (runs_ret_bind _ _ _ _)) in Hr. cbv beta iota in Hr.
  rewrite Hst, (proj2 (eqb_str_true _ _) eq_refl) in Hr. simpl in Hj.
  split_and!.
  - do 2 (constructor; [done |]). by eapply always_runs; [apply quiet_writeStatus |].
  - assert (always (fun o => inspected o = None)
      (writeStatus cr (c_ID m) containerStateRunning j)) as Hq
      by (unfold writeStatus, dockerIPv4; always_tac).
    injection Hj as <-. by eapply collect_unseen.
  - simpl. match type of Hr with runs _ ?u _ =>
      assert (Forall (fun st => cst_ID st = c_ID m /\ cst_State st = containerStateRunning)
        (collect wrote_status u)) as Hall end.
    { eapply collect_always; [| exact Hr]. unfold writeStatus, dockerIPv4.
      always_tac; simpl; intros; simplify_eq/=; done. }
    by rewrite Forall_forall in Hall.
Qed.
End drift.
