(* ===== verification/ContainerStore.v ===== *)
(** * ContainerStore: the [DockerContainer] reconciler on a Docker host

    The reconciler against the containers of [DockerStore]: what a run leaves on
    the host, which containers it does not touch, and what the next run does. *)

From S2P Require Import Prelude Effects Stores GoText Strconv Floats ApiTypes Json World DockerStore KubeLib Adopt DockerHostClient ContainerController ContainerTheorems ContainerCreate ContainerDrift.

Open Scope Z_scope.

(** A name as Docker allows it has no slash. *)
Definition slash_free (name : string) : Prop := forall a b, name <> a +:+ "/" +:+ b.

Lemma slash_app (a b : string) : "/" +:+ a = "/" +:+ b -> a = b.
Proof. by intros [= ?]. Qed.

Section find.
Variables (d : daemon) (l : list Container) (name : string).
Hypothesis Hl : lists d l.
Hypothesis Hs : slash_free name.

(** The row that is found by name is that of the container so named. *)
Lemma listed_name c : c ∈ l -> ("/" +:+ name) ∈ c_Names c ->
  exists m, d !! c_ID c = Some m /\ m_Name m = name /\ c_State c = m_State m.
Proof using Hl Hs.
  destruct Hl as [Hall _]. rewrite Forall_forall in Hall. intros Hc Hn.
  destruct (Hall c Hc) as (m & Hm & Hst & _ & Hnames). exists m. split; [done |].
  destruct (Hnames _ Hn) as [E | (a & b & E)]; apply slash_app in E; [by split | by apply Hs in E].
Qed.

Lemma find_spec :
  match findContainerByName l name with
  | Some c => exists m, d !! c_ID c = Some m /\ m_Name m = name /\ c_State c = m_State m
  | None => name_free name d
  end.
Proof using All.
  unfold findContainerByName, has_string. destruct (head _) as [c |] eqn:E.
  - apply head_Some_elem_of, list_elem_of_filter in E as [Hn Hc].
    apply listed_name; [done |]. by apply bool_decide_spec in Hn.
  - apply head_None in E. intros id m Hm Hname. destruct Hl as [Hall Hin].
    destruct (Hin _ _ Hm) as (c & Hc & Hid). rewrite Forall_forall in Hall.
    destruct (Hall c Hc) as (m' & Hm' & _ & Hn & _).
    assert (m' = m) as -> by congruence. rewrite Hname in Hn.
    assert (c ∈ ([] : list Container)) as Habs; [| by apply not_elem_of_nil in Habs].
    rewrite <- E. apply list_elem_of_filter. split; [by apply bool_decide_spec | done].
Qed.
End find.

Section store.
Context `{UnicodeData} `{NatLib} `{Sha256} `{X509} `{TarLib} `{ControllerUtil}.

(** ** What a spec wants of a host *)

(** One container has the name; it is as the spec says and as [P] says. *)
Definition settled_as (P : string -> machine -> Prop) (spec : DockerContainerSpec) (name : string)
    (d : daemon) : Prop :=
  exists id m, d !! id = Some m /\ m_Name m = name /\ P id m /\ matches_spec (m_base m) (m_Config m) spec.

Definition running (id : string) (m : machine) : Prop := m_State m = containerStateRunning.
(** It runs, or it was there before, alive in another way, and was left so. *)
Definition kept_alive (d : daemon) (id : string) (m : machine) : Prop :=
  running id m \/ d !! id = Some m /\ alive m.

(** The daemon has it among its running containers. *)
Definition settled : DockerContainerSpec -> string -> daemon -> Prop := settled_as (fun _ => alive).

Lemma settled_as_mono (P Q : string -> machine -> Prop) spec name d :
  (forall id m, P id m -> Q id m) -> settled_as P spec name d -> settled_as Q spec name d.
Proof. intros HPQ (id & m & Hm & Hn & HP & Hmatch). exists id, m. auto. Qed.

Lemma running_alive id m : running id m -> alive m.
Proof. intros Hm. unfold alive. rewrite Hm. by left. Qed.
Lemma kept_alive_alive d id m : kept_alive d id m -> alive m.
Proof. intros [Hm | [_ Hm]]; [by eapply running_alive | done]. Qed.

(** What every run keeps: names are apart, and other containers as they were. *)
Definition bystanders (name : string) (d d' : daemon) : Prop := names_unique d' /\ same_but name d d'.

Lemma bystanders_refl name d : names_unique d -> bystanders name d d.
Proof. by split. Qed.
Lemma bystanders_trans name d1 d2 d3 : bystanders name d1 d2 -> bystanders name d2 d3 -> bystanders name d1 d3.
Proof. intros [_ Hs1] [Hu Hs2]. split; [done | by etrans]. Qed.

Lemma bystanders_update name d id m m' :
  names_unique d -> d !! id = Some m -> m_Name m = name -> m_Name m' = m_Name m ->
  bystanders name d (<[ id := m' ]> d).
Proof.
  intros Hu Hm Hn Hn'. split; [by eapply names_unique_update |]. apply same_but_insert; [congruence |].
  intros m2 Hm2. congruence.
Qed.

Lemma bystanders_delete name d id m :
  names_unique d -> d !! id = Some m -> m_Name m = name -> bystanders name d (delete id d).
Proof. intros Hu Hm <-. split; [by apply names_unique_delete | by apply same_but_delete]. Qed.

Lemma bystanders_create name d id m :
  names_unique d -> d !! id = None -> name_free (m_Name m) d -> m_Name m = name ->
  bystanders name d (<[ id := m ]> d).
Proof.
  intros Hu Hid Hf Hn. split; [by apply name_free_insert |].
  apply same_but_insert; [done |]. intros m' Hm'. congruence.
Qed.

(** ** The parts of a synchronisation *)

(** A call that acts on a container named by its identifier. *)
Lemma acts_id d key f r d' m :
  d !! key = Some m -> acts d key f r d' -> d' = f key m \/ d' = d /\ exists e, r = Err e.
Proof.
  intros Hk [(id & n & Hd & ->) | [-> Hr]].
  - left. by destruct (designates_id _ _ _ _ _ Hk Hd) as [-> ->].
  - right. split; [done |]. destruct r; [done | eauto].
Qed.

Lemma quiet_upload cli ns sv id : always inert (uploadSecretToContainer cli ns sv id).
Proof. unfold uploadSecretToContainer. always_tac; intros d d' Hs; exact Hs. Qed.

(** Starting what was just created. *)
Lemma start_created_store cli cr id d m name :
  names_unique d -> d !! id = Some m -> m_Name m = name -> m_State m = "created" ->
  matches_spec (m_base m) (m_Config m) (dc_Spec cr) ->
  triple d (start_created cli cr id) (fun o d' => bystanders name d d' /\
    (o = Val tt -> settled_as running (dc_Spec cr) name d')).
Proof.
  intros Hu Hm Hn Hst Hmatch. unfold start_created. apply triple_bind.
  apply triple_inert; [always_step; apply quiet_upload |].
  intros [u | e |]; cbn [continue]; [| split; [by apply bystanders_refl | done] ..].
  apply triple_bind, triple_try_call. intros r d1 _ Hs. simpl in Hs.
  destruct (acts_id _ _ _ _ _ _ Hm Hs) as [-> | [-> [e ->]]];
    [| split; [by apply bystanders_refl | done]].
  assert (bystanders name d (<[ id := started m ]> d)) as Hb
    by (eapply bystanders_update; eauto using started_Name).
  destruct r as [u' | e]; cbn [to_outcome continue]; [| by split].
  apply triple_bind, triple_call. intros j d2 _ [-> _]. cbn [continue].
  apply triple_quiet; [apply quiet_writeStatus |]. intros o. split; [done |]. intros _.
  exists id, (started m). rewrite started_Name, started_base, started_Config.
  split_and!; [apply lookup_insert_eq | done | | done].
  destruct (started_State m) as [? | [_ Ha]]; [done |]. unfold alive in Ha. rewrite Hst in Ha.
  by repeat (apply elem_of_cons in Ha as [? | Ha]; [done |]); apply not_elem_of_nil in Ha.
Qed.

Lemma prepared_inert t : Forall preparing t -> Forall inert t.
Proof. intros Ht. eapply Forall_impl; [exact Ht |]. intros o. apply prepares_inert. Qed.

(** What a synchronisation of [cr] under [name] does to a host: the others are left
    alone, and on success the spec is met by a container of which [P] holds. *)
Definition syncs (P : string -> machine -> Prop) (cr : DockerContainer) (name : string) (d : daemon)
    (o : outcome unit) (d' : daemon) : Prop :=
  bystanders name d d' /\ (o = Val tt -> settled_as P (dc_Spec cr) name d').

Lemma syncs_failed P cr name d o : names_unique d -> o <> Val tt -> syncs P cr name d o d.
Proof. intros Hu Ho. by split; [apply bystanders_refl |]. Qed.

Lemma syncs_after P cr name d d1 o d' :
  bystanders name d d1 -> syncs P cr name d1 o d' -> syncs P cr name d o d'.
Proof. intros Hb [Hb' Hs]. by split; [eapply bystanders_trans |]. Qed.

Lemma syncs_mono (P Q : string -> machine -> Prop) cr name d o d' :
  (forall id m, P id m -> Q id m) -> syncs P cr name d o d' -> syncs Q cr name d o d'.
Proof. intros HPQ [Hb Hs]. split; [done |]. eauto using settled_as_mono. Qed.

Section sync.
Variables (cli : DockerClient) (cr : DockerContainer) (name : string).
Hypothesis Hname : name <> "".
Hypothesis Hslash : slash_free name.
Hypothesis Hascii : all_bytes is_ascii (cs_RestartPolicy (dc_Spec cr)) = true.

Lemma create_store d :
  names_unique d -> name_free name d -> triple d (create cli cr name) (syncs running cr name d).
Proof using Hname Hslash Hascii.
  intros Hu Hf t o d' Hr Hs.
  apply create_cases in Hr as [[Ht [e ->]] | (t1 & t2 & t3 & -> & Hr & Ht1 & Ht3)].
  { apply prepared_inert in Ht. rewrite (served_inert _ _ _ Ht Hs). by apply syncs_failed. }
  apply served_app in Hs as (d1 & Hs1 & Hs). apply served_app in Hs as (d2 & Hs2 & Hs3).
  rewrite (served_inert _ _ _ (prepared_inert _ Ht3) Hs3). clear d' Hs3.
  rewrite (served_inert _ _ _ (prepared_inert _ Ht1) Hs1) in Hs2. clear d1 Hs1.
  apply create_container_cases in Hr as
    [[Ht [e ->]] | (exposed & bindings & t4 & entries & r & t5 & _ & Ht4 & _ & -> & Hr)].
  { rewrite (served_inert _ _ _ (prepared_inert _ Ht) Hs2). by apply syncs_failed. }
  apply served_app in Hs2 as (d1 & Hs4 & Hs5).
  rewrite (served_inert _ _ _ (prepared_inert _ Ht4) Hs4) in Hs5. clear d1 Hs4.
  apply served_head in Hs5 as (d1 & Hc & Hs). simpl in Hc.
  destruct Hc as [(id & m & _ & Hid & Hfree & (Hn & Hst & Hrep) & -> & Hans) | [-> Hans]].
  - specialize (Hn Hname). assert (bystanders name d (<[ id := m ]> d)) as Hb by by apply bystanders_create.
    destruct r as [id' | e]; [subst id' | destruct Hr as [-> ->]; inversion Hs; subst; by split].
    eapply syncs_after; [exact Hb |].
    refine (start_created_store cli cr id _ m name (proj1 Hb) _ Hn Hst _ _ _ _ Hr Hs).
    + apply lookup_insert_eq.
    + by eapply created_matches.
  - destruct r; [done |]. destruct Hr as [-> ->]. inversion Hs; subst. by apply syncs_failed.
Qed.
(** A call about the container found, by its identifier. *)
Lemma acts_bystanders d key f r d' m :
  names_unique d -> d !! key = Some m -> m_Name m = name -> bystanders name d (f key m) ->
  acts d key f r d' -> bystanders name d d'.
Proof using Hname Hslash Hascii.
  intros Hu Hm Hn Hf Ha. destruct (acts_id _ _ _ _ _ _ Hm Ha) as [-> | [-> _]]; [done |].
  by apply bystanders_refl.
Qed.

(** Without the container, the name is free. *)
Lemma deleted_name_free d id m :
  names_unique d -> d !! id = Some m -> m_Name m = name -> name_free name (delete id d).
Proof.
  intros Hu Hm Hn i n [Hi Hl]%lookup_delete_Some E. apply Hi. apply (Hu id i m n); congruence.
Qed.

Lemma recreate_store d key m :
  names_unique d -> d !! key = Some m -> m_Name m = name ->
  triple d (call (DContainerStop cli key 10) ;; try_call (DContainerRemove cli key true) ;; create cli cr name)
    (syncs running cr name d).
Proof using Hname Hslash Hascii.
  intros Hu Hm Hn. apply triple_bind, triple_call. intros r d1 _ Hs. simpl in Hs. cbn [continue].
  assert (bystanders name d d1) as Hb1.
  { eapply acts_bystanders; [done | exact Hm | done | | exact Hs].
    eapply bystanders_update; eauto using stopped_Name. }
  assert (exists m1, d1 !! key = Some m1 /\ m_Name m1 = name) as (m1 & Hm1 & Hn1).
  { destruct (acts_id _ _ _ _ _ _ Hm Hs) as [-> | [-> _]]; [| eauto].
    eexists. split; [apply lookup_insert_eq | by rewrite stopped_Name]. }
  apply triple_bind, triple_try_call. intros r' d2 _ Hs2. simpl in Hs2.
  destruct (acts_id _ _ _ _ _ _ Hm1 Hs2) as [-> | [-> [e ->]]].
  - assert (bystanders name d1 (delete key d1)) as Hb2 by by apply (bystanders_delete _ _ _ m1); [apply Hb1 | |].
    assert (bystanders name d (delete key d1)) as Hb by by eapply bystanders_trans.
    destruct r' as [u | e]; cbn [to_outcome continue]; [| by split].
    eapply triple_mono; [apply create_store; [apply Hb | by eapply deleted_name_free; [apply Hb1 | |]] |].
    intros o d'. by apply syncs_after.
  - cbn [to_outcome continue]. by split.
Qed.

(** The spec is met by a container that is started if it was not running. *)
Lemma keep_store d key m j state :
  names_unique d -> d !! key = Some m -> m_Name m = name -> describes key m j -> state = m_State m ->
  needsRecreate j (dc_Spec cr) = Val false ->
  triple d (if eqb_str state containerStateRunning then writeStatus cr key state j
            else try_call (DContainerStart cli key) ;; writeStatus cr key containerStateRunning j)
    (syncs (kept_alive d) cr name d).
Proof using Hname Hslash Hascii.
  intros Hu Hm Hn Hj -> Hd.
  assert (matches_spec (m_base m) (m_Config m) (dc_Spec cr)) as Hmatch.
  { destruct Hj as (base & st & Hbase & _ & _ & Hhc & Hcfg & _).
    destruct j as [b c ns]. simpl in Hbase, Hcfg. subst b c.
    destruct (needsRecreate_cases base (m_Config m) ns (dc_Spec cr)) as (b & E & Hb).
    rewrite E in Hd. injection Hd as ->. destruct (proj1 Hb eq_refl) as (? & ? & ? & Hh).
    split_and!; try done. cbn [m_base cjb_HostConfig]. by rewrite <- Hhc. }
  destruct (eqb_str (m_State m) containerStateRunning) eqn:Est.
  - apply eqb_str_true in Est. apply triple_quiet; [apply quiet_writeStatus |].
    intros o. split; [by apply bystanders_refl |]. intros _. exists key, m. split_and!; try done. by left.
  - apply triple_bind, triple_try_call. intros r d1 _ Hs. simpl in Hs.
    destruct (acts_id _ _ _ _ _ _ Hm Hs) as [-> | [-> [e ->]]]; [| by apply syncs_failed].
    assert (bystanders name d (<[ key := started m ]> d)) as Hb
      by (eapply bystanders_update; eauto using started_Name).
    destruct r as [u | e]; cbn [to_outcome continue]; [| by split].
    apply triple_quiet; [apply quiet_writeStatus |]. intros o. split; [done |]. intros _.
    exists key, (started m). rewrite started_Name, started_base, started_Config.
    split_and!; [apply lookup_insert_eq | done | | done].
    destruct (started_State m) as [? | [-> Ha]]; [by left | by right].
Qed.

Lemma sync_store d :
  managementModeFor cr = DockerContainerManagementModeEnforce -> names_unique d ->
  triple d (sync cli cr name) (syncs (kept_alive d) cr name d).
Proof using Hname Hslash Hascii.
  intros Hmode Hu. unfold sync. apply triple_bind, triple_try_call. intros l d1 _ [-> Hl].
  destruct l as [l | e]; cbn [to_outcome continue]; [| by apply syncs_failed].
  assert (eqb_str (managementModeFor cr) DockerContainerManagementModeObserve = false) as ->
    by by rewrite Hmode.
  pose proof (find_spec d l name Hl Hslash) as Hf.
  assert (forall o d', syncs running cr name d o d' -> syncs (kept_alive d) cr name d o d') as Hrun.
  { intros o d'. apply syncs_mono. intros id m Hm. by left. }
  destruct (findContainerByName l name) as [c |];
    [| eapply triple_mono; [by apply create_store | exact Hrun]].
  destruct Hf as (m & Hm & Hn & Hst).
  apply triple_bind, triple_try_call. intros j d2 _ [-> Hj].
  destruct j as [j | e]; cbn [to_outcome continue]; [| by apply syncs_failed].
  destruct Hj as (id & m' & Hd & Hdesc). destruct (designates_id _ _ _ _ _ Hm Hd) as [-> ->].
  apply triple_bind, triple_lift.
  destruct (needsRecreate j (dc_Spec cr)) as [drift | e |] eqn:Ed; cbn [continue]; [| by apply syncs_failed ..].
  destruct drift.
  - eapply triple_mono; [by eapply recreate_store | exact Hrun].
  - by eapply keep_store.
Qed.
End sync.

(** ** The next synchronisation *)

Lemma describes_no_drift id m j spec :
  describes id m j -> matches_spec (m_base m) (m_Config m) spec -> needsRecreate j spec = Val false.
Proof.
  intros (base & st & Hbase & _ & _ & Hhc & Hcfg & _) (? & ? & ? & Hh).
  destruct j as [b c ns]. simpl in Hbase, Hcfg. subst b c. apply matches_no_drift.
  split_and!; try done. intros h Eh. apply Hh. cbn [m_base cjb_HostConfig]. by rewrite <- Hhc.
Qed.

(** A call that leaves the container that is wanted as it is: at most a start. *)
Definition undemanding (o : obs event) : Prop :=
  quiet o \/ exists cli id r, o = Obs (DContainerStart cli id) r.

Lemma quiet_undemanding t : Forall quiet t -> Forall undemanding t.
Proof. intros Hq. eapply Forall_impl; [exact Hq |]. by left. Qed.

(** Starting what is alive changes nothing. *)
Lemma start_alive d key m r d' :
  d !! key = Some m -> alive m -> acts d key (fun id m => <[ id := started m ]> d) r d' -> d' = d.
Proof.
  intros Hm Ha Hs. destruct (acts_id _ _ _ _ _ _ Hm Hs) as [-> | [-> _]]; [| done].
  rewrite (started_id _ Ha). by apply insert_id.
Qed.

Lemma quiet_same t (d d' : daemon) : Forall quiet t -> served d t d' -> d' = d.
Proof. intros Hq. apply served_inert. eapply Forall_impl; [exact Hq |]. apply quiet_inert. Qed.

(** What a run does to a host with the container that is wanted. *)
Definition rests (P : Prop) (d : daemon) (t : list (obs event)) (d' : daemon) : Prop :=
  d' = d /\ Forall undemanding t /\ (P -> Forall quiet t).

Lemma quiet_rests P d t d' : Forall quiet t -> served d t d' -> rests P d t d'.
Proof. intros Hq Hs. split_and!; [by eapply quiet_same | by apply quiet_undemanding | done]. Qed.

Lemma rests_cons P d o t d' : quiet o -> rests P d t d' -> rests P d (o :: t) d'.
Proof. intros Ho (-> & Ht & Hq). split_and!; [done | constructor; [by left | done] |]. intros HP. constructor; auto. Qed.

Lemma sync_settled cli cr name d t o d' :
  slash_free name -> names_unique d -> managementModeFor cr = DockerContainerManagementModeEnforce ->
  settled (dc_Spec cr) name d -> runs (sync cli cr name) t o -> served d t d' ->
  rests (settled_as running (dc_Spec cr) name d) d t d'.
Proof.
  intros Hslash Hu Hmode (id & m & Hm & Hn & Hst & Hmatch) Hr Hs. unfold sync in Hr.
  run_step; subst; [| by apply quiet_rests; [repeat constructor |]].
  assert (eqb_str (managementModeFor cr) DockerContainerManagementModeObserve = false) as Hobs
    by (by rewrite Hmode).
  rewrite Hobs in Hr. clear Hobs.
  apply served_head in Hs as (d1 & [-> Hl] & Hs). apply rests_cons; [done |].
  pose proof (find_spec d r (m_Name m) Hl Hslash) as Hf.
  destruct (findContainerByName r (m_Name m)) as [c |]; [| by destruct (Hf _ _ Hm)].
  destruct Hf as (m1 & Hm1 & Hn1 & Hst1).
  assert (c_ID c = id) as Eid by (apply (Hu _ _ m1 m); congruence).
  assert (m1 = m) as -> by congruence. clear Hn1.
  run_step; subst; [| by apply quiet_rests; [repeat constructor |]].
  apply served_head in Hs as (d1 & [-> (id2 & m2 & Hd & Hdesc)] & Hs). apply rests_cons; [done |].
  destruct (designates_id _ _ _ _ _ Hm Hd) as [-> ->].
  rewrite (describes_no_drift _ _ _ _ Hdesc Hmatch) in Hr.
  apply (proj1 (runs_ret_bind _ _ _ _)) in Hr. cbv beta iota in Hr. rewrite Hst1 in Hr.
  destruct (eqb_str (m_State m) containerStateRunning) eqn:Erun.
  - apply quiet_rests; [| done]. by eapply always_runs; [apply quiet_writeStatus |].
  - assert (~ settled_as running (dc_Spec cr) (m_Name m) d) as Hnot.
    { intros (id3 & m3 & Hm3 & Hn3 & Hrun3 & _). assert (id3 = c_ID c) as -> by by apply (Hu _ _ m3 m).
      assert (m3 = m) as -> by congruence. by apply eqb_str_false in Erun. }
    assert (forall r t2 d1, store_step d (Obs (DContainerStart cli (c_ID c)) r) d1 -> served d1 t2 d' ->
      Forall quiet t2 -> rests (settled_as running (dc_Spec cr) (m_Name m) d) d
        (Obs (DContainerStart cli (c_ID c)) r :: t2) d') as Hfin.
    { intros r2 t2 d2 Hstep Hs2 Hq. apply (start_alive _ _ _ _ _ Hm Hst) in Hstep as ->.
      split_and!; [by eapply quiet_same | | done].
      constructor; [right; eauto | by apply quiet_undemanding]. }
    run_step; subst; apply served_head in Hs as (d2 & Hstep & Hs); eapply Hfin; eauto.
    by eapply always_runs; [apply quiet_writeStatus |].
Qed.

(** ** Reconciliations *)

(** An object whose container the operator is to run. *)
Definition enforced (cr : DockerContainer) : Prop :=
  managementModeFor cr = DockerContainerManagementModeEnforce /\
  time_IsZero (om_DeletionTimestamp (dc_Meta cr)) = true /\
  ContainsFinalizer (om_Finalizers (dc_Meta cr)) dockerContainerFinalizer = true.

(** A name and a policy that pass the checks of the API server and the daemon. *)
Definition well_formed (cr : DockerContainer) : Prop :=
  runtime_name cr <> "" /\ slash_free (runtime_name cr) /\ valid_spec (dc_Spec cr) = true.

Lemma valid_policy_ascii spec : valid_spec spec = true -> all_bytes is_ascii (cs_RestartPolicy spec) = true.
Proof.
  unfold valid_spec. rewrite !andb_true_iff. intros [[_ Hp] _]. apply bool_decide_eq_true in Hp.
  by repeat (apply elem_of_cons in Hp as [-> | Hp]; [by vm_compute |]); apply not_elem_of_nil in Hp.
Qed.

(** A reconciliation of a live object opens a client and synchronises. *)
Lemma reconcile_enforced cr t o :
  enforced cr -> runs (reconcile_found cr) t o ->
  (Forall quiet t /\ forall r, o <> Val r) \/
  exists t1 cli t2 o2 t3, t = t1 ++ t2 ++ t3 /\ Forall quiet t1 /\ Forall quiet t3 /\
    runs (sync cli cr (runtime_name cr)) t2 o2 /\ (o2 <> Val tt -> forall r, o <> Val r).
Proof.
  intros (_ & Hlive & Hfin) Hr. unfold reconcile_found in Hr. rewrite Hlive, Hfin in Hr.
  cbn [negb] in Hr.
  apply (proj1 (runs_bind _ _ _ _)) in Hr as
    [(t1 & cli & t2 & -> & Hc & Hr) | [(e & -> & Hc) | (-> & Hc)]];
    apply (always_runs _ _ _ _ (quiet_NewClient _ _)) in Hc as Hq; [| by left | by left].
  right. apply (proj1 (runs_deferring _ _ _ _)) in Hr as (t3 & t4 & x & -> & Hr & Hd).
  assert (Forall quiet t4) as Hq4 by (run_step; subst; by repeat constructor).
  apply (proj1 (runs_bind _ _ _ _)) in Hr as
    [(t5 & [] & t6 & -> & Hs & Hr) | [(e & -> & Hs) | (-> & Hs)]].
  - run_step. subst. exists t1, cli, t5, (Val tt), t4. by rewrite app_nil_r.
  - by exists t1, cli, t3, (Fail e), t4.
  - by exists t1, cli, t3, Panic, t4.
Qed.

Lemma reconcile_syncs cr d t o d' :
  runs (reconcile_found cr) t o -> served d t d' -> names_unique d -> enforced cr -> well_formed cr ->
  bystanders (runtime_name cr) d d' /\
  forall r, o = Val r -> settled_as (kept_alive d) (dc_Spec cr) (runtime_name cr) d'.
Proof.
  intros Hr Hs Hu He (Hn & Hslash & Hv).
  destruct (reconcile_enforced _ _ _ He Hr) as
    [[Hq Ho] | (t1 & cli & t2 & o2 & t3 & -> & Hq1 & Hq3 & Hsync & Ho)].
  { rewrite (quiet_same _ _ _ Hq Hs). split; [by apply bystanders_refl |]. intros r E. by destruct (Ho r). }
  apply served_app in Hs as (d1 & Hs1 & Hs). apply served_app in Hs as (d2 & Hs2 & Hs3).
  rewrite (quiet_same _ _ _ Hq3 Hs3). rewrite (quiet_same _ _ _ Hq1 Hs1) in Hs2. clear Hs1 Hs3.
  destruct (sync_store cli cr _ Hn Hslash (valid_policy_ascii _ Hv) d (proj1 He) Hu _ _ _ Hsync Hs2)
    as [Hb Hset].
  split; [done |]. intros r E. apply Hset. destruct o2 as [[] | |]; [done | by destruct (Ho ltac:(done) r) ..].
Qed.

(** The next reconciliation of a spec that is met. *)
Lemma reconcile_settled req t o cr d d' :
  runs (Reconcile req) t o -> first_container t = Some (Ok cr) -> served d t d' ->
  names_unique d -> enforced cr -> slash_free (runtime_name cr) ->
  settled (dc_Spec cr) (runtime_name cr) d ->
  rests (settled_as running (dc_Spec cr) (runtime_name cr) d) d t d'.
Proof.
  intros Hr Hf Hs Hu He Hslash Hset.
  apply (Reconcile_found _ _ _ cr) in Hr as (t' & -> & Hr); [| done].
  apply served_head in Hs as (d0 & -> & Hs). apply rests_cons; [done |].
  destruct (reconcile_enforced _ _ _ He Hr) as
    [[Hq _] | (t1 & cli & t2 & o2 & t3 & -> & Hq1 & Hq3 & Hsync & _)]; [by apply quiet_rests |].
  apply served_app in Hs as (d1 & Hs1 & Hs2). apply served_app in Hs2 as (d3 & Hs2 & Hs3).
  rewrite (quiet_same _ _ _ Hq1 Hs1) in Hs2. rewrite (quiet_same _ _ _ Hq3 Hs3). clear Hs1 Hs3.
  destruct (sync_settled _ _ _ _ _ _ _ Hslash Hu (proj1 He) Hset Hsync Hs2) as (-> & Ht & Hq).
  split_and!; [done | rewrite !Forall_app; split_and!; auto using quiet_undemanding |].
  intros Hrun. rewrite !Forall_app. auto.
Qed.

(** C3: the reconciler converges: on a Docker host as its daemon documents it, one
    reconciliation of an enforced object that succeeds leaves exactly one container
    of its name, which is as the spec says and runs, or else was there before,
    restarting or paused, and was left so, since a start of such a container that is
    not refused is answered with a 304 and has no effect.  And the next reconciliation changes
    nothing on the host, whatever it is answered: it creates, stops and removes
    nothing, and asks for nothing at all if the container runs. *)
Theorem container_converges req t r cr d d' :
  runs (Reconcile req) t (Val r) -> first_container t = Some (Ok cr) -> served d t d' ->
  names_unique d -> enforced cr -> well_formed cr ->
  settled_as (kept_alive d) (dc_Spec cr) (runtime_name cr) d' /\ names_unique d' /\
  forall req2 t2 o2 cr2 d2, runs (Reconcile req2) t2 o2 -> first_container t2 = Some (Ok cr2) ->
    served d' t2 d2 -> enforced cr2 -> dc_Spec cr2 = dc_Spec cr -> runtime_name cr2 = runtime_name cr ->
    d2 = d' /\ Forall undemanding t2 /\
    (settled_as running (dc_Spec cr) (runtime_name cr) d' -> Forall quiet t2).
Proof.
  intros Hr Hf Hs Hu He Hw. apply (Reconcile_found _ _ _ cr) in Hr as (t' & -> & Hr); [| done].
  apply served_head in Hs as (d0 & -> & Hs).
  destruct (reconcile_syncs _ _ _ _ _ Hr Hs Hu He Hw) as [[Hu' _] Hset].
  specialize (Hset r eq_refl). split_and!; [done | done |].
  intros req2 t2 o2 cr2 d2 Hr2 Hf2 Hs2 He2 Espec Ename. rewrite <- Espec, <- Ename in *.
  eapply reconcile_settled; [exact Hr2 | exact Hf2 | exact Hs2 | exact Hu' | exact He2 | |].
  - rewrite Ename. apply Hw.
  - eapply settled_as_mono; [| exact Hset]. apply kept_alive_alive.
Qed.

(** C4: an object has its own container and no other: no reconciliation of an
    object that is not being deleted, in either mode, whether it succeeds, fails
    or panics and whatever it is answered, touches a container of another name,
    so whatever another object wants of the host and has stays so; and the names
    on the host stay apart. *)
Theorem container_frame req t o cr d d' :
  runs (Reconcile req) t o -> first_container t = Some (Ok cr) -> served d t d' ->
  names_unique d -> time_IsZero (om_DeletionTimestamp (dc_Meta cr)) = true -> well_formed cr ->
  names_unique d' /\
  (forall id m, m_Name m <> runtime_name cr -> d !! id = Some m <-> d' !! id = Some m) /\
  forall P spec name, name <> runtime_name cr -> settled_as P spec name d -> settled_as P spec name d'.
Proof.
  intros Hr Hf Hs Hu Hlive Hw.
  enough (bystanders (runtime_name cr) d d') as [Hu' Hsame].
  { split_and!; [done | exact Hsame |]. intros P spec name Hne (id & m & Hm & Hn & Hrest).
    exists id, m. split; [apply Hsame; [congruence | done] | done]. }
  apply (Reconcile_found _ _ _ cr) in Hr as (t' & -> & Hr); [| done].
  apply served_head in Hs as (d0 & -> & Hs).
  destruct (ContainsFinalizer (om_Finalizers (dc_Meta cr)) dockerContainerFinalizer) eqn:Hfin.
  - destruct (decide (managementModeFor cr = DockerContainerManagementModeObserve)) as [Hm | Hm].
    + assert (always quiet (reconcile_found cr)) as Hq.
      { unfold reconcile_found. rewrite Hlive, Hfin. cbn [negb].
        always_tac; auto using quiet_NewClient, quiet_sync_observe. }
      rewrite (quiet_same _ _ _ (always_runs _ _ _ _ Hq Hr) Hs). by apply bystanders_refl.
    + assert (managementModeFor cr = DockerContainerManagementModeEnforce) as Henf.
      { unfold managementModeFor in *. by repeat case_match. }
      by eapply reconcile_syncs.
  - assert (always quiet (reconcile_found cr)) as Hq.
    { unfold reconcile_found. rewrite Hlive, Hfin. cbn [negb]. always_tac. }
    rewrite (quiet_same _ _ _ (always_runs _ _ _ _ Hq Hr) Hs). by apply bystanders_refl.
Qed.

(** ** Secrets *)

Lemma sync_existing cli cr name d t o d' :
  slash_free name -> names_unique d -> managementModeFor cr = DockerContainerManagementModeEnforce ->
  (exists id m, d !! id = Some m /\ m_Name m = name /\ matches_spec (m_base m) (m_Config m) (dc_Spec cr)) ->
  runs (sync cli cr name) t o -> served d t d' -> collect copied t = [].
Proof.
  intros Hslash Hu Hmode Hex Hr Hs. unfold sync in Hr. run_step; subst; [| done].
  assert (eqb_str (managementModeFor cr) DockerContainerManagementModeObserve = false) as Hobs
    by (by rewrite Hmode).
  rewrite Hobs in Hr. clear Hobs. apply served_head in Hs as (d1 & [-> Hl] & Hs1).
  destruct Hex as (id & m & Hm & Hn & Hmatch). pose proof (find_spec d r name Hl Hslash) as Hf.
  destruct (findContainerByName r name) as [c |]; [| by destruct (Hf _ _ Hm)].
  destruct Hf as (m1 & Hm1 & Hn1 & Hst1).
  assert (c_ID c = id) as Eid by (apply (Hu _ _ m1 m); congruence).
  assert (m1 = m) as -> by congruence. clear Hn Hn1.
  run_step; subst; [| done]. apply served_head in Hs1 as (d1 & [-> (id2 & m2 & Hd & Hdesc)] & Hs2).
  destruct (designates_id _ _ _ _ _ Hm Hd) as [-> ->].
  rewrite (describes_no_drift _ _ _ _ Hdesc Hmatch) in Hr.
  apply (proj1 (runs_ret_bind _ _ _ _)) in Hr. cbv beta iota in Hr. simpl.
  eapply collect_unseen; [| exact Hr]. unfold writeStatus, dockerIPv4. always_tac.
Qed.

End store.
