(* ===== verification/JobStore.v ===== *)
(** * JobStore: the [DockerJob] reconciler on a Docker host

    The reconciler against the containers of [DockerStore]: a job whose container
    could be created but not started. *)

From S2P Require Import Prelude Effects Stores GoText Strconv ApiTypes World DockerStore KubeLib DockerHostClient JobController.
From Stdlib Require Import Ascii.

Open Scope Z_scope.

Section store.
Context `{UnicodeData} `{X509} `{ControllerUtil}.

(** The job's container was created and never started. *)
Definition never_started (job : DockerJob) (d : daemon) : Prop :=
  names_unique d /\ d !! containerName job = None /\
  exists id m, d !! id = Some m /\ m_Name m = containerName job /\ m_State m = "created".

(** A job that is neither being deleted nor finished, and carries the finalizer. *)
Definition active (job : DockerJob) : Prop :=
  time_IsZero (om_DeletionTimestamp (dj_Meta job)) = true /\
  has_job_finalizer job = true /\ finished (dj_Status job) = false.

Lemma reconcile_active cli job : active job -> reconcile_job cli job = bind (ret job) (syncJob cli).
Proof.
  intros (Hlive & Hfin & Hf). unfold reconcile_job. rewrite Hlive, Hfin.
  change (bind (ret job) ?f) with (f job). cbv beta. by rewrite Hf.
Qed.

(** A run from there inspects, and looks again in five seconds or fails with the
    error of the inspection. *)
Lemma sync_never_started cli job d t o d' :
  containerName job <> "" -> never_started job d -> runs (syncJob cli job) t o -> served d t d' ->
  exists r, t = [Obs (DContainerInspect cli (containerName job)) r] /\
    match r with
    | Ok _ => o = Val (requeue_after jobRequeueInterval)
    | Err e => o = Fail e
    end.
Proof.
  intros Hname (Hu & Hid & id & m & Hm & Hn & Hst) Hr Hs. unfold syncJob in Hr. run_step. subst t.
  apply served_head in Hs as (d1 & [-> Hans] & Hs1). destruct r as [j | e].
  - destruct Hans as (id2 & m2 & Hd & Hdesc).
    destruct (designates_name _ _ _ _ _ _ Hu Hm Hn Hid Hd) as [-> ->].
    destruct Hdesc as (base & st & Hbase & _ & _ & _ & _ & Hstate & Hstatus & Hrun).
    rewrite Hbase, Hstate, Hrun, Hstatus, Hst in Hr.
    change (bool_decide _) with false in Hr. change (eqb_str "created" "exited") with false in Hr.
    cbv beta iota in Hr.
    run_step. subst. by eexists (Ok j).
  - destruct (err_docker_notfound e) eqn:Ee.
    + exfalso. apply (Hans Ee id m). split; [done |]. split; [done |]. right. split; [done |]. by left.
    + run_step. subst. by eexists (Err e).
Qed.

(** A run on an empty host: the container is created, its start is refused. *)
Definition not_found : error := mkError "No such container" false true.
Definition port_taken : error := mkError "port is already allocated" false false.
Definition refused_start (cli : DockerClient) (job : DockerJob) (id : string) : list (obs event) :=
  [Obs (DContainerInspect cli (containerName job)) (Err not_found);
   Obs (DImagePull cli (js_Image (dj_Spec job)) "") (Ok tt);
   Obs (DDrainPull cli) tt;
   Obs (DContainerCreate cli (job_config job) (job_host_config job) (containerName job)) (Ok id);
   Obs (DContainerStart cli id) (Err port_taken);
   Obs (DClosePull cli) tt].

Lemma refused_start_runs cli job id :
  runs (syncJob cli job) (refused_start cli job id) (Fail port_taken).
Proof.
  unfold refused_start. repeat (eexists _, _; split; [reflexivity |]; split; [exact I |]).
  by split.
Qed.

(** The container the daemon makes for the job. *)
Definition job_machine (job : DockerJob) : machine :=
  mkMachine (containerName job) "created" (mkConfigInfo (js_Image (dj_Spec job))
    (js_Command (dj_Spec job) ++ js_Args (dj_Spec job)) []) None.

Lemma refused_start_served cli job id :
  container_id id -> served ∅ (refused_start cli job id) {[ id := job_machine job ]}.
Proof.
  intros Hid. assert (forall key i m, ~ designates ∅ key i m) as Hnone.
  { intros key i m (_ & Hi & _). by rewrite lookup_empty in Hi. }
  eapply served_cons; [split; [done | intros _; apply Hnone] |].
  do 2 (eapply served_cons; [done |]).
  eapply served_cons.
  { left. exists id, (job_machine job). split; [done |]. by repeat split. }
  eapply served_cons; [right; split; [done | intros [=]] |]. eapply served_cons; [done |]. apply served_nil.
Qed.

(** An identifier other than a given name. *)
Lemma some_id name : exists id, container_id id /\ name <> id.
Proof.
  set (digits c := String.string_of_list_ascii (replicate 64 c)).
  destruct (decide (name = digits "0"%char)) as [-> | Hne].
  - exists (digits "1"%char). split; [by split; vm_compute | by vm_compute].
  - exists (digits "0"%char). split; [by split; vm_compute | done].
Qed.

Lemma start_can_fail cli job :
  containerName job <> "" ->
  exists t e d, runs (bind (ret job) (syncJob cli)) t (Fail e) /\ served ∅ t d /\
    collect wrote_job t = [] /\ never_started job d.
Proof.
  intros Hname. destruct (some_id (containerName job)) as (id & Hv & Hid).
  exists (refused_start cli job id), port_taken, {[ id := job_machine job ]}. split_and!.
  - apply runs_ret_bind. apply refused_start_runs.
  - by apply refused_start_served.
  - done.
  - split_and!.
    + intros i j a b [<- <-]%lookup_singleton_Some [<- <-]%lookup_singleton_Some. done.
    + by rewrite lookup_singleton_ne.
    + exists id, (job_machine job). split; [apply lookup_singleton_eq | done].
Qed.

(** C39: a job that could not be started once is lost: when its container was
    created but the daemon refused to start it, which one reconciliation of every
    job can run into, each later reconciliation inspects that container, does
    nothing else and reports nothing, and looks again in five seconds or fails with
    the error of the inspection; the job is neither retried nor failed, whatever
    its backoff limit and deadline. *)
Theorem start_failure_hangs cli job :
  active job -> containerName job <> "" ->
  (exists t e d, runs (reconcile_job cli job) t (Fail e) /\ served ∅ t d /\
     collect wrote_job t = [] /\ never_started job d) /\
  (forall d t o d', never_started job d -> runs (reconcile_job cli job) t o -> served d t d' ->
     d' = d /\ never_started job d' /\ Forall quiet t /\ collect wrote_job t = [] /\
     exists r, t = [Obs (DContainerInspect cli (containerName job)) r] /\
       match r with
       | Ok _ => o = Val (requeue_after jobRequeueInterval)
       | Err e => o = Fail e
       end).
Proof.
  intros Ha Hname. rewrite (reconcile_active _ _ Ha). split.
  - by apply start_can_fail.
  - intros d t o d' Hd Hr Hs. run_step.
    destruct (sync_never_started _ _ _ _ _ _ Hname Hd Hr Hs) as (r & -> & Ho).
    apply served_one in Hs as [-> _]. split_and!; [done | done | by repeat constructor | done | eauto].
Qed.
End store.
