(* ===== verification/JobTheorems.v ===== *)
(** * JobTheorems: the life of a [DockerJob]

    An abstract state machine of job statuses, the refinement of the reconciler
    to it, its invariants, and the behaviour of deletion, deadline and time to
    live. *)

From S2P Require Import Prelude Effects GoText Strconv ApiTypes World KubeLib DockerHostClient JobController.

Open Scope Z_scope.

(** ** The abstract machine *)

(** One change of the status of a job with specification [spec]; the last
    argument tells whether a container was created because none was found. *)
Inductive job_step (spec : DockerJobSpec) : DockerJobStatus -> DockerJobStatus -> bool -> Prop :=
| step_start st id now :
    finished st = false -> job_step spec st (started_status st id now) true
| step_running st id :
    finished st = false -> job_step spec st (running_status st id) false
| step_deadline st id now secs start later :
    finished st = false -> js_ActiveDeadlineSeconds spec = Some secs ->
    jst_StartTime st = Some start -> start + seconds secs < now ->
    job_step spec st (deadline_status st id later) false
| step_succeed st id now message :
    finished st = false ->
    job_step spec st (exited_status st JobPhaseSucceeded id now 0 message) false
| step_retry st id :
    finished st = false -> jst_Attempts st <= js_BackoffLimit spec ->
    job_step spec st (retry_status st id (js_BackoffLimit spec)) false
| step_retry_fails st id now code message :
    finished st = false -> jst_Attempts st <= js_BackoffLimit spec -> code <> 0 ->
    job_step spec st (exited_status st JobPhaseFailed id now code message) false
| step_exhausted st id now code message :
    finished st = false -> js_BackoffLimit spec < jst_Attempts st -> code <> 0 ->
    job_step spec st (exited_status st JobPhaseFailed id now code message) false.

(** A finished job stays as it is: no step leaves a status whose phase is
    Succeeded or Failed, and a step that reports an exit code reports 0 exactly
    with the phase Succeeded. *)
Theorem finished_absorbing spec st st' found :
  job_step spec st st' found ->
  finished st = false /\
  (jst_Phase st' = JobPhaseSucceeded -> jst_ExitCode st' = Some 0) /\
  (jst_Phase st' = JobPhaseFailed ->
     (exists secs, js_ActiveDeadlineSeconds spec = Some secs) \/
     (exists code, code <> 0 /\ jst_ExitCode st' = Some code)).
Proof. destruct 1; split_and!; cbn; intros; try done; eauto. Qed.

(** ** The reconciler follows the machine *)

Section refinement.
Context `{UnicodeData} `{X509} `{ControllerUtil}.

Definition silent {X} (view : obs event -> option X) (o : obs event) : Prop := view o = None.

Lemma silent_NewClient {X} (view : obs event -> option X) ns ref :
  (forall k key r, view (Obs (KGet k key) r) = None) ->
  (forall opts r, view (Obs (DNewClient opts) r) = None) ->
  always (silent view) (NewClient ns ref).
Proof. intros Hg Hn. unfold NewClient, newClient, silent. always_tac; [apply (Hg KDockerHost) | apply (Hg KSecret)]. Qed.

Lemma no_write_createAndStart cli job : always (silent wrote_job) (createAndStartContainer cli job).
Proof. unfold createAndStartContainer, silent. always_tac. Qed.
Lemma no_write_ttl cli job : always (silent wrote_job) (handleTTLCleanup cli job).
Proof. unfold handleTTLCleanup, remove_job_container, silent. always_tac. Qed.
Lemma no_write_deadline job : always (silent wrote_job) (past_deadline job).
Proof. unfold past_deadline, silent. always_tac. Qed.

Lemma createAndStart_calm cli job : never_panics (createAndStartContainer cli job).
Proof. unfold createAndStartContainer. calm_tac. Qed.

(** The statuses written in a run: at most one, a step of the machine, which
    creates a missing container only if the daemon said that it is missing. *)
Definition writes_step (spec : DockerJobSpec) (st : DockerJobStatus) (t : list (obs event)) : Prop :=
  collect wrote_job t = [] \/
  exists st' missing, collect wrote_job t = [st'] /\ job_step spec st st' missing /\
    (missing = true -> collect inspect_missing t <> []).

Definition writes_at_most (spec : DockerJobSpec) (st : DockerJobStatus) (missing : bool)
    (t : list (obs event)) : Prop :=
  collect wrote_job t = [] \/
  exists st', collect wrote_job t = [st'] /\ job_step spec st st' missing.

Lemma runs_update_status {A} job (f : DockerJob -> M event A) t o :
  runs (let! j := update_status job in f j) t o ->
  exists r t', t = Obs (KStatusUpdate KDockerJob job) r :: t' /\
    runs (f (match r with Ok j => j | Err _ => job end)) t' o.
Proof. unfold update_status. intros Hr. repeat (run_step; simplify_eq). eauto. Qed.

Lemma past_deadline_true job t :
  runs (past_deadline job) t (Val true) ->
  exists secs start now, js_ActiveDeadlineSeconds (dj_Spec job) = Some secs /\
    jst_StartTime (dj_Status job) = Some start /\ start + seconds secs < now.
Proof.
  unfold past_deadline. intros Hr. run_cases.
  match goal with H : true = (_ <? _) |- _ => symmetry in H; apply Z.ltb_lt in H end.
  eauto 8.
Qed.

(** A run of [createAndStartContainer] before the rest of a handler. *)
Lemma create_then {A} cli job (f : string -> M event A) t o :
  runs (let! id := createAndStartContainer cli job in f id) t o ->
  exists t1 t2, t = t1 ++ t2 /\ collect wrote_job t1 = [] /\
    ((exists id, runs (f id) t2 o) \/ (t2 = [] /\ exists e, o = Fail e)).
Proof.
  intros Hr. apply (proj1 (runs_bind _ _ _ _)) in Hr as
    [(t1 & id & t2 & -> & Hc & Hr) | [(e & -> & Hc) | (_ & Hc)]].
  - exists t1, t2. split; [done |].
    split; [by eapply collect_unseen; [apply no_write_createAndStart |] | eauto].
  - exists t, []. rewrite app_nil_r. split; [done |].
    split; [by eapply collect_unseen; [apply no_write_createAndStart |] | eauto].
  - exfalso. by eapply createAndStart_calm.
Qed.

Lemma ttl_unseen cli job t o :
  runs (handleTTLCleanup cli job) t o -> collect wrote_job t = [].
Proof. intros Hr. by eapply collect_unseen; [apply no_write_ttl |]. Qed.

Lemma sync_missing_step cli job t o :
  finished (dj_Status job) = false ->
  runs (sync_missing cli job) t o -> writes_at_most (dj_Spec job) (dj_Status job) true t.
Proof.
  intros Hf Hr. apply create_then in Hr as (t1 & t2 & -> & Hc & Hr).
  unfold writes_at_most. rewrite collect_app, Hc. simpl.
  destruct Hr as [(id & Hr) | (-> & _)]; [right | by left].
  run_step; subst. apply runs_update_status in Hr as (r' & t' & -> & Hr). run_inv.
  eexists _. split; [reflexivity |]. by apply step_start.
Qed.

Lemma sync_running_step cli job id t o :
  finished (dj_Status job) = false ->
  runs (sync_running cli job id) t o -> writes_at_most (dj_Spec job) (dj_Status job) false t.
Proof.
  intros Hf Hr. unfold sync_running in Hr.
  apply (proj1 (runs_bind _ _ _ _)) in Hr as
    [(t1 & late & t2 & -> & Hc & Hr) | [(e & -> & Hc) | (-> & Hc)]];
    pose proof (collect_unseen wrote_job _ _ _ (no_write_deadline job) Hc) as Hu;
    [| by left | by left].
  unfold writes_at_most. rewrite collect_app, Hu. right. simpl. destruct late.
  - apply past_deadline_true in Hc as (secs & start & now & Hd & Hs & Hlt).
    do 3 (run_step; subst). apply runs_update_status in Hr as (r' & t' & -> & Hr).
    apply ttl_unseen in Hr. simpl. rewrite Hr. eexists _. split; [done |].
    by eapply step_deadline.
  - apply runs_update_status in Hr as (r' & t' & -> & Hr). run_inv.
    eexists _. split; [reflexivity |]. by apply step_running.
Qed.

Lemma sync_exited_step cli job id code t o :
  finished (dj_Status job) = false ->
  runs (sync_exited cli job id code) t o -> writes_at_most (dj_Spec job) (dj_Status job) false t.
Proof.
  intros Hf Hr. unfold sync_exited in Hr. run_step; subst. unfold writes_at_most. right. simpl.
  destruct (int32 code =? 0) eqn:E0; [| destruct (_ <=? _) eqn:Elim].
  - apply runs_update_status in Hr as (r' & t' & -> & Hr).
    apply ttl_unseen in Hr. simpl. rewrite Hr. eexists _. split; [done |].
    apply Z.eqb_eq in E0. rewrite E0. by apply step_succeed.
  - apply Z.eqb_neq in E0. apply Z.leb_le in Elim. run_step; subst. simpl.
    run_step; [| by run_inv | by (run_step; simplify_eq; exfalso; eapply createAndStart_calm)].
    subst. rewrite collect_app.
    match goal with H : runs (attempt _) _ _ |- _ => rename H into Hc end.
    rewrite (collect_unseen wrote_job _ _ _ (always_attempt _ _ (no_write_createAndStart cli job)) Hc).
    simpl. match goal with H : runs (match ?x with _ => _ end) _ _ |- _ => destruct x end;
      apply runs_update_status in Hr as (r' & t' & -> & Hr); run_inv;
      eexists _; (split; [reflexivity |]).
    + by apply step_retry.
    + by apply step_retry_fails.
  - apply Z.eqb_neq in E0. apply Z.leb_gt in Elim.
    apply runs_update_status in Hr as (r' & t' & -> & Hr).
    apply ttl_unseen in Hr. simpl. rewrite Hr. eexists _. split; [done |].
    by apply step_exhausted.
Qed.

Lemma writes_at_most_step spec st missing x t :
  wrote_job x = None -> writes_at_most spec st missing t ->
  (missing = true -> inspect_missing x <> None) -> writes_step spec st (x :: t).
Proof.
  intros Hx Ht Hm. unfold writes_step. simpl. rewrite Hx.
  destruct Ht as [-> | (st' & -> & Hs)]; [by left | right]. exists st', missing.
  split_and!; [done | done |]. intros E. specialize (Hm E). by destruct (inspect_missing x).
Qed.

Lemma syncJob_step cli job t o :
  finished (dj_Status job) = false ->
  runs (syncJob cli job) t o -> writes_step (dj_Spec job) (dj_Status job) t.
Proof.
  intros Hf Hr. unfold syncJob in Hr. run_step; subst.
  repeat match goal with H : runs (match ?x with _ => _ end) _ _ |- _ => destruct x eqn:? end;
    try (by run_inv; left).
  - eapply (writes_at_most_step _ _ false); [done | by eapply sync_running_step | done].
  - eapply (writes_at_most_step _ _ false); [done | by eapply sync_exited_step | done].
  - eapply (writes_at_most_step _ _ true); [done | by eapply sync_missing_step |].
    simpl. by case_match.
Qed.

Lemma Reconcile_job req t o job :
  runs (Reconcile req) t o -> first_job t = Some (Ok job) ->
  exists t1 t2 t3, t = Obs (KGet KDockerJob req) (Ok job) :: t1 ++ t2 ++ t3 /\
    collect wrote_job t1 = [] /\ collect updated_job t1 = [] /\ Forall (fun o => touches_docker o = false) t1 /\
    ((t2 = [] /\ t3 = [] /\ exists e, o = Fail e) \/
     exists cli, runs (reconcile_job cli job) t2 o /\ t3 = [Obs (DClose cli) tt]).
Proof.
  unfold Reconcile. intros Hr Hf. run_step. subst. simpl in Hf. simplify_eq.
  assert (forall {X} (view : obs event -> option X) t a,
    (forall k key r, view (Obs (KGet k key) r) = None) ->
    (forall opts r, view (Obs (DNewClient opts) r) = None) ->
    runs (NewClient (om_Namespace (dj_Meta job)) (js_DockerHostRef (dj_Spec job))) t a ->
    collect view t = []) as Hno
    by (intros X view ? ? ? ? ?; by eapply collect_unseen; [apply silent_NewClient |]).
  assert (always (fun o => touches_docker o = false)
    (NewClient (om_Namespace (dj_Meta job)) (js_DockerHostRef (dj_Spec job)))) as Hq
    by (unfold NewClient, newClient; always_tac).
  apply (proj1 (runs_bind _ _ _ _)) in Hr as
    [(t1 & cli & t2 & -> & Hc & Hr) | [(e & -> & Hc) | (-> & Hc)]].
  - apply (proj1 (runs_deferring _ _ _ _)) in Hr as (t3 & t4 & x & -> & Hr & Hd).
    run_step. subst. exists t1, t3, [Obs (DClose cli) r]. destruct r.
    split; [done |]. split; [by eapply Hno |]. split; [by eapply Hno |].
    split; [by eapply always_runs | right; eauto].
  - exists t0, [], []. rewrite app_nil_r. split; [done |]. split; [by eapply Hno |].
    split; [by eapply Hno |]. split; [by eapply always_runs | left; eauto].
  - exfalso. by eapply NewClient_calm.
Qed.

Lemma ttl_no_update cli job : always (silent updated_job) (handleTTLCleanup cli job).
Proof. unfold handleTTLCleanup, remove_job_container, silent. always_tac. Qed.

Lemma writes_step_around spec st t1 t2 t3 :
  collect wrote_job t1 = [] -> collect wrote_job t3 = [] -> writes_step spec st t2 ->
  writes_step spec st (t1 ++ t2 ++ t3).
Proof.
  intros Ht1 Ht3 Hw. unfold writes_step. rewrite !collect_app, Ht1, Ht3, app_nil_r. simpl.
  destruct Hw as [-> | (st' & missing & -> & Hs & Hm)]; [by left | right].
  exists st', missing. split_and!; [done | done |]. intros E Hn. apply Hm; [done |].
  by apply app_nil in Hn as [_ [? _]%app_nil].
Qed.

(** The API server updates the job that was read: an update that was accepted leaves
    its specification and, being no update of the status, its status. *)
Definition updates_kept (job : DockerJob) (t : list (obs event)) : Prop :=
  Forall (fun j => dj_Spec j = dj_Spec job /\ dj_Status j = dj_Status job) (collect stored_job t).

(** The part of a run that finds the job with the finalizer, which it may have added
    itself. *)
Lemma reconcile_marked cli job t o :
  time_IsZero (om_DeletionTimestamp (dj_Meta job)) = true ->
  has_job_finalizer job = true \/ updates_kept job t ->
  runs (reconcile_job cli job) t o ->
  (collect wrote_job t = [] /\ collect asked_create t = []) \/
  exists job' t1 t2, t = t1 ++ t2 /\ collect wrote_job t1 = [] /\ collect asked_create t1 = [] /\
    dj_Spec job' = dj_Spec job /\ dj_Status job' = dj_Status job /\
    runs (if finished (dj_Status job') then handleTTLCleanup cli job' else syncJob cli job') t2 o.
Proof.
  intros Hdel Hkept Hr. unfold reconcile_job in Hr. rewrite Hdel in Hr.
  destruct (has_job_finalizer job) eqn:Efin.
  - run_step. right. by exists job, [], t.
  - destruct Hkept as [? | Hkept]; [done |]. run_step; subst; [| by left].
    right. eexists _, [_], _. split; [reflexivity |]. unfold updates_kept in Hkept. simpl in Hkept.
    apply Forall_cons in Hkept as [[Hs Hst] _]. by split_and!.
Qed.

(** A reconciliation of a job that is not being deleted. *)
Lemma Reconcile_live req t o job :
  runs (Reconcile req) t o -> first_job t = Some (Ok job) ->
  has_job_finalizer job = true \/ updates_kept job t ->
  time_IsZero (om_DeletionTimestamp (dj_Meta job)) = true ->
  writes_step (dj_Spec job) (dj_Status job) t /\
  (finished (dj_Status job) = true ->
     collect wrote_job t = [] /\ collect asked_create t = []).
Proof.
  intros Hr Hf Hfin Hdel.
  destruct (Reconcile_job _ _ _ _ Hr Hf) as (t1 & t2 & t3 & -> & Hw & _ & Hq & Hcase).
  assert (collect asked_create t1 = []) as Hc.
  { apply collect_none. eapply Forall_impl; [exact Hq |]. by intros [? [] ?]. }
  rewrite app_comm_cons. destruct Hcase as [(-> & -> & _) | (cli & Hrec & ->)].
  { rewrite app_nil_r. unfold writes_step. simpl. rewrite Hw, Hc. auto. }
  apply reconcile_marked in Hrec as [[Hw2 Hc2] | (job' & t4 & t5 & -> & Hw4 & Hc4 & Espec & Est & Hrec)];
    [unfold writes_step; rewrite !collect_app; simpl; rewrite Hw, Hc, Hw2, Hc2; by auto | | done |].
  2:{ destruct Hfin as [? | Hk]; [by left | right]. unfold updates_kept in *.
      rewrite app_comm_cons, !collect_app, !Forall_app in Hk. apply Hk. }
  rewrite <- Espec, <- Est. destruct (finished (dj_Status job')) eqn:Efin.
  - assert (collect wrote_job t5 = []) as Hw5 by (by eapply ttl_unseen).
    assert (collect asked_create t5 = []) as Hc5
      by (eapply collect_unseen; [| exact Hrec];
          unfold handleTTLCleanup, remove_job_container; always_tac).
    unfold writes_step. rewrite !collect_app. simpl. rewrite Hw, Hc, Hw4, Hc4, Hw5, Hc5. auto.
  - split; [| done]. apply writes_step_around; [by simpl | done |].
    rewrite <- (app_nil_r t5). apply writes_step_around; [done | done | by eapply syncJob_step].
Qed.

(** C7: the reconciler refines the machine: a reconciliation of a job that is not
    being deleted, whether it carries the finalizer or is given it by an update
    that keeps the rest of it, writes at most one status,
    and that status is one step from the status it read; it counts as the
    creation of a missing container only if the daemon said that the container
    is missing. On a finished job nothing is written, created or started. *)
Theorem Reconcile_refines_job_step req t o job :
  runs (Reconcile req) t o -> first_job t = Some (Ok job) ->
  has_job_finalizer job = true \/ updates_kept job t ->
  time_IsZero (om_DeletionTimestamp (dj_Meta job)) = true ->
  writes_step (dj_Spec job) (dj_Status job) t /\
  (finished (dj_Status job) = true ->
     collect wrote_job t = [] /\ collect asked_create t = []).
Proof. apply Reconcile_live. Qed.

(** ** Histories

    The statuses a job with specification [spec] has along reconciliations, from
    a new job on, with the number of times the daemon reported its container
    missing.  The first reconciliation is the one that adds the finalizer.  A status
    that was written may have been stored or not. *)
Inductive job_history (spec : DockerJobSpec) : DockerJobStatus -> nat -> Prop :=
| history_new st : jst_Attempts st = 0 -> job_history spec st 0
| history_run job n req t o st' :
    job_history spec (dj_Status job) n -> dj_Spec job = spec ->
    runs (Reconcile req) t o -> first_job t = Some (Ok job) ->
    has_job_finalizer job = true \/ updates_kept job t ->
    time_IsZero (om_DeletionTimestamp (dj_Meta job)) = true ->
    st' = dj_Status job \/ st' ∈ collect wrote_job t ->
    job_history spec st' (n + length (collect inspect_missing t)).

Lemma step_attempts spec st st' (missing : bool) n :
  job_step spec st st' missing -> in_int32 (js_BackoffLimit spec) ->
  let bound := Z.max 0 (js_BackoffLimit spec + 1) + Z.of_nat n in
  bound + Z.b2z missing < 2 ^ 31 ->
  0 <= jst_Attempts st <= bound -> 0 <= jst_Attempts st' <= bound + Z.b2z missing.
Proof.
  intros Hs Hlim. cbn zeta. intros Hn Hst. destruct Hs; cbn in *; try lia;
    rewrite int32_id by (unfold in_int32 in *; lia); lia.
Qed.

(** C8: attempts are bounded: in every history of reconciliations of a job, from its
    creation until it is deleted, they exceed
    [backoffLimit + 1] by at most the number of times the daemon reported the
    container missing, as long as that is within 32 bits. *)
Theorem attempts_bounded spec st n :
  job_history spec st n ->
  in_int32 (js_BackoffLimit spec) ->
  Z.max 0 (js_BackoffLimit spec + 1) + Z.of_nat n < 2 ^ 31 ->
  0 <= jst_Attempts st <= Z.max 0 (js_BackoffLimit spec + 1) + Z.of_nat n.
Proof.
  intros Hh Hlim. induction Hh as [st Ha | job n req t o st' Hh IH <- Hr Hf Hfin Hdel Hst];
    intros Hn; [lia |].
  specialize (IH ltac:(lia)). destruct Hst as [-> | Hst]; [lia |].
  destruct (Reconcile_live _ _ _ _ Hr Hf Hfin Hdel) as [[E | (st1 & missing & E & Hs & Hm)] _];
    rewrite E in Hst; [by apply not_elem_of_nil in Hst |].
  apply list_elem_of_singleton in Hst as ->.
  assert (Z.b2z missing <= Z.of_nat (length (collect inspect_missing t))) as Hb.
  { destruct missing; simpl; [| lia]. specialize (Hm eq_refl).
    destruct (collect inspect_missing t); [done | simpl; lia]. }
  pose proof (step_attempts _ _ _ _ n Hs Hlim ltac:(cbn zeta; lia) IH). lia.
Qed.

(** A deleted job is released only once its container is gone: the object is
    written back at most once, without the finalizer, and only after the daemon
    removed the container or said there is none; otherwise the finalizer stays
    and the reconciliation fails. *)
Theorem job_deletion_waits req t o job :
  runs (Reconcile req) t o -> first_job t = Some (Ok job) ->
  has_job_finalizer job = true ->
  time_IsZero (om_DeletionTimestamp (dj_Meta job)) = false ->
  (collect updated_job t = [] /\ exists e, o = Fail e) \/
  (collect updated_job t = [with_job_finalizers RemoveFinalizer job] /\
   collect removal_settled t = [containerName job]).
Proof.
  intros Hr Hf Hfin Hdel.
  destruct (Reconcile_job _ _ _ _ Hr Hf) as (t1 & t2 & t3 & -> & _ & Hu & Hq & Hcase).
  assert (collect removal_settled t1 = []) as Hc.
  { apply collect_none. eapply Forall_impl; [exact Hq |]. by intros [? [] ?]. }
  simpl. rewrite !collect_app, Hu, Hc. simpl.
  destruct Hcase as [(-> & -> & Ho) | (cli & Hrec & ->)]; [by left |]. simpl. rewrite !app_nil_r.
  unfold reconcile_job in Hrec. rewrite Hdel in Hrec. unfold delete_job in Hrec.
  rewrite Hfin in Hrec. unfold remove_job_container in Hrec.
  do 2 run_step; subst. simpl. destruct r as [u | e]; [| destruct (err_docker_notfound e) eqn:En];
    run_step; try (by left; subst; eauto);
    (run_step; subst; [run_inv |]; right; simpl; by rewrite ?En).
Qed.

(** ** Deadline and time to live *)

Lemma duration_Sub_id now t : - 2 ^ 62 <= now - t < 2 ^ 62 -> duration_Sub now t = now - t.
Proof. unfold duration_Sub. lia. Qed.

Lemma seconds_id n : 0 <= n <= 9223372036 -> seconds n = n * Second.
Proof. intros Hn. unfold seconds, Second. apply int64_id. unfold in_int64. lia. Qed.

(** The time to live is exact: before [completion + ttl] the finished job is
    left alone and looked at again exactly then; from then on the removal of its
    container is asked for. Clocks are assumed within 146 years of each other. *)
Theorem ttl_exact cli job t o ttl completion :
  runs (handleTTLCleanup cli job) t o ->
  js_TTLSecondsAfterFinished (dj_Spec job) = Some ttl -> 0 <= ttl < 2 ^ 31 ->
  jst_CompletionTime (dj_Status job) = Some completion ->
  exists now t', t = Obs TNow now :: t' /\
    (- 2 ^ 62 <= now - completion < 2 ^ 62 ->
     if now <? completion + ttl * Second
     then t' = [] /\ exists d, o = Val (requeue_after d) /\ now + d = completion + ttl * Second
     else exists r, t' = [Obs (DContainerRemove cli (containerName job) true) r]).
Proof.
  unfold handleTTLCleanup. intros Hr Ht Httl Hc. rewrite Ht, Hc in Hr. run_step. subst.
  eexists _, _. split; [done |]. intros Hclock.
  rewrite duration_Sub_id, seconds_id in Hr by lia.
  assert ((r - completion <? ttl * Second) = (r <? completion + ttl * Second)) as Hlt by lia.
  rewrite Hlt in Hr. destruct (r <? completion + ttl * Second) eqn:E.
  - run_inv. split; [done |]. eexists. split; [done |].
    rewrite int64_id; unfold in_int64, Second in *; lia.
  - unfold remove_job_container in Hr. do 2 run_step; subst.
    destruct r0 as [u | e]; [| destruct (err_docker_notfound e)]; run_inv; eauto.
Qed.

(** The deadline is [startTime + activeDeadlineSeconds] up to 9223372036
    seconds; one second more overflows the duration, and a job with that
    deadline is past it from its start. *)
Theorem deadline_overflow job start secs t late :
  runs (past_deadline job) t (Val late) ->
  js_ActiveDeadlineSeconds (dj_Spec job) = Some secs ->
  jst_StartTime (dj_Status job) = Some start ->
  exists now, t = [Obs TNow now] /\
    (0 <= secs <= 9223372036 -> late = (start + secs * Second <? now)) /\
    (secs = 9223372037 -> start <= now -> late = true).
Proof.
  unfold past_deadline. intros Hr Hs Hst. rewrite Hs, Hst in Hr. run_inv.
  eexists. split; [done |]. split.
  - intros Hsecs. by rewrite seconds_id.
  - intros -> Hnow. change (seconds 9223372037) with (-9223372036709551616). lia.
Qed.

(** The retry budget is not consulted when the container is missing: whatever
    the attempts and the backoff limit of an unfinished job, some run creates
    the container again and reports the job running with one more attempt. *)
Theorem missing_ignores_backoff cli job :
  exists t, runs (syncJob cli job) t (Val (requeue_after jobRequeueInterval)) /\
    collect asked_create t = [(job_config job, job_host_config job, containerName job)] /\
    exists id now, collect wrote_job t = [started_status (dj_Status job) id now].
Proof.
  set (gone := mkError "no such container" false true).
  set (f := fun (R : Set) (e : event R) (s : unit) =>
    (match e in event R return R with
     | DContainerInspect _ _ => Err gone
     | DImagePull _ _ _ => Ok tt
     | DContainerCreate _ _ _ _ => Ok "c"%stdpp
     | DContainerStart _ _ => Ok tt
     | e => default_answer e
     end, s)).
  exists (exec f (syncJob cli job) tt).2. split; [| split].
  - assert ((exec f (syncJob cli job) tt).1.1 = Val (requeue_after jobRequeueInterval)) as <-
      by reflexivity.
    cbv [syncJob sync_missing createAndStartContainer update_status bind try_call call deferring
         pbind ret to_outcome]. cbn.
    repeat (eexists _, _; split; [reflexivity | split; [exact I |]]). done.
  - reflexivity.
  - eexists _, _. reflexivity.
Qed.
End refinement.
