(* ===== verification/DeploymentTheorems.v ===== *)
(** * DeploymentTheorems: scaling a [DockerDeployment]

    Which children a reconciliation creates and deletes, what a child is, and
    what happens below zero replicas. *)

From Stdlib Require Import Ascii.
From S2P Require Import Prelude Effects GoText Strconv ApiTypes World KubeLib Adopt DeploymentController.

Open Scope Z_scope.

Section scaling.
Context `{ControllerUtil}.

(** ** The children *)

(** What [constructContainer] makes: a child under a fresh name, controlled by
    the deployment when the owner reference could be set. *)
Definition is_child (d : DockerDeployment) (c : DockerContainer) : Prop :=
  exists suffix meta,
    String.length suffix = 5%nat /\
    let name := om_Name (dd_Meta d) +:+ "-" +:+ suffix in
    SetControllerReference (dd_Meta d) "DockerDeployment"
      (set_Labels (tm_Labels (ct_Metadata (dps_Template (dd_Spec d))))
         (new_meta (om_Namespace (dd_Meta d)) name)) = Ok meta /\
    c = mkDockerContainer meta (child_spec (ct_Spec (dps_Template (dd_Spec d))) name suffix)
          empty_ContainerStatus.

Lemma random_loop (f : Z -> string) l acc t s :
  (forall i, String.length (f i) = 1%nat) ->
  runs (for_fold l acc (fun b (_ : nat) =>
          let! i := call (RIntn (Z.of_nat (length letterRunes))) in ret (b +:+ f i))) t (Val s) ->
  String.length s = (String.length acc + length l)%nat.
Proof.
  intros Hf. revert acc t. induction l as [| n l IH]; intros acc t Hr; cbn [for_fold] in Hr.
  { run_inv. simpl. lia. }
  repeat (run_step; simplify_eq). apply IH in Hr. rewrite Hr, length_append, Hf. simpl. lia.
Qed.

Lemma utilRandString_length n t s : runs (utilRandString n) t (Val s) -> String.length s = n.
Proof.
  intros Hr. apply (random_loop (fun i => String (nth (Z.to_nat i) letterRunes "a"%char) "")) in Hr;
    [| done]. by rewrite Hr, length_seq.
Qed.

Lemma constructContainer_child d t c : runs (constructContainer d) t (Val c) -> is_child d c.
Proof.
  unfold constructContainer. intros Hr. repeat (run_step; simplify_eq).
  match goal with H : runs (utilRandString 5) _ _ |- _ => apply utilRandString_length in H end.
  match goal with H : Val ?m = to_outcome ?r |- _ => destruct r eqn:Eref; simplify_eq/= end.
  eexists _, _. split; [eassumption |]. cbn zeta. split; [exact Eref | done].
Qed.

Lemma construct_silent {X} (view : obs event -> option X) d :
  (forall n r, view (Obs (RIntn n) r) = None) -> always (fun o => view o = None) (constructContainer d).
Proof. intros Hv. unfold constructContainer, utilRandString. always_tac. Qed.
Lemma construct_calm d : never_panics (constructContainer d).
Proof. unfold constructContainer, utilRandString. calm_tac. Qed.

Lemma scale_up_loop d (l : list nat) t o :
  runs (for_each l (fun _ =>
    let! c := constructContainer d in try_call (KCreate KDockerContainer c) ;; ret tt)) t o ->
  collect deleted_object t = [] /\ Forall (is_child d) (collect created_object t) /\
  (length (collect created_object t) <= length l)%nat /\
  (o = Val tt -> length (collect created_object t) = length l) /\ o <> Panic.
Proof.
  revert t. induction l as [| a l IH]; intros t Hr; cbn [for_each] in Hr.
  { run_inv. simpl. split_and!; try done; lia. }
  run_step.
  apply (proj1 (runs_bind _ _ _ _)) in Hr as
    [(t1 & c & t2 & -> & Hc & Hr) | [(e & -> & Hc) | (_ & Hc)]].
  3: by exfalso; eapply construct_calm.
  all: pose proof (collect_unseen created_object _ _ _ (construct_silent _ d (fun _ _ => eq_refl)) Hc) as Hcr.
  all: pose proof (collect_unseen deleted_object _ _ _ (construct_silent _ d (fun _ _ => eq_refl)) Hc) as Hdl.
  2: { rewrite Hcr, Hdl. simpl. split_and!; try done; lia. }
  apply constructContainer_child in Hc. rewrite !collect_app, Hcr, Hdl.
  do 2 run_step; subst; simpl.
  - run_step. apply IH in Hr as (-> & Hall & Hle & Heq & Hp). split_and!; auto; lia.
  - split_and!; try done; [by repeat constructor | lia].
Qed.

Lemma scale_down_loop (l : list DockerContainer) i n t o :
  (i + n <= length l)%nat ->
  runs (for_each (seq i n) (delete_victim l)) t o ->
  collect created_object t = [] /\ o <> Panic /\
  exists k, (k <= n)%nat /\ collect deleted_object t = take k (drop i l) /\ (o = Val tt -> k = n).
Proof.
  revert i t. induction n as [| n IH]; intros i t Hlen Hr; cbn [for_each seq] in Hr.
  { run_inv. split_and!; try done. exists 0%nat. by split_and!. }
  destruct (lookup_lt_is_Some_2 l i) as [v Hv]; [lia |].
  unfold delete_victim at 1 in Hr. rewrite Hv in Hr.
  run_step; subst; simpl.
  - apply IH in Hr as (-> & Hp & k & Hk & -> & Hval); [| lia]. split_and!; try done.
    exists (S k). split; [lia |]. rewrite (drop_S _ v i) by done. split; [reflexivity |].
    intros Ho. by rewrite Hval.
  - split_and!; try done. exists 1%nat. split; [lia |]. rewrite (drop_S _ v i) by done. done.
Qed.

Lemma scale_down_past (l : list DockerContainer) i n t o :
  (i <= length l < i + n)%nat ->
  runs (for_each (seq i n) (delete_victim l)) t o ->
  collect created_object t = [] /\ o <> Val tt /\
  exists k, collect deleted_object t = take k (drop i l) /\ (o = Panic -> (length l - i <= k)%nat).
Proof.
  revert i t. induction n as [| n IH]; intros i t Hlen Hr; [lia |]. cbn [for_each seq] in Hr.
  unfold delete_victim at 1 in Hr. destruct (l !! i) as [v |] eqn:Hv.
  - apply lookup_lt_Some in Hv as Hlt. run_step; subst; simpl.
    + apply IH in Hr as (-> & Hp & k & -> & Hval); [| lia]. split_and!; try done.
      exists (S k). rewrite (drop_S _ v i) by done. split; [reflexivity |]. intros Ho.
      specialize (Hval Ho). lia.
    + split_and!; try done. exists 1%nat. by rewrite (drop_S _ v i) by done.
  - apply lookup_ge_None in Hv. run_inv. split_and!; try done.
    exists 0%nat. split; [by rewrite take_0 |]. lia.
Qed.

(** ** The scaling step *)

Definition deletes_newest (owned : list DockerContainer) (k : nat) (t : list (obs event)) : Prop :=
  collect created_object t = [] /\ collect deleted_object t = take k (reverse owned).

Lemma scale_up_case d owned t o :
  runs (scale d owned) t o ->
  in_int32 (desired_replicas d) -> Z.of_nat (length owned) < desired_replicas d ->
  collect deleted_object t = [] /\ Forall (is_child d) (collect created_object t) /\
  Z.of_nat (length (collect created_object t)) <= desired_replicas d - Z.of_nat (length owned) /\
  (o = Val tt ->
   Z.of_nat (length (collect created_object t)) = desired_replicas d - Z.of_nat (length owned)) /\
  o <> Panic.
Proof.
  intros Hr Hrep Hlt. unfold scale in Hr.
  rewrite (int32_id (Z.of_nat _)) in Hr by (unfold in_int32 in *; lia).
  rewrite int32_id in Hr by (unfold in_int32 in *; lia).
  destruct (0 <? _) eqn:E; [| lia].
  apply scale_up_loop in Hr as (? & ? & Hle & Heq & ?). rewrite length_seq in *.
  split_and!; try done; [lia |]. intros Ho. rewrite (Heq Ho). lia.
Qed.

Lemma scale_down_case d owned t o :
  runs (scale d owned) t o ->
  0 <= desired_replicas d <= Z.of_nat (length owned) -> Z.of_nat (length owned) < 2 ^ 31 ->
  o <> Panic /\ exists k, deletes_newest owned k t /\
    Z.of_nat k <= Z.of_nat (length owned) - desired_replicas d /\
    (o = Val tt -> Z.of_nat k = Z.of_nat (length owned) - desired_replicas d).
Proof.
  intros Hr Hrep Hlt. unfold scale in Hr.
  rewrite (int32_id (Z.of_nat _)) in Hr by (unfold in_int32 in *; lia).
  rewrite (int32_id (desired_replicas d - _)) in Hr by (unfold in_int32 in *; lia).
  destruct (0 <? _) eqn:E1; [lia |]. destruct (_ <? 0) eqn:E2.
  - rewrite int32_id in Hr by (unfold in_int32 in *; lia).
    apply scale_down_loop in Hr as (Hc & Hp & k & Hk & Hd & Hval); [| rewrite length_reverse; lia].
    split; [done |]. exists k. split; [by split |]. split; [lia |]. intros Ho. rewrite (Hval Ho). lia.
  - run_inv. split; [done |]. exists 0%nat. split; [done |]. split; lia.
Qed.

Lemma scale_negative_case d owned t o :
  runs (scale d owned) t o ->
  desired_replicas d < 0 -> - 2 ^ 31 < desired_replicas d - Z.of_nat (length owned) ->
  o <> Val tt /\ exists k, deletes_newest owned k t /\ (o = Panic -> (length owned <= k)%nat).
Proof.
  intros Hr Hneg Hlt. unfold scale in Hr.
  rewrite (int32_id (Z.of_nat _)) in Hr by (unfold in_int32 in *; lia).
  rewrite (int32_id (desired_replicas d - _)) in Hr by (unfold in_int32 in *; lia).
  destruct (0 <? _) eqn:E1; [lia |]. destruct (_ <? 0) eqn:E2; [| lia].
  rewrite int32_id in Hr by (unfold in_int32 in *; lia).
  apply scale_down_past in Hr as (Hc & Hv & k & Hd & Hp); [| rewrite length_reverse; lia].
  split; [done |]. exists k. split; [by split |]. intros Ho. specialize (Hp Ho).
  rewrite length_reverse in Hp. lia.
Qed.
(** ** A whole reconciliation *)

(** The children of [d] in a listing, oldest first. *)
Definition owned_sorted (d : DockerDeployment) (all owned : list DockerContainer) : Prop :=
  owned ≡ₚ filter (fun c => IsControlledBy (dc_Meta c) (dd_Meta d) = true) all /\
  StronglySorted (fun a b => om_CreationTimestamp (dc_Meta a) <= om_CreationTimestamp (dc_Meta b)) owned.

Lemma listOwned_cases d t o :
  runs (listOwnedContainers d) t o ->
  collect created_object t = [] /\ collect deleted_object t = [] /\
  ((collect listed_objects t = [] /\ exists e, o = Fail e) \/
   exists all owned, collect listed_objects t = [all] /\ o = Val owned /\ owned_sorted d all owned).
Proof.
  unfold listOwnedContainers. intros Hr. run_step; subst.
  2:{ split_and!; try done. left. eauto. }
  apply (proj1 (runs_call _ _ _)) in Hr as (owned & -> & [Hp Hs] & ->).
  split_and!; try done. right. exists r, owned. split_and!; [done | done |]. split; [done |].
  clear Hp. induction Hs as [| a l Hs IH Hall]; constructor; [exact IH |].
  eapply Forall_impl; [exact Hall |]. intros b Hb. unfold created_before in Hb. lia.
Qed.

Definition updates_status_only {X} (view : obs event -> option X) : Prop :=
  forall d r, view (Obs (KStatusUpdate KDockerDeployment d) r) = None.

Lemma reconcile_cases d t o :
  runs (reconcile_deployment d) t o ->
  time_IsZero (om_DeletionTimestamp (dd_Meta d)) = true ->
  (collect created_object t = [] /\ collect deleted_object t = [] /\ exists e, o = Fail e) \/
  exists all owned t1 o1 l,
    collect listed_objects t = all :: l /\ owned_sorted d all owned /\
    runs (scale d owned) t1 o1 /\ collect created_object t = collect created_object t1 /\
    collect deleted_object t = collect deleted_object t1 /\
    (o1 = Panic -> o = Panic) /\ (o1 <> Panic -> o <> Panic) /\ (o1 <> Val tt -> forall r, o <> Val r).
Proof.
  intros Hr Hd. unfold reconcile_deployment in Hr. rewrite Hd in Hr. cbn [negb] in Hr.
  apply (proj1 (runs_bind _ _ _ _)) in Hr as
    [(t1 & owned & t2 & -> & Hl & Hr) | [(e & -> & Hl) | (-> & Hl)]].
  2:{ apply listOwned_cases in Hl as (-> & -> & _). left. eauto. }
  2:{ apply listOwned_cases in Hl as (_ & _ & [[_ [e ?]] | (? & ? & _ & ? & _)]); done. }
  apply listOwned_cases in Hl as (Hc & Hdl & [[_ [e ?]] | (all & ow & Hls & ? & Hown)]); simplify_eq.
  right. rewrite !collect_app, Hc, Hdl, Hls. simpl.
  apply (proj1 (runs_bind _ _ _ _)) in Hr as
    [(t3 & u & t4 & -> & Hs & Hr) | [(e & -> & Hs) | (-> & Hs)]].
  2, 3: eexists all, ow, t2, _, _; by split_and!.
  assert (collect created_object t4 = [] /\ collect deleted_object t4 = [] /\ o <> Panic)
    as (Hc4 & Hd4 & Hp4).
  { apply (proj1 (runs_bind _ _ _ _)) in Hr as
      [(t5 & owned & t6 & -> & Hl & Hr) | [(e & -> & Hl) | (-> & Hl)]];
      apply listOwned_cases in Hl as (Hc5 & Hd5 & Hl); rewrite ?collect_app, ?Hc5, ?Hd5; simpl;
      [| done | by destruct Hl as [[_ [e ?]] | (? & ? & _ & ? & _)]].
    repeat (run_step; simplify_eq/=); by split_and!. }
  rewrite !collect_app, Hc4, Hd4, !app_nil_r. destruct u.
  eexists all, ow, t3, (Val tt), _. by split_and!.
Qed.

(** Scaling reaches the wanted number and removes the newest children first:
    with [n] children in its listing and [r >= 0] replicas wanted, a
    reconciliation that succeeds has created exactly [r - n] children when [r > n]
    and deleted exactly the [n - r] youngest ones otherwise, and no run does more
    than that or panics. *)
Theorem deployment_scales d t o :
  runs (reconcile_deployment d) t o ->
  time_IsZero (om_DeletionTimestamp (dd_Meta d)) = true ->
  0 <= desired_replicas d < 2 ^ 31 ->
  (collect created_object t = [] /\ collect deleted_object t = [] /\ exists e, o = Fail e) \/
  exists all owned l, collect listed_objects t = all :: l /\ owned_sorted d all owned /\
    let n := Z.of_nat (length owned) in
    let created := collect created_object t in
    (n < 2 ^ 31 -> o <> Panic /\
     if n <? desired_replicas d
     then collect deleted_object t = [] /\ Forall (is_child d) created /\
          Z.of_nat (length created) <= desired_replicas d - n /\
          (forall r, o = Val r -> Z.of_nat (length created) = desired_replicas d - n)
     else exists k, deletes_newest owned k t /\ Z.of_nat k <= n - desired_replicas d /\
          (forall r, o = Val r -> Z.of_nat k = n - desired_replicas d)).
Proof.
  intros Hr Hd Hrep. apply reconcile_cases in Hr as
    [? | (all & owned & t1 & o1 & l & Hl & Hown & Hs & Hc & Hdl & Hp & Hnp & Hv)]; [by left | | done].
  right. exists all, owned, l. split; [done |]. split; [done |]. cbn zeta. intros Hn.
  unfold deletes_newest. rewrite Hc, Hdl.
  assert (forall (P : Prop), (o1 = Val tt -> P) -> forall r, o = Val r -> P) as Hval.
  { intros P HP r Ho. destruct o1 as [[] | e |]; [by apply HP | by destruct (Hv ltac:(done) r) |].
    by destruct (Hv ltac:(done) r). }
  destruct (_ <? _) eqn:E.
  - apply scale_up_case in Hs as (? & ? & ? & Heq & Hpn); [| unfold in_int32; lia | lia].
    split_and!; auto. by apply Hval.
  - apply scale_down_case in Hs as (Hpn & k & Hk & Hle & Heq); [| lia | lia].
    split; [auto |]. exists k. split_and!; [apply Hk | apply Hk | done |]. by apply Hval.
Qed.

(** A negative replica count deletes every child and then panics: the loop
    runs past the first child of the listing. *)
Theorem negative_replicas_panic d t o :
  runs (reconcile_deployment d) t o ->
  time_IsZero (om_DeletionTimestamp (dd_Meta d)) = true ->
  - 2 ^ 30 <= desired_replicas d < 0 ->
  (exists e, o = Fail e) \/
  exists all owned l, collect listed_objects t = all :: l /\ owned_sorted d all owned /\
    (Z.of_nat (length owned) < 2 ^ 30 ->
     collect created_object t = [] /\ (forall r, o <> Val r) /\
     (o = Panic -> collect deleted_object t = reverse owned)).
Proof.
  intros Hr Hd Hrep. apply reconcile_cases in Hr as
    [(_ & _ & ?) | (all & owned & t1 & o1 & l & Hl & Hown & Hs & Hc & Hdl & Hp & Hnp & Hv)];
    [by left | | done].
  right. exists all, owned, l. split; [done |]. split; [done |]. intros Hn. rewrite Hc, Hdl.
  apply scale_negative_case in Hs as (Hval & k & [-> ->] & Hk); [| lia | lia].
  split_and!; [done | by apply Hv |]. intros Ho. apply take_ge. rewrite length_reverse.
  apply Hk. destruct o1 as [[] | e |]; [done | exfalso; by apply Hnp | done].
Qed.

(** A child carries the deployment's labels, lives in its namespace under a
    name of its own, is controlled by it and, unless the template says
    otherwise, is enforced; the rest of its spec is the template's. *)
Theorem child_spec_of_template `{!ControllerUtilLaws} d c :
  is_child d c ->
  let template := dps_Template (dd_Spec d) in
  IsControlledBy (dc_Meta c) (dd_Meta d) = true /\
  om_Namespace (dc_Meta c) = om_Namespace (dd_Meta d) /\
  om_Labels (dc_Meta c) = tm_Labels (ct_Metadata template) /\
  om_Annotations (dc_Meta c) = ∅ /\
  (exists suffix, String.length suffix = 5%nat /\
     om_Name (dc_Meta c) = om_Name (dd_Meta d) +:+ "-" +:+ suffix /\
     cs_ContainerName (dc_Spec c) =
       (if eqb_str (cs_ContainerName (ct_Spec template)) "" then om_Name (dc_Meta c)
        else cs_ContainerName (ct_Spec template) +:+ "-" +:+ suffix)) /\
  (cs_ManagementMode (ct_Spec template) = "" ->
     managementModeFor c = DockerContainerManagementModeEnforce) /\
  set_ManagementMode "" (set_ContainerName "" (dc_Spec c)) =
    set_ManagementMode "" (set_ContainerName "" (ct_Spec template)).
Proof.
  intros (suffix & meta & Hlen & Href & ->). cbn zeta in *.
  pose proof (set_reference_controlled _ _ _ _ Href) as Hctl.
  destruct (set_reference_frame _ _ _ _ Href) as (Hname & Hns & Hlab & Hann).
  cbn in Hname, Hns, Hlab, Hann. cbn [dc_Meta dc_Spec].
  assert (forall spec name, cs_ContainerName (child_spec spec name suffix) =
    if eqb_str (cs_ContainerName spec) "" then name else cs_ContainerName spec +:+ "-" +:+ suffix) as Hcn.
  { intros. unfold child_spec. by destruct (eqb_str (cs_ManagementMode _) ""). }
  split_and!; try done.
  - exists suffix. rewrite Hcn, Hname. by split_and!.
  - intros Hm. unfold managementModeFor, child_spec. cbn. rewrite Hm. done.
  - unfold child_spec. by destruct (eqb_str (cs_ManagementMode _) "").
Qed.
End scaling.
