(* ===== verification/DeploymentStore.v ===== *)
(** * DeploymentStore: several reconciliations of a [DockerDeployment]

    The reconciler against an API server that keeps the children: a store of
    objects by name, which the calls of a run read and change, and which other
    controllers change in between, finishing the deletion of terminating children
    and updating the others.  Which children no sequence of reconciliations can
    lose.  A listing shows the store as it is: the delay of the informer cache that
    the manager's client reads from is not modelled. *)

From S2P Require Import Prelude Effects GoText Strconv ApiTypes World KubeLib Adopt DeploymentController DeploymentTheorems.

Open Scope Z_scope.

(** The children of a namespace by name. *)
Abbreviation store := (gmap string DockerContainer).

Definition c_name (c : DockerContainer) : string := om_Name (dc_Meta c).
Definition c_created (c : DockerContainer) : Z := om_CreationTimestamp (dc_Meta c).
Definition c_live (c : DockerContainer) : Prop := om_DeletionTimestamp (dc_Meta c) = None.

Definition well_named (st : store) : Prop := map_Forall (fun n c => c_name c = n) st.

Lemma NoDup_fmap_filter {A B} (f : A -> B) (P : A -> Prop) `{!forall x, Decision (P x)} (l : list A) :
  NoDup (f <$> l) -> NoDup (f <$> filter P l).
Proof.
  induction l as [| a l IH]; [done |]. rewrite fmap_cons. intros [Ha Hl]%NoDup_cons.
  rewrite filter_cons. case_decide; [| auto]. rewrite fmap_cons. apply NoDup_cons. split; [| auto].
  intros (b & Eb & [_ Hb]%list_elem_of_filter)%list_elem_of_fmap. apply Ha. rewrite Eb.
  by apply list_elem_of_fmap_2.
Qed.

Section store.
Context `{ControllerUtil}.
Variable d : DockerDeployment.

Definition is_owned (c : DockerContainer) : bool := IsControlledBy (dc_Meta c) (dd_Meta d).

(** The same child at another time: what never changes of an object. *)
Definition same_child (c c' : DockerContainer) : Prop :=
  c_name c' = c_name c /\ c_created c' = c_created c /\ is_owned c' = is_owned c.

(** ** The API server *)

(** What other controllers do: an object that terminates goes away, another is
    updated. *)
Inductive others : store -> store -> Prop :=
| others_gone st n c :
    st !! n = Some c -> ~ c_live c -> others st (delete n st)
| others_update st n c c' :
    st !! n = Some c -> same_child c c' -> (c_live c -> c_live c') -> others st (<[ n := c' ]> st).

(** One call: a listing, which the reconciler only makes of the deployment's
    namespace, answers what is there; an object created has the name and the owner
    it was sent with; an object deleted goes away or, if it has finalizers,
    terminates; any of these may have had its effect or not, whatever it
    answers. *)
Inductive api_step : store -> obs event -> store -> Prop :=
| api_list st o l :
    listed_objects o = Some l -> l ≡ₚ (map_to_list st).*2 -> api_step st o st
| api_create st o c c' :
    created_object o = Some c -> st !! c_name c = None -> c_name c' = c_name c ->
    is_owned c' = is_owned c -> api_step st o (<[ c_name c := c' ]> st)
| api_delete st o c cur :
    deleted_object o = Some c -> st !! c_name c = Some cur -> api_step st o (delete (c_name c) st)
| api_terminate st o c cur cur' :
    deleted_object o = Some c -> st !! c_name c = Some cur -> same_child cur cur' ->
    api_step st o (<[ c_name c := cur' ]> st)
| api_rest st o :
    listed_objects o = None -> api_step st o st.

(** A sequence of calls, with steps of the others anywhere. *)
Inductive serves : store -> list (obs event) -> store -> Prop :=
| serves_done st : serves st [] st
| serves_others st st1 st2 t : others st st1 -> serves st1 t st2 -> serves st t st2
| serves_call st st1 st2 o t : api_step st o st1 -> serves st1 t st2 -> serves st (o :: t) st2.

Lemma serves_app_inv st t1 t2 st' :
  serves st (t1 ++ t2) st' -> exists st1, serves st t1 st1 /\ serves st1 t2 st'.
Proof.
  intros Hs. remember (t1 ++ t2) as t eqn:E. revert t1 E.
  induction Hs as [st | st st1 st2 t Ho Hs IH | st st1 st2 o t Ho Hs IH]; intros t1 E.
  - symmetry in E. apply app_nil in E as [-> ->]. exists st. split; constructor.
  - destruct (IH _ E) as (st3 & H1 & H2). exists st3. split; [by eapply serves_others | done].
  - destruct t1 as [| o' t1]; simpl in E.
    + subst. exists st. split; [constructor | by eapply serves_call].
    + injection E as <- ->. destruct (IH _ eq_refl) as (st3 & H1 & H2). exists st3.
      split; [by eapply serves_call | done].
Qed.

(** ** Children that are as old *)

(** The children, and those that are as old as [c] or older, [c] apart. *)
Definition owned_names (st : store) : gset string :=
  dom (filter (fun nc => is_owned nc.2 = true) st).
Definition as_old (st : store) (c : DockerContainer) : gset string :=
  dom (filter (fun nc => nc.1 <> c_name c /\ is_owned nc.2 = true /\ c_created nc.2 <= c_created c) st).

Lemma elem_of_owned_names st n :
  n ∈ owned_names st <-> exists c, st !! n = Some c /\ is_owned c = true.
Proof.
  unfold owned_names. rewrite elem_of_dom. unfold is_Some. setoid_rewrite map_lookup_filter_Some. done.
Qed.
Lemma elem_of_as_old st c n :
  n ∈ as_old st c <->
  exists x, st !! n = Some x /\ n <> c_name c /\ is_owned x = true /\ c_created x <= c_created c.
Proof.
  unfold as_old. rewrite elem_of_dom. unfold is_Some. setoid_rewrite map_lookup_filter_Some. done.
Qed.

(** A live child with fewer than [r] others as old as itself. *)
Definition protected (r : Z) (st : store) (n : string) : Prop :=
  exists c, st !! n = Some c /\ is_owned c = true /\ c_live c /\ Z.of_nat (size (as_old st c)) < r.

Lemma as_old_owned st c :
  st !! c_name c = Some c -> is_owned c = true -> (size (as_old st c) < size (owned_names st))%nat.
Proof.
  intros Hc Ho. apply subset_size. split.
  - intros n. rewrite elem_of_as_old, elem_of_owned_names. naive_solver.
  - intros Hsub. specialize (Hsub (c_name c)). rewrite elem_of_as_old, elem_of_owned_names in Hsub.
    destruct Hsub as (x & _ & Hne & _); [eauto | done].
Qed.

Lemma as_old_same st c c' : same_child c c' -> as_old st c' = as_old st c.
Proof. intros (Hn & Ht & _). unfold as_old. by rewrite Hn, Ht. Qed.

(** ** Steps that create nothing *)

(** From [st] to [st'] nothing is new, and what was live is still there and live,
    the names [K] apart. *)
Record evolves (K : list string) (st st' : store) : Prop := {
  evolves_old n c' : st' !! n = Some c' -> exists c, st !! n = Some c /\ same_child c c';
  evolves_live n c : st !! n = Some c -> c_live c -> n ∉ K ->
    exists c', st' !! n = Some c' /\ same_child c c' /\ c_live c';
}.

Lemma same_child_refl c : same_child c c.
Proof. done. Qed.
Lemma same_child_trans a b c : same_child a b -> same_child b c -> same_child a c.
Proof. intros (? & ? & ?) (? & ? & ?). split_and!; congruence. Qed.

Lemma evolves_refl K st : evolves K st st.
Proof. split; eauto using same_child_refl. Qed.

Lemma evolves_trans K1 K2 st st1 st2 :
  evolves K1 st st1 -> evolves K2 st1 st2 -> evolves (K1 ++ K2) st st2.
Proof.
  intros [Ho1 Hl1] [Ho2 Hl2]. split.
  - intros n c2 H2. destruct (Ho2 _ _ H2) as (c1 & H1 & Hs2). destruct (Ho1 _ _ H1) as (c & Hc & Hs1).
    eauto using same_child_trans.
  - intros n c Hc Hlive Hn. rewrite elem_of_app in Hn.
    destruct (Hl1 n c Hc Hlive) as (c1 & H1 & Hs1 & Hlive1); [tauto |].
    destruct (Hl2 n c1 H1 Hlive1) as (c2 & H2 & Hs2 & Hlive2); [tauto |].
    eauto using same_child_trans.
Qed.

Lemma evolves_delete st n : evolves [n] st (delete n st).
Proof.
  split.
  - intros m c [_ Hm]%lookup_delete_Some. eauto using same_child_refl.
  - intros m c Hm Hl Hn. exists c. rewrite lookup_delete_ne by set_solver. eauto using same_child_refl.
Qed.

Lemma evolves_insert K st n c c' :
  st !! n = Some c -> same_child c c' -> (n ∈ K \/ (c_live c -> c_live c')) -> evolves K st (<[ n := c' ]> st).
Proof.
  intros Hc Hs Hlive. split.
  - intros m x. destruct (decide (m = n)) as [-> | Hne].
    + rewrite lookup_insert_eq. intros [= <-]. eauto.
    + rewrite lookup_insert_ne by done. eauto using same_child_refl.
  - intros m x Hm Hl Hn. destruct (decide (m = n)) as [-> | Hne].
    + rewrite lookup_insert_eq. rewrite Hc in Hm. injection Hm as <-.
      destruct Hlive as [? | Hlive]; [done |]. eauto.
    + rewrite lookup_insert_ne by done. eauto using same_child_refl.
Qed.

Lemma others_evolves K st st' : others st st' -> evolves K st st'.
Proof.
  intros [st1 n c Hc Hdead | st1 n c c' Hc Hs Hl]; [| eapply evolves_insert; eauto].
  split.
  - intros m x [_ Hm]%lookup_delete_Some. eauto using same_child_refl.
  - intros m x Hm Hl _. exists x. rewrite lookup_delete_ne; [eauto using same_child_refl |].
    intros <-. congruence.
Qed.

(** The names of the children a trace deletes. *)
Definition victims (t : list (obs event)) : list string := c_name <$> collect deleted_object t.

Lemma serves_evolves st t st' :
  serves st t st' -> collect created_object t = [] -> evolves (victims t) st st'.
Proof.
  unfold victims. intros Hs. induction Hs as [st | st st1 st2 t Ho Hs IH | st st1 st2 o t Ho Hs IH]; intros Hc.
  - apply evolves_refl.
  - specialize (IH Hc). apply (others_evolves []) in Ho. exact (evolves_trans _ _ _ _ _ Ho IH).
  - assert (created_object o = None /\ collect created_object t = []) as [Hco Hct].
    { simpl in Hc. by destruct (created_object o). }
    specialize (IH Hct).
    enough (evolves (match deleted_object o with Some c => [c_name c] | None => [] end) st st1) as H1.
    { pose proof (evolves_trans _ _ _ _ _ H1 IH) as H2. simpl. by destruct (deleted_object o). }
    destruct Ho as [st o l Hl Hp | st o c c' Hcr Hn Hname Hown | st o c cur Hdl Hcur | st o c cur cur' Hdl Hcur Hsame | st o Hlist].
    + apply evolves_refl.
    + congruence.
    + rewrite Hdl. apply evolves_delete.
    + rewrite Hdl. eapply evolves_insert; [done | done |]. left. by left.
    + apply evolves_refl.
Qed.

Lemma evolves_owned K st st' : evolves K st st' -> owned_names st' ⊆ owned_names st.
Proof.
  intros [Ho _] n. rewrite !elem_of_owned_names. intros (c' & Hc' & Hown).
  destruct (Ho _ _ Hc') as (c & Hc & _ & _ & Es). exists c. split; congruence.
Qed.

Lemma evolves_named K st st' : evolves K st st' -> well_named st -> well_named st'.
Proof.
  intros [Ho _] Hw n c' Hc'. destruct (Ho _ _ Hc') as (c & Hc & En & _). by rewrite En, (Hw _ _ Hc).
Qed.

(** A protected child stays protected. *)
Lemma evolves_protected K r st st' n :
  evolves K st st' -> n ∉ K -> protected r st n -> protected r st' n.
Proof.
  intros Hev Hn (c & Hc & Hown & Hlive & Hr).
  destruct (evolves_live _ _ _ Hev n c Hc Hlive Hn) as (c' & Hc' & Hs & Hlive').
  exists c'. split; [done |]. split; [by destruct Hs as (_ & _ & ->) |]. split; [done |].
  rewrite (as_old_same st' c c' Hs). eapply Z.le_lt_trans; [| exact Hr].
  apply inj_le, subseteq_size. intros m. rewrite !elem_of_as_old. intros (x' & Hx' & Hne & Ho & Ht).
  destruct (evolves_old _ _ _ Hev _ _ Hx') as (x & Hx & Hsx). destruct Hsx as (_ & Et & Eo).
  exists x. split_and!; congruence.
Qed.

(** ** Steps that delete nothing *)

(** From [st] to [st'] live children stay, and at most [k] children are new. *)
Record grows (k : nat) (st st' : store) : Prop := {
  grows_live n c : st !! n = Some c -> c_live c ->
    exists c', st' !! n = Some c' /\ same_child c c' /\ c_live c';
  grows_size : (size (owned_names st') <= size (owned_names st) + k)%nat;
  grows_named : well_named st -> well_named st';
}.

Lemma evolves_grows st st' : evolves [] st st' -> grows 0 st st'.
Proof.
  intros Hev. split.
  - intros n c Hc Hl. eapply evolves_live; [done | done | done |]. by intros ?%not_elem_of_nil.
  - pose proof (subseteq_size _ _ (evolves_owned _ _ _ Hev)). lia.
  - by eapply evolves_named.
Qed.

Lemma grows_trans k1 k2 st st1 st2 : grows k1 st st1 -> grows k2 st1 st2 -> grows (k1 + k2) st st2.
Proof.
  intros [Hl1 Hs1 Hw1] [Hl2 Hs2 Hw2]. split; [| lia | auto].
  intros n c Hc Hlive. destruct (Hl1 n c Hc Hlive) as (c1 & H1 & Hsc1 & Hlive1).
  destruct (Hl2 n c1 H1 Hlive1) as (c2 & H2 & Hsc2 & Hlive2). eauto using same_child_trans.
Qed.

Lemma grows_insert st c c' :
  st !! c_name c = None -> c_name c' = c_name c -> grows 1 st (<[ c_name c := c' ]> st).
Proof.
  intros Hn Hname. split.
  - intros n x Hx Hlive. exists x. rewrite lookup_insert_ne by congruence. eauto using same_child_refl.
  - assert (owned_names (<[ c_name c := c' ]> st) ⊆ {[ c_name c ]} ∪ owned_names st) as Hsub.
    { intros n. rewrite elem_of_union, elem_of_singleton, !elem_of_owned_names.
      intros (x & Hx & Ho). destruct (decide (n = c_name c)) as [-> | Hne]; [by left | right].
      rewrite lookup_insert_ne in Hx by done. eauto. }
    apply subseteq_size in Hsub. etrans; [exact Hsub |].
    rewrite size_union_alt, size_singleton.
    pose proof (subseteq_size (owned_names st ∖ {[ c_name c ]}) (owned_names st) ltac:(set_solver)). lia.
  - intros Hw. by apply map_Forall_insert_2.
Qed.

Lemma serves_grows st t st' :
  serves st t st' -> collect deleted_object t = [] -> grows (length (collect created_object t)) st st'.
Proof.
  intros Hs. induction Hs as [st | st st1 st2 t Ho Hs IH | st st1 st2 o t Ho Hs IH]; intros Hd.
  - apply evolves_grows, evolves_refl.
  - apply (others_evolves []), evolves_grows in Ho. exact (grows_trans 0 _ _ _ _ Ho (IH Hd)).
  - assert (deleted_object o = None /\ collect deleted_object t = []) as [Hdo Hdt].
    { simpl in Hd. by destruct (deleted_object o). }
    specialize (IH Hdt).
    enough (grows (match created_object o with Some _ => 1 | None => 0 end) st st1) as H1.
    { pose proof (grows_trans _ _ _ _ _ H1 IH) as H2. simpl. by destruct (created_object o). }
    assert (forall k, grows k st st) as Hrefl.
    { intros k. destruct (evolves_grows _ _ (evolves_refl [] st)). split; [done | lia | done]. }
    destruct Ho as [st o l Hl Hp | st o c c' Hcr Hn Hname Hown | st o c cur Hdl Hcur | st o c cur cur' Hdl Hcur Hsame | st o Hlist];
      [apply Hrefl | | congruence | congruence | apply Hrefl].
    rewrite Hcr. by apply grows_insert.
Qed.

(** With at most [r] children afterwards, every live child is protected. *)
Lemma grows_protected k r st st' n :
  grows k st st' -> well_named st -> Z.of_nat (size (owned_names st) + k) <= r ->
  protected r st n -> protected r st' n.
Proof.
  intros [Hl Hs Hw] Hwn Hr (c & Hc & Hown & Hlive & _).
  destruct (Hl n c Hc Hlive) as (c' & Hc' & Hsame & Hlive'). exists c'.
  assert (is_owned c' = true) as Hown' by (by destruct Hsame as (_ & _ & ->)).
  split_and!; [done | done | done |].
  assert (c_name c' = n) as En by (by apply (Hw Hwn)).
  pose proof (as_old_owned st' c' ltac:(by rewrite En) Hown'). lia.
Qed.

(** ** One reconciliation *)

Definition reads_only (t : list (obs event)) : Prop :=
  collect created_object t = [] /\ collect deleted_object t = [].

Lemma listOwned_steps t o :
  runs (listOwnedContainers d) t o ->
  reads_only t /\
  forall owned, o = Val owned -> exists all l, t = Obs (KListContainers (om_Namespace (dd_Meta d)) None) (Ok all) :: l /\
    owned_sorted d all owned.
Proof.
  unfold listOwnedContainers, reads_only. intros Hr. run_step; subst; [| by split].
  apply (proj1 (runs_call _ _ _)) in Hr as (owned & -> & [Hp Hs] & ->).
  split; [done |]. intros ? [= <-]. exists r, [Obs (SortSlice _ created_before
    (filter (fun child => IsControlledBy (dc_Meta child) (dd_Meta d) = true) r)) owned].
  split; [done |]. split; [done |].
  clear Hp. induction Hs as [| a l Hs IH Hall]; constructor; [exact IH |].
  eapply Forall_impl; [exact Hall |]. intros b Hb. unfold created_before in Hb. lia.
Qed.

(** A run reads the children and scales; what follows only reads. *)
Lemma reconcile_steps t o :
  runs (reconcile_deployment d) t o ->
  time_IsZero (om_DeletionTimestamp (dd_Meta d)) = true ->
  (reads_only t /\ forall r, o <> Val r) \/
  exists all owned l t1 o1 t2,
    t = Obs (KListContainers (om_Namespace (dd_Meta d)) None) (Ok all) :: l ++ t1 ++ t2 /\
    owned_sorted d all owned /\ reads_only l /\ runs (scale d owned) t1 o1 /\ reads_only t2 /\
    (o1 <> Val tt -> forall r, o <> Val r).
Proof.
  intros Hr Hd. unfold reconcile_deployment in Hr. rewrite Hd in Hr. cbn [negb] in Hr.
  apply (proj1 (runs_bind _ _ _ _)) in Hr as
    [(t1 & owned & t2 & -> & Hl & Hr) | [(e & -> & Hl) | (-> & Hl)]];
    apply listOwned_steps in Hl as [Hro Hl]; [| by left | by left].
  destruct (Hl owned eq_refl) as (all & l & -> & Hown). right.
  apply (proj1 (runs_bind _ _ _ _)) in Hr as
    [(t3 & u & t4 & -> & Hs & Hr) | [(e & -> & Hs) | (-> & Hs)]].
  2, 3: eexists all, owned, l, t2, _, []; rewrite app_nil_r;
    refine (conj eq_refl (conj Hown (conj Hro (conj Hs (conj (conj eq_refl eq_refl) _))))); done.
  assert (reads_only t4) as Hro4.
  { apply (proj1 (runs_bind _ _ _ _)) in Hr as
      [(t5 & ow & t6 & -> & Hl2 & Hr) | [(e & -> & Hl2) | (-> & Hl2)]];
      apply listOwned_steps in Hl2 as [[Hc2 Hd2] _]; [| by split | by split].
    unfold reads_only. rewrite !collect_app, Hc2, Hd2. repeat (run_step; simplify_eq/=); done. }
  exists all, owned, l, t3, (Val u), t4. destruct u.
  refine (conj eq_refl (conj Hown (conj Hro (conj Hs (conj Hro4 _))))). done.
Qed.

(** ** What a listing shows *)

Lemma serves_cons_inv st o t st' :
  serves st (o :: t) st' ->
  exists st1 st2, evolves [] st st1 /\ api_step st1 o st2 /\ serves st2 t st'.
Proof.
  intros Hs. remember (o :: t) as t' eqn:E. induction Hs as [| st st1 st2 t' Ho Hs IH | st st1 st2 o' t' Ho Hs IH];
    [done | |].
  - destruct (IH E) as (st3 & st4 & Hev & H1 & H2). exists st3, st4. split; [| done].
    exact (evolves_trans [] [] _ _ _ (others_evolves _ _ _ Ho) Hev).
  - injection E as -> ->. exists st, st1. split_and!; [apply evolves_refl | done | done].
Qed.

Lemma api_list_inv st o st1 all :
  listed_objects o = Some all -> created_object o = None -> deleted_object o = None ->
  api_step st o st1 -> st1 = st /\ all ≡ₚ (map_to_list st).*2.
Proof.
  intros Hl Hc Hd Hs.
  destruct Hs as [st o l Hl' Hp | st o c c' Hcr | st o c cur Hdl | st o c cur cur' Hdl | st o Hlist];
    [| congruence ..].
  split; congruence.
Qed.

Section listing.
Variables (st : store) (all owned : list DockerContainer).
Hypothesis Hw : well_named st.
Hypothesis Hall : all ≡ₚ (map_to_list st).*2.
Hypothesis Hown : owned_sorted d all owned.

Lemma listing_elem c : c ∈ owned -> st !! c_name c = Some c /\ is_owned c = true.
Proof using All.
  destruct Hown as [Hp _]. rewrite Hp, list_elem_of_filter, Hall. intros [Ho Hc].
  apply list_elem_of_fmap in Hc as ([n x] & -> & Hx). apply elem_of_map_to_list in Hx. simpl.
  by rewrite (Hw _ _ Hx).
Qed.

Lemma listing_nodup : NoDup (c_name <$> owned).
Proof using All.
  destruct Hown as [Hp _]. rewrite Hp, Hall.
  assert (c_name <$> (map_to_list st).*2 = (map_to_list st).*1) as E.
  { rewrite <- list_fmap_compose. apply list_fmap_ext. intros i [n c] Hc. simpl. apply Hw.
    apply elem_of_map_to_list. by eapply list_elem_of_lookup_2. }
  apply NoDup_fmap_filter. rewrite E. apply NoDup_fst_map_to_list.
Qed.

Lemma listing_names : list_to_set (c_name <$> owned) = owned_names st.
Proof using All.
  apply set_eq. intros n. rewrite elem_of_list_to_set, list_elem_of_fmap, elem_of_owned_names. split.
  - intros (c & -> & Hc). exists c. by apply listing_elem.
  - intros (c & Hc & Ho). exists c. split; [symmetry; by apply Hw |].
    destruct Hown as [Hp _]. rewrite Hp, list_elem_of_filter, Hall. split; [done |].
    apply list_elem_of_fmap. exists (n, c). split; [done |]. by apply elem_of_map_to_list.
Qed.

Lemma listing_length : length owned = size (owned_names st).
Proof using All.
  rewrite <- listing_names, size_list_to_set by apply listing_nodup. by rewrite length_fmap.
Qed.

(** The [k] youngest are not protected when at least [r] are left. *)
Lemma youngest_unprotected k r n :
  Z.of_nat k + r <= Z.of_nat (length owned) -> protected r st n ->
  n ∉ c_name <$> take k (reverse owned).
Proof using All.
  intros Hk (c & Hc & Ho & _ & Hr) Hin.
  apply list_elem_of_fmap in Hin as (v & -> & Hv).
  apply list_elem_of_lookup in Hv as [j Hj]. apply lookup_take_Some in Hj as [Hj Hlt].
  rewrite reverse_lookup_Some in Hj. destruct Hj as [Hj Hjlen].
  set (i := (length owned - S j)%nat) in *.
  assert (v ∈ owned) as Hvo by (by eapply list_elem_of_lookup_2).
  destruct (listing_elem v Hvo) as [Hvst Hvown]. rewrite Hvst in Hc. injection Hc as <-.
  pose proof listing_nodup as Hnd. destruct Hown as [_ Hsort].
  pose proof (take_drop_middle _ _ _ Hj) as Hsplit.
  enough (size (list_to_set (C := gset string) (c_name <$> take i owned)) <= size (as_old st v))%nat as Hsize.
  { rewrite size_list_to_set, length_fmap, length_take in Hsize; [lia |].
    rewrite <- (take_drop i owned), fmap_app in Hnd. by apply NoDup_app in Hnd as [? _]. }
  apply subseteq_size. intros m. rewrite elem_of_list_to_set, elem_of_as_old.
  intros (x & -> & Hx)%list_elem_of_fmap.
  assert (x ∈ owned) as Hxo by (rewrite <- Hsplit; set_solver).
  destruct (listing_elem x Hxo) as [Hxst Hxown].
  exists x. split_and!; [done | | done |].
  - rewrite <- Hsplit, fmap_app, fmap_cons in Hnd. apply NoDup_app in Hnd as (_ & Hdis & _).
    intros E. apply (Hdis (c_name x)); [by apply list_elem_of_fmap_2 | rewrite E; by left].
  - rewrite <- Hsplit in Hsort. exact (StronglySorted_app_1_elem_of _ _ _ x v Hsort Hx ltac:(by left)).
Qed.
End listing.

(** ** Protection *)

Hypothesis Hlive : time_IsZero (om_DeletionTimestamp (dd_Meta d)) = true.
Hypothesis Hrep : 0 <= desired_replicas d < 2 ^ 31.

(** What a run keeps: names, a number of children on 32 bits, protection. *)
Definition kept (st st' : store) : Prop :=
  well_named st' /\ Z.of_nat (size (owned_names st')) < 2 ^ 31 /\
  forall n, protected (desired_replicas d) st n -> protected (desired_replicas d) st' n.

Lemma evolves_kept K st st' :
  evolves K st st' -> well_named st -> Z.of_nat (size (owned_names st)) < 2 ^ 31 ->
  (forall n, protected (desired_replicas d) st n -> n ∉ K) -> kept st st'.
Proof.
  intros Hev Hw Hs HK. split; [by eapply evolves_named |]. split.
  - pose proof (subseteq_size _ _ (evolves_owned _ _ _ Hev)). lia.
  - intros n Hn. eapply evolves_protected; eauto.
Qed.

Lemma kept_trans st st1 st2 : kept st st1 -> kept st1 st2 -> kept st st2.
Proof. intros (_ & _ & H1) (? & ? & H2). split_and!; auto. Qed.

Lemma run_kept t o st st' :
  runs (reconcile_deployment d) t o -> serves st t st' -> well_named st ->
  Z.of_nat (size (owned_names st)) < 2 ^ 31 -> kept st st'.
Proof using Hlive Hrep.
  intros Hr Hs Hw Hsize.
  apply reconcile_steps in Hr as [[[Hc Hd] _] | (all & owned & l & t1 & o1 & t2 & -> & Hown & Hl & Hr & Ht2 & _)]; [| | done].
  { eapply evolves_kept; [by apply serves_evolves | done | done |].
    intros n _. unfold victims. rewrite Hd. by intros ?%not_elem_of_nil. }
  apply serves_cons_inv in Hs as (st1 & st2 & Hev & Hserve & Hs).
  apply (api_list_inv _ _ _ all) in Hserve as [-> Hall]; [| done ..].
  assert (kept st st1) as Hk1 by (eapply evolves_kept; [done .. |]; by intros n _ ?%not_elem_of_nil).
  apply (kept_trans _ _ _ Hk1). destruct Hk1 as (Hw1 & Hs1 & _).
  pose proof (listing_length st1 all owned Hw1 Hall Hown) as Hlen.
  destruct Hl as [Hlc Hld], Ht2 as [Ht2c Ht2d].
  destruct (Z.lt_ge_cases (Z.of_nat (length owned)) (desired_replicas d)) as [Hlt | Hge].
  - apply scale_up_case in Hr as (Hdel & _ & Hle & _); [| unfold in_int32; lia | done].
    apply serves_grows in Hs; [| by rewrite !collect_app, Hld, Hdel, Ht2d].
    rewrite !collect_app, Hlc, Ht2c, app_nil_r in Hs. simpl in Hs.
    split; [by apply (grows_named _ _ _ Hs) |]. split.
    + pose proof (grows_size _ _ _ Hs). lia.
    + intros n Hn. eapply grows_protected; [done | done | lia | done].
  - apply scale_down_case in Hr as (_ & k & [Hcr Hdel] & Hle & _); [| lia | lia].
    eapply evolves_kept; [apply serves_evolves; [exact Hs |] | done | done |].
    + by rewrite !collect_app, Hlc, Hcr, Ht2c.
    + intros n Hn. unfold victims. rewrite !collect_app, Hld, Hdel, Ht2d, app_nil_r. cbn [app].
      eapply (youngest_unprotected st1 all owned Hw1 Hall Hown k _ n); [| exact Hn]. lia.
Qed.

(** C10: the oldest children survive: over any number of reconciliations, whatever
    each is answered, wherever it fails, and whatever the other controllers do in
    between, a live child that has fewer than [replicas] others as old as itself
    is there at the end, live, and still has; so scaling down and restarting the
    operator never take it away. *)
Theorem oldest_children_survive hist st st' n :
  Forall (fun t => exists o, runs (reconcile_deployment d) t o) hist ->
  serves st (concat hist) st' -> well_named st -> Z.of_nat (size (owned_names st)) < 2 ^ 31 ->
  protected (desired_replicas d) st n -> protected (desired_replicas d) st' n.
Proof using Hlive Hrep.
  intros Hh Hs Hw Hsize. revert n. enough (kept st st') as (_ & _ & Hk) by done.
  revert st Hs Hw Hsize. induction Hh as [| t hist [o Hr] Hh IH]; intros st Hs Hw Hsize.
  - eapply evolves_kept; [by apply serves_evolves | done | done |]. by intros n _ ?%not_elem_of_nil.
  - cbn [concat] in Hs. apply serves_app_inv in Hs as (st1 & Hs1 & Hs2).
    pose proof (run_kept _ _ _ _ Hr Hs1 Hw Hsize) as Hk. apply (kept_trans _ _ _ Hk).
    destruct Hk as (Hw1 & Hsize1 & _). by apply IH.
Qed.
End store.
