(* ===== verification/DeploymentConverges.v ===== *)
(** * DeploymentConverges: a [DockerDeployment] reaches its number of children

    The store of [DeploymentStore], behind an API server that does what it answers
    and with no other controller at work: what one reconciliation that succeeds
    leaves, and what the next ones do. *)

From S2P Require Import Prelude Effects ApiTypes World KubeLib DeploymentController DeploymentTheorems DeploymentStore.

Open Scope Z_scope.

#[export] Instance c_live_dec c : Decision (c_live c).
Proof. unfold c_live. apply _. Defined.

(** A creation or a deletion that was answered with an error. *)
Definition refused (o : obs event) : option error :=
  match o with
  | Obs e r =>
      match e in event R return R -> option error with
      | KCreate _ _ => fun r => match r with Ok _ => None | Err e => Some e end
      | KDelete _ _ => fun r => match r with Ok _ => None | Err e => Some e end
      | _ => fun _ => None
      end r
  end.

Section converges.
Context `{ControllerUtil}.
Variable d : DockerDeployment.

(** ** An API server that does what it answers *)

(** A child created was not there and is live; a child deleted is gone or
    terminates; a call that is refused has no effect. *)
Inductive performs_call : store -> obs event -> store -> Prop :=
| performs_list st o l :
    listed_objects o = Some l -> l ≡ₚ (map_to_list st).*2 -> performs_call st o st
| performs_create st o c c' :
    created_object o = Some c -> refused o = None -> st !! c_name c = None -> c_name c' = c_name c ->
    is_owned d c' = is_owned d c -> c_live c' -> performs_call st o (<[ c_name c := c' ]> st)
| performs_delete st o c cur :
    deleted_object o = Some c -> refused o = None -> st !! c_name c = Some cur ->
    performs_call st o (delete (c_name c) st)
| performs_terminate st o c cur cur' :
    deleted_object o = Some c -> refused o = None -> st !! c_name c = Some cur ->
    same_child d cur cur' -> ~ c_live cur' -> performs_call st o (<[ c_name c := cur' ]> st)
| performs_rest st o :
    listed_objects o = None ->
    (created_object o = None /\ deleted_object o = None \/ is_Some (refused o)) ->
    performs_call st o st.

Inductive performs : store -> list (obs event) -> store -> Prop :=
| performs_done st : performs st [] st
| performs_cons st st1 st2 o t : performs_call st o st1 -> performs st1 t st2 -> performs st (o :: t) st2.

Lemma performs_app_inv st t1 t2 st' :
  performs st (t1 ++ t2) st' -> exists st1, performs st t1 st1 /\ performs st1 t2 st'.
Proof.
  revert st. induction t1 as [| o t1 IH]; intros st Hp; simpl in Hp.
  - exists st. by split; [constructor |].
  - inversion Hp as [| ? st1 ? ? ? Ho Hp']; subst. apply IH in Hp' as (st2 & H1 & H2).
    exists st2. split; [by econstructor | done].
Qed.

Lemma performs_reads st t st' : performs st t st' -> reads_only t -> st' = st.
Proof.
  intros Hp. induction Hp as [| st st1 st2 o t Ho Hp IH]; intros [Hc Hd]; [done |].
  simpl in Hc, Hd. destruct (created_object o) eqn:Ec, (deleted_object o) eqn:Ed; try done.
  rewrite IH by done. destruct Ho; congruence.
Qed.

(** ** The live children *)

Definition live_names (st : store) : gset string :=
  dom (filter (fun nc => is_owned d nc.2 = true /\ c_live nc.2) st).

Lemma elem_of_live_names st n :
  n ∈ live_names st <-> exists c, st !! n = Some c /\ is_owned d c = true /\ c_live c.
Proof.
  unfold live_names. rewrite elem_of_dom. unfold is_Some. setoid_rewrite map_lookup_filter_Some. done.
Qed.

(** No child of the deployment is being deleted. *)
Definition all_live (st : store) : Prop := map_Forall (fun _ c => is_owned d c = true -> c_live c) st.

Lemma all_live_names st : all_live st -> live_names st = owned_names d st.
Proof.
  intros Hl. apply set_eq. intros n. rewrite elem_of_live_names, elem_of_owned_names. split.
  - intros (c & ? & ? & _). eauto.
  - intros (c & Hc & Ho). exists c. split_and!; [done | done |]. by eapply Hl.
Qed.

Lemma live_names_create st n c :
  st !! n = None -> is_owned d c = true -> c_live c ->
  live_names (<[ n := c ]> st) = {[ n ]} ∪ live_names st.
Proof.
  intros Hn Ho Hl. apply set_eq. intros m. rewrite elem_of_union, elem_of_singleton, !elem_of_live_names.
  destruct (decide (m = n)) as [-> | Hne].
  - rewrite lookup_insert_eq. naive_solver.
  - rewrite lookup_insert_ne by done. naive_solver.
Qed.

Lemma live_names_lose st st' n :
  (forall m, m <> n -> st' !! m = st !! m) -> (forall c, st' !! n = Some c -> ~ c_live c) ->
  live_names st' = live_names st ∖ {[ n ]}.
Proof.
  intros Hne Hn. apply set_eq. intros m.
  rewrite elem_of_difference, elem_of_singleton, !elem_of_live_names.
  destruct (decide (m = n)) as [-> | Hm]; [naive_solver |]. rewrite Hne by done. naive_solver.
Qed.

Lemma performs_creates st t st' :
  performs st t st' -> collect refused t = [] -> collect deleted_object t = [] ->
  Forall (fun c => is_owned d c = true) (collect created_object t) ->
  live_names st ⊆ live_names st' /\
  size (live_names st') = (size (live_names st) + length (collect created_object t))%nat.
Proof.
  intros Hp. induction Hp as [st | st st1 st2 o t Ho Hp IH]; intros Hr Hd Hc; [split; [done | simpl; lia] |].
  simpl in Hr, Hd, Hc |- *.
  destruct (refused o) eqn:Er; [done |]. destruct (deleted_object o) eqn:Ed; [done |].
  destruct Ho as [st o l Hl Hal | st o c c' Hcr Hok Hn Hname Hown Hlive | | | st o Hl [[Hcr _] | [e He]]];
    try congruence.
  - assert (created_object o = None) as Ecr by (destruct o as [R [] r]; done).
    rewrite Ecr in *. by apply IH.
  - rewrite Hcr in *. apply Forall_cons in Hc as [Hc Hall]. destruct (IH Hr Hd Hall) as [Hsub Hsize].
    rewrite <- Hown in Hc. rewrite live_names_create in Hsub, Hsize by done.
    split; [set_solver |]. rewrite Hsize, size_union, size_singleton; [simpl; lia |].
    intros m. rewrite elem_of_singleton, elem_of_live_names. intros -> (x & Hx & _). congruence.
  - rewrite Hcr in *. by apply IH.
Qed.

Lemma performs_deletes st t st' :
  performs st t st' -> collect refused t = [] -> collect created_object t = [] ->
  live_names st' = live_names st ∖ list_to_set (victims t).
Proof.
  unfold victims.
  intros Hp. induction Hp as [st | st st1 st2 o t Ho Hp IH]; intros Hr Hc; [simpl; set_solver |].
  simpl in Hr, Hc |- *.
  destruct (refused o) eqn:Er; [done |]. destruct (created_object o) eqn:Ec; [done |].
  rewrite (IH Hr Hc).
  destruct Ho as [st o l Hl Hal | | st o c cur Hdl Hok Hcur | st o c cur cur' Hdl Hok Hcur Hsame Hdead
                 | st o Hl [[_ Hdl] | [e He]]]; try congruence.
  - assert (deleted_object o = None) as -> by (destruct o as [R [] r]; done). done.
  - rewrite Hdl, fmap_cons, list_to_set_cons, (live_names_lose st _ (c_name c)); [set_solver | |].
    + intros m Hm. by rewrite lookup_delete_ne.
    + intros x. by rewrite lookup_delete_eq.
  - rewrite Hdl, fmap_cons, list_to_set_cons, (live_names_lose st _ (c_name c)); [set_solver | |].
    + intros m Hm. by rewrite lookup_insert_ne.
    + intros x. rewrite lookup_insert_eq. by intros [= <-].
  - by rewrite Hdl.
Qed.

(** ** A scaling that succeeds *)

Lemma construct_refuses_nothing t o :
  runs (constructContainer d) t o -> collect refused t = [].
Proof. apply (collect_unseen refused), construct_silent. done. Qed.

Lemma scale_accepted owned t : runs (scale d owned) t (Val tt) -> collect refused t = [].
Proof.
  unfold scale, scale_up, scale_down. intros Hr. case_match; [| case_match; [| by run_inv]].
  - revert t Hr. generalize (seq 0 (Z.to_nat (int32 (desired_replicas d - int32 (Z.of_nat (length owned)))))).
    intros l. induction l as [| i l IH]; intros t Hr; cbn [for_each] in Hr; [by run_inv |].
    apply (proj1 (runs_bind _ _ _ _)) in Hr as [(t1 & [] & t2 & -> & Hc & Hr) | [(e & ? & _) | (? & _)]];
      [| done | done].
    apply (proj1 (runs_bind _ _ _ _)) in Hc as [(t3 & c & t4 & -> & Hb & Hc) | [(e & ? & _) | (? & _)]];
      [| done | done].
    apply construct_refuses_nothing in Hb. rewrite !collect_app, Hb, (IH _ Hr).
    run_inv. done.
  - revert t Hr. generalize (seq 0 (Z.to_nat (int32 (- int32 (desired_replicas d - int32 (Z.of_nat (length owned))))))).
    intros l. induction l as [| i l IH]; intros t Hr; cbn [for_each] in Hr; [by run_inv |].
    unfold delete_victim at 1 in Hr. destruct (reverse owned !! i); [| by run_inv].
    run_step; subst; [| done]. simpl. by apply IH.
Qed.

Lemma child_owned `{!ControllerUtilLaws} c : is_child d c -> is_owned d c = true.
Proof.
  intros (suffix & meta & _ & Href & ->). unfold is_owned. by eapply set_reference_controlled.
Qed.

Hypothesis Hlive : time_IsZero (om_DeletionTimestamp (dd_Meta d)) = true.
Hypothesis Hrep : 0 <= desired_replicas d < 2 ^ 31.

(** What a run starts with is a listing of the store. *)
Lemma run_lists t o st st' :
  runs (reconcile_deployment d) t o -> performs st t st' -> well_named st ->
  (reads_only t /\ forall r, o <> Val r) \/
  exists owned l t1 o1 t2, t = l ++ t1 ++ t2 /\ reads_only l /\ reads_only t2 /\
    runs (scale d owned) t1 o1 /\ performs st t1 st' /\ length owned = size (owned_names d st) /\
    NoDup (c_name <$> owned) /\ list_to_set (c_name <$> owned) = owned_names d st /\
    (o1 <> Val tt -> forall r, o <> Val r).
Proof using Hlive.
  intros Hr Hp Hw. apply reconcile_steps in Hr as
    [? | (all & owned & l & t1 & o1 & t2 & -> & Hown & Hl & Hr & Ht2 & Hv)]; [by left | | done].
  right. inversion Hp as [| ? st1 ? ? ? Ho Hp']; subst.
  apply performs_app_inv in Hp' as (st2 & Hpl & Hp'). apply performs_reads in Hpl as ->; [| done].
  apply performs_app_inv in Hp' as (st3 & Hp1 & Hp2). apply performs_reads in Hp2 as ->; [| done].
  assert (st1 = st /\ all ≡ₚ (map_to_list st).*2) as [-> Hall] by (inversion Ho; simplify_eq/=; done).
  exists owned, (Obs (KListContainers (om_Namespace (dd_Meta d)) None) (Ok all) :: l), t1, o1, t2.
  split_and!; try done.
  - by eapply listing_length.
  - by eapply listing_nodup.
  - by eapply listing_names.
Qed.

(** The live children after a scaling that succeeds. *)
Lemma scale_reaches `{!ControllerUtilLaws} owned t st st' :
  runs (scale d owned) t (Val tt) -> performs st t st' -> all_live st ->
  length owned = size (owned_names d st) -> NoDup (c_name <$> owned) ->
  list_to_set (c_name <$> owned) = owned_names d st -> Z.of_nat (length owned) < 2 ^ 31 ->
  Z.of_nat (size (live_names st')) = desired_replicas d /\
  (live_names st ⊆ live_names st' \/ live_names st' ⊆ live_names st).
Proof using Hlive Hrep.
  intros Hr Hp Hl Hlen Hnd Hset Hlt. pose proof (scale_accepted _ _ Hr) as Hok.
  pose proof (all_live_names st Hl) as El.
  destruct (Z.lt_ge_cases (Z.of_nat (length owned)) (desired_replicas d)) as [Hup | Hdown].
  - apply scale_up_case in Hr as (Hdel & Hch & _ & Heq & _); [| unfold in_int32; lia | done].
    apply performs_creates in Hp as [Hsub Hsize]; [| done | done |].
    + rewrite El, <- Hlen in Hsize. specialize (Heq eq_refl). split; [lia | by left].
    + eapply Forall_impl; [exact Hch |]. apply child_owned.
  - apply scale_down_case in Hr as (_ & k & [Hcr Hdel] & _ & Hk); [| lia | done].
    specialize (Hk eq_refl). apply performs_deletes in Hp as E; [| done | done].
    unfold victims in E. rewrite Hdel, El in E. rewrite E, El. split; [| right; set_solver].
    assert (list_to_set (c_name <$> take k (reverse owned)) ⊆@{gset string} owned_names d st) as Hsub.
    { rewrite <- Hset. intros n. rewrite !elem_of_list_to_set, !list_elem_of_fmap.
      intros (c & -> & (i & Hc & _)%elem_of_take). exists c. split; [done |].
      by apply elem_of_reverse, (list_elem_of_lookup_2 _ i). }
    rewrite size_difference by exact Hsub.
    rewrite size_list_to_set, length_fmap, length_take, length_reverse; [lia |].
    assert (NoDup (c_name <$> reverse owned)) as Hnd'.
    { by rewrite fmap_reverse, reverse_Permutation. }
    rewrite <- (take_drop k (reverse owned)), fmap_app in Hnd'. by apply NoDup_app in Hnd' as [? _].
Qed.

(** C9: a deployment converges: behind an API server that does what it answers,
    and with no child being deleted, one reconciliation that succeeds leaves
    exactly [replicas] live children, the live ones before being among them or
    they among these; and once the children deleted are gone every further run,
    also one that fails, creates and deletes nothing. *)
Theorem deployment_converges `{!ControllerUtilLaws} t r st st' :
  runs (reconcile_deployment d) t (Val r) -> performs st t st' ->
  well_named st -> all_live st -> Z.of_nat (size (owned_names d st)) < 2 ^ 31 ->
  Z.of_nat (size (live_names st')) = desired_replicas d /\
  (live_names st ⊆ live_names st' \/ live_names st' ⊆ live_names st) /\
  forall t2 o2 st2 st3, owned_names d st2 = live_names st' -> well_named st2 ->
    runs (reconcile_deployment d) t2 o2 -> performs st2 t2 st3 -> reads_only t2.
Proof using Hlive Hrep.
  intros Hr Hp Hw Hl Hsize.
  destruct (run_lists _ _ _ _ Hr Hp Hw) as
    [[_ Hv] | (owned & l & t1 & o1 & t2 & _ & _ & _ & Hs & Hps & Hlen & Hnd & Hset & Hv)]; [by destruct (Hv r) |].
  assert (o1 = Val tt) as -> by (destruct o1 as [[] | |]; [done | by destruct (Hv ltac:(done) r) ..]).
  destruct (scale_reaches owned t1 st st') as [Hn Hsub]; [done.. | lia |].
  split; [done |]. split; [done |]. intros t3 o3 st2 st3 E Hw2 Hr2 Hp2.
  destruct (run_lists _ _ _ _ Hr2 Hp2 Hw2) as
    [[? _] | (owned2 & l2 & t4 & o4 & t5 & -> & Hl2 & Ht5 & Hs2 & _ & Hlen2 & _)]; [done |].
  rewrite E in Hlen2.
  apply scale_down_case in Hs2 as (_ & k & [Hcr Hdel] & Hk & _); [| lia | lia].
  assert (k = 0%nat) as -> by lia. destruct Hl2 as [Hc2 Hd2], Ht5 as [Hc5 Hd5].
  unfold reads_only. by rewrite !collect_app, Hc2, Hd2, Hcr, Hdel, Hc5, Hd5.
Qed.
End converges.
