(* ===== verification/HostTheorems.v ===== *)
(** * HostTheorems: connecting to hosts and recording their containers

    The Docker client's TLS options, what the [DockerHost] reconciler reports,
    and adoption: it writes only what differs, finds what it created, and never
    touches the daemon. *)

From S2P Require Import Prelude Effects Stores GoText Strconv Floats ApiTypes Json World Adopt DockerHostClient HostController.

Open Scope Z_scope.

Section hosts.
Context `{UnicodeData} `{NatLib} `{Sha256} `{X509}.

(** ** TLS *)

(** C18: a host with a TLS secret is never reached without TLS: every client
    opened for it carries the host, version negotiation and the TLS material of
    that secret, read in the same call; if the secret is missing or incomplete no
    client is opened. *)
Theorem tls_never_dropped ns url tls t o :
  runs (newClient ns url tls) t o -> tls <> "" ->
  (collect opened_client t = [] /\ exists e, o = Fail e) \/
  exists sec cfg, (mkNN ns tls, Ok sec) ∈ collect got_secret t /\
    tlsFromSecret sec = Ok cfg /\
    collect opened_client t =
      [[WithHost url; WithAPIVersionNegotiation; WithHTTPClient cfg (10 * Second)]].
Proof.
  unfold newClient. intros Hr Hne. apply eqb_str_false in Hne. rewrite Hne in Hr.
  do 2 run_step; subst; [| left; eauto].
  destruct (tlsFromSecret r) as [cfg | e] eqn:Ecfg; repeat (run_step; simplify_eq/=).
  - right. exists r, cfg. split; [by left | done].
  - left. eauto.
Qed.

(** ** Adoption *)

Lemma adopt_meta_settled host sn m : meta_changed host sn (adopt_meta host sn m) = false.
Proof.
  unfold meta_changed, adopt_meta. cbn [om_Labels om_Annotations set_Labels set_Annotations].
  rewrite !lookup_insert_eq. cbn [default].
  by rewrite !(proj2 (eqb_str_true _ _) eq_refl).
Qed.

(** An object that records [sn] already. *)
Definition settled (host : DockerHost) (sn : runtimeContainerSnapshot) (c : DockerContainer) : Prop :=
  meta_changed host sn (dc_Meta c) = false /\ cst_Adopted (dc_Status c) = true /\
  cst_ObservedSpecHash (dc_Status c) = observedSpecHash (sn_Spec sn).

Lemma refresh_settled host sn c t o :
  settled host sn c -> runs (refresh_adopted host sn c) t o -> t = [] /\ o = Val tt.
Proof.
  intros (Hm & Ha & Hh) Hr. unfold refresh_adopted in Hr. rewrite Hm in Hr. run_step.
  rewrite Ha, Hh in Hr. rewrite (proj2 (eqb_str_true _ _) eq_refl) in Hr. by run_inv.
Qed.

(** Recording is idempotent: on an object that records the snapshot
    [upsertAdoptedContainer] only lists, and the object it would write for any
    other, whose spec it leaves alone, is such an object. *)
Theorem upsert_idempotent host sn :
  (forall items c t o,
     runs (upsertAdoptedContainer host sn) t o -> collect listed_objects t = [items] ->
     head (filter (fun c => is_adopted_as host sn c = true) items) = Some c -> settled host sn c ->
     Forall (fun x => writes_kube x = false) t /\ o = Val tt) /\
  (forall c, let c' := set_container_status
               (adopt_status (observedSpecHash (sn_Spec sn)) (dc_Status c))
               (set_container_meta (adopt_meta host sn (dc_Meta c)) c) in
     settled host sn c' /\ dc_Spec c' = dc_Spec c /\
     (is_adopted_as host sn c = true -> is_adopted_as host sn c' = true)).
Proof.
  split.
  - intros items c t o Hr Hl Hh Hs. unfold upsertAdoptedContainer in Hr.
    run_step; subst; [| done].
    assert (r = items) as ->.
    { simpl in Hl. congruence. }
    rewrite Hh in Hr. apply refresh_settled in Hr as [-> ->]; [| done].
    split; [by repeat constructor | done].
  - intros c. cbn. split; [| done]. split; [apply adopt_meta_settled | done].
Qed.

Lemma snapshot_identity name m j t sn :
  runs (runtimeSnapshotFromInspect name m j) t (Val sn) ->
  cs_DockerHostRef (sn_Spec sn) = name /\ cs_ContainerName (sn_Spec sn) = sn_Name sn /\
  sn_ID sn = c_ID m /\ cs_ManagementMode (sn_Spec sn) = DockerContainerManagementModeObserve.
Proof.
  unfold runtimeSnapshotFromInspect. intros Hr.
  destruct (c_Names m) as [| n names]; [by run_inv |].
  destruct (cj_Base j) as [base |]; [| by run_inv].
  destruct (cj_Config j) as [config |]; [| by run_inv].
  repeat (run_step; simplify_eq); by split_and!.
Qed.

(** *** The objects of the API server *)

(** The objects, of any namespace.  [status] is a subresource of a DockerContainer:
    what is created has no status, whatever it was sent with, an update leaves the
    status as it is, and a status update the rest. *)
Abbreviation objects := (list DockerContainer).
Definition key_of (c : DockerContainer) : string * string := (om_Namespace (dc_Meta c), om_Name (dc_Meta c)).

Definition created_as (c c' : DockerContainer) : Prop :=
  dc_Spec c' = dc_Spec c /\ dc_Status c' = empty_ContainerStatus /\ key_of c' = key_of c /\
  om_Labels (dc_Meta c') = om_Labels (dc_Meta c) /\ om_Annotations (dc_Meta c') = om_Annotations (dc_Meta c).

(** A write of the object of [c]'s key: it was done, or it was refused. *)
Definition writes (l : objects) (c : DockerContainer) (f : DockerContainer -> DockerContainer)
    (r : result DockerContainer) (l' : objects) : Prop :=
  (exists i old, l !! i = Some old /\ key_of old = key_of c /\ l' = <[ i := f old ]> l /\ r = Ok (f old)) \/
  l' = l /\ exists e, r = Err e.

#[export] Instance objects_step : Store event objects := fun l o l' =>
  match o with
  | Obs e r =>
      match e in event R return R -> Prop with
      | KListContainers ns sel => fun r => l' = l /\
          match r, sel with
          | Ok items, None => items ≡ₚ filter (fun c => om_Namespace (dc_Meta c) = ns) l
          | _, _ => True
          end
      | KCreate k c =>
          match k return object k -> result (object k) -> Prop with
          | KDockerContainer => fun c r =>
              (exists c', created_as c c' /\ (key_of c ∉ (key_of <$> l)) /\ l' = l ++ [c'] /\ r = Ok c') \/
              l' = l /\ exists e, r = Err e
          | _ => fun _ _ => l' = l
          end c
      | KUpdate k c =>
          match k return object k -> result (object k) -> Prop with
          | KDockerContainer => fun c r =>
              writes l c (fun old => mkDockerContainer (dc_Meta c) (dc_Spec c) (dc_Status old)) r l'
          | _ => fun _ _ => l' = l
          end c
      | KStatusUpdate k c =>
          match k return object k -> result (object k) -> Prop with
          | KDockerContainer => fun c r => writes l c (fun old => set_container_status (dc_Status c) old) r l'
          | _ => fun _ _ => l' = l
          end c
      | KDelete _ _ => fun _ => True
      | _ => fun _ => l' = l
      end r
  end.

(** No object of the host's namespace stands for the container of [sn]. *)
Definition unrecorded (host : DockerHost) (sn : runtimeContainerSnapshot) (l : objects) : Prop :=
  forall c, c ∈ l -> om_Namespace (dc_Meta c) = om_Namespace (dh_Meta host) -> is_adopted_as host sn c = false.

Lemma matches_unrecorded host sn l tail items :
  unrecorded host sn l ->
  items ≡ₚ filter (fun c => om_Namespace (dc_Meta c) = om_Namespace (dh_Meta host)) (l ++ tail) ->
  filter (fun c => is_adopted_as host sn c = true) items ≡ₚ
    filter (fun c => is_adopted_as host sn c = true)
      (filter (fun c => om_Namespace (dc_Meta c) = om_Namespace (dh_Meta host)) tail).
Proof.
  intros Hl ->. rewrite !filter_app. replace (filter _ (filter _ l)) with ([] : objects); [done |].
  symmetry. apply elem_of_nil_inv. intros c. rewrite !list_elem_of_filter. intros (Hc & Hns & Hin).
  rewrite (Hl c Hin Hns) in Hc. done.
Qed.

Lemma unrecorded_listed host sn l items :
  unrecorded host sn l ->
  items ≡ₚ filter (fun c => om_Namespace (dc_Meta c) = om_Namespace (dh_Meta host)) l ->
  head (filter (fun c => is_adopted_as host sn c = true) items) = None.
Proof.
  intros Hl Hi. rewrite <- (app_nil_r l) in Hi. apply (matches_unrecorded _ _ _ _ _ Hl) in Hi.
  rewrite filter_nil in Hi. cbn in Hi. apply Permutation_nil_r in Hi. by rewrite Hi.
Qed.
Lemma recorded_listed host sn l c items :
  unrecorded host sn l -> om_Namespace (dc_Meta c) = om_Namespace (dh_Meta host) ->
  is_adopted_as host sn c = true ->
  items ≡ₚ filter (fun c => om_Namespace (dc_Meta c) = om_Namespace (dh_Meta host)) (l ++ [c]) ->
  head (filter (fun c => is_adopted_as host sn c = true) items) = Some c.
Proof.
  intros Hl Hns Hc Hi. apply (matches_unrecorded _ _ _ _ _ Hl) in Hi.
  rewrite !filter_cons_True, !filter_nil in Hi by done. apply Permutation_singleton_r in Hi. by rewrite Hi.
Qed.

(** The first pass makes the object. *)
Lemma upsert_creates host sn l t l' :
  unrecorded host sn l -> runs (upsertAdoptedContainer host sn) t (Val tt) -> served l t l' ->
  exists c, l' = l ++ [c] /\ (key_of c ∉ (key_of <$> l)) /\
    created_as (buildAdoptedDockerContainer (om_Namespace (dh_Meta host)) host sn) c.
Proof.
  intros Hl Hr Hs. unfold upsertAdoptedContainer in Hr. run_step; subst; [| done].
  apply served_head in Hs as (l1 & [-> Hi] & Hs). rewrite (unrecorded_listed _ _ _ _ Hl Hi) in Hr.
  run_step; subst; [| done]. run_inv. apply served_one in Hs.
  destruct Hs as [(c & Hc & Hk & -> & _) | [_ [e ?]]]; [| done].
  exists c. split; [done |]. split; [| done]. destruct Hc as (_ & _ & -> & _). done.
Qed.

(** What a write of the last object's key does. *)
Lemma writes_last l c x f r l' :
  key_of c ∉ (key_of <$> l) -> key_of x = key_of c -> writes (l ++ [c]) x f (Ok r) l' ->
  l' = l ++ [f c] /\ r = f c.
Proof.
  intros Hk Ek [(i & old & Hi & Eo & -> & [= ->]) | [_ [e ?]]]; [| done].
  apply lookup_snoc_Some in Hi as [[_ Hi] | [-> <-]].
  - destruct Hk. rewrite <- Ek, <- Eo. by apply list_elem_of_fmap_2, (list_elem_of_lookup_2 _ i).
  - split; [| done]. rewrite <- (Nat.add_0_r (length l)) at 1. by rewrite insert_app_r.
Qed.

(** A pass that finds the object completes its status, and writes nothing else. *)
Lemma upsert_completes host sn l c t l' :
  unrecorded host sn l -> om_Namespace (dc_Meta c) = om_Namespace (dh_Meta host) ->
  is_adopted_as host sn c = true -> meta_changed host sn (dc_Meta c) = false -> key_of c ∉ (key_of <$> l) ->
  runs (upsertAdoptedContainer host sn) t (Val tt) -> served (l ++ [c]) t l' ->
  exists r, let listing := Obs (KListContainers (om_Namespace (dh_Meta host)) None) r in
    settled host sn c /\ l' = l ++ [c] /\ t = [listing] \/
    ~ settled host sn c /\
    let c' := set_container_status (adopt_status (observedSpecHash (sn_Spec sn)) (dc_Status c)) c in
    l' = l ++ [c'] /\ exists r', t = [listing; Obs (KStatusUpdate KDockerContainer c') r'].
Proof.
  intros Hl Hns Hc Hm Hk Hr Hs. unfold upsertAdoptedContainer in Hr. run_step; subst; [| done].
  apply served_head in Hs as (l1 & [-> Hi] & Hs). rewrite (recorded_listed _ _ _ _ _ Hl Hns Hc Hi) in Hr.
  eexists. cbn zeta. unfold refresh_adopted in Hr. rewrite Hm in Hr. run_step.
  destruct (cst_Adopted (dc_Status c)) eqn:Ea; [destruct (eqb_str (cst_ObservedSpecHash (dc_Status c)) _) eqn:Eh |];
    cbn [negb orb] in Hr.
  - run_inv. inversion Hs; subst. left. split; [| done]. split; [done |]. split; [done | by apply eqb_str_true].
  - run_step; subst; [| done]. run_inv. apply served_one in Hs. simpl in Hs.
    apply writes_last in Hs as [-> _]; [| done | done]. right. split; [| by split; [| eexists]].
    intros (_ & _ & E). apply eqb_str_false in Eh. done.
  - run_step; subst; [| done]. run_inv. apply served_one in Hs. simpl in Hs.
    apply writes_last in Hs as [-> _]; [| done | done]. right. split; [| by split; [| eexists]].
    intros (_ & E & _). congruence.
Qed.

(** Any later pass writes nothing. *)
Lemma upsert_rests host sn l c t o l' :
  unrecorded host sn l -> om_Namespace (dc_Meta c) = om_Namespace (dh_Meta host) ->
  is_adopted_as host sn c = true -> settled host sn c ->
  runs (upsertAdoptedContainer host sn) t o -> served (l ++ [c]) t l' ->
  l' = l ++ [c] /\ exists r, t = [Obs (KListContainers (om_Namespace (dh_Meta host)) None) r].
Proof.
  intros Hl Hns Hc Hset Hr Hs. unfold upsertAdoptedContainer in Hr. run_step; subst.
  - apply served_head in Hs as (l1 & [-> Hi] & Hs). rewrite (recorded_listed _ _ _ _ _ Hl Hns Hc Hi) in Hr.
    apply refresh_settled in Hr as [-> ->]; [| done]. inversion Hs; subst. eauto.
  - apply served_one in Hs as [-> _]. eauto.
Qed.

(** The same object, but for its finalizers, its status and what the server keeps. *)
Definition same_record (c c' : DockerContainer) : Prop :=
  dc_Spec c' = dc_Spec c /\ key_of c' = key_of c /\
  om_Labels (dc_Meta c') = om_Labels (dc_Meta c) /\ om_Annotations (dc_Meta c') = om_Annotations (dc_Meta c).

Lemma same_record_found host sn c c' :
  same_record c c' -> is_adopted_as host sn c = true -> meta_changed host sn (dc_Meta c) = false ->
  is_adopted_as host sn c' = true /\ meta_changed host sn (dc_Meta c') = false /\
  om_Namespace (dc_Meta c') = om_Namespace (dc_Meta c).
Proof.
  intros (Es & Ek & El & Ea) Hc Hm. unfold is_adopted_as, meta_changed in *. rewrite Es, El, Ea. by injection Ek.
Qed.

(** C37: adoption finds what it made, and completes it.  In a namespace without an
    object for a running container, the first pass that succeeds creates exactly
    one, of a valid name, with the spec recorded and in Observe mode; the API
    server drops the status it was built with, so it is not marked as adopted, and a
    deletion would remove the running container.  Whatever becomes of its finalizers
    and its status meanwhile, the next pass that succeeds finds it, creates no second
    one, and writes its status, if that is not yet complete, and nothing else; a
    deletion now spares the container; and as long as the status stays complete,
    every further pass only lists. *)
Theorem adopted_object_found host m j ts sn l t1 l1 :
  runs (runtimeSnapshotFromInspect (om_Name (dh_Meta host)) m j) ts (Val sn) ->
  unrecorded host sn l -> runs (upsertAdoptedContainer host sn) t1 (Val tt) -> served l t1 l1 ->
  let listing := Obs (KListContainers (om_Namespace (dh_Meta host)) None) in
  exists c, l1 = l ++ [c] /\ dc_Spec c = sn_Spec sn /\
    om_Namespace (dc_Meta c) = om_Namespace (dh_Meta host) /\ valid_object_name (om_Name (dc_Meta c)) /\
    managementModeFor c = DockerContainerManagementModeObserve /\ shouldSkipRuntimeDeletion c = false /\
    forall c2 t2 l2, same_record c c2 ->
      runs (upsertAdoptedContainer host sn) t2 (Val tt) -> served (l ++ [c2]) t2 l2 ->
      exists c', l2 = l ++ [c'] /\ dc_Spec c' = dc_Spec c2 /\ dc_Meta c' = dc_Meta c2 /\
        settled host sn c' /\ shouldSkipRuntimeDeletion c' = true /\
        (exists r, c' = c2 /\ t2 = [listing r] \/
           ~ settled host sn c2 /\ exists r', t2 = [listing r; Obs (KStatusUpdate KDockerContainer c') r']) /\
        forall c3 t3 o3 l3, same_record c' c3 -> settled host sn c3 ->
          runs (upsertAdoptedContainer host sn) t3 o3 -> served (l ++ [c3]) t3 l3 ->
          l3 = l ++ [c3] /\ exists r, t3 = [listing r].
Proof.
  intros Hsn Hl Hr Hs listing. apply snapshot_identity in Hsn as (Href & Hname & Hid & Hmode).
  apply (upsert_creates _ _ _ _ _ Hl Hr) in Hs as (c & -> & Hk & Espec & Est & Ekey & Elab & Eann).
  injection Ekey as Ens En. cbn [buildAdoptedDockerContainer dc_Spec dc_Meta set_Labels set_Annotations
    om_Labels om_Annotations om_Name om_Namespace new_meta] in *.
  assert (is_adopted_as host sn c = true) as Hc.
  { unfold is_adopted_as. by rewrite Espec, Href, Hname, !(proj2 (eqb_str_true _ _) eq_refl). }
  assert (meta_changed host sn (dc_Meta c) = false) as Hm.
  { unfold meta_changed. rewrite Elab, Eann, !lookup_singleton_eq. cbn [default].
    by rewrite !(proj2 (eqb_str_true _ _) eq_refl). }
  assert (forall c', dc_Spec c' = dc_Spec c -> managementModeFor c' = DockerContainerManagementModeObserve) as Hobs
    by (intros c' E; unfold managementModeFor; by rewrite E, Espec, Hmode).
  exists c. split_and!; [done | done | done | rewrite En; apply object_name_valid | by apply Hobs | |].
  { unfold shouldSkipRuntimeDeletion. by rewrite Est. }
  intros c2 t2 l2 Hsame Hr2 Hs2. destruct (same_record_found _ _ _ _ Hsame Hc Hm) as (Hc2 & Hm2 & Ens2).
  assert (key_of c2 ∉ (key_of <$> l)) as Hk2 by (destruct Hsame as (_ & -> & _); done).
  assert (om_Namespace (dc_Meta c2) = om_Namespace (dh_Meta host)) as Hns2 by congruence.
  destruct (upsert_completes _ _ _ _ _ _ Hl Hns2 Hc2 Hm2 Hk2 Hr2 Hs2) as (r & Hcase).
  enough (exists c', l2 = l ++ [c'] /\ dc_Spec c' = dc_Spec c2 /\ dc_Meta c' = dc_Meta c2 /\ settled host sn c' /\
    exists r, c' = c2 /\ t2 = [listing r] \/
      ~ settled host sn c2 /\ exists r', t2 = [listing r; Obs (KStatusUpdate KDockerContainer c') r'])
    as (c' & E2 & Es & Em & Hset & Ht).
  { exists c'. split_and!; try done.
    - unfold shouldSkipRuntimeDeletion. rewrite Hobs by (rewrite Es; apply Hsame). by destruct Hset as (_ & -> & _).
    - intros c3 t3 o3 l3 Hsame3 Hset3 Hr3 Hs3.
      destruct (same_record_found host sn c' c3 Hsame3) as (Hc3 & _ & Ens3).
      + unfold is_adopted_as in *. by rewrite Es.
      + by rewrite Em.
      + eapply upsert_rests; [exact Hl | | exact Hc3 | exact Hset3 | exact Hr3 | exact Hs3]. congruence. }
  destruct Hcase as [(Hset & -> & ->) | (Hset & -> & r' & ->)].
  - exists c2. split_and!; try done. exists r. by left.
  - eexists. split_and!; [reflexivity | done | done | by split | exists r; right; eauto].
Qed.

(** ** The daemon is only read *)

(** Watching a host changes nothing on it: no run of the [DockerHost]
    reconciler creates, starts, stops or removes anything, and none deletes an
    object. *)
Theorem host_reconcile_reads_only req t o :
  runs (Reconcile req) t o ->
  Forall (fun x => mutates_docker x = false) t /\ collect deleted_object t = [].
Proof.
  intros Hr. split.
  - eapply always_runs; [| exact Hr]. unfold Reconcile, NewClientFromHost, reconcile_host,
      discoverAdoptableContainers, upsertAdoptedContainer, refresh_adopted.
    always_tac; auto using quiet_newClient, quiet_snapshot.
  - eapply collect_unseen; [| exact Hr]. unfold Reconcile, NewClientFromHost, newClient, reconcile_host,
      discoverAdoptableContainers, upsertAdoptedContainer, refresh_adopted,
      runtimeSnapshotFromInspect, collectPortMappings, dockerIPv4. always_tac.
Qed.

(** ** The status of a host *)

Lemma discover_silent cli host : always (fun o => wrote_host o = None) (discoverAdoptableContainers cli host).
Proof.
  unfold discoverAdoptableContainers, upsertAdoptedContainer, refresh_adopted,
    runtimeSnapshotFromInspect, collectPortMappings, dockerIPv4. always_tac.
Qed.

(** The status of a host is what the ping says: it is written exactly when it
    differs from the recorded one; the daemon's containers are looked at only
    when the ping succeeded, and a reconciliation that succeeds is repeated after
    thirty seconds. *)
Theorem host_status_follows_ping cli host t o :
  runs (reconcile_host cli host) t o ->
  exists r t', t = Obs (DPing cli) r :: t' /\
    collect wrote_host t' =
      (if eqb_str (hst_Phase (dh_Status host)) (hst_Phase (ping_status r)) &&
          eqb_str (hst_Message (dh_Status host)) (hst_Message (ping_status r))
       then [] else [ping_status r]) /\
    (forall e, r = Err e -> Forall (fun x => touches_docker x = false) t') /\
    (forall res, o = Val res -> res = requeue_after hostRequeue).
Proof.
  unfold reconcile_host. intros Hr. run_step. subst. eexists _, _. split; [done |].
  assert (forall host' t o, runs
    ((if eqb_str (hst_Phase (ping_status r)) phaseConnected then
        attempt (discoverAdoptableContainers cli host') ;; ret tt else ret tt) ;;
     ret (requeue_after hostRequeue)) t o ->
    collect wrote_host t = [] /\ (forall e, r = Err e -> t = []) /\
    (forall res, o = Val res -> res = requeue_after hostRequeue)) as Hrest.
  { intros host' t' o' H'. split_and!.
    - eapply collect_unseen; [| exact H']. always_tac. apply discover_silent.
    - intros e ->. change (eqb_str _ phaseConnected) with false in H'. by run_inv.
    - intros res ->. repeat (run_step; simplify_eq); done. }
  destruct (_ && _).
  - run_step. apply Hrest in Hr as (-> & He & Hv). split_and!; try done.
    intros e ->. by rewrite (He e eq_refl).
  - run_step; subst.
    + apply Hrest in Hr as (Hw & He & Hv). simpl. rewrite Hw. split_and!; try done.
      intros e ->. rewrite (He e eq_refl). by repeat constructor.
    + split_and!; try done. intros e' _. by repeat constructor.
Qed.
End hosts.
