(* ===== verification/SchemaTheorems.v ===== *)
(** * SchemaTheorems: the objects written are well-typed

    The schema of a [DockerContainer] is checked by the API server, which refuses
    an object that violates it; an object the operator itself writes must keep to
    it, or reconciliation fails for ever. *)

From S2P Require Import Prelude Effects GoText Strconv Floats ApiTypes Json World KubeLib Adopt DockerHostClient HostController HostTheorems DeploymentController DeploymentTheorems DeploymentStore.
From S2P Require ContainerController ContainerTheorems.

Open Scope Z_scope.

Definition valid_object (c : DockerContainer) : Prop := valid_spec (dc_Spec c) = true.

(** ** DockerContainer *)

Section container.
Context `{UnicodeData} `{NatLib} `{Sha256} `{X509} `{ContainerController.TarLib} `{ControllerUtil}.
Import ContainerController.

Ltac unfold_sync := unfold sync, observeRuntime, runtimeSnapshotFromInspect, collectPortMappings,
  create, create_container, start_created, pull_auth, getAuthConfig, resolveEnv, env_value,
  getSecretValue, uploadSecretToContainer, writeStatus, dockerIPv4.

Lemma sync_updates_nothing cli cr name : always (fun o => updated_object o = None) (sync cli cr name).
Proof. unfold_sync. always_tac. Qed.

Lemma NewClient_updates_nothing ns ref : always (fun o => updated_object o = None) (NewClient ns ref).
Proof. unfold NewClient, newClient. always_tac. Qed.

Lemma delete_updates_nothing cli cr name :
  always (fun o => updated_object o = None) (deleteExternalResources cli cr name).
Proof. unfold deleteExternalResources. always_tac. Qed.

(** The reconciler writes an object back with the spec it read. *)
Lemma container_spec_kept cr t o :
  runs (reconcile_found cr) t o ->
  Forall (fun c => dc_Spec c = dc_Spec cr) (collect updated_object t).
Proof.
  apply collect_always.
  assert (forall A (p : M event A), always (fun o => updated_object o = None) p ->
            always (fun o => forall c, updated_object o = Some c -> dc_Spec c = dc_Spec cr) p) as Hmono.
  { intros A p. apply always_mono. congruence. }
  unfold reconcile_found. always_tac; cbn [updated_object]; try congruence;
    eauto using sync_updates_nothing, NewClient_updates_nothing, delete_updates_nothing.
  all: by intros c [= <-].
Qed.
End container.

(** ** DockerDeployment *)

Section deployment.
Context `{ControllerUtil}.

Lemma scale_creates d owned t o :
  runs (scale d owned) t o -> Forall (is_child d) (collect created_object t).
Proof.
  unfold scale. destruct (0 <? _); [| destruct (_ <? 0)].
  - intros Hr. by apply scale_up_loop in Hr as (_ & ? & _).
  - intros Hr. apply (collect_unseen created_object) in Hr as ->; [constructor |].
    unfold scale_down, delete_victim. always_tac.
  - intros Hr. run_inv. constructor.
Qed.

Lemma deployment_creates d t o :
  runs (reconcile_deployment d) t o -> Forall (is_child d) (collect created_object t).
Proof.
  intros Hr. destruct (time_IsZero (om_DeletionTimestamp (dd_Meta d))) eqn:Hd.
  - apply reconcile_steps in Hr as [[[-> _] _] | (all & owned & l & t1 & o1 & t2 & -> & _ & [Hl _] & Hs & [Ht2 _] & _)];
      [constructor | | done].
    change (Forall (is_child d) (collect created_object (l ++ t1 ++ t2))).
    rewrite !collect_app, Hl, Ht2, app_nil_r. by eapply scale_creates.
  - unfold reconcile_deployment in Hr. rewrite Hd in Hr. cbn [negb] in Hr.
    run_inv. constructor.
Qed.

Lemma child_valid d c :
  is_child d c -> valid_spec (ct_Spec (dps_Template (dd_Spec d))) = true -> valid_object c.
Proof.
  intros (suffix & meta & _ & _ & ->). unfold valid_object, child_spec. cbn [dc_Spec].
  unfold valid_spec. rewrite !andb_true_iff. intros [[Hi Hp] Hm].
  destruct (eqb_str (cs_ManagementMode _) ""); by rewrite ?Hi, ?Hp, ?Hm.
Qed.
End deployment.

(** ** DockerHost *)

Section host.
Context `{UnicodeData} `{NatLib} `{Sha256} `{X509}.

(** What the schema wants of a container a daemon describes. *)
Definition described_valid (j : ContainerJSON) : Prop :=
  (forall config, cj_Config j = Some config -> ci_Image config <> "") /\
  (forall base h, cj_Base j = Some base -> cjb_HostConfig base = Some h ->
     hci_RestartPolicy h ∈ "" :: restart_policies).

Lemma snapshot_valid name m j t sn :
  runs (runtimeSnapshotFromInspect name m j) t (Val sn) -> described_valid j ->
  valid_spec (sn_Spec sn) = true.
Proof.
  unfold runtimeSnapshotFromInspect. intros Hr [Hi Hp].
  destruct (c_Names m) as [| n names]; [by run_inv |].
  destruct (cj_Base j) as [base |]; [| by run_inv].
  destruct (cj_Config j) as [config |]; [| by run_inv].
  assert (forall h, cjb_HostConfig base = Some h -> hci_RestartPolicy h ∈ "" :: restart_policies) as Hp'
    by eauto.
  specialize (Hi config eq_refl).
  repeat (run_step; simplify_eq); unfold valid_spec; cbn [sn_Spec cs_Image cs_RestartPolicy cs_ManagementMode];
    rewrite !andb_true_iff, !bool_decide_eq_true;
    (split_and!; [done | destruct (cjb_HostConfig base); [by eapply Hp' | by left] | by right; left]).
Qed.

(** The objects a trace writes, their status apart, and those it lists. *)
Definition written_objects (t : list (obs event)) : list DockerContainer :=
  collect created_object t ++ collect updated_object t.
Definition listings_valid (t : list (obs event)) : Prop :=
  Forall (Forall valid_object) (collect listed_objects t).

Lemma upsert_valid host sn t o :
  runs (upsertAdoptedContainer host sn) t o -> valid_spec (sn_Spec sn) = true -> listings_valid t ->
  Forall valid_object (written_objects t).
Proof.
  unfold upsertAdoptedContainer, listings_valid, written_objects. intros Hr Hsn Hl. run_step; subst; [| constructor].
  simpl in Hl. apply Forall_cons in Hl as [Hitems _].
  destruct (head (filter _ r)) as [existing |] eqn:Eh.
  - assert (valid_object existing) as Hex.
    { rewrite Forall_forall in Hitems. apply Hitems.
      apply head_elem_of in Eh. by apply list_elem_of_filter in Eh as [_ ?]. }
    unfold refresh_adopted in Hr. destruct (meta_changed _ _ _).
    + run_step; subst; [| by repeat constructor].
      destruct (_ || _); repeat (run_step; simplify_eq); by repeat constructor.
    + run_step. destruct (_ || _); repeat (run_step; simplify_eq); constructor.
  - repeat (run_step; simplify_eq); by repeat constructor.
Qed.

Lemma written_app t1 t2 : written_objects (t1 ++ t2) ≡ₚ written_objects t1 ++ written_objects t2.
Proof. unfold written_objects. rewrite !collect_app. solve_Permutation. Qed.

Lemma written_silent {A} (p : M event A) t o :
  always (fun o => created_object o = None /\ updated_object o = None) p -> runs p t o ->
  written_objects t = [].
Proof.
  intros Hp Hr. unfold written_objects.
  rewrite (collect_unseen created_object p t o), (collect_unseen updated_object p t o); try done;
    (eapply always_mono; [| exact Hp]; naive_solver).
Qed.

Lemma snapshot_writes_nothing name m j :
  always (fun o => created_object o = None /\ updated_object o = None) (runtimeSnapshotFromInspect name m j).
Proof. unfold runtimeSnapshotFromInspect, collectPortMappings, dockerIPv4. always_tac; by split. Qed.

Definition adopt_one (cli : DockerClient) (host : DockerHost) (summary : Container) : M event unit :=
  if adoptable summary then
    let! inspect := try_call (DContainerInspect cli (c_ID summary)) in
    let! snapshot := runtimeSnapshotFromInspect (om_Name (dh_Meta host)) summary inspect in
    upsertAdoptedContainer host snapshot
  else ret tt.

(** Nothing invalid is written as long as nothing invalid is read. *)
Definition writes_valid {A} (p : M event A) : Prop :=
  forall t o, runs p t o -> Forall described_valid (collect inspected t) -> listings_valid t ->
    Forall valid_object (written_objects t).

Lemma writes_valid_silent {A} (p : M event A) :
  always (fun o => created_object o = None /\ updated_object o = None) p -> writes_valid p.
Proof. intros Hp t o Hr _ _. by rewrite (written_silent _ _ _ Hp Hr). Qed.

Lemma writes_valid_bind {A B} (p : M event A) (f : A -> M event B) :
  writes_valid p -> (forall a, writes_valid (f a)) -> writes_valid (bind p f).
Proof.
  intros Hp Hf t o Hr Hd Hl. apply (proj1 (runs_bind _ _ _ _)) in Hr as
    [(t1 & a & t2 & -> & Hrp & Hrf) | [(e & -> & Hrp) | (-> & Hrp)]]; [| by eapply Hp .. ].
  unfold listings_valid in Hl. rewrite collect_app, Forall_app in Hd. rewrite collect_app, Forall_app in Hl.
  destruct Hd, Hl. rewrite written_app, Forall_app. split; [by eapply Hp | by eapply Hf].
Qed.

Lemma writes_valid_attempt {A} (p : M event A) : writes_valid p -> writes_valid (attempt p).
Proof.
  intros Hp t o Hr. apply (proj1 (runs_attempt _ _ _)) in Hr as
    [(a & -> & Hr) | [(e & -> & Hr) | (-> & Hr)]]; by eapply Hp.
Qed.

Lemma adopt_one_valid cli host m : writes_valid (adopt_one cli host m).
Proof.
  intros t o Hr Hd Hl. unfold adopt_one in Hr. destruct (adoptable m); [| by run_inv; constructor].
  run_step; subst; [| constructor]. simpl in Hd. apply Forall_cons in Hd as [Hj Hd].
  change (Forall valid_object (written_objects t0)). change (listings_valid t0) in Hl.
  apply (proj1 (runs_bind _ _ _ _)) in Hr as
    [(t1 & sn & t2 & -> & Hs & Hr) | [(e & -> & Hs) | (-> & Hs)]].
  2, 3: by rewrite (written_silent _ _ _ (snapshot_writes_nothing _ _ _) Hs).
  rewrite written_app, (written_silent _ _ _ (snapshot_writes_nothing _ _ _) Hs). cbn [app].
  unfold listings_valid in Hl. rewrite collect_app, Forall_app in Hl. destruct Hl as [_ Hl].
  eapply upsert_valid; [exact Hr | by eapply snapshot_valid | exact Hl].
Qed.

Lemma host_writes_valid req : writes_valid (HostController.Reconcile req).
Proof.
  unfold HostController.Reconcile. apply writes_valid_bind; [apply writes_valid_silent; always_tac; by split |].
  intros [host | e]; [| apply writes_valid_silent; always_tac].
  apply writes_valid_bind.
  { apply writes_valid_silent. unfold NewClientFromHost, newClient. always_tac; by split. }
  intros [cli | e]; [| apply writes_valid_silent; always_tac; by split].
  intros t o Hr. apply (proj1 (runs_deferring _ _ _ _)) in Hr as (t1 & t2 & x & -> & Hr & Hc).
  run_inv. unfold listings_valid. rewrite !collect_app, written_app, !app_nil_r. revert t1 o Hr.
  change (writes_valid (reconcile_host cli host)). unfold reconcile_host.
  apply writes_valid_bind; [apply writes_valid_silent; always_tac; by split |]. intros pong.
  apply writes_valid_bind; [apply writes_valid_silent; always_tac; by split |]. intros host'.
  apply writes_valid_bind; [| intros _; apply writes_valid_silent; always_tac].
  destruct (eqb_str _ _); [| apply writes_valid_silent; always_tac].
  apply writes_valid_bind; [| intros _; apply writes_valid_silent; always_tac].
  apply writes_valid_attempt. unfold discoverAdoptableContainers.
  apply writes_valid_bind; [apply writes_valid_silent; always_tac; by split |]. intros l.
  induction l as [| m l IH]; cbn [for_each]; [by apply writes_valid_silent |].
  apply writes_valid_bind; [apply adopt_one_valid | intros _; exact IH].
Qed.
End host.

(** ** The operator *)

(** C25: what is written is well-typed: the operator keeps to the schema of
    [DockerContainer].  The DockerContainer reconciler writes an object back with
    the spec it read; the children a DockerDeployment creates are valid when its
    template is, in every run, also one that fails or panics; and what the
    DockerHost reconciler creates or updates is valid as long as the objects it
    lists are and the daemon names an image and a restart policy Docker knows. *)
Theorem written_specs_valid `{UnicodeData} `{NatLib} `{Sha256} `{X509}
    `{ContainerController.TarLib} `{ControllerUtil} :
  (forall cr t o, runs (ContainerController.reconcile_found cr) t o -> valid_object cr ->
     Forall valid_object (collect updated_object t)) /\
  (forall d t o, runs (reconcile_deployment d) t o ->
     valid_spec (ct_Spec (dps_Template (dd_Spec d))) = true ->
     Forall valid_object (collect created_object t)) /\
  (forall req t o, runs (HostController.Reconcile req) t o ->
     Forall described_valid (collect inspected t) -> listings_valid t ->
     Forall valid_object (collect created_object t ++ collect updated_object t)).
Proof.
  split; [| split].
  - intros cr t o Hr Hv. eapply Forall_impl; [by eapply container_spec_kept |].
    intros c Hc. unfold valid_object. by rewrite Hc.
  - intros d t o Hr Hv. eapply Forall_impl; [by eapply deployment_creates |].
    intros c Hc. by eapply child_valid.
  - exact host_writes_valid.
Qed.
