(* ===== verification/AdoptionStore.v ===== *)
(** * AdoptionStore: two reconcilers on one Docker host

    The [DockerHost] reconciler records the containers it finds, the
    [DockerContainer] reconciler acts on the records: the two together, against the
    containers of [DockerStore]. *)

From S2P Require Import Prelude Effects Stores GoText Strconv Floats ApiTypes Json World DockerStore KubeLib Adopt DockerHostClient ContainerController ContainerTheorems ContainerDrift ContainerStore HostController HostTheorems SchemaTheorems.

Open Scope Z_scope.

(** A container with a name as Docker allows it, whose CPU limit survives its text. *)
Definition ordinary `{UnicodeData} (m : machine) : Prop :=
  m_Name m <> "" /\ slash_free (m_Name m) /\
  forall h, m_HostConfig m = Some h ->
    0 <= hci_NanoCPUs h /\ in_int64 (hci_Memory h) /\ 0 <= hci_Memory h /\
    (0 < hci_NanoCPUs h -> cpu_exact (hci_NanoCPUs h) = true).

(** The host together with the objects created so far. *)
#[local] Instance adopting : Store event (daemon * list DockerContainer) := recording created_object.

Section adoption.
Context `{UnicodeData} `{NatLib} `{Sha256} `{X509} `{TarLib} `{ControllerUtil}.
Variable d : daemon.
Hypothesis Hord : map_Forall (fun _ m => ordinary m) d.

(** The object records a container of the host, which meets its spec. *)
Definition records (c : DockerContainer) : Prop :=
  exists id m, d !! id = Some m /\ ordinary m /\ cs_ContainerName (dc_Spec c) = m_Name m /\
    matches_spec (m_base m) (m_Config m)
      (set_ManagementMode DockerContainerManagementModeEnforce (dc_Spec c)).

Definition faithful (s : daemon * list DockerContainer) : Prop := s.1 = d /\ Forall records s.2.

(** A call that changes no container and creates no object. *)
Lemma silent_faithful o s s' :
  quiet o -> created_object o = None -> store_step s o s' -> faithful s -> faithful s'.
Proof.
  intros Hq Hc [Ho El] [Ed Hf]. rewrite Hc, app_nil_r in El. apply (quiet_inert _ Hq) in Ho.
  split; [congruence | by rewrite El].
Qed.

Lemma triple_silent {A} s (p : prog event A) :
  always (fun o => quiet o /\ created_object o = None) p -> faithful s ->
  triple s p (fun _ s' => faithful s').
Proof.
  intros Hp. apply triple_keeps. eapply always_mono; [| exact Hp].
  intros o [Hq Hc] s1 s2. by apply silent_faithful.
Qed.

Lemma snapshot_silent_quiet name m j :
  always (fun o => quiet o /\ created_object o = None) (runtimeSnapshotFromInspect name m j).
Proof. unfold runtimeSnapshotFromInspect, collectPortMappings, dockerIPv4. always_tac; by split. Qed.

(** The snapshot of a container of the host. *)
Lemma snapshot_records ns host summary j t sn :
  runs (runtimeSnapshotFromInspect (om_Name (dh_Meta host)) summary j) t (Val sn) ->
  (exists id m, d !! id = Some m /\ describes id m j) ->
  records (buildAdoptedDockerContainer ns host sn).
Proof using All.
  intros Hr (id & m & Hm & base & st & Hbase & _ & Hname & Hhc & Hcfg & _).
  pose proof (Hord _ _ Hm) as Ho. exists id, m. split; [done |]. split; [done |].
  destruct j as [b c ns']. simpl in Hbase, Hcfg. subst b c.
  pose proof (adopted_no_drift _ _ _ _ _ _ _ DockerContainerManagementModeEnforce Hr) as Hd.
  destruct Ho as (Hn & _ & Hlim). rewrite <- Hhc in Hlim. specialize (Hd Hlim).
  destruct (needsRecreate_cases base (m_Config m) ns'
    (set_ManagementMode DockerContainerManagementModeEnforce (sn_Spec sn))) as (b & E & Hb).
  rewrite E in Hd. injection Hd as ->. destruct (proj1 Hb eq_refl) as (? & ? & ? & Hh). split.
  - cbn [buildAdoptedDockerContainer dc_Spec].
    unfold runtimeSnapshotFromInspect in Hr. cbn [cj_Base cj_Config] in Hr.
    destruct (c_Names summary) as [| n names]; [by run_inv |].
    assert (eqb_str (cjb_Name base) "" = false) as En by by rewrite Hname.
    rewrite En, Hname in Hr. repeat (run_step; simplify_eq); done.
  - cbn [buildAdoptedDockerContainer dc_Spec]. split_and!; try done.
    intros h Eh. apply Hh. by rewrite Hhc.
Qed.

Ltac silent := apply triple_silent; [always_tac; by split | done].

Lemma triple_then_silent {A B} s (p : M event A) (f : A -> M event B) :
  triple s p (fun _ s' => faithful s') ->
  (forall a s', faithful s' -> triple s' (f a) (fun _ s'' => faithful s'')) ->
  triple s (bind p f) (fun _ s' => faithful s').
Proof.
  intros Hp Hf. apply triple_bind. eapply triple_mono; [exact Hp |].
  intros [a | e |] s' Hs; cbn [continue]; auto.
Qed.

Lemma upsert_faithful s host sn :
  faithful s -> records (buildAdoptedDockerContainer (om_Namespace (dh_Meta host)) host sn) ->
  triple s (upsertAdoptedContainer host sn) (fun _ s' => faithful s').
Proof.
  intros Hs Hrec. unfold upsertAdoptedContainer. apply triple_then_silent; [silent |].
  intros items s1 Hs1. destruct (head _) as [existing |].
  { unfold refresh_adopted. silent. }
  apply triple_then_silent; [| intros ? ? ?; silent].
  apply triple_try_call. intros r [d2 l2] _ [Hd El]. destruct s1 as [d1 l1], Hs1 as [Ed Hl].
  change (d2 = d1) in Hd. simpl in *. split; [simpl; by rewrite Hd |]. simpl. rewrite El. apply Forall_app. by repeat constructor.
Qed.

Lemma adopt_one_faithful s cli host summary :
  faithful s -> triple s (adopt_one cli host summary) (fun _ s' => faithful s').
Proof using All.
  intros Hs. unfold adopt_one. destruct (adoptable summary); [| by apply triple_ret].
  apply triple_bind, triple_try_call. intros r s1 _ Hstep.
  assert (faithful s1) as Hs1 by (by eapply silent_faithful; [| | exact Hstep |]).
  destruct r as [j | e]; [| done]. cbn [to_outcome continue].
  destruct Hstep as [[_ (id & m & (_ & Hm & _) & Hdesc)] _]. destruct Hs as [Ed _]. rewrite Ed in Hm.
  apply triple_bind. eapply triple_mono.
  { apply triple_and; [apply (triple_silent s1 _ (snapshot_silent_quiet _ _ _) Hs1) |].
    intros t a s' Hr _. exact (ex_intro (fun t => runs _ t a) t Hr). }
  intros [sn | e |] s2 [Hs2 [t Hr]]; cbn [continue]; [| done ..].
  apply upsert_faithful; [done |]. eapply snapshot_records; [exact Hr | eauto].
Qed.

Lemma host_faithful req : triple (d, []) (HostController.Reconcile req) (fun _ s' => faithful s').
Proof using All.
  assert (faithful (d, [])) as H00 by (by split; [| constructor]). revert H00. generalize (d, [] : list DockerContainer).
  intros s Hs. unfold HostController.Reconcile. apply triple_then_silent; [silent |].
  intros [host | e] s1 Hs1; [| by destruct (err_k8s_notfound e); [apply triple_ret | apply triple_fail]].
  apply triple_then_silent.
  { unfold NewClientFromHost, newClient. silent. }
  intros [cli | e] s2 Hs2; [| silent].
  apply triple_deferring. eapply triple_mono with (Q := fun _ s' => faithful s').
  2:{ intros o s3 Hs3. eapply triple_mono with (Q := fun _ s' => faithful s'); [silent | done]. }
  unfold reconcile_host. apply triple_then_silent; [silent |]. intros pong s3 Hs3.
  apply triple_then_silent; [silent |]. intros host' s4 Hs4.
  apply triple_then_silent; [| intros ? ? ?; silent].
  destruct (eqb_str _ _); [| silent]. apply triple_then_silent; [| intros ? ? ?; silent].
  apply triple_attempt. eapply triple_mono with (Q := fun _ s' => faithful s'); [| by intros [| |]].
  unfold discoverAdoptableContainers. apply triple_then_silent; [silent |]. intros l s5 Hs5.
  apply triple_for_each; [done |]. intros summary s6 _ Hs6. by apply adopt_one_faithful.
Qed.

(** C5: adoption and enforcement fit together, for containers whose limits survive
    being written as text: on a host on which the CPU limit of every container is
    one that [cpu_exact] accepts, its memory limit is not negative, and its name is
    one Docker allows, every object that a reconciliation of the host creates stands
    for a container of that host, under its name; switch the object to Enforce,
    change nothing else, and no reconciliation of it restarts, recreates or removes
    anything while the container runs.  Watching the host changed nothing on it
    either.  Of other CPU limits this is false (C40). *)
Theorem adoption_leaves_running req t o d1 c :
  runs (HostController.Reconcile req) t o -> served d t d1 -> c ∈ collect created_object t ->
  names_unique d ->
  d1 = d /\
  exists id m, d !! id = Some m /\ cs_ContainerName (dc_Spec c) = m_Name m /\
    (m_State m = containerStateRunning ->
     forall req2 t2 o2 cr d2, runs (ContainerController.Reconcile req2) t2 o2 ->
       first_container t2 = Some (Ok cr) -> served d t2 d2 -> enforced cr ->
       dc_Spec cr = set_ManagementMode DockerContainerManagementModeEnforce (dc_Spec c) ->
       Forall quiet t2 /\ d2 = d).
Proof using All.
  intros Hr Hs Hc Hu. apply (served_recording created_object _ _ _ []) in Hs as Hs'.
  destruct (host_faithful req t o _ Hr Hs') as [Ed Hall]. simpl in Ed, Hall. split; [done |].
  rewrite Forall_forall in Hall. destruct (Hall c Hc) as (id & m & Hm & (Hn & Hslash & _) & Ename & Hmatch).
  exists id, m. split_and!; [done | done |].
  intros Hrun req2 t2 o2 cr d2 Hr2 Hf2 Hs2 He Espec.
  assert (runtime_name cr = m_Name m) as Erun.
  { unfold runtime_name. rewrite Espec. change (cs_ContainerName (set_ManagementMode _ ?s)) with (cs_ContainerName s).
    rewrite Ename. by apply eqb_str_false in Hn as ->. }
  assert (settled_as running (dc_Spec cr) (runtime_name cr) d) as Hset
    by (exists id, m; by rewrite Espec, Erun).
  destruct (reconcile_settled _ _ _ _ _ _ Hr2 Hf2 Hs2 Hu He) as (-> & _ & Hq);
    [by rewrite Erun | eapply settled_as_mono; [exact running_alive | exact Hset] | auto].
Qed.
End adoption.
