(* ===== verification/DeepCopyTheorems.v ===== *)
(** * DeepCopyTheorems: a deep copy is one

    A copy reads as the original does and shares no memory with it, for every type
    of the package, and what the [DockerService] reconciler makes of that when it
    patches a status. *)

From S2P Require Import Prelude Effects GoMemory GoText Strconv ApiTypes ApiMemory DeepCopy World KubeLib Adopt DockerHostClient ServiceController.

Open Scope Z_scope.

(** ** They copy *)

(** Readers may look at every type. *)
Definition anything (t : ty) : Prop := True.

Lemma copies_slice_any t V (rd : reader (elem t) V) cp :
  copies rd cp -> looks_at anything rd -> copies (read_slice t rd) (copy_slice t cp).
Proof. intros Hc Hl. by eapply copies_slice. Qed.

Lemma copies_entries : copies flat copy_entries.
Proof.
  intros h m v [= <-]. apply yields_ret. intros h2 _. unfold flat. f_equal. apply (list_to_map_to_list m).
Qed.
Lemma copies_map : copies read_map copy_map.
Proof.
  intros h p v Hr. unfold read_map in Hr. apply fmap_Some in Hr as (o & Ho & ->).
  destruct (copies_ptr TMap _ flat _ copies_entries h p o Ho) as (p' & h' & Hp & Hle & Hk).
  exists p', h'. split_and!; [done | done |]. intros h2 H2. unfold read_map. by rewrite (Hk h2 H2).
Qed.

Create HintDb copies.
#[export] Hint Resolve copies_flat copies_ptr copies_slice_any copies_map : copies.
#[export] Hint Extern 1 (anything _) => exact I : looks copies.
#[export] Hint Extern 1 (forall t, inner t = true -> anything t) => by intros : looks copies.
#[export] Hint Extern 1 (looks_at anything _) => solve [eauto with looks] : copies.

(** The fields of a struct one by one. *)
Ltac copies_fields rd :=
  let h := fresh "h" in let Hr := fresh "Hr" in let Hle0 := fresh "Hle" in
  intros h ? ? Hr; unfold rd in Hr;
  repeat (let E := fresh "E" in apply bind_Some in Hr as (? & E & Hr));
  injection Hr as <-;
  lazymatch goal with |- yields _ _ ?p _ _ => let p' := eval red in p in change p with p' end;
  pose proof (reflexivity (R := (⊆)) h) as Hle0;
  repeat (eapply yields_bind;
    [ eapply (yields_copy anything);
        [solve [eauto with copies] | solve [eauto with looks] | exact Hle0 | eassumption]
    | let h2 := fresh "h" in let Hle := fresh "Hle" in
      intros ? h2 Hle ?;
      repeat match goal with
      | K : rests_on h _ _ _ _ |- _ => apply (rests_on_later _ _ _ _ _ _ Hle) in K
      end;
      eapply (transitivity Hle0) in Hle; clear Hle0; rename Hle into Hle0 ]);
  apply yields_ret; let h3 := fresh "h" in let H3 := fresh "H" in intros h3 H3; unfold rd;
  repeat (apply bind_Some; eexists; split;
    [match goal with K : rests_on h _ _ ?x _ |- _ _ ?y = _ => unify x y; exact (K h3 H3) end |]);
  reflexivity.

Section copies.
Context `{MetaV1Laws}.

Lemma EnvVarSource_copies : copies read_EnvVarSource EnvVarSource_DeepCopyInto.
Proof using All. copies_fields read_EnvVarSource. Qed.
#[local] Hint Resolve EnvVarSource_copies : copies.
Lemma EnvVar_copies : copies read_EnvVar EnvVar_DeepCopyInto.
Proof using All. copies_fields read_EnvVar. Qed.
#[local] Hint Resolve EnvVar_copies : copies.
Lemma HealthCheckConfig_copies : copies read_HealthCheckConfig HealthCheckConfig_DeepCopyInto.
Proof using All. copies_fields read_HealthCheckConfig. Qed.
#[local] Hint Resolve HealthCheckConfig_copies : copies.
Lemma DockerContainerSpec_copies : copies read_ContainerSpec DockerContainerSpec_DeepCopyInto.
Proof using All. copies_fields read_ContainerSpec. Qed.
#[local] Hint Resolve DockerContainerSpec_copies metav1_ObjectMeta_copies metav1_ListMeta_copies
  metav1_LabelSelector_copies metav1_Condition_copies : copies.
Lemma DockerContainer_copies : copies read_Container DockerContainer_DeepCopyInto.
Proof using All. copies_fields read_Container. Qed.
#[local] Hint Resolve DockerContainer_copies : copies.
Lemma DockerHost_copies : copies read_Host DockerHost_DeepCopyInto.
Proof using All. copies_fields read_Host. Qed.
Lemma ObjectMeta_copies : copies read_TemplateMeta ObjectMeta_DeepCopyInto.
Proof using All. copies_fields read_TemplateMeta. Qed.
#[local] Hint Resolve DockerHost_copies ObjectMeta_copies : copies.
Lemma DockerContainerTemplate_copies : copies read_Template DockerContainerTemplate_DeepCopyInto.
Proof using All. copies_fields read_Template. Qed.
#[local] Hint Resolve DockerContainerTemplate_copies : copies.
Lemma DockerDeploymentSpec_copies : copies read_DeploymentSpec DockerDeploymentSpec_DeepCopyInto.
Proof using All. copies_fields read_DeploymentSpec. Qed.
Lemma DockerDeploymentStatus_copies : copies read_DeploymentStatus DockerDeploymentStatus_DeepCopyInto.
Proof using All. copies_fields read_DeploymentStatus. Qed.
#[local] Hint Resolve DockerDeploymentSpec_copies DockerDeploymentStatus_copies : copies.
Lemma DockerDeployment_copies : copies read_Deployment DockerDeployment_DeepCopyInto.
Proof using All. copies_fields read_Deployment. Qed.
#[local] Hint Resolve DockerDeployment_copies : copies.
Lemma DockerJobSpec_copies : copies read_JobSpec DockerJobSpec_DeepCopyInto.
Proof using All. copies_fields read_JobSpec. Qed.
Lemma copies_time : copies (read_ptr TTime flat) copy_time.
Proof using All. intros h [l |] v; [apply metav1_Time_copies | apply (copies_ptr TTime _ flat _ copies_flat h None)]. Qed.
#[local] Hint Resolve copies_time DockerJobSpec_copies : copies.
Lemma DockerJobStatus_copies : copies read_JobStatus DockerJobStatus_DeepCopyInto.
Proof using All. copies_fields read_JobStatus. Qed.
#[local] Hint Resolve DockerJobStatus_copies : copies.
Lemma DockerJob_copies : copies read_Job DockerJob_DeepCopyInto.
Proof using All. copies_fields read_Job. Qed.
Lemma DockerServiceSpec_copies : copies read_ServiceSpec DockerServiceSpec_DeepCopyInto.
Proof using All. copies_fields read_ServiceSpec. Qed.
#[local] Hint Resolve DockerJob_copies DockerServiceSpec_copies : copies.
Lemma DockerService_copies : copies read_Service DockerService_DeepCopyInto.
Proof using All. copies_fields read_Service. Qed.
#[local] Hint Resolve DockerService_copies : copies.

(** A list: its metadata and its items. *)
Lemma List_copies a V (rd : reader (in_memory a) V) cp :
  looks_at anything rd -> copies rd cp ->
  copies (read_List a rd) (fun x =>
    let* m := metav1_ListMeta_DeepCopyInto (Mem.l_Meta x) in
    let* items := copy_slice (Api a) cp (Mem.l_Items x) in
    mem_ret (Mem.mkObjectList m items)).
Proof using All.
  intros Hlook Hcp.
  assert (copies (read_slice (Api a) rd) (copy_slice (Api a) cp)) as Hs by by apply copies_slice_any.
  assert (looks_at anything (read_slice (Api a) rd)) as Hl by by apply looks_slice.
  copies_fields read_List.
Qed.

(** What a type's values stand for, its reader, and its two functions. *)
Definition value (a : api) : Type :=
  match a with
  | ADockerContainer => DockerContainer
  | ADockerContainerList => ObjectList DockerContainer
  | ADockerContainerSpec => DockerContainerSpec
  | ADockerContainerStatus => DockerContainerStatus
  | ADockerContainerTemplate => DockerContainerTemplate
  | ADockerDeployment => DockerDeployment
  | ADockerDeploymentList => ObjectList DockerDeployment
  | ADockerDeploymentSpec => DockerDeploymentSpec
  | ADockerDeploymentStatus => DockerDeploymentStatus
  | ADockerHost => DockerHost
  | ADockerHostList => ObjectList DockerHost
  | ADockerHostSpec => DockerHostSpec
  | ADockerHostStatus => DockerHostStatus
  | ADockerJob => DockerJob
  | ADockerJobList => ObjectList DockerJob
  | ADockerJobSpec => DockerJobSpec
  | ADockerJobStatus => DockerJobStatus
  | ADockerService => DockerService
  | ADockerServiceList => ObjectList DockerService
  | ADockerServiceSpec => DockerServiceSpec
  | ADockerServiceStatus => DockerServiceStatus
  | AEnvVar => EnvVar
  | AEnvVarSource => EnvVarSource
  | AHealthCheckConfig => HealthCheckConfig
  | AObjectMeta => TemplateMeta
  | AResourceRequirements => ResourceRequirements
  | ASecretKeySelector => SecretKeySelector
  | ASecretVolume => SecretVolume
  | AServicePort => ServicePort
  | AVolumeMount => VolumeMount
  end.
Definition read_api (a : api) : reader (in_memory a) (value a) :=
  match a with
  | ADockerContainer => read_Container
  | ADockerContainerList => read_List ADockerContainer read_Container
  | ADockerContainerSpec => read_ContainerSpec
  | ADockerContainerTemplate => read_Template
  | ADockerDeployment => read_Deployment
  | ADockerDeploymentList => read_List ADockerDeployment read_Deployment
  | ADockerDeploymentSpec => read_DeploymentSpec
  | ADockerDeploymentStatus => read_DeploymentStatus
  | ADockerHost => read_Host
  | ADockerHostList => read_List ADockerHost read_Host
  | ADockerJob => read_Job
  | ADockerJobList => read_List ADockerJob read_Job
  | ADockerJobSpec => read_JobSpec
  | ADockerJobStatus => read_JobStatus
  | ADockerService => read_Service
  | ADockerServiceList => read_List ADockerService read_Service
  | ADockerServiceSpec => read_ServiceSpec
  | AEnvVar => read_EnvVar
  | AEnvVarSource => read_EnvVarSource
  | AHealthCheckConfig => read_HealthCheckConfig
  | AObjectMeta => read_TemplateMeta
  | ADockerContainerStatus | ADockerHostSpec | ADockerHostStatus | ADockerServiceStatus
  | AResourceRequirements | ASecretKeySelector | ASecretVolume | AServicePort | AVolumeMount => flat
  end.

Lemma looks_List a V (rd : reader (in_memory a) V) : looks_at anything rd -> looks_at anything (read_List a rd).
Proof using Type.
  intros Hrd. assert (looks_at anything (read_slice (Api a) rd)) as Hl by by apply looks_slice.
  looks_fields read_List.
Qed.
#[local] Hint Resolve looks_List : looks.

Lemma looks_api a : looks_at anything (read_api a).
Proof using Type. destruct a; cbn [read_api]; eauto with looks. Qed.

Definition deep_copy_into (a : api) : in_memory a -> mem (in_memory a) :=
  match a with
  | ADockerContainer => DockerContainer_DeepCopyInto
  | ADockerContainerList => DockerContainerList_DeepCopyInto
  | ADockerContainerSpec => DockerContainerSpec_DeepCopyInto
  | ADockerContainerStatus => DockerContainerStatus_DeepCopyInto
  | ADockerContainerTemplate => DockerContainerTemplate_DeepCopyInto
  | ADockerDeployment => DockerDeployment_DeepCopyInto
  | ADockerDeploymentList => DockerDeploymentList_DeepCopyInto
  | ADockerDeploymentSpec => DockerDeploymentSpec_DeepCopyInto
  | ADockerDeploymentStatus => DockerDeploymentStatus_DeepCopyInto
  | ADockerHost => DockerHost_DeepCopyInto
  | ADockerHostList => DockerHostList_DeepCopyInto
  | ADockerHostSpec => DockerHostSpec_DeepCopyInto
  | ADockerHostStatus => DockerHostStatus_DeepCopyInto
  | ADockerJob => DockerJob_DeepCopyInto
  | ADockerJobList => DockerJobList_DeepCopyInto
  | ADockerJobSpec => DockerJobSpec_DeepCopyInto
  | ADockerJobStatus => DockerJobStatus_DeepCopyInto
  | ADockerService => DockerService_DeepCopyInto
  | ADockerServiceList => DockerServiceList_DeepCopyInto
  | ADockerServiceSpec => DockerServiceSpec_DeepCopyInto
  | ADockerServiceStatus => DockerServiceStatus_DeepCopyInto
  | AEnvVar => EnvVar_DeepCopyInto
  | AEnvVarSource => EnvVarSource_DeepCopyInto
  | AHealthCheckConfig => HealthCheckConfig_DeepCopyInto
  | AObjectMeta => ObjectMeta_DeepCopyInto
  | AResourceRequirements => ResourceRequirements_DeepCopyInto
  | ASecretKeySelector => SecretKeySelector_DeepCopyInto
  | ASecretVolume => SecretVolume_DeepCopyInto
  | AServicePort => ServicePort_DeepCopyInto
  | AVolumeMount => VolumeMount_DeepCopyInto
  end.
Definition deep_copy_of (a : api) : ptr (Api a) -> mem (ptr (Api a)) :=
  match a with
  | ADockerContainer => DockerContainer_DeepCopy
  | ADockerContainerList => DockerContainerList_DeepCopy
  | ADockerContainerSpec => DockerContainerSpec_DeepCopy
  | ADockerContainerStatus => DockerContainerStatus_DeepCopy
  | ADockerContainerTemplate => DockerContainerTemplate_DeepCopy
  | ADockerDeployment => DockerDeployment_DeepCopy
  | ADockerDeploymentList => DockerDeploymentList_DeepCopy
  | ADockerDeploymentSpec => DockerDeploymentSpec_DeepCopy
  | ADockerDeploymentStatus => DockerDeploymentStatus_DeepCopy
  | ADockerHost => DockerHost_DeepCopy
  | ADockerHostList => DockerHostList_DeepCopy
  | ADockerHostSpec => DockerHostSpec_DeepCopy
  | ADockerHostStatus => DockerHostStatus_DeepCopy
  | ADockerJob => DockerJob_DeepCopy
  | ADockerJobList => DockerJobList_DeepCopy
  | ADockerJobSpec => DockerJobSpec_DeepCopy
  | ADockerJobStatus => DockerJobStatus_DeepCopy
  | ADockerService => DockerService_DeepCopy
  | ADockerServiceList => DockerServiceList_DeepCopy
  | ADockerServiceSpec => DockerServiceSpec_DeepCopy
  | ADockerServiceStatus => DockerServiceStatus_DeepCopy
  | AEnvVar => EnvVar_DeepCopy
  | AEnvVarSource => EnvVarSource_DeepCopy
  | AHealthCheckConfig => HealthCheckConfig_DeepCopy
  | AObjectMeta => ObjectMeta_DeepCopy
  | AResourceRequirements => ResourceRequirements_DeepCopy
  | ASecretKeySelector => SecretKeySelector_DeepCopy
  | ASecretVolume => SecretVolume_DeepCopy
  | AServicePort => ServicePort_DeepCopy
  | AVolumeMount => VolumeMount_DeepCopy
  end.
(** The types that are a [runtime.Object]. *)
Definition object_copy_of (a : api) : option (ptr (Api a) -> mem runtime_object) :=
  match a with
  | ADockerContainer => Some DockerContainer_DeepCopyObject
  | ADockerContainerList => Some DockerContainerList_DeepCopyObject
  | ADockerDeployment => Some DockerDeployment_DeepCopyObject
  | ADockerDeploymentList => Some DockerDeploymentList_DeepCopyObject
  | ADockerHost => Some DockerHost_DeepCopyObject
  | ADockerHostList => Some DockerHostList_DeepCopyObject
  | ADockerJob => Some DockerJob_DeepCopyObject
  | ADockerJobList => Some DockerJobList_DeepCopyObject
  | ADockerService => Some DockerService_DeepCopyObject
  | ADockerServiceList => Some DockerServiceList_DeepCopyObject
  | _ => None
  end.

Lemma deep_copy_of_into a : deep_copy_of a = deep_copy a (deep_copy_into a).
Proof using Type. by destruct a. Qed.
Lemma object_copy_of_copy a f : object_copy_of a = Some f -> f = deep_copy_object a (deep_copy_of a).
Proof using Type. by destruct a; intros [= <-]. Qed.

Lemma api_copies a : copies (read_api a) (deep_copy_into a).
Proof using All.
  destruct a; cbn [read_api deep_copy_into]; try (eauto with copies; fail); apply List_copies;
    eauto with looks copies.
Qed.
(** What a copy reads is in the copy's memory: it lies at a new address. *)
Lemma rests_on_fresh a (rd : reader (in_memory a) (value a)) h h' l v :
  rests_on h h' (read_ptr (Api a) rd) (Some l) (Some v) -> h !! l = None.
Proof using Type.
  intros Hr. specialize (Hr (h' ∖ h)). destruct (h !! l) as [o |] eqn:E; [| done].
  assert (cells (h' ∖ h) (Api a) l = None) as Hc.
  { destruct (cells (h' ∖ h) (Api a) l) eqn:Ec; [| done].
    apply cells_Some, lookup_difference_Some in Ec as [_ Hn]. change (h !! l = None) in Hn. congruence. }
  simpl in Hr. rewrite Hc in Hr. discriminate Hr. intros l2 o2 H1 H2. by apply lookup_difference_Some.
Qed.

(** C31: deep copies are deep, for each of the thirty types: the copy of an object
    is a new object that stands for the same value; whatever is done afterwards to
    memory that was there before, the copy stands for it still, and whatever is
    done to the copy's memory, the original does.  A nil pointer is copied to nil,
    and [DeepCopyObject] gives the same copy as an object of its type. *)
Theorem deep_copy_independent a h l v :
  read_ptr (Api a) (read_api a) h (Some l) = Some (Some v) ->
  deep_copy_of a None h = Some (None, h) /\
  exists l' h', deep_copy_of a (Some l) h = Some (Some l', h') /\ h !! l' = None /\ h ⊆ h' /\
    (forall h2, keeps_new h h' h2 -> read_ptr (Api a) (read_api a) h2 (Some l') = Some (Some v)) /\
    (forall h2, h ⊆ h2 -> read_ptr (Api a) (read_api a) h2 (Some l) = Some (Some v)) /\
    forall f, object_copy_of a = Some f -> f (Some l) h = Some (Some (a, l'), h').
Proof using All.
  intros Hr. rewrite deep_copy_of_into. split; [done |].
  destruct (copies_ptr (Api a) _ _ _ (api_copies a) h (Some l) (Some v) Hr) as (p & h' & Hp & Hle & Hk).
  destruct p as [l' |]; [| by specialize (Hk h' ltac:(by intros ? ?))].
  exists l', h'. split_and!; [done | by eapply rests_on_fresh | done | done | |].
  - intros h2 H2. eapply (looks_at_grows anything); [| exact H2 | exact Hr].
    by apply looks_ptr, looks_api.
  - intros f Hf. rewrite (object_copy_of_copy _ _ Hf), deep_copy_of_into. unfold deep_copy_object, deep_copy, mem_bind.
    by rewrite Hp.
Qed.

(** ** Patching a status *)

(** [setDockerServiceStatus] before it calls [Patch]: the base the patch is taken
    from is a copy, then the object itself is changed. *)
Definition prepare_status_patch (ds : positive) (phase : string) (clients : Z) (wsURL message : string)
    : mem (ptr (Api ADockerService)) :=
  let* base := DockerService_DeepCopy (Some ds) in
  let* x := load (Api ADockerService) ds in
  let* _ := store (Api ADockerService) ds
    (Mem.mkDockerService (Mem.dsv_Meta x) (Mem.dsv_Spec x)
       (mkDockerServiceStatus phase clients wsURL message)) in
  mem_ret base.

(** Writing to a service leaves what it points to. *)
Lemma service_store_read h l x xs st v :
  cells h (Api ADockerService) l = Some (x :: xs) -> read_Service h x = Some v ->
  read_ptr (Api ADockerService) read_Service
    (<[ l := existT (Api ADockerService)
              (Mem.mkDockerService (Mem.dsv_Meta x) (Mem.dsv_Spec x) st :: xs) ]> h) (Some l) =
    Some (Some (set_service_status st v)).
Proof using Type.
  intros Hc Hr. apply cells_Some in Hc. set (h' := <[ l := _ ]> h).
  set (P := fun t => t <> Api ADockerService).
  assert (forall t, inner t = true -> P t) as Hin by (intros t Ht ->; done).
  assert (forall i t xs, P t -> h !! i = Some (existT t xs) -> h' !! i = Some (existT t xs)) as Hh.
  { intros i t ys Ht Hi. unfold h'. rewrite lookup_insert_ne; [done |]. intros ->.
    rewrite Hc in Hi. injection Hi as E _. by destruct Ht. }
  assert (cells h' (Api ADockerService) l =
            Some (Mem.mkDockerService (Mem.dsv_Meta x) (Mem.dsv_Spec x) st :: xs)) as Hl
    by exact (proj2 (cells_Some h' (Api ADockerService) l (_ :: xs)) (lookup_insert_eq h l _)).
  unfold read_Service in Hr. apply bind_Some in Hr as (m & Hm & Hr). apply bind_Some in Hr as (s & Hs & [= <-]).
  apply (looks_ObjectMeta P Hin h h' _ _ Hh) in Hm. apply (looks_ServiceSpec P Hin h h' _ _ Hh) in Hs.
  unfold read_ptr. rewrite Hl. unfold read_Service. cbn [Mem.dsv_Meta Mem.dsv_Spec Mem.dsv_Status].
  by rewrite Hm, Hs.
Qed.

(** C36: a status patch is taken between the object as it was and as it is: at the
    call of [Patch] the base still stands for the service that was read, and the
    object for it with the new status; these are the two objects that the
    reconciler's model passes to the API server. *)
Theorem patch_base_is_old h ds v phase clients wsURL message :
  read_ptr (Api ADockerService) read_Service h (Some ds) = Some (Some v) ->
  exists base h' k, prepare_status_patch ds phase clients wsURL message h = Some (base, h') /\
    let v' := set_service_status (mkDockerServiceStatus phase clients wsURL message) v in
    read_ptr (Api ADockerService) read_Service h' base = Some (Some v) /\
    read_ptr (Api ADockerService) read_Service h' (Some ds) = Some (Some v') /\
    setDockerServiceStatus v phase clients wsURL message = Call (KStatusPatch v' v) k.
Proof using All.
  intros Hr.
  destruct (copies_ptr (Api ADockerService) _ _ _ DockerService_copies h (Some ds) (Some v) Hr)
    as (base & h1 & Hp & Hle & Hk).
  assert (read_ptr (Api ADockerService) read_Service h1 (Some ds) = Some (Some v)) as Hr1.
  { eapply (looks_at_grows anything); [| exact Hle | exact Hr]. apply looks_ptr; [done |]. eauto with looks. }
  simpl in Hr1. destruct (cells h1 (Api ADockerService) ds) as [[| x xs] |] eqn:Hc; [done | | done].
  destruct (read_Service h1 x) as [w |] eqn:Hx; [| done]. injection Hr1 as ->.
  eexists base, _, _. split.
  { unfold prepare_status_patch, mem_bind. unfold DockerService_DeepCopy, deep_copy. rewrite Hp.
    rewrite (load_spec _ _ _ _ _ Hc). unfold store. by rewrite Hc. }
  split_and!; [| by apply service_store_read | reflexivity].
  apply Hk. intros l o Hl Ho. rewrite lookup_insert_ne; [done |]. intros ->.
  simpl in Hr. destruct (cells h (Api ADockerService) l) eqn:Ec; [| done].
  apply cells_Some in Ec. pose proof (eq_trans (eq_sym Ec) Hl) as E. discriminate E.
Qed.
End copies.
