(* ===== verification/ServiceTheorems.v ===== *)
(** * ServiceTheorems: what a [DockerService] reconciliation guarantees

    The token, the targets, the watch on containers, the tunnel client's drift
    detection, and deletion. *)

From S2P Require Import Prelude Effects GoText Strconv ApiTypes World KubeLib DockerHostClient ServiceController.

Open Scope Z_scope.

Section services.
Context `{UnicodeData} `{X509} `{ControllerUtil}.

(** ** The token *)

Lemma hex_length s : String.length (hex_EncodeToString s) = (2 * String.length s)%nat.
Proof. induction s as [| c s IH]; simpl in *; [done |]. rewrite IH. lia. Qed.

Definition token_key (ds : DockerService) : NamespacedName :=
  mkNN (ds_Namespace ds) (ds_Name ds +:+ "-tunnel-auth").

(** A run of [ensureTunnelAuthSecret] that returns [token]: it was there, or it
    is new and was stored. *)
Definition token_ensured (ds : DockerService) (t : list (obs event)) (token : string) : Prop :=
  (exists sec, collect got_secret t = [(token_key ds, Ok sec)] /\
               sec_Data sec !! "token" = Some token /\ Forall (fun x => writes_kube x = false) t) \/
  (String.length token = 32%nat /\
   exists sec, collect created_secret t = [sec] /\ sec_Data sec !! "token" = Some token /\
   forall e, collect got_secret t = [(token_key ds, Err e)] -> err_k8s_notfound e = true).

Lemma ensureTunnelAuthSecret_token ds t token :
  runs (ensureTunnelAuthSecret ds) t (Val token) -> token_ensured ds t token.
Proof.
  unfold ensureTunnelAuthSecret. intros Hr. run_step. subst.
  assert (forall g, g = r -> runs
    (let! tokenBytes := try_call (RRead 16) in
     let token := hex_EncodeToString tokenBytes in
     let! m := lift (own ds (new_meta (ds_Namespace ds) (ds_Name ds +:+ "-tunnel-auth"))) in
     try_call (KCreate KSecret (auth_secret ds m token)) ;; ret token) t0 (Val token) ->
    String.length token = 32%nat /\
    exists sec, collect created_secret t0 = [sec] /\ sec_Data sec !! "token" = Some token) as Hnew.
  { intros g _ Hn. apply (proj1 (runs_try_call_bind _ _ _ _)) in Hn as ([b | e] & t1 & -> & Hok & Hn);
      [| by destruct Hn].
    cbv zeta in Hn. unfold answer_ok, event_signature in Hok.
    repeat (run_step; simplify_eq/=). split; [by rewrite hex_length, Hok |].
    eexists. split; [reflexivity |]. simpl. apply lookup_singleton_eq. }
  destruct r as [sec | e].
  - destruct (sec_Data sec !! "token") as [tok |] eqn:Etok.
    + run_inv. left. exists sec. split_and!; [done | done | by repeat constructor].
    + right. destruct (Hnew _ eq_refl Hr) as (Hlen & sec' & Hc & Ht). split; [done |].
      exists sec'. split_and!; [done | done |]. intros e Hg. simpl in Hg. simplify_eq.
  - destruct (err_k8s_notfound e) eqn:En; [| by run_inv].
    right. destruct (Hnew _ eq_refl Hr) as (Hlen & sec' & Hc & Ht). split; [done |].
    exists sec'. split_and!; [done | done |]. intros e' Hg. simpl in Hg. by simplify_eq.
Qed.

(** The tunnel always has a token and keeps it: a token found in the service's
    secret is returned and nothing is written; otherwise a new one of 32
    characters is returned only after it was stored in that secret. *)
Theorem tunnel_token_kept ds t token :
  runs (ensureTunnelAuthSecret ds) t (Val token) ->
  let key := mkNN (ds_Namespace ds) (ds_Name ds +:+ "-tunnel-auth") in
  (exists sec, collect got_secret t = [(key, Ok sec)] /\ sec_Data sec !! "token" = Some token /\
               Forall (fun x => writes_kube x = false) t) \/
  (String.length token = 32%nat /\
   exists sec, collect created_secret t = [sec] /\ sec_Data sec !! "token" = Some token /\
   forall e, collect got_secret t = [(key, Err e)] -> err_k8s_notfound e = true).
Proof. apply ensureTunnelAuthSecret_token. Qed.

(** ** The targets *)

(** The targets written for the tunnel do not depend on the order in which
    the API server lists the containers: the text is the same for every order,
    and it names each container that has an address, in sorted order. *)
Theorem targets_order_independent l k port :
  l ≡ₚ k ->
  Join (sort_Strings (buildTargetIPs l port)) "," = Join (sort_Strings (buildTargetIPs k port)) "," /\
  StronglySorted string_le (sort_Strings (buildTargetIPs l port)) /\
  (forall ip, ip ∈ sort_Strings (buildTargetIPs l port) <->
     exists c, c ∈ l /\ cst_IPv4 (dc_Status c) <> "" /\
               ip = cst_IPv4 (dc_Status c) +:+ ":" +:+ FormatInt port).
Proof.
  intros E. split_and!.
  - f_equal. apply sort_Strings_proper. unfold buildTargetIPs. by rewrite E.
  - apply sort_Strings_sorted.
  - intros ip. rewrite sort_Strings_perm. unfold buildTargetIPs. rewrite list_elem_of_fmap.
    setoid_rewrite list_elem_of_filter. setoid_rewrite eqb_str_false. naive_solver.
Qed.

Lemma target_served ds ds' t l c :
  runs (resolveTargetContainers ds) t (Val (ds', Targets l)) ->
  Forall honest t -> c ∈ l -> om_Namespace (dc_Meta c) = ds_Namespace ds /\ serves c ds = true.
Proof.
  unfold resolveTargetContainers, serves. intros Hr Hh Hc.
  destruct (eqb_str (ss_ContainerRef (dsv_Spec ds)) "") eqn:Eref; cbn [negb] in *;
    destruct (ss_Selector (dsv_Spec ds)) as [sel |];
    try (by unfold setDockerServiceStatus in Hr; run_inv).
  - destruct (LabelSelectorAsSelector sel) as [s | e];
      [| by unfold setDockerServiceStatus in Hr; run_inv].
    run_step. subst. inversion Hh as [| ? ? Hl _]; subst. simpl in Hl.
    destruct r as [[| c0 l0] | e]; [by unfold setDockerServiceStatus in Hr; run_inv | | by run_inv].
    run_inv. rewrite Forall_forall in Hl. cbn [andb]. by apply Hl.
  - run_step. subst. inversion Hh as [| ? ? Hg _]; subst. simpl in Hg.
    destruct r as [dc | e];
      [| destruct (err_k8s_notfound e); unfold setDockerServiceStatus in Hr; by run_inv].
    run_inv. apply list_elem_of_singleton in Hc as ->. destruct Hg as [Hns Hg]. split; [done |].
    by rewrite Hg, (proj2 (eqb_str_true _ _) eq_refl).
Qed.

(** C29: the watch misses no service: if a reconciliation of a service took a
    container as a target, then a change of that container makes the watch list the
    services of the service's own namespace, and if the listing has the service, of
    the same spec, its namespace and name are among the requests that are enqueued;
    every request is for a listed service that the container serves, and a listing
    that fails enqueues nothing.  The API server is assumed to answer by key, by
    namespace and by selector as documented. *)
Theorem watch_covers_targets ds ds' t l c t2 o :
  runs (resolveTargetContainers ds) t (Val (ds', Targets l)) -> Forall honest t -> c ∈ l ->
  runs (findDockerServicesForContainer c) t2 o ->
  exists r, t2 = [Obs (KListServices (ds_Namespace ds)) r] /\
    match r with
    | Err _ => o = Val []
    | Ok items => exists reqs, o = Val reqs /\
        (forall ds2, ds2 ∈ items -> ds_Namespace ds2 = ds_Namespace ds -> ds_Name ds2 = ds_Name ds ->
           dsv_Spec ds2 = dsv_Spec ds -> mkNN (ds_Namespace ds) (ds_Name ds) ∈ reqs) /\
        (forall q, q ∈ reqs -> exists ds2, ds2 ∈ items /\ serves c ds2 = true /\
           q = mkNN (ds_Namespace ds2) (ds_Name ds2))
    end.
Proof.
  intros Hr Hh Hc Hw. destruct (target_served _ _ _ _ _ Hr Hh Hc) as [Hns Hserves].
  unfold findDockerServicesForContainer in Hw. rewrite Hns in Hw. run_step. subst.
  destruct r as [items | e]; run_inv; eexists; (split; [reflexivity |]); [| done].
  eexists. split; [reflexivity |]. split.
  - intros ds2 Hin Ens En Espec. apply list_elem_of_fmap. exists ds2. split.
    + unfold service_request. by rewrite Ens, En.
    + apply list_elem_of_filter. split; [| done]. unfold serves in *. by rewrite Espec.
  - intros q (ds2 & -> & [Hs2 Hin]%list_elem_of_filter)%list_elem_of_fmap. by exists ds2.
Qed.

(** ** The tunnel client *)

Lemma silent_token {X} (view : obs event -> option X) ds :
  (forall key r, view (Obs (KGet KSecret key) r) = None) ->
  (forall n r, view (Obs (RRead n) r) = None) ->
  (forall s r, view (Obs (KCreate KSecret s) r) = None) ->
  always (fun o => view o = None) (ensureTunnelAuthSecret ds).
Proof. intros Hg Hn Hc. unfold ensureTunnelAuthSecret. always_tac; first [apply Hg | apply Hc]. Qed.

(** The token of a service, as a run read it from the secret or stored it there. *)
Definition token_held (ds : DockerService) (t : list (obs event)) (token : string) : Prop :=
  exists sec, sec_Data sec !! "token" = Some token /\
    ((token_key ds, Ok sec) ∈ collect got_secret t \/ sec ∈ collect created_secret t).

Lemma token_ensured_held ds t1 t2 token : token_ensured ds t1 token -> token_held ds (t1 ++ t2) token.
Proof.
  intros [(sec & E & Hs & _) | (_ & sec & E & Hs & _)]; exists sec; rewrite !collect_app, E;
    (split; [done |]); [left | right]; by left.
Qed.

Lemma token_held_app ds t1 t2 token : token_held ds t2 token -> token_held ds (t1 ++ t2) token.
Proof.
  intros (sec & Hs & Hc). exists sec. rewrite !collect_app, !elem_of_app. split; [done |]. naive_solver.
Qed.

(** The request for the tunnel client with a token: the command line dials the
    gateway, which forwards to the tunnel's address, and presents the token. *)
Definition client_asked (ds : DockerService) (wsURL token : string) (t : list (obs event)) : Prop :=
  collect asked_create t = [] \/
  exists cfg hc gateway, collect asked_create t = [(cfg, hc, tunnel_client_name ds)] /\
    cfg_Cmd cfg =
      ["tunnel"; "-mode=client";
       "-server-url=ws://" +:+ gateway +:+ ":30000/ws?target=" +:+ QueryEscape wsURL +:+
         "&token=" +:+ QueryEscape token;
       "-auth-token=" +:+ token] /\
    hcfg_RestartPolicy hc = "always"%stdpp /\
    hcfg_NetworkMode hc =
      (if has_string ["host"; "kind"] (ss_NetworkMode (dsv_Spec ds))
       then ss_NetworkMode (dsv_Spec ds) else "").

Definition client_request (ds : DockerService) (wsURL : string) (t : list (obs event)) : Prop :=
  collect asked_create t = [] \/
  exists token, token_held ds t token /\ client_asked ds wsURL token t.

Lemma client_asked_bind {A B} ds wsURL token (p : M event A) (f : A -> M event B) t o :
  always (fun o => asked_create o = None) p ->
  (forall a t2, runs (f a) t2 o -> client_asked ds wsURL token t2) ->
  runs (bind p f) t o -> client_asked ds wsURL token t.
Proof.
  intros Hp Hf Hr. apply (unseen_bind asked_create) in Hr as (t2 & E & [(t1 & a & _ & Hr) | ->]);
    [| | done]; unfold client_asked; rewrite E; [by eapply Hf | by left].
Qed.

Lemma client_request_bind {A B} ds wsURL (p : M event A) (f : A -> M event B) t o :
  always (fun o => asked_create o = None) p ->
  (forall a t2, runs (f a) t2 o -> client_request ds wsURL t2) ->
  runs (bind p f) t o -> client_request ds wsURL t.
Proof.
  intros Hp Hf Hr. apply (proj1 (runs_bind _ _ _ _)) in Hr as
    [(t1 & a & t2 & -> & Hc & Hr) | [(e & -> & Hc) | (-> & Hc)]];
    pose proof (collect_unseen _ _ _ _ Hp Hc) as Hn; [| by left | by left].
  apply Hf in Hr. unfold client_request, client_asked. rewrite collect_app, Hn.
  destruct Hr as [? | (token & Ht & Hr)]; [by left | right].
  exists token. split; [by apply token_held_app | exact Hr].
Qed.

Lemma client_asked_none {A} ds wsURL token (p : M event A) t o :
  always (fun o => asked_create o = None) p -> runs p t o -> client_asked ds wsURL token t.
Proof. intros Hp Hr. left. by eapply collect_unseen. Qed.

Lemma create_client_asked cli ds img gateway token wsURL net t o :
  runs (create_tunnel_client cli ds img (client_connect_url gateway wsURL token) token net) t o ->
  client_asked ds wsURL token t.
Proof.
  unfold create_tunnel_client. intros Hr. right. eexists _, _, gateway.
  apply (proj1 (runs_try_call_bind _ _ _ _)) in Hr as (r & t' & -> & _ & Hr). split.
  - simpl. f_equal. destruct r as [id | e]; [| by destruct Hr as [-> _]].
    eapply collect_unseen; [| exact Hr]. always_tac.
  - split_and!; [| done |].
    { unfold client_connect_url. change (FormatInt tunnelGatewayPort) with "30000"%stdpp.
      cbn [client_config cfg_Cmd String.append]. reflexivity. }
    clear Hr. unfold client_host_config, has_string. simpl.
    destruct (eqb_str _ networkModeHost) eqn:Eh; [apply eqb_str_true in Eh as -> |
      apply eqb_str_false in Eh; destruct (eqb_str _ networkModeKind) eqn:Ek;
      [apply eqb_str_true in Ek as -> | apply eqb_str_false in Ek]];
      [by vm_compute | by vm_compute |].
    rewrite bool_decide_eq_false_2; [done |].
    unfold networkModeHost, networkModeKind in *. set_solver.
Qed.

Lemma prepare_client_none ds netMode j img cli :
  always (fun o => asked_create o = None) (first_network j) /\
  always (fun o => asked_create o = None) (gateway_host netMode) /\
  always (fun o => asked_create o = None) (ensureTunnelAuthSecret ds) /\
  always (fun o => asked_create o = None) operatorImage /\
  always (fun o => asked_create o = None) (ensure_image cli img).
Proof.
  unfold first_network, gateway_host, ensureTunnelAuthSecret, operatorImage, ensure_image.
  split_and!; always_tac.
Qed.

Lemma ensure_tunnel_client_asked cli ds img gateway token wsURL net t o :
  runs (ensure_tunnel_client cli ds img (client_connect_url gateway wsURL token) token net) t o ->
  client_asked ds wsURL token t.
Proof.
  unfold ensure_tunnel_client. apply client_asked_bind; [always_tac |]. intros [j | e] t6.
  - apply client_asked_bind; [always_tac |]. intros image t7. destruct (negb _).
    + apply client_asked_bind; [always_tac |]. intros _ t8. apply create_client_asked.
    + apply client_asked_none. always_tac.
  - destruct (err_docker_notfound e); [apply create_client_asked |].
    apply client_asked_none. always_tac.
Qed.

(** C33: the tunnel client is created at most once per run, under its own name, to
    dial the tunnel's address through the gateway with the token that the run
    read from the service's secret or stored there; when the target's container
    does not exist the step ends at once and reports success. *)
Theorem tunnel_client_request cli ds rep wsURL t o :
  runs (reconcileTunnelClient cli ds rep wsURL) t o ->
  client_request ds wsURL t /\
  exists r t', t = Obs (DContainerInspect cli (cs_ContainerName (dc_Spec rep))) r :: t' /\
    match r with
    | Ok _ => True
    | Err e => t' = [] /\ o = if err_docker_notfound e then Val tt else Fail e
    end.
Proof.
  unfold reconcileTunnelClient. intros Hr.
  apply (proj1 (runs_call_bind _ _ _ _)) in Hr as (r & t' & -> & _ & Hr).
  destruct r as [main | e].
  2:{ assert (t' = [] /\ o = if err_docker_notfound e then Val tt else Fail e) as [-> ->].
      { destruct (err_docker_notfound e); by run_inv. }
      split; [by left | by eexists _, _]. }
  split; [| by eexists _, _].
  change (client_request ds wsURL t'). revert Hr.
  apply client_request_bind; [apply (prepare_client_none ds "" main "" cli) |]. intros net t1.
  apply client_request_bind; [apply (prepare_client_none ds _ main "" cli) |]. intros gateway t2 Hr.
  apply (proj1 (runs_bind _ _ _ _)) in Hr as
    [(t3 & token & t4 & -> & Hc & Hr) | [(e & -> & Hc) | (-> & Hc)]];
    pose proof (collect_unseen _ _ _ _
      (proj1 (proj2 (proj2 (prepare_client_none ds "" main "" cli)))) Hc) as Hn;
    [right | by left | by left].
  exists token. split; [by apply token_ensured_held, ensureTunnelAuthSecret_token |].
  unfold client_asked. rewrite collect_app, Hn. change (client_asked ds wsURL token t4). revert Hr.
  apply client_asked_bind; [apply (prepare_client_none ds "" main "" cli) |]. intros img t5.
  apply client_asked_bind; [apply (prepare_client_none ds "" main img cli) |]. intros _ t6.
  apply ensure_tunnel_client_asked.
Qed.

(** Only the image of a tunnel client is compared: one that runs the current
    image is left alone whatever address and token it should have now, and one
    with another image is removed before anything is created. *)
Theorem tunnel_client_drift_is_image_only cli ds img url token net t o :
  runs (ensure_tunnel_client cli ds img url token net) t o ->
  exists r t', t = Obs (DContainerInspect cli (tunnel_client_name ds)) r :: t' /\
    (forall j, r = Ok j -> inspected_image j = Val img ->
       (inspected_running j = Val true -> t' = [] /\ o = Val tt) /\
       collect asked_create t' = [] /\ collect removal_of t' = []) /\
    (forall j image, r = Ok j -> inspected_image j = Val image -> image <> img ->
       collect removal_of t' = [tunnel_client_name ds] /\
       (collect asked_create t' <> [] ->
        collect asked_remove t' = [(tunnel_client_name ds, true)])).
Proof.
  unfold ensure_tunnel_client. intros Hr. run_step. subst. eexists _, _. split; [done |].
  destruct r as [j | e]; [| done]. split.
  - intros ? [= <-] Himg. rewrite Himg in Hr.
    apply (proj1 (runs_ret_bind _ _ _ _)) in Hr. cbv beta in Hr.
    rewrite (proj2 (eqb_str_true _ _) eq_refl) in Hr. cbn [negb] in Hr.
    destruct (inspected_running j) as [[] | |]; [| | by run_inv ..].
    + by run_inv.
    + apply (proj1 (runs_ret_bind _ _ _ _)) in Hr. cbv beta iota in Hr. run_step. by subst.
  - intros ? image [= <-] Himg Hne. rewrite Himg in Hr.
    apply (proj1 (runs_ret_bind _ _ _ _)) in Hr. cbv beta in Hr.
    apply eqb_str_false in Hne. rewrite Hne in Hr. cbn [negb] in Hr.
    run_step; subst; [| done]. simpl.
    assert (always (fun o => removal_of o = None) (create_tunnel_client cli ds img url token net)) as Hq
      by (unfold create_tunnel_client; always_tac).
    assert (always (fun o => asked_remove o = None) (create_tunnel_client cli ds img url token net)) as Hq'
      by (unfold create_tunnel_client; always_tac).
    rewrite (collect_unseen _ _ _ _ Hq Hr), (collect_unseen _ _ _ _ Hq' Hr). done.
Qed.

(** ** Deletion *)

Lemma cleanup_host_removes ds tc t o :
  runs (cleanup_host ds tc) t o ->
  o = Val tt /\ (collect removal_of t = [] \/
                 collect removal_of t = [tunnel_client_name ds; legacy_client_name ds]).
Proof.
  unfold cleanup_host. intros Hr.
  assert (always (fun o => removal_of o = None)
    (attempt (NewClient (om_Namespace (dc_Meta tc)) (cs_DockerHostRef (dc_Spec tc))))) as Hq
    by (unfold NewClient, newClient; always_tac).
  apply (proj1 (runs_bind _ _ _ _)) in Hr as
    [(t1 & r & t2 & -> & Hc & Hr) | [(e & -> & Hc) | (-> & Hc)]].
  - rewrite collect_app, (collect_unseen _ _ _ _ Hq Hc). destruct r as [cli | e].
    + cbn [for_each] in Hr. repeat (run_step; simplify_eq). match goal with r : unit |- _ => destruct r end. split; [done | by right].
    + run_inv. split; [done | by left].
  - exfalso. by run_inv.
  - exfalso. run_inv. by eapply NewClient_calm.
Qed.

Lemma cleanup_loop ds (l : list (string * DockerContainer)) t o :
  runs (for_each l (fun e => cleanup_host ds e.2)) t o ->
  o = Val tt /\ Forall (fun n => n = tunnel_client_name ds \/ n = legacy_client_name ds)
                   (collect removal_of t).
Proof.
  revert t. induction l as [| e l IH]; intros t Hr; cbn [for_each] in Hr.
  { run_inv. split; [done | constructor]. }
  apply (proj1 (runs_bind _ _ _ _)) in Hr as
    [(t1 & [] & t2 & -> & Hc & Hr) | [(e' & -> & Hc) | (-> & Hc)]];
    apply cleanup_host_removes in Hc as [Ho Hc]; try done.
  apply IH in Hr as [-> Hr]. split; [done |]. rewrite collect_app, Forall_app. split; [| done].
  destruct Hc as [-> | ->]; [constructor |].
  constructor; [by left | constructor; [by right | constructor]].
Qed.

Lemma cleanup_targets_val ds t o :
  runs (cleanup_targets ds) t o -> collect removal_of t = [] /\ exists l, o = Val l.
Proof.
  intros Hr. split; [eapply collect_unseen; [| exact Hr]; unfold cleanup_targets; always_tac |].
  unfold cleanup_targets in Hr. run_cases; eauto.
Qed.

Lemma deleteExternalResources_val ds t o :
  runs (deleteExternalResources ds) t o ->
  o = Val tt /\ Forall (fun n => n = tunnel_client_name ds \/ n = legacy_client_name ds)
                   (collect removal_of t).
Proof.
  unfold deleteExternalResources. intros Hr. apply (proj1 (runs_bind _ _ _ _)) in Hr as
    [(t1 & u & t2 & -> & Hc & Hr) | [(e & -> & Hc) | (-> & Hc)]];
    apply cleanup_targets_val in Hc as [Hc [l Hl]]; [| done | done].
  run_step. subst. apply cleanup_loop in Hr as [-> Hr]. split; [done |].
  by rewrite collect_app, Hc.
Qed.

(** C32: deleting a service always ends by writing it back without the finalizer,
    whatever the API server and the daemons answered before, and the only
    containers whose removal is asked for are the service's tunnel clients. *)
Theorem service_deletion_completes ds t o :
  runs (reconcile_service ds) t o ->
  time_IsZero (om_DeletionTimestamp (dsv_Meta ds)) = false ->
  ContainsFinalizer (om_Finalizers (dsv_Meta ds)) dockerServiceFinalizer = true ->
  exists t1 r,
    t = t1 ++ [Obs (KUpdate KDockerService (with_service_finalizers RemoveFinalizer ds)) r] /\
    o = match r with Ok _ => Val done_result | Err e => Fail e end /\
    Forall (fun n => n = tunnel_client_name ds \/ n = legacy_client_name ds)
      (collect removal_of t1).
Proof.
  intros Hr Hd Hf. unfold reconcile_service in Hr. rewrite Hd, Hf in Hr. cbn [negb] in Hr.
  apply (proj1 (runs_bind _ _ _ _)) in Hr as
    [(t1 & u & t2 & -> & Hc & Hr) | [(e & -> & Hc) | (-> & Hc)]];
    apply deleteExternalResources_val in Hc as [Ho Hc]; [| done | done].
  apply (proj1 (runs_try_call_bind _ _ _ _)) in Hr as (r & t3 & -> & _ & Hr).
  assert (t3 = [] /\ o = match r with Ok _ => Val done_result | Err e => Fail e end) as [-> ->]
    by (destruct r; by run_inv).
  by exists t1, r.
Qed.
(** ** The server's objects *)

Lemma outcome_bind_val {A B} (x : outcome A) (f : A -> outcome B) b :
  outcome_bind x f = Val b -> exists a, x = Val a /\ f a = Val b.
Proof. destruct x; simpl; [eauto | done | done]. Qed.

Lemma own_ok ds m m' :
  own ds m = Val m' -> SetControllerReference (dsv_Meta ds) "DockerService" m = Ok m'.
Proof. unfold own. destruct (SetControllerReference _ _ _); simpl; congruence. Qed.

(** The objects of the tunnel server fit together: the Service selects the
    pods the Deployment makes, every port of the Service leads to a port of the
    server's container, that container is started with the token, the targets
    file the config map is mounted as and a listen address for every port of the
    spec, and all three objects are controlled by the DockerService. *)
Definition objects_agree (ds : DockerService) (csv : string) (replicas : Z) (token : string)
    (svc : CoreService) (cm : ConfigMap) (dep : Deployment) : Prop :=
  exists pod, dep_Template dep = Some pod /\
    csv_Selector svc = pt_Labels pod /\ dep_Selector dep = Some (pt_Labels pod) /\
    dep_Replicas dep = Some replicas /\
    (forall p, p ∈ csv_Ports svc ->
       exists q, q ∈ pt_Ports pod /\ cp_ContainerPort q = csp_TargetPort p) /\
    (forall p, p ∈ ss_Ports (dsv_Spec ds) -> exists q, q ∈ csv_Ports svc /\ csp_Port q = sp_Port p) /\
    ("-auth-token=" +:+ token) ∈ pt_Args pod /\
    (forall p, p ∈ ss_Ports (dsv_Spec ds) -> ("-listen-addr=:" +:+ FormatInt (sp_Port p)) ∈ pt_Args pod) /\
    cm_Data cm !! "targets" = Some csv /\
    IsControlledBy (csv_Meta svc) (dsv_Meta ds) = true /\
    IsControlledBy (cm_Meta cm) (dsv_Meta ds) = true /\
    IsControlledBy (dep_Meta dep) (dsv_Meta ds) = true.

Lemma server_objects_agree `{!ControllerUtilLaws} ds csv replicas img token svc svc' cm cm' dep dep' :
  mutate_service ds svc = Val svc' ->
  mutate_targets ds csv cm = Val cm' ->
  mutate_deployment ds replicas img token dep = Val dep' ->
  objects_agree ds csv replicas token svc' cm' dep'.
Proof.
  intros Hs Hc Hd.
  apply outcome_bind_val in Hs as (m1 & Hs%own_ok & [= <-]).
  apply outcome_bind_val in Hc as (m2 & Hc%own_ok & [= <-]).
  apply outcome_bind_val in Hd as (m3 & Hd%own_ok & [= <-]).
  eexists. split; [reflexivity |].
  cbn [csv_Selector csv_Ports csv_Meta cm_Data cm_Meta dep_Selector dep_Replicas dep_Meta
    server_template pt_Labels pt_Ports pt_Args].
  split_and!; try done; eauto using set_reference_controlled.
  - intros p Hp. unfold service_ports in Hp. unfold server_ports.
    apply elem_of_cons in Hp as [-> | Hp].
    + exists (mkContainerPort "ws" tunnelWSPort). split; [by left | done].
    + apply list_elem_of_fmap in Hp as (q & -> & Hq).
      exists (mkContainerPort (sp_Name q) (sp_Port q)). split; [| done]. right.
      apply list_elem_of_fmap. eauto.
  - intros p Hp. exists (mkCoreServicePort (sp_Name p) (sp_Port p) (sp_Port p)). split; [| done].
    unfold service_ports. right. apply list_elem_of_fmap. eauto.
  - unfold server_args. apply elem_of_app. left. do 3 right. by left.
  - intros p Hp. unfold server_args. apply elem_of_app. right. apply list_elem_of_fmap. eauto.
  - apply lookup_insert_eq.
Qed.
End services.
