(* ===== verification/ServiceStatus.v ===== *)
(** * ServiceStatus: what a [DockerService] reports

    One status per reconciliation, and what each phase says of it. *)

From S2P Require Import Prelude Effects GoText Strconv ApiTypes World KubeLib DockerHostClient ServiceController ServiceTheorems.

Open Scope Z_scope.

(** An object that was brought to a wanted state: what it is if it is new, and what
    is made of it. *)
Definition wanted : Type := { k : kind & (object k * (object k -> outcome (object k)))%type }.
Definition wants (k : kind) (o : object k) (f : object k -> outcome (object k)) : wanted :=
  existT k (o, f).
Definition applied (o : obs event) : option wanted :=
  match o with
  | Obs e r =>
      match e in event R return R -> option wanted with
      | KCreateOrUpdate k o f => fun r => match r with Ok _ => Some (wants k o f) | Err _ => None end
      | _ => fun _ => None
      end r
  end.

(** Calls that change neither the server's objects nor the status. *)
Definition silent (o : obs event) : Prop := wrote_service o = None /\ applied o = None.

(** A part of the run is a run of [p] with the outcome [o]. *)
Definition did {A} (p : M event A) (o : outcome A) (t : list (obs event)) : Prop :=
  exists t1 t2 t3, t = t1 ++ t2 ++ t3 /\ runs p t2 o.

Lemma did_here {A} (p : M event A) o t1 t2 : runs p t2 o -> did p o (t1 ++ t2).
Proof. intros Hr. exists t1, t2, []. by rewrite app_nil_r. Qed.
Lemma did_app {A} (p : M event A) o t1 t2 : did p o t1 -> did p o (t1 ++ t2).
Proof. intros (a & b & c & -> & Hr). exists a, b, (c ++ t2). by rewrite <- !app_assoc. Qed.

Section status.
Context `{UnicodeData} `{X509} `{ControllerUtil}.

(** ** What a run did *)

(** The targets were found, and these are their addresses, in order. *)
Definition targeted (ds : DockerService) (targets : list DockerContainer) (ips : list string)
    (t : list (obs event)) : Prop :=
  did (resolveTargetContainers ds) (Val (ds, Targets targets)) t /\
  exists port ports, ss_Ports (dsv_Spec ds) = port :: ports /\
    ips = sort_Strings (buildTargetIPs targets (sp_TargetPort port)).

(** The server was brought to its wanted state: its Service, its config map and its
    Deployment, each under its own name, were made to fit together, with this many
    replicas, these targets and the token of the service. *)
Definition server_applied (ds : DockerService) (replicas : Z) (ips : list string)
    (t : list (obs event)) : Prop :=
  exists token fs fc fd, token_held ds t token /\
    (let named := new_meta (ds_Namespace ds) in
     collect applied t =
       [wants KService (mkCoreService (set_Labels (app_label (server_name ds)) (named (server_name ds))) ∅ []) fs;
        wants KConfigMap (mkConfigMap (named (server_name ds +:+ "-targets")) ∅) fc;
        wants KDeployment (mkDeployment (named (server_name ds)) None None None) fd]) /\
    forall svc svc' cm cm' dep dep', fs svc = Val svc' -> fc cm = Val cm' -> fd dep = Val dep' ->
      objects_agree ds (Join ips ",") replicas token svc' cm' dep'.

(** A client of the first target's host was opened, or that failed. *)
Definition opened (first : DockerContainer) (o : outcome DockerClient) (t : list (obs event)) : Prop :=
  did (NewClient (om_Namespace (dc_Meta first)) (cs_DockerHostRef (dc_Spec first))) o t.

Definition service_url (ds : DockerService) : string :=
  "ws://" +:+ server_name ds +:+ "." +:+ ds_Namespace ds +:+ ".svc:8081/ws".

(** What a run of a live service that carries the finalizer reports. *)
Inductive reported (ds : DockerService) (t : list (obs event)) :
    DockerServiceStatus -> outcome Result -> Prop :=
| reported_active first rest ips cli :
    targeted ds (first :: rest) ips t -> ips <> [] -> server_applied ds 1 ips t ->
    opened first (Val cli) t -> did (reconcileTunnelClient cli ds first (service_url ds)) (Val tt) t ->
    reported ds t
      (mkDockerServiceStatus "Active" 1 (service_url ds)
         ("tunnel client ready; targetIPs=" +:+ print_strings ips))
      (Val (requeue_after (30 * Second)))
| reported_client first rest ips e :
    targeted ds (first :: rest) ips t -> ips <> [] -> server_applied ds 1 ips t ->
    (opened first (Fail e) t \/ exists cli, opened first (Val cli) t /\
       did (reconcileTunnelClient cli ds first (service_url ds)) (Fail e) t) ->
    reported ds t (mkDockerServiceStatus "Error" 0 (service_url ds) (err_msg e))
      (Val (requeue_after (10 * Second)))
| reported_waiting targets :
    targeted ds targets [] t -> server_applied ds 0 [] t ->
    reported ds t
      (mkDockerServiceStatus "Pending" 0 (service_url ds)
         ("waiting for target IPv4; containers=" +:+ FormatInt (Z.of_nat (length targets))))
      (Val (requeue_after (10 * Second)))
| reported_unresolved ds' phase res msg :
    did (resolveTargetContainers ds) (Val (ds', Stop res)) t -> collect applied t = [] ->
    phase = "Pending"%stdpp /\ res = requeue_after (10 * Second) \/
      phase = "Error"%stdpp /\ res = done_result ->
    reported ds t (mkDockerServiceStatus phase 0 "" msg) (Val res)
| reported_no_ports targets :
    did (resolveTargetContainers ds) (Val (ds, Targets targets)) t ->
    ss_Ports (dsv_Spec ds) = [] -> collect applied t = [] ->
    reported ds t (mkDockerServiceStatus "Error" 0 "" "spec.ports must not be empty") (Val done_result)
| reported_failure e :
    (exists ds', did (resolveTargetContainers ds) (Val (ds', Failed e)) t) \/
    (exists targets port ports ips,
       did (resolveTargetContainers ds) (Val (ds, Targets targets)) t /\
       ss_Ports (dsv_Spec ds) = port :: ports /\ ips = buildTargetIPs targets (sp_TargetPort port) /\
       did (reconcileTunnelServer ds (match ips with [] => 0 | _ => 1 end) ips) (Fail e) t) ->
    reported ds t (mkDockerServiceStatus "Error" 0 "" (err_msg e)) (Fail e).

(** ** The steps that report nothing *)

Lemma token_silent ds : always silent (ensureTunnelAuthSecret ds).
Proof. unfold ensureTunnelAuthSecret. always_tac; by split. Qed.
Lemma client_silent cli ds rep wsURL : always silent (reconcileTunnelClient cli ds rep wsURL).
Proof.
  unfold reconcileTunnelClient, first_network, gateway_host, operatorImage, ensure_image,
    ensure_tunnel_client, create_tunnel_client.
  always_tac; try (by split); apply token_silent.
Qed.
Lemma open_silent ns ref : always silent (NewClient ns ref).
Proof. unfold NewClient, newClient. always_tac; by split. Qed.
Lemma reload_silent ns app csv : always silent (triggerTunnelReload ns app csv).
Proof. unfold triggerTunnelReload. always_tac; by split. Qed.
Lemma image_silent : always silent operatorImage.
Proof. unfold operatorImage. always_tac; by split. Qed.

Lemma silent_trace {A} (p : prog event A) t o :
  always silent p -> runs p t o -> collect wrote_service t = [] /\ collect applied t = [].
Proof.
  intros Hp Hr. split; eapply collect_unseen; try exact Hr;
    (eapply always_mono; [| exact Hp]); by intros ? [].
Qed.

Lemma setStatus_then {A} ds phase clients url msg (f : DockerService -> M event A) t o :
  runs (bind (setDockerServiceStatus ds phase clients url msg) f) t o ->
  exists ds' t1 t2, t = t1 ++ t2 /\ runs (f ds') t2 o /\
    collect wrote_service t1 = [mkDockerServiceStatus phase clients url msg] /\ collect applied t1 = [].
Proof.
  intros Hr. apply (proj1 (runs_bind _ _ _ _)) in Hr as
    [(t1 & a & t2 & -> & Hs & Hr) | [(e & -> & Hs) | (-> & Hs)]];
    unfold setDockerServiceStatus in Hs; run_inv; [by eexists _, [_], t2 | done..].
Qed.

(** ** The server *)

Lemma server_parts ds replicas ips t o :
  runs (reconcileTunnelServer ds replicas ips) t o ->
  collect wrote_service t = [] /\
  forall url ips', o = Val (url, ips') -> url = service_url ds /\ ips' = sort_Strings ips /\
    exists token img, token_held ds t token /\
    collect applied t =
      [wants KService (mkCoreService (set_Labels (app_label (server_name ds))
           (new_meta (ds_Namespace ds) (server_name ds))) ∅ []) (mutate_service ds);
       wants KConfigMap (mkConfigMap (new_meta (ds_Namespace ds) (server_name ds +:+ "-targets")) ∅)
         (mutate_targets ds (Join ips' ","));
       wants KDeployment (mkDeployment (new_meta (ds_Namespace ds) (server_name ds)) None None None)
         (mutate_deployment ds replicas img token)].
Proof.
  unfold reconcileTunnelServer. intros Hr. split.
  - eapply collect_unseen; [| exact Hr].
    assert (forall A (p : M event A), always silent p -> always (fun o => wrote_service o = None) p) as Hs
      by (intros A p; apply always_mono; by intros ? []).
    always_tac; apply Hs; auto using token_silent, reload_silent, image_silent.
  - intros url ips' ->. run_step; subst; try done.
    apply (proj1 (runs_bind _ _ _ _)) in Hr as [(t1 & token & t2 & -> & Ht & Hr) | [(e & ? & _) | (? & _)]]; [| done | done].
    apply (silent_trace _ _ _ (token_silent _)) in Ht as Hs. apply proj2 in Hs.
    apply ensureTunnelAuthSecret_token, (token_ensured_held _ _ t2) in Ht.
    run_step; subst; try done.
    apply (proj1 (runs_bind _ _ _ _)) in Hr as [(t3 & u & t4 & -> & Hre & Hr) | [(e & ? & _) | (? & _)]]; [| done | done].
    assert (collect applied t3 = []) as Hb.
    { eapply silent_trace; [| exact Hre]. destruct (bool_decide _); [apply reload_silent | done]. }
    unfold operatorImage in Hr. repeat (run_step; simplify_eq/=). split_and!; [done | done |].
    eexists token, _. split; [exact (token_held_app ds [_] _ _ Ht) |]. simpl. rewrite collect_app, Hs. simpl. by rewrite collect_app, Hb.
Qed.

Lemma server_applies `{!ControllerUtilLaws} ds replicas ips before t url ips' :
  collect applied before = [] ->
  runs (reconcileTunnelServer ds replicas ips) t (Val (url, ips')) ->
  url = service_url ds /\ ips' = sort_Strings ips /\ server_applied ds replicas ips' (before ++ t).
Proof.
  intros Hb Hr. apply server_parts in Hr as [_ Hr].
  destruct (Hr _ _ eq_refl) as (-> & -> & token & img & Ht & Ha). split_and!; [done | done |].
  eexists token, _, _, _. split; [by apply token_held_app |]. rewrite collect_app, Hb.
  split; [exact Ha |]. intros svc svc' cm cm' dep dep'. apply server_objects_agree.
Qed.

(** ** The report *)

(** What one status at the end says of [before] and [t], if there is no panic. *)
Definition reports (ds : DockerService) (before t : list (obs event)) (o : outcome Result) : Prop :=
  (o = Panic /\ collect wrote_service t = []) \/
  exists st, collect wrote_service t = [st] /\ reported ds (before ++ t) st o.

(** A report that ends a run. *)
Lemma setStatus_reports ds ds0 phase clients url msg (q : M event Result) o1 before t o :
  (forall t o, runs q t o -> t = [] /\ o = o1) ->
  runs (setDockerServiceStatus ds0 phase clients url msg ;; q) t o ->
  (forall t', collect applied t' = [] ->
     reported ds (before ++ t') (mkDockerServiceStatus phase clients url msg) o1) ->
  reports ds before t o.
Proof.
  intros Hq (ds' & t1 & t2 & -> & Hr & Hw & Ha)%setStatus_then Hrep. apply Hq in Hr as [-> ->].
  rewrite app_nil_r. right. eauto.
Qed.

Ltac ends := let t := fresh "t" in let o := fresh "o" in let Hr := fresh "Hr" in intros t o Hr; by run_inv.

(** What was found out does not depend on what follows. *)
Lemma targeted_app ds targets ips t t' : targeted ds targets ips t -> targeted ds targets ips (t ++ t').
Proof. intros [Hd Hp]. split; [by apply did_app | done]. Qed.
Lemma opened_app first o t t' : opened first o t -> opened first o (t ++ t').
Proof. apply did_app. Qed.
Lemma server_applied_app ds replicas ips t t' :
  collect applied t' = [] -> server_applied ds replicas ips t -> server_applied ds replicas ips (t ++ t').
Proof.
  intros Ha (token & fs & fc & fd & (sec & Hs & Hc) & Hw & Hagree). exists token, fs, fc, fd.
  rewrite collect_app, Ha, app_nil_r. split_and!; [| done | done].
  exists sec. rewrite !collect_app, !elem_of_app. naive_solver.
Qed.
Lemma nothing_applied_app t t' : collect applied t = [] -> collect applied t' = [] -> collect applied (t ++ t') = [].
Proof. intros Ht Ht'. by rewrite collect_app, Ht, Ht'. Qed.
#[local] Hint Resolve nothing_applied_app targeted_app opened_app server_applied_app did_app did_here : core.

Lemma reported_app ds t t' st o : collect applied t' = [] -> reported ds t st o -> reported ds (t ++ t') st o.
Proof.
  intros Ha [first rest ips cli | first rest ips e Ht Hips Hs Hc | | | | e He];
    [econstructor; eauto | | econstructor; eauto | | |].
  - econstructor; eauto. destruct Hc as [? | (cli & ? & ?)]; eauto 6.
  - eapply reported_unresolved; eauto.
  - eapply reported_no_ports; eauto.
  - constructor. destruct He as [[ds' ?] | (targets & port & ports & ips & ? & ? & ? & ?)]; [eauto |].
    right. exists targets, port, ports, ips. eauto 6.
Qed.

(** A step whose error is looked at and which reports nothing. *)
Lemma reports_attempt {A} ds before (p : M event A) (f : result A -> M event Result) t o :
  (forall t o, runs p t o -> collect wrote_service t = []) ->
  (forall v t1 t2 o, runs p t1 (Val v) -> runs (f (Ok v)) t2 o -> reports ds (before ++ t1) t2 o) ->
  (forall e t1 t2 o, runs p t1 (Fail e) -> runs (f (Err e)) t2 o -> reports ds (before ++ t1) t2 o) ->
  runs (bind (attempt p) f) t o -> reports ds before t o.
Proof.
  intros Hp Hv He Hr.
  assert (forall t1 t2 o, collect wrote_service t1 = [] -> reports ds (before ++ t1) t2 o ->
    reports ds before (t1 ++ t2) o) as Hafter.
  { intros t1 t2 o' Hw [[-> Hn] | (st & Hs & Hrep)]; [left | right; exists st];
      rewrite collect_app, Hw; [done |]. by rewrite app_assoc. }
  apply (proj1 (runs_bind _ _ _ _)) in Hr as
    [(t1 & a & t2 & -> & Hc & Hr) | [(e & -> & Hc) | (-> & Hc)]];
    apply (proj1 (runs_attempt _ _ _)) in Hc as [(v & E & Hc) | [(e' & E & Hc) | (E & Hc)]]; try done;
    simplify_eq.
  - apply Hafter; eauto.
  - apply Hafter; eauto.
  - left. eauto.
Qed.

Lemma client_reports ds first rest ips before t o :
  targeted ds (first :: rest) ips before -> ips <> [] -> server_applied ds 1 ips before ->
  runs (reconcile_client ds first (service_url ds) ips) t o -> reports ds before t o.
Proof.
  intros Ht Hips Hs. unfold reconcile_client. apply reports_attempt.
  - intros t' o' Hc. by apply (silent_trace _ _ _ (open_silent _ _)) in Hc as [? _].
  - clear t o. intros cli t1 t o Hc Hr. apply (silent_trace _ _ _ (open_silent _ _)) in Hc as Ha. apply proj2 in Ha.
    apply (proj1 (runs_deferring _ _ _ _)) in Hr as (t2 & t3 & x & -> & Hr & Hcl).
    apply (proj1 (runs_call _ _ _)) in Hcl as (u & -> & _ & _).
    enough (reports ds (before ++ t1) t2 o) as [[-> Hn] | (st & Hw & Hrep)].
    { left. by rewrite collect_app, Hn. }
    { right. exists st. rewrite collect_app, Hw. split; [done |]. rewrite app_assoc. by apply reported_app. }
    revert Hr. apply reports_attempt; clear t2 o.
    + intros t' o' Hc'. by apply (silent_trace _ _ _ (client_silent _ _ _ _)) in Hc' as [? _].
    + intros [] t2 t o Hc' Hr. apply (silent_trace _ _ _ (client_silent _ _ _ _)) in Hc' as Ha'. apply proj2 in Ha'.
      eapply setStatus_reports; [| exact Hr |]; [ends |]. intros t' Hn. unfold opened in *.
      eapply reported_active with (cli := cli); unfold opened; eauto 8.
    + intros e t2 t o Hc' Hr. apply (silent_trace _ _ _ (client_silent _ _ _ _)) in Hc' as Ha'. apply proj2 in Ha'.
      eapply setStatus_reports; [| exact Hr |]; [ends |]. intros t' Hn.
      eapply reported_client; eauto 8. right. exists cli. unfold opened. eauto 8.
  - clear t o. intros e t1 t o Hc Hr. apply (silent_trace _ _ _ (open_silent _ _)) in Hc as Ha. apply proj2 in Ha.
    eapply setStatus_reports; [| exact Hr |]; [ends |]. intros t' Hn.
    eapply reported_client; eauto 8. left. unfold opened. eauto.
Qed.

Lemma tunnel_reports `{!ControllerUtilLaws} ds targets before t o :
  did (resolveTargetContainers ds) (Val (ds, Targets targets)) before -> collect applied before = [] ->
  runs (reconcile_tunnel ds targets) t o -> reports ds before t o.
Proof.
  intros Hd Hb Hr. unfold reconcile_tunnel in Hr. destruct (ss_Ports (dsv_Spec ds)) as [| port ports] eqn:Ep.
  { eapply setStatus_reports; [| exact Hr |]; [ends |]. intros t' Hn. eapply reported_no_ports; eauto. }
  cbv zeta in Hr. revert Hr. apply reports_attempt; clear t o.
  - intros t' o' Hc. by apply server_parts in Hc as [? _].
  - intros [url ips] t1 t o Hc Hr. cbv beta iota in Hr.
    destruct (server_applies _ _ _ _ _ _ _ Hb Hc) as (-> & Eips & Hs).
    assert (targeted ds targets ips (before ++ t1)) as Ht by (split; eauto).
    destruct ips as [| ip ips].
    + assert (buildTargetIPs targets (sp_TargetPort port) = []) as E
        by (apply Permutation_nil_r; rewrite <- (sort_Strings_perm (buildTargetIPs _ _)); by rewrite <- Eips).
      rewrite E in Hs.
      assert (runs (setDockerServiceStatus ds "Pending" 0 (service_url ds)
        ("waiting for target IPv4; containers=" +:+ FormatInt (Z.of_nat (length targets))) ;;
        ret (requeue_after (10 * Second))) t o) as Hp by by destruct targets.
      eapply setStatus_reports; [| exact Hp |]; [ends |]. intros t' Hn. eapply reported_waiting; eauto.
    + destruct targets as [| first targets].
      { by apply (f_equal length) in Eips. }
      assert (buildTargetIPs (first :: targets) (sp_TargetPort port) <> []) as Hne.
      { intros E. by rewrite E in Eips. }
      eapply client_reports; [exact Ht | done | by destruct (buildTargetIPs _ _) | exact Hr].
  - intros e t1 t o Hc Hr. cbv beta iota in Hr. eapply setStatus_reports; [| exact Hr |]; [ends |].
    intros t' Hn. eapply reported_failure. right.
    exists targets, port, ports, (buildTargetIPs targets (sp_TargetPort port)). auto 8.
Qed.

(** Resolving the targets reports only when it stops or fails. *)
Lemma resolve_cases ds t o :
  runs (resolveTargetContainers ds) t o ->
  exists ds' r, o = Val (ds', r) /\ collect applied t = [] /\
    match r with
    | Targets _ => ds' = ds /\ collect wrote_service t = []
    | Failed e => collect wrote_service t = [] \/
        exists msg, collect wrote_service t = [mkDockerServiceStatus "Error" 0 "" msg]
    | Stop res => exists phase msg, collect wrote_service t = [mkDockerServiceStatus phase 0 "" msg] /\
        (phase = "Pending"%stdpp /\ res = requeue_after (10 * Second) \/
         phase = "Error"%stdpp /\ res = done_result)
    end.
Proof.
  assert (forall phase msg (r : resolved) t o, runs
      (let! ds := setDockerServiceStatus ds phase 0 "" msg in ret (ds, r)) t o ->
      exists ds', o = Val (ds', r) /\ collect applied t = [] /\
        collect wrote_service t = [mkDockerServiceStatus phase 0 "" msg]) as Hset.
  { intros phase msg r t' o' (ds' & t1 & t2 & -> & Hr & Hw & Hb)%setStatus_then. run_inv.
    exists ds'. by rewrite app_nil_r. }
  unfold resolveTargetContainers. intros Hr.
  destruct (negb _), (ss_Selector (dsv_Spec ds)) as [sel |].
  - apply Hset in Hr as (ds' & -> & Hb & Hw). eexists _, _. split_and!; [done | done |].
    eexists _, _. split; [exact Hw | by auto].
  - run_step. subst. destruct r as [dc | e]; [| destruct (err_k8s_notfound e)].
    + run_inv. by eexists _, _.
    + apply Hset in Hr as (ds' & -> & Hb & Hw). eexists _, _. split_and!; [done | done |].
    eexists _, _. split; [exact Hw | by auto].
    + run_inv. eexists _, _. split_and!; [done | done |]. by left.
  - destruct (LabelSelectorAsSelector sel) as [s | e].
    + run_step. subst. destruct r as [[| c l] | e].
      * apply Hset in Hr as (ds' & -> & Hb & Hw). eexists _, _. split_and!; [done | done |].
    eexists _, _. split; [exact Hw | by auto].
      * run_inv. by eexists _, _.
      * run_inv. eexists _, _. split_and!; [done | done |]. by left.
    + apply Hset in Hr as (ds' & -> & Hb & Hw). eexists _, _. split_and!; [done | done |]. right. by eexists.
  - apply Hset in Hr as (ds' & -> & Hb & Hw). eexists _, _. split_and!; [done | done |].
    eexists _, _. split; [exact Hw | by auto].
Qed.

End status.
