(* ===== verification/ClientStore.v ===== *)
(** * ClientStore: the tunnel client on a Docker host

    The part of the [DockerService] reconciler that runs the tunnel client, against
    the containers of [DockerStore]: what it leaves, and what the next run does. *)

From S2P Require Import Prelude Effects Stores GoText Strconv ApiTypes World DockerStore KubeLib Adopt DockerHostClient ContainerStore ServiceController.

Open Scope Z_scope.

Section client.
Context `{UnicodeData} `{ControllerUtil}.

(** One container has the name of the service's tunnel client; it has the image
    and is alive. *)
Definition client_settled (img : string) (ds : DockerService) (d : daemon) : Prop :=
  exists id m, d !! id = Some m /\ m_Name m = tunnel_client_name ds /\ ci_Image (m_Config m) = img /\
    m_State m ∈ alive_states.

(** What a step does to the host: the names stay apart, the identifiers are ones,
    other containers stay as they are, and on success the client is there. *)
Definition ensures_client (img : string) (ds : DockerService) (d : daemon) (o : outcome unit)
    (d' : daemon) : Prop :=
  bystanders (tunnel_client_name ds) d d' /\ ids_valid d' /\ (o = Val tt -> client_settled img ds d').

Section steps.
Variables (cli : DockerClient) (ds : DockerService).
Implicit Types d : daemon.

(** The name of the client means the container that has it. *)
Lemma client_means d id m : ids_valid d -> designates d (tunnel_client_name ds) id m -> m_Name m = tunnel_client_name ds.
Proof. intros Hi. by apply designates_by_name. Qed.
Lemma client_found d id m :
  ids_valid d -> d !! id = Some m -> m_Name m = tunnel_client_name ds ->
  designates d (tunnel_client_name ds) id m.
Proof. intros Hi. by apply named_designates. Qed.

(** The client is the only one its name means. *)
Lemma client_unique d id m id' m' :
  names_unique d -> ids_valid d -> d !! id = Some m -> m_Name m = tunnel_client_name ds ->
  designates d (tunnel_client_name ds) id' m' -> id' = id /\ m' = m.
Proof.
  intros Hu Hi Hm Hn Hd. pose proof (client_means _ _ _ Hi Hd) as Hn'. destruct Hd as (_ & Hm' & _).
  assert (id' = id) as -> by (apply (Hu _ _ m' m); congruence). split; congruence.
Qed.

Lemma ensures_after img d d1 o d' :
  bystanders (tunnel_client_name ds) d d1 -> ensures_client img ds d1 o d' -> ensures_client img ds d o d'.
Proof. intros Hb (Hb' & Hi & Hset). split; [by eapply bystanders_trans | done]. Qed.

Lemma ensures_nothing img d o : names_unique d -> ids_valid d -> o <> Val tt -> ensures_client img ds d o d.
Proof. intros Hu Hi Ho. split; [by apply bystanders_refl | done]. Qed.

(** Starting the client by its name. *)
Lemma start_client d id m img (Q : outcome unit -> daemon -> Prop) :
  names_unique d -> ids_valid d -> d !! id = Some m -> m_Name m = tunnel_client_name ds ->
  ci_Image (m_Config m) = img ->
  (forall o d', ensures_client img ds d o d' -> Q o d') ->
  triple d (try_call (DContainerStart cli (tunnel_client_name ds))) Q.
Proof.
  intros Hu Hi Hm Hn Himg HQ. apply triple_try_call. intros r d1 _ Hs. apply HQ. simpl in Hs.
  destruct Hs as [(id' & m' & Hd & ->) | [-> Hr]].
  - destruct (client_unique _ _ _ _ _ Hu Hi Hm Hn Hd) as [-> ->].
    split; [eapply bystanders_update; eauto using started_Name |]. split.
    + apply map_Forall_insert_2; [by apply (Hi _ _ Hm) | done].
    + intros _. exists id, (started m). rewrite started_Name, started_Config.
      split_and!; [apply lookup_insert_eq | done | done | apply started_alive].
  - destruct r; [done |]. split; [by apply bystanders_refl |]. by split.
Qed.

Lemma create_client d img url token networkID :
  names_unique d -> ids_valid d -> name_free (tunnel_client_name ds) d ->
  triple d (create_tunnel_client cli ds img url token networkID) (ensures_client img ds d).
Proof.
  intros Hu Hi Hf. unfold create_tunnel_client. apply triple_bind, triple_try_call.
  intros r d1 _ Hs. simpl in Hs.
  destruct Hs as [(id & m & Hv & Hid & Hfree & (Hn & _ & Hrep) & -> & _) | [-> Hr]].
  2:{ destruct r; [done |]. by apply ensures_nothing. }
  specialize (Hn ltac:(done)).
  assert (bystanders (tunnel_client_name ds) d (<[ id := m ]> d)) as Hb by by apply bystanders_create.
  assert (ids_valid (<[ id := m ]> d)) as Hi1 by by apply map_Forall_insert_2.
  destruct r as [id' | e]; cbn [to_outcome continue]; [| by split].
  apply triple_bind. eapply (start_client _ id m img); [apply Hb | done | apply lookup_insert_eq | done | apply Hrep |].
  intros o d2 Hen. apply (ensures_after _ _ _ _ _ Hb) in Hen.
  destruct o as [[] | e |]; cbn [continue]; [| done ..].
  destruct (negb _ && _ && _); [| by apply triple_ret].
  apply triple_bind, triple_call. intros r d3 _ Hs. change (d3 = d2) in Hs. subst d3.
  by apply triple_ret.
Qed.

Lemma ensure_client d img url token networkID :
  names_unique d -> ids_valid d ->
  triple d (ensure_tunnel_client cli ds img url token networkID) (ensures_client img ds d).
Proof.
  intros Hu Hi. unfold ensure_tunnel_client. apply triple_bind, triple_call.
  intros r d1 _ [-> Hans]. cbn [continue]. destruct r as [j | e].
  - destruct Hans as (id & m & Hd & base & st & Hbase & _ & _ & _ & Hcfg & Hstate & _ & Hrun).
    pose proof (client_means _ _ _ Hi Hd) as Hn. pose proof (proj1 (proj2 Hd)) as Hm.
    unfold inspected_image, inspected_running. rewrite Hcfg, Hbase, Hstate.
    apply triple_bind, triple_lift. cbn [continue].
    destruct (eqb_str (ci_Image (m_Config m)) img) eqn:Ei; cbn [negb].
    + apply eqb_str_true in Ei. apply triple_bind, triple_lift. cbn [continue].
      destruct (st_Running st) eqn:Erun.
      * apply triple_ret. split; [by apply bystanders_refl |]. split; [done |]. intros _.
        exists id, m. split_and!; try done. symmetry in Hrun. by apply bool_decide_eq_true in Hrun.
      * by apply (start_client _ id m img).
    + apply triple_bind, triple_try_call. intros r d2 _ Hs. simpl in Hs.
      destruct Hs as [(id' & m' & Hd' & ->) | [-> Hr]].
      * destruct (client_unique _ _ _ _ _ Hu Hi Hm Hn Hd') as [-> ->].
        assert (bystanders (tunnel_client_name ds) d (delete id d)) as Hb by by eapply bystanders_delete.
        assert (ids_valid (delete id d)) as Hi1 by by apply map_Forall_delete.
        destruct r as [u | e]; cbn [to_outcome continue]; [| by split].
        eapply triple_mono; [apply create_client; [apply Hb | done | by eapply deleted_name_free] |].
        intros o d3. by apply ensures_after.
      * destruct r; [done |]. by apply ensures_nothing.
  - destruct (err_docker_notfound e) eqn:Ee; [| by apply triple_fail, ensures_nothing].
    apply create_client; [done | done |]. intros id m Hm Hn. apply (Hans Ee id m). by apply client_found.
Qed.

(** ** The whole step *)

(** The image the environment names. *)
Definition image_read (o : obs event) : option string :=
  match o with
  | Obs e r =>
      match e in event R return R -> option string with
      | OGetenv _ => fun v => Some (if eqb_str v "" then "kdop-operator:latest"%stdpp else v)
      | _ => fun _ => None
      end r
  end.

Definition idle (o : obs event) : Prop := changes_containers o = false.

Lemma idle_same t d d' : Forall idle t -> served d t d' -> d' = d.
Proof. intros Hi. apply served_inert. eapply Forall_impl; [exact Hi |]. intros o. apply reading_inert. Qed.

(** A part that changes no container and does not look at the environment. *)
Definition aside {A} (p : M event A) : Prop := always (fun o => idle o /\ image_read o = None) p.

Lemma aside_run {A} (p : M event A) t o : aside p -> runs p t o -> Forall idle t /\ collect image_read t = [].
Proof.
  intros Hp Hr. split.
  - eapply always_runs; [| exact Hr]. eapply always_mono; [| exact Hp]. by intros ? [? _].
  - eapply collect_unseen; [| exact Hr]. eapply always_mono; [| exact Hp]. by intros ? [_ ?].
Qed.

Lemma aside_bind {A} (p : M event A) (f : A -> M event unit) t o :
  aside p -> runs (bind p f) t o ->
  (Forall idle t /\ o <> Val tt) \/
  exists t1 a t2, t = t1 ++ t2 /\ Forall idle t1 /\ collect image_read t1 = [] /\ runs (f a) t2 o.
Proof.
  intros Hp Hr. apply (proj1 (runs_bind _ _ _ _)) in Hr as
    [(t1 & a & t2 & -> & Hr1 & Hr2) | [(e & -> & Hr1) | (-> & Hr1)]];
    apply (aside_run _ _ _ Hp) in Hr1 as [? ?]; [right; by exists t1, a, t2 | by left ..].
Qed.

(** What is done before the client is looked at. *)
Definition prepared (t : list (obs event)) (o : outcome unit) (k : string -> list (obs event) -> Prop) : Prop :=
  (Forall idle t /\ o <> Val tt) \/
  exists t1 img t2, t = t1 ++ t2 /\ Forall idle t1 /\ collect image_read t1 = [img] /\ k img t2.

Lemma prepared_after {A} (p : M event A) (f : A -> M event unit) t o k :
  aside p -> runs (bind p f) t o ->
  (forall a t2, runs (f a) t2 o -> prepared t2 o k) -> prepared t o k.
Proof.
  intros Hp Hr Hk. apply (aside_bind _ _ _ _ Hp) in Hr as [? | (t1 & a & t2 & -> & Hi & Him & Hr)]; [by left |].
  destruct (Hk _ _ Hr) as [[Hi2 Ho] | (t3 & img & t4 & -> & Hi3 & Him3 & Hkk)].
  - left. by rewrite Forall_app.
  - right. exists (t1 ++ t3), img, t4. rewrite app_assoc, Forall_app, collect_app, Him. by split_and!.
Qed.

Lemma client_parts rep wsURL t o d d' :
  runs (reconcileTunnelClient cli ds rep wsURL) t o -> served d t d' ->
  (exists id m, designates d (cs_ContainerName (dc_Spec rep)) id m) ->
  prepared t o (fun img t2 => exists url token networkID,
    runs (ensure_tunnel_client cli ds img url token networkID) t2 o).
Proof.
  intros Hr Hs (id & m & Hd). unfold reconcileTunnelClient in Hr. run_step. subst t.
  apply served_head in Hs as (d1 & [-> Hans] & _).
  assert (forall t2, prepared t2 o (fun img t2 => exists url token networkID,
    runs (ensure_tunnel_client cli ds img url token networkID) t2 o) ->
    prepared (Obs (DContainerInspect cli (cs_ContainerName (dc_Spec rep))) r :: t2) o (fun img t2 =>
      exists url token networkID, runs (ensure_tunnel_client cli ds img url token networkID) t2 o)) as Hcons.
  { intros t2 [[Hi Ho] | (t3 & img & t4 & -> & Hi & Him & Hk)]; [left; by split; [constructor |] |].
    right. exists (Obs (DContainerInspect cli (cs_ContainerName (dc_Spec rep))) r :: t3), img, t4.
    by split_and!; [| constructor | |]. }
  apply Hcons. clear Hcons. destruct r as [main | e].
  2:{ left. destruct (err_docker_notfound e) eqn:Ee; [by destruct (Hans Ee id m) |]. run_step. subst. by split. }
  eapply prepared_after; [| exact Hr |]; [unfold aside, first_network; always_tac; by split |].
  clear Hr. intros networkID t1 Hr.
  eapply prepared_after; [| exact Hr |]; [unfold aside, gateway_host; always_tac; by split |].
  clear Hr. intros gatewayHost t2 Hr.
  eapply prepared_after; [| exact Hr |]; [unfold aside, ensureTunnelAuthSecret; always_tac; by split |].
  clear Hr. intros authToken t3 Hr. unfold operatorImage in Hr. run_step. run_step. run_step. subst.
  eapply (aside_bind (ensure_image cli _)) in Hr as [[Hi Ho] | (t4 & a & t5 & -> & Hi & Him & Hr)].
  3: unfold aside, ensure_image; always_tac; by split.
  - left. split; [by constructor | done].
  - right. eexists (Obs (OGetenv "OPERATOR_IMAGE") _ :: t4), _, t5. split; [done |].
    split; [by constructor |]. split; [simpl; by rewrite Him | eauto].
Qed.

(** The client is the only thing that is looked at from there on, and when it is
    settled nothing is done to it. *)
Lemma ensure_sees img url token networkID :
  always (fun o => image_read o = None) (ensure_tunnel_client cli ds img url token networkID).
Proof. unfold ensure_tunnel_client, create_tunnel_client. always_tac. Qed.

Lemma ensure_settled d img url token networkID t o d' :
  names_unique d -> ids_valid d -> client_settled img ds d ->
  runs (ensure_tunnel_client cli ds img url token networkID) t o -> served d t d' -> Forall idle t.
Proof.
  intros Hu Hi (id & m & Hm & Hn & Himg & Hst) Hr Hs. unfold ensure_tunnel_client in Hr. run_step. subst t.
  apply served_head in Hs as (d1 & [-> Hans] & _). constructor; [done |].
  destruct r as [j | e].
  - destruct Hans as (id' & m' & Hd & base & st & Hbase & _ & _ & _ & Hcfg & Hstate & _ & Hrun).
    destruct (client_unique _ _ _ _ _ Hu Hi Hm Hn Hd) as [-> ->].
    unfold inspected_image, inspected_running in Hr. rewrite Hcfg, Hbase, Hstate in Hr.
    apply (proj1 (runs_ret_bind _ _ _ _)) in Hr. cbv beta in Hr. rewrite (proj2 (eqb_str_true _ _) Himg) in Hr.
    apply (proj1 (runs_ret_bind _ _ _ _)) in Hr. cbv beta in Hr. rewrite Hrun, bool_decide_eq_true_2 in Hr by done.
    run_step. by subst.
  - destruct (err_docker_notfound e) eqn:Ee; [| run_step; by subst].
    destruct (Hans Ee id m). by apply client_found.
Qed.
End steps.

(** C30: the tunnel client converges, and is then left alone: on a Docker host on
    which the container name of the spec the service stands for means a container
    (the empty name means none; without the container the step succeeds and does
    nothing), the step that succeeds leaves one client of the service's name, alive
    and of the operator's image, and every other container as it was; and any later
    step that reads the same image, while there is such a container, changes
    nothing, whatever address, gateway and token it would start a client with. *)
Theorem tunnel_client_settles cli ds rep wsURL t d d' :
  runs (reconcileTunnelClient cli ds rep wsURL) t (Val tt) -> served d t d' ->
  names_unique d -> ids_valid d ->
  (exists id m, designates d (cs_ContainerName (dc_Spec rep)) id m) ->
  exists img, collect image_read t = [img] /\ client_settled img ds d' /\
    names_unique d' /\ same_but (tunnel_client_name ds) d d' /\
    forall ds2 rep2 wsURL2 t2 o2 d2,
      runs (reconcileTunnelClient cli ds2 rep2 wsURL2) t2 o2 -> served d' t2 d2 ->
      ds_Name ds2 = ds_Name ds -> collect image_read t2 = [img] ->
      (exists id m, designates d' (cs_ContainerName (dc_Spec rep2)) id m) ->
      Forall idle t2 /\ d2 = d'.
Proof.
  intros Hr Hs Hu Hi Hrep. destruct (client_parts _ _ _ _ _ _ _ _ Hr Hs Hrep)
    as [[_ Ho] | (t1 & img & t3 & -> & Hidle & Himg & url & token & nid & Hen)]; [done |].
  apply served_app in Hs as (d1 & Hs1 & Hs).
  rewrite (idle_same _ _ _ Hidle Hs1) in Hs. clear Hs1.
  destruct (ensure_client cli ds d img url token nid Hu Hi _ _ _ Hen Hs) as ([Hu' Hsame] & Hi' & Hset).
  specialize (Hset eq_refl). exists img.
  rewrite collect_app, Himg, (collect_unseen _ _ _ _ (ensure_sees _ _ _ _ _ _) Hen).
  split_and!; try done. clear - Hu' Hi' Hset.
  intros ds2 rep2 ws2 t2 o2 d2 Hr Hs En Him Hrep.
  assert (client_settled img ds2 d') as Hset2
    by by unfold client_settled, tunnel_client_name in *; rewrite En.
  enough (Forall idle t2) as Hall by (split; [done | by eapply idle_same]).
  destruct (client_parts _ _ _ _ _ _ _ _ Hr Hs Hrep)
    as [[? _] | (t1 & img2 & t3 & -> & Hidle & Himg & url & token & nid & Hen)]; [done |].
  apply served_app in Hs as (d1 & Hs1 & Hs). rewrite (idle_same _ _ _ Hidle Hs1) in Hs.
  rewrite collect_app, Himg, (collect_unseen _ _ _ _ (ensure_sees _ _ _ _ _ _) Hen) in Him.
  injection Him as ->. apply Forall_app. split; [done |].
  by eapply ensure_settled.
Qed.
End client.
