(* ===== verification/TunnelTheorems.v ===== *)
(** * TunnelTheorems: selection, authentication and targets of the tunnel server

    Round robin and pushed targets as properties of the critical sections; the
    sessions as an invariant of the transition system, by induction on the steps
    that interleave the handlers. *)

From stdpp Require Import relations.
From S2P Require Import Prelude Effects GoText World TunnelServer.
From Stdlib Require Import Ascii.

Open Scope Z_scope.

(** ** Round robin *)

Lemma at_mod_rotate {A} (l : list A) r i :
  0 <= r -> (i < length l)%nat ->
  at_mod l (r + Z.of_nat i) = rotate (Z.to_nat (r mod Z.of_nat (length l))) l !! i.
Proof.
  intros Hr Hi. rewrite lookup_rotate_r by done. unfold at_mod, rotate_nat_add. do 2 f_equal.
  assert (0 < Z.of_nat (length l)) by lia.
  pose proof (Z.mod_pos_bound r (Z.of_nat (length l)) ltac:(done)).
  rewrite Z2Nat.id by lia. by rewrite Zplus_mod_idemp_l.
Qed.

Lemma rotate_perm {A} k (l : list A) : rotate k l ≡ₚ l.
Proof. unfold rotate. by rewrite Permutation_app_comm, take_drop. Qed.

(** C19: targets are taken in turn: while the targets and the sessions, at least
    one, stay the same, as many consecutive connections as there are targets go
    to each target exactly once, and none is dropped, as long as the index has not
    counted 2^64 connections. *)
Theorem round_robin_fair s :
  sessions s <> [] -> targets s <> [] ->
  0 <= rrIndex s -> rrIndex s + Z.of_nat (length (targets s)) <= 2 ^ 64 ->
  map (option_map fst) (selections (length (targets s)) s).1 ≡ₚ map Some (targets s).
Proof.
  intros Hs Ht Hr Hn. rewrite selections_targets by done.
  change (map ?f ?l) with (fmap (M:=list) f l). rewrite <- list_fmap_compose.
  set (k := Z.to_nat (rrIndex s mod Z.of_nat (length (targets s)))).
  transitivity (fmap (M:=list) Some (rotate k (targets s))); [| by rewrite rotate_perm].
  apply reflexive_eq, list_eq. intros i. rewrite !list_lookup_fmap.
  destruct (decide (i < length (targets s))%nat) as [Hi | Hi].
  - rewrite lookup_seq_lt by done. simpl. unfold compose.
    destruct (at_mod_lt (sessions s) (rrIndex s + Z.of_nat i) Hs) as [sess ->].
    destruct (at_mod_lt (targets s) (rrIndex s + Z.of_nat i) Ht) as [target Et].
    rewrite Et. simpl. rewrite at_mod_rotate in Et by done. fold k in Et. by rewrite Et.
  - rewrite lookup_seq_ge by lia. simpl.
    rewrite lookup_ge_None_2; [done |]. rewrite length_rotate. lia.
Qed.

(** ** Invariants of every interleaving *)

Lemma remove_first_perm n l : n ∈ l -> l ≡ₚ n :: remove_first n l.
Proof.
  induction l as [| y l IH]; simpl; [by intros ?%not_elem_of_nil |].
  destruct (Nat.eqb_spec y n) as [-> | Hne]; [done |].
  intros [? | Hn]%elem_of_cons; [done |]. rewrite (IH Hn) at 1. apply Permutation_swap.
Qed.

Lemma load_targets_frame l now s :
  sessions (load_targets l now s) = sessions s /\ authToken (load_targets l now s) = authToken s.
Proof. unfold load_targets. by repeat case_match. Qed.

Lemma run_section_token {R : Set} (x : section R) now s :
  authToken (run_section x now s).2 = authToken s.
Proof.
  destruct x; simpl; try done; [| apply load_targets_frame].
  by destruct (select_cases s) as [[-> _] | (? & ? & _ & _ & ->)].
Qed.

(** ** Threads

    [follows p t q]: [p] makes the calls of [t] and is then at [q]. *)
Fixpoint follows {A} (p : prog net_event A) (t : list (obs net_event)) (q : prog net_event A)
    : Prop :=
  (t = [] /\ q = p) \/
  match p with
  | Ret _ => False
  | Call e k => exists r t', t = Obs e r :: t' /\ follows (k r) t' q
  end.

Lemma follows_refl {A} (p : prog net_event A) : follows p [] p.
Proof. destruct p; by left. Qed.

Lemma follows_next {A} (p : prog net_event A) t q :
  follows p t q ->
  match q with Ret _ => True | Call e k => forall r, follows p (t ++ [Obs e r]) (k r) end.
Proof.
  revert t. induction p as [a | R e k IH]; intros t; cbn [follows].
  - by intros [[_ ->] | []].
  - intros [[-> ->] | (r & t' & -> & Hf)].
    + intros r. right. exists r, []. split; [done | apply follows_refl].
    + apply IH in Hf. destruct q as [| R' e' k']; [done |]. intros r'.
      right. exists r, (t' ++ [Obs e' r']). split; [done | apply Hf].
Qed.

(** The sessions a thread holds registered. *)
Definition hold (l : list nat) (o : obs net_event) : list nat :=
  match o with
  | Obs e _ =>
      match e with
      | OnServer (Register n) => n :: l
      | OnServer (Unregister n) => remove_first n l
      | _ => l
      end
  end.
Definition holds (t : list (obs net_event)) : list nat := foldl hold [] t.
Definition th_holds (th : thread) : list nat := holds (th_past th).

(** What a program does to the registered sessions next. *)
Definition next_register (q : M net_event unit) : option nat :=
  match q with Call (OnServer (Register n)) _ => Some n | _ => None end.
Definition next_unregister (q : M net_event unit) : option nat :=
  match q with Call (OnServer (Unregister n)) _ => Some n | _ => None end.
Definition next_session (q : M net_event unit) : bool :=
  match q with Call (NewSession _) _ => true | _ => false end.

(** The tokens a thread read from the server. *)
Definition token_read (o : obs net_event) : option string :=
  match o with
  | Obs e r =>
      match e in net_event R return R -> option string with
      | OnServer x =>
          match x in section R return R -> option string with
          | ReadToken => fun token => Some token
          | _ => fun _ => None
          end
      | _ => fun _ => None
      end r
  end.

Definition is_end (q : M net_event unit) : bool := match q with Ret _ => true | _ => false end.

(** What holds of a thread at every point of its handler: it opens at most one
    session, for a client that was let in; it registers the session it opened,
    before it ends it removes what it registered, and it removes nothing else. *)
Record stage_ok (rq : request) (t : list (obs net_event)) (q : M net_event unit) : Prop := {
  stage_opened : collect opened t = [] \/ exists n, collect opened t = [n];
  stage_let_in : next_session q = true \/ collect opened t <> [] ->
    exists token authToken, rq = WS token /\ authToken ∈ collect token_read t /\
      authorized authToken token = true;
  stage_session : next_session q = true -> collect opened t = [];
  stage_register n : next_register q = Some n -> collect opened t = [n] /\ holds t = [];
  stage_unregister n : next_unregister q = Some n -> holds t = [n];
  stage_holds : holds t = [] \/ holds t = collect opened t /\ is_end q = false;
}.

(** Case analysis on a [follows] hypothesis, call by call. *)
Ltac follows_tac :=
  repeat match goal with
  | H : follows _ _ _ |- _ => progress cbn in H
  | H : _ \/ _ |- _ => destruct H
  | H : _ /\ _ |- _ => destruct H
  | H : exists _, _ |- _ => destruct H
  | H : False |- _ => destruct H
  | H : (_, _) = (_, _) |- _ => injection H as ?
  | H : follows (match ?x with _ => _ end) _ _ |- _ => destruct x eqn:?
  | H : follows (bind (match ?x with _ => _ end) _) _ _ |- _ => destruct x eqn:?
  | H : follows (pbind (match ?x with _ => _ end) _) _ _ |- _ => destruct x eqn:?
  | H : follows (pbind (pbind (match ?x with _ => _ end) _) _) _ _ |- _ => destruct x eqn:?
  end; subst.

Ltac stage_tac :=
  split; cbn; rewrite ?Nat.eqb_refl; intros;
  repeat match goal with H : _ \/ _ |- _ => destruct H end;
  try done; try simplify_eq; try done; try (by left); try (by right); try (by right; eexists);
  try (eexists _, _; split_and!; [reflexivity | by left | by apply negb_false_iff]).

Lemma handler_stage rq t q : follows (handler rq) t q -> stage_ok rq t q.
Proof.
  intros Hf. destruct rq as [conn | token | m text |]; cbn [handler] in Hf.
  - unfold handleTCP, forward in Hf. follows_tac; stage_tac.
  - unfold handleWS in Hf. follows_tac; stage_tac.
  - unfold handleReload, loadTargetsFromFile in Hf. follows_tac; stage_tac.
  - unfold loadTargetsFromFile in Hf. follows_tac; stage_tac.
Qed.

(** ** The invariant of the server *)

(** A thread follows its handler; the token never changes; sessions are opened
    once; the registered sessions are those the threads hold. *)
Record server_inv (token : string) (sy : system) : Prop := {
  inv_threads : Forall (fun th => follows (handler (th_request th)) (th_past th) (th_rest th))
                  (sy_threads sy);
  inv_token : authToken (sy_server sy) = token;
  inv_read : Forall (fun th => Forall (eq token) (collect token_read (th_past th))) (sy_threads sy);
  inv_opened : NoDup (mbind (M:=list) th_opened (sy_threads sy));
  inv_sessions : sessions (sy_server sy) ≡ₚ mbind (M:=list) th_holds (sy_threads sy);
}.

Lemma bind_middle {A B} (f : A -> list B) l1 x l2 :
  mbind (M:=list) f (l1 ++ x :: l2) = mbind f l1 ++ f x ++ mbind f l2.
Proof. rewrite bind_app. reflexivity. Qed.

Lemma collect_one {X} (view : obs net_event -> option X) o :
  collect view [o] = match view o with Some x => [x] | None => [] end.
Proof. done. Qed.

Lemma holds_snoc t o : holds (t ++ [o]) = hold (holds t) o.
Proof. unfold holds. by rewrite foldl_app. Qed.

Lemma Forall_middle {A} (P : A -> Prop) l1 x y l2 :
  Forall P (l1 ++ x :: l2) -> (P x -> P y) -> Forall P (l1 ++ y :: l2).
Proof. rewrite !Forall_app, !Forall_cons. naive_solver. Qed.

Lemma follows_after rq t R (e : net_event R) k r :
  follows (handler rq) t (Call e k) -> follows (handler rq) (t ++ [Obs e r]) (k r).
Proof. intros Hf. by apply follows_next in Hf. Qed.

(** What an access of a thread does to the registered sessions, and to what the
    thread holds. *)
Lemma access_sessions rq t R (x : section R) k now s a b :
  stage_ok rq t (Call (OnServer x) k) ->
  sessions s ≡ₚ a ++ holds t ++ b ->
  sessions (run_section x now s).2 ≡ₚ a ++ hold (holds t) (Obs (OnServer x) (run_section x now s).1) ++ b.
Proof.
  intros Hst Hs. destruct x as [| | | n | n | text | l]; cbn [hold run_section snd]; try done.
  - by destruct (select_cases s) as [[-> _] | (? & ? & _ & _ & ->)].
  - destruct (stage_register _ _ _ Hst n eq_refl) as [_ Hh]. rewrite Hh in *. simpl in *.
    rewrite Hs. by rewrite <- app_assoc, (Permutation_app_comm b).
  - pose proof (stage_unregister _ _ _ Hst n eq_refl) as Hh. rewrite Hh in *. simpl.
    rewrite Nat.eqb_refl. simpl. apply (Permutation_cons_inv (a := n)).
    rewrite <- remove_first_perm, Hs by (rewrite Hs; set_solver).
    by rewrite Permutation_middle.
  - by rewrite (proj1 (load_targets_frame l now s)).
Qed.

Lemma inv_step token sy sy' : server_inv token sy -> step sy sy' -> server_inv token sy'.
Proof.
  intros [Hth Htok Hread Hop Hs] Hstep.
  destruct Hstep as [s ths rq | s l1 rq t R x k l2 now | s l1 rq t R e k l2 r Hacc Hfresh];
    cbn [sy_server sy_threads] in *.
  - split; cbn [sy_server sy_threads]; rewrite ?Forall_app, ?bind_app; simpl; rewrite ?app_nil_r;
      try done.
    + split; [done | by repeat constructor; apply follows_refl].
    + split; [done | by repeat constructor].
  - assert (follows (handler rq) t (Call (OnServer x) k)) as Hf
      by (by apply Forall_app in Hth as [_ [Hf _]%Forall_cons]).
    split; cbn [sy_server sy_threads].
    + eapply Forall_middle; [exact Hth |]. intros _. by apply follows_after.
    + by rewrite run_section_token.
    + eapply Forall_middle; [exact Hread |]. cbn [th_past]. intros Ht.
      rewrite collect_app, Forall_app. split; [done |].
      destruct x; simpl; repeat constructor. done.
    + rewrite bind_middle in Hop |- *. unfold th_opened at 2 in Hop. unfold th_opened at 2.
      cbn [th_past] in *. by rewrite collect_app, app_nil_r.
    + rewrite bind_middle in Hs |- *. unfold th_holds at 2. unfold th_holds at 2 in Hs.
      cbn [th_past] in *. rewrite holds_snoc. eapply access_sessions; [| exact Hs].
      by apply handler_stage.
  - assert (follows (handler rq) t (Call e k)) as Hf
      by (by apply Forall_app in Hth as [_ [Hf _]%Forall_cons]).
    assert (hold (holds t) (Obs e r) = holds t /\ token_read (Obs e r) = None) as [Hh Htr]
      by (by destruct e).
    split; cbn [sy_server sy_threads]; [| done | | |].
    + eapply Forall_middle; [exact Hth |]. intros _. by apply follows_after.
    + eapply Forall_middle; [exact Hread |]. cbn [th_past]. intros Ht.
      rewrite collect_app, Forall_app. split; [done |]. rewrite collect_one, Htr. constructor.
    + rewrite bind_middle in Hop, Hfresh |- *. unfold th_opened at 2 in Hop.
      unfold th_opened at 2 in Hfresh. unfold th_opened at 2.
      cbn [th_past] in *. rewrite collect_app, collect_one.
      destruct (opened (Obs e r)) as [n |] eqn:E; [| by rewrite app_nil_r].
      specialize (Hfresh n eq_refl).
      rewrite <- app_assoc. simpl.
      rewrite (app_assoc _ (collect opened t)), <- (Permutation_middle _ _ n), <- app_assoc.
      by constructor.
    + rewrite bind_middle in Hs |- *. unfold th_holds at 2. unfold th_holds at 2 in Hs.
      cbn [th_past] in *. by rewrite holds_snoc, Hh.
Qed.

Lemma reachable_inv token file targets sy : reachable token file targets sy -> server_inv token sy.
Proof.
  unfold reachable. intros Hr. set (sy0 := mkSystem _ _) in Hr.
  assert (server_inv token sy0) as H0 by (split; simpl; try done; constructor).
  clearbody sy0. induction Hr as [| sy0 sy1 sy2 Hs Hr IH]; [done |].
  apply IH. by eapply inv_step.
Qed.

(** The thread that holds a registered session. *)
Lemma registered_thread token sy n :
  server_inv token sy -> n ∈ sessions (sy_server sy) ->
  exists th, th ∈ sy_threads sy /\ th_opened th = [n] /\ is_end (th_rest th) = false /\
    exists presented, th_request th = WS presented /\ authorized token presented = true.
Proof.
  intros [Hth _ Hread _ Hs] Hn. rewrite Hs in Hn. apply list_elem_of_bind in Hn as (th & Hn & Hin).
  exists th. split; [done |].
  rewrite Forall_forall in Hth, Hread.
  destruct (handler_stage _ _ _ (Hth th Hin)) as [Hop Hin_ok _ _ _ Hh].
  unfold th_holds in Hn. destruct Hh as [Hh | [Hh Hend]]; rewrite Hh in Hn;
    [by apply not_elem_of_nil in Hn |].
  destruct Hop as [Hop | [m Hop]]; rewrite Hop in Hn; [by apply not_elem_of_nil in Hn |].
  apply list_elem_of_singleton in Hn as ->. split; [done |]. split; [done |].
  destruct Hin_ok as (presented & authToken & Hrq & Ht & Hauth); [right; by rewrite Hop |].
  exists presented. split; [done |]. specialize (Hread th Hin). rewrite Forall_forall in Hread.
  by rewrite (Hread _ Ht).
Qed.

(** C12: no session without the token: in every reachable state of the server,
    whatever its handlers interleave like and the network answers, a registered
    session was opened by a handler whose client presented the server's token,
    when the server has one. *)
Theorem sessions_authenticated token file targets sy n :
  reachable token file targets sy -> token <> "" ->
  n ∈ sessions (sy_server sy) ->
  exists th, th ∈ sy_threads sy /\ th_request th = WS token /\ n ∈ th_opened th.
Proof.
  intros Hr Htok Hn. apply reachable_inv in Hr.
  destruct (registered_thread _ _ _ Hr Hn) as (th & Hin & Hop & _ & presented & Hrq & Ha).
  exists th. rewrite Hop. unfold authorized in Ha.
  apply orb_true_iff in Ha as [E | E]; apply eqb_str_true in E; subst; [done |].
  split_and!; [done | done | by left].
Qed.

(** C13: no stale session: in every reachable state the registered sessions are
    pairwise different and each belongs to a handler that has not ended, so once
    the handler of a client ends, its session is never selected again. *)
Theorem registered_sessions_live token file targets sy :
  reachable token file targets sy ->
  NoDup (sessions (sy_server sy)) /\
  forall n, n ∈ sessions (sy_server sy) ->
    exists th, th ∈ sy_threads sy /\ th_opened th = [n] /\ forall o, th_rest th <> Ret o.
Proof.
  intros Hr. apply reachable_inv in Hr. split.
  - destruct Hr as [Hth _ _ Hop Hs]. rewrite Hs. clear Hs. revert Hop.
    induction Hth as [| th ths Hf Hth IH]; [done |]. cbn [mbind list_bind].
    intros (Hop1 & Hdis & Hop2)%NoDup_app. apply NoDup_app.
    assert (th_holds th ⊆ th_opened th /\ NoDup (th_holds th)) as [Hsub Hnd].
    { destruct (stage_holds _ _ _ (handler_stage _ _ _ Hf)) as [Hh | [Hh _]];
        unfold th_holds; rewrite Hh; [split; [by intros ? ?%not_elem_of_nil | constructor] | done]. }
    split; [done |]. split; [| by apply IH].
    intros n Hn Hn2. apply (Hdis n); [by apply Hsub |].
    apply list_elem_of_bind in Hn2 as (th2 & Hn2 & Hin). apply list_elem_of_bind.
    exists th2. split; [| done]. rewrite Forall_forall in Hth.
    destruct (stage_holds _ _ _ (handler_stage _ _ _ (Hth th2 Hin))) as [Hh | [Hh _]];
      unfold th_holds in Hn2; rewrite Hh in Hn2; [by apply not_elem_of_nil in Hn2 | done].
  - intros n Hn. destruct (registered_thread _ _ _ Hr Hn) as (th & Hin & Hop & Hend & _).
    exists th. split_and!; [done | done |]. intros o E. by rewrite E in Hend.
Qed.

(** ** Pushed targets *)

Lemma targetsEqual_spec a b : targetsEqual a b = true <-> a = b.
Proof.
  revert b. induction a as [| x a IH]; intros [| y b]; simpl; try done.
  rewrite andb_true_iff, eqb_str_true, IH. naive_solver.
Qed.

(** The file read at [now]. *)
Definition file_ticks (l : list (string * Z)) (s : Server) : Server :=
  foldl (fun s x => load_targets (file_targets x.1) x.2 s) s l.

(** C20: a push is not undone by an old file: after a push at time [p], reading the
    targets file changes nothing for two minutes, whatever it says and however
    often it is read, and once they have passed the file's targets replace the
    pushed ones. *)
Theorem push_outlives_file text p s l data now :
  p <> zero_clock -> - 2 ^ 62 <= p < 2 ^ 62 ->
  Forall (fun x => p <= x.2 < p + 2 * Minute) l ->
  p + 2 * Minute <= now < 2 ^ 62 ->
  let pushed := push_targets text p s in
  targets (file_ticks l pushed) = parse_targets text /\
  targets (load_targets (file_targets data) now (file_ticks l pushed)) = file_targets data.
Proof.
  intros Hp Hrange Hl Hnow. cbn zeta.
  assert (file_ticks l (push_targets text p s) = push_targets text p s) as ->.
  { induction Hl as [| [d t] l Ht Hl IH]; [done |]. unfold file_ticks in *. simpl in *.
    enough (load_targets (file_targets d) t (push_targets text p s) = push_targets text p s) as -> by done.
    unfold load_targets. cbn [lastPushTime pushTargets targets push_targets].
    replace (since t p <? 2 * Minute) with true by (unfold since, Minute, Second in *; lia).
    replace (p =? zero_clock) with false by lia. cbn [negb andb].
    destruct (targetsEqual (file_targets d) (parse_targets text)); done. }
  split; [done |]. unfold load_targets. cbn [lastPushTime pushTargets push_targets].
  replace (since now p <? 2 * Minute) with false by (unfold since, Minute, Second in *; lia).
  rewrite andb_false_r. cbn [andb].
  destruct (targetsEqual _ (targets _)) eqn:E; [| done].
  by apply targetsEqual_spec in E as ->.
Qed.
