(* ===== verification/Cli.v ===== *)
(** * Cli: [runTunnelCLI] of [cmd/main.go]

    The command line of the tunnel subcommand, parsed as Go's [flag] package
    does, and what each mode starts; and how the tunnel server of a DockerService
    understands the arguments its Deployment gives it. *)

From S2P Require Import Prelude Effects GoText Strconv Url ApiTypes World KubeLib ServiceController TunnelServer TunnelConnect Gateway.
From Stdlib Require Import Ascii.

Open Scope Z_scope.

(** ** [flag.FlagSet.Parse], [ExitOnError] *)

(** What a flag takes: any text; a boolean, which may be left out; or what a
    [flag.Value] of another package accepts. *)
Inductive flag_kind :=
| StringFlag
| BoolFlag
| OtherFlag (noArg : bool) (accepts : string -> bool).

Definition isBoolFlag (k : flag_kind) : bool :=
  match k with StringFlag => false | BoolFlag => true | OtherFlag noArg _ => noArg end.

(** [strconv.ParseBool]. *)
Definition ParseBool (s : string) : option bool :=
  if bool_decide (s ∈ ["1"; "t"; "T"; "TRUE"; "true"; "True"]%stdpp) then Some true
  else if bool_decide (s ∈ ["0"; "f"; "F"; "FALSE"; "false"; "False"]%stdpp) then Some false
  else None.

Definition FormatBool (b : bool) : string := if b then "true" else "false".

(** [flag.Value.Set], with what the flag then holds. *)
Definition flag_Set (k : flag_kind) (value : string) : option string :=
  match k with
  | StringFlag => Some value
  | BoolFlag => FormatBool <$> ParseBool value
  | OtherFlag _ accepts => if accepts value then Some value else None
  end.

Inductive parsed :=
| Parsed (values : gmap string string) (args : list string)
| Exited (code : Z).

(** One flag: its name and value as written, without the leading minuses. *)
Definition flag_parts (name : string) : string * option string :=
  match name with
  | EmptyString => (EmptyString, None)
  | String c rest =>
      match Cut_byte rest "="%char with
      | Some (n, v) => (String c n, Some v)
      | None => (name, None)
      end
  end.

(** The name of an argument that is a flag: [None] for a plain argument. *)
Definition flag_name (s : string) : option string :=
  match s with
  | String m (String c rest) =>
      if Ascii.eqb m "-" then
        if Ascii.eqb c "-" then Some rest else Some (String c rest)
      else None
  | _ => None
  end.

Definition bad_name (name : string) : bool :=
  match name with
  | EmptyString => true
  | String c _ => Ascii.eqb c "-" || Ascii.eqb c "="
  end.

Definition undefined_flag (name : string) : parsed :=
  if eqb_str name "help" || eqb_str name "h" then Exited 0 else Exited 2.

(** [kinds] are the flags defined, [values] what they hold. *)
Fixpoint parse_flags (kinds : gmap string flag_kind) (values : gmap string string) (args : list string)
    : parsed :=
  match args with
  | [] => Parsed values []
  | s :: rest =>
      match flag_name s with
      | None => Parsed values args
      | Some text =>
          if eqb_str s "--" then Parsed values rest
          else if bad_name text then Exited 2
          else
            let '(name, value) := flag_parts text in
            match kinds !! name with
            | None => undefined_flag name
            | Some k =>
                match value, isBoolFlag k, rest with
                | Some v, _, _ =>
                    match flag_Set k v with
                    | Some v => parse_flags kinds (<[ name := v ]> values) rest
                    | None => Exited 2
                    end
                | None, true, _ =>
                    match flag_Set k "true" with
                    | Some v => parse_flags kinds (<[ name := v ]> values) rest
                    | None => Exited 2
                    end
                | None, false, [] => Exited 2
                | None, false, v :: rest' =>
                    match flag_Set k v with
                    | Some v => parse_flags kinds (<[ name := v ]> values) rest'
                    | None => Exited 2
                    end
                end
            end
      end
  end.

(** ** [runTunnelCLI] *)

Definition tunnel_flags : gmap string string :=
  list_to_map [("mode", "server"); ("listen-addr", ":9000"); ("ws-addr", ":9001");
    ("auth-token", ""); ("targets", ""); ("targets-file", "");
    ("server-url", "ws://localhost:9001/ws"); ("gateway-addr", ":8080")]%stdpp.

(** What the process goes on to do; the listening addresses are those of
    [NewServer]. *)
Inductive action :=
| RunServer (listenAddr wsAddr : string) (srv : Server)
| RunClient (serverURL token : string)
| RunGateway (listenAddr : string)
| Exit (code : Z).

Definition flag_value (values : gmap string string) (name : string) : string :=
  default EmptyString (values !! name).

Definition start_mode (values : gmap string string) : action :=
  let mode := flag_value values "mode" in
  if eqb_str mode "server" then
    let targets := flag_value values "targets" in
    let targetList := if eqb_str targets "" then [] else parse_targets targets in
    let srv := NewServer (flag_value values "auth-token") targetList in
    let file := flag_value values "targets-file" in
    RunServer (flag_value values "listen-addr") (flag_value values "ws-addr")
      (if eqb_str file "" then srv else SetTargetsFile file srv)
  else if eqb_str mode "client" then
    RunClient (flag_value values "server-url") (flag_value values "auth-token")
  else if eqb_str mode "gateway" then RunGateway (flag_value values "gateway-addr")
  else Exit 1.

(** [args] is [os.Args[2:]]. *)
Definition runTunnelCLI (args : list string) : action :=
  match parse_flags ((fun _ => StringFlag) <$> tunnel_flags) tunnel_flags args with
  | Exited code => Exit code
  | Parsed values _ => start_mode values
  end.

(** What the action does, and the exit code of the process.  A server and a gateway
    end with an error only; the client never ends: these are its first [attempts]
    connections of [turns] streams each. *)
Definition perform `{UnicodeData, IPLiterals} (attempts turns : nat) (a : action) : M net_event Z :=
  let exit_with (p : M net_event unit) :=
    let! r := attempt p in
    ret (match r with Ok _ => 0 | Err _ => 1 end) in
  match a with
  | RunServer listenAddr wsAddr _ => exit_with (TunnelServer.Start listenAddr wsAddr)
  | RunClient serverURL token => exit_with (TunnelConnect.Start attempts turns (NewClient serverURL token))
  | RunGateway listenAddr => exit_with (Gateway.RunGateway listenAddr)
  | Exit code => ret code
  end.

(** A server or a gateway that ends exits with 1. *)
Lemma servers_exit_1 `{UnicodeData, IPLiterals} attempts turns a t o :
  (exists l w srv, a = RunServer l w srv) \/ (exists l, a = RunGateway l) ->
  runs (perform attempts turns a) t o -> o = Val 1.
Proof.
  intros [(l & w & srv & ->) | (l & ->)] Hr; unfold perform, TunnelServer.Start, Gateway.RunGateway in Hr;
    repeat (run_case; simplify_eq/=); done.
Qed.

(** ** The server's own arguments *)

Lemma parse_one kinds values (c : ascii) name v rest text :
  flag_parts (String c name) = (text, Some v) ->
  Ascii.eqb c "-" = false -> Ascii.eqb c "=" = false -> kinds !! text = Some StringFlag ->
  parse_flags kinds values (String "-" (String c name) :: rest) =
    parse_flags kinds (<[ text := v ]> values) rest.
Proof.
  intros Hp H1 H2 Hk. cbn [parse_flags flag_name Ascii.eqb Bool.eqb]. rewrite H1.
  assert (eqb_str (String "-" (String c name)) "--" = false) as ->.
  { apply eqb_str_false. intros [= ->]. done. }
  unfold bad_name. rewrite H1, H2. cbn [orb]. by rewrite Hp, Hk.
Qed.

Definition listen_flags (ports : list ServicePort) : list string :=
  (fun p => "-listen-addr=:" +:+ FormatInt (sp_Port p)) <$> ports.

Lemma parse_listen kinds ports values :
  kinds !! "listen-addr"%stdpp = Some StringFlag ->
  parse_flags kinds values (listen_flags ports) =
    Parsed (match last ports with
            | Some p => <[ "listen-addr" := ":" +:+ FormatInt (sp_Port p) ]> values
            | None => values
            end) [].
Proof.
  intros Hk. revert values. induction ports as [| p ports IH]; intros values; [done |].
  unfold listen_flags in *. rewrite fmap_cons. cbn [String.append].
  rewrite (parse_one _ _ _ _ (":" +:+ FormatInt (sp_Port p)) _ "listen-addr") by done.
  rewrite IH.
  destruct ports as [| q ports]; [done |].
  rewrite last_cons_cons. destruct (last (q :: ports)) eqn:E; [by rewrite insert_insert_eq |].
  by apply last_None in E.
Qed.

(** The server that the arguments of its Deployment start. *)
Lemma server_started ds token :
  exists srv, runTunnelCLI (tail (server_args ds token)) =
    RunServer
      (match last (ss_Ports (dsv_Spec ds)) with
       | Some p => ":" +:+ FormatInt (sp_Port p)
       | None => ":9000"
       end) ":8081" srv /\
    authToken srv = token /\ targetsFile srv = "/etc/tunnel/targets"%stdpp /\
    targets srv = [] /\ sessions srv = [].
Proof.
  unfold runTunnelCLI, server_args. cbn [tail app].
  change (FormatInt tunnelWSPort) with "8081"%stdpp. cbn [String.append].
  rewrite (parse_one _ _ _ _ "server" _ "mode") by (done || (vm_compute; reflexivity)).
  rewrite (parse_one _ _ _ _ ":8081" _ "ws-addr") by (done || (vm_compute; reflexivity)).
  rewrite (parse_one _ _ _ _ token _ "auth-token") by (done || (vm_compute; reflexivity)).
  rewrite (parse_one _ _ _ _ "/etc/tunnel/targets" _ "targets-file") by (done || (vm_compute; reflexivity)).
  fold (listen_flags (ss_Ports (dsv_Spec ds))). rewrite parse_listen by (vm_compute; reflexivity).
  eexists. destruct (last _) as [p |]; [generalize (FormatInt (sp_Port p)); intros port |];
    (split; [vm_compute; reflexivity | done]).
Qed.

(** The client that the command line of the tunnel client's container starts. *)
Lemma client_started img url token :
  runTunnelCLI (tail (cfg_Cmd (client_config img url token))) = RunClient url token.
Proof.
  unfold runTunnelCLI, client_config. cbn [cfg_Cmd tail String.append].
  rewrite (parse_one _ _ _ _ "client" _ "mode") by (done || (vm_compute; reflexivity)).
  rewrite (parse_one _ _ _ _ url _ "server-url") by (done || (vm_compute; reflexivity)).
  rewrite (parse_one _ _ _ _ token _ "auth-token") by (done || (vm_compute; reflexivity)).
  vm_compute. reflexivity.
Qed.

(** The tunnel server listens on one port only: started with the arguments of
    its Deployment it takes the token and the targets file as given, but of the
    listen addresses, one for every port of the service, it keeps the last. *)
Theorem server_listens_on_last_port ds token :
  exists srv, runTunnelCLI (tail (server_args ds token)) =
    RunServer
      (match last (ss_Ports (dsv_Spec ds)) with
       | Some p => ":" +:+ FormatInt (sp_Port p)
       | None => ":9000"
       end) ":8081" srv /\
    authToken srv = token /\ targetsFile srv = "/etc/tunnel/targets"%stdpp /\
    targets srv = [] /\ sessions srv = [].
Proof. apply server_started. Qed.
