(* ===== verification/TunnelEndToEnd.v ===== *)
(** * TunnelEndToEnd: the parts of the tunnel together

    The DockerService reconciler writes command lines and addresses which other
    parts of the program read: the tunnel server and client parse the command
    lines, the client dials the address, the gateway forwards the request, the
    server's mux routes it.  Here these parts are composed. *)

From S2P Require Import Prelude Effects GoText Strconv Url ApiTypes World KubeLib ServiceController TunnelServer TunnelClient Gateway TunnelConnect Cli.

Open Scope Z_scope.

(** The request an HTTP server sees when a client asks for a URL: path and query
    of the URL, and its host in the Host header. *)
Definition received (u : URL) : Request :=
  mkRequest (mkURL "" "" None "" (url_Path u) (url_RawPath u) false (url_ForceQuery u) (url_RawQuery u) "" "")
    (url_Host u).

Definition ws_dialed (o : obs net_event) : option string :=
  match o with Obs (WSDial url) _ => Some url | _ => None end.

Definition posted (o : obs event) : option string :=
  match o with Obs (GoHTTPPost url) _ => Some url | _ => None end.

(** What a name in a URL may look like: a DNS label or an IPv4 address. *)
Definition dns_name (s : string) : Prop := all_bytes host_byte s = true.

Lemma accept_streams_dials turns sess t o :
  runs (accept_streams turns sess) t o -> collect ws_dialed t = [].
Proof.
  apply collect_unseen. induction turns as [| turns IH]; cbn [accept_streams]; always_tac.
Qed.

Section tunnel.
Context `{UnicodeData, IPLiterals}.

(** ** The addresses *)

Lemma server_url_plain name ns :
  dns_name name -> dns_name ns ->
  let host := name +:+ "." +:+ ns +:+ ".svc" in
  plain "ws" host "8081" "/ws" "" /\
  tunnel_server_url name ns = plain_text "ws" (host +:+ ":" +:+ "8081") "/ws" "".
Proof.
  unfold dns_name. intros Hn Hns. cbn zeta. split.
  - split; try done. by rewrite !all_bytes_app, Hn, Hns.
  - unfold tunnel_server_url, plain_text, query_part. change (FormatInt tunnelWSPort) with "8081"%stdpp.
    change (eqb_str "" "") with true. by rewrite !append_assoc.
Qed.

(** The two parameters of the address the client is given. *)
Definition client_query (wsURL token : string) : Values :=
  {[ "target" := [wsURL]; "token" := [token] ]}.

Lemma client_url_plain gatewayHost wsURL token :
  dns_name gatewayHost ->
  let query := "target=" +:+ QueryEscape wsURL +:+ "&token=" +:+ QueryEscape token in
  plain "ws" gatewayHost "30000" "/ws" query /\
  client_connect_url gatewayHost wsURL token =
    plain_text "ws" (gatewayHost +:+ ":" +:+ "30000") "/ws" query /\
  ParseQuery query = client_query wsURL token.
Proof.
  intros Hg. cbn zeta.
  assert ("target=" +:+ QueryEscape wsURL +:+ "&token=" +:+ QueryEscape token =
          Join (encode_pair <$> [("target", wsURL); ("token", token)]%stdpp) "&") as Hq.
  { reflexivity. }
  split_and!.
  - split; try done. rewrite Hq. rewrite Encode_pairs_bytes. done.
  - unfold client_connect_url, plain_text, query_part.
    change (FormatInt tunnelGatewayPort) with "30000"%stdpp.
    destruct (eqb_str _ "") eqn:E; [by apply eqb_str_true in E |]. by rewrite !append_assoc.
  - rewrite Hq, ParseQuery_Join by (simpl; unfold max_params; lia).
    reflexivity.
Qed.

(** The address dialled keeps both parameters. *)
Lemma dial_url_client gatewayHost wsURL token :
  dns_name gatewayHost ->
  exists query, plain "ws" gatewayHost "30000" "/ws" query /\
    dial_url (NewClient (client_connect_url gatewayHost wsURL token) token) =
      Ok (plain_text "ws" (gatewayHost +:+ ":" +:+ "30000") "/ws" query) /\
    ParseQuery query = client_query wsURL token.
Proof.
  intros Hg. destruct (client_url_plain gatewayHost wsURL token Hg) as (Hpl & Htext & Hq).
  unfold dial_url, NewClient. cbn [serverAddr TunnelConnect.token].
  rewrite Htext, (Parse_plain _ _ _ _ _ Hpl). destruct (eqb_str token "").
  - eexists. split_and!; [exact Hpl | by rewrite (plain_url_String _ _ _ _ _ Hpl) | exact Hq].
  - unfold Query. cbn [plain_url url_RawQuery]. rewrite Hq.
    assert (plain "ws" gatewayHost "30000" "/ws" (Encode (values_Set "token" token (client_query wsURL token))))
      as Hpl2 by (destruct Hpl; split; try done; apply Encode_bytes).
    eexists. split; [exact Hpl2 |]. split.
    + f_equal. exact (plain_url_String _ _ _ _ _ Hpl2).
    + change (values_Set "token" token (client_query wsURL token)) with (client_query wsURL token).
      apply ParseQuery_Encode; [| by vm_compute].
      apply map_Forall_insert_2; [done |]. by apply map_Forall_singleton.
Qed.

(** What the gateway makes of it. *)
Lemma gateway_reaches name ns host query token :
  dns_name name -> dns_name ns ->
  ParseQuery query = client_query (tunnel_server_url name ns) token ->
  let out := Director (received (plain_url "ws" host "/ws" query)) in
  let server := name +:+ "." +:+ ns +:+ ".svc:8081" in
  url_Scheme (req_URL out) = "http" /\ url_Host (req_URL out) = server /\ req_Host out = server /\
  url_Path (req_URL out) = "/ws" /\ values_Get "token" (Query (req_URL out)) = token.
Proof.
  intros Hn Hns Hq. cbn zeta. destruct (server_url_plain name ns Hn Hns) as [Hpl Htext].
  assert (Query (req_URL (received (plain_url "ws" host "/ws" query))) =
          client_query (tunnel_server_url name ns) token) as Hin by exact Hq.
  unfold Director. rewrite Hin.
  change (values_Get "target" (client_query _ token)) with (tunnel_server_url name ns).
  assert (eqb_str (tunnel_server_url name ns) "" = false) as -> by (by apply eqb_str_false).
  unfold parse_target. rewrite Htext, (Parse_plain _ _ _ _ _ Hpl).
  cbn [plain_url url_Scheme url_Host url_Path]. change (eqb_str "ws" "") with false.
  rewrite (proj2 (eqb_str_false (_ +:+ ":" +:+ _) "")) by (by destruct name). cbn [orb req_URL req_Host].
  rewrite Query_redirect, ?get_token_target_query, Hin.
  - unfold redirect. cbn [url_Scheme url_Host url_Path]. change (values_Get "token" (client_query _ token)) with token.
    split_and!; try done; [by rewrite !append_assoc .. |].
    destruct (eqb_str token "") eqn:E; [| done]. by apply eqb_str_true in E as ->.
  - unfold target_query. rewrite Hin.
    change (values_Get "token" (client_query _ token)) with token. destruct (eqb_str token ""); by vm_compute.
Qed.

(** C11: the tunnel closes: the command lines the reconciler writes for the tunnel
    server and the tunnel client of a service fit together through every part in
    between: whatever the token, the address the client dials is that of the
    gateway, which forwards the request over HTTP to the service of the tunnel
    server, whose mux hands it to the WebSocket handler with a token that the
    server accepts. *)
Theorem client_reaches_server ds gatewayHost img token turns t o dialed :
  dns_name (ds_Name ds) -> dns_name (ds_Namespace ds) -> dns_name gatewayHost ->
  let wsURL := tunnel_server_url (server_name ds) (ds_Namespace ds) in
  let url := client_connect_url gatewayHost wsURL token in
  runs (connectAndServe turns (NewClient url token)) t o -> dialed ∈ collect ws_dialed t ->
  exists listenAddr srv u presented,
    runTunnelCLI (tail (server_args ds token)) = RunServer listenAddr ":8081" srv /\
    runTunnelCLI (tail (cfg_Cmd (client_config img url token))) = RunClient url token /\
    Parse dialed = Ok u /\ url_Scheme u = "ws" /\ url_Host u = gatewayHost +:+ ":30000" /\
    let fwd := Director (received u) in
    url_Scheme (req_URL fwd) = "http" /\
    url_Host (req_URL fwd) = server_name ds +:+ "." +:+ ds_Namespace ds +:+ ".svc:8081" /\
    route "GET" (req_URL (received (req_URL fwd))) = Some (WS presented) /\
    authorized (authToken srv) presented = true.
Proof.
  intros Hn Hns Hg wsURL url Hr Hd.
  assert (dns_name (server_name ds)) as Hn'
    by (unfold dns_name, server_name in *; by rewrite all_bytes_app, Hn).
  destruct (server_started ds token) as (srv & Hsrv & Htok & _).
  destruct (dial_url_client gatewayHost wsURL token Hg) as (query & Hpl & Hurl & Hq).
  assert (dialed = plain_text "ws" (gatewayHost +:+ ":" +:+ "30000") "/ws" query) as ->.
  { apply connectAndServe_runs in Hr as (r & -> & Hc).
    assert (Forall (fun x => dial_url (NewClient url token) = Ok x) (collect ws_dialed t)) as Hall.
    { destruct Hc as [e E | url' e E | url' ws e E | url' ws sess t r E Hs];
        [by constructor | by repeat constructor | by repeat constructor |].
      rewrite !collect_app, (accept_streams_dials _ _ _ _ Hs). simpl.
      constructor; [done |]. by destruct r. }
    rewrite Forall_forall in Hall. apply Hall in Hd. unfold url in Hd. rewrite Hurl in Hd. congruence. }
  destruct (gateway_reaches (server_name ds) (ds_Namespace ds) (gatewayHost +:+ ":" +:+ "30000")
              query token Hn' Hns Hq) as (H1 & H2 & _ & H4 & H5).
  eexists _, srv, _, token. split; [exact Hsrv |]. split; [apply client_started |].
  split; [by apply Parse_plain |]. split; [done |]. split; [done |]. cbn zeta.
  split; [exact H1 |]. split; [exact H2 |]. split.
  - unfold route. cbn [received req_URL url_Path]. rewrite H4.
    change (eqb_str "/ws" "/ws") with true. cbn iota. do 2 f_equal. exact H5.
  - rewrite Htok. unfold authorized. rewrite (proj2 (eqb_str_true token token) eq_refl). apply orb_true_r.
Qed.

(** ** Reloads *)

(** A target as the reconciler lists them: no white space, no comma. *)
Definition target_byte (b : Z) : bool := is_ink b && negb (b =? 44).
Definition plain_target (s : string) : Prop := s <> "" /\ all_bytes target_byte s = true.

Lemma parse_targets_Join l :
  l <> [] -> Forall plain_target l -> parse_targets (Join l ",") = l.
Proof.
  intros Hne Hl. unfold parse_targets. rewrite Split_Join; [| done |].
  - clear Hne. induction Hl as [| s l [Hs Hb] Hl IH]; [done |]. rewrite fmap_cons, TrimSpace_id.
    + rewrite filter_cons_True by (by apply eqb_str_false). by rewrite IH.
    + eapply all_bytes_impl; [| exact Hb]. unfold target_byte. intros b. rewrite andb_true_iff. tauto.
  - eapply Forall_impl; [exact Hl |]. intros s [_ Hb]. by eapply (byte_in_all _ target_byte).
Qed.

Lemma reload_url_plain ip csv :
  dns_name ip ->
  let query := "targets=" +:+ QueryEscape csv in
  plain "http" ip "8081" "/reload" query /\
  reload_url ip csv = plain_text "http" (ip +:+ ":" +:+ "8081") "/reload" query /\
  values_Get "targets" (ParseQuery query) = csv.
Proof.
  intros Hip. cbn zeta.
  assert ("targets=" +:+ QueryEscape csv = Join (encode_pair <$> [("targets", csv)]%stdpp) "&") as Hq
    by reflexivity.
  split_and!.
  - split; try done. rewrite Hq. apply Encode_pairs_bytes.
  - unfold reload_url, plain_text, query_part. change (FormatInt tunnelWSPort) with "8081"%stdpp.
    destruct (eqb_str _ "") eqn:E; [by apply eqb_str_true in E |]. by rewrite !append_assoc.
  - rewrite Hq, ParseQuery_Join by (simpl; unfold max_params; lia). reflexivity.
Qed.

(** The targets pushed by the handler of a request. *)
Definition pushed (o : obs net_event) : option string :=
  match o with
  | Obs e _ => match e with OnServer (Push text) => Some text | _ => None end
  end.

Lemma reload_pushes csv t o :
  csv <> "" -> runs (handler (Reload "POST" csv)) t o -> collect pushed t = [csv].
Proof.
  intros Hne Hr. cbn [handler] in Hr. unfold handleReload in Hr.
  change (eqb_str "POST" "POST") with true in Hr. cbn [negb] in Hr.
  rewrite (proj2 (eqb_str_false _ _) Hne) in Hr. by run_inv.
Qed.

(** The pods that a reload is for. *)
Definition running_pod (pod : Pod) : Prop := pod_Phase pod = "Running" /\ pod_IP pod <> "".
#[export] Instance running_pod_dec pod : Decision (running_pod pod).
Proof. unfold running_pod. apply _. Defined.

Lemma posts_each csv pods t o :
  runs (for_each pods (fun pod =>
    if negb (eqb_str (pod_Phase pod) "Running") || eqb_str (pod_IP pod) "" then ret tt
    else call (GoHTTPPost (reload_url (pod_IP pod) csv)))) t o ->
  o = Val tt /\ collect posted t = (fun pod => reload_url (pod_IP pod) csv) <$> filter running_pod pods.
Proof.
  revert t. induction pods as [| pod pods IH]; intros t Hr; cbn [for_each] in Hr; [by run_inv |].
  destruct (decide (running_pod pod)) as [Hp | Hp].
  - rewrite filter_cons_True by done. destruct Hp as [Hp Hip].
    rewrite Hp, (proj2 (eqb_str_false _ _) Hip) in Hr.
    change (negb (eqb_str "Running" "Running") || false) with false in Hr. cbv iota in Hr. run_step. subst.
    destruct (IH _ Hr) as [-> E]. split; [done |]. simpl. by rewrite E.
  - rewrite filter_cons_False by done. apply IH.
    assert (negb (eqb_str (pod_Phase pod) "Running") || eqb_str (pod_IP pod) "" = true) as Hb.
    { destruct (eqb_str (pod_Phase pod) "Running") eqn:E1; [| done].
      destruct (eqb_str (pod_IP pod) "") eqn:E2; [done |]. exfalso. apply Hp.
      split; [by apply eqb_str_true | by apply eqb_str_false]. }
    rewrite Hb in Hr. exact Hr.
Qed.

(** A post of [csv] to [url] reaches the tunnel server at [ip] and gives it [ips]. *)
Definition delivers (csv : string) (ips : list string) (ip url : string) : Prop :=
  exists u rq, Parse url = Ok u /\ url_Host u = ip +:+ ":8081" /\
    route "POST" (req_URL (received u)) = Some rq /\
    (forall t o, runs (handler rq) t o -> collect pushed t = [csv]) /\
    forall now s, targets (push_targets csv now s) = ips.

Lemma reload_url_delivers targetIPs ip :
  targetIPs <> [] -> Forall plain_target targetIPs -> dns_name ip ->
  let csv := Join (sort_Strings targetIPs) "," in
  delivers csv (sort_Strings targetIPs) ip (reload_url ip csv).
Proof.
  intros Hne Hl Hip csv.
  destruct (reload_url_plain ip csv Hip) as (Hpl & Htext & Hq).
  assert (sort_Strings targetIPs <> []) as Hs.
  { intros E. pose proof (sort_Strings_perm targetIPs) as Hp. rewrite E in Hp. by apply Permutation_nil_l in Hp. }
  assert (Forall plain_target (sort_Strings targetIPs)) as Hsl by (by rewrite sort_Strings_perm).
  assert (csv <> "") as Hcsv.
  { intros E. pose proof (parse_targets_Join _ Hs Hsl) as Hj. fold csv in Hj. rewrite E in Hj.
    symmetry in Hj. by vm_compute in Hj. }
  eexists _, (Reload "POST" csv). split; [rewrite Htext; by apply Parse_plain |]. split; [done |].
  split; [| split].
  - unfold route. cbn [received req_URL plain_url url_Path url_RawQuery].
    change (eqb_str "/reload" "/ws") with false. change (eqb_str "/reload" "/reload") with true. cbn iota.
    unfold Query. cbn [url_RawQuery]. by rewrite Hq.
  - intros t' o' Ht. by eapply reload_pushes.
  - intros now s. by apply parse_targets_Join.
Qed.

End tunnel.
