(* ===== verification/Manager.v ===== *)
(** * Manager: [main] of [cmd/main.go] and the [SetupWithManager] methods

    The operator's own command line, the options of its servers and manager, what
    each controller is wired to, and the order in which [main] sets them up.  The
    flags that [zap] and controller-runtime add to the command line are
    parameters. *)

From S2P Require Import Prelude Effects GoText ApiTypes World Cli.

Open Scope Z_scope.

(** ** Options *)

(** The part of [tls.Config] that is configured, and a function that configures. *)
Record tls_config := mkTLS { NextProtos : list string }.
Abbreviation tls_opt := (tls_config -> tls_config).

Definition disableHTTP2 (c : tls_config) : tls_config := mkTLS ["http/1.1"].

(** What a server does with its options: in order, on its configuration. *)
Definition configure (opts : list tls_opt) (c : tls_config) : tls_config :=
  foldl (fun c f => f c) c opts.

Record WebhookOptions := mkWebhookOptions {
  wo_TLSOpts : list tls_opt;
  wo_CertDir : string;
  wo_CertName : string;
  wo_KeyName : string;
}.
(** [mo_Filter]: the filter that authenticates and authorises requests is set. *)
Record MetricsOptions := mkMetricsOptions {
  mo_BindAddress : string;
  mo_SecureServing : bool;
  mo_TLSOpts : list tls_opt;
  mo_Filter : bool;
  mo_CertDir : string;
  mo_CertName : string;
  mo_KeyName : string;
}.
Record ManagerOptions := mkManagerOptions {
  mgr_Metrics : MetricsOptions;
  mgr_WebhookServer : nat;
  mgr_HealthProbeBindAddress : string;
  mgr_LeaderElection : bool;
  mgr_LeaderElectionID : string;
}.

(** ** Wiring *)

(** What a controller reconciles, what it owns, what else it watches, and its
    name if it is given one. *)
Record Wiring := mkWiring {
  w_For : kind;
  w_Owns : list kind;
  w_Watches : list kind;
  w_Named : option string;
}.

Definition DockerHostReconciler : Wiring := mkWiring KDockerHost [] [] (Some "dockerhost"%stdpp).
Definition DockerContainerReconciler : Wiring :=
  mkWiring KDockerContainer [] [] (Some "dockercontainer"%stdpp).
Definition DockerServiceReconciler : Wiring := mkWiring KDockerService [] [KDockerContainer] None.
Definition DockerJobReconciler : Wiring := mkWiring KDockerJob [] [] (Some "dockerjob"%stdpp).
Definition DockerDeploymentReconciler : Wiring :=
  mkWiring KDockerDeployment [KDockerContainer] [] (Some "dockerdeployment"%stdpp).

(** ** Calls *)

Inductive setup_event : Set -> Type :=
| NewWebhookServer (o : WebhookOptions) : setup_event nat
| GetConfig : setup_event (result unit)
| NewManager (o : ManagerOptions) : setup_event (result nat)
| Complete (mgr : nat) (w : Wiring) : setup_event (result unit)
| AddHealthzCheck (mgr : nat) (name : string) : setup_event (result unit)
| AddReadyzCheck (mgr : nat) (name : string) : setup_event (result unit)
| StartManager (mgr : nat) : setup_event (result unit).
#[export] Instance setup_signature : Signature setup_event := fun R e r => True.

(** [SetupWithManager] of the controller wired so: the builder's [Complete]. *)
Definition SetupWithManager (w : Wiring) (mgr : nat) : M setup_event unit := try_call (Complete mgr w).

(** ** The command line *)

(** The flags [main] defines, and what they hold at first. *)
Definition operator_kinds : gmap string flag_kind :=
  list_to_map [("metrics-bind-address", StringFlag); ("health-probe-bind-address", StringFlag);
    ("leader-elect", BoolFlag); ("metrics-secure", BoolFlag);
    ("webhook-cert-path", StringFlag); ("webhook-cert-name", StringFlag);
    ("webhook-cert-key", StringFlag); ("metrics-cert-path", StringFlag);
    ("metrics-cert-name", StringFlag); ("metrics-cert-key", StringFlag);
    ("enable-http2", BoolFlag)]%stdpp.
Definition operator_flags : gmap string string :=
  list_to_map [("metrics-bind-address", "0"); ("health-probe-bind-address", ":8081");
    ("leader-elect", "false"); ("metrics-secure", "true");
    ("webhook-cert-path", ""); ("webhook-cert-name", "tls.crt");
    ("webhook-cert-key", "tls.key"); ("metrics-cert-path", "");
    ("metrics-cert-name", "tls.crt"); ("metrics-cert-key", "tls.key");
    ("enable-http2", "false")]%stdpp.

Definition flag_bool (values : gmap string string) (name : string) : bool :=
  eqb_str (flag_value values name) "true".

Definition tls_options (values : gmap string string) : list tls_opt :=
  if negb (flag_bool values "enable-http2") then [disableHTTP2] else [].

Definition webhook_options (values : gmap string string) : WebhookOptions :=
  let tlsOpts := tls_options values in
  if eqb_str (flag_value values "webhook-cert-path") "" then mkWebhookOptions tlsOpts "" "" ""
  else mkWebhookOptions tlsOpts (flag_value values "webhook-cert-path")
         (flag_value values "webhook-cert-name") (flag_value values "webhook-cert-key").

Definition metrics_options (values : gmap string string) : MetricsOptions :=
  let secureMetrics := flag_bool values "metrics-secure" in
  let given := negb (eqb_str (flag_value values "metrics-cert-path") "") in
  mkMetricsOptions (flag_value values "metrics-bind-address") secureMetrics (tls_options values)
    secureMetrics
    (if given then flag_value values "metrics-cert-path" else "")
    (if given then flag_value values "metrics-cert-name" else "")
    (if given then flag_value values "metrics-cert-key" else "").

Definition manager_options (values : gmap string string) (webhookServer : nat) : ManagerOptions :=
  mkManagerOptions (metrics_options values) webhookServer
    (flag_value values "health-probe-bind-address") (flag_bool values "leader-elect")
    "e78bafdb.kdop.io.vn".

(** ** [main]

    [os.Exit(1)] after an error ends the program: here it fails with the error
    logged. *)

(** The operator once its flags are parsed. *)
Definition run_operator (values : gmap string string) : M setup_event unit :=
  let! webhookServer := call (NewWebhookServer (webhook_options values)) in
  try_call GetConfig ;;
  let! mgr := try_call (NewManager (manager_options values webhookServer)) in
  SetupWithManager DockerHostReconciler mgr ;;
  SetupWithManager DockerContainerReconciler mgr ;;
  SetupWithManager DockerServiceReconciler mgr ;;
  SetupWithManager DockerJobReconciler mgr ;;
  SetupWithManager DockerDeploymentReconciler mgr ;;
  try_call (AddHealthzCheck mgr "healthz") ;;
  try_call (AddReadyzCheck mgr "readyz") ;;
  try_call (StartManager mgr).

(** The exit code of a program that ended so. *)
Definition exit_code {A} (o : outcome A) : Z :=
  match o with Val _ => 0 | Fail _ => 1 | Panic => 2 end.

(** What the process becomes. *)
Inductive process :=
| TunnelProcess (a : action)
| OperatorProcess (values : gmap string string)
| Exits (code : Z).

Section main.
(** The flags other packages define on the same command line. *)
Context (lib_kinds : gmap string flag_kind) (lib_flags : gmap string string).

(** [args] is [os.Args]. *)
Definition main (args : list string) : process :=
  match args with
  | _ :: cmd :: rest =>
      if eqb_str cmd "tunnel" then TunnelProcess (runTunnelCLI rest)
      else
        match parse_flags (operator_kinds ∪ lib_kinds) (operator_flags ∪ lib_flags) (cmd :: rest) with
        | Exited code => Exits code
        | Parsed values _ => OperatorProcess values
        end
  | _ => OperatorProcess (operator_flags ∪ lib_flags)
  end.
End main.

(** ** Views *)

Definition started (o : obs setup_event) : option nat :=
  match o with Obs (StartManager mgr) _ => Some mgr | _ => None end.
(** A registration that succeeded. *)
Definition registered (o : obs setup_event) : option (nat * Wiring) :=
  match o with
  | Obs e r =>
      match e in setup_event R return R -> option (nat * Wiring) with
      | Complete mgr w => fun r => match r with Ok _ => Some (mgr, w) | Err _ => None end
      | _ => fun _ => None
      end r
  end.
Definition checks (o : obs setup_event) : option string :=
  match o with
  | Obs e r =>
      match e in setup_event R return R -> option string with
      | AddHealthzCheck _ name => fun r => match r with Ok _ => Some name | Err _ => None end
      | AddReadyzCheck _ name => fun r => match r with Ok _ => Some name | Err _ => None end
      | _ => fun _ => None
      end r
  end.
(** A call that was answered with an error. *)
Definition failed (o : obs setup_event) : option error :=
  match o with
  | Obs e r =>
      match e in setup_event R return R -> option error with
      | NewWebhookServer _ => fun _ => None
      | NewManager _ => fun r => match r with Ok _ => None | Err e => Some e end
      | GetConfig => fun r => match r with Ok _ => None | Err e => Some e end
      | Complete _ _ => fun r => match r with Ok _ => None | Err e => Some e end
      | AddHealthzCheck _ _ => fun r => match r with Ok _ => None | Err e => Some e end
      | AddReadyzCheck _ _ => fun r => match r with Ok _ => None | Err e => Some e end
      | StartManager _ => fun r => match r with Ok _ => None | Err e => Some e end
      end r
  end.
Definition controllers : list Wiring :=
  [DockerHostReconciler; DockerContainerReconciler; DockerServiceReconciler; DockerJobReconciler;
   DockerDeploymentReconciler].

(** ** The set-up is complete before the manager starts *)

(** C34: the manager is started last and complete: in every run of the operator, a
    manager that is started has all five controllers registered, each once, and
    both health checks; the run stops at the first call that fails, with its error
    and exit code 1, and otherwise returns when the manager does. *)
Theorem manager_starts_complete values t o :
  runs (run_operator values) t o ->
  (forall mgr, mgr ∈ collect started t ->
     collect registered t = (fun w => (mgr, w)) <$> controllers /\
     collect checks t = ["healthz"; "readyz"]%stdpp) /\
  ((collect failed t = [] /\ o = Val tt /\ exists mgr, collect started t = [mgr]) \/
   exists e, collect failed t = [e] /\ o = Fail e /\ exit_code o = 1).
Proof.
  unfold run_operator, SetupWithManager. intros Hr.
  repeat first
    [ run_step; subst; [| solve [split; [intros mgr Hm; by apply not_elem_of_nil in Hm | right; by eexists]]]
    | run_step; subst ].
  match goal with |- context [Obs (StartManager _) ?r] => destruct r as [[] | e] end;
    (split; [by intros mgr' ->%list_elem_of_singleton |]).
  - left. split_and!; [done | done | by eexists].
  - right. by eexists.
Qed.

(** ** Secure unless told otherwise *)

(** The argument is the flag of that name, with or without a value. *)
Definition is_flag (name arg : string) : bool :=
  match flag_name arg with
  | Some text => eqb_str (flag_parts text).1 name
  | None => false
  end.

(** A flag that no argument names keeps its value. *)
Lemma parse_flags_keep kinds name args : forall values values' rest,
  Forall (fun arg => is_flag name arg = false) args ->
  parse_flags kinds values args = Parsed values' rest -> values' !! name = values !! name.
Proof.
  induction args as [args IH] using (induction_ltof1 _ length). unfold ltof in IH.
  intros values values' rest Hall E. destruct args as [| s args]; cbn [parse_flags] in E; [by injection E as <- _ |].
  apply Forall_cons in Hall as [Hs Hall]. unfold is_flag in Hs.
  destruct (flag_name s) as [text |]; [| by injection E as <- _].
  destruct (eqb_str s "--"); [by injection E as <- _ |]. destruct (bad_name text); [done |].
  destruct (flag_parts text) as [n v]. cbn [fst] in Hs. apply eqb_str_false in Hs.
  destruct (kinds !! n) as [k |]; [| unfold undefined_flag in E; by case_match].
  assert (forall v args', Forall (fun arg => is_flag name arg = false) args' -> (length args' < S (length args))%nat ->
            match flag_Set k v with
            | Some v => parse_flags kinds (<[ n := v ]> values) args'
            | None => Exited 2
            end = Parsed values' rest -> values' !! name = values !! name) as Hnext.
  { intros w args' Hargs Hlen Ew. destruct (flag_Set k w) as [w' |]; [| done].
    rewrite (IH args' Hlen _ _ _ Hargs Ew). by apply lookup_insert_ne. }
  destruct v as [v |]; [apply (Hnext _ _ Hall) in E; [done | lia] |].
  destruct (isBoolFlag k); [apply (Hnext _ _ Hall) in E; [done | lia] |].
  destruct args as [| v args]; [done |]. apply Forall_cons in Hall as [_ Hall].
  apply (Hnext _ _ Hall) in E; [done | simpl; lia].
Qed.

Section main_properties.
Context (lib_kinds : gmap string flag_kind) (lib_flags : gmap string string).

Lemma operator_keeps name args values :
  main lib_kinds lib_flags args = OperatorProcess values ->
  Forall (fun arg => is_flag name arg = false) args ->
  values !! name = (operator_flags ∪ lib_flags) !! name.
Proof.
  intros E Hall. unfold main in E. destruct args as [| p [| cmd rest]]; [by injection E as <- .. |].
  destruct (eqb_str cmd "tunnel"); [done |].
  destruct (parse_flags _ _ _) as [values' rest' | code] eqn:Ep; [| done]. injection E as ->.
  apply Forall_cons in Hall as [_ Hall]. by eapply parse_flags_keep.
Qed.

(** The operator's servers are secure unless the command line says otherwise:
    however it is started, if no argument is the flag [enable-http2] neither the
    webhook nor the metrics server speaks HTTP/2, whatever their configuration was
    before, and if none is [metrics-secure] the metrics are served over HTTPS
    behind authentication and authorisation; the flags of other packages change
    none of this. *)
Theorem secure_by_default args values :
  main lib_kinds lib_flags args = OperatorProcess values ->
  (Forall (fun arg => is_flag "enable-http2" arg = false) args -> forall c,
     NextProtos (configure (wo_TLSOpts (webhook_options values)) c) = ["http/1.1"]%stdpp /\
     NextProtos (configure (mo_TLSOpts (metrics_options values)) c) = ["http/1.1"]%stdpp) /\
  (Forall (fun arg => is_flag "metrics-secure" arg = false) args ->
     mo_SecureServing (metrics_options values) = true /\ mo_Filter (metrics_options values) = true).
Proof.
  intros E. split; intros Hall; apply (operator_keeps _ _ _ E) in Hall.
  - rewrite (lookup_union_Some_l operator_flags lib_flags _ "false") in Hall by (vm_compute; reflexivity).
    intros c. unfold webhook_options, metrics_options, tls_options, flag_bool, flag_value. rewrite Hall.
    cbn [default from_option id]. change (eqb_str "false" "true") with false. cbn [negb mo_TLSOpts].
    split; [by case_match | done].
  - rewrite (lookup_union_Some_l operator_flags lib_flags _ "true") in Hall by (vm_compute; reflexivity).
    unfold metrics_options, flag_bool, flag_value. cbn [mo_SecureServing mo_Filter]. by rewrite Hall.
Qed.
End main_properties.
