(* ===== verification/Samples.v ===== *)
(** * Samples: concrete libraries, objects and environments

    Implementations of the library interfaces and small environments, against
    which the model is evaluated to show that the hypotheses of the theorems can
    hold together. *)

From Stdlib Require Import Ascii.
From S2P Require Import Prelude Effects GoText Strconv ApiTypes World KubeLib Adopt DockerHostClient ContainerController.

Open Scope Z_scope.

(** ** Libraries *)

(** Unicode data that knows ASCII only. *)
Definition ascii_unicode : UnicodeData := {|
  u_ToLower := fun r => r;
  u_FoldEq := fun _ _ => false;
  u_IsPrint := fun r => 32 <=? r;
|}.

(** Ports are decimal numbers; the protocol follows a slash. *)
Definition simple_nat : NatLib := {|
  nat_NewPort := fun proto port =>
    match ParseInt port with
    | Some _ => Ok (port +:+ "/" +:+ proto)
    | None => Err (new_error ("invalid port: " +:+ port))
    end;
  nat_Port := fun p => match Cut_byte p "/"%char with Some (port, _) => port | None => p end;
|}.
Definition plain_sha : Sha256 := {| sha256_Sum256 := fun s => s |}.
Definition trusting_x509 : X509 := {|
  x509_AppendCertsFromPEM := fun ca => negb (eqb_str ca "");
  tls_X509KeyPair := fun c k => Ok (c, k);
|}.
Definition plain_tar : TarLib := {| tar_WriteHeader := fun _ => None |}.

#[export] Existing Instances ascii_unicode simple_nat plain_sha trusting_x509 plain_tar
  std_controller_util.

(** ** Environments *)

(** An environment without state: the answers [f] gives, completed by
    [default_answer]. *)
Definition serve (f : forall R : Set, event R -> option R) (R : Set) (e : event R) (s : unit)
    : R * unit :=
  (match f R e with Some r => r | None => default_answer e end, s).

Definition answers_ok (t : list (obs event)) : Prop :=
  Forall (fun o => match o with Obs e r => answer_ok e r end) t.

Lemma exec_runs_ok {S A} (h : forall R : Set, event R -> S -> R * S) (p : prog event A) s :
  answers_ok (exec h p s).2 -> runs p (exec h p s).2 (exec h p s).1.1.
Proof.
  revert s. induction p as [x | R e k IH]; intros s; simpl; [done |].
  destruct (h R e s) as [r s1]; simpl in *. specialize (IH r s1).
  destruct (exec h (k r) s1) as [[a s2] t]; simpl in *.
  intros Ht. inversion Ht; subst. exists r, t. auto.
Qed.

(** The trace and the outcome of [p] in the environment [f]. *)
Definition trace_in (f : forall R : Set, event R -> option R) {A} (p : prog event A) :=
  (exec (serve f) p tt).2.
Definition outcome_in (f : forall R : Set, event R -> option R) {A} (p : prog event A) :=
  (exec (serve f) p tt).1.1.

Lemma runs_in f {A} (p : prog event A) :
  answers_ok (trace_in f p) -> runs p (trace_in f p) (outcome_in f p).
Proof. apply exec_runs_ok. Qed.

Lemma runs_val f {A} (p : M event A) a :
  answers_ok (trace_in f p) -> outcome_in f p = Val a -> runs p (trace_in f p) (Val a).
Proof. intros Hok <-. by apply runs_in. Qed.

(** [answers_ok] of an evaluated trace. *)
Ltac answers_tac :=
  vm_compute; repeat constructor; try reflexivity; try discriminate.

(** ** Objects *)

Definition sample_req : NamespacedName := mkNN "default" "web".

Definition sample_meta (finalizers : list string) (deleted : option Z) : ObjectMeta :=
  mkObjectMeta "web" "default" "uid-1" ∅ ∅ finalizers [] 0 deleted.

Definition sample_spec (mode : string) : DockerContainerSpec :=
  mkDockerContainerSpec "nginx:1" "" "" "" "Always" ["8080:80"; "8443:443"; "9090:80"]
    ["A=1"] [mkEnvVar "B" "2" None;
             mkEnvVar "C" "" (Some (mkEnvVarSource (Some (mkSecretKeySelector "s" "k"))))]
    [mkVolumeMount "/data" "/var/data" true] [] None
    (Some (mkResourceRequirements "0.5" "64m")) [] "" mode.

Definition sample_container (mode : string) (finalizers : list string) (deleted : option Z)
    (adopted : bool) : DockerContainer :=
  mkDockerContainer (sample_meta finalizers deleted) (sample_spec mode)
    (mkDockerContainerStatus "" "" "" "" adopted "").

Definition sample_client : DockerClient := mkDockerClient [WithHost default_hostURL] 0.
Definition sample_summary (state : string) : Container :=
  mkContainer "c1" ["/web"] state ∅ 0 0.

Definition sample_base : ContainerJSONBase :=
  mkContainerJSONBase "c1" "/web" (Some (mkContainerState "running" true 0 (Some "healthy")))
    (Some (mkHostConfigInfo "always" 500000000 67108864)).
Definition sample_config : ConfigInfo :=
  mkConfigInfo "nginx:1" ["nginx"] ["B=2"; "A=1"; "C=x"; "PATH=/bin"].
Definition sample_network : NetworkSettings :=
  mkNetworkSettings {[ "80/tcp" := [mkPortBinding "0.0.0.0" "8080"] ]}
    {[ "bridge" := Some (mkEndpointSettings "172.17.0.2" "n1") ]}.
Definition sample_inspect (image : string) : ContainerJSON :=
  mkContainerJSON (Some sample_base)
    (Some (mkConfigInfo image (ci_Cmd sample_config) (ci_Env sample_config)))
    (Some sample_network).
Definition sample_secret : Secret := mkSecret (new_meta "default" "s") {[ "k" := "x" ]}.

Definition sample_job_spec (limit : Z) : DockerJobSpec :=
  mkDockerJobSpec "busybox" "" ["sh"] ["-c"; "true"] [] [] [] [] "" "" "" limit (Some 60) (Some 30)
    None.
Definition sample_job_status (phase : string) (attempts : Z) : DockerJobStatus :=
  mkDockerJobStatus phase "c1" (Some 0) (Some (990 * Second)) None attempts "".
Definition sample_job (finalizers : list string) (deleted : option Z) (limit : Z) (phase : string)
    (attempts : Z) : DockerJob :=
  mkDockerJob (sample_meta finalizers deleted) (sample_job_spec limit)
    (sample_job_status phase attempts).

Definition sample_deployment (replicas : option Z) : DockerDeployment :=
  mkDockerDeployment (sample_meta [] None)
    (mkDockerDeploymentSpec replicas None
       (mkDockerContainerTemplate (mkTemplateMeta {[ "app" := "web" ]} {[ "note" := "x" ]})
          (sample_spec "")))
    (mkDockerDeploymentStatus 0 []).

(** A child of the deployment, created at [at_]. *)
Definition sample_child (name : string) (at_ : Z) : DockerContainer :=
  mkDockerContainer
    (mkObjectMeta name "default" name ∅ ∅ []
       [mkOwnerReference "DockerDeployment" "web" "uid-1" (Some true)] at_ None)
    (sample_spec "Enforce") (mkDockerContainerStatus "" "running" "10.0.0.1" "" false "").

Definition sample_host : DockerHost :=
  mkDockerHost (new_meta "default" "h1") (mkDockerHostSpec "tcp://h1:2376" "")
    (mkDockerHostStatus "" "").

Definition sample_service (finalizers : list string) (deleted : option Z) (ref : string)
    : DockerService :=
  mkDockerService (sample_meta finalizers deleted)
    (mkDockerServiceSpec ref None [mkServicePort 80 8080 "http"; mkServicePort 443 8443 "https"] "kind")
    (mkDockerServiceStatus "" 0 "" "").

(** ** A world in which every call succeeds *)

Record scene := mkScene {
  sc_container : DockerContainer;
  sc_job : DockerJob;
  sc_secret : result Secret;
  sc_objects : list DockerContainer;
  sc_listing : list Container;
  sc_inspect : result ContainerJSON;
}.

Definition sample_sixteen : string := "0123456789abcdef".

Definition sample_world (s : scene) (R : Set) (e : event R) : option R :=
  match e in event R return option R with
  | KGet k _ =>
      match k return option (result (object k)) with
      | KDockerContainer => Some (Ok (sc_container s))
      | KDockerJob => Some (Ok (sc_job s))
      | KDockerHost => Some (Ok sample_host)
      | KSecret => Some (sc_secret s)
      | _ => None
      end
  | KUpdate _ o => Some (Ok o)
  | KStatusUpdate _ o => Some (Ok o)
  | KStatusPatch o _ => Some (Ok o)
  | KCreate _ o => Some (Ok o)
  | KDelete _ _ => Some (Ok tt)
  | KCreateOrUpdate _ _ _ => Some (Ok OperationResultUpdated)
  | KListContainers _ _ => Some (Ok (sc_objects s))
  | KListPods _ _ => Some (Ok [mkPod "p" "Running" "10.0.0.9"])
  | KListNodes _ => Some (Ok ["node-1"%stdpp])
  | DNewClient opts => Some (Ok (mkDockerClient opts 0))
  | DPing _ => Some (Ok tt)
  | DContainerList _ => Some (Ok (sc_listing s))
  | DContainerInspect _ _ => Some (sc_inspect s)
  | DContainerCreate _ _ _ _ => Some (Ok "c2"%stdpp)
  | DContainerStart _ _ => Some (Ok tt)
  | DContainerStop _ _ _ => Some (Ok tt)
  | DContainerRemove _ _ _ => Some (Ok tt)
  | DImagePull _ _ _ => Some (Ok tt)
  | DCopyToContainer _ _ _ _ => Some (Ok tt)
  | DNetworkConnect _ _ _ => Some (Ok tt)
  | TNow => Some (1000 * Second)
  | RRead n => Some (Ok sample_sixteen)
  | _ => None
  end.

(** Scenes: [cr] alone; the daemon's listing and inspection answer. *)
Definition scene_of (cr : DockerContainer) (l : list Container) (j : result ContainerJSON) : scene :=
  mkScene cr (sample_job [] None 0 "" 0) (Ok sample_secret) [cr] l j.
Definition job_scene (job : DockerJob) (j : result ContainerJSON) : scene :=
  mkScene (sample_container "" [] None false) job (Ok sample_secret) [] [] j.
Definition objects_scene (objects : list DockerContainer) : scene :=
  mkScene (sample_container "" [] None false) (sample_job [] None 0 "" 0) (Ok sample_secret)
    objects [] (Err unavailable).

Definition docker_gone : error := mkError "no such container" false true.
