(* ===== verification/HostSimulation.v ===== *)
(** * HostSimulation: a Docker host that can be run

    An executable daemon whose every answer and effect is one that [DockerStore]
    allows, in an environment that answers the other calls: the theorems about the
    store are applied to its runs. *)

From Stdlib Require Import Ascii.
From S2P Require Import Prelude Effects Stores GoText Strconv World DockerStore Adopt Samples.

Open Scope Z_scope.

(** ** Finding a container *)

Definition pick (P : string * machine -> bool) (d : daemon) : option (string * machine) :=
  List.find P (map_to_list d).

Lemma pick_some P d id m : pick P d = Some (id, m) -> d !! id = Some m /\ P (id, m) = true.
Proof.
  intros [Hin HP]%List.find_some. split; [| done].
  by apply elem_of_map_to_list, list_elem_of_In.
Qed.
Lemma pick_none P d id m : pick P d = None -> d !! id = Some m -> P (id, m) = false.
Proof.
  intros Hn Hm. eapply List.find_none; [exact Hn |].
  by apply list_elem_of_In, elem_of_map_to_list.
Qed.

Definition has_name (name : string) (c : string * machine) : bool := bool_decide (m_Name c.2 = name).
Definition id_starts (key : string) (c : string * machine) : bool := String.prefix key c.1.

(** The container that a key means. *)
Definition locate (d : daemon) (key : string) : option (string * machine) :=
  if bool_decide (key = "") then None
  else match d !! key with
  | Some m => Some (key, m)
  | None =>
      match pick (has_name key) d with
      | Some c => Some c
      | None => pick (id_starts key) d
      end
  end.

Lemma prefix_spec key s : String.prefix key s = true <-> exists rest, s = key +:+ rest.
Proof.
  revert s. induction key as [| c key IH]; intros [| c' s]; simpl.
  - split; [by exists "" | done].
  - split; [by eexists | done].
  - by split; [| intros (rest & [=])].
  - destruct (ascii_dec c c') as [-> | Hne].
    + rewrite IH. split; [intros (rest & ->); by exists rest | intros (rest & [= ->]); by exists rest].
    + split; [done |]. by intros (rest & [= E _]).
Qed.

Lemma locate_spec d key :
  match locate d key with
  | Some (id, m) => designates d key id m
  | None => forall id m, ~ designates d key id m
  end.
Proof.
  unfold locate. case_bool_decide as Hk.
  { by intros id m [? _]. }
  destruct (d !! key) as [m |] eqn:Ek; [by repeat split; [| | left] |].
  destruct (pick (has_name key) d) as [[id m] |] eqn:En.
  { apply pick_some in En as [Hm Hn]. apply bool_decide_eq_true in Hn.
    split_and!; [done | done |]. auto. }
  assert (name_free key d) as Hf.
  { intros id m Hm E. pose proof (pick_none _ _ _ _ En Hm) as Hn. by apply bool_decide_eq_false in Hn. }
  destruct (pick (id_starts key) d) as [[id m] |] eqn:Ep.
  - apply pick_some in Ep as [Hm Hp]. apply prefix_spec in Hp.
    split_and!; [done | done |]. auto.
  - intros id m (_ & Hm & [-> | (_ & [Hn | (_ & Hrest)])]); [congruence | by destruct (Hf _ _ Hm) |].
    pose proof (pick_none _ _ _ _ Ep Hm) as Hp. apply prefix_spec in Hrest. by unfold id_starts in Hp; simpl in Hp; rewrite Hrest in Hp.
Qed.

(** ** The calls *)

Definition gone : error := mkError "No such container" false true.
Definition conflict : error := new_error "Conflict".

(** Every container is labelled for adoption. *)
Definition row (c : string * machine) : Container :=
  mkContainer c.1 ["/" +:+ m_Name c.2] (m_State c.2) {[ adoptLabelKey := adoptLabelValue ]} 0 0.
Definition inspection (id : string) (m : machine) : ContainerJSON :=
  mkContainerJSON
    (Some (mkContainerJSONBase id ("/" +:+ m_Name m)
      (Some (mkContainerState (m_State m) (bool_decide (m_State m ∈ alive_states)) 0 None)) (m_HostConfig m)))
    (Some (m_Config m)) (Some (mkNetworkSettings ∅ ∅)).

(** The container made for a request, which keeps all that is asked. *)
Definition made (cfg : Config) (hc : HostConfig) (name : string) : machine :=
  mkMachine name "created" (mkConfigInfo (cfg_Image cfg) (cfg_Cmd cfg) (cfg_Env cfg))
    (Some (mkHostConfigInfo (hcfg_RestartPolicy hc) (r_NanoCPUs (hcfg_Resources hc))
      (r_Memory (hcfg_Resources hc)))).
(** Its identifier: the number of containers. *)
Definition next_id (d : daemon) : string :=
  let n := FormatInt (Z.of_nat (size d)) in
  String.string_of_list_ascii (replicate (64 - String.length n) "0"%char) +:+ n.
Definition can_make (d : daemon) (name : string) : bool :=
  bool_decide (d !! next_id d = None) && bool_decide (String.length (next_id d) = 64%nat) &&
  all_bytes id_byte (next_id d) && bool_decide (pick (has_name name) d = None).

Definition on_container {A} (d : daemon) (key : string) (k : string -> machine -> result A * daemon)
    : result A * daemon :=
  match locate d key with
  | Some (id, m) => k id m
  | None => (Err gone, d)
  end.

(** The daemon, in an environment [f] for the rest of the calls. *)
Definition simulate (f : forall R : Set, event R -> option R) (R : Set) (e : event R) (d : daemon)
    : R * daemon :=
  match e in event R return R * daemon with
  | DContainerList _ => (Ok (row <$> map_to_list d), d)
  | DContainerInspect _ key => on_container d key (fun id m => (Ok (inspection id m), d))
  | DContainerCreate _ cfg hc name =>
      if can_make d name then (Ok (next_id d), <[ next_id d := made cfg hc name ]> d) else (Err conflict, d)
  | DContainerStart _ key =>
      on_container d key (fun id m => (Ok tt, <[ id := started m ]> d))
  | DContainerStop _ key _ =>
      on_container d key (fun id m => (Ok tt, <[ id := stopped m ]> d))
  | DContainerRemove _ key _ => on_container d key (fun id _ => (Ok tt, delete id d))
  | e => (match f _ e with Some r => r | None => default_answer e end, d)
  end.

Lemma lists_rows d : lists d (row <$> map_to_list d).
Proof.
  split.
  - apply Forall_fmap, Forall_forall. intros [id m] Hin. exists m. simpl. split_and!; [| done | |].
    + by apply elem_of_map_to_list.
    + by left.
    + intros n Hn. apply list_elem_of_singleton in Hn. auto.
  - intros id m Hm. exists (row (id, m)). split; [| done].
    by apply list_elem_of_fmap_2, elem_of_map_to_list.
Qed.

Lemma on_container_acts d key f :
  acts d key f (on_container d key (fun id m => (Ok tt, f id m))).1
    (on_container d key (fun id m => (Ok tt, f id m))).2.
Proof.
  unfold on_container. pose proof (locate_spec d key) as Hl.
  destruct (locate d key) as [[id m] |]; simpl; [left; eauto | right; split; [done |]].
  intros _. exact Hl.
Qed.

Lemma made_reports cfg hc name : made_for cfg hc name (made cfg hc name).
Proof.
  split; [done |]. split; [done |]. split; try done.
  intros h [= <-]. split; [done |]. by destruct hc as [? ? ? ? []].
Qed.

(** Every call does what the documented daemon may do. *)
Lemma simulate_step f R (e : event R) d :
  store_step d (Obs e (simulate f R e d).1) (simulate f R e d).2.
Proof.
  destruct e; try done.
  - split; [done |]. apply lists_rows.
  - simpl. unfold on_container. pose proof (locate_spec d id) as Hl.
    destruct (locate d id) as [[id' m] |]; simpl; (split; [done |]).
    + exists id', m. split; [done |]. unfold describes. simpl. eexists _, _. by split_and!.
    + intros _. exact Hl.
  - simpl. unfold can_make. destruct (_ && _ && _ && _) eqn:E; [| by right].
    apply andb_true_iff in E as [[[Hid Hlen]%andb_true_iff Hb]%andb_true_iff Hn].
    apply bool_decide_eq_true in Hid, Hlen, Hn.
    left. exists (next_id d), (made cfg hc name). split_and!; try done; [| apply made_reports].
    intros i m Hm E. pose proof (pick_none _ _ _ _ Hn Hm) as Hf. by apply bool_decide_eq_false in Hf.
  - apply on_container_acts.
  - apply on_container_acts.
  - apply on_container_acts.
Qed.

Lemma simulate_served f {A} (p : prog event A) d :
  served d (exec (simulate f) p d).2 (exec (simulate f) p d).1.2.
Proof.
  revert d. induction p as [x | R e k IH]; intros d; simpl; [constructor |].
  pose proof (simulate_step f R e d) as Hs. destruct (simulate f R e d) as [r d1]. simpl in Hs.
  specialize (IH r d1). destruct (exec (simulate f) (k r) d1) as [[a d2] t]. by econstructor.
Qed.

(** ** Runs *)

(** What a run on the host [d] does, gives, and leaves. *)
Definition trace_on (f : forall R : Set, event R -> option R) (d : daemon) {A} (p : prog event A) :=
  (exec (simulate f) p d).2.
Definition outcome_on (f : forall R : Set, event R -> option R) (d : daemon) {A} (p : prog event A) :=
  (exec (simulate f) p d).1.1.
Definition host_after (f : forall R : Set, event R -> option R) (d : daemon) {A} (p : prog event A) :=
  (exec (simulate f) p d).1.2.

Lemma runs_on f d {A} (p : prog event A) :
  answers_ok (trace_on f d p) -> runs p (trace_on f d p) (outcome_on f d p).
Proof. apply exec_runs_ok. Qed.
Lemma runs_on_val f d {A} (p : M event A) a :
  answers_ok (trace_on f d p) -> outcome_on f d p = Val a -> runs p (trace_on f d p) (Val a).
Proof. intros Hok <-. by apply runs_on. Qed.
Lemma served_on f d {A} (p : prog event A) : served d (trace_on f d p) (host_after f d p).
Proof. apply simulate_served. Qed.
