(* ===== verification/DeploymentTies.v ===== *)
(** * DeploymentTies: children created in the same second

    The survival of the oldest children ([DeploymentStore]) needs one child to be
    older than another.  Creation timestamps have a resolution of one second and a
    deployment creates its children in one loop, so they are usually equal: then
    two reconciliations, each right by itself, can lose every child.  The runs that
    witness the theorems about deployments are here as well. *)

From S2P Require Import Prelude Effects ApiTypes World KubeLib DeploymentController DeploymentTheorems DeploymentStore DeploymentConverges Samples.

Open Scope Z_scope.

(** ** Two reconciliations *)

Section ties.
Context `{ControllerUtil}.
Variable d : DockerDeployment.
Hypothesis Hlive : time_IsZero (om_DeletionTimestamp (dd_Meta d)) = true.
Hypothesis Hone : desired_replicas d = 1.

(** A listing of two children of one second, in this order, and its sorting, which
    may keep the order. *)
Definition list_calls (l : list DockerContainer) : list (obs event) :=
  [Obs (KListContainers (om_Namespace (dd_Meta d)) None) (Ok l);
   Obs (SortSlice DockerContainer created_before l) l].
Definition status_calls (l : list DockerContainer) : list (obs event) :=
  if dpst_AvailableReplicas (dd_Status d) =? available_count l then []
  else let d' := set_deployment_status
         (mkDockerDeploymentStatus (available_count l) (dpst_Conditions (dd_Status d))) d in
       [Obs (KStatusUpdate KDockerDeployment d') (Ok d')].

Definition tied (x y : DockerContainer) : Prop :=
  is_owned d x = true /\ is_owned d y = true /\ c_created x = c_created y.

Lemma list_tied {B} x y (f : list DockerContainer -> M event B) t o :
  tied x y -> runs (f [x; y]) t o ->
  runs (bind (listOwnedContainers d) f) (list_calls [x; y] ++ t) o.
Proof.
  intros (Hx & Hy & E) Hr. unfold listOwnedContainers.
  apply runs_assoc, runs_try_call_bind. eexists (Ok [x; y]), _. split; [reflexivity |]. split; [done |].
  cbv zeta. rewrite !filter_cons_True, filter_nil by done.
  apply runs_call_bind. exists [x; y], t. split_and!; [done | | exact Hr]. split; [done |].
  repeat constructor. unfold created_before, c_created in *. lia.
Qed.

(** One of two children of one second is too many: the last one listed goes. *)
Lemma reconcile_tied x y x' y' :
  tied x y -> tied x' y' ->
  runs (reconcile_deployment d)
    (list_calls [x; y] ++ Obs (KDelete KDockerContainer y) (Ok tt) ::
     list_calls [x'; y'] ++ status_calls [x'; y'])
    (Val (requeue_after deployRequeueInterval)).
Proof using All.
  intros Hxy Hxy'. unfold reconcile_deployment. rewrite Hlive. cbn [negb].
  apply list_tied; [done |]. unfold scale. rewrite Hone.
  change (int32 (- int32 (1 - int32 (Z.of_nat (length [x; y]))))) with 1.
  change (int32 (1 - int32 (Z.of_nat (length [x; y])))) with (-1). cbn [Z.ltb Z.compare].
  eexists _, _. split; [reflexivity |]. split; [done |].
  apply list_tied; [done |]. unfold status_calls. destruct (_ =? _); [by split |].
  eexists _, _. split; [reflexivity |]. by split.
Qed.

(** ** An API server that does what it answers *)

Lemma performs_list_calls st l t st' :
  l ≡ₚ (map_to_list st).*2 -> performs d st t st' -> performs d st (list_calls l ++ t) st'.
Proof.
  intros Hl Hp. eapply performs_cons; [by eapply performs_list |].
  eapply performs_cons; [| exact Hp]. apply performs_rest; [done |]. by left.
Qed.

Lemma performs_status_calls st l : performs d st (status_calls l) st.
Proof.
  unfold status_calls. destruct (_ =? _); [constructor |].
  eapply performs_cons; [apply performs_rest; [done | by left] | constructor].
Qed.

(** The store of two children, and its listings. *)
Definition pair (x y : DockerContainer) : store := <[ c_name x := x ]> (<[ c_name y := y ]> ∅).

Lemma pair_listing x y l : c_name x <> c_name y -> l ≡ₚ [x; y] -> l ≡ₚ (map_to_list (pair x y)).*2.
Proof.
  intros Hne ->. unfold pair. rewrite !map_to_list_insert, map_to_list_empty; [done | done |].
  by rewrite lookup_insert_ne, lookup_empty.
Qed.

Lemma pair_delete_second x y y' t st' :
  c_name x <> c_name y -> same_child d y y' -> ~ c_live y' -> performs d (pair x y') t st' ->
  performs d (pair x y) (Obs (KDelete KDockerContainer y) (Ok tt) :: t) st'.
Proof.
  intros Hne Hs Hd Hp. eapply performs_cons; [| exact Hp].
  replace (pair x y') with (<[ c_name y := y' ]> (pair x y)).
  - eapply performs_terminate; [done | done | | exact Hs | exact Hd].
    unfold pair. by rewrite lookup_insert_ne, lookup_insert_eq.
  - destruct Hs as (En & _). unfold pair. rewrite En. apply map_eq. intros n.
    destruct (decide (n = c_name y)) as [-> | Hy]; simplify_map_eq; [done |].
    by destruct (decide (n = c_name x)) as [-> | Hx]; simplify_map_eq.
Qed.

Lemma pair_delete_first x x' y t st' :
  c_name x <> c_name y -> same_child d x x' -> ~ c_live x' -> performs d (pair x' y) t st' ->
  performs d (pair x y) (Obs (KDelete KDockerContainer x) (Ok tt) :: t) st'.
Proof.
  intros Hne Hs Hd Hp. eapply performs_cons; [| exact Hp].
  replace (pair x' y) with (<[ c_name x := x' ]> (pair x y)).
  - eapply performs_terminate; [done | done | | exact Hs | exact Hd].
    unfold pair. by rewrite lookup_insert_eq.
  - destruct Hs as (En & _). unfold pair. rewrite En. by rewrite insert_insert_eq.
Qed.

(** A run that deletes one of two children of one second. *)
Lemma tied_run x y x' y' st st' :
  tied x y -> tied x' y' -> [x; y] ≡ₚ (map_to_list st).*2 -> [x'; y'] ≡ₚ (map_to_list st').*2 ->
  (forall t st2, performs d st' t st2 -> performs d st (Obs (KDelete KDockerContainer y) (Ok tt) :: t) st2) ->
  exists t r, runs (reconcile_deployment d) t (Val r) /\ performs d st t st'.
Proof using All.
  intros Hxy Hxy' Hst Hst' Hdel. eexists _, _. split; [exact (reconcile_tied x y x' y' Hxy Hxy') |].
  apply performs_list_calls; [exact Hst |]. apply Hdel, performs_list_calls; [exact Hst' |]. apply performs_status_calls.
Qed.

(** C38: twins are lost: take any deployment that wants one replica and has two live
    children created in the same second.  Behind an API server that does what it
    answers, and with finalizers that hold the children deleted, two successful
    reconciliations can leave no live child: the second still counts the
    terminating one, and as the order of the two is not fixed it may choose the
    other one. *)
Theorem ties_lose_every_child a b a' b' :
  is_owned d a = true -> is_owned d b = true -> c_live a -> c_live b -> c_name a <> c_name b ->
  c_created a = c_created b ->
  same_child d a a' -> ~ c_live a' -> same_child d b b' -> ~ c_live b' ->
  exists t1 r1 st1 t2 r2 st2,
    runs (reconcile_deployment d) t1 (Val r1) /\ performs d (pair a b) t1 st1 /\
    runs (reconcile_deployment d) t2 (Val r2) /\ performs d st1 t2 st2 /\
    live_names d (pair a b) = {[ c_name a; c_name b ]} /\
    live_names d st1 = {[ c_name a ]} /\ live_names d st2 = ∅.
Proof using All.
  intros Ha Hb Hla Hlb Hne Et Hsa Hda Hsb Hdb.
  pose proof Hsa as (Ena & Eta & Eoa). pose proof Hsb as (Enb & Etb & Eob).
  assert (c_name a <> c_name b') as Hne1 by congruence. assert (c_name a' <> c_name b') as Hne2 by congruence.
  destruct (tied_run a b a b' (pair a b) (pair a b')) as (t1 & r1 & Hr1 & Hp1).
  - by split_and!.
  - split_and!; congruence.
  - by apply pair_listing.
  - by apply pair_listing.
  - intros t st2. by apply pair_delete_second.
  - destruct (tied_run b' a b' a' (pair a b') (pair a' b')) as (t2 & r2 & Hr2 & Hp2).
    + split_and!; congruence.
    + split_and!; congruence.
    + apply pair_listing; [done | apply perm_swap].
    + apply pair_listing; [done | apply perm_swap].
    + intros t st2. by apply pair_delete_first.
    + exists t1, r1, (pair a b'), t2, r2, (pair a' b'). split_and!; try done.
      * apply set_eq. intros n. rewrite elem_of_live_names, elem_of_union, !elem_of_singleton. unfold pair.
        split; [| intros [-> | ->]; [exists a | exists b]; by simplify_map_eq].
        intros (c & Hc & _). rewrite !lookup_insert_Some, lookup_empty in Hc. naive_solver.
      * apply set_eq. intros n. rewrite elem_of_live_names, elem_of_singleton. unfold pair.
        split; [| intros ->; exists a; by simplify_map_eq].
        intros (c & Hc & _ & Hl). rewrite !lookup_insert_Some, lookup_empty in Hc. naive_solver.
      * apply set_eq. intros n. rewrite elem_of_live_names. unfold pair. split; [| set_solver].
        intros (c & Hc & _ & Hl). rewrite !lookup_insert_Some, lookup_empty in Hc. naive_solver.
Qed.
End ties.

(** ** Twins *)

(** A child whose deletion has been asked for, and is held by its finalizer. *)
Definition terminating (c : DockerContainer) : DockerContainer :=
  let m := dc_Meta c in
  mkDockerContainer
    (mkObjectMeta (om_Name m) (om_Namespace m) (om_UID m) (om_Labels m) (om_Annotations m)
       ["kdop.io.vn/finalizer"] (om_OwnerReferences m) (om_CreationTimestamp m) (Some 10))
    (dc_Spec c) (dc_Status c).

Definition twin_a : DockerContainer := sample_child "web-a" 5.
Definition twin_b : DockerContainer := sample_child "web-b" 5.
Definition one_replica : DockerDeployment := sample_deployment (Some 1).

Lemma ties_lose_every_child_witness :
  exists t1 r1 st1 t2 r2 st2,
    runs (reconcile_deployment one_replica) t1 (Val r1) /\ performs one_replica (pair twin_a twin_b) t1 st1 /\
    runs (reconcile_deployment one_replica) t2 (Val r2) /\ performs one_replica st1 t2 st2 /\
    live_names one_replica (pair twin_a twin_b) = {[ "web-a"; "web-b" ]} /\
    live_names one_replica st1 = {[ "web-a" ]} /\ live_names one_replica st2 = ∅.
Proof.
  by apply (ties_lose_every_child one_replica) with (a' := terminating twin_a) (b' := terminating twin_b).
Defined.

(** ** Runs of a deployment *)

(** An API server that answers the listings given, one after another, and to which
    deletions and status updates succeed. *)
Definition listing_env (listings : list (list DockerContainer)) (R : Set) (e : event R) (i : nat)
    : R * nat :=
  match e in event R return R * nat with
  | KListContainers _ _ => (Ok (nth i listings []), S i)
  | KDelete _ _ => (Ok tt, i)
  | KStatusUpdate k o => (Ok o, i)
  | e => (default_answer e, i)
  end.

Definition run_with (listings : list (list DockerContainer)) (i : nat) :=
  exec (listing_env listings) (reconcile_deployment one_replica) i.

(** The calls of such a run: the children it lists first, the one it deletes, the
    children it lists then, and the number of these it reports. *)
Definition scale_calls (before : list DockerContainer) (victim : DockerContainer)
    (after : list DockerContainer) : list (obs event) :=
  let d := set_deployment_status (mkDockerDeploymentStatus (Z.of_nat (length after)) []) one_replica in
  [Obs (KListContainers "default" None) (Ok before);
   Obs (SortSlice DockerContainer created_before before) before;
   Obs (KDelete KDockerContainer victim) (Ok tt);
   Obs (KListContainers "default" None) (Ok after);
   Obs (SortSlice DockerContainer created_before after) after;
   Obs (KStatusUpdate KDockerDeployment d) (Ok d)].

Ltac serve_tac :=
  lazymatch goal with
  | |- serves _ _ [] _ => apply serves_done
  | |- serves _ _ (Obs (KListContainers _ _) _ :: _) _ =>
      eapply serves_call; [eapply api_list; [reflexivity | vm_compute; solve_Permutation] |]
  | |- serves _ _ (Obs (KDelete _ ?c) _ :: _) _ =>
      eapply serves_call;
        [first [ eapply (api_terminate _ _ _ c c (terminating c)); [reflexivity | reflexivity | done]
               | eapply (api_delete _ _ _ c c); reflexivity ] |]
  | |- serves _ _ (_ :: _) _ => eapply serves_call; [by apply api_rest |]
  end.

(** ** One child older than the other *)

Definition old_child : DockerContainer := sample_child "web-a" 1.
Definition siblings : store := {[ "web-a" := old_child; "web-b" := twin_b ]}%stdpp.
Definition sibling_listings : list (list DockerContainer) :=
  [[old_child; twin_b]; [old_child; terminating twin_b]].

Lemma sibling_run_calls :
  (run_with sibling_listings 0).2 =
    scale_calls [old_child; twin_b] twin_b [old_child; terminating twin_b].
Proof. vm_compute. reflexivity. Qed.

Lemma sibling_run_ok :
  runs (reconcile_deployment one_replica) (run_with sibling_listings 0).2
    (Val (requeue_after deployRequeueInterval)).
Proof.
  replace (Val (requeue_after deployRequeueInterval)) with (run_with sibling_listings 0).1.1
    by (vm_compute; reflexivity).
  apply exec_runs_ok. answers_tac.
Qed.

Lemma oldest_children_survive_witness :
  exists st', serves one_replica siblings (run_with sibling_listings 0).2 st' /\
    protected one_replica 1 st' "web-a".
Proof.
  eexists. split.
  - rewrite sibling_run_calls. unfold scale_calls. repeat serve_tac.
  - apply (oldest_children_survive one_replica eq_refl ltac:(by vm_compute)
             [(run_with sibling_listings 0).2] siblings).
    + repeat constructor. eexists. apply sibling_run_ok.
    + cbn [concat]. rewrite app_nil_r, sibling_run_calls. unfold scale_calls. repeat serve_tac.
    + by apply map_Forall_insert_2; [| apply map_Forall_singleton].
    + by vm_compute.
    + exists old_child. split_and!; by vm_compute.
Defined.

Ltac perform_tac :=
  lazymatch goal with
  | |- performs _ _ [] _ => apply performs_done
  | |- performs _ _ (Obs (KListContainers _ _) _ :: _) _ =>
      eapply performs_cons; [eapply performs_list; [reflexivity | vm_compute; solve_Permutation] |]
  | |- performs _ _ (Obs (KDelete _ ?c) _ :: _) _ =>
      eapply performs_cons;
        [eapply (performs_terminate _ _ _ c c (terminating c)); [reflexivity | reflexivity | reflexivity | done | done] |]
  | |- performs _ _ (_ :: _) _ =>
      eapply performs_cons; [apply performs_rest; [reflexivity | left; by split] |]
  end.

Lemma deployment_converges_witness :
  exists st', performs one_replica siblings (run_with sibling_listings 0).2 st' /\
    size (live_names one_replica st') = 1%nat.
Proof.
  pose proof std_controller_util_laws as Hlaws. eexists. split.
  - rewrite sibling_run_calls. unfold scale_calls. repeat perform_tac.
  - destruct (deployment_converges one_replica eq_refl ltac:(by vm_compute)
      (run_with sibling_listings 0).2 (requeue_after deployRequeueInterval) siblings
      (<[ "web-b"%stdpp := terminating twin_b ]> siblings)) as [Hn _].
    + exact sibling_run_ok.
    + rewrite sibling_run_calls. unfold scale_calls. repeat perform_tac.
    + by apply map_Forall_insert_2; [| apply map_Forall_singleton].
    + by apply map_Forall_insert_2; [| apply map_Forall_singleton].
    + by vm_compute.
    + apply Nat2Z.inj. exact Hn.
Defined.
