(* ===== verification/ContainerWitnesses.v ===== *)
(** * ContainerWitnesses: the container theorems applied to concrete inputs

    Each theorem with hypotheses is applied to an evaluated run or value at
    which the hypotheses hold. *)

From S2P Require Import Prelude Effects GoText Strconv Floats ApiTypes Json World KubeLib Adopt DockerHostClient ContainerController ContainerTheorems ContainerCreate ContainerDrift Samples.

Open Scope Z_scope.

Definition marked : list string := [dockerContainerFinalizer].

(** ** Observe mode *)

Definition observed : DockerContainer :=
  sample_container DockerContainerManagementModeObserve marked None true.
Definition observed_world :=
  sample_world (scene_of observed [sample_summary "running"] (Ok (sample_inspect "nginx:1"))).

Lemma observe_never_mutates_witness :
  let t := trace_in observed_world (Reconcile sample_req) in
  length t = 9%nat /\ Forall (fun x => mutates_docker x = false) t.
Proof.
  split; [by vm_compute |].
  apply (observe_never_mutates sample_req _ (outcome_in observed_world (Reconcile sample_req))
           observed).
  - apply runs_in. answers_tac.
  - by vm_compute.
  - by vm_compute.
  - by left.
Defined.

Lemma observe_reports_witness :
  let t := trace_in observed_world (sync sample_client observed "web") in
  exists st, collect wrote_status t = [st] /\ cst_Adopted st = true.
Proof.
  destruct (observe_reports sample_client observed "web"
              (trace_in observed_world (sync sample_client observed "web")))
    as (l & st & _ & Hst & Ha & _).
  - apply runs_val; [answers_tac | by vm_compute].
  - by vm_compute.
  - exists st. by split.
Defined.

(** ** Finalizers *)

Definition unmarked : DockerContainer :=
  sample_container DockerContainerManagementModeEnforce [] None false.
Definition unmarked_world := sample_world (scene_of unmarked [] (Err docker_gone)).

Lemma finalizer_before_docker_witness :
  Forall (fun x => touches_docker x = false /\ opened_client x = None)
    (trace_in unmarked_world (Reconcile sample_req)).
Proof.
  apply (finalizer_before_docker sample_req _ (outcome_in unmarked_world (Reconcile sample_req))
           unmarked).
  - apply runs_in. answers_tac.
  - by vm_compute.
  - by vm_compute.
Defined.

Definition dying : DockerContainer :=
  sample_container DockerContainerManagementModeEnforce marked (Some 5) false.
Definition dying_world := sample_world (scene_of dying [] (Err docker_gone)).

Lemma deletion_releases_finalizer_witness :
  exists t1 r, trace_in dying_world (Reconcile sample_req) =
    t1 ++ [Obs (KUpdate KDockerContainer (with_finalizers RemoveFinalizer dying)) r] /\
    deletion_requests dying (collect removal_of t1).
Proof.
  destruct (deletion_releases_finalizer sample_req (trace_in dying_world (Reconcile sample_req))
              (outcome_in dying_world (Reconcile sample_req)) dying) as (t1 & r & E & _ & Hd).
  - apply runs_in. answers_tac.
  - by vm_compute.
  - by vm_compute.
  - by vm_compute.
  - by exists t1, r.
Defined.

(** ** Enforce mode *)

Definition enforced : DockerContainer :=
  sample_container DockerContainerManagementModeEnforce marked None false.
Definition drifted_world :=
  sample_world (scene_of enforced [sample_summary "running"] (Ok (sample_inspect "nginx:0"))).
Definition steady_world :=
  sample_world (scene_of enforced [sample_summary "running"] (Ok (sample_inspect "nginx:1"))).

Lemma create_after_clear_witness :
  name_cleared "web" (take 10 (trace_in drifted_world (Reconcile sample_req))).
Proof.
  assert (match drop 10 (trace_in drifted_world (Reconcile sample_req)) with
          | x :: _ => match asked_create x with Some _ => true | None => false end
          | [] => false
          end = true) as Hx by (by vm_compute).
  destruct (drop 10 (trace_in drifted_world (Reconcile sample_req))) as [| x t2] eqn:E; [done |].
  destruct (asked_create x) as [[[cfg hc] n] |] eqn:Ex; [| done].
  destruct (create_after_clear sample_req (trace_in drifted_world (Reconcile sample_req))
           (outcome_in drifted_world (Reconcile sample_req)) enforced
           (take 10 (trace_in drifted_world (Reconcile sample_req))) x t2 cfg hc n) as [-> Hc].
  - apply runs_in. answers_tac.
  - by vm_compute.
  - by rewrite <- E, take_drop.
  - exact Ex.
  - exact Hc.
Defined.

Lemma enforce_steady_state_witness :
  Forall (fun x => mutates_docker x = false)
    (trace_in steady_world (sync sample_client enforced "web")).
Proof.
  apply (enforce_steady_state sample_client enforced "web" _
           (outcome_in steady_world (sync sample_client enforced "web"))
           [sample_summary "running"] (sample_summary "running") (sample_inspect "nginx:1") []).
  - apply runs_in. answers_tac.
  - by vm_compute.
  - by vm_compute.
  - by vm_compute.
  - by vm_compute.
  - by vm_compute.
  - by vm_compute.
Defined.

Lemma created_no_drift_witness :
  needsRecreate (sample_inspect "nginx:1") (dc_Spec enforced) = Val false.
Proof.
  apply (created_no_drift enforced ["B=2"; "C=x"] ∅ ∅).
  - by vm_compute.
  - split.
    + done.
    + done.
    + intros e. cbn. set_solver.
    + intros h [= <-]. by vm_compute.
Defined.

(** ** Creation *)

Definition absent_world := sample_world (scene_of enforced [] (Err docker_gone)).

Lemma create_request_witness :
  request_made enforced "web" (trace_in absent_world (create sample_client enforced "web"))
    (outcome_in absent_world (create sample_client enforced "web")).
Proof. apply (create_request sample_client). apply runs_in. answers_tac. Defined.

Lemma create_inspect_failure_panics_witness :
  outcome_in absent_world (create sample_client enforced "web") = Panic.
Proof.
  apply (create_inspect_failure_panics sample_client enforced "web"
           (trace_in absent_world (create sample_client enforced "web"))).
  - apply runs_in. answers_tac.
  - by vm_compute.
Defined.

(** ** Adoption *)

Definition snapshot_program : M event runtimeContainerSnapshot :=
  runtimeSnapshotFromInspect "h1" (sample_summary "running") (sample_inspect "nginx:1").
Definition sample_snapshot : runtimeContainerSnapshot :=
  match outcome_in steady_world snapshot_program with
  | Val sn => sn
  | _ => mkSnapshot "" "" "" "" "" empty_ContainerSpec false
  end.

Lemma snapshot_runs :
  runs snapshot_program (trace_in steady_world snapshot_program) (Val sample_snapshot).
Proof. apply runs_val; [answers_tac | by vm_compute]. Qed.

Lemma adopted_no_drift_witness :
  needsRecreate (sample_inspect "nginx:1")
    (set_ManagementMode DockerContainerManagementModeEnforce (sn_Spec sample_snapshot)) = Val false.
Proof.
  apply (adopted_no_drift "h1" (sample_summary "running") sample_base
           (mkConfigInfo "nginx:1" (ci_Cmd sample_config) (ci_Env sample_config))
           (Some sample_network) (trace_in steady_world snapshot_program)).
  - exact snapshot_runs.
  - intros h [= <-]. split_and!; [done | by vm_compute | done | by vm_compute].
Defined.

(** ** Limits *)

Lemma parseMemoryString_units_witness :
  parseMemoryString (FormatInt 17179869184 +:+ "g") = 0.
Proof.
  destruct (parseMemoryString_units 17179869184) as (_ & _ & _ & ->); by vm_compute.
Defined.
