(* ===== verification/TunnelWitnesses.v ===== *)
(** * TunnelWitnesses: the theorems on the tunnel's composition, the service's
    status and the set-up, applied to concrete inputs *)

From S2P Require Import Prelude Effects GoText Strconv Url ApiTypes World KubeLib DockerHostClient ServiceController ServiceStatus TunnelServer TunnelClient Gateway TunnelConnect Cli TunnelEndToEnd Manager Samples.
From Stdlib Require Import Ascii.

Open Scope Z_scope.

(** No host in square brackets is accepted. *)
Definition no_literals : IPLiterals := fun _ => Err (new_error "invalid host").
#[local] Existing Instance no_literals.

(** ** The client *)

(** A network on which the server answers, accepts the streams of its state, and
    then closes the session. *)
Definition client_net (R : Set) (e : net_event R) (streams : list nat) : R * list nat :=
  match e in net_event R return R * list nat with
  | WSDial _ => (Ok 3%nat, streams)
  | ClientSession _ => (Ok 4%nat, streams)
  | Accept _ =>
      match streams with
      | [] => (Err (new_error "session shutdown"), [])
      | s :: rest => (Ok s, rest)
      end
  | e => (down _ e, streams)
  end.

Definition web : DockerService := sample_service [dockerServiceFinalizer] None "web".
Definition web_url : string := tunnel_server_url (server_name web) (ds_Namespace web).
Definition odd_token : string := "a/b+c d%&=~".
Definition web_connect : string := client_connect_url "node-1" web_url odd_token.
Definition web_client : Client := NewClient web_connect odd_token.
Definition web_served := exec client_net (connectAndServe 5 web_client) [7%nat; 8%nat].
Definition web_dialed : string :=
  "ws://node-1:30000/ws?target=ws%3A%2F%2Ftunnel-web.default.svc%3A8081%2Fws&token=a%2Fb%2Bc+d%25%26%3D~".

Lemma client_reaches_server_witness :
  exists listenAddr srv u presented,
    runTunnelCLI (tail (server_args web odd_token)) = RunServer listenAddr ":8081" srv /\
    Parse web_dialed = Ok u /\ url_Host u = "node-1:30000" /\
    authorized (authToken srv) presented = true.
Proof.
  destruct (client_reaches_server web "node-1" "img" odd_token 5 web_served.2 web_served.1.1 web_dialed)
    as (listenAddr & srv & u & presented & H1 & _ & H2 & _ & H3 & _ & _ & _ & H4).
  - by vm_compute.
  - by vm_compute.
  - by vm_compute.
  - by apply exec_runs.
  - vm_compute. by left.
  - by exists listenAddr, srv, u, presented.
Defined.

Lemma client_closes_what_it_opens_witness :
  collect released web_served.2 = rev (collect acquired web_served.2) /\
  collect acquired web_served.2 = [Connection 3; Session 4] /\
  collect handled web_served.2 = [7%nat; 8%nat].
Proof.
  destruct (client_closes_what_it_opens 5 web_client web_served.2 web_served.1.1) as (r & E & _ & H);
    [by apply exec_runs |].
  assert (exists e, r = Some e) as [e ->] by (vm_compute in E; injection E as <-; by eexists).
  split; [exact H | by vm_compute].
Defined.

Definition patient := exec client_net (TunnelConnect.Start 3 5 web_client) [7%nat].

Lemma client_keeps_dialing_witness :
  patient.1.1 = Val tt /\
  collect paced patient.2 = concat (replicate 3 [inl web_dialed; inr (5 * Second)]).
Proof.
  split; [| by vm_compute].
  by destruct (client_keeps_dialing 3 5 web_client patient.2 patient.1.1) as [? _]; [apply exec_runs |].
Defined.

Definition fed := exec (feed (fun _ => Ok 5%nat)) (handleStream 0) ["a"; ":"; "1"; chr 10; "x"]%char.

Lemma handleStream_ends_witness :
  fed.1.1 = Val tt /\ collect stream_closed fed.2 = [0%nat].
Proof.
  destruct (handleStream_ends 0 0 fed.2 fed.1.1) as (_ & ? & _ & t & -> & E); [by apply exec_runs |].
  by rewrite collect_app, E.
Defined.

(** ** The gateway *)

Definition inbound : Request :=
  received (mkURL "ws" "" None "node-1:30000" "/ws" "" false false
    "target=ws%3A%2F%2Ft.n.svc%3A8081%2Fws%3Fa%3D1&token=secret" "" "").

Definition inbound_target : URL := mkURL "ws" "" None "t.n.svc:8081" "/ws" "" false false "a=1" "" "".
Definition untargeted : Request := received (mkURL "http" "" None "g" "/" "" false false "x=1" "" "").

Lemma gateway_forwards_witness :
  url_Host (req_URL (Director inbound)) = "t.n.svc:8081" /\
  url_Scheme (req_URL (Director inbound)) = "http" /\
  values_Get "token" (Query (req_URL (Director inbound))) = "secret"%stdpp /\
  Director untargeted = untargeted.
Proof.
  destruct (gateway_forwards inbound) as [_ Hf].
  destruct (Hf inbound_target) as (Hh & _ & Hws & _ & _ & _ & _ & Hq & _).
  - by vm_compute.
  - left. exists inbound_target. split_and!; by vm_compute.
  - destruct Hq as [_ Ht]; [by vm_compute |]. split; [exact Hh |]. split; [by apply Hws |].
    split; [rewrite Ht; by vm_compute |].
    apply (gateway_forwards untargeted). left. by vm_compute.
Defined.

(** ** Reloads *)

Definition pods_world : forall R, event R -> option R :=
  sample_world (objects_scene []).
Definition reload_trace : list (obs event) :=
  trace_in pods_world (triggerTunnelReload "default" "tunnel-web" "10.0.0.1:80,10.0.0.2:80").

Definition pods_listed (o : obs event) : option (result (list Pod)) :=
  match o with
  | Obs e r =>
      match e in event R return R -> option (result (list Pod)) with KListPods _ _ => Some | _ => fun _ => None end r
  end.


(** ** The status of a service *)

Definition web_world : forall R, event R -> option R :=
  fun R e =>
    match e in event R return option R with
    | DContainerInspect _ _ => Some (Err docker_gone)
    | KGet KDockerContainer _ => Some (Ok (sample_child "web" 0))
    | e => sample_world (objects_scene []) _ e
    end.


(** ** The set-up *)

(** Every call of the set-up succeeds, the manager being the seventh object. *)
Definition setup_ok (R : Set) (e : setup_event R) (s : unit) : R * unit :=
  match e in setup_event R return R * unit with
  | NewWebhookServer _ => (1%nat, s)
  | NewManager _ => (Ok 7%nat, s)
  | GetConfig => (Ok tt, s)
  | Complete _ _ => (Ok tt, s)
  | AddHealthzCheck _ _ => (Ok tt, s)
  | AddReadyzCheck _ _ => (Ok tt, s)
  | StartManager _ => (Ok tt, s)
  end.
Definition set_up := exec setup_ok (run_operator operator_flags) tt.

Lemma manager_starts_complete_witness :
  collect registered set_up.2 = (fun w => (7%nat, w)) <$> controllers.
Proof.
  destruct (manager_starts_complete operator_flags set_up.2 set_up.1.1) as [Hs _]; [by apply exec_runs |].
  apply (Hs 7%nat). vm_compute. by left.
Defined.

Definition zap_kinds : gmap string flag_kind :=
  {[ "zap-devel" := BoolFlag; "kubeconfig" := StringFlag ]}%stdpp.
Definition zap_flags : gmap string string := {[ "zap-devel" := "true"; "kubeconfig" := "" ]}%stdpp.
Definition operator_args : list string :=
  ["manager"; "--leader-elect"; "-zap-devel=false"; "--health-probe-bind-address"; ":9090"].

Lemma secure_by_default_witness :
  exists values, main zap_kinds zap_flags operator_args = OperatorProcess values /\
    mo_Filter (metrics_options values) = true /\ flag_value values "health-probe-bind-address" = ":9090"%stdpp.
Proof.
  eexists. split; [vm_compute; reflexivity |]. split; [| by vm_compute].
  eapply (secure_by_default zap_kinds zap_flags operator_args); [vm_compute; reflexivity |].
  repeat constructor.
Defined.
