(* ===== verification/StoreWitnesses.v ===== *)
(** * StoreWitnesses: the theorems about a Docker host applied to its runs

    Each is applied to runs of the executable host of [HostSimulation]. *)

From S2P Require Import Prelude Effects Stores GoText Strconv Floats ApiTypes Json World DockerStore KubeLib Adopt DockerHostClient ContainerController ContainerTheorems ContainerCreate ContainerDrift ContainerStore JobController JobStore HostController AdoptionStore ServiceController ClientStore Samples HostSimulation.

Open Scope Z_scope.

(** ** A host and an object *)

Definition db_id : string := "00000000000000000000000000000000000000000000000000000000000000ab".
Definition web_id : string := "00000000000000000000000000000000000000000000000000000000000000ac".
Definition db : machine := mkMachine "db" "running" (mkConfigInfo "postgres" [] []) None.
Definition old_web : machine := mkMachine "web" "running" (mkConfigInfo "nginx:0" ["nginx"] []) None.
Definition host0 : daemon := {[ db_id := db; web_id := old_web ]}.

Lemma host0_unique : names_unique host0.
Proof.
  apply name_free_insert; [by vm_compute | |].
  - apply map_Forall_singleton. done.
  - intros i j a b [<- <-]%lookup_singleton_Some [<- <-]%lookup_singleton_Some. done.
Qed.
Lemma host0_ids : ids_valid host0.
Proof. apply map_Forall_insert_2; [by split; vm_compute |]. apply map_Forall_singleton. by split; vm_compute. Qed.

Definition web_spec : DockerContainerSpec :=
  mkDockerContainerSpec "nginx:1" "" "" "" "always" ["8080:80"] ["A=1"] [] []
    [mkSecretVolume "s" "/run/s"] None (Some (mkResourceRequirements "0.5" "64m")) [] "" "Enforce".
Definition web_object (spec : DockerContainerSpec) : DockerContainer :=
  mkDockerContainer (sample_meta [dockerContainerFinalizer] None) spec
    (mkDockerContainerStatus "" "" "" "" false "").
Definition web : DockerContainer := web_object web_spec.
Definition web_world := sample_world (scene_of web [] (Err gone)).
Definition reconcile_web : M event Result := ContainerController.Reconcile sample_req.

Lemma slash_free_bytes s : all_bytes (fun b => negb (b =? 47)) s = true -> slash_free s.
Proof. intros Hs a b ->. rewrite !all_bytes_app in Hs. simpl in Hs. by rewrite andb_false_r in Hs. Qed.

Lemma web_well_formed : well_formed web.
Proof. split; [done |]. split; [by apply slash_free_bytes | by vm_compute]. Qed.
Lemma web_enforced : enforced web.
Proof. by split. Qed.

(** ** Enforcement *)

Definition web_host : daemon := host_after web_world host0 reconcile_web.

Lemma web_run :
  runs reconcile_web (trace_on web_world host0 reconcile_web) (Val (requeue_after (60 * Second))).
Proof. apply runs_on_val; [answers_tac | by vm_compute]. Qed.
Lemma web_run_again :
  runs reconcile_web (trace_on web_world web_host reconcile_web) (outcome_on web_world web_host reconcile_web).
Proof. apply runs_on. answers_tac. Qed.

Lemma web_runs : settled_as running web_spec "web" web_host.
Proof.
  eexists (next_id {[ db_id := db ]}), _. split; [by vm_compute |]. split; [done |]. split; [done |].
  by apply (no_drift_matches _ _ None).
Qed.

Lemma container_converges_witness :
  settled_as (kept_alive host0) web_spec "web" web_host /\
  host_after web_world web_host reconcile_web = web_host /\
  Forall quiet (trace_on web_world web_host reconcile_web).
Proof.
  destruct (container_converges sample_req (trace_on web_world host0 reconcile_web)
              (requeue_after (60 * Second)) web host0 web_host) as (Hset & _ & Hnext).
  - exact web_run.
  - by vm_compute.
  - apply served_on.
  - exact host0_unique.
  - exact web_enforced.
  - exact web_well_formed.
  - split; [exact Hset |].
    destruct (Hnext sample_req (trace_on web_world web_host reconcile_web) (outcome_on web_world web_host reconcile_web) web
             (host_after web_world web_host reconcile_web)) as (Hsame & _ & Hq).
    + exact web_run_again.
    + by vm_compute.
    + apply served_on.
    + exact web_enforced.
    + done.
    + done.
    + exact (conj Hsame (Hq web_runs)).
Defined.

Lemma container_frame_witness : web_host !! db_id = Some db.
Proof.
  destruct (container_frame sample_req (trace_on web_world host0 reconcile_web)
              (Val (requeue_after (60 * Second))) web host0 web_host) as (_ & Hsame & _).
  - exact web_run.
  - by vm_compute.
  - apply served_on.
  - exact host0_unique.
  - done.
  - exact web_well_formed.
  - apply (proj1 (Hsame db_id db ltac:(done))). by vm_compute.
Defined.

(** ** Secrets: the first run cannot copy them *)

Definition refusing_world (R : Set) (e : event R) : option R :=
  match e in event R return option R with
  | DCopyToContainer _ _ _ _ => Some (Err unavailable)
  | e => web_world _ e
  end.
Definition bare_host : daemon := host_after refusing_world ∅ reconcile_web.

Lemma first_run_fails : outcome_on refusing_world ∅ reconcile_web = Fail unavailable.
Proof. by vm_compute. Qed.
Lemma bare_run :
  runs reconcile_web (trace_on web_world bare_host reconcile_web) (Val (requeue_after (60 * Second))).
Proof. apply runs_on_val; [answers_tac | by vm_compute]. Qed.

Lemma bare_unique : names_unique bare_host.
Proof.
  apply (served_keeps names_unique ∅ (trace_on refusing_world ∅ reconcile_web)).
  - intros s o s'. apply docker_step_unique.
  - apply served_on.
  - intros i j a b Hi. by rewrite lookup_empty in Hi.
Qed.

Lemma bare_web :
  exists id m, bare_host !! id = Some m /\ m_Name m = "web" /\ matches_spec (m_base m) (m_Config m) web_spec.
Proof. eexists (next_id ∅), _. split; [by vm_compute |]. split; [done |].
  by apply (no_drift_matches _ _ None).
Qed.


(** ** A job *)

Lemma start_failure_hangs_witness :
  let job := sample_job [dockerJobFinalizer] None 2 "" 0 in
  exists t e d, runs (reconcile_job sample_client job) t (Fail e) /\ never_started job d.
Proof.
  destruct (start_failure_hangs sample_client (sample_job [dockerJobFinalizer] None 2 "" 0))
    as ((t & e & d & Hr & _ & _ & Hn) & _).
  - by split.
  - done.
  - by exists t, e, d.
Defined.

(** ** Adoption *)

Definition adopt_world := sample_world (objects_scene []).
Definition reconcile_sample_host : M event Result := HostController.Reconcile sample_req.

Definition adopted_web : DockerContainer :=
  List.last (collect created_object (trace_on adopt_world host0 reconcile_sample_host)) web.

Lemma host0_ordinary : map_Forall (fun _ m => ordinary m) host0.
Proof.
  apply map_Forall_insert_2; [| apply map_Forall_singleton];
    (split_and!; [done | by apply slash_free_bytes | done]).
Qed.
Lemma adopt_run :
  runs reconcile_sample_host (trace_on adopt_world host0 reconcile_sample_host)
    (outcome_on adopt_world host0 reconcile_sample_host).
Proof. apply runs_on. answers_tac. Qed.

(** The object, switched to Enforce. *)
Definition switched_web : DockerContainer :=
  mkDockerContainer (sample_meta [dockerContainerFinalizer] None)
    (set_ManagementMode DockerContainerManagementModeEnforce (dc_Spec adopted_web))
    (mkDockerContainerStatus "" "" "" "" true "").
Definition switched_world := sample_world (scene_of switched_web [] (Err gone)).

Lemma switched_run :
  runs reconcile_web (trace_on switched_world host0 reconcile_web) (Val (requeue_after (60 * Second))).
Proof. apply runs_on_val; [answers_tac | by vm_compute]. Qed.
Definition is_running (m : machine) : Prop := m_State m = containerStateRunning.
Lemma host0_runs id m : host0 !! id = Some m -> m_State m = containerStateRunning.
Proof.
  intros Hm. change (is_running m). revert id m Hm.
  by apply (map_Forall_insert_2 (fun _ => is_running)); [| apply map_Forall_singleton].
Qed.

Lemma adoption_leaves_running_witness :
  host_after adopt_world host0 reconcile_sample_host = host0 /\
  Forall quiet (trace_on switched_world host0 reconcile_web) /\
  host_after switched_world host0 reconcile_web = host0.
Proof.
  destruct (adoption_leaves_running host0 host0_ordinary sample_req
              (trace_on adopt_world host0 reconcile_sample_host)
              (outcome_on adopt_world host0 reconcile_sample_host)
              (host_after adopt_world host0 reconcile_sample_host) adopted_web)
    as (Hd & id & m & Hm & _ & Hlater).
  - exact adopt_run.
  - apply served_on.
  - vm_compute. by repeat constructor.
  - exact host0_unique.
  - split; [exact Hd |]. apply (Hlater (host0_runs _ _ Hm) sample_req _ _ switched_web _ switched_run).
    + by vm_compute.
    + apply served_on.
    + refine (conj _ (conj _ _)); vm_compute; reflexivity.
    + reflexivity.
Defined.

(** ** The tunnel client *)

Definition web_service : DockerService := sample_service [] None "web".
Definition named_web : DockerContainer := web_object (set_ContainerName "web" web_spec).
Definition run_client : M event unit :=
  reconcileTunnelClient sample_client web_service named_web "ws://s".

Lemma client_run : runs run_client (trace_on web_world host0 run_client) (Val tt).
Proof. apply runs_on_val; [answers_tac | by vm_compute]. Qed.

Lemma tunnel_client_settles_witness :
  exists img, client_settled img web_service (host_after web_world host0 run_client).
Proof.
  destruct (tunnel_client_settles sample_client web_service named_web "ws://s"
              (trace_on web_world host0 run_client) host0 (host_after web_world host0 run_client))
    as (img & _ & Hset & _).
  - exact client_run.
  - apply served_on.
  - exact host0_unique.
  - exact host0_ids.
  - exists web_id, old_web. by apply (locate_spec host0 "web").
  - by exists img.
Defined.
