(* ===== verification/CopyWitnesses.v ===== *)
(** * CopyWitnesses: the deep copies applied to a concrete memory *)

From S2P Require Import Prelude GoMemory ApiTypes ApiMemory DeepCopy World KubeLib ServiceController DeepCopyTheorems.

Open Scope Z_scope.

(** ** metav1 *)

Definition plain_OwnerReference (x : Mem.OwnerReference) : mem Mem.OwnerReference :=
  let* controller := copy_ptr Tbool mem_ret (Mem.or_Controller x) in
  mem_ret (Mem.mkOwnerReference (Mem.or_Kind x) (Mem.or_Name x) (Mem.or_UID x) controller).
Definition plain_ObjectMeta (x : Mem.ObjectMeta) : mem Mem.ObjectMeta :=
  let* labels := copy_map (Mem.om_Labels x) in
  let* annotations := copy_map (Mem.om_Annotations x) in
  let* finalizers := copy_slice Tstring mem_ret (Mem.om_Finalizers x) in
  let* owners := copy_slice TOwnerReference plain_OwnerReference (Mem.om_OwnerReferences x) in
  let* deleted := copy_ptr TTime mem_ret (Mem.om_DeletionTimestamp x) in
  mem_ret (Mem.mkObjectMeta (Mem.om_Name x) (Mem.om_Namespace x) (Mem.om_UID x) labels annotations
    finalizers owners (Mem.om_CreationTimestamp x) deleted).
Definition plain_ListMeta (x : Mem.ListMeta) : mem Mem.ListMeta :=
  let* remaining := copy_ptr Tint64 mem_ret (Mem.lm_RemainingItemCount x) in
  mem_ret (Mem.mkListMeta (Mem.lm_SelfLink x) (Mem.lm_ResourceVersion x) (Mem.lm_Continue x) remaining).
Definition plain_Requirement (x : Mem.LabelSelectorRequirement) : mem Mem.LabelSelectorRequirement :=
  let* values := copy_slice Tstring mem_ret (Mem.lsr_Values x) in
  mem_ret (Mem.mkLabelSelectorRequirement (Mem.lsr_Key x) (Mem.lsr_Operator x) values).
Definition plain_LabelSelector (x : Mem.LabelSelector) : mem Mem.LabelSelector :=
  let* labels := copy_map (Mem.ls_MatchLabels x) in
  let* exprs := copy_slice TLabelSelectorRequirement plain_Requirement (Mem.ls_MatchExpressions x) in
  mem_ret (Mem.mkLabelSelector labels exprs).

#[export] Instance plain_metav1 : MetaV1 := {|
  metav1_ObjectMeta_DeepCopyInto := plain_ObjectMeta;
  metav1_ListMeta_DeepCopyInto := plain_ListMeta;
  metav1_LabelSelector_DeepCopyInto := plain_LabelSelector;
  metav1_Condition_DeepCopyInto := mem_ret;
  metav1_Time_DeepCopy := copy_ptr TTime mem_ret;
|}.

Lemma plain_OwnerReference_copies : copies read_OwnerReference plain_OwnerReference.
Proof. copies_fields read_OwnerReference. Qed.
#[local] Hint Resolve plain_OwnerReference_copies : copies.
Lemma plain_ObjectMeta_copies : copies read_ObjectMeta plain_ObjectMeta.
Proof. copies_fields read_ObjectMeta. Qed.
Lemma plain_ListMeta_copies : copies read_ListMeta plain_ListMeta.
Proof. copies_fields read_ListMeta. Qed.
Lemma plain_Requirement_copies : copies read_Requirement plain_Requirement.
Proof. copies_fields read_Requirement. Qed.
#[local] Hint Resolve plain_Requirement_copies : copies.
Lemma plain_LabelSelector_copies : copies read_LabelSelector plain_LabelSelector.
Proof. copies_fields read_LabelSelector. Qed.

#[export] Instance plain_metav1_laws : MetaV1Laws.
Proof.
  split; simpl.
  - exact plain_ObjectMeta_copies.
  - exact plain_ListMeta_copies.
  - exact plain_LabelSelector_copies.
  - apply copies_flat.
  - apply copies_ptr, copies_flat.
Qed.

(** ** A service in memory

    At 1 the service, at 2 its labels, at 3 its ports, at 4 its selector and at 5
    the selector's labels. *)

Definition obj (t : ty) (xs : list (elem t)) : @GoMemory.object ty api_universe := existT t xs.

Definition memory_service : Mem.DockerService :=
  Mem.mkDockerService
    (Mem.mkObjectMeta "web" "default" "uid-1" (Some 2%positive) None None None 0 None)
    (Mem.mkDockerServiceSpec "" (Some 4%positive) (Some (mkWindow 3 0 2)) "kind")
    (mkDockerServiceStatus "Pending" 0 "" "").
Definition memory : gmap positive (@GoMemory.object ty api_universe) :=
  list_to_map [
    (1%positive, obj (Api ADockerService) [memory_service]);
    (2%positive, obj TMap [{[ "app" := "web" ]}]);
    (3%positive, obj (Api AServicePort) [mkServicePort 80 8080 "http"; mkServicePort 443 8443 "https"]);
    (4%positive, obj TLabelSelector [Mem.mkLabelSelector (Some 5%positive) None]);
    (5%positive, obj TMap [{[ "app" := "web" ]}])].

Definition service_value : DockerService :=
  mkDockerService (mkObjectMeta "web" "default" "uid-1" {[ "app" := "web" ]} ∅ [] [] 0 None)
    (mkDockerServiceSpec "" (Some (mkLabelSelector {[ "app" := "web" ]} []))
       [mkServicePort 80 8080 "http"; mkServicePort 443 8443 "https"] "kind")
    (mkDockerServiceStatus "Pending" 0 "" "").

Lemma memory_reads :
  read_ptr (Api ADockerService) read_Service memory (Some 1%positive) = Some (Some service_value).
Proof. by vm_compute. Qed.

Lemma deep_copy_independent_witness :
  exists l' h', deep_copy_of ADockerService (Some 1%positive) memory = Some (Some l', h') /\
    memory !! l' = None.
Proof.
  destruct (deep_copy_independent ADockerService memory 1%positive service_value)
    as (_ & l' & h' & E & Hf & _).
  - exact memory_reads.
  - by exists l', h'.
Defined.

Lemma patch_base_is_old_witness :
  exists base h', prepare_status_patch 1 "Active" 1 "ws://s" "ready" memory = Some (base, h') /\
    read_ptr (Api ADockerService) read_Service h' base = Some (Some service_value).
Proof.
  destruct (patch_base_is_old memory 1%positive service_value "Active" 1 "ws://s" "ready")
    as (base & h' & k & E & Hb & _).
  - exact memory_reads.
  - by exists base, h'.
Defined.

(** The ports of the original are overwritten, the copy keeps its own. *)
Example ports_apart :
  match deep_copy_of ADockerService (Some 1%positive) memory with
  | Some (p, h') =>
      read_ptr (Api ADockerService) read_Service
        (<[ 3%positive := obj (Api AServicePort) [] ]> h') p
  | None => None
  end = Some (Some service_value).
Proof. by vm_compute. Qed.
