(* ===== verification/Witnesses.v ===== *)
(** * Witnesses: the theorems on jobs, deployments, hosts, services and tunnels
    applied to concrete inputs *)

From stdpp Require Import relations.
From S2P Require Import Prelude Effects Stores GoText Strconv Floats ApiTypes Json World KubeLib Adopt DockerHostClient JobController DeploymentController HostController ServiceController TunnelServer TunnelClient JobTheorems DeploymentTheorems HostTheorems ServiceTheorems TunnelTheorems Samples.
From Stdlib Require Import Ascii.

Open Scope Z_scope.

(** ** Jobs *)

Definition failed_run : ContainerJSON :=
  mkContainerJSON (Some (mkContainerJSONBase "c1" "/job-web"
    (Some (mkContainerState "exited" false 3 None)) None)) None None.
Definition running_job : DockerJob := sample_job [dockerJobFinalizer] None 2 JobPhaseRunning 1.
Definition job_world := sample_world (job_scene running_job (Ok failed_run)).

Lemma Reconcile_refines_job_step_witness :
  writes_step (dj_Spec running_job) (dj_Status running_job)
    (trace_in job_world (JobController.Reconcile sample_req)).
Proof.
  apply (Reconcile_refines_job_step sample_req _
           (outcome_in job_world (JobController.Reconcile sample_req))).
  - apply runs_in. answers_tac.
  - by vm_compute.
  - by left.
  - by vm_compute.
Defined.

(** A job as it was created, without the finalizer. *)
Definition new_job : DockerJob := sample_job [] None 2 "" 0.
Definition new_job_world := sample_world (job_scene new_job (Err docker_gone)).

Definition new_job_trace := trace_in new_job_world (JobController.Reconcile sample_req).

Lemma new_job_missing : length (collect inspect_missing new_job_trace) = 1%nat.
Proof. by vm_compute. Qed.

Lemma attempts_bounded_witness :
  0 <= jst_Attempts (started_status (dj_Status new_job) "c2" (1000 * Second)) <= 4.
Proof.
  apply (attempts_bounded (sample_job_spec 2) _ 1); [| by vm_compute | by vm_compute].
  rewrite <- new_job_missing.
  apply (history_run _ new_job 0 sample_req new_job_trace
           (outcome_in new_job_world (JobController.Reconcile sample_req))).
  - by apply history_new.
  - done.
  - apply runs_in. answers_tac.
  - by vm_compute.
  - right. vm_compute. by repeat constructor.
  - by vm_compute.
  - right. vm_compute. by left.
Defined.

Definition dying_job : DockerJob := sample_job [dockerJobFinalizer] (Some 5) 0 JobPhaseRunning 1.
Definition dying_job_world := sample_world (job_scene dying_job (Err docker_gone)).

Lemma job_deletion_waits_witness :
  collect updated_job (trace_in dying_job_world (JobController.Reconcile sample_req)) =
    [with_job_finalizers RemoveFinalizer dying_job].
Proof.
  destruct (job_deletion_waits sample_req
              (trace_in dying_job_world (JobController.Reconcile sample_req))
              (outcome_in dying_job_world (JobController.Reconcile sample_req)) dying_job)
    as [[_ [e E]] | [E _]].
  - apply runs_in. answers_tac.
  - by vm_compute.
  - by vm_compute.
  - by vm_compute.
  - by vm_compute in E.
  - exact E.
Defined.

Lemma ttl_exact_witness :
  exists now t',
    trace_in job_world (handleTTLCleanup sample_client running_job) = Obs TNow now :: t'.
Proof.
  destruct (ttl_exact sample_client running_job
              (trace_in job_world (handleTTLCleanup sample_client running_job))
              (outcome_in job_world (handleTTLCleanup sample_client running_job))
              30 (990 * Second)) as (now & t' & E & _).
  - apply runs_in. answers_tac.
  - done.
  - done.
  - done.
  - by exists now, t'.
Defined.

Lemma deadline_overflow_witness :
  exists now, trace_in job_world (past_deadline running_job) = [Obs TNow now].
Proof.
  destruct (deadline_overflow running_job 0 60 (trace_in job_world (past_deadline running_job)) true)
    as (now & E & _).
  - apply runs_val; [answers_tac | by vm_compute].
  - done.
  - done.
  - by exists now.
Defined.

(** ** Deployments *)

Definition children : list DockerContainer := [sample_child "web-b" 20; sample_child "web-a" 10].
Definition children_world := sample_world (objects_scene children).
Definition scaled (replicas : Z) : M event Result :=
  reconcile_deployment (sample_deployment (Some replicas)).

Lemma deployment_scales_witness :
  exists all owned l,
    collect listed_objects (trace_in children_world (scaled 1)) = all :: l /\
    owned_sorted (sample_deployment (Some 1)) all owned.
Proof.
  destruct (deployment_scales (sample_deployment (Some 1)) (trace_in children_world (scaled 1))
              (outcome_in children_world (scaled 1)))
    as [(_ & _ & e & E) | (all & owned & l & E & Ho & _)].
  - apply runs_in. answers_tac.
  - by vm_compute.
  - done.
  - by vm_compute in E.
  - by exists all, owned, l.
Defined.

Lemma negative_replicas_panic_witness :
  outcome_in children_world (scaled (-1)) = Panic /\
  exists owned, collect deleted_object (trace_in children_world (scaled (-1))) = reverse owned.
Proof.
  split; [by vm_compute |].
  destruct (negative_replicas_panic (sample_deployment (Some (-1)))
              (trace_in children_world (scaled (-1))) (outcome_in children_world (scaled (-1))))
    as [[e E] | (all & owned & l & Hl & [Hp _] & H)].
  - apply runs_in. answers_tac.
  - by vm_compute.
  - done.
  - by vm_compute in E.
  - exists owned. vm_compute in Hl. injection Hl as <- _. apply Permutation_length in Hp.
    assert (length owned = 2%nat) as Hlen by (rewrite Hp; by vm_compute).
    apply H; [by rewrite Hlen | by vm_compute].
Defined.

Definition new_child : DockerContainer :=
  match outcome_in children_world (constructContainer (sample_deployment None)) with
  | Val c => c
  | _ => sample_child "" 0
  end.

Lemma child_spec_of_template_witness :
  managementModeFor new_child = DockerContainerManagementModeEnforce.
Proof.
  apply (child_spec_of_template (H0 := std_controller_util_laws) (sample_deployment None) new_child);
    [| done].
  apply (constructContainer_child _
           (trace_in children_world (constructContainer (sample_deployment None)))).
  apply runs_val; [answers_tac | by vm_compute].
Defined.

(** ** Hosts *)

Definition tls_secret : Secret :=
  mkSecret (new_meta "default" "s") {[ "ca.pem" := "ca"; "cert.pem" := "c"; "key.pem" := "k" ]}.
Definition tls_world := sample_world
  (mkScene (sample_container "" [] None false) (sample_job [] None 0 "" 0) (Ok tls_secret) [] []
     (Err docker_gone)).

Lemma tls_never_dropped_witness :
  exists cfg, collect opened_client (trace_in tls_world (newClient "default" "tcp://h" "s")) =
    [[WithHost "tcp://h"; WithAPIVersionNegotiation; WithHTTPClient cfg (10 * Second)]].
Proof.
  destruct (tls_never_dropped "default" "tcp://h" "s"
              (trace_in tls_world (newClient "default" "tcp://h" "s"))
              (outcome_in tls_world (newClient "default" "tcp://h" "s")))
    as [[_ [e E]] | (sec & cfg & _ & _ & E)].
  - apply runs_in. answers_tac.
  - done.
  - by vm_compute in E.
  - by exists cfg.
Defined.

Definition snapshot_of_web : M event runtimeContainerSnapshot :=
  runtimeSnapshotFromInspect (om_Name (dh_Meta sample_host)) (sample_summary "running")
    (sample_inspect "nginx:1").
Definition web_snapshot : runtimeContainerSnapshot :=
  match outcome_in tls_world snapshot_of_web with
  | Val sn => sn
  | _ => mkSnapshot "" "" "" "" "" empty_ContainerSpec false
  end.

(** An API server that holds [items] and drops the status of what is created. *)
Definition unmarked (c : DockerContainer) : DockerContainer := set_container_status empty_ContainerStatus c.
Definition objects_env (items : list DockerContainer) (R : Set) (e : event R) : option R :=
  match e in event R return option R with
  | KListContainers _ _ => Some (Ok items)
  | KCreate k c =>
      match k return object k -> option (result (object k)) with
      | KDockerContainer => fun c => Some (Ok (unmarked c))
      | _ => fun _ => None
      end c
  | e => tls_world _ e
  end.
Definition adopt_pass : M event unit := upsertAdoptedContainer sample_host web_snapshot.
Definition built_web : DockerContainer := buildAdoptedDockerContainer "default" sample_host web_snapshot.
Definition marked_web : DockerContainer :=
  set_container_status (adopt_status (observedSpecHash (sn_Spec web_snapshot)) empty_ContainerStatus) built_web.

Lemma pass_runs items :
  answers_ok (trace_in (objects_env items) adopt_pass) -> outcome_in (objects_env items) adopt_pass = Val tt ->
  runs adopt_pass (trace_in (objects_env items) adopt_pass) (Val tt).
Proof. apply runs_val. Qed.

Lemma first_pass : served [] (trace_in (objects_env []) adopt_pass) [unmarked built_web].
Proof.
  assert (trace_in (objects_env []) adopt_pass =
    [Obs (KListContainers "default" None) (Ok []); Obs (KCreate KDockerContainer built_web) (Ok (unmarked built_web))])
    as -> by (vm_compute; reflexivity).
  apply (served_cons _ ([] : list DockerContainer)); [by split |]. eapply served_cons; [| constructor].
  left. exists (unmarked built_web). split; [by split_and! |]. split; [apply not_elem_of_nil | done].
Qed.
Lemma second_pass : served [unmarked built_web] (trace_in (objects_env [unmarked built_web]) adopt_pass) [marked_web].
Proof.
  assert (trace_in (objects_env [unmarked built_web]) adopt_pass =
    [Obs (KListContainers "default" None) (Ok [unmarked built_web]);
     Obs (KStatusUpdate KDockerContainer marked_web) (Ok marked_web)]) as -> by (vm_compute; reflexivity).
  apply (served_cons _ [unmarked built_web]); [by split |]. eapply served_cons; [| constructor].
  left. exists 0%nat, (unmarked built_web). by split_and!.
Qed.
Lemma third_pass : served [marked_web] (trace_in (objects_env [marked_web]) adopt_pass) [marked_web].
Proof.
  assert (trace_in (objects_env [marked_web]) adopt_pass =
    [Obs (KListContainers "default" None) (Ok [marked_web])]) as -> by (vm_compute; reflexivity).
  eapply served_cons; [by split | constructor].
Qed.

Lemma adopted_object_found_witness :
  exists c', [marked_web] = [c'] /\ settled sample_host web_snapshot c' /\ shouldSkipRuntimeDeletion c' = true /\
    exists r, trace_in (objects_env [marked_web]) adopt_pass = [Obs (KListContainers "default" None) r].
Proof.
  destruct (adopted_object_found sample_host (sample_summary "running") (sample_inspect "nginx:1")
           (trace_in tls_world snapshot_of_web) web_snapshot []
           (trace_in (objects_env []) adopt_pass) [unmarked built_web]) as (c & [= <-] & _ & _ & _ & _ & _ & Hnext).
  - apply runs_val; [answers_tac | by vm_compute].
  - intros c Hc. by apply not_elem_of_nil in Hc.
  - apply pass_runs; [answers_tac | by vm_compute].
  - exact first_pass.
  - destruct (Hnext (unmarked built_web) (trace_in (objects_env [unmarked built_web]) adopt_pass) [marked_web])
      as (c' & Ec & _ & _ & Hset & Hskip & _ & Hlater).
    + by split_and!.
    + apply pass_runs; [answers_tac | by vm_compute].
    + exact second_pass.
    + exists c'. split; [exact Ec |]. split; [exact Hset |]. split; [exact Hskip |].
      injection Ec as <-.
      apply (Hlater marked_web _ (Val tt) [marked_web]); [by split_and! | exact Hset | | exact third_pass].
      apply pass_runs; [answers_tac | by vm_compute].
Defined.

Lemma host_reconcile_reads_only_witness :
  Forall (fun x => mutates_docker x = false)
    (trace_in tls_world (HostController.Reconcile (mkNN "default" "h1"))).
Proof.
  apply (host_reconcile_reads_only (mkNN "default" "h1") _
           (outcome_in tls_world (HostController.Reconcile (mkNN "default" "h1")))).
  apply runs_in. answers_tac.
Defined.

(** ** Services *)

Definition web_service : DockerService := sample_service [dockerServiceFinalizer] None "web".
Definition dying_service : DockerService := sample_service [dockerServiceFinalizer] (Some 5) "web".
Definition no_secret_world := sample_world
  (mkScene (sample_child "web" 0) (sample_job [] None 0 "" 0)
     (Err (mkError "not found" true false)) [] [] (Ok (sample_inspect "kdop-operator:latest"))).

Lemma tunnel_token_kept_witness :
  String.length "30313233343536373839616263646566" = 32%nat.
Proof.
  destruct (tunnel_token_kept web_service
              (trace_in no_secret_world (ensureTunnelAuthSecret web_service))
              "30313233343536373839616263646566") as [(sec & E & _) | [Hlen _]].
  - apply runs_val; [answers_tac | by vm_compute].
  - exfalso. vm_compute in E. congruence.
  - exact Hlen.
Defined.

(** The services listed for a container: one of them takes it. *)
Definition listing_services (R : Set) (e : event R) : option R :=
  match e in event R return option R with
  | KListServices _ => Some (Ok [dying_service; web_service])
  | e => no_secret_world _ e
  end.

Definition services_listed (o : obs event) : option (result (list DockerService)) :=
  match o with
  | Obs e r =>
      match e in event R return R -> option (result (list DockerService)) with
      | KListServices _ => Some
      | _ => fun _ => None
      end r
  end.

Lemma watch_covers_targets_witness :
  exists reqs, outcome_in listing_services (findDockerServicesForContainer (sample_child "web" 0)) = Val reqs /\
    mkNN "default" "web" ∈ reqs.
Proof.
  destruct (watch_covers_targets web_service web_service
           (trace_in no_secret_world (resolveTargetContainers web_service))
           [sample_child "web" 0] (sample_child "web" 0)
           (trace_in listing_services (findDockerServicesForContainer (sample_child "web" 0)))
           (outcome_in listing_services (findDockerServicesForContainer (sample_child "web" 0))))
    as (r & Et & Hr).
  - apply runs_val; [answers_tac | by vm_compute].
  - vm_compute. by repeat constructor.
  - by left.
  - apply runs_in. answers_tac.
  - apply (f_equal (collect services_listed)) in Et. vm_compute in Et. injection Et as <-.
    destruct Hr as (reqs & -> & Hin & _). exists reqs. split; [done |].
    apply (Hin web_service); [by right; left | done | done | done].
Defined.

Lemma tunnel_client_request_witness :
  client_request web_service "ws://x"
    (trace_in no_secret_world
       (reconcileTunnelClient sample_client web_service (sample_child "web" 0) "ws://x")).
Proof.
  apply (tunnel_client_request sample_client web_service (sample_child "web" 0) "ws://x" _
    (outcome_in no_secret_world
       (reconcileTunnelClient sample_client web_service (sample_child "web" 0) "ws://x"))).
  apply runs_in. answers_tac.
Defined.

Definition current_client : M event unit :=
  ensure_tunnel_client sample_client web_service "kdop-operator:latest" "ws://new" "t" "n".

Lemma tunnel_client_drift_is_image_only_witness :
  exists r t', trace_in no_secret_world current_client =
    Obs (DContainerInspect sample_client (tunnel_client_name web_service)) r :: t'.
Proof.
  destruct (tunnel_client_drift_is_image_only sample_client web_service "kdop-operator:latest"
              "ws://new" "t" "n" (trace_in no_secret_world current_client)
              (outcome_in no_secret_world current_client)) as (r & t' & E & _).
  - apply runs_in. answers_tac.
  - by exists r, t'.
Defined.

Lemma service_deletion_completes_witness :
  exists t1 r, trace_in no_secret_world (reconcile_service dying_service) =
    t1 ++ [Obs (KUpdate KDockerService (with_service_finalizers RemoveFinalizer dying_service)) r].
Proof.
  destruct (service_deletion_completes dying_service
              (trace_in no_secret_world (reconcile_service dying_service))
              (outcome_in no_secret_world (reconcile_service dying_service))) as (t1 & r & E & _).
  - apply runs_in. answers_tac.
  - by vm_compute.
  - by vm_compute.
  - by exists t1, r.
Defined.

Definition bare_service : CoreService := mkCoreService (new_meta "default" "tunnel-web") ∅ [].
Definition bare_targets : ConfigMap := mkConfigMap (new_meta "default" "tunnel-web-targets") ∅.
Definition bare_deployment : Deployment :=
  mkDeployment (new_meta "default" "tunnel-web") None None None.
Definition the {A} (o : outcome A) (d : A) : A := match o with Val a => a | _ => d end.

Lemma server_objects_agree_witness :
  exists pod, dep_Template (the (mutate_deployment web_service 1 "img" "t" bare_deployment)
                              bare_deployment) = Some pod /\
    ("-auth-token=t"%stdpp ∈ pt_Args pod).
Proof.
  destruct (server_objects_agree (H2 := std_controller_util_laws) web_service "10.0.0.1:8080" 1
              "img" "t"
              bare_service (the (mutate_service web_service bare_service) bare_service)
              bare_targets (the (mutate_targets web_service "10.0.0.1:8080" bare_targets) bare_targets)
              bare_deployment
              (the (mutate_deployment web_service 1 "img" "t" bare_deployment) bare_deployment))
    as (pod & E & _ & _ & _ & _ & _ & Htok & _).
  - by vm_compute.
  - by vm_compute.
  - by vm_compute.
  - by exists pod.
Defined.

(** ** Tunnels *)

Definition sample_server : Server :=
  mkServer "t" [7; 9]%nat ["a:1"; "b:2"; "c:3"] [] "" zero_clock 4.

Lemma round_robin_fair_witness :
  map (option_map fst) (selections 3 sample_server).1 ≡ₚ map Some ["a:1"; "b:2"; "c:3"]%stdpp.
Proof. apply (round_robin_fair sample_server); by vm_compute. Defined.

(** A client presents the token, gets a session and is registered. *)
Definition one_session (sy : system) : Prop :=
  exists th, sy_threads sy = [th] /\ th_request th = WS "t" /\ 7%nat ∈ sessions (sy_server sy).

Lemma one_session_reachable : exists sy, reachable "t" "" ["a:1"%stdpp] sy /\ one_session sy.
Proof.
  eexists. split.
  - eapply rtc_l; [apply (step_accept _ [] (WS "t")) |].
    eapply rtc_l; [apply (step_access _ [] (WS "t") _ _ ReadToken _ [] 0) |].
    eapply rtc_l; [apply (step_call _ [] (WS "t") _ _ Upgrade _ [] (Ok 1%nat)); done |].
    eapply rtc_l; [apply (step_call _ [] (WS "t") _ _ (SetPongHandler 1) _ [] tt); done |].
    eapply rtc_l; [apply (step_call _ [] (WS "t") _ _ (GoPing 1) _ [] tt); done |].
    eapply rtc_l; [apply (step_call _ [] (WS "t") _ _ (NewSession 1) _ [] (Ok 7%nat)) |].
    + done.
    + intros n _. vm_compute. apply not_elem_of_nil.
    + eapply rtc_l; [apply (step_access _ [] (WS "t") _ _ (Register 7) _ [] 0) |].
      apply rtc_refl.
  - eexists. split; [reflexivity |]. split; [reflexivity |]. vm_compute. by left.
Qed.

Lemma sessions_authenticated_witness :
  exists sy th, one_session sy /\ th ∈ sy_threads sy /\ th_request th = WS "t" /\ 7%nat ∈ th_opened th.
Proof.
  destruct one_session_reachable as (sy & Hr & Ho). exists sy.
  destruct (sessions_authenticated "t" "" ["a:1"%stdpp] sy 7) as (th & Hth).
  - exact Hr.
  - done.
  - destruct Ho as (th & _ & _ & Hn). exact Hn.
  - by exists th.
Defined.

Lemma registered_sessions_live_witness : exists sy, one_session sy /\ NoDup (sessions (sy_server sy)).
Proof.
  destruct one_session_reachable as (sy & Hr & Ho). exists sy. split; [done |].
  apply (registered_sessions_live "t" "" ["a:1"%stdpp] sy). exact Hr.
Defined.

Lemma push_outlives_file_witness :
  targets (file_ticks [("old:1", 1010 * Second)] (push_targets "new:1" (1000 * Second) sample_server)) =
    parse_targets "new:1".
Proof.
  apply (push_outlives_file "new:1" (1000 * Second) sample_server [("old:1"%stdpp, 1010 * Second)] ""
           (2000 * Second)).
  - by vm_compute.
  - by vm_compute.
  - repeat constructor; by vm_compute.
  - by vm_compute.
Defined.

Definition dial_ok (addr : string) : result nat := Ok 5%nat.
(** The server's end: a target is selected, a stream opened, the header written. *)
Definition answer_tcp (R : Set) (e : net_event R) (s : list ascii) : R * list ascii :=
  match e in net_event R return R * list ascii with
  | OnServer x => ((run_section x 0 sample_server).1, s)
  | SessionOpen _ => (Ok 3%nat, s)
  | StreamWrite _ _ => (Ok tt, s)
  | e => feed dial_ok _ e s
  end.
Definition served_tcp := exec answer_tcp (handleTCP 1) [].

Definition read_back := exec (feed dial_ok) (handleStream 0)
  (String.list_ascii_of_string ("b:2" +:+ newline) ++ ["x"; "y"]%char).

Lemma header_roundtrip_witness :
  read_back.1.2 = ["x"; "y"]%char /\ collect dialed read_back.2 = ["b:2"%stdpp].
Proof.
  pose proof (header_roundtrip 1 "b:2" 7 served_tcp.2 served_tcp.1.1 ("b:2" +:+ newline) dial_ok 0 ["x"; "y"]%char) as Hh.
  cbv zeta in Hh. fold read_back in Hh. destruct read_back as [[r rest] t]. apply Hh.
  - by apply exec_runs.
  - vm_compute. by left.
  - vm_compute. by left.
  - vm_compute. by repeat constructor.
  - vm_compute. lia.
Defined.

Definition half (b r : nat) : nat := Nat.min b (r - r / 2).

Lemma half_ok b r :
  (half b r <= b)%nat /\ (half b r <= r)%nat /\ ((0 < b)%nat -> (0 < r)%nat -> (0 < half b r)%nat).
Proof.
  unfold half. pose proof (Nat.div_lt r 2). pose proof (Nat.Div0.div_le_mono 0 r 2). split_and!; lia.
Qed.

(** Three messages can be sent; the connection breaks in a fourth. *)
Definition three_sent (sent : list bytes) (m : bytes) : option error :=
  if (length sent <? 3)%nat then None else Some unavailable.
Definition some_writes : list bytes := [["a"; "b"; "c"]; []; ["d"; "e"; "f"; "g"; "h"]; ["i"]]%char.

Lemma stream_reassembled_witness :
  copy_out half (fun _ _ => false) unavailable 20 4
    (mkConn None ((whole <$> take 3 some_writes) ++ [mkMessage ["x"; "y"]%char (Some docker_gone)])) =
    Some (["a"; "b"; "c"; "d"; "e"; "f"; "g"; "h"; "x"; "y"]%char, docker_gone).
Proof.
  destruct (stream_reassembled half (fun _ _ => false) unavailable half_ok 4 ltac:(lia) three_sent some_writes
    8 (Some unavailable) (take 3 some_writes) (Some (["x"; "y"]%char, docker_gone)) 20)
    as (_ & (parts & _ & Hall & E) & _).
  - by vm_compute.
  - vm_compute. lia.
  - rewrite Hall in E; [exact E |]. by intros m _.
Defined.
